(* ===== verification/_CoqProject ===== *)
-Q . S2P
Prelude.v
Prog.v
Triples.v
Learning.v
K8s.v
Lib.v
Api.v
ApiMethods.v
Calls.v
Shared.v
SharedProofs.v
DBManifests.v
Webhook.v
Client.v
DBController.v
CtlNetworks.v
Json.v
CtlManifests.v
CtlController.v
NorthdManifests.v
NorthdController.v
Slices.v
Manager.v
RefLib.v
WebhookProofs.v
DBProofs.v
Mounts.v
DBManifestProofs.v
DBPhases.v
DBSafety.v
NorthdProofs.v
NorthdPhases.v
NorthdManifestProofs.v
CtlManifestProofs.v
CtlNetworksProofs.v
JsonProofs.v
CtlProofs.v
CtlPhases.v
Protocol.v
ClientProofs.v
ManagerProofs.v
ManagerWitnesses.v
Lifecycle.v
DBExposure.v
Confinement.v
Validity.v
ValidRuns.v
Selection.v
Stability.v
Watches.v
Progress.v
DBProgress.v
NorthdProgress.v
CtlProgress.v
Convergence.v
Tending.v
System.v
Endpoints.v
Budget.v
Witnesses.v
SystemWitnesses.v
WorkloadWitnesses.v
PlaneWitness.v
