(* ===== verification/Prelude.v ===== *)
(** * A verification library for the OVN operator

    The operator (Go, under src/) runs Open Virtual Network on Kubernetes.  It
    reconciles three custom resources: an [OVNDBCluster] (a RAFT cluster of
    ovsdb-servers, northbound "NB" or southbound "SB"), an [OVNNorthd] (the
    daemon that translates one database into the other) and an [OVNController]
    (ovn-controller and Open vSwitch on every node).  Each reconciler is a
    function that the controller-runtime calls whenever something changed: it
    reads the cluster, writes the objects that should be there, and records how
    far it got in the status.

    ** The parts of the program and how they interact

    - An [OVNDBCluster] publishes addresses in its status (DBAddress for the
      pods of the control plane, an external endpoint for the nodes).
    - An [OVNNorthd] looks the two clusters up, passes their addresses to
      ovn-northd, and waits until both have one.
    - An [OVNController] runs a DaemonSet for ovn-controller and one for Open
      vSwitch; once they run on every node, a job per node writes the address of
      the SB cluster into that node's configuration.
    - The admission webhooks default and validate the three resources.
    - Watches turn a change of one object into reconcile requests for the
      resources that refer to it.

    ** How it is modelled

    A reconciler is a [prog] over the calls it makes to its environment
    ([Prog]): the answers are arbitrary, unless a theorem says what it assumes of
    them.  A run is a trace of calls with their answers and an outcome, a value or
    a panic; [exec] gives the runs, [wp] what holds of all of them ([wp_exec]),
    and [run] computes the one against a given cluster.  A Go function body is
    written in the monad [M]: the resource it mutates is the state, an early
    [return] is [return_], a nil dereference, an index out of range or a write to
    a nil map is [panic], and a loop over a slice is [foldM].  The programs are
    inductive, so that every reconciliation ends ([exec_total]) and no fuel is
    needed anywhere: the loops of the source range over slices, maps and
    intervals of integers.  Go's maps are [gmap]s; where the source ranges over
    one, the enumeration order is an argument, since Go does not fix it.

    Third-party code is not defined here.  What only passes through the operator
    is an abstract type ([ApiTypes], in [K8s]); the pure functions of lib-common
    and Kubernetes are the operations of the classes [CondLib] and [Lib], and what
    some theorems need of them is a law class next to them ([CondLaws], [HashLaws],
    [FinalizerLaws], [TlsLaws], [EnvLaws], [VolumeLaws], [ManifestLaws], [FieldLaws]:
    documented behaviour of each); the requests are the constructors of [Ext] ([Calls]).  [RefLib] instantiates all
    of it with executable functions that satisfy the laws and with a small
    cluster, so that [Witnesses] can run the reconcilers.

    ** The files

    - [Prelude], [Prog], [Triples], [Learning]: automation and lists; programs and their
      runs; three program logics ([triple] for invariants, [quietly] and [guarded] for
      what must come before what, [learns] for facts that accumulate along a run).
    - [K8s], [Lib], [Api], [ApiMethods], [Calls]: the data, the environment, and the
      types of api/v1beta1 with their methods.  [CustomResource] is the interface
      through which the code common to the reconcilers sees a resource; its laws
      are [CustomResourceLaws].
    - [Shared], [SharedProofs]: ovn_common.go, and the code that the three
      reconcilers of internal/controller repeat (Reconcile with its deferred
      patch, the finalizer, reconcileDelete, RBAC, TLS inputs, the input hash).
    - [DBManifests], [DBController]: internal/ovndbcluster and
      ovndbcluster_controller.go; [NorthdManifests], [NorthdController]:
      internal/ovnnorthd and ovnnorthd_controller.go; [CtlNetworks],
      [CtlManifests], [CtlController]: internal/ovncontroller and
      ovncontroller_controller.go.  The definitions carry the names of the Go
      functions; a long function is cut into phases where its comments cut it, and
      its body is their composition.
    - [Webhook]: the webhooks of api/v1beta1 and internal/webhook, and the probe
      overrides of ovncontroller_probes.go.  [Client]: client.go, the field indexes and
      the functions the watches run.
    - The files named [..Proofs], [..Phases], [..Safety], and [Protocol],
      [Mounts]: the theorems.  [Witnesses]: the theorems applied to concrete runs.
    - [Slices], [Manager]: Go's slices in a heap; cmd/main.go, the SetupWithManager
      functions and the registration of the webhooks, as programs over the calls to
      controller-runtime, [MgrExt].  [ManagerProofs], [ManagerWitnesses], [Watches]:
      their theorems.
    - [Json], [JsonProofs]: a reader of JSON, and the configurations of networks that
      network.go prints, read back.
    - [Confinement], [Budget], [DBExposure]: what every request of a run satisfies, how
      many there are, and an SB cluster that gets no address.
    - [Validity], [ValidRuns]: what makes an object acceptable to the API server, and that
      the objects of a run are.  [Selection]: the selectors and the pods they select.
      [Stability]: the pods as a function of the specification and of what the cluster
      holds.  [WorkloadWitnesses]: their concrete runs.
    - [Lifecycle]: the life of a resource, a transition system in which users,
      reconciliations and an arbitrary API server take steps.  [Progress],
      [DBProgress], [NorthdProgress], [CtlProgress], [Convergence]: what a
      reconciliation does when its environment answers well, and runs that follow one
      another.  [Tending]: what a run leaves of a resource whatever it is answered.
      [Endpoints]: the three reconcilers composed through the addresses that one stores
      and the others read.  [System]: the control plane as a transition system, a store
      of resources on which the reconcilers take turns.  [SystemWitnesses],
      [PlaneWitness]: their concrete runs.

    ** What is shown

    - The protocol of the three reconcilers ([Protocol]): one status patch, last,
      with a Ready condition that sums up the others; the finalizer; nothing written
      for a resource that is not managed.
    - Readiness ([DBProofs], [NorthdProofs], [CtlPhases]): a ready status is one the
      cluster was seen to have in the same reconciliation.
    - Order ([DBProofs], [NorthdProofs], [CtlProofs], [NorthdPhases]): workloads are
      written only from inputs that were checked and hashed; jobs run after the
      rollout; the old Deployment goes after its replacement serves.
    - Objects ([DBManifestProofs], [NorthdManifestProofs], [CtlManifestProofs],
      [CtlNetworksProofs]): the pods mount what is there, restart when their inputs
      change, and attach to the networks of the specification.
    - The objects of whole runs ([ValidRuns], [Selection], [Stability]): well formed, with
      the config maps they mount generated before; the services, the disruption budget
      and the jobs meet the labels of the pods; the status of the resource has no part in
      the pods, so that a run that finds nothing changed restarts none.
    - Safety from panics ([DBSafety], [NorthdPhases], [CtlPhases]), with the one
      panic of the code.
    - Admission and watches ([WebhookProofs], [ClientProofs]).
    - The start of the process ([ManagerProofs]): the manager runs last, with everything
      in place; the servers' TLS options, through the aliasing of the slices.
    - Waking up ([Watches]): a change of an input of a reconciliation reaches the
      resource, and the kinds that are touched but not watched.
    - Runs in sequence ([Lifecycle], [Convergence]): nothing is orphaned whatever happens
      between the runs, unless a user strips the finalizer, and the resource becomes ready
      and stays so when its environment answers well.
    - The whole ([Endpoints], [System]): the clients of a database use addresses that
      were served; the whole control plane, of databases that are not exposed, becomes
      ready when its surroundings help, in any order of the reconcilers' turns that is
      long enough, after any past in which no topology was given up in vain.
    - Bounds ([Confinement], [Budget]): requests stay in the namespace, and their number
      is linear in what is listed and asked for.

    ** What is not modelled, and why

    - The parsing of the command line, the logger and the scheme of cmd/main.go: the
      libraries' own.  The options of controller-runtime that main leaves at their
      defaults.
    - zz_generated.deepcopy.go, groupversion_info.go: generated, and copies of values
      that are immutable here.
    - api/test/helpers, test/: tests.  templates/ and config/: shell scripts and YAML.
    - Logging, and the contents of the templates rendered into config maps, which
      lib-common reads from files.
    - Strings are lists of bytes with ASCII case and character classes; the source
      applies its own regular expressions and [ToLower] to Kubernetes names, which are
      ASCII.  Machine integers are [Z]; those the operator adds or multiplies are
      replica counts, ports and ordinals, which the CRD bounds keep far below 2^31.
    - Reconciliations that interleave request by request, and caches that lag behind the
      store.  The theorems on one run hold for any answers, and so in any interleaving;
      a turn of the system in [System] is a whole reconciliation, which reads the store
      as it is when it starts. *)
From stdpp Require Export base gmap strings list sorting pretty.

(** ** Scope of the development's own notations *)
Declare Scope go_scope.
Delimit Scope go_scope with go.

(** ** Automation *)

(** Case analysis on the scrutinee of a [match] in a hypothesis or the goal,
    closing the branches that are absurd. *)
Ltac split_match :=
  match goal with
  | H : context [match ?x with _ => _ end] |- _ => destruct x eqn:?
  | |- context [match ?x with _ => _ end] => destruct x eqn:?
  end; simplify_eq/=.

Ltac split_matches := repeat (split_match; try done).

(** [inv_ands] opens conjunctions and existentials of the context. *)
Ltac inv_ands :=
  repeat match goal with
  | H : _ ∧ _ |- _ => destruct H
  | H : ∃ _, _ |- _ => destruct H
  end; simplify_eq/=.

Create HintDb ovn.

(** ** The parts of Go's standard library the program uses *)

(** [strings.Join]. *)
Definition strings_Join (elems : list string) (sep : string) : string :=
  String.concat sep elems.

(** [strings.ToLower] on ASCII text. *)
Definition ascii_ToLower (c : Ascii.ascii) : Ascii.ascii :=
  let n := Ascii.N_of_ascii c in
  if decide (65 ≤ n ∧ n ≤ 90)%N then Ascii.ascii_of_N (n + 32) else c.

Fixpoint strings_ToLower (s : string) : string :=
  match s with
  | EmptyString => EmptyString
  | String c s' => String (ascii_ToLower c) (strings_ToLower s')
  end.

(** [%d] of [fmt.Sprintf] on a signed integer. *)
Definition fmt_d (n : Z) : string := pretty n.

(** [sort.Strings] and [slices.Sort] on strings: bytewise lexicographic order. *)
Definition sort_Strings (l : list string) : list string := merge_sort String.le l.

(** [maps.Keys]: the keys of a map.  Go fixes no iteration order; the order
    chosen here is the one of the finite map, and [sort_Strings_Permutation]
    shows that sorted uses do not depend on it. *)
Definition maps_Keys {A} (m : gmap string A) : list string := (map_to_list m).*1.

(** [slices.Contains]. *)
Definition slices_Contains (l : list string) (x : string) : bool := bool_decide (x ∈ l).

(** *** Sorting *)

Lemma sort_Strings_perm l : sort_Strings l ≡ₚ l.
Proof. apply merge_sort_Permutation. Qed.

Lemma sort_Strings_sorted l : StronglySorted String.le (sort_Strings l).
Proof. apply StronglySorted_merge_sort; apply _. Qed.

(** Sorting forgets the order in which the elements were enumerated. *)
Lemma sort_Strings_Permutation l1 l2 :
  l1 ≡ₚ l2 → sort_Strings l1 = sort_Strings l2.
Proof.
  intros Hp. apply (StronglySorted_unique String.le); try apply sort_Strings_sorted.
  by rewrite !sort_Strings_perm.
Qed.

Lemma elem_of_sort_Strings x l : x ∈ sort_Strings l ↔ x ∈ l.
Proof. by rewrite sort_Strings_perm. Qed.

Lemma elem_of_maps_Keys {A} (m : gmap string A) k : k ∈ maps_Keys m ↔ is_Some (m !! k).
Proof.
  unfold maps_Keys. rewrite list_elem_of_fmap. split.
  - intros [[k' v] [-> Hin]]. apply elem_of_map_to_list in Hin. eauto.
  - intros [v Hv]. exists (k, v). split; [done|]. by apply elem_of_map_to_list.
Qed.

Lemma NoDup_maps_Keys {A} (m : gmap string A) : NoDup (maps_Keys m).
Proof. apply NoDup_fst_map_to_list. Qed.

#[export] Hint Resolve sort_Strings_sorted NoDup_maps_Keys : ovn.

(** *** Strings *)

Lemma string_app_assoc (s1 s2 s3 : string) :
  String.app s1 (String.app s2 s3) = String.app (String.app s1 s2) s3.
Proof. induction s1 as [|c s1 IH]; [done|]. exact (f_equal (String c) IH). Qed.

Lemma string_app_nil (s : string) : String.app s "" = s.
Proof. induction s as [|c s IH]; [done|]. exact (f_equal (String c) IH). Qed.

Lemma string_app_length (s1 s2 : string) :
  String.length (String.app s1 s2) = String.length s1 + String.length s2.
Proof. induction s1 as [|c s1 IH]; [done|]. exact (f_equal S IH). Qed.

(** Different replicas have different decimal suffixes. *)
Lemma fmt_d_inj n m : fmt_d n = fmt_d m → n = m.
Proof. apply (inj pretty). Qed.

(** *** Lists *)

Lemma Forall_app_intro {A} (P : A → Prop) l1 l2 :
  Forall P l1 → Forall P l2 → Forall P (l1 ++ l2).
Proof. intros. by apply Forall_app. Qed.

#[export] Hint Resolve Forall_app_intro : ovn.
