(* ===== verification/Prog.v ===== *)
(** * Programs that call their environment

    A reconciler is Go code that talks to the Kubernetes API server and to the
    [lib-common] library through calls whose answers it does not control.  This
    file gives the language those reconcilers are written in: [prog], a free
    monad over an indexed type [E] of external calls; [exec], the runs of a
    program against an arbitrary environment, with the trace of calls and
    answers; [wp], the weakest precondition that characterises them; and [M],
    the monad of a Go function body: a mutable object, an early [return] and
    the panics of the language. *)
From S2P Require Import Prelude.

(** ** Programs, traces and runs *)
Section prog.
Context {E : Type → Type}.

Inductive prog (A : Type) : Type :=
| Ret (a : A)
| Panic
| Vis {R : Type} (e : E R) (k : R → prog A).
#[global] Arguments Ret {A} a.
#[global] Arguments Panic {A}.
#[global] Arguments Vis {A R} e k.

Fixpoint pbind {A B} (p : prog A) (f : A → prog B) : prog B :=
  match p with
  | Ret a => f a
  | Panic => Panic
  | Vis e k => Vis e (λ r, pbind (k r) f)
  end.

(** A call together with the answer the environment gave. *)
Inductive event : Type :=
| Ev {R : Type} (e : E R) (r : R).

Inductive outcome (A : Type) : Type := Done (a : A) | Panicked.
#[global] Arguments Done {A} a.
#[global] Arguments Panicked {A}.

(** [exec p tr o]: there is an environment against which [p] performs exactly
    the calls of [tr], receives its answers, and ends with [o]. *)
Fixpoint exec {A} (p : prog A) (tr : list event) (o : outcome A) : Prop :=
  match p with
  | Ret a => tr = [] ∧ o = Done a
  | Panic => tr = [] ∧ o = Panicked
  | Vis e k => ∃ r tr', tr = Ev e r :: tr' ∧ exec (k r) tr' o
  end.

(** What holds of every run. *)
Fixpoint wp {A} (p : prog A) (Q : list event → outcome A → Prop) : Prop :=
  match p with
  | Ret a => Q [] (Done a)
  | Panic => Q [] Panicked
  | Vis e k => ∀ r, wp (k r) (λ tr o, Q (Ev e r :: tr) o)
  end.

(** A run against a stateful environment, executable. *)
Fixpoint run {W A} (h : ∀ R, E R → W → R * W) (p : prog A) (w : W)
    : list event * outcome A * W :=
  match p with
  | Ret a => ([], Done a, w)
  | Panic => ([], Panicked, w)
  | Vis e k =>
      let '(r, w1) := h _ e w in
      let '(tr, o, w2) := run h (k r) w1 in
      (Ev e r :: tr, o, w2)
  end.

Lemma wp_exec {A} (p : prog A) Q :
  wp p Q ↔ ∀ tr o, exec p tr o → Q tr o.
Proof.
  revert Q. induction p as [a| |R e k IH]; intros Q; cbn.
  - split; [by intros ? ? ? [-> ->]|auto].
  - split; [by intros ? ? ? [-> ->]|auto].
  - split.
    + intros Hwp tr o (r & tr' & -> & Hex). by apply (proj1 (IH r _) (Hwp r)).
    + intros Hall r. apply IH. intros tr o Hex. apply Hall. eauto.
Qed.

Lemma wp_mono {A} (p : prog A) (Q1 Q2 : list event → outcome A → Prop) :
  (∀ tr o, Q1 tr o → Q2 tr o) → wp p Q1 → wp p Q2.
Proof. intros HQ. rewrite !wp_exec. auto. Qed.

Lemma wp_bind {A B} (p : prog A) (f : A → prog B) Q :
  wp (pbind p f) Q ↔
  wp p (λ tr o, match o with
                | Done a => wp (f a) (λ tr' o', Q (tr ++ tr') o')
                | Panicked => Q tr Panicked
                end).
Proof.
  revert Q. induction p as [a| |R e k IH]; intros Q; [done|done|].
  split; intros Hwp r.
  - exact (proj1 (IH r (λ tr o, Q (Ev e r :: tr) o)) (Hwp r)).
  - exact (proj2 (IH r (λ tr o, Q (Ev e r :: tr) o)) (Hwp r)).
Qed.

Lemma run_exec {W A} (h : ∀ R, E R → W → R * W) (p : prog A) w :
  exec p (run h p w).1.1 (run h p w).1.2.
Proof.
  revert w. induction p as [a| |R e k IH]; intros w; [done|done|].
  cbn. destruct (h R e w) as [r w1] eqn:Hh. specialize (IH r w1).
  destruct (run h (k r) w1) as [[tr o] w2]. cbn in *. eauto.
Qed.

(** Every program ends: each environment has a run. *)
Lemma exec_total {A} (p : prog A) (h : ∀ R, E R → R) :
  ∃ tr o, exec p tr o.
Proof.
  exists (run (W := unit) (λ R e _, (h R e, tt)) p tt).1.1,
         (run (W := unit) (λ R e _, (h R e, tt)) p tt).1.2.
  apply run_exec.
Qed.

(** ** Programs with the same runs *)

#[export] Instance prog_equiv {A} : Equiv (prog A) := λ p q, ∀ tr o, exec p tr o ↔ exec q tr o.

#[export] Instance prog_equivalence {A} : Equivalence (≡@{prog A}).
Proof.
  split.
  - by intros p tr o.
  - intros p q Hpq tr o. by rewrite (Hpq tr o).
  - intros p q r Hpq Hqr tr o. by rewrite (Hpq tr o), (Hqr tr o).
Qed.

Lemma prog_equiv_wp {A} (p q : prog A) : p ≡ q ↔ ∀ Q, wp p Q ↔ wp q Q.
Proof.
  split.
  - intros Hpq Q. rewrite !wp_exec. split; intros Hw tr o Hex; apply Hw, Hpq, Hex.
  - intros Hpq tr o. split; intros Hex.
    + apply (proj1 (wp_exec p (λ tr o, exec q tr o))); [|done]. apply Hpq, wp_exec. auto.
    + apply (proj1 (wp_exec q (λ tr o, exec p tr o))); [|done]. apply Hpq, wp_exec. auto.
Qed.

#[export] Instance pbind_proper {A B} :
  Proper ((≡) ==> pointwise_relation A (≡) ==> (≡)) (pbind (A := A) (B := B)).
Proof.
  intros p q Hpq f g Hfg. apply prog_equiv_wp. intros Q. rewrite !wp_bind.
  rewrite (proj1 (prog_equiv_wp p q) Hpq).
  split; apply wp_mono; intros tr [a|]; try done; apply (proj1 (prog_equiv_wp _ _) (Hfg a)).
Qed.

(** ** Trace properties *)

(** Whenever an event [ev] that satisfies [P] happens, [G tr ev] holds of the
    trace [tr] before it. *)
Definition guarded (G : list event → event → Prop) (P : event → Prop) (tr : list event)
    : Prop :=
  ∀ tr1 ev tr2, tr = tr1 ++ ev :: tr2 → P ev → G tr1 ev.

Lemma guarded_nil G P : guarded G P [].
Proof. intros [|] ? ?; discriminate. Qed.

(** A quiet prefix: the guard of the rest may use what the prefix established. *)
Lemma guarded_quiet_app (G : list event → event → Prop) P tr1 tr2 :
  Forall (λ ev, ¬ P ev) tr1 →
  guarded (λ tr ev, G (tr1 ++ tr) ev) P tr2 →
  guarded G P (tr1 ++ tr2).
Proof.
  intros Hq Hg t1 ev t2 Heq HP.
  apply app_eq_inv in Heq as [(k & -> & Hk)|(k & -> & Hk)].
  - destruct k as [|ev' k]; cbn in Hk.
    + specialize (Hg [] ev t2 (eq_sym Hk) HP). by rewrite !app_nil_r in *.
    + injection Hk as <- _. apply Forall_app in Hq as [_ Hq].
      apply Forall_cons in Hq as [Hq _]. by destruct Hq.
  - by apply (Hg k ev t2).
Qed.

Lemma guarded_quiet (G : list event → event → Prop) P tr :
  Forall (λ ev, ¬ P ev) tr → guarded G P tr.
Proof.
  intros Hq. rewrite <- (app_nil_r tr). apply guarded_quiet_app; [done|].
  apply guarded_nil.
Qed.

Lemma guarded_mono (G1 G2 : list event → event → Prop) P tr :
  (∀ t ev, P ev → G1 t ev → G2 t ev) → guarded G1 P tr → guarded G2 P tr.
Proof. intros HG Hg t1 ev t2 Heq HP. eauto. Qed.

Lemma guarded_app_quiet (G : list event → event → Prop) P tr1 tr2 :
  guarded G P tr1 → Forall (λ ev, ¬ P ev) tr2 → guarded G P (tr1 ++ tr2).
Proof.
  intros Hg Hq t1 ev t2 Heq HP.
  apply app_eq_inv in Heq as [(k & -> & Hk)|(k & -> & Hk)].
  - destruct k as [|ev' k]; cbn in Hk.
    + subst tr2. apply Forall_cons in Hq as [Hq _]. by destruct Hq.
    + injection Hk as <- Hk. by apply (Hg t1 ev k).
  - rewrite Hk in Hq. apply Forall_app in Hq as [_ Hq].
    apply Forall_cons in Hq as [Hq _]. by destruct Hq.
Qed.

(** One event at a time. *)
Lemma guarded_cons (G : list event → event → Prop) P ev tr :
  (P ev → G [] ev) → guarded (λ t, G (ev :: t)) P tr → guarded G P (ev :: tr).
Proof. intros HG Hg [|e1 t1] ev' t2 [= -> ->] HP; [auto|]. by eapply Hg. Qed.

(** Guards that more events only help. *)
Lemma guarded_app (G : list event → event → Prop) P tr1 tr2 :
  (∀ tr t ev, G t ev → G (tr ++ t) ev) →
  guarded G P tr1 → guarded G P tr2 → guarded G P (tr1 ++ tr2).
Proof.
  intros HG Hg1 Hg2 t1 ev t2 Heq HP.
  apply app_eq_inv in Heq as [(k & -> & Hk)|(k & -> & Hk)].
  - destruct k as [|ev' k]; cbn in Hk.
    + rewrite <- (app_nil_r t1). by apply HG, (Hg2 [] ev t2).
    + injection Hk as <- _. by apply (Hg1 t1 ev k).
  - by apply HG, (Hg2 k ev t2).
Qed.

(** The event itself, then quiet ones. *)
Lemma guarded_cons_quiet (G : list event → event → Prop) P ev tr :
  (P ev → G [] ev) → Forall (λ ev, ¬ P ev) tr → guarded G P (ev :: tr).
Proof.
  intros HG Hq [|e1 t1] ev' t2 [= -> ->] HP; [auto|].
  apply Forall_app in Hq as [_ Hq]. apply Forall_cons in Hq as [Hq _]. by destruct Hq.
Qed.
End prog.

Arguments prog : clear implicits.
Arguments event : clear implicits.

#[export] Hint Resolve guarded_nil guarded_quiet : ovn.

(** ** Go function bodies *)

(** How the body of a function with mutable object [S] and result type [X]
    ends at some statement: it has returned, or control goes on. *)
Inductive mres (S X A : Type) : Type :=
| Exit (s : S) (x : X)
| Cont (s : S) (a : A).
Arguments Exit {S X A} s x.
Arguments Cont {S X A} s a.

Section go.
Context {E : Type → Type}.

Definition M (S X A : Type) : Type := S → prog E (mres S X A).

Section ops.
Context {S X : Type}.

Definition ret {A} (a : A) : M S X A := λ s, Ret (Cont s a).

Definition bind {A B} (m : M S X A) (f : A → M S X B) : M S X B := λ s,
  pbind (m s) (λ r, match r with
                    | Exit s' x => Ret (Exit s' x)
                    | Cont s' a => f a s'
                    end).

(** [return x]. *)
Definition return_ {A} (x : X) : M S X A := λ s, Ret (Exit s x).
(** A run-time panic: a nil dereference, an index out of range, a write to a nil map. *)
Definition panic {A} : M S X A := λ _, Panic.
Definition get : M S X S := λ s, Ret (Cont s s).
Definition modify (f : S → S) : M S X unit := λ s, Ret (Cont (f s) tt).
(** A call to the environment. *)
Definition call {R} (e : E R) : M S X R := λ s, Vis e (λ r, Ret (Cont s r)).
(** [*p]. *)
Definition deref {A} (p : option A) : M S X A :=
  match p with Some a => ret a | None => panic end.

(** [for _, x := range l { body }] with the loop's local variables threaded. *)
Fixpoint foldM {A L} (body : L → A → M S X L) (acc : L) (l : list A) : M S X L :=
  match l with
  | [] => ret acc
  | x :: l' => bind (body acc x) (λ acc', foldM body acc' l')
  end.

Definition forM {A} (l : list A) (body : A → M S X unit) : M S X unit :=
  foldM (λ _ x, body x) tt l.
End ops.

(** A call to another function of the program on the same object. *)
Definition fn {S X Y} (m : M S X X) : M S Y X := λ s,
  pbind (m s) (λ r, match r with
                    | Exit s' x => Ret (Cont s' x)
                    | Cont s' x => Ret (Cont s' x)
                    end).
End go.

Arguments M : clear implicits.

Notation "'let!' x ':=' m 'in' k" := (bind m (λ x, k))
  (at level 10, x pattern, m at level 100, k at level 200) : go_scope.
Notation "'do!' m ';' k" := (bind m (λ _, k))
  (at level 10, m at level 100, k at level 200) : go_scope.

(** Bodies with the same runs. *)
Section M_equiv.
Context {E : Type → Type} {S X : Type}.

#[export] Instance M_equiv {A} : Equiv (M E S X A) := λ m1 m2, ∀ s, m1 s ≡ m2 s.

#[export] Instance M_equivalence {A} : Equivalence (≡@{M E S X A}).
Proof.
  split.
  - by intros m s.
  - intros m1 m2 H12 s. by rewrite (H12 s).
  - intros m1 m2 m3 H12 H23 s. by rewrite (H12 s), (H23 s).
Qed.

#[export] Instance bind_proper {A B} :
  Proper ((≡) ==> pointwise_relation A (≡) ==> (≡)) (bind (E := E) (S := S) (X := X) (A := A) (B := B)).
Proof.
  intros m1 m2 Hm f g Hfg s. unfold bind. apply pbind_proper; [apply Hm|].
  intros [s' x|s' a]; [done|apply Hfg].
Qed.

Lemma foldM_equiv {A L} (body1 body2 : L → A → M E S X L) acc l :
  (∀ acc x, body1 acc x ≡ body2 acc x) → foldM body1 acc l ≡ foldM body2 acc l.
Proof.
  intros Hb. revert acc. induction l as [|x l IH]; intros acc; [done|]. cbn.
  apply bind_proper; [apply Hb|]. intros acc'. apply IH.
Qed.
End M_equiv.

(** ** Weakest preconditions of bodies *)
Section wpM.
Context {E : Type → Type} {S X : Type}.

Definition wpM {A} (m : M E S X A) (s : S)
    (Q : list (event E) → outcome (mres S X A) → Prop) : Prop := wp (m s) Q.

Lemma wpM_bind {A B} (m : M E S X A) (f : A → M E S X B) s
    (Q : list (event E) → outcome (mres S X B) → Prop) :
  wpM (bind m f) s Q ↔
  wpM m s (λ tr o, match o with
                   | Done (Cont s' a) => wpM (f a) s' (λ tr' o', Q (tr ++ tr') o')
                   | Done (Exit s' x) => Q tr (Done (Exit s' x))
                   | Panicked => Q tr Panicked
                   end).
Proof.
  unfold wpM, bind. rewrite wp_bind.
  split; apply wp_mono; intros tr [[s' x|s' a]|]; cbn; try done; by rewrite app_nil_r.
Qed.

Lemma wpM_mono {A} (m : M E S X A) s Q1 Q2 :
  (∀ tr o, Q1 tr o → Q2 tr o) → wpM m s Q1 → wpM m s Q2.
Proof. apply wp_mono. Qed.

Lemma wpM_get {B} (f : S → M E S X B) s Q : wpM (f s) s Q → wpM (bind get f) s Q.
Proof. done. Qed.

(** The loop rule: [I done acc s tr] holds after the prefix [done]. *)
Lemma wpM_foldM {A L} (body : L → A → M E S X L)
    (I : list A → L → S → list (event E) → Prop)
    (Q : list (event E) → outcome (mres S X L) → Prop) l acc s :
  I [] acc s [] →
  (∀ dn x rest acc s tr,
    l = dn ++ x :: rest → I dn acc s tr →
    wpM (body acc x) s (λ tr' o, match o with
      | Done (Cont s' acc') => I (dn ++ [x]) acc' s' (tr ++ tr')
      | o' => Q (tr ++ tr') o'
      end)) →
  (∀ acc s tr, I l acc s tr → Q tr (Done (Cont s acc))) →
  wpM (foldM body acc l) s Q.
Proof.
  intros H0 Hstep Hend.
  enough (∀ rest dn acc s tr, l = dn ++ rest → I dn acc s tr →
    wpM (foldM body acc rest) s (λ tr' o, Q (tr ++ tr') o)) as Hgen
    by (apply (Hgen l [] acc s []); auto).
  clear acc s H0. induction rest as [|x rest IH]; intros dn acc s tr Heq HI.
  - cbn. rewrite app_nil_r in Heq |- *. subst dn. auto.
  - cbn. apply wpM_bind. eapply wpM_mono; [|by apply (Hstep dn x rest)].
    intros tr' [[s' x'|s' acc']|]; cbn; try done. intros HI'.
    eapply wpM_mono; [|apply (IH (dn ++ [x]) _ _ (tr ++ tr'))]; cbn.
    + intros tr'' o. by rewrite app_assoc.
    + by rewrite <- app_assoc.
    + done.
Qed.

Lemma wpM_fn {Y} (m : M E S X X) s (Q : list (event E) → outcome (mres S Y X) → Prop) :
  wpM m s (λ tr o, match o with
                   | Done (Cont s' x) | Done (Exit s' x) => Q tr (Done (Cont s' x))
                   | Panicked => Q tr Panicked
                   end) →
  wp (fn (Y := Y) m s) Q.
Proof.
  unfold wpM, fn. rewrite wp_bind. apply wp_mono.
  intros tr [[s' x|s' x]|]; cbn; by rewrite ?app_nil_r.
Qed.
End wpM.
