(* ===== verification/Triples.v ===== *)
(** * Reasoning about bodies

    Two ways to prove a property of every run of a Go body without following
    its control flow by hand.  [triple] states a uniform property: an invariant
    of the object and a property of every event, under an assumption on the
    environment; its rules follow the syntax, and [triples] applies them.
    [quietly] states that a body performs no event of a kind and what holds when
    control goes on; with [guarded_bind] it proves that what happens in one
    phase precedes an event of a later one. *)
From S2P Require Import Prelude Prog.

Section triple.
Context {E : Type → Type} {S : Type}.
(** What is assumed and shown of each event, whether the body may panic, and
    the invariant of the object. *)
Context (Env P : event E → Prop) (N : Prop) (I : S → Prop).

Definition triple {X A} (m : M E S X A) (R : A → Prop) : Prop :=
  ∀ s, I s → wpM m s (λ tr o, Forall Env tr → Forall P tr ∧
    match o with
    | Done (Exit s' _) => I s'
    | Done (Cont s' a) => I s' ∧ R a
    | Panicked => N
    end).

Lemma triple_exec {X A} (m : M E S X A) R s tr o :
  triple m R → I s → exec (m s) tr o → Forall Env tr →
  Forall P tr ∧
    match o with
    | Done (Exit s' _) => I s'
    | Done (Cont s' a) => I s' ∧ R a
    | Panicked => N
    end.
Proof. intros Hm HI. exact (proj1 (wp_exec _ _) (Hm s HI) tr o). Qed.

Context {X : Type}.

Lemma triple_ret {A} (a : A) (R : A → Prop) : R a → triple (X := X) (ret a) R.
Proof. by intros Ha s HI _. Qed.

Lemma triple_return {A} (x : X) (R : A → Prop) : triple (return_ x) R.
Proof. by intros s HI _. Qed.

Lemma triple_panic {A} (R : A → Prop) : N → triple (X := X) panic R.
Proof. by intros HN s HI _. Qed.

Lemma triple_get : triple (X := X) get I.
Proof. by intros s HI _. Qed.

Lemma triple_modify f (R : unit → Prop) :
  (∀ s, I s → I (f s)) → R tt → triple (X := X) (modify f) R.
Proof. intros Hf HR s HI _. cbn. auto. Qed.

Lemma triple_call {T} (e : E T) (R : T → Prop) :
  (∀ r, Env (Ev e r) → P (Ev e r) ∧ R r) → triple (X := X) (call e) R.
Proof.
  intros He s HI r [Henv _]%Forall_cons. destruct (He r Henv). auto.
Qed.

Lemma triple_deref {A} (p : option A) (R : A → Prop) :
  (∀ a, p = Some a → R a) → (p = None → N) → triple (X := X) (deref p) R.
Proof. intros Ha HN. destruct p; [by apply triple_ret, Ha|by apply triple_panic, HN]. Qed.

Lemma triple_bind {A B} (m : M E S X A) (f : A → M E S X B) R1 R2 :
  triple m R1 → (∀ a, R1 a → triple (f a) R2) → triple (bind m f) R2.
Proof.
  intros Hm Hf s HI. apply wpM_bind. eapply wpM_mono; [|by apply Hm].
  intros tr [[s' x|s' a]|] Htr; cbn in *; auto.
  apply wp_exec. intros tr' o Hex Henv. apply Forall_app in Henv as [He1 He2].
  destruct (Htr He1) as (HP & HI' & HR).
  pose proof (proj1 (wp_exec _ _) (Hf a HR s' HI') tr' o Hex He2) as [HP2 Ho].
  split; [by apply Forall_app|done].
Qed.

Lemma triple_mono {A} (m : M E S X A) (R1 R2 : A → Prop) :
  (∀ a, R1 a → R2 a) → triple m R1 → triple m R2.
Proof.
  intros HR Hm s HI. eapply wpM_mono; [|by apply Hm].
  intros tr [[|]|] Htr Henv; specialize (Htr Henv); intuition auto.
Qed.

Lemma triple_mono_env {A} (Env' : event E → Prop) (m : M E S X A) (R : A → Prop) s :
  (∀ ev, Env' ev → Env ev) → triple m R → I s →
  wpM m s (λ tr o, Forall Env' tr → Forall P tr ∧
    match o with
    | Done (Exit s' _) => I s'
    | Done (Cont s' a) => I s' ∧ R a
    | Panicked => N
    end).
Proof.
  intros HE Hm HI. eapply wpM_mono; [|by apply Hm].
  intros tr o Htr Henv. apply Htr. by eapply Forall_impl.
Qed.

Lemma triple_foldM {A L} (body : L → A → M E S X L) (R : L → Prop) acc l :
  R acc → (∀ acc x, R acc → x ∈ l → triple (body acc x) R) → triple (foldM body acc l) R.
Proof.
  revert acc. induction l as [|x l IH]; intros acc Hacc Hbody; cbn.
  - by apply triple_ret.
  - eapply triple_bind; [apply Hbody; [done|left]|].
    intros acc' Hacc'. apply IH; [done|]. intros. apply Hbody; [done|by right].
Qed.

Lemma triple_forM {A} (l : list A) (body : A → M E S X unit) :
  (∀ x, x ∈ l → triple (body x) (λ _, True)) → triple (forM l body) (λ _, True).
Proof. intros Hb. apply triple_foldM; auto. Qed.

Lemma triple_fn {Y} (m : M E S X X) (R : X → Prop) :
  (∀ x, R x) → triple m (λ _, True) → triple (X := Y) (fn m) R.
Proof.
  intros HR Hm s HI. apply wpM_fn. eapply wpM_mono; [|by apply Hm].
  intros tr [[|]|] Htr Henv; specialize (Htr Henv); intuition auto.
Qed.
End triple.

(** One rule of [triple], chosen by the body: the rule of its last construct, case
    analysis, or the unfolding of a named function. *)
Ltac triple_step :=
  lazymatch goal with
  | |- triple _ _ _ _ (bind get _) _ => eapply triple_bind; [apply triple_get|intros ? ?]
  | |- triple _ _ _ _ (bind _ _) _ => apply (triple_bind _ _ _ _ _ _ (λ _, True)); [|intros ? _]
  | |- triple _ _ _ _ (ret _) _ => apply triple_ret
  | |- triple _ _ _ _ (return_ _) _ => apply triple_return
  | |- triple _ _ _ _ panic _ => apply triple_panic
  | |- triple _ _ _ _ (modify _) _ => apply triple_modify; [intros ? ?|]
  | |- triple _ _ _ _ (call _) _ => apply triple_call; intros ? ?; split
  | |- triple _ _ _ _ (deref _) _ => apply triple_deref; [intros ? ?|intros ?]
  | |- triple _ _ _ _ (forM _ _) _ => apply triple_forM; intros ? ?
  | |- triple _ _ _ _ (foldM _ _ _) _ => apply triple_foldM; [|intros ? ? _ _]
  | |- triple _ _ _ _ (fn _) _ => apply triple_fn; [intros ?|]
  | |- triple _ _ _ _ (match ?x with _ => _ end) _ => destruct x eqn:?
  | |- triple _ _ _ _ (let _ := _ in _) _ => cbv zeta
  | |- triple _ _ _ _ ?m _ =>
      let rec head t := lazymatch t with ?f _ => head f | _ => t end in
      let h := head m in unfold h
  end.

(** Apply the rules until only facts about events and updates of the object are
    left, and give those to [leaf]; [known] tries the lemmas about callees first. *)
Tactic Notation "triples" tactic3(known) "with" tactic3(leaf) :=
  repeat first [ known | triple_step ]; try done; leaf.

(** ** Phases that keep an invariant, before the one that establishes a result *)
Section keeps.
Context {E : Type → Type} {S X : Type}.
Context (Env : event E → Prop) (I : S → Prop).

(** [m] keeps [I]; nothing is said of its events. *)
Definition keeps {Y A} (m : M E S Y A) : Prop :=
  triple Env (λ _, True) True I m (λ _, True).

(** A result [Q] that holds of what [I] rules in, and of more events. *)
Context {A : Type} (Q : list (event E) → outcome (mres S X A) → Prop).
Context (Hexit : ∀ tr s x, I s → Q tr (Done (Exit s x))).
Context (Hpanic : ∀ tr, Q tr Panicked).
Context (Happ : ∀ tr1 tr2 o, Q tr2 o → Q (tr1 ++ tr2) o).

Lemma wpM_skip {B} (m : M E S X B) (f : B → M E S X A) s :
  keeps m → I s →
  (∀ s' b, I s' → wpM (f b) s' (λ tr o, Forall Env tr → Q tr o)) →
  wpM (bind m f) s (λ tr o, Forall Env tr → Q tr o).
Proof.
  intros Hm HI Hf. apply wpM_bind. eapply wpM_mono; [|by apply Hm].
  intros tr [[s' x|s' b]|] Htr; cbn beta iota in *.
  - intros Henv. apply Hexit, Htr, Henv.
  - apply wp_exec. intros tr' o Hex Henv. apply Forall_app in Henv as [He1 He2].
    apply Happ. destruct (Htr He1) as (_ & HI' & _).
    exact (proj1 (wp_exec _ _) (Hf s' b HI') tr' o Hex He2).
  - intros _. apply Hpanic.
Qed.
End keeps.

(** ** Phases that precede an event *)
Section quietly.
Context {E : Type → Type} {S X : Type}.

Definition quietly {A} (P : event E → Prop) (m : M E S X A) (st : S)
    (Q : list (event E) → S → A → Prop) : Prop :=
  wpM m st (λ tr o, Forall (λ ev, ¬ P ev) tr ∧
    match o with Done (Cont s' a) => Q tr s' a | _ => True end).

Lemma quietly_mono {A} P (m : M E S X A) s (Q1 Q2 : list (event E) → S → A → Prop) :
  (∀ tr s' a, Q1 tr s' a → Q2 tr s' a) → quietly P m s Q1 → quietly P m s Q2.
Proof.
  intros HQ. apply wpM_mono. intros tr [[|]|] [? ?]; split; auto.
Qed.

Lemma quietly_weaken {A} (P1 P2 : event E → Prop) (m : M E S X A) s Q :
  (∀ ev, P2 ev → P1 ev) → quietly P1 m s Q → quietly P2 m s Q.
Proof.
  intros HP. apply wpM_mono. intros tr o [Hq ?]. split; [|done].
  eapply Forall_impl; [exact Hq|]. cbn. auto.
Qed.

Lemma quietly_bind {A B} P (m : M E S X A) (f : A → M E S X B) s Q1 Q2 :
  quietly P m s Q1 →
  (∀ tr s' a, Q1 tr s' a → quietly P (f a) s' (λ tr', Q2 (tr ++ tr'))) →
  quietly P (bind m f) s Q2.
Proof.
  intros Hm Hf. apply wpM_bind. eapply wpM_mono; [|exact Hm].
  intros tr [[s' x|s' a]|] [Hq HQ]; cbn; auto.
  eapply wpM_mono; [|by apply Hf]. intros tr' o [Hq' HQ']. split; auto with ovn.
Qed.

Lemma quietly_get {B} P (f : S → M E S X B) s Q :
  quietly P (f s) s Q → quietly P (bind get f) s Q.
Proof. done. Qed.

Lemma quietly_ret {A} P (a : A) s (Q : list (event E) → S → A → Prop) :
  Q [] s a → quietly P (ret a) s Q.
Proof. by split. Qed.

Lemma guarded_bind {A B} (P : event E → Prop) (G : list (event E) → event E → Prop)
    (m : M E S X A) (f : A → M E S X B) s Q :
  quietly P m s Q →
  (∀ tr s' a, Q tr s' a → wpM (f a) s' (λ tr' _, guarded (λ t ev, G (tr ++ t) ev) P tr')) →
  wpM (bind m f) s (λ tr _, guarded G P tr).
Proof.
  intros Hm Hf. apply wpM_bind. eapply wpM_mono; [|exact Hm].
  intros tr [[s' x|s' a]|] [Hq HQ]; cbn; auto with ovn.
  eapply wpM_mono; [|by apply Hf]. intros tr' ? ?. cbn. by apply guarded_quiet_app.
Qed.

Lemma guarded_get {B} (P : event E → Prop) (G : list (event E) → event E → Prop)
    (f : S → M E S X B) s :
  wpM (f s) s (λ tr _, guarded G P tr) → wpM (bind get f) s (λ tr _, guarded G P tr).
Proof. done. Qed.

(** Skip a phase that does nothing of the kind and keeps [I], for a guard that
    more events only help. *)
Lemma guarded_skip {A B} (I : S → Prop) (P : event E → Prop)
    (G : list (event E) → event E → Prop) (m : M E S X A) (f : A → M E S X B) s :
  (∀ tr t ev, G t ev → G (tr ++ t) ev) →
  triple (λ _, True) (λ ev, ¬ P ev) True I m (λ _, True) → I s →
  (∀ s' a, I s' → wpM (f a) s' (λ tr _, guarded G P tr)) →
  wpM (bind m f) s (λ tr _, guarded G P tr).
Proof.
  intros HG Hm HI Hf. apply (guarded_bind _ _ _ _ _ (λ _ s' _, I s')).
  - eapply wpM_mono; [|by apply Hm]. intros tr o Htr.
    destruct (Htr ltac:(by apply Forall_forall)) as [Hq Ho]. split; [done|].
    destruct o as [[|]|]; tauto.
  - intros tr s' a HI'. eapply wpM_mono; [|by apply Hf].
    intros tr' o. apply guarded_mono. auto.
Qed.

(** A body whose every run is quiet. *)
Lemma guarded_triple {A} (P : event E → Prop) (G : list (event E) → event E → Prop)
    (m : M E S X A) s :
  triple (λ _, True) (λ ev, ¬ P ev) True (λ _, True) m (λ _, True) →
  wpM m s (λ tr _, guarded G P tr).
Proof.
  intros Hm. eapply wpM_mono; [|by apply (Hm s)]. intros tr o Htr.
  apply guarded_quiet, Htr. by apply Forall_forall.
Qed.

(** What is shown of each event alone. *)
Lemma guarded_local {A} (I : S → Prop) (P P' : event E → Prop)
    (G : list (event E) → event E → Prop) (m : M E S X A) s R :
  triple (λ _, True) P' True I m R → I s →
  (∀ t ev, P ev → P' ev → G t ev) →
  wpM m s (λ tr _, guarded G P tr).
Proof.
  intros Hm HI HG. eapply wpM_mono; [|by apply Hm]. intros tr o Htr t1 ev t2 -> Hev.
  destruct (Htr ltac:(by apply Forall_forall)) as [Hall _].
  apply Forall_app in Hall as [_ Hall]. apply Forall_cons in Hall as [Hall _]. auto.
Qed.

(** What follows the last phase of interest is quiet. *)
Lemma guarded_last {A B} (P : event E → Prop) (G : list (event E) → event E → Prop)
    (m : M E S X A) (f : A → M E S X B) s :
  wpM m s (λ tr _, guarded G P tr) →
  (∀ a, triple (λ _, True) (λ ev, ¬ P ev) True (λ _, True) (f a) (λ _, True)) →
  wpM (bind m f) s (λ tr _, guarded G P tr).
Proof.
  intros Hm Hf. apply wpM_bind. eapply wpM_mono; [|exact Hm].
  intros tr [[s' x|s' a]|] Hg; cbn; [done| |done].
  eapply wpM_mono; [|by apply (Hf a)]. intros tr' o Htr. apply guarded_app_quiet; [done|].
  apply Htr. by apply Forall_forall.
Qed.
End quietly.

(** Follow a body of a few statements, one answer at a time. *)
Ltac wp_step :=
  lazymatch goal with
  | |- wp (fn _ _) _ => apply wpM_fn
  | |- wp (bind _ _ _) _ => apply wpM_bind; unfold wpM
  | |- wpM _ _ _ => unfold wpM
  | |- wp (pbind _ _) _ => apply wp_bind
  | |- wp (Vis _ _) _ => cbn [wp]; intros ?
  | |- wp (Ret _) _ => cbn [wp]
  | |- wp Panic _ => cbn [wp]
  | |- wp (get _) _ => cbn [wp get]
  | |- wp (ret _ _) _ => cbn [wp ret]
  | |- wp (return_ _ _) _ => cbn [wp return_]
  | |- wp (panic _) _ => cbn [wp panic]
  | |- wp (modify _ _) _ => cbn [wp modify]
  | |- wp (call _ _) _ => cbn [wp call]; intros ?
  | |- wp (deref ?p _) _ => destruct p eqn:?; cbn [wp deref ret panic]
  | |- wp (match ?x with _ => _ end _) _ => destruct x eqn:?
  | |- wp (match ?x with _ => _ end) _ => destruct x eqn:?
  end.

(** No event of a short trace is of the kind. *)
Ltac solve_quiet :=
  repeat first [apply Forall_nil_2 | apply Forall_cons_2; [cbn; tauto|] | apply Forall_app_intro];
  try assumption.

(** An event of a trace. *)
Ltac solve_in := rewrite ?elem_of_app, ?elem_of_cons; tauto.

(** The end of a run of a [quietly] goal: its trace, and what is known there. *)
Tactic Notation "quiet_end" "with" tactic3(tac) :=
  cbn; split; [solve_quiet | first [exact Logic.I | split; [done|]; tac]].
