(* ===== verification/Learning.v ===== *)
(** * Reasoning with what a run has established

    [triple] asks the same of every event.  Here what an event must satisfy may
    depend on the facts the answers before it gave: [learn] reads them off an
    event, and [learns K m R] says that from the facts [K] on, every event of [m] is
    [okay] with the facts known when it happens. *)
From S2P Require Import Prelude Prog Triples.

Section learning.
Context {E : Type → Type} {S F : Type}.
Context (learn : event E → list F) (okay : list F → event E → Prop) (I : S → Prop).

(** The facts of a trace. *)
Definition learned (tr : list (event E)) : list F := tr ≫= learn.

Definition learns {X A} (K : list F) (m : M E S X A) (R : list F → A → Prop) : Prop :=
  ∀ s, I s → wpM m s (λ tr o,
    guarded (λ t, okay (K ++ learned t)) (λ _, True) tr ∧
    match o with
    | Done (Exit s' _) => I s'
    | Done (Cont s' a) => I s' ∧ R (K ++ learned tr) a
    | Panicked => True
    end).

Context {X : Type}.

Lemma learns_ret {A} K (a : A) (R : list F → A → Prop) : R K a → learns (X := X) K (ret a) R.
Proof. intros Ha s HI. cbn. split; [apply guarded_nil|]. by rewrite app_nil_r. Qed.

Lemma learns_return {A} K (x : X) (R : list F → A → Prop) : learns K (return_ x) R.
Proof. intros s HI. split; [apply guarded_nil|done]. Qed.

Lemma learns_panic {A} K (R : list F → A → Prop) : learns (X := X) K panic R.
Proof. intros s HI. split; [apply guarded_nil|done]. Qed.

Lemma learns_get K : learns (X := X) K get (λ _, I).
Proof. intros s HI. split; [apply guarded_nil|done]. Qed.

Lemma learns_modify K f (R : list F → unit → Prop) :
  (∀ s, I s → I (f s)) → R K tt → learns (X := X) K (modify f) R.
Proof. intros Hf HR s HI. split; [apply guarded_nil|]. cbn. rewrite app_nil_r. auto. Qed.

(** What the answer teaches is known. *)
Lemma learns_call {T} K (e : E T) (R : list F → T → Prop) :
  (∀ r, okay K (Ev e r) ∧ R (K ++ learn (Ev e r)) r) → learns (X := X) K (call e) R.
Proof.
  intros He s HI r. destruct (He r) as [Hok HR]. split; [|split; [done|]].
  - apply guarded_cons_quiet; [|apply Forall_nil_2]. by rewrite app_nil_r.
  - unfold learned. cbn. by rewrite app_nil_r.
Qed.

Lemma learns_deref {A} K (p : option A) (R : list F → A → Prop) :
  (∀ a, p = Some a → R K a) → learns (X := X) K (deref p) R.
Proof. intros Ha. destruct p; [by apply learns_ret, Ha|apply learns_panic]. Qed.

Lemma learns_mono {A} K (m : M E S X A) (R1 R2 : list F → A → Prop) :
  (∀ K' a, K ⊆ K' → R1 K' a → R2 K' a) → learns K m R1 → learns K m R2.
Proof.
  intros HR Hm s HI. eapply wpM_mono; [|by apply Hm].
  intros tr [[|]|] [Hg Ho]; (split; [exact Hg|]); try done.
  destruct Ho as [? Ho]. split; [done|]. apply HR, Ho. set_solver.
Qed.

Lemma learns_bind {A B} K (m : M E S X A) (f : A → M E S X B) R1 R2 :
  learns K m R1 → (∀ K' a, K ⊆ K' → R1 K' a → learns K' (f a) R2) → learns K (bind m f) R2.
Proof.
  intros Hm Hf s HI. apply wpM_bind. eapply wpM_mono; [|by apply Hm].
  intros tr [[s' x|s' a]|] [Hg Ho]; [done| |done]. destruct Ho as [HI' HR].
  eapply wpM_mono; [|apply (Hf (K ++ learned tr) a ltac:(set_solver) HR s' HI')].
  intros tr' o [Hg' Ho]. split.
  - intros t1 ev t2 Heq _. apply app_eq_inv in Heq as [(k & -> & Hk)|(k & -> & Hk)].
    + destruct k as [|ev' k]; cbn in Hk; [|injection Hk as <- _; by apply (Hg t1 ev k)].
      specialize (Hg' [] ev t2 (eq_sym Hk) Logic.I). unfold learned in *.
      cbn in Hg'. by rewrite !app_nil_r in Hg'.
    + specialize (Hg' k ev t2 Hk Logic.I). unfold learned in *.
      by rewrite bind_app, app_assoc.
  - destruct o as [[|]|]; [done| |done]. unfold learned in *. by rewrite bind_app, app_assoc.
Qed.

Lemma learns_foldM {A L} K (body : L → A → M E S X L) (R : list F → L → Prop) acc l :
  R K acc →
  (∀ K' acc x, K ⊆ K' → R K' acc → x ∈ l → learns K' (body acc x) R) →
  learns K (foldM body acc l) R.
Proof.
  revert K acc. induction l as [|x l IH]; intros K acc Hacc Hbody; cbn.
  - by apply learns_ret.
  - eapply learns_bind; [apply Hbody; [done|done|left]|].
    intros K' acc' HK Hacc'. apply IH; [done|]. intros K'' acc'' y HK' ? ?.
    apply Hbody; [set_solver|done|by right].
Qed.

Lemma learns_forM {A} K (l : list A) (body : A → M E S X unit) :
  (∀ K' x, K ⊆ K' → x ∈ l → learns K' (body x) (λ _ _, True)) →
  learns K (forM l body) (λ _ _, True).
Proof. intros Hb. apply learns_foldM; auto. Qed.

Lemma learns_fn {Y} K (m : M E S X X) :
  learns K m (λ _ _, True) → learns (X := Y) K (fn m) (λ _ _, True).
Proof.
  intros Hm s HI. apply wpM_fn. eapply wpM_mono; [|by apply Hm].
  intros tr [[|]|] [Hg Ho]; (split; [exact Hg|]); tauto.
Qed.

(** A body whose events are okay whatever is known. *)
Lemma learns_triple {A} K (m : M E S X A) (R : A → Prop) :
  (∀ K K' ev, K ⊆ K' → okay K ev → okay K' ev) →
  triple (λ _, True) (okay K) True I m R → learns K m (λ _, R).
Proof.
  intros Hmono Hm s HI. eapply wpM_mono; [|by apply Hm].
  intros tr o Htr. pose proof (Htr ltac:(by apply Forall_forall)) as [Hall Ho].
  split; [|by destruct o as [[|]|]].
  intros t1 ev t2 -> _. apply (Hmono K); [set_solver|].
  apply Forall_app in Hall as [_ Hall]. by apply Forall_cons in Hall as [Hall _].
Qed.

(** A run from no facts. *)
Lemma learns_guarded {A} (P : event E → Prop) (m : M E S X A) R s :
  learns [] m R → I s → wpM m s (λ tr _, guarded (λ t, okay (learned t)) P tr).
Proof.
  intros Hm HI. eapply wpM_mono; [|by apply Hm]. intros tr o [Hg _] t1 ev t2 Heq _.
  by apply (Hg t1 ev t2).
Qed.
End learning.

(** One rule, chosen by the body. *)
Ltac learn_step :=
  lazymatch goal with
  | |- learns _ _ _ _ (bind get _) _ => eapply learns_bind; [apply learns_get|intros ? ? ? ?]
  | |- learns ?ln _ _ _ (bind (call ?e) _) _ =>
      apply (learns_bind _ _ _ _ _ _ (λ K' r, ln (Ev e r) ⊆ K'));
        [apply learns_call; intros ?; split; [|by apply list_subseteq_app_r]|intros ? ? ? ?]
  | |- learns _ _ _ _ (bind _ _) _ =>
      apply (learns_bind _ _ _ _ _ _ (λ _ _, True)); [|intros ? ? ? _]
  | |- learns _ _ _ _ (ret _) _ => apply learns_ret
  | |- learns _ _ _ _ (return_ _) _ => apply learns_return
  | |- learns _ _ _ _ panic _ => apply learns_panic
  | |- learns _ _ _ _ (modify _) _ => apply learns_modify; [intros ? ?|]
  | |- learns _ _ _ _ (call _) _ => apply learns_call; intros ?; split
  | |- learns _ _ _ _ (deref _) _ => apply learns_deref; intros ? ?
  | |- learns _ _ _ _ (forM _ _) _ => apply learns_forM; intros ? ? ? ?
  | |- learns _ _ _ _ (foldM _ _ _) _ => apply learns_foldM; [|intros ? ? ? ? _ _]
  | |- learns _ _ _ _ (fn _) _ => apply learns_fn
  | |- learns _ _ _ _ (match ?x with _ => _ end) _ => destruct x eqn:?
  | |- learns _ _ _ _ (let _ := _ in _) _ => cbv zeta
  | |- learns _ _ _ _ ?m _ =>
      let rec head t := lazymatch t with ?f _ => head f | _ => t end in
      let h := head m in unfold h
  end.

Tactic Notation "learning" tactic3(known) "with" tactic3(leaf) :=
  repeat first [ known | learn_step ]; try done; leaf.

(** What was known once is known still. *)
Ltac still_known :=
  first
    [ eassumption
    | match goal with
      | H : ?K ⊆ ?K' |- _ ⊆ ?K' => is_var K; transitivity K; [still_known|exact H]
      end ].
