(* ===== verification/K8s.v ===== *)
(** * Kubernetes and lib-common data

    The structs of the Kubernetes API and of [lib-common] that the operator
    builds or reads, as records with the fields the operator uses; the errors
    and results of a reconciliation; and, as the class [ApiTypes], the types
    the operator only passes along. *)
From S2P Require Import Prelude.

(** ** Errors, results *)

(** A Go [error]: its text and what [k8s_errors.IsNotFound] says of it. *)
Record error := mkError { Error : string; IsNotFound : bool }.

#[export] Instance error_eq_dec : EqDecision error.
Proof. solve_decision. Defined.

(** [errors.New] and [fmt.Errorf] without [%w]. *)
Definition errors_New (s : string) : error := mkError s false.
(** [fmt.Errorf(pre + "%w" + post, err)]: the chain keeps what it wraps. *)
Definition Errorf_w (pre : string) (err : error) (post : string) : error :=
  mkError (pre +:+ Error err +:+ post) (IsNotFound err).

(** A pair [(T, error)] of which the caller uses one component. *)
Inductive fallible (A : Type) : Type := Okay (a : A) | Fail (err : error).
Arguments Okay {A} a.
Arguments Fail {A} err.

(** Pure Go code that can return an error or panic. *)
Inductive go (A : Type) : Type := GOk (a : A) | GErr (err : error) | GPanic.
Arguments GOk {A} a.
Arguments GErr {A} err.
Arguments GPanic {A}.

(** [ctrl.Result]; durations in nanoseconds. *)
Record Result := mkResult { Requeue : bool; RequeueAfter : Z }.

#[export] Instance Result_eq_dec : EqDecision Result.
Proof. solve_decision. Defined.

Definition emptyResult : Result := mkResult false 0.
Definition time_Second : Z := 1000000000.

(** ** Conditions *)

(** [condition.Type]: the constants the operator uses. *)
Inductive CondType :=
| ReadyCondition | InputReadyCondition | ExposeServiceReadyCondition
| ServiceConfigReadyCondition | NetworkAttachmentsReadyCondition
| DeploymentReadyCondition | ServiceAccountReadyCondition | RoleReadyCondition
| RoleBindingReadyCondition | TLSInputReadyCondition | PDBReadyCondition
| TopologyReadyCondition | ExternalConfigReadyCondition
| OtherCondition (t : string).

#[export] Instance CondType_eq_dec : EqDecision CondType.
Proof. solve_decision. Defined.

Inductive CondStatus := ConditionTrue | ConditionFalse | ConditionUnknown.
Inductive CondReason := ErrorReason | RequestedReason | InitReason | OtherReason (r : string).
Inductive CondSeverity := SeverityWarning | SeverityInfo | SeverityNone | OtherSeverity (s : string).

#[export] Instance CondStatus_eq_dec : EqDecision CondStatus.
Proof. solve_decision. Defined.

(** A message: the format, by the name of its constant or its text, and its arguments. *)
Record Message := Msg { msg_Format : string; msg_Args : list string }.

(** [condition.Condition] without its [LastTransitionTime], which the operator
    never reads: it only hands the saved list to [RestoreLastTransitionTimes]. *)
Record Condition := mkCondition {
  cond_Type : CondType;
  cond_Status : CondStatus;
  cond_Reason : CondReason;
  cond_Severity : CondSeverity;
  cond_Message : Message;
}.

(** ** Metadata *)
Record OwnerReference := mkOwnerRef { owner_Kind : string; owner_Name : string }.

Record ObjectMeta := mkObjectMeta {
  om_Name : string;
  om_Namespace : string;
  om_Labels : gmap string string;
  om_Annotations : gmap string string;
  om_OwnerReferences : list OwnerReference;
  om_Finalizers : list string;
  om_DeletionTimestamp : option Z;
  om_Generation : Z;
}.

(** The metadata of an object the operator creates. *)
Definition newMeta (name namespace : string) (labels : gmap string string) : ObjectMeta :=
  mkObjectMeta name namespace labels ∅ [] [] None 0.

Record NamespacedName := mkNamespacedName { nn_Namespace : string; nn_Name : string }.

#[export] Instance NamespacedName_eq_dec : EqDecision NamespacedName.
Proof. solve_decision. Defined.

(** [topologyv1.TopoRef]. *)
Record TopoRef := mkTopoRef { tr_Name : string; tr_Namespace : string }.

(** [tls.SimpleService]. *)
Record SimpleService := mkSimpleService {
  tls_SecretName : option string;
  tls_CaBundleSecretName : string;
}.

(** [tls.Service], with the mount points the operator sets. *)
Record tlsService := mkTlsService {
  ts_SecretName : string;
  ts_CertMount : option string;
  ts_KeyMount : option string;
  ts_CaMount : option string;
}.

(** ** Pods *)

(** [env.Setter], by the constructor that made it. *)
Inductive Setter := SetValue (value : string) | DownwardAPI (field : string).

Record EnvVar := mkEnvVar { ev_Name : string; ev_Value : string; ev_FieldRef : option string }.

Inductive VolumeSource :=
| ConfigMapVolume (name : string) (defaultMode : option Z)
| EmptyDirVolume
| HostPathVolume (path : string) (type : string)
| PVCVolume (claimName : string)
| SecretVolume (secretName : string) (rest : string).

Record Volume := mkVolume { vol_Name : string; vol_Source : VolumeSource }.

Record VolumeMount := mkMount {
  vm_Name : string;
  vm_MountPath : string;
  vm_SubPath : string;
  vm_ReadOnly : bool;
}.

Inductive ProbeHandler :=
| NoHandler
| ExecAction (command : list string)
| HTTPGetAction (path : string) (port : Z) (scheme : string).

Record Probe := mkProbe {
  p_TimeoutSeconds : Z;
  p_PeriodSeconds : Z;
  p_InitialDelaySeconds : Z;
  p_FailureThreshold : Z;
  p_Handler : ProbeHandler;
}.

Record Capabilities := mkCapabilities { cap_Add : list string; cap_Drop : list string }.

Record SecurityContext := mkSecurityContext {
  sc_RunAsUser : option Z;
  sc_RunAsNonRoot : option bool;
  sc_Privileged : option bool;
  sc_AllowPrivilegeEscalation : option bool;
  sc_ReadOnlyRootFilesystem : option bool;
  sc_Capabilities : option Capabilities;
  sc_SeccompProfile : option string;
}.

(** [corev1.PodSecurityContext]: only the seccomp profile is set. *)
Record PodSecurityContext := mkPodSecurityContext { psc_SeccompProfile : option string }.

(** Types whose values the operator only passes along. *)
Class ApiTypes := {
  ResourceRequirements : Type;
  Affinity : Type;
  (** [topologyv1.Topology], the CR. *)
  Topology : Type;
  (** [resource.Quantity]. *)
  Quantity : Type;
  (** What [service.OverrideServiceSpec] holds besides its [Type]. *)
  OverrideRest : Type;
  (** A non-zero [service.EmbeddedLabelsAnnotations]. *)
  LabelsAnnotations : Type;
  (** [service.Service], the handle [service.NewService] returns. *)
  SvcHandle : Type;
}.

Section k8s.
Context {AT : ApiTypes}.

Record Container := mkContainer {
  c_Name : string;
  c_Image : string;
  c_Command : list string;
  c_Args : list string;
  c_SecurityContext : option SecurityContext;
  c_Env : list EnvVar;
  c_VolumeMounts : list VolumeMount;
  c_Resources : option ResourceRequirements;
  c_ReadinessProbe : option Probe;
  c_LivenessProbe : option Probe;
  c_StartupProbe : option Probe;
  c_PreStop : option (list string);
  c_TerminationMessagePolicy : string;
}.

Record PodSpec := mkPodSpec {
  ps_TerminationGracePeriodSeconds : option Z;
  ps_ServiceAccountName : string;
  ps_SecurityContext : option PodSecurityContext;
  ps_RestartPolicy : string;
  ps_InitContainers : list Container;
  ps_Containers : list Container;
  ps_Volumes : list Volume;
  ps_NodeSelector : option (gmap string string);
  ps_NodeName : string;
  ps_Affinity : option Affinity;
}.

Record PodTemplateSpec := mkPodTemplateSpec {
  pt_Labels : gmap string string;
  pt_Annotations : gmap string string;
  pt_Spec : PodSpec;
}.

Record PVC := mkPVC {
  pvc_Name : string;
  pvc_Namespace : string;
  pvc_Labels : gmap string string;
  pvc_AccessModes : list string;
  pvc_StorageClassName : string;
  pvc_Storage : Quantity;
}.

(** [appsv1.StatefulSet], the desired object. *)
Record StatefulSetDef := mkStatefulSet {
  sts_Name : string;
  sts_Namespace : string;
  sts_Selector : gmap string string;
  sts_ServiceName : string;
  sts_PodManagementPolicy : string;
  sts_Replicas : option Z;
  sts_Template : PodTemplateSpec;
  (** [(WhenDeleted, WhenScaled)]. *)
  sts_PVCRetention : option (string * string);
  sts_VolumeClaimTemplates : list PVC;
}.

Record DaemonSetDef := mkDaemonSet {
  ds_Name : string;
  ds_Namespace : string;
  ds_Selector : gmap string string;
  ds_Template : PodTemplateSpec;
}.

(** [batchv1.Job]. *)
Record Job := mkJob {
  job_Name : string;
  job_Namespace : string;
  job_Labels : gmap string string;
  job_TTLSecondsAfterFinished : option Z;
  job_Spec : PodSpec;
}.

(** [service.OverrideServiceSpec] and [service.OverrideSpec]. *)
Record OverrideServiceSpec := mkOverrideServiceSpec {
  os_Type : string;
  os_Rest : option OverrideRest;
}.
Record OverrideSpec := mkOverrideSpec {
  ov_EmbeddedLabelsAnnotations : option (option LabelsAnnotations);
  ov_Spec : option OverrideServiceSpec;
}.
End k8s.

(** The StatefulSet as [GetStatefulSet] gives it back. *)
Record StatefulSetObs := mkStatefulSetObs {
  sts_Generation : Z;
  sts_SpecReplicas : option Z;
  sts_ObservedGeneration : Z;
  sts_StatusReplicas : Z;
  sts_ReadyReplicas : Z;
  sts_UpdatedReplicas : Z;
}.

(** The DaemonSet as [GetDaemonSet] gives it back. *)
Record DaemonSetObs := mkDaemonSetObs {
  ds_Generation : Z;
  ds_ObservedGeneration : Z;
  ds_DesiredNumberScheduled : Z;
  ds_NumberReady : Z;
  ds_UpdatedNumberScheduled : Z;
  ds_NumberUnavailable : Z;
}.

(** An observed Pod. *)
Record Pod := mkPod {
  pod_Name : string;
  pod_Namespace : string;
  pod_Annotations : gmap string string;
  pod_Phase : string;
  pod_DeletionTimestamp : option Z;
  pod_NodeName : string;
}.

(** ** Services *)
Record ServicePort := mkServicePort { sp_Name : string; sp_Port : Z; sp_Protocol : string }.

Record ServiceSpec := mkServiceSpec {
  ss_Selector : gmap string string;
  ss_Ports : list ServicePort;
  ss_PublishNotReadyAddresses : bool;
  ss_ClusterIP : string;
  ss_Type : string;
}.

Record Service := mkService {
  svc_Name : string;
  svc_Namespace : string;
  svc_Labels : gmap string string;
  svc_Spec : ServiceSpec;
}.

(** [corev1.ServiceTypeLoadBalancer], [corev1.ProtocolTCP]. *)
Definition ServiceTypeLoadBalancer : string := "LoadBalancer".
Definition ProtocolTCP : string := "TCP".

(** ** Other objects *)

(** [netattdefv1.NetworkAttachmentDefinition]. *)
Record NAD := mkNAD {
  nad_Name : string;
  nad_Namespace : string;
  nad_Labels : gmap string string;
  nad_OwnerReferences : list OwnerReference;
  nad_Config : string;
}.

(** An entry of [nad.GetNetworkStatusFromAnnotation]. *)
Record NetworkStatus := mkNetworkStatus { ns_Name : string; ns_IPs : list string }.

(** [appsv1.Deployment], as read back. *)
Record Deployment := mkDeployment {
  dep_Name : string;
  dep_Namespace : string;
  dep_OwnerReferences : list OwnerReference;
  dep_Replicas : option Z;
}.

(** [rbacv1.PolicyRule]. *)
Record PolicyRule := mkPolicyRule {
  pr_APIGroups : list string;
  pr_ResourceNames : list string;
  pr_Resources : list string;
  pr_Verbs : list string;
}.

(** A PodDisruptionBudget. *)
Record PDB := mkPDB {
  pdb_Name : string;
  pdb_Namespace : string;
  pdb_MaxUnavailable : Z;
  pdb_Selector : gmap string string;
}.

(** [infranetworkv1.DNSHost] and [DNSData]. *)
Record DNSHost := mkDNSHost { dh_IP : string; dh_Hostnames : list string }.
Record DNSData := mkDNSData {
  dns_Name : string;
  dns_Namespace : string;
  dns_Labels : gmap string string;
  dns_Hosts : list DNSHost;
  dns_LabelSelectorValue : string;
}.

(** [util.Template]; a parameter is a string, a boolean or a number. *)
Inductive TemplateParam := PString (s : string) | PBool (b : bool) | PInt (n : Z).
Record Template := mkTemplate {
  tpl_Name : string;
  tpl_Namespace : string;
  tpl_Type : string;
  tpl_AdditionalTemplate : gmap string string;
  tpl_InstanceType : string;
  tpl_Labels : gmap string string;
  tpl_ConfigOptions : gmap string TemplateParam;
}.
Definition TemplateTypeNone : string := "TemplateTypeNone".
Definition TemplateTypeConfig : string := "TemplateTypeConfig".
Definition TemplateTypeScripts : string := "TemplateTypeScripts".

(** [probes.ProbeConf], [probes.OverrideSpec] and [probes.ProbeSet]. *)
Record ProbeConf := mkProbeConf {
  pc_Type : string;
  pc_Path : string;
  pc_Port : Z;
  pc_Scheme : option string;
  pc_Command : list string;
  pc_InitialDelaySeconds : Z;
  pc_TimeoutSeconds : Z;
  pc_PeriodSeconds : Z;
  pc_FailureThreshold : Z;
}.
Record ProbeOverrides := mkProbeOverrides {
  po_LivenessProbes : option ProbeConf;
  po_ReadinessProbes : option ProbeConf;
  po_StartupProbes : option ProbeConf;
}.
Record ProbeSet := mkProbeSet {
  pset_Liveness : option Probe;
  pset_Readiness : option Probe;
  pset_Startup : option Probe;
}.

(** [field.Error]: the path, and the text of the error. *)
Record FieldError := mkFieldError { fe_Field : string; fe_Detail : string }.

#[export] Instance FieldError_eq_dec : EqDecision FieldError.
Proof. solve_decision. Defined.
