(* ===== verification/Lib.v ===== *)
(** * What the operator calls and does not contain

    The pure functions of Kubernetes and [lib-common] the operator uses, as the
    operations of two classes: [CondLib], the condition list of a status, and
    [Lib], the rest.  Nothing is said of these functions here beyond their
    types.  What some theorems need of them is stated by the law classes:
    each law is documented behaviour of the function it is about.  The
    effectful calls are in [Calls]. *)
From S2P Require Import Prelude K8s.

(** ** lib-common/modules/common/condition *)
Class CondLib := {
  Conditions : Type;
  (** [conds == nil] and [condition.Conditions{}]. *)
  Conditions_isNil : Conditions → bool;
  Conditions_empty : Conditions;
  TrueCondition : CondType → Message → Condition;
  FalseCondition : CondType → CondReason → CondSeverity → Message → Condition;
  UnknownCondition : CondType → CondReason → Message → Condition;
  CreateList : list Condition → Conditions;
  Conditions_Get : CondType → Conditions → option Condition;
  Conditions_Set : option Condition → Conditions → Conditions;
  Conditions_Init : Conditions → Conditions → Conditions;
  Conditions_MarkTrue : CondType → Message → Conditions → Conditions;
  Conditions_MarkFalse :
    CondType → CondReason → CondSeverity → Message → Conditions → Conditions;
  Conditions_MarkUnknown : CondType → CondReason → Message → Conditions → Conditions;
  Conditions_Remove : CondType → Conditions → Conditions;
  Conditions_Mirror : CondType → Conditions → option Condition;
  Conditions_AllSubConditionIsTrue : Conditions → bool;
  Conditions_IsTrue : CondType → Conditions → bool;
  (** [RestoreLastTransitionTimes(conds, saved)]. *)
  RestoreLastTransitionTimes : Conditions → Conditions → Conditions;
}.

(** [Set] replaces or adds the condition of its type; the [Mark] functions set
    the condition the constructor of the same name builds; [Init] starts from
    the given list, and has nothing but it, the conditions there were and the
    overall one; restoring transition times changes nothing else.  A nil list and the
    empty one have no condition. *)
Class CondLaws (CL : CondLib) : Prop := {
  True_spec t m :
    cond_Type (TrueCondition t m) = t ∧ cond_Status (TrueCondition t m) = ConditionTrue;
  False_spec t r s m :
    FalseCondition t r s m = mkCondition t ConditionFalse r s m;
  Unknown_spec t r m :
    cond_Type (UnknownCondition t r m) = t ∧
    cond_Status (UnknownCondition t r m) = ConditionUnknown;
  Get_Set t c cs :
    Conditions_Get t (Conditions_Set (Some c) cs) =
    if decide (t = cond_Type c) then Some c else Conditions_Get t cs;
  Set_nil cs : Conditions_Set None cs = cs;
  MarkTrue_spec t m cs :
    Conditions_MarkTrue t m cs = Conditions_Set (Some (TrueCondition t m)) cs;
  MarkFalse_spec t r s m cs :
    Conditions_MarkFalse t r s m cs = Conditions_Set (Some (FalseCondition t r s m)) cs;
  MarkUnknown_spec t r m cs :
    Conditions_MarkUnknown t r m cs = Conditions_Set (Some (UnknownCondition t r m)) cs;
  Get_Remove t t' cs :
    Conditions_Get t (Conditions_Remove t' cs) =
    if decide (t = t') then None else Conditions_Get t cs;
  Get_CreateList l c :
    NoDup (cond_Type <$> l) → c ∈ l → Conditions_Get (cond_Type c) (CreateList l) = Some c;
  Get_Init t c cl cs :
    Conditions_Get t cl = Some c → Conditions_Get t (Conditions_Init cl cs) = Some c;
  Get_CreateList_inv l t c : Conditions_Get t (CreateList l) = Some c → c ∈ l ∧ cond_Type c = t;
  Get_Init_inv t c cl cs :
    Conditions_Get t (Conditions_Init cl cs) = Some c →
    t = ReadyCondition ∨ Conditions_Get t cl = Some c ∨ Conditions_Get t cs = Some c;
  Get_empty t : Conditions_Get t Conditions_empty = None;
  Get_isNil t c cs : Conditions_Get t cs = Some c → Conditions_isNil cs = false;
  AllSub_spec cs :
    Conditions_AllSubConditionIsTrue cs = true ↔
    ∀ t c, t ≠ ReadyCondition → Conditions_Get t cs = Some c → cond_Status c = ConditionTrue;
  Mirror_spec t cs c :
    Conditions_AllSubConditionIsTrue cs = false → Conditions_Mirror t cs = Some c →
    cond_Type c = t ∧ cond_Status c ≠ ConditionTrue;
  IsTrue_spec t cs :
    Conditions_IsTrue t cs = true ↔
    ∃ c, Conditions_Get t cs = Some c ∧ cond_Status c = ConditionTrue;
  Get_Restore t cs saved :
    Conditions_Get t (RestoreLastTransitionTimes cs saved) = Conditions_Get t cs;
}.

(** ** The other libraries *)
Class Lib {AT : ApiTypes} := {
  (* constants *)
  AppSelector : string;
  InputHashName : string;
  CABundleKey : string;
  TLSHashName : string;
  AnnotationHostnameKey : string;
  LabelHostname : string;
  ProbeHandlerExec : string;
  ProbeHandlerHTTP : string;
  ErrPodsInterfaces : error;
  ErrInvalidStatus : error;
  (* env, util, labels *)
  MergeEnvs : list EnvVar → gmap string Setter → list EnvVar;
  ObjectHash : list EnvVar → fallible string;
  SetHash : gmap string string → string → string → gmap string string * bool;
  MergeMaps : gmap string string → gmap string string → gmap string string;
  GetEnvVar : string → string → string;
  GetLabels : ObjectMeta → string → gmap string string → gmap string string;
  GetGroupLabel : string → string;
  GetLabelSelector : gmap string string → gmap string string;
  labels_String : gmap string string → string;
  (* tls *)
  tls_Enabled : SimpleService → bool;
  Ca_CreateVolume : SimpleService → Volume;
  Ca_CreateVolumeMounts : SimpleService → list VolumeMount;
  tls_CreateVolume : tlsService → string → Volume;
  tls_CreateVolumeMounts : tlsService → string → list VolumeMount;
  (* affinity, topology *)
  DistributePods : string → list string → string → Affinity;
  Topology_ApplyTo : Topology → PodTemplateSpec → PodTemplateSpec;
  Topology_Affinity : Topology → option Affinity;
  ValidateTopologyRef : option TopoRef → string → string → list FieldError;
  (* networkattachment *)
  EnsureNetworksAnnotation : list NAD → fallible (gmap string string);
  GetNetworkStatusFromAnnotation : gmap string string → fallible (list NetworkStatus);
  GetNetworkIFName : string → string;
  (* resource *)
  ParseQuantity : string → fallible Quantity;
  (* service, statefulset *)
  NewService : Service → option OverrideSpec → fallible SvcHandle;
  GetServiceType : SvcHandle → string;
  GetServiceHostname : SvcHandle → string;
  AddAnnotation : gmap string string → SvcHandle → SvcHandle;
  GetSpec : SvcHandle → option ServiceSpec;
  statefulset_IsReady : StatefulSetObs → bool;
  (* controllerutil, helper: [GetFinalizer] by the kind of the object *)
  GetFinalizer : string → string;
  AddFinalizer : list string → string → list string * bool;
  RemoveFinalizer : list string → string → list string;
  (* annotations: the value and whether it exists *)
  GetBoolFromAnnotation : gmap string string → string → fallible (bool * bool);
  (* probes, field *)
  ValidateProbeConf : string → ProbeConf → list FieldError;
  ProbeConf_Merge : ProbeConf → ProbeConf → ProbeConf;
  SetProbeConfV2 : ProbeConf → fallible Probe;
  NotSupported : string → string → FieldError;
  Invalid : string → string → FieldError;
  ToAggregate : list FieldError → option error;
  (** [apierrors.NewInvalid] by kind, name and errors. *)
  NewInvalid : string → string → list FieldError → error;
}.

(** A [SimpleService] is enabled only when it names a secret. *)
Class TlsLaws {AT : ApiTypes} (L : Lib) : Prop := {
  Enabled_SecretName s : tls_Enabled s = true → is_Some (tls_SecretName s);
}.

(** [SetHash] stores the hash and says whether the stored one was different. *)
Class HashLaws {AT : ApiTypes} (L : Lib) : Prop := {
  SetHash_spec m k h :
    (SetHash m k h).2 = negb (bool_decide (m !! k = Some h)) ∧
    ((SetHash m k h).2 = true → (SetHash m k h).1 = <[k := h]> m);
}.

(** [AddFinalizer] adds the finalizer unless it is there, and says whether it
    did; [RemoveFinalizer] removes it. *)
Class FinalizerLaws {AT : ApiTypes} (L : Lib) : Prop := {
  AddFinalizer_spec l f :
    AddFinalizer l f = if decide (f ∈ l) then (l, false) else (l ++ [f], true);
  RemoveFinalizer_spec l f :
    RemoveFinalizer l f = filter (λ g, g ≠ f) l;
}.

(** [MergeEnvs] gives each variable of the map its value, after those of the base,
    which keep theirs. *)
Class EnvLaws {AT : ApiTypes} (L : Lib) : Prop := {
  MergeEnvs_SetValue base m k v :
    k ∉ ev_Name <$> base → m !! k = Some (SetValue v) → mkEnvVar k v None ∈ MergeEnvs base m;
  MergeEnvs_value m k v e :
    e ∈ MergeEnvs [] m → ev_Name e = k → m !! k = Some (SetValue v) → e = mkEnvVar k v None;
}.

(** The volumes of the certificates are secrets, under the name their mounts use;
    a topology places the pods of a template and leaves what they run alone. *)
Class VolumeLaws {AT : ApiTypes} (L : Lib) : Prop := {
  Ca_volume s : ∃ n rest, vol_Source (Ca_CreateVolume s) = SecretVolume n rest;
  Ca_mounts s m : m ∈ Ca_CreateVolumeMounts s → vm_Name m = vol_Name (Ca_CreateVolume s);
  tls_volume s id : ∃ n rest, vol_Source (tls_CreateVolume s id) = SecretVolume n rest;
  tls_mounts s id m :
    m ∈ tls_CreateVolumeMounts s id → vm_Name m = vol_Name (tls_CreateVolume s id);
  (** The volume of a certificate is named by its id alone. *)
  tls_volume_name s s' id : vol_Name (tls_CreateVolume s id) = vol_Name (tls_CreateVolume s' id);
  ApplyTo_Containers t p :
    ps_Containers (pt_Spec (Topology_ApplyTo t p)) = ps_Containers (pt_Spec p);
  ApplyTo_InitContainers t p :
    ps_InitContainers (pt_Spec (Topology_ApplyTo t p)) = ps_InitContainers (pt_Spec p);
  ApplyTo_Volumes t p : ps_Volumes (pt_Spec (Topology_ApplyTo t p)) = ps_Volumes (pt_Spec p);
}.

(** The names of the certificate volumes and the paths of their mounts: the bundle at
    the system's places, a certificate at the places its service gives; a topology
    leaves the labels and the restart policy of a template alone. *)
Definition CABundleVolume : string := "combined-ca-bundle".
Definition CABundlePaths : list string :=
  ["/etc/pki/ca-trust/extracted/pem/tls-ca-bundle.pem"; "/etc/ssl/certs/ca-certificates.crt"].
Class ManifestLaws {AT : ApiTypes} (L : Lib) : Prop := {
  Ca_volume_named s : vol_Name (Ca_CreateVolume s) = CABundleVolume;
  tls_volume_named s id : vol_Name (tls_CreateVolume s id) = id +:+ "-tls-certs";
  Ca_mount_paths s : (vm_MountPath <$> Ca_CreateVolumeMounts s) `sublist_of` CABundlePaths;
  tls_mount_paths s id c k a :
    ts_CertMount s = Some c → ts_KeyMount s = Some k → ts_CaMount s = Some a →
    (vm_MountPath <$> tls_CreateVolumeMounts s id) `sublist_of` [c; k; a];
  ApplyTo_Labels t p : pt_Labels (Topology_ApplyTo t p) = pt_Labels p;
  ApplyTo_RestartPolicy t p :
    ps_RestartPolicy (pt_Spec (Topology_ApplyTo t p)) = ps_RestartPolicy (pt_Spec p);
  (** The label of a component's pods. *)
  AppSelector_service : AppSelector = "service";
}.

(** No error, no aggregate; and whether a probe is valid does not depend on the
    path it is reported under. *)
Class FieldLaws {AT : ApiTypes} (L : Lib) : Prop := {
  ToAggregate_None l : ToAggregate l = None ↔ l = [];
  ValidateProbeConf_path p q c : ValidateProbeConf p c = [] ↔ ValidateProbeConf q c = [];
}.

(** ** Conditions *)
Section conditions.
Context {CL : CondLib} {CLaws : CondLaws CL}.

(** The status of a condition, [None] when it is not in the list. *)
Definition status_of (t : CondType) (cs : Conditions) : option CondStatus :=
  cond_Status <$> Conditions_Get t cs.

Lemma status_Set t c cs :
  status_of t (Conditions_Set (Some c) cs) =
  if decide (t = cond_Type c) then Some (cond_Status c) else status_of t cs.
Proof. unfold status_of. rewrite Get_Set. by case_decide. Qed.

Lemma status_False t t' r s m cs :
  status_of t (Conditions_Set (Some (FalseCondition t' r s m)) cs) =
  if decide (t = t') then Some ConditionFalse else status_of t cs.
Proof. rewrite status_Set, False_spec. done. Qed.

Lemma status_MarkTrue t t' m cs :
  status_of t (Conditions_MarkTrue t' m cs) =
  if decide (t = t') then Some ConditionTrue else status_of t cs.
Proof.
  rewrite MarkTrue_spec, status_Set. destruct (True_spec t' m) as [-> ->]. done.
Qed.

Lemma status_MarkFalse t t' r s m cs :
  status_of t (Conditions_MarkFalse t' r s m cs) =
  if decide (t = t') then Some ConditionFalse else status_of t cs.
Proof. rewrite MarkFalse_spec. apply status_False. Qed.

Lemma status_MarkUnknown t t' r m cs :
  status_of t (Conditions_MarkUnknown t' r m cs) =
  if decide (t = t') then Some ConditionUnknown else status_of t cs.
Proof.
  rewrite MarkUnknown_spec, status_Set. destruct (Unknown_spec t' r m) as [-> ->]. done.
Qed.

Lemma status_Remove t t' cs :
  status_of t (Conditions_Remove t' cs) =
  if decide (t = t') then None else status_of t cs.
Proof. unfold status_of. rewrite Get_Remove. by case_decide. Qed.

Lemma status_Restore t cs saved :
  status_of t (RestoreLastTransitionTimes cs saved) = status_of t cs.
Proof. unfold status_of. by rewrite Get_Restore. Qed.

Lemma status_isNil t cs : is_Some (status_of t cs) → Conditions_isNil cs = false.
Proof. intros [s Hs]. apply fmap_Some in Hs as (c & Hc & _). by eapply Get_isNil. Qed.

(** A list of unknown conditions initialises each of its types to Unknown. *)
Lemma status_Init l c cs :
  NoDup (cond_Type <$> l) → c ∈ l →
  status_of (cond_Type c) (Conditions_Init (CreateList l) cs) = Some (cond_Status c).
Proof.
  intros Hnd Hc. unfold status_of.
  rewrite (Get_Init _ c); [done|]. by apply Get_CreateList.
Qed.

Lemma AllSub_status cs :
  Conditions_AllSubConditionIsTrue cs = true ↔
  ∀ t s, t ≠ ReadyCondition → status_of t cs = Some s → s = ConditionTrue.
Proof.
  rewrite AllSub_spec. unfold status_of. split.
  - intros Hall t s Ht Hs. apply fmap_Some in Hs as (c & Hc & ->). eauto.
  - intros Hall t c Ht Hc. apply (Hall t); [done|]. by rewrite Hc.
Qed.

(** The Ready condition itself is not a sub-condition. *)
Lemma AllSub_MarkUnknown r m cs :
  Conditions_AllSubConditionIsTrue (Conditions_MarkUnknown ReadyCondition r m cs) =
  Conditions_AllSubConditionIsTrue cs.
Proof.
  apply eq_true_iff_eq. rewrite !AllSub_status.
  split; intros Hall t s Ht Hs; apply (Hall t s Ht);
    [rewrite status_MarkUnknown|rewrite status_MarkUnknown in Hs]; by case_decide.
Qed.

Lemma IsTrue_status t cs :
  Conditions_IsTrue t cs = true ↔ status_of t cs = Some ConditionTrue.
Proof.
  rewrite IsTrue_spec. unfold status_of. rewrite fmap_Some.
  split; intros (c & ? & ?); exists c; auto.
Qed.

(** The condition is there and not true. *)
Definition cond_pending (t : CondType) (cs : Conditions) : Prop :=
  ∃ st, status_of t cs = Some st ∧ st ≠ ConditionTrue.

Lemma pending_not_True t cs : cond_pending t cs → status_of t cs ≠ Some ConditionTrue.
Proof. intros (st & -> & Hst). congruence. Qed.

Lemma pending_False t t' r s m cs :
  cond_pending t cs → cond_pending t (Conditions_Set (Some (FalseCondition t' r s m)) cs).
Proof. intros (st & Hs & Hst). unfold cond_pending. rewrite status_False. case_decide; eauto. Qed.

Lemma pending_MarkTrue t t' m cs :
  t ≠ t' → cond_pending t cs → cond_pending t (Conditions_MarkTrue t' m cs).
Proof.
  intros Ht (st & Hs & Hst). exists st. split; [|done]. by rewrite status_MarkTrue, decide_False.
Qed.

Lemma pending_Set_ne t c cs :
  t ≠ cond_Type c → cond_pending t cs → cond_pending t (Conditions_Set (Some c) cs).
Proof.
  intros Ht (st & Hs & Hst). exists st. split; [|done]. by rewrite status_Set, decide_False.
Qed.

Lemma pending_Init l c cs :
  NoDup (cond_Type <$> l) → c ∈ l → cond_Status c ≠ ConditionTrue →
  cond_pending (cond_Type c) (Conditions_Init (CreateList l) cs).
Proof. intros. exists (cond_Status c). split; [by apply status_Init|done]. Qed.
End conditions.

#[export] Hint Resolve pending_False pending_MarkTrue : ovn.

Create Rewrite HintDb conds.
#[export] Hint Rewrite @status_False @status_MarkTrue @status_MarkFalse
  @status_MarkUnknown @status_Remove @status_Restore using typeclasses eauto : conds.

(** Compute the status of a condition through a chain of updates. *)
Ltac conds := autorewrite with conds; repeat (case_decide; try congruence); try done.
