(* ===== verification/Api.v ===== *)
(** * The API of the operator (api/v1beta1)

    The custom resources [OVNDBCluster], [OVNNorthd] and [OVNController] as
    records (their [Spec] with its inlined core, and their [Status]), their
    accessors, the defaulting and validation functions of the admission
    webhooks, and the class [CustomResource] through which the parts the three
    reconcilers share see a resource. *)
From S2P Require Import Prelude K8s Lib.

(** ** Constants *)
Definition NBDBType : string := "NB".
Definition SBDBType : string := "SB".
Definition ServiceNameNB : string := "ovsdbserver-nb".
Definition ServiceNameSB : string := "ovsdbserver-sb".
Definition ServiceHeadlessType : string := "headless".
Definition ServiceClusterType : string := "cluster".
Definition ServiceNameOVNNorthd : string := "ovn-northd".
Definition ServiceNameOVNController : string := "ovn-controller".
Definition ServiceNameOVS : string := "ovn-controller-ovs".
Definition ServiceNameOVNControllerMetrics : string := "ovn-controller-metrics".
Definition OVNHardenedOVSSecurityContextLabel : string :=
  "ovn.openstack.org/hardened-ovs-security-context".
Definition OVNConfigHash : string := "OvnConfigHash".
Definition OVNInputHash : string := "OvnInputHash".
Definition OVSInputHash : string := "OvsInputHash".
Definition OVNNBContainerImage : string :=
  "quay.io/openstack-s2i-containers/openstack-ovn-nb-db-server:master-latest".
Definition OVNSBContainerImage : string :=
  "quay.io/openstack-s2i-containers/openstack-ovn-sb-db-server:master-latest".
Definition OVNNorthdContainerImage : string :=
  "quay.io/openstack-s2i-containers/openstack-ovn-northd:master-latest".
Definition OpenstackNetworkExporterImage : string :=
  "quay.io/openstack-k8s-operators/openstack-network-exporter:current-podified".
Definition OVNControllerOVSContainerImage : string :=
  "quay.io/openstack-s2i-containers/openstack-ovn-base:master-latest".
Definition OVNControllerContainerImage : string :=
  "quay.io/openstack-s2i-containers/openstack-ovn-controller:master-latest".

Section api.
Context {AT : ApiTypes} {CL : CondLib} {L : Lib}.

(** ** OVNDBCluster *)

Record OVNDBClusterSpec := mkOVNDBClusterSpec {
  db_ContainerImage : string;
  db_ExporterImage : string;
  db_DBType : string;
  db_Replicas : option Z;
  db_NodeSelector : option (gmap string string);
  db_LogLevel : string;
  db_ElectionTimer : Z;
  db_InactivityProbe : Z;
  db_ProbeIntervalToActive : Z;
  db_Resources : ResourceRequirements;
  db_StorageClass : string;
  db_StorageRequest : string;
  db_NetworkAttachment : string;
  db_TLS : SimpleService;
  db_Override_Service : option OverrideSpec;
  db_TopologyRef : option TopoRef;
  db_MetricsEnabled : option bool;
  db_MetricsTLS : SimpleService;
}.

(** A nil map is [None]. *)
Record OVNDBClusterStatus := mkOVNDBClusterStatus {
  dbs_ReadyCount : Z;
  dbs_Hash : option (gmap string string);
  dbs_Conditions : Conditions;
  dbs_DBAddress : string;
  dbs_InternalDBAddress : string;
  dbs_NetworkAttachments : option (gmap string (list string));
  dbs_ObservedGeneration : Z;
  dbs_LastAppliedTopology : option TopoRef;
}.

Record OVNDBCluster := mkOVNDBCluster {
  db_Kind : string;
  db_Meta : ObjectMeta;
  db_Spec : OVNDBClusterSpec;
  db_Status : OVNDBClusterStatus;
}.

(** ** OVNNorthd *)

Record OVNNorthdSpec := mkOVNNorthdSpec {
  nd_ContainerImage : string;
  nd_ExporterImage : string;
  nd_Replicas : option Z;
  nd_NodeSelector : option (gmap string string);
  nd_LogLevel : string;
  nd_Resources : ResourceRequirements;
  nd_TLS : SimpleService;
  nd_NThreads : option Z;
  nd_TopologyRef : option TopoRef;
  nd_MetricsEnabled : option bool;
  nd_MetricsTLS : SimpleService;
}.

Record OVNNorthdStatus := mkOVNNorthdStatus {
  nds_ReadyCount : Z;
  nds_Conditions : Conditions;
  nds_Hash : option (gmap string string);
  nds_ObservedGeneration : Z;
  nds_LastAppliedTopology : option TopoRef;
}.

Record OVNNorthd := mkOVNNorthd {
  nd_Kind : string;
  nd_Meta : ObjectMeta;
  nd_Spec : OVNNorthdSpec;
  nd_Status : OVNNorthdStatus;
}.

(** ** OVNController *)

Record OVSExternalIDs := mkOVSExternalIDs {
  SystemID : string;
  OvnBridge : string;
  OvnEncapType : string;
  OvnEncapTos : string;
  OvnRemoteProbeInterval : Z;
  OvnAvailabilityZones : list string;
  EnableChassisAsGateway : option bool;
}.

Record Bond := mkBond { bond_Mode : string; bond_Mtu : Z; bond_Links : list string }.

Record OVNControllerSpec := mkOVNControllerSpec {
  oc_OvsContainerImage : string;
  oc_OvnContainerImage : string;
  oc_ExporterImage : string;
  oc_ExternalIDS : OVSExternalIDs;
  oc_NicMappings : gmap string string;
  oc_BondConfiguration : gmap string Bond;
  oc_Resources : ResourceRequirements;
  oc_Override_Probes : ProbeOverrides;
  oc_NodeSelector : option (gmap string string);
  oc_NetworkAttachment : string;
  oc_OVNLogLevel : string;
  oc_OVSLogLevel : string;
  oc_TLS : SimpleService;
  oc_TopologyRef : option TopoRef;
  oc_MetricsEnabled : option bool;
  oc_MetricsTLS : SimpleService;
}.

Record OVNControllerStatus := mkOVNControllerStatus {
  ocs_NumberReady : Z;
  ocs_OVSNumberReady : Z;
  ocs_MetricsNumberReady : Z;
  ocs_DesiredNumberScheduled : Z;
  ocs_Conditions : Conditions;
  ocs_Hash : option (gmap string string);
  ocs_NetworkAttachments : option (gmap string (list string));
  ocs_ObservedGeneration : Z;
  ocs_LastAppliedTopology : option TopoRef;
}.

Record OVNController := mkOVNController {
  oc_Kind : string;
  oc_Meta : ObjectMeta;
  oc_Spec : OVNControllerSpec;
  oc_Status : OVNControllerStatus;
}.
End api.

(** ** Updates of the object a reconciler works on *)
Section updates.
Context {AT : ApiTypes} {CL : CondLib}.

Definition om_set_Finalizers (f : list string) (m : ObjectMeta) : ObjectMeta :=
  mkObjectMeta (om_Name m) (om_Namespace m) (om_Labels m) (om_Annotations m)
    (om_OwnerReferences m) f (om_DeletionTimestamp m) (om_Generation m).

Definition db_upd_Status (f : OVNDBClusterStatus → OVNDBClusterStatus) (i : OVNDBCluster) :=
  mkOVNDBCluster (db_Kind i) (db_Meta i) (db_Spec i) (f (db_Status i)).
Definition db_set_Meta (m : ObjectMeta) (i : OVNDBCluster) :=
  mkOVNDBCluster (db_Kind i) m (db_Spec i) (db_Status i).
Definition db_set_ReadyCount (n : Z) : OVNDBCluster → OVNDBCluster := db_upd_Status (λ s,
  mkOVNDBClusterStatus n (dbs_Hash s) (dbs_Conditions s) (dbs_DBAddress s)
    (dbs_InternalDBAddress s) (dbs_NetworkAttachments s) (dbs_ObservedGeneration s)
    (dbs_LastAppliedTopology s)).
Definition db_set_Hash (h : option (gmap string string)) : OVNDBCluster → OVNDBCluster :=
  db_upd_Status (λ s,
  mkOVNDBClusterStatus (dbs_ReadyCount s) h (dbs_Conditions s) (dbs_DBAddress s)
    (dbs_InternalDBAddress s) (dbs_NetworkAttachments s) (dbs_ObservedGeneration s)
    (dbs_LastAppliedTopology s)).
Definition db_set_Conditions (c : Conditions) : OVNDBCluster → OVNDBCluster :=
  db_upd_Status (λ s,
  mkOVNDBClusterStatus (dbs_ReadyCount s) (dbs_Hash s) c (dbs_DBAddress s)
    (dbs_InternalDBAddress s) (dbs_NetworkAttachments s) (dbs_ObservedGeneration s)
    (dbs_LastAppliedTopology s)).
Definition db_set_DBAddress (a : string) : OVNDBCluster → OVNDBCluster := db_upd_Status (λ s,
  mkOVNDBClusterStatus (dbs_ReadyCount s) (dbs_Hash s) (dbs_Conditions s) a
    (dbs_InternalDBAddress s) (dbs_NetworkAttachments s) (dbs_ObservedGeneration s)
    (dbs_LastAppliedTopology s)).
Definition db_set_InternalDBAddress (a : string) : OVNDBCluster → OVNDBCluster :=
  db_upd_Status (λ s,
  mkOVNDBClusterStatus (dbs_ReadyCount s) (dbs_Hash s) (dbs_Conditions s) (dbs_DBAddress s)
    a (dbs_NetworkAttachments s) (dbs_ObservedGeneration s)
    (dbs_LastAppliedTopology s)).
Definition db_set_NetworkAttachments (n : option (gmap string (list string)))
    : OVNDBCluster → OVNDBCluster := db_upd_Status (λ s,
  mkOVNDBClusterStatus (dbs_ReadyCount s) (dbs_Hash s) (dbs_Conditions s) (dbs_DBAddress s)
    (dbs_InternalDBAddress s) n (dbs_ObservedGeneration s)
    (dbs_LastAppliedTopology s)).
Definition db_set_ObservedGeneration (n : Z) : OVNDBCluster → OVNDBCluster :=
  db_upd_Status (λ s,
  mkOVNDBClusterStatus (dbs_ReadyCount s) (dbs_Hash s) (dbs_Conditions s) (dbs_DBAddress s)
    (dbs_InternalDBAddress s) (dbs_NetworkAttachments s) n
    (dbs_LastAppliedTopology s)).
Definition db_set_LastAppliedTopology (t : option TopoRef) : OVNDBCluster → OVNDBCluster :=
  db_upd_Status (λ s,
  mkOVNDBClusterStatus (dbs_ReadyCount s) (dbs_Hash s) (dbs_Conditions s) (dbs_DBAddress s)
    (dbs_InternalDBAddress s) (dbs_NetworkAttachments s) (dbs_ObservedGeneration s) t).
Definition db_set_Override_Service (o : option OverrideSpec) (i : OVNDBCluster) :=
  let s := db_Spec i in
  mkOVNDBCluster (db_Kind i) (db_Meta i)
    (mkOVNDBClusterSpec (db_ContainerImage s) (db_ExporterImage s) (db_DBType s)
      (db_Replicas s) (db_NodeSelector s) (db_LogLevel s) (db_ElectionTimer s)
      (db_InactivityProbe s) (db_ProbeIntervalToActive s) (db_Resources s)
      (db_StorageClass s) (db_StorageRequest s) (db_NetworkAttachment s) (db_TLS s)
      o (db_TopologyRef s) (db_MetricsEnabled s) (db_MetricsTLS s))
    (db_Status i).

Definition nd_upd_Status (f : OVNNorthdStatus → OVNNorthdStatus) (i : OVNNorthd) :=
  mkOVNNorthd (nd_Kind i) (nd_Meta i) (nd_Spec i) (f (nd_Status i)).
Definition nd_set_Meta (m : ObjectMeta) (i : OVNNorthd) :=
  mkOVNNorthd (nd_Kind i) m (nd_Spec i) (nd_Status i).
Definition nd_set_ReadyCount (n : Z) : OVNNorthd → OVNNorthd := nd_upd_Status (λ s,
  mkOVNNorthdStatus n (nds_Conditions s) (nds_Hash s) (nds_ObservedGeneration s)
    (nds_LastAppliedTopology s)).
Definition nd_set_Conditions (c : Conditions) : OVNNorthd → OVNNorthd := nd_upd_Status (λ s,
  mkOVNNorthdStatus (nds_ReadyCount s) c (nds_Hash s) (nds_ObservedGeneration s)
    (nds_LastAppliedTopology s)).
Definition nd_set_Hash (h : option (gmap string string)) : OVNNorthd → OVNNorthd :=
  nd_upd_Status (λ s,
  mkOVNNorthdStatus (nds_ReadyCount s) (nds_Conditions s) h (nds_ObservedGeneration s)
    (nds_LastAppliedTopology s)).
Definition nd_set_ObservedGeneration (n : Z) : OVNNorthd → OVNNorthd := nd_upd_Status (λ s,
  mkOVNNorthdStatus (nds_ReadyCount s) (nds_Conditions s) (nds_Hash s) n
    (nds_LastAppliedTopology s)).
Definition nd_set_LastAppliedTopology (t : option TopoRef) : OVNNorthd → OVNNorthd :=
  nd_upd_Status (λ s,
  mkOVNNorthdStatus (nds_ReadyCount s) (nds_Conditions s) (nds_Hash s)
    (nds_ObservedGeneration s) t).

Definition oc_upd_Status (f : OVNControllerStatus → OVNControllerStatus) (i : OVNController) :=
  mkOVNController (oc_Kind i) (oc_Meta i) (oc_Spec i) (f (oc_Status i)).
Definition oc_set_Meta (m : ObjectMeta) (i : OVNController) :=
  mkOVNController (oc_Kind i) m (oc_Spec i) (oc_Status i).
Definition oc_set_Numbers (ready ovs metrics desired : Z) : OVNController → OVNController :=
  oc_upd_Status (λ s,
  mkOVNControllerStatus ready ovs metrics desired (ocs_Conditions s) (ocs_Hash s)
    (ocs_NetworkAttachments s) (ocs_ObservedGeneration s) (ocs_LastAppliedTopology s)).
Definition oc_set_NumberReady (n : Z) (i : OVNController) :=
  let s := oc_Status i in
  oc_set_Numbers n (ocs_OVSNumberReady s) (ocs_MetricsNumberReady s)
    (ocs_DesiredNumberScheduled s) i.
Definition oc_set_OVSNumberReady (n : Z) (i : OVNController) :=
  let s := oc_Status i in
  oc_set_Numbers (ocs_NumberReady s) n (ocs_MetricsNumberReady s)
    (ocs_DesiredNumberScheduled s) i.
Definition oc_set_MetricsNumberReady (n : Z) (i : OVNController) :=
  let s := oc_Status i in
  oc_set_Numbers (ocs_NumberReady s) (ocs_OVSNumberReady s) n
    (ocs_DesiredNumberScheduled s) i.
Definition oc_set_DesiredNumberScheduled (n : Z) (i : OVNController) :=
  let s := oc_Status i in
  oc_set_Numbers (ocs_NumberReady s) (ocs_OVSNumberReady s) (ocs_MetricsNumberReady s) n i.
Definition oc_set_Conditions (c : Conditions) : OVNController → OVNController :=
  oc_upd_Status (λ s,
  mkOVNControllerStatus (ocs_NumberReady s) (ocs_OVSNumberReady s)
    (ocs_MetricsNumberReady s) (ocs_DesiredNumberScheduled s) c (ocs_Hash s)
    (ocs_NetworkAttachments s) (ocs_ObservedGeneration s) (ocs_LastAppliedTopology s)).
Definition oc_set_Hash (h : option (gmap string string)) : OVNController → OVNController :=
  oc_upd_Status (λ s,
  mkOVNControllerStatus (ocs_NumberReady s) (ocs_OVSNumberReady s)
    (ocs_MetricsNumberReady s) (ocs_DesiredNumberScheduled s) (ocs_Conditions s) h
    (ocs_NetworkAttachments s) (ocs_ObservedGeneration s) (ocs_LastAppliedTopology s)).
Definition oc_set_NetworkAttachments (n : option (gmap string (list string)))
    : OVNController → OVNController := oc_upd_Status (λ s,
  mkOVNControllerStatus (ocs_NumberReady s) (ocs_OVSNumberReady s)
    (ocs_MetricsNumberReady s) (ocs_DesiredNumberScheduled s) (ocs_Conditions s)
    (ocs_Hash s) n (ocs_ObservedGeneration s) (ocs_LastAppliedTopology s)).
Definition oc_set_ObservedGeneration (n : Z) : OVNController → OVNController :=
  oc_upd_Status (λ s,
  mkOVNControllerStatus (ocs_NumberReady s) (ocs_OVSNumberReady s)
    (ocs_MetricsNumberReady s) (ocs_DesiredNumberScheduled s) (ocs_Conditions s)
    (ocs_Hash s) (ocs_NetworkAttachments s) n (ocs_LastAppliedTopology s)).
Definition oc_set_LastAppliedTopology (t : option TopoRef) : OVNController → OVNController :=
  oc_upd_Status (λ s,
  mkOVNControllerStatus (ocs_NumberReady s) (ocs_OVSNumberReady s)
    (ocs_MetricsNumberReady s) (ocs_DesiredNumberScheduled s) (ocs_Conditions s)
    (ocs_Hash s) (ocs_NetworkAttachments s) (ocs_ObservedGeneration s) t).
End updates.
