(* ===== verification/ApiMethods.v ===== *)
(** * Methods of the API types (api/v1beta1)

    Accessors and endpoints of the custom resources, the defaulting and
    validation functions, and [CustomResource], the interface through which the
    code common to the three reconcilers sees a resource. *)
From S2P Require Import Prelude K8s Lib Api.

(** [s != ""]. *)
Definition nonempty (s : string) : bool := negb (bool_decide (s = "")).

(** [basePath.Child(name, more...)], as [field.Path] prints it. *)
Definition path_Child (p name : string) : string := p +:+ "." +:+ name.

(** ** Endpoints, RBAC, topology, readiness *)
Section methods.
Context {AT : ApiTypes} {CL : CondLib} {L : Lib}.

Definition OVNDBCluster_IsReady (i : OVNDBCluster) : bool :=
  Conditions_IsTrue ReadyCondition (dbs_Conditions (db_Status i)).
Definition OVNNorthd_IsReady (i : OVNNorthd) : bool :=
  Conditions_IsTrue ReadyCondition (nds_Conditions (nd_Status i)).
Definition OVNController_IsReady (i : OVNController) : bool :=
  Conditions_IsTrue ReadyCondition (ocs_Conditions (oc_Status i)).

(** The receiver is a copy of the object that shares the array of its
    conditions: a condition of the list is replaced for the caller too, a new
    one is appended to the copy alone. *)
Definition set_shared (c : Condition) (cs : Conditions) : Conditions :=
  match Conditions_Get (cond_Type c) cs with
  | Some _ => Conditions_Set (Some c) cs
  | None => cs
  end.
Definition OVNDBCluster_RbacConditionsSet (c : Condition) (i : OVNDBCluster) : OVNDBCluster :=
  db_set_Conditions (set_shared c (dbs_Conditions (db_Status i))) i.
Definition OVNNorthd_RbacConditionsSet (c : Condition) (i : OVNNorthd) : OVNNorthd :=
  nd_set_Conditions (set_shared c (nds_Conditions (nd_Status i))) i.
Definition OVNController_RbacConditionsSet (c : Condition) (i : OVNController)
    : OVNController :=
  oc_set_Conditions (set_shared c (ocs_Conditions (oc_Status i))) i.

Definition OVNDBCluster_RbacNamespace (i : OVNDBCluster) : string := om_Namespace (db_Meta i).
Definition OVNNorthd_RbacNamespace (i : OVNNorthd) : string := om_Namespace (nd_Meta i).
Definition OVNController_RbacNamespace (i : OVNController) : string := om_Namespace (oc_Meta i).

Definition OVNDBCluster_RbacResourceName (i : OVNDBCluster) : string :=
  "ovncluster-" +:+ om_Name (db_Meta i).
Definition OVNNorthd_RbacResourceName (i : OVNNorthd) : string :=
  "ovnnorthd-" +:+ om_Name (nd_Meta i).
Definition OVNController_RbacResourceName (i : OVNController) : string :=
  "ovncontroller-" +:+ om_Name (oc_Meta i).

Definition GetInternalEndpoint (i : OVNDBCluster) : fallible string :=
  if bool_decide (dbs_InternalDBAddress (db_Status i) = "") then
    Fail (errors_New ("internal DBEndpoint not ready yet for " +:+ db_DBType (db_Spec i)))
  else Okay (dbs_InternalDBAddress (db_Status i)).

Definition GetExternalEndpoint (i : OVNDBCluster) : fallible string :=
  if (nonempty (db_NetworkAttachment (db_Spec i)) ||
      bool_decide (is_Some (db_Override_Service (db_Spec i)))) &&
     bool_decide (dbs_DBAddress (db_Status i) = "") then
    Fail (errors_New ("external DBEndpoint not ready yet for " +:+ db_DBType (db_Spec i)))
  else Okay (dbs_DBAddress (db_Status i)).

Definition OVNDBCluster_GetSpecTopologyRef (i : OVNDBCluster) := db_TopologyRef (db_Spec i).
Definition OVNDBCluster_GetLastAppliedTopology (i : OVNDBCluster) :=
  dbs_LastAppliedTopology (db_Status i).
Definition OVNDBCluster_SetLastAppliedTopology (t : option TopoRef) (i : OVNDBCluster) :=
  db_set_LastAppliedTopology t i.
Definition OVNNorthd_GetSpecTopologyRef (i : OVNNorthd) := nd_TopologyRef (nd_Spec i).
Definition OVNNorthd_GetLastAppliedTopology (i : OVNNorthd) :=
  nds_LastAppliedTopology (nd_Status i).
Definition OVNNorthd_SetLastAppliedTopology (t : option TopoRef) (i : OVNNorthd) :=
  nd_set_LastAppliedTopology t i.
Definition OVNController_GetSpecTopologyRef (i : OVNController) := oc_TopologyRef (oc_Spec i).
Definition OVNController_GetLastAppliedTopology (i : OVNController) :=
  ocs_LastAppliedTopology (oc_Status i).
Definition OVNController_SetLastAppliedTopology (t : option TopoRef) (i : OVNController) :=
  oc_set_LastAppliedTopology t i.

(** [instance.Spec.ExporterImage != "" && (MetricsEnabled == nil || *MetricsEnabled)],
    the test the operator writes before every use of the metrics exporter. *)
Definition metrics_on (exporterImage : string) (metricsEnabled : option bool) : bool :=
  nonempty exporterImage &&
  match metricsEnabled with None => true | Some b => b end.
End methods.

(** ** The resource as the shared code sees it *)

(** The part of a [Spec] the shared code reads. *)
Record CommonSpec := mkCommonSpec {
  cs_TLS : SimpleService;
  cs_MetricsTLS : SimpleService;
  cs_ExporterImage : string;
  cs_MetricsEnabled : option bool;
  cs_TopologyRef : option TopoRef;
}.

Class CustomResource {CL : CondLib} (I : Type) := {
  cr_GoKind : string;
  cr_Spec : I → CommonSpec;
  cr_Meta : I → ObjectMeta;
  cr_set_Meta : ObjectMeta → I → I;
  cr_Conditions : I → Conditions;
  cr_set_Conditions : Conditions → I → I;
  cr_Hash : I → option (gmap string string);
  cr_set_Hash : option (gmap string string) → I → I;
  cr_GetLastAppliedTopology : I → option TopoRef;
  cr_SetLastAppliedTopology : option TopoRef → I → I;
}.

(** The fields are independent of each other. *)
Class CustomResourceLaws {CL : CondLib} (I : Type) `{!CustomResource I} : Prop := {
  Meta_self (i : I) : cr_set_Meta (cr_Meta i) i = i;
  Meta_Meta m (i : I) : cr_Meta (cr_set_Meta m i) = m;
  Meta_Cond c (i : I) : cr_Meta (cr_set_Conditions c i) = cr_Meta i;
  Meta_Hash h (i : I) : cr_Meta (cr_set_Hash h i) = cr_Meta i;
  Meta_Topo t (i : I) : cr_Meta (cr_SetLastAppliedTopology t i) = cr_Meta i;
  Spec_Meta m (i : I) : cr_Spec (cr_set_Meta m i) = cr_Spec i;
  Spec_Cond c (i : I) : cr_Spec (cr_set_Conditions c i) = cr_Spec i;
  Spec_Hash h (i : I) : cr_Spec (cr_set_Hash h i) = cr_Spec i;
  Spec_Topo t (i : I) : cr_Spec (cr_SetLastAppliedTopology t i) = cr_Spec i;
  Cond_Meta m (i : I) : cr_Conditions (cr_set_Meta m i) = cr_Conditions i;
  Cond_Cond c (i : I) : cr_Conditions (cr_set_Conditions c i) = c;
  Cond_Hash h (i : I) : cr_Conditions (cr_set_Hash h i) = cr_Conditions i;
  Cond_Topo t (i : I) : cr_Conditions (cr_SetLastAppliedTopology t i) = cr_Conditions i;
  Hash_Meta m (i : I) : cr_Hash (cr_set_Meta m i) = cr_Hash i;
  Hash_Cond c (i : I) : cr_Hash (cr_set_Conditions c i) = cr_Hash i;
  Hash_Hash h (i : I) : cr_Hash (cr_set_Hash h i) = h;
  Hash_Topo t (i : I) : cr_Hash (cr_SetLastAppliedTopology t i) = cr_Hash i;
  Topo_Meta m (i : I) : cr_GetLastAppliedTopology (cr_set_Meta m i) = cr_GetLastAppliedTopology i;
  Topo_Cond c (i : I) :
    cr_GetLastAppliedTopology (cr_set_Conditions c i) = cr_GetLastAppliedTopology i;
  Topo_Hash h (i : I) : cr_GetLastAppliedTopology (cr_set_Hash h i) = cr_GetLastAppliedTopology i;
  Topo_Topo t (i : I) : cr_GetLastAppliedTopology (cr_SetLastAppliedTopology t i) = t;
}.

Create Rewrite HintDb cr.
#[export] Hint Rewrite @Meta_Meta @Meta_Cond @Meta_Hash @Meta_Topo @Spec_Meta @Spec_Cond
  @Spec_Hash @Spec_Topo @Cond_Meta @Cond_Cond @Cond_Hash @Cond_Topo @Hash_Meta @Hash_Cond
  @Hash_Hash @Hash_Topo @Topo_Meta @Topo_Cond @Topo_Hash @Topo_Topo
  using typeclasses eauto : cr.

Section instances.
Context {AT : ApiTypes} {CL : CondLib}.

#[export] Instance OVNDBCluster_CR : CustomResource OVNDBCluster := {
  cr_GoKind := "OVNDBCluster";
  cr_Spec i := let s := db_Spec i in
    mkCommonSpec (db_TLS s) (db_MetricsTLS s) (db_ExporterImage s) (db_MetricsEnabled s)
      (OVNDBCluster_GetSpecTopologyRef i);
  cr_Meta := db_Meta;
  cr_set_Meta := db_set_Meta;
  cr_Conditions i := dbs_Conditions (db_Status i);
  cr_set_Conditions := db_set_Conditions;
  cr_Hash i := dbs_Hash (db_Status i);
  cr_set_Hash := db_set_Hash;
  cr_GetLastAppliedTopology := OVNDBCluster_GetLastAppliedTopology;
  cr_SetLastAppliedTopology := OVNDBCluster_SetLastAppliedTopology;
}.

#[export] Instance OVNNorthd_CR : CustomResource OVNNorthd := {
  cr_GoKind := "OVNNorthd";
  cr_Spec i := let s := nd_Spec i in
    mkCommonSpec (nd_TLS s) (nd_MetricsTLS s) (nd_ExporterImage s) (nd_MetricsEnabled s)
      (OVNNorthd_GetSpecTopologyRef i);
  cr_Meta := nd_Meta;
  cr_set_Meta := nd_set_Meta;
  cr_Conditions i := nds_Conditions (nd_Status i);
  cr_set_Conditions := nd_set_Conditions;
  cr_Hash i := nds_Hash (nd_Status i);
  cr_set_Hash := nd_set_Hash;
  cr_GetLastAppliedTopology := OVNNorthd_GetLastAppliedTopology;
  cr_SetLastAppliedTopology := OVNNorthd_SetLastAppliedTopology;
}.

#[export] Instance OVNController_CR : CustomResource OVNController := {
  cr_GoKind := "OVNController";
  cr_Spec i := let s := oc_Spec i in
    mkCommonSpec (oc_TLS s) (oc_MetricsTLS s) (oc_ExporterImage s) (oc_MetricsEnabled s)
      (OVNController_GetSpecTopologyRef i);
  cr_Meta := oc_Meta;
  cr_set_Meta := oc_set_Meta;
  cr_Conditions i := ocs_Conditions (oc_Status i);
  cr_set_Conditions := oc_set_Conditions;
  cr_Hash i := ocs_Hash (oc_Status i);
  cr_set_Hash := oc_set_Hash;
  cr_GetLastAppliedTopology := OVNController_GetLastAppliedTopology;
  cr_SetLastAppliedTopology := OVNController_SetLastAppliedTopology;
}.

#[export] Instance OVNDBCluster_CRLaws : CustomResourceLaws OVNDBCluster.
Proof. split; try done; by intros []. Qed.
#[export] Instance OVNNorthd_CRLaws : CustomResourceLaws OVNNorthd.
Proof. split; try done; by intros []. Qed.
#[export] Instance OVNController_CRLaws : CustomResourceLaws OVNController.
Proof. split; try done; by intros []. Qed.
End instances.
