(* ===== verification/Calls.v ===== *)
(** * The calls of the operator to its environment

    [Ext R] is the type of a call whose answer has type [R]: the requests to
    the API server (through the controller-runtime client, the clientset or
    the [lib-common] wrappers around them), and the clock.  A reconciler is a
    program over [Ext]; nothing is assumed here of the answers. *)
From S2P Require Import Prelude Prog K8s Lib Api ApiMethods.

(** The kinds of the objects the operator deletes by name. *)
Inductive ObjKind := KService | KConfigMap | KDNSData | KDeployment | KDaemonSet.

#[export] Instance ObjKind_eq_dec : EqDecision ObjKind.
Proof. solve_decision. Defined.

(** The custom resource kinds, for the field indexes. *)
Inductive CRKind := CROVNDBCluster | CROVNNorthd | CROVNController.

#[export] Instance CRKind_eq_dec : EqDecision CRKind.
Proof. solve_decision. Defined.

Section calls.
Context {AT : ApiTypes} {CL : CondLib}.

(** [runtime.Object], [client.Object]: an object of one of the operator's
    types, or of another type. *)
Inductive Object :=
| ObjOVNDBCluster (i : OVNDBCluster)
| ObjOVNNorthd (i : OVNNorthd)
| ObjOVNController (i : OVNController)
| ObjOther (goType : string).

Inductive Ext : Type → Type :=
(* client.Client on the custom resources *)
| GetOVNDBCluster (n : NamespacedName) : Ext (fallible OVNDBCluster)
| GetOVNNorthd (n : NamespacedName) : Ext (fallible OVNNorthd)
| GetOVNController_ (n : NamespacedName) : Ext (fallible OVNController)
| ListOVNDBClusters (namespace : string) (labels : gmap string string) :
    Ext (fallible (list OVNDBCluster))
| ListOVNControllers (namespace : string) : Ext (fallible (list OVNController))
| ListNames (kind : CRKind) (namespace : string) : Ext (fallible (list NamespacedName))
| ListByField (kind : CRKind) (field value namespace : string) :
    Ext (fallible (list NamespacedName))
(* helper *)
| NewHelper (o : Object) : Ext (option error)
| PatchInstance (o : Object) : Ext (option error)
(* client.Client on other objects *)
| GetService (namespace name : string) : Ext (option error)
| GetDeployment (namespace name : string) : Ext (fallible Deployment)
| UpdateDeployment (d : Deployment) : Ext (option error)
| GetNAD (namespace name : string) : Ext (fallible NAD)
| CreateNAD (n : NAD) : Ext (option error)
| UpdateNAD (n : NAD) : Ext (option error)
| UpdateService (s : Service) : Ext (option error)
| Delete (kind : ObjKind) (namespace name : string) : Ext (option error)
| ListPods (namespace : string) (labels : gmap string string) : Ext (fallible (list Pod))
| CreateOrPatchDNSData (owner : Object) (d : DNSData) : Ext (option error)
(* kubernetes.Interface *)
| ClientsetListPods (namespace : string) (selector : string) : Ext (fallible (list Pod))
(* lib-common *)
| ReconcileRbac (o : Object) (rules : list PolicyRule) :
    Ext (list Condition * (Result * option error))
| GetNADWithName (name namespace : string) : Ext (fallible (option NAD))
| ValidateCACertSecret (n : NamespacedName) : Ext (fallible string)
| ValidateCertSecret (s : SimpleService) (namespace : string) : Ext (fallible string)
| EnsureConfigMaps (o : Object) (cms : list Template)
    (envVars : option (gmap string Setter)) :
    Ext (gmap string Setter * option error)
| EnsureServiceTopology (ref last : option TopoRef) (finalizer : string)
    (defaultLabelSelector : gmap string string) : Ext (fallible (option Topology))
| EnsureDeletedTopologyRef (last : option TopoRef) (finalizer : string) :
    Ext (Result * option error)
| StatefulSetCreateOrPatch (s : StatefulSetDef) (timeout : Z) :
    Ext (Result * option error * StatefulSetObs)
| DaemonSetCreateOrPatch (d : DaemonSetDef) (timeout : Z) :
    Ext (Result * option error * DaemonSetObs)
| PDBCreateOrPatch (p : PDB) (timeout : Z) : Ext (Result * option error)
| DeletePDBWithName (name namespace : string) : Ext (option error)
| GetServiceWithName (name namespace : string) : Ext (option Service * option error)
| GetServicesListWithLabel (namespace : string) (labels : gmap string string) :
    Ext (fallible (list Service))
| DeleteServicesWithLabel (o : Object) (labels : gmap string string) : Ext (option error)
| ServiceCreateOrPatch (h : SvcHandle) (timeout : Z) :
    Ext (Result * option error * SvcHandle)
| VerifyNetworkStatusFromAnnotation (networkAttachments : list string)
    (labels : gmap string string) (readyCount : Z) :
    Ext (fallible (bool * gmap string (list string)))
| DoJob (j : Job) (hashKey : string) (preserve : bool) (timeout : Z) (beforeHash : string) :
    Ext (Result * option error * (bool * string))
| GetDNSClusterDomain : Ext string
(* the clock: [metav1.Now().Unix()] *)
| NowUnix : Ext Z.

(** The resource as an [Object]. *)
Class IsObject (I : Type) := to_object : I → Object.
#[export] Instance OVNDBCluster_IsObject : IsObject OVNDBCluster := ObjOVNDBCluster.
#[export] Instance OVNNorthd_IsObject : IsObject OVNNorthd := ObjOVNNorthd.
#[export] Instance OVNController_IsObject : IsObject OVNController := ObjOVNController.

#[export] Instance OVNDBCluster_object_inj : Inj (=) (=) (to_object (I := OVNDBCluster)).
Proof. by intros ? ? [=]. Qed.
#[export] Instance OVNNorthd_object_inj : Inj (=) (=) (to_object (I := OVNNorthd)).
Proof. by intros ? ? [=]. Qed.
#[export] Instance OVNController_object_inj : Inj (=) (=) (to_object (I := OVNController)).
Proof. by intros ? ? [=]. Qed.
End calls.

(** The body of a Go function is a [Go S X A]: a program that works on [S], may
    return an [X] early, and yields [A] to the statements after it. *)
Abbreviation Go := (M Ext).
(** [(ctrl.Result, error)]. *)
Abbreviation RE := (Result * option error)%type.

Section helpers.
Context {AT : ApiTypes} {CL : CondLib}.
Context {S X : Type}.

(** A pure builder that may fail or panic, as a statement of a body; the
    error is a value the caller handles. *)
Definition lift_go {A} (g : go A) : Go S X (fallible A) :=
  match g with
  | GOk a => ret (Okay a)
  | GErr e => ret (Fail e)
  | GPanic => panic
  end.
End helpers.

(** Classify events without naming the answer's type. *)
Section classify.
Context {AT : ApiTypes} {CL : CondLib}.

(** A call that creates or changes a workload. *)
Definition is_workload (ev : event Ext) : Prop :=
  match ev with Ev e _ =>
    match e with
    | StatefulSetCreateOrPatch _ _ | DaemonSetCreateOrPatch _ _ => True
    | _ => False
    end
  end.

#[export] Instance is_workload_dec ev : Decision (is_workload ev).
Proof. destruct ev as [R []]; cbn; apply _. Defined.

(** A call that writes to the cluster an object other than the resource; a topology gets
    a finalizer for each resource that it places. *)
Definition is_write (ev : event Ext) : Prop :=
  match ev with Ev e _ =>
    match e with
    | UpdateDeployment _ | CreateNAD _ | UpdateNAD _ | UpdateService _ | Delete _ _ _
    | CreateOrPatchDNSData _ _ | ReconcileRbac _ _ | EnsureConfigMaps _ _ _
    | StatefulSetCreateOrPatch _ _ | DaemonSetCreateOrPatch _ _ | PDBCreateOrPatch _ _
    | DeletePDBWithName _ _ | DeleteServicesWithLabel _ _ | ServiceCreateOrPatch _ _
    | DoJob _ _ _ _ _ | EnsureServiceTopology _ _ _ _ => True
    | _ => False
    end
  end.

(** A call that takes the resource's finalizer off its topology. *)
Definition drops_finalizer (ev : event Ext) : Prop :=
  match ev with Ev e _ => match e with EnsureDeletedTopologyRef _ _ => True | _ => False end end.

#[export] Instance is_write_dec ev : Decision (is_write ev).
Proof. destruct ev as [R []]; cbn; apply _. Defined.

(** [ReconcileRbac] of [lib-common] sets the three conditions of its objects, and
    no other. *)
Definition rbacTypes : list CondType :=
  [ServiceAccountReadyCondition; RoleReadyCondition; RoleBindingReadyCondition].
Definition rbac_ok (ev : event Ext) : Prop :=
  match ev with Ev e r =>
    match e in Ext R return R → Prop with
    | ReconcileRbac _ _ => λ r, Forall (λ c, cond_Type c ∈ rbacTypes) r.1
    | _ => λ _, True
    end r
  end.

Definition is_patch (ev : event Ext) : Prop :=
  match ev with Ev e _ => match e with PatchInstance _ => True | _ => False end end.

(** The object and the answer of a patch. *)
Definition patch_of (ev : event Ext) : option (Object * option error) :=
  match ev with Ev e r =>
    match e in Ext R return R → option (Object * option error) with
    | PatchInstance o => λ r, Some (o, r)
    | _ => λ _, None
    end r
  end.

Lemma patch_inj o1 o2 r1 r2 :
  Ev (PatchInstance o1) r1 = Ev (PatchInstance o2) r2 → o1 = o2 ∧ r1 = r2.
Proof. intros Heq. by apply (f_equal patch_of) in Heq as [= -> ->]. Qed.

(** The answer to a request for a resource. *)
Definition fetched (ev : event Ext) : option (fallible Object) :=
  match ev with Ev e r =>
    match e in Ext R return R → option (fallible Object) with
    | GetOVNDBCluster _ => λ r,
        Some (match r with Okay i => Okay (ObjOVNDBCluster i) | Fail e => Fail e end)
    | GetOVNNorthd _ => λ r,
        Some (match r with Okay i => Okay (ObjOVNNorthd i) | Fail e => Fail e end)
    | GetOVNController_ _ => λ r,
        Some (match r with Okay i => Okay (ObjOVNController i) | Fail e => Fail e end)
    | _ => λ _, None
    end r
  end.

#[export] Instance is_patch_dec ev : Decision (is_patch ev).
Proof. destruct ev as [R []]; cbn; apply _. Defined.
End classify.
