(* ===== verification/Shared.v ===== *)
(** * What the three reconcilers share

    The code of internal/controller that is the same for the three resources:
    [ensureTopology] (ovn_common.go), and the segments the three reconcilers
    repeat word for word, written once over [CustomResource]: the deferred
    status patch of [Reconcile], the finalizer, [reconcileDelete], the
    validation of the TLS inputs and the input hash.  Each reconciler's own file
    uses them at its resource. *)
From S2P Require Import Prelude Prog K8s Lib Api ApiMethods Calls.
#[local] Open Scope go_scope.

Section shared.
Context {AT : ApiTypes} {CL : CondLib} {L : Lib}.
Context {I : Type} {CR : CustomResource I} {OI : IsObject I}.

(** [instance.Status.Conditions.Set(c)] and its variants. *)
Definition updConds (f : Conditions → Conditions) (i : I) : I :=
  cr_set_Conditions (f (cr_Conditions i)) i.
Definition setCond {X} (c : Condition) : Go I X unit :=
  modify (updConds (Conditions_Set (Some c))).
Definition markTrue {X} (t : CondType) (m : Message) : Go I X unit :=
  modify (updConds (Conditions_MarkTrue t m)).

(** [return ctrlResult, err] when [err != nil], [return ctrlResult, nil] when
    the result is not empty, and go on otherwise. *)
Definition returnUnlessDone (r : RE) : Go I RE unit :=
  match r with
  | (res, Some err) => return_ (res, Some err)
  | (res, None) => if bool_decide (res = emptyResult) then ret tt else return_ (res, None)
  end.

(** ** ovn_common.go *)

Definition ensureTopology (finalizer : string) (defaultLabelSelector : gmap string string)
    : Go I (fallible (option Topology)) (fallible (option Topology)) :=
  let! i := get in
  let! r := call (EnsureServiceTopology (cs_TopologyRef (cr_Spec i))
                    (cr_GetLastAppliedTopology i) finalizer defaultLabelSelector) in
  match r with
  | Fail err =>
      do! setCond (FalseCondition TopologyReadyCondition ErrorReason SeverityWarning
                     (Msg "condition.TopologyReadyErrorMessage" [Error err]));
      return_ (Fail (Errorf_w "waiting for Topology requirements: " err ""))
  | Okay topology =>
      do! modify (λ i, cr_SetLastAppliedTopology (cs_TopologyRef (cr_Spec i)) i);
      do! (match cs_TopologyRef (cr_Spec i) with
           | Some _ => markTrue TopologyReadyCondition (Msg "condition.TopologyReadyMessage" [])
           | None => ret tt
           end);
      ret (Okay topology)
  end.

(** ** Reconcile: the deferred function *)

(** The Ready condition from the others. *)
Definition updateReady (cs : Conditions) : Conditions :=
  if Conditions_AllSubConditionIsTrue cs then
    Conditions_MarkTrue ReadyCondition (Msg "condition.ReadyMessage" []) cs
  else
    let cs1 := Conditions_MarkUnknown ReadyCondition InitReason
                 (Msg "condition.ReadyInitMessage" []) cs in
    Conditions_Set (Conditions_Mirror ReadyCondition cs1) cs1.

(** A panic of the body goes through without a patch; otherwise the status is
    patched, and an error of the patch replaces the error of the body. *)
Definition deferPatch (savedConditions : Conditions) (body : Go I RE RE) : Go I RE RE :=
  let! r := fn body in
  do! modify (λ i, cr_set_Conditions
                     (RestoreLastTransitionTimes (updateReady (cr_Conditions i))
                        savedConditions) i);
  let! i := get in
  let! perr := call (PatchInstance (to_object i)) in
  ret (r.1, match perr with Some e => Some e | None => r.2 end).

(** [if instance.Status.Conditions == nil { instance.Status.Conditions = {} }]. *)
Definition initConditionsIfNil (cs : Conditions) : Conditions :=
  if Conditions_isNil cs then Conditions_empty else cs.

(** [instance.DeletionTimestamp.IsZero()]. *)
Definition DeletionTimestamp_IsZero (i : I) : bool :=
  match om_DeletionTimestamp (cr_Meta i) with None => true | Some _ => false end.

(** [instance.DeletionTimestamp.IsZero() && controllerutil.AddFinalizer(instance,
    helper.GetFinalizer())], with its effect on the finalizers. *)
Definition addFinalizerUnlessDeleted {X} : Go I X bool :=
  let! i := get in
  if DeletionTimestamp_IsZero i then
    let '(fs, added) := AddFinalizer (om_Finalizers (cr_Meta i)) (GetFinalizer cr_GoKind) in
    do! modify (λ i, cr_set_Meta (om_set_Finalizers fs (cr_Meta i)) i);
    ret added
  else ret false.

Definition reconcileDelete : Go I RE RE :=
  let! i := get in
  let! r := call (EnsureDeletedTopologyRef (cr_GetLastAppliedTopology i)
                    (om_Name (cr_Meta i))) in
  match r with
  | (res, Some err) => return_ (res, Some err)
  | (_, None) =>
      do! modify (λ i, cr_set_Meta (om_set_Finalizers
            (RemoveFinalizer (om_Finalizers (cr_Meta i)) (GetFinalizer cr_GoKind))
            (cr_Meta i)) i);
      ret (emptyResult, None)
  end.

(** What runs under the deferred patch: [isNew] is the extra test of the early
    return, [prepare] what initialises the rest of the status after it. *)
Definition reconcileBody (isNew : bool) (prepare : I → I) (normal : Go I RE RE)
    : Go I RE RE :=
  let! added := addFinalizerUnlessDeleted in
  if added || isNew then return_ (emptyResult, None)
  else
    do! modify prepare;
    let! instance := get in
    if DeletionTimestamp_IsZero instance then fn normal else fn reconcileDelete.

(** [Reconcile], from the instance the API server returned: [initStatus] is the
    initialisation of the status, [body] what runs under the deferred patch. *)
Definition reconcileInstance (initStatus : I → I) (body : I → Go I RE RE) : Go I RE RE :=
  let! instance := get in
  let! err := call (NewHelper (to_object instance)) in
  match err with
  | Some e => return_ (emptyResult, Some e)
  | None =>
      let savedConditions := initConditionsIfNil (cr_Conditions instance) in
      do! modify initStatus;
      deferPatch savedConditions (body instance)
  end.

Definition reconcile (fetch : Ext (fallible I)) (initStatus : I → I) (body : I → Go I RE RE)
    : prog Ext RE :=
  Vis fetch (λ r,
    match r with
    | Fail err => if IsNotFound err then Ret (emptyResult, None)
                  else Ret (emptyResult, Some err)
    | Okay instance =>
        pbind (reconcileInstance initStatus body instance) (λ r, match r with
          | Exit _ x | Cont _ x => Ret x
          end)
    end).

(** ** reconcileNormal: RBAC *)

Definition reconcileRbac (rbacConditionsSet : Condition → I → I) (rules : list PolicyRule)
    : Go I RE unit :=
  let! i := get in
  let! r := call (ReconcileRbac (to_object i) rules) in
  let '(cs, re) := r in
  do! modify (λ i, foldl (λ i c, rbacConditionsSet c i) i cs);
  returnUnlessDone re.

(** ** reconcileNormal: TLS input validation *)

Definition tlsError (err : error) : Go I RE unit :=
  setCond (FalseCondition TLSInputReadyCondition ErrorReason SeverityWarning
             (Msg "condition.TLSInputErrorMessage" [Error err])).

(** The CA bundle secret: its hash joins the variables. *)
Definition validateCaBundle (vars : gmap string Setter) : Go I RE (gmap string Setter) :=
  let! i := get in
  let name := tls_CaBundleSecretName (cs_TLS (cr_Spec i)) in
  if nonempty name then
    let! r := call (ValidateCACertSecret
                      (mkNamespacedName (om_Namespace (cr_Meta i)) name)) in
    match r with
    | Fail err =>
        if IsNotFound err then
          do! setCond (FalseCondition TLSInputReadyCondition ErrorReason SeverityWarning
                         (Msg "condition.TLSInputReadyWaitingMessage" [name]));
          return_ (emptyResult, None)
        else
          do! tlsError err;
          return_ (emptyResult, Some err)
    | Okay hash =>
        ret (if nonempty hash then <[CABundleKey := SetValue hash]> vars else vars)
    end
  else ret vars.

(** A certificate secret: its hash joins the variables under [key]. *)
Definition validateCert (svc : SimpleService) (key : string) (vars : gmap string Setter)
    : Go I RE (gmap string Setter) :=
  let! i := get in
  if tls_Enabled svc then
    let! r := call (ValidateCertSecret svc (om_Namespace (cr_Meta i))) in
    match r with
    | Fail err =>
        if IsNotFound err then
          do! setCond (FalseCondition TLSInputReadyCondition RequestedReason SeverityInfo
                         (Msg "condition.TLSInputReadyWaitingMessage" [Error err]));
          return_ (emptyResult, None)
        else
          do! tlsError err;
          return_ (emptyResult, Some err)
    | Okay hash => ret (<[key := SetValue hash]> vars)
    end
  else ret vars.

(** The service certificate, then, when the exporter runs, its certificate. *)
Definition validateServiceCert (vars : gmap string Setter) : Go I RE (gmap string Setter) :=
  let! i := get in
  validateCert (cs_TLS (cr_Spec i)) TLSHashName vars.

Definition validateMetricsCert (vars : gmap string Setter) : Go I RE (gmap string Setter) :=
  let! i := get in
  if metrics_on (cs_ExporterImage (cr_Spec i)) (cs_MetricsEnabled (cr_Spec i)) then
    validateCert (cs_MetricsTLS (cr_Spec i)) (TLSHashName +:+ "_metrics") vars
  else ret vars.

Definition validateTLS (vars : gmap string Setter) : Go I RE (gmap string Setter) :=
  let! vars := validateCaBundle vars in
  let! vars := validateServiceCert vars in
  validateMetricsCert vars.

(** ** createHashOfInputHashes *)

(** The hash of the variables, stored under [key]; whether it changed. *)
Definition storeHash {X} (envVars : gmap string Setter) (key : string)
    : Go I X (fallible (string * bool)) :=
  let! i := get in
  match ObjectHash (MergeEnvs [] envVars) with
  | Fail err => ret (Fail err)
  | Okay hash =>
      let '(hashMap, changed) := SetHash (default ∅ (cr_Hash i)) key hash in
      do! (if changed then modify (cr_set_Hash (Some hashMap)) else ret tt);
      ret (Okay (hash, changed))
  end.
End shared.
