(* ===== verification/SharedProofs.v ===== *)
(** * What the shared segments of the reconcilers do

    Specifications of the definitions of [Shared], proved once over
    [CustomResource] and used by the proofs of the three reconcilers. *)
From S2P Require Import Prelude Prog Triples K8s Lib Api ApiMethods Calls Shared.
#[local] Open Scope go_scope.

Section shared_proofs.
Context {AT : ApiTypes} {CL : CondLib} {L : Lib}.
Context {I : Type} {CR : CustomResource I} {OI : IsObject I} {CRL : CustomResourceLaws I}.

(** ** TLS inputs *)

(** The variables before and after each validation: the secret that the specification
    names has been validated in [tr], and the hash of its contents is now a variable. *)
Definition ca_validated (i : I) (vars vars' : gmap string Setter) (tr : list (event Ext)) : Prop :=
  let name := tls_CaBundleSecretName (cs_TLS (cr_Spec i)) in
  if nonempty name then
    ∃ hash, Ev (ValidateCACertSecret (mkNamespacedName (om_Namespace (cr_Meta i)) name))
              (Okay hash) ∈ tr ∧
            vars' = if nonempty hash then <[CABundleKey := SetValue hash]> vars else vars
  else vars' = vars.
Definition cert_validated (svc : SimpleService) (i : I) (key : string)
    (vars vars' : gmap string Setter) (tr : list (event Ext)) : Prop :=
  if tls_Enabled svc then
    ∃ hash, Ev (ValidateCertSecret svc (om_Namespace (cr_Meta i))) (Okay hash) ∈ tr ∧
            vars' = <[key := SetValue hash]> vars
  else vars' = vars.
Definition metrics_validated (i : I) (vars vars' : gmap string Setter) (tr : list (event Ext))
    : Prop :=
  if metrics_on (cs_ExporterImage (cr_Spec i)) (cs_MetricsEnabled (cr_Spec i)) then
    cert_validated (cs_MetricsTLS (cr_Spec i)) i (TLSHashName +:+ "_metrics") vars vars' tr
  else vars' = vars.

(** The variables are the hashes of the CA bundle, of the certificate and, when the
    exporter runs, of its certificate, and nothing else. *)
Definition tls_validated (i : I) (vars : gmap string Setter) (tr : list (event Ext)) : Prop :=
  ∃ v1 v2, ca_validated i ∅ v1 tr ∧
    cert_validated (cs_TLS (cr_Spec i)) i TLSHashName v1 v2 tr ∧
    metrics_validated i v2 vars tr.

Lemma ca_validated_mono i v v' tr tr' :
  tr ⊆ tr' → ca_validated i v v' tr → ca_validated i v v' tr'.
Proof.
  unfold ca_validated. intros Hsub. destruct (nonempty _); [|done].
  intros (h & Hh & ->). eauto.
Qed.
Lemma cert_validated_mono svc i key v v' tr tr' :
  tr ⊆ tr' → cert_validated svc i key v v' tr → cert_validated svc i key v v' tr'.
Proof.
  unfold cert_validated. intros Hsub. destruct (tls_Enabled _); [|done].
  intros (h & Hh & ->). eauto.
Qed.
Lemma metrics_validated_mono i v v' tr tr' :
  tr ⊆ tr' → metrics_validated i v v' tr → metrics_validated i v v' tr'.
Proof.
  unfold metrics_validated. intros Hsub. destruct (metrics_on _ _); [|done].
  by apply cert_validated_mono.
Qed.
Lemma tls_validated_mono i vars tr tr' :
  tr ⊆ tr' → tls_validated i vars tr → tls_validated i vars tr'.
Proof.
  intros Hsub (v1 & v2 & Hca & Hc & Hm). exists v1, v2.
  split; [by eapply ca_validated_mono|].
  split; [by eapply cert_validated_mono|by eapply metrics_validated_mono].
Qed.

Lemma validateCaBundle_spec vars i :
  quietly is_write (validateCaBundle vars) i (λ tr i' vars', i' = i ∧ ca_validated i vars vars' tr).
Proof.
  unfold quietly, validateCaBundle, tlsError, setCond, ca_validated. repeat wp_step; cbn.
  all: split; [solve_quiet|try done].
  all: split; [done|]. eexists. split; [solve_in|done].
Qed.

Lemma validateCert_spec svc key vars i :
  quietly is_write (validateCert svc key vars) i (λ tr i' vars',
    i' = i ∧ cert_validated svc i key vars vars' tr).
Proof.
  unfold quietly, validateCert, tlsError, setCond, cert_validated. repeat wp_step; cbn.
  all: split; [solve_quiet|try done].
  all: split; [done|]. eexists. split; [solve_in|done].
Qed.

Lemma validateMetricsCert_spec vars i :
  quietly is_write (validateMetricsCert vars) i (λ tr i' vars',
    i' = i ∧ metrics_validated i vars vars' tr).
Proof.
  unfold validateMetricsCert, metrics_validated. apply quietly_get.
  destruct (metrics_on _ _); [apply validateCert_spec|by split; [solve_quiet|]].
Qed.

(** The three validations in the order of the reconcilers. *)
Lemma validateTLS_spec i :
  quietly is_write (validateTLS ∅) i (λ tr i' vars', i' = i ∧ tls_validated i vars' tr).
Proof.
  unfold validateTLS.
  eapply quietly_bind; [apply validateCaBundle_spec|]. cbn. intros tr1 i1 v1 [-> Hca].
  eapply quietly_bind.
  { unfold validateServiceCert. apply quietly_get, validateCert_spec. }
  cbn. intros tr2 i2 v2 [-> Hcert].
  eapply quietly_mono; [|apply validateMetricsCert_spec]. cbn. intros tr3 i3 v3 [-> Hm].
  split; [done|]. exists v1, v2.
  split; [by eapply ca_validated_mono, Hca; set_solver|].
  split; [by eapply cert_validated_mono, Hcert; set_solver|].
  by eapply metrics_validated_mono, Hm; set_solver.
Qed.

(** ** The topology *)

Lemma ensureTopology_spec finalizer sel i :
  wpM (ensureTopology finalizer sel) i (λ tr o, ∃ r,
    tr = [Ev (EnsureServiceTopology (cs_TopologyRef (cr_Spec i))
                (cr_GetLastAppliedTopology i) finalizer sel) r] ∧
    match o with
    | Done (Exit i' a) | Done (Cont i' a) =>
        cr_Spec i' = cr_Spec i ∧ cr_Meta i' = cr_Meta i ∧ cr_Hash i' = cr_Hash i ∧
        match r with
        | Okay t => a = Okay t ∧ cr_GetLastAppliedTopology i' = cs_TopologyRef (cr_Spec i)
        | Fail e => a = Fail (Errorf_w "waiting for Topology requirements: " e "") ∧
                    cr_GetLastAppliedTopology i' = cr_GetLastAppliedTopology i
        end
    | Panicked => False
    end).
Proof.
  unfold ensureTopology, markTrue, setCond, updConds. repeat wp_step; cbn.
  all: eexists; split; [done|]; by autorewrite with cr.
Qed.

(** ** RBAC *)

(** [reconcileRbac] keeps what setting the three conditions keeps. *)
Lemma triple_reconcileRbac (P : event Ext → Prop) (Inv : I → Prop) set rules :
  (∀ c i, cond_Type c ∈ rbacTypes → Inv i → Inv (set c i)) →
  (∀ o rs r, P (Ev (ReconcileRbac o rs) r)) →
  triple rbac_ok P True Inv (reconcileRbac set rules) (λ _, True).
Proof.
  intros Hset HP. unfold reconcileRbac. eapply triple_bind; [apply triple_get|]. intros i Hi.
  apply (triple_bind _ _ _ _ _ _ (λ r, Forall (λ c, cond_Type c ∈ rbacTypes) r.1)).
  { apply triple_call. intros r Hr. split; [apply HP|exact Hr]. }
  intros [cs re] Hcs. cbn in Hcs.
  apply (triple_bind _ _ _ _ _ _ (λ _, True)); [apply triple_modify; [|done]|].
  - clear i Hi. intros i Hi. induction Hcs as [|c cs Hc _ IH] in i, Hi |- *; cbn; auto.
  - intros _ _. triples fail with idtac.
Qed.

(** ** The input hash *)

(** Storing the hash of the same variables twice changes nothing the second time. *)
Lemma storeHash_spec {X} {HL : HashLaws L} vars key (i : I) tr o :
  exec (storeHash (X := X) vars key i) tr o →
  tr = [] ∧
  match ObjectHash (MergeEnvs [] vars) with
  | Fail err => o = Done (Cont i (Fail err))
  | Okay hash =>
      ∃ i' changed, o = Done (Cont i' (Okay (hash, changed))) ∧
        changed = negb (bool_decide (default ∅ (cr_Hash i) !! key = Some hash)) ∧
        default ∅ (cr_Hash i') !! key = Some hash ∧
        cr_Hash i' = (if changed then Some (<[key := hash]> (default ∅ (cr_Hash i)))
                      else cr_Hash i) ∧
        cr_Spec i' = cr_Spec i ∧ cr_Meta i' = cr_Meta i ∧ cr_Conditions i' = cr_Conditions i
  end.
Proof.
  revert tr o. apply wp_exec. unfold storeHash.
  destruct (ObjectHash _) as [hash|err] eqn:Hh; repeat wp_step; cbn; auto.
  all: split; [done|].
  all: destruct (SetHash_spec (default ∅ (cr_Hash i)) key hash) as [Hc Hm].
  all: match goal with H : SetHash _ _ _ = _ |- _ => rewrite H in Hc, Hm; cbn in Hc, Hm end.
  all: eexists _, _; split; [done|]; split; [done|].
  - rewrite (Hm eq_refl). autorewrite with cr. cbn. by rewrite lookup_insert_eq.
  - symmetry in Hc. apply negb_false_iff, bool_decide_eq_true in Hc. auto.
Qed.

(** ** The deferred patch *)

Lemma status_updateReady {CLaws : CondLaws CL} t cs :
  t ≠ ReadyCondition → status_of t (updateReady cs) = status_of t cs.
Proof.
  intros Ht. unfold updateReady. destruct (Conditions_AllSubConditionIsTrue cs) eqn:Hall; [conds|].
  set (cs1 := Conditions_MarkUnknown _ _ _ cs).
  assert (Conditions_AllSubConditionIsTrue cs1 = false) as Hall1
    by (unfold cs1; by rewrite AllSub_MarkUnknown).
  destruct (Conditions_Mirror ReadyCondition cs1) as [c|] eqn:Hm.
  - destruct (Mirror_spec _ _ _ Hall1 Hm) as [Hc _].
    rewrite status_Set, decide_False by congruence. unfold cs1. conds.
  - rewrite Set_nil. unfold cs1. conds.
Qed.

(** The Ready condition the deferred function computes. *)
Lemma status_Ready_updateReady {CLaws : CondLaws CL} cs :
  status_of ReadyCondition (updateReady cs) = Some ConditionTrue ↔
  ∀ t s, t ≠ ReadyCondition → status_of t cs = Some s → s = ConditionTrue.
Proof.
  rewrite <- AllSub_status. unfold updateReady.
  destruct (Conditions_AllSubConditionIsTrue cs) eqn:Hall; [by split; intros; [|conds]|].
  split; [|done]. set (cs1 := Conditions_MarkUnknown _ _ _ cs). intros Hr. exfalso.
  assert (Conditions_AllSubConditionIsTrue cs1 = false) as Hall1
    by (unfold cs1; by rewrite AllSub_MarkUnknown).
  destruct (Conditions_Mirror ReadyCondition cs1) as [c|] eqn:Hm.
  - destruct (Mirror_spec _ _ _ Hall1 Hm) as [Hc Hs].
    rewrite status_Set, decide_True in Hr by congruence. congruence.
  - rewrite Set_nil in Hr. unfold cs1 in Hr. rewrite status_MarkUnknown in Hr.
    by case_decide.
Qed.

(** The object the deferred function patches. *)
Definition patched (saved : Conditions) (i : I) : I :=
  cr_set_Conditions (RestoreLastTransitionTimes (updateReady (cr_Conditions i)) saved) i.

Lemma status_patched {CLaws : CondLaws CL} saved i t :
  t ≠ ReadyCondition →
  status_of t (cr_Conditions (patched saved i)) = status_of t (cr_Conditions i).
Proof.
  intros Ht. unfold patched. rewrite Cond_Cond, status_Restore. by apply status_updateReady.
Qed.

Lemma ready_patched {CLaws : CondLaws CL} saved i :
  status_of ReadyCondition (cr_Conditions (patched saved i)) = Some ConditionTrue ↔
  ∀ t s, t ≠ ReadyCondition → status_of t (cr_Conditions i) = Some s → s = ConditionTrue.
Proof. unfold patched. rewrite Cond_Cond, status_Restore. apply status_Ready_updateReady. Qed.

(** The patch always has a Ready condition. *)
Lemma patched_not_nil {CLaws : CondLaws CL} saved i :
  Conditions_isNil (cr_Conditions (patched saved i)) = false.
Proof.
  apply (status_isNil ReadyCondition). unfold patched. rewrite Cond_Cond, status_Restore.
  unfold updateReady. destruct (Conditions_AllSubConditionIsTrue _) eqn:Hall.
  - rewrite status_MarkTrue. by case_decide.
  - set (cs1 := Conditions_MarkUnknown _ _ _ _).
    destruct (Conditions_Mirror ReadyCondition cs1) as [c|] eqn:Hm.
    + apply Mirror_spec in Hm as [Hc _]; [|unfold cs1; by rewrite AllSub_MarkUnknown].
      rewrite status_Set. by case_decide.
    + rewrite Set_nil. unfold cs1. rewrite status_MarkUnknown. by case_decide.
Qed.

(** The error of the patch, when there is one, replaces the error of the body. *)
Definition patchedResult (x : RE) (perr : option error) : RE :=
  (x.1, match perr with Some e => Some e | None => x.2 end).

(** How a body ended, whether by a [return] or at its last statement. *)
Definition ended {A} (i : I) (x : A) (o : outcome (mres I A A)) : Prop :=
  o = Done (Exit i x) ∨ o = Done (Cont i x).

(** A pure builder, and the object it gives. *)
Lemma triple_lift_go {S X A} (Env P : event Ext → Prop) (N : Prop) (Inv : S → Prop) (g : go A) :
  (g = GPanic → N) →
  triple Env P N Inv (lift_go (X := X) g) (λ r, ∀ a, r = Okay a → g = GOk a).
Proof.
  intros HN. unfold lift_go. destruct g; [apply triple_ret..|apply triple_panic].
  - by intros ? [= <-].
  - done.
  - auto.
Qed.

(** A function that leaves the object alone, called. *)
Lemma fn_ended {S X Y} (m : Go S X X) (s : S) (Φ : list (event Ext) → X → Prop) :
  wpM m s (λ tr o, ∃ x, (o = Done (Exit s x) ∨ o = Done (Cont s x)) ∧ Φ tr x) →
  wpM (fn (Y := Y) m) s (λ tr o, ∃ x, o = Done (Cont s x) ∧ Φ tr x).
Proof.
  intros Hm. apply wpM_fn. eapply wpM_mono; [|exact Hm].
  intros tr o (x & [-> | ->] & Hx); by exists x.
Qed.

Lemma deferPatch_spec saved (body : Go I RE RE) i tr o :
  exec (deferPatch saved body i) tr o →
  (o = Panicked ∧ exec (body i) tr Panicked) ∨
  ∃ tr' ib x ob perr,
    exec (body i) tr' ob ∧ ended ib x ob ∧
    tr = tr' ++ [Ev (PatchInstance (to_object (patched saved ib))) perr] ∧
    o = Done (Cont (patched saved ib) (patchedResult x perr)).
Proof.
  revert tr o. apply wp_exec. unfold deferPatch. apply wpM_bind, wpM_fn.
  apply wp_exec. intros tr ob Hex.
  assert (∀ ib x, ended ib x ob →
    wpM (X := RE) (do! modify (λ i, cr_set_Conditions
               (RestoreLastTransitionTimes (updateReady (cr_Conditions i)) saved) i);
         let! i := get in
         let! perr := call (PatchInstance (to_object i)) in
         ret (x.1, match perr with Some e => Some e | None => x.2 end)) ib
      (λ tr' o', (o' = Panicked ∧ exec (body i) (tr ++ tr') Panicked) ∨
        ∃ tr'' ib x ob perr, exec (body i) tr'' ob ∧ ended ib x ob ∧
          tr ++ tr' = tr'' ++ [Ev (PatchInstance (to_object (patched saved ib))) perr] ∧
          o' = Done (Cont (patched saved ib) (patchedResult x perr)))) as Hend.
  { intros ib x Hx. repeat wp_step; cbn; right; eexists tr, ib, x, ob, _; eauto. }
  destruct ob as [[ib x|ib x]|]; [apply Hend; by left|apply Hend; by right|by left].
Qed.

(** ** Reconcile *)

(** The four ways a reconciliation runs. *)
Variant reconcile_run (fetch : Ext (fallible I)) (init : I → I) (body : I → Go I RE RE)
    : list (event Ext) → outcome RE → Prop :=
| run_unread err :
    reconcile_run fetch init body [Ev fetch (Fail err)]
      (Done (emptyResult, if IsNotFound err then None else Some err))
| run_unhelped i err :
    reconcile_run fetch init body
      [Ev fetch (Okay i); Ev (NewHelper (to_object i)) (Some err)]
      (Done (emptyResult, Some err))
| run_panicked i tr :
    exec (body i (init i)) tr Panicked →
    reconcile_run fetch init body
      (Ev fetch (Okay i) :: Ev (NewHelper (to_object i)) None :: tr) Panicked
| run_patched i tr ib x ob perr :
    exec (body i (init i)) tr ob → ended ib x ob →
    reconcile_run fetch init body
      (Ev fetch (Okay i) :: Ev (NewHelper (to_object i)) None ::
       tr ++ [Ev (PatchInstance
                    (to_object (patched (initConditionsIfNil (cr_Conditions i)) ib))) perr])
      (Done (patchedResult x perr)).

Lemma reconcile_runs fetch init body tr o :
  exec (reconcile fetch init body) tr o → reconcile_run fetch init body tr o.
Proof.
  revert tr o. apply wp_exec. unfold reconcile. repeat wp_step.
  - apply wp_bind. unfold reconcileInstance. repeat wp_step; [constructor|].
    apply wp_exec. intros tr o Hex. cbn.
    apply deferPatch_spec in Hex as [[-> Hex]|(tr' & ib & x & ob & perr & Hex & Hend & -> & ->)].
    + by constructor.
    + cbn. rewrite app_nil_r. by econstructor.
  - cbn. generalize (run_unread fetch init body err). by case_match.
  - cbn. generalize (run_unread fetch init body err). by case_match.
Qed.

Definition cr_set_Finalizers (fs : list string) (i : I) : I :=
  cr_set_Meta (om_set_Finalizers fs (cr_Meta i)) i.
Definition has_finalizer (i : I) : Prop :=
  GetFinalizer cr_GoKind ∈ om_Finalizers (cr_Meta i).

Lemma cr_set_Finalizers_self i : cr_set_Finalizers (om_Finalizers (cr_Meta i)) i = i.
Proof.
  transitivity (cr_set_Meta (cr_Meta i) i); [|apply Meta_self].
  unfold cr_set_Finalizers. by destruct (cr_Meta i).
Qed.

(** The object after [reconcileDelete]: the finalizer goes unless the topology
    still holds on. *)
Definition deleted (r : RE) (i : I) : I :=
  match r.2 with
  | Some _ => i
  | None => cr_set_Finalizers (filter (λ g, g ≠ GetFinalizer cr_GoKind)
                                 (om_Finalizers (cr_Meta i))) i
  end.

Lemma reconcileDelete_spec {FL : FinalizerLaws L} i :
  wpM reconcileDelete i (λ tr o, ∃ r,
    tr = [Ev (EnsureDeletedTopologyRef (cr_GetLastAppliedTopology i) (om_Name (cr_Meta i))) r] ∧
    ended (deleted r i) (match r.2 with Some _ => r | None => (emptyResult, None) end) o).
Proof.
  unfold reconcileDelete. repeat wp_step; cbn; eexists; (split; [done|]); cbn.
  - by left.
  - right. by rewrite RemoveFinalizer_spec.
Qed.

(** The four ways a body runs from the object [i], by deletion and finalizer. *)
Variant body_run (isNew : bool) (prepare : I → I) (normal : Go I RE RE) (i : I)
    : list (event Ext) → outcome (mres I RE RE) → Prop :=
| body_finalizer :
    DeletionTimestamp_IsZero i = true → ¬ has_finalizer i →
    body_run isNew prepare normal i []
      (Done (Exit (cr_set_Finalizers (om_Finalizers (cr_Meta i) ++ [GetFinalizer cr_GoKind]) i)
               (emptyResult, None)))
| body_new :
    isNew = true → (DeletionTimestamp_IsZero i = true → has_finalizer i) →
    body_run isNew prepare normal i [] (Done (Exit i (emptyResult, None)))
| body_normal tr o :
    isNew = false → DeletionTimestamp_IsZero i = true → has_finalizer i →
    exec (normal (prepare i)) tr o →
    body_run isNew prepare normal i tr
      (match o with
       | Done (Exit i' x) | Done (Cont i' x) => Done (Cont i' x)
       | Panicked => Panicked
       end)
| body_delete r :
    isNew = false → DeletionTimestamp_IsZero i = false →
    body_run isNew prepare normal i
      [Ev (EnsureDeletedTopologyRef (cr_GetLastAppliedTopology (prepare i))
             (om_Name (cr_Meta i))) r]
      (Done (Cont (deleted r (prepare i))
               (match r.2 with Some _ => r | None => (emptyResult, None) end))).

Lemma reconcileBody_runs {FL : FinalizerLaws L} isNew prepare normal i tr o :
  (∀ i, cr_Meta (prepare i) = cr_Meta i) →
  exec (reconcileBody isNew prepare normal i) tr o → body_run isNew prepare normal i tr o.
Proof.
  intros Hprep. revert tr o. apply wp_exec. unfold reconcileBody, addFinalizerUnlessDeleted.
  assert (DeletionTimestamp_IsZero (prepare i) = DeletionTimestamp_IsZero i) as Hzero
    by (unfold DeletionTimestamp_IsZero; by rewrite Hprep).
  assert (wp (fn (Y := RE) normal (prepare i)) (λ tr o, ∃ o', exec (normal (prepare i)) tr o' ∧
      o = match o' with
          | Done (Exit i' x) | Done (Cont i' x) => Done (Cont i' x)
          | Panicked => Panicked end)) as Hnormal.
  { apply wpM_fn, wp_exec. intros tr [[i' x|i' x]|] Hex; eexists; eauto. }
  assert (wp (fn (Y := RE) reconcileDelete (prepare i)) (λ tr o, ∃ r,
      tr = [Ev (EnsureDeletedTopologyRef (cr_GetLastAppliedTopology (prepare i))
                  (om_Name (cr_Meta i))) r] ∧
      o = Done (Cont (deleted r (prepare i))
                  (match r.2 with Some _ => r | None => (emptyResult, None) end)))) as Hdelete.
  { apply wpM_fn. eapply wpM_mono; [|apply reconcileDelete_spec]. cbn.
    intros tr o (r & -> & [-> | ->]); exists r; by rewrite Hprep. }
  destruct (DeletionTimestamp_IsZero i) eqn:Hz.
  - pose proof (AddFinalizer_spec (om_Finalizers (cr_Meta i)) (GetFinalizer cr_GoKind)) as Hadd.
    case_decide as Hf; cbn; rewrite Hz, Hadd; cbn; [|by apply body_finalizer].
    destruct isNew; cbn; fold (cr_set_Finalizers (om_Finalizers (cr_Meta i)) i);
      rewrite cr_set_Finalizers_self; [by apply body_new|].
    rewrite Hzero. eapply wp_mono; [|exact Hnormal].
    intros tr o (o' & Hex & ->). by apply body_normal.
  - cbn. rewrite Hz. cbn. destruct isNew; cbn; [apply body_new; [done|by rewrite Hz]|].
    rewrite Hzero. eapply wp_mono; [|exact Hdelete].
    intros tr o (r & -> & ->). by apply body_delete.
Qed.

(** A body that leaves the status to the deferred patch. *)
Definition patchless (m : Go I RE RE) : Prop :=
  triple (λ _, True) (λ ev, ¬ is_patch ev) True (λ _, True) m (λ _, True).

Lemma patchless_exec m i tr o : patchless m → exec (m i) tr o → Forall (λ ev, ¬ is_patch ev) tr.
Proof.
  intros Hm Hex. by apply (triple_exec _ _ _ _ _ _ _ _ _ Hm Logic.I Hex), Forall_true.
Qed.

Lemma reconcileBody_patchless isNew prepare normal :
  patchless normal → patchless (reconcileBody isNew prepare normal).
Proof.
  intros Hn. unfold patchless, reconcileBody.
  triples (idtac; lazymatch goal with |- triple _ _ _ _ normal _ => exact Hn end) with (cbn; tauto).
Qed.

(** The object of the patch, and the run of the body that led to it. *)
Lemma reconcile_patched `{!Inj (=) (=) (to_object (I := I))} fetch init body tr o i' perr :
  (∀ r, ¬ is_patch (Ev fetch r)) → (∀ i, patchless (body i)) →
  exec (reconcile fetch init body) tr o →
  Ev (PatchInstance (to_object i')) perr ∈ tr →
  ∃ i tr' ib x ob, exec (body i (init i)) tr' ob ∧ ended ib x ob ∧
    tr = Ev fetch (Okay i) :: Ev (NewHelper (to_object i)) None ::
         tr' ++ [Ev (PatchInstance (to_object i')) perr] ∧
    i' = patched (initConditionsIfNil (cr_Conditions i)) ib ∧
    o = Done (patchedResult x perr).
Proof.
  intros Hf Hb Hex Hin.
  assert (∀ ev, ev = Ev (PatchInstance (to_object i')) perr → is_patch ev) as Hev by by intros ? ->.
  destruct (reconcile_runs _ _ _ _ _ Hex) as [err|i err|i tr' Hbody|i tr' ib x ob perr' Hbody He];
    rewrite ?elem_of_cons, ?elem_of_app, ?elem_of_cons, ?elem_of_nil in Hin.
  - destruct Hin as [Heq|[]]. symmetry in Heq. by destruct (Hf _ (Hev _ Heq)).
  - destruct Hin as [Heq|[Heq|[]]]; symmetry in Heq; [by destruct (Hf _ (Hev _ Heq))|].
    by destruct (Hev _ Heq).
  - destruct Hin as [Heq|[Heq|Hin]]; [symmetry in Heq; by destruct (Hf _ (Hev _ Heq))|
      symmetry in Heq; by destruct (Hev _ Heq)|].
    pose proof (patchless_exec _ _ _ _ (Hb i) Hbody) as Hq. rewrite Forall_forall in Hq.
    by destruct (Hq _ Hin).
  - destruct Hin as [Heq|[Heq|[Hin|[Heq|[]]]]]; [symmetry in Heq; by destruct (Hf _ (Hev _ Heq))|
      symmetry in Heq; by destruct (Hev _ Heq)| |].
    + pose proof (patchless_exec _ _ _ _ (Hb i) Hbody) as Hq. rewrite Forall_forall in Hq.
      by destruct (Hq _ Hin).
    + apply patch_inj in Heq as [Hi <-]. apply (inj to_object) in Hi as ->.
      eexists i, tr', ib, x, ob. auto.
Qed.

(** ** From reconcileNormal to Reconcile *)

(** The requests every reconciliation makes around [reconcileNormal]. *)
Definition is_protocol (ev : event Ext) : Prop :=
  match ev with Ev e _ =>
    match e with
    | GetOVNDBCluster _ | GetOVNNorthd _ | GetOVNController_ _ | NewHelper _
    | PatchInstance _ | EnsureDeletedTopologyRef _ _ => True
    | _ => False
    end
  end.

(** The resource is neither deleted nor without its finalizer, as it is when
    [reconcileNormal] runs. *)
Definition managed (i : I) : Prop :=
  om_DeletionTimestamp (cr_Meta i) = None ∧ has_finalizer i.

Context (fetch : Ext (fallible I)) (init prepare : I → I) (isNew : I → bool)
  (normal : Go I RE RE).
Context (Hfetch : ∀ r, is_protocol (Ev fetch r)).
Context (Hinit : ∀ i, cr_Meta (init i) = cr_Meta i).
Context (Hprepare : ∀ i, cr_Meta (prepare i) = cr_Meta i).

Abbreviation the_reconcile :=
  (reconcile fetch init (λ i, reconcileBody (isNew i) prepare normal)).
Abbreviation prefix i := [Ev fetch (Okay i); Ev (NewHelper (to_object i)) None].

Lemma reconcile_guarded {FL : FinalizerLaws L} G P tr o :
  (∀ ev, is_protocol ev → ¬ P ev) →
  (∀ i, managed i → isNew i = false →
     wpM normal (prepare (init i)) (λ tr _, guarded (λ t ev, G (prefix i ++ t) ev) P tr)) →
  exec the_reconcile tr o → guarded G P tr.
Proof.
  intros HP Hnormal Hex.
  assert (∀ i tr' ob, exec (reconcileBody (isNew i) prepare normal (init i)) tr' ob →
    guarded G P (prefix i ++ tr')) as Hbody.
  { intros i tr' ob Hb.
    apply guarded_quiet_app.
    { apply Forall_cons_2; [by apply HP|]. by apply Forall_cons_2; [apply HP|]. }
    apply reconcileBody_runs in Hb; [|done].
    destruct Hb as [| |trn on Hnew Hz Hf Hn|]; auto using guarded_nil.
    - apply (proj1 (wp_exec _ _) (Hnormal i ltac:(
        unfold managed, has_finalizer, DeletionTimestamp_IsZero in *; rewrite Hinit in Hz, Hf;
        by destruct (om_DeletionTimestamp _)) Hnew) _ _ Hn).
    - apply guarded_quiet, Forall_cons_2; [by apply HP|by apply Forall_nil_2]. }
  destruct (reconcile_runs _ _ _ _ _ Hex); [apply guarded_quiet..| |].
  - apply Forall_cons_2; [by apply HP|by apply Forall_nil_2].
  - apply Forall_cons_2; [by apply HP|]. by apply Forall_cons_2; [apply HP|].
  - by eapply Hbody.
  - rewrite !app_comm_cons. apply guarded_app_quiet; [by eapply Hbody|].
    apply Forall_cons_2; [by apply HP|by apply Forall_nil_2].
Qed.

(** A condition that starts pending and is none any more when Ready is patched has
    been settled by a run of [reconcileNormal]. *)
Lemma reconcile_settled {FL : FinalizerLaws L} {CLaws : CondLaws CL}
    `{!Inj (=) (=) (to_object (I := I))} t tr o i' perr :
  t ≠ ReadyCondition → patchless normal → (∀ r, ¬ is_patch (Ev fetch r)) →
  (∀ i, cond_pending t (cr_Conditions (init i))) →
  (∀ i, cr_Conditions (prepare i) = cr_Conditions i) →
  exec the_reconcile tr o →
  Ev (PatchInstance (to_object i')) perr ∈ tr →
  Conditions_IsTrue ReadyCondition (cr_Conditions i') = true →
  ∃ i trn on ib x,
    managed i ∧ exec (normal (prepare (init i))) trn on ∧ ended ib x on ∧
    ¬ cond_pending t (cr_Conditions ib) ∧
    tr = prefix i ++ trn ++ [Ev (PatchInstance (to_object i')) perr] ∧
    i' = patched (initConditionsIfNil (cr_Conditions i)) ib.
Proof.
  intros Ht Hn Hf Hpend Hprep Hex Hin Hready.
  apply (reconcile_patched _ _ _ _ _ i' perr) in Hex as (i & tr' & ib & x & ob & Hb & He & -> & -> & _);
    [|done|intros j; by apply reconcileBody_patchless|done].
  apply IsTrue_status in Hready. rewrite ready_patched in Hready.
  assert (Hnot : ¬ cond_pending t (cr_Conditions ib)).
  { intros (st & Hs & Hst). by specialize (Hready t st Ht Hs). }
  apply reconcileBody_runs in Hb; [|done].
  destruct Hb as [| |trn on Hnew Hz Hfin Hrun|].
  - destruct He as [[=]|[=]]; subst. destruct Hnot.
    unfold cr_set_Finalizers. rewrite Cond_Meta. apply Hpend.
  - destruct He as [[=]|[=]]; subst. destruct Hnot. apply Hpend.
  - exists i, trn, on, ib, x. split; [|split; [done|split; [|done]]].
    + unfold managed, has_finalizer, DeletionTimestamp_IsZero in *. rewrite Hinit in Hz, Hfin.
      by destruct (om_DeletionTimestamp _).
    + destruct on as [[]|]; destruct He as [[=]|[=]]; subst; [by left|by right].
  - destruct He as [[=]|[=]]; subst. destruct Hnot. unfold deleted, cr_set_Finalizers.
    destruct (r.2); rewrite ?Cond_Meta, Hprep; apply Hpend.
Qed.
End shared_proofs.

(** ** Conditions that only one phase settles *)
Section settle.
Context {AT : ApiTypes} {CL : CondLib}.
Context {S : Type} (Env : event Ext → Prop) (Pend : S → Prop).

(** When the body ends with an object that is not pending, [K] holds of its run. *)
Definition settles (m : Go S RE RE) (s : S) (K : list (event Ext) → Prop) : Prop :=
  wpM m s (λ tr o, Forall Env tr → ∀ s' x,
    (o = Done (Exit s' x) ∨ o = Done (Cont s' x)) → ¬ Pend s' → K tr).

(** A phase that leaves the object pending, and what is known after it. *)
Definition pends {A} (m : Go S RE A) (s : S) (F : list (event Ext) → S → A → Prop) : Prop :=
  wpM m s (λ tr o, Forall Env tr →
    match o with
    | Done (Exit s' _) => Pend s'
    | Done (Cont s' a) => Pend s' ∧ F tr s' a
    | Panicked => True
    end).

Lemma settles_bind {A} (m : Go S RE A) f s F K :
  pends m s F →
  (∀ tr s' a, Pend s' → F tr s' a → settles (f a) s' (λ tr', K (tr ++ tr'))) →
  settles (bind m f) s K.
Proof.
  intros Hm Hf. apply wpM_bind. eapply wpM_mono; [|exact Hm].
  intros tr [[s' x|s' a]|] Htr; cbn beta iota in *.
  - intros Henv s2 x2 [[=]|[=]] Hn; subst. destruct Hn. auto.
  - apply wp_exec. intros tr' o Hex Henv. apply Forall_app in Henv as [He1 He2].
    destruct (Htr He1) as [Hp HF].
    exact (proj1 (wp_exec _ _) (Hf tr s' a Hp HF) tr' o Hex He2).
  - by intros _ ? ? [|].
Qed.

Lemma settles_skip {A} (m : Go S RE A) f s (K : list (event Ext) → Prop) :
  (∀ tr tr', K tr' → K (tr ++ tr')) →
  keeps Env Pend m → Pend s → (∀ s' a, Pend s' → settles (f a) s' K) →
  settles (bind m f) s K.
Proof.
  intros HK Hm HI Hf. apply (settles_bind _ _ _ (λ _ _ _, True)).
  - eapply wpM_mono; [|by apply Hm]. intros tr o Htr Henv. specialize (Htr Henv).
    destruct o as [[|]|]; tauto.
  - intros tr s' a Hp _. eapply wpM_mono; [|by apply Hf].
    intros tr' o Ho Henv s2 x He Hn. eauto.
Qed.

(** The phase after which the object may not be pending any more. *)
Lemma settles_last {A} (m : Go S RE A) f s (K : list (event Ext) → Prop) :
  wpM m s (λ tr o, Forall Env tr →
    match o with
    | Done (Exit s' _) => Pend s'
    | Done (Cont s' a) => Pend s' ∨ ∀ tr', K (tr ++ tr')
    | Panicked => True
    end) →
  (∀ a, keeps Env Pend (f a)) → settles (bind m f) s K.
Proof.
  intros Hm Hf. apply wpM_bind. eapply wpM_mono; [|exact Hm].
  intros tr [[s' x|s' a]|] Htr; cbn beta iota in *.
  - intros Henv s2 x2 [[=]|[=]] Hn; subst. destruct Hn. auto.
  - apply wp_exec. intros tr' o Hex Henv s2 x He Hn. apply Forall_app in Henv as [He1 He2].
    destruct (Htr He1) as [Hp|HK]; [|by apply HK]. exfalso. apply Hn.
    destruct (triple_exec _ _ _ _ _ _ _ _ _ (Hf a) Hp Hex He2) as [_ Ho].
    destruct He as [-> | ->]; tauto.
  - by intros _ ? ? [|].
Qed.
End settle.
