(* ===== verification/DBManifests.v ===== *)
(** * The objects of an OVN database cluster (internal/ovndbcluster)

    The services, volumes, StatefulSet, DNS data and runtime configuration jobs
    the [OVNDBCluster] reconciler asks for, as functions of the resource. *)
From S2P Require Import Prelude Prog K8s Lib Api ApiMethods Calls.
#[local] Open Scope go_scope.

(** ** Constants (internal/common, internal/ovndbcluster/const.go) *)
Definition OVNDbCertPath : string := "/etc/pki/tls/certs/ovndb.crt".
Definition OVNDbKeyPath : string := "/etc/pki/tls/private/ovndb.key".
Definition OVNDbCaCertPath : string := "/etc/pki/tls/certs/ovndbca.crt".
Definition OVNMetricsCertPath : string := "/etc/pki/tls/certs/ovnmetrics.crt".
Definition OVNMetricsKeyPath : string := "/etc/pki/tls/private/ovnmetrics.key".
Definition MetricsPort : Z := 1981.
Definition DbPortNB : Z := 6641.
Definition RaftPortNB : Z := 6643.
Definition DbPortSB : Z := 6642.
Definition RaftPortSB : Z := 6644.
Definition TerminationMessageFallbackToLogsOnError : string := "FallbackToLogsOnError".
(** [var scriptsVolumeDefaultMode int32 = 0755]. *)
Definition scriptsVolumeDefaultMode : Z := 493.

Section manifests.
Context {AT : ApiTypes} {CL : CondLib} {L : Lib}.

(** [instance.Spec.DBType == ovnv1.SBDBType]. *)
Definition isSB (instance : OVNDBCluster) : bool :=
  bool_decide (db_DBType (db_Spec instance) = SBDBType).

Definition db_metrics_on (instance : OVNDBCluster) : bool :=
  metrics_on (db_ExporterImage (db_Spec instance)) (db_MetricsEnabled (db_Spec instance)).

(** ** Services (service.go) *)

Definition Service_ (serviceName : string) (instance : OVNDBCluster)
    (serviceLabels selectorLabels : gmap string string) : Service :=
  let sb := isSB instance in
  let dbPortName := if sb then "south" else "north" in
  let raftPortName := if sb then "south-raft" else "north-raft" in
  let dbPort := if sb then DbPortSB else DbPortNB in
  let raftPort := if sb then RaftPortSB else RaftPortNB in
  let ports := [mkServicePort dbPortName dbPort ProtocolTCP;
                mkServicePort raftPortName raftPort ProtocolTCP] in
  let ports := if db_metrics_on instance
               then ports ++ [mkServicePort "metrics" MetricsPort ProtocolTCP] else ports in
  mkService serviceName (om_Namespace (db_Meta instance)) serviceLabels
    (mkServiceSpec selectorLabels ports false "" "").

Definition HeadlessService (serviceName : string) (instance : OVNDBCluster)
    (serviceLabels selectorLabels : gmap string string) : Service :=
  let sb := isSB instance in
  let raftPortName := if sb then "south-raft" else "north-raft" in
  let raftPort := if sb then RaftPortSB else RaftPortNB in
  mkService serviceName (om_Namespace (db_Meta instance)) serviceLabels
    (mkServiceSpec selectorLabels [mkServicePort raftPortName raftPort ProtocolTCP]
       true "None" "").

(** ** Volumes (volumes.go) *)

Definition PVCSuffixEtcOVN : string := "-etc-ovn".

Definition GetDBClusterVolumes (name : string) : list Volume :=
  [mkVolume "scripts" (ConfigMapVolume (name +:+ "-scripts") (Some scriptsVolumeDefaultMode));
   mkVolume "config" (ConfigMapVolume (name +:+ "-config") (Some scriptsVolumeDefaultMode))].

Definition GetDBClusterVolumeMounts (name : string) : list VolumeMount :=
  [mkMount "scripts" "/usr/local/bin/container-scripts" "" true;
   mkMount name "/etc/ovn" "" false].

(** ** StatefulSet (statefulset.go) *)

Definition ServiceCommand : string := "/usr/local/bin/container-scripts/setup.sh".

(** [serviceName := ServiceNameNB; if DBType == SBDBType { serviceName = ServiceNameSB }]. *)
Definition dbServiceName (instance : OVNDBCluster) : string :=
  if isSB instance then ServiceNameSB else ServiceNameNB.

Definition livenessProbe : Probe :=
  mkProbe 5 3 3 0 (ExecAction ["/usr/bin/pidof"; "ovsdb-server"]).
Definition readinessProbe : Probe :=
  mkProbe 15 10 10 0 (ExecAction ["/usr/local/bin/container-scripts/ovndb_readiness.sh"]).
Definition startupProbe : Probe :=
  mkProbe 5 3 3 20 (p_Handler livenessProbe).

(** The database certificate as a [tls.Service]; [*instance.Spec.TLS.SecretName]
    panics on nil. *)
Definition dbCertService (secretName : string) : tlsService :=
  mkTlsService secretName (Some OVNDbCertPath) (Some OVNDbKeyPath) (Some OVNDbCaCertPath).

Definition metricsCertSecretName (t : SimpleService) : string :=
  match tls_SecretName t with
  | Some s => if nonempty s then s else "cert-ovn-metrics"
  | None => "cert-ovn-metrics"
  end.

Definition metricsCertService (t : SimpleService) : tlsService :=
  mkTlsService (metricsCertSecretName t) (Some OVNMetricsCertPath) (Some OVNMetricsKeyPath)
    (Some OVNDbCaCertPath).

(** The exporter sidecar; [etcOVN] is the volume of the database files. *)
Definition metricsContainer (instance : OVNDBCluster) (envVars : gmap string Setter)
    : Container :=
  let spec := db_Spec instance in
  let mounts := [mkMount "config" "/etc/config" "" true;
                 mkMount (om_Name (db_Meta instance) +:+ PVCSuffixEtcOVN) "/etc/ovn" "" true] in
  let mounts := if tls_Enabled (db_TLS spec)
                then mounts ++ tls_CreateVolumeMounts (metricsCertService (db_MetricsTLS spec))
                                 "metrics-certs"
                else mounts in
  let metricsEnvVars : gmap string Setter :=
    match envVars !! "CONFIG_HASH" with
    | Some configHash => {["CONFIG_HASH" := configHash]}
    | None => ∅
    end in
  mkContainer "openstack-network-exporter" (db_ExporterImage spec)
    ["/app/openstack-network-exporter"] [] None
    (MergeEnvs [mkEnvVar "OPENSTACK_NETWORK_EXPORTER_YAML"
                  "/etc/config/openstack-network-exporter.yaml" None] metricsEnvVars)
    mounts None None None None None "".

(** Where the pods of a StatefulSet go: as the topology says, or on distinct nodes if
    possible. *)
Definition placePods (serviceName : string) (topology : option Topology)
    (template : PodTemplateSpec) : PodTemplateSpec :=
  match topology with
  | Some t => Topology_ApplyTo t template
  | None =>
      let ps := pt_Spec template in
      mkPodTemplateSpec (pt_Labels template) (pt_Annotations template)
        (mkPodSpec (ps_TerminationGracePeriodSeconds ps) (ps_ServiceAccountName ps)
           (ps_SecurityContext ps) (ps_RestartPolicy ps) (ps_InitContainers ps)
           (ps_Containers ps) (ps_Volumes ps) (ps_NodeSelector ps) (ps_NodeName ps)
           (Some (DistributePods AppSelector [serviceName] LabelHostname)))
  end.

(** The claim of the database files. *)
Definition dbVolumeClaims (instance : OVNDBCluster) (labels : gmap string string)
    (storageRequest : Quantity) : list PVC :=
  let name := om_Name (db_Meta instance) in
  let volumeClaimLabels := MergeMaps labels {["owner" := name]} in
  [mkPVC (name +:+ PVCSuffixEtcOVN) (om_Namespace (db_Meta instance)) volumeClaimLabels
     ["ReadWriteOnce"] (db_StorageClass (db_Spec instance)) storageRequest].

(** The StatefulSet around its containers and volumes. *)
Definition dbStatefulSetOf (instance : OVNDBCluster) (labels annotations : gmap string string)
    (containers : list Container) (volumes : list Volume) (topology : option Topology)
    (storageRequest : Quantity) : StatefulSetDef :=
  let serviceName := dbServiceName instance in
  let template := mkPodTemplateSpec labels annotations
    (mkPodSpec (Some 300%Z) (OVNDBCluster_RbacResourceName instance) None "" [] containers
       volumes (db_NodeSelector (db_Spec instance)) "" None) in
  mkStatefulSet serviceName (om_Namespace (db_Meta instance)) labels serviceName "Parallel"
    (db_Replicas (db_Spec instance)) (placePods serviceName topology template)
    (Some ("Retain", "Retain")) (dbVolumeClaims instance labels storageRequest).

Definition StatefulSet (instance : OVNDBCluster) (configHash : string)
    (labels annotations : gmap string string) (topology : option Topology)
    : go StatefulSetDef :=
  let spec := db_Spec instance in
  let name := om_Name (db_Meta instance) in
  match ParseQuantity (db_StorageRequest spec) with
  | Fail err => GErr err
  | Okay storageRequest =>
  let serviceName := dbServiceName instance in
  let envVars : gmap string Setter :=
    <["OVN_LOGDIR" := SetValue "/tmp"]>
    (<["OVN_RUNDIR" := SetValue "/etc/ovn"]>
     {["CONFIG_HASH" := SetValue configHash]}) in
  let volumes := GetDBClusterVolumes name in
  let volumeMounts := GetDBClusterVolumeMounts (name +:+ PVCSuffixEtcOVN) in
  let ca := nonempty (tls_CaBundleSecretName (db_TLS spec)) in
  let volumes := if ca then volumes ++ [Ca_CreateVolume (db_TLS spec)] else volumes in
  let volumeMounts := if ca then volumeMounts ++ Ca_CreateVolumeMounts (db_TLS spec)
                      else volumeMounts in
  let tls := tls_Enabled (db_TLS spec) in
  match (if tls then tls_SecretName (db_TLS spec) else Some "") with
  | None => GPanic
  | Some secretName =>
  let svc := dbCertService secretName in
  let volumes := if tls then volumes ++ [tls_CreateVolume svc serviceName] else volumes in
  let volumeMounts := if tls then volumeMounts ++ tls_CreateVolumeMounts svc serviceName
                      else volumeMounts in
  let containers := [mkContainer serviceName (db_ContainerImage spec)
    ["/usr/bin/dumb-init"] [ServiceCommand] None (MergeEnvs [] envVars) volumeMounts
    (Some (db_Resources spec)) (Some readinessProbe) (Some livenessProbe) (Some startupProbe)
    (Some ["/usr/local/bin/container-scripts/cleanup.sh"])
    TerminationMessageFallbackToLogsOnError] in
  let metrics := db_metrics_on instance in
  let volumes := if metrics && tls
    then volumes ++ [tls_CreateVolume (metricsCertService (db_MetricsTLS spec)) "metrics-certs"]
    else volumes in
  let containers := if metrics then containers ++ [metricsContainer instance envVars]
                    else containers in
  GOk (dbStatefulSetOf instance labels annotations containers volumes topology storageRequest)
  end
  end.

(** ** DNS (dnsdata.go) *)

Definition headlessDNSHostname (serviceName namespace : string) : string :=
  serviceName +:+ "." +:+ namespace +:+ ".svc".

Definition DNSData_ (serviceName : string) (ipList : list string) (instance : OVNDBCluster)
    (serviceLabels : gmap string string) : Go OVNDBCluster (option error) (option error) :=
  let namespace := om_Namespace (db_Meta instance) in
  let dnsHosts :=
    (λ ip, mkDNSHost ip [headlessDNSHostname serviceName namespace]) <$> ipList in
  let! err := call (CreateOrPatchDNSData (ObjOVNDBCluster instance)
    (mkDNSData serviceName namespace serviceLabels dnsHosts "dnsdata")) in
  match err with
  | Some e => return_ (Some (Errorf_w ("error creating DNSData " +:+ serviceName +:+ ": ") e ""))
  | None => ret None
  end.

(** [svcSpec.Ports[0]] panics on a service without ports. *)
Definition GetDBAddress (svcSpec : option ServiceSpec) (serviceName namespace scheme : string)
    : go string :=
  match svcSpec with
  | None => GOk ""
  | Some spec =>
      match ss_Ports spec with
      | [] => GPanic
      | p :: _ => GOk (scheme +:+ ":" +:+ headlessDNSHostname serviceName namespace +:+ ":"
                       +:+ fmt_d (sp_Port p))
      end
  end.

(** ** Pods (pod.go) and runtime configuration jobs (runtimeconfigjob.go) *)

Definition OVNDBPods {S X} (instance : OVNDBCluster) (serviceLabels : gmap string string)
    : Go S X (fallible (list Pod)) :=
  call (ClientsetListPods (om_Namespace (db_Meta instance)) (labels_String serviceLabels)).

Definition getOVNDBClusterPods {S X} (instance : OVNDBCluster) (serviceName : string)
    : Go S X (fallible (list Pod)) :=
  call (ListPods (om_Namespace (db_Meta instance)) {["service" := serviceName]}).

(** The pods a job is made for: not failed, not succeeded, not being deleted. *)
Definition pod_available (p : Pod) : bool :=
  negb (bool_decide (pod_Phase p = "Failed") || bool_decide (pod_Phase p = "Succeeded") ||
        bool_decide (is_Some (pod_DeletionTimestamp p))).

(** [changedConfigs], by its keys. *)
Definition configFlags (changedConfigs : gset string) : list string :=
  (if bool_decide ("ElectionTimer" ∈ changedConfigs) then ["ELECTION_TIMER"] else []) ++
  (if bool_decide ("LogLevel" ∈ changedConfigs) then ["LOG_LEVEL"] else []) ++
  (if bool_decide ("InactivityProbe" ∈ changedConfigs) then ["INACTIVITY_PROBE"] else []).

(** The job of one pod, submitted at [now]. *)
Definition configJob (instance : OVNDBCluster) (pod : Pod) (labels : gmap string string)
    (jobTTL now : Z) (flags : list string) : Job :=
  let spec := db_Spec instance in
  let name := om_Name (db_Meta instance) in
  let envVars : gmap string Setter :=
    <["ELECTION_TIMER" := SetValue (fmt_d (db_ElectionTimer spec))]>
    (<["LOG_LEVEL" := SetValue (db_LogLevel spec)]>
     (<["INACTIVITY_PROBE" := SetValue (fmt_d (db_InactivityProbe spec))]>
      {["CONFIG_FLAGS" := SetValue (strings_Join flags " ")]})) in
  mkJob (pod_Name pod +:+ "-config-" +:+ fmt_d now) (om_Namespace (db_Meta instance)) labels
    (Some jobTTL)
    (mkPodSpec None (OVNDBCluster_RbacResourceName instance) None "OnFailure" []
       [mkContainer "ovn-config" (db_ContainerImage spec)
          ["/bin/bash"; "/etc/config/runtime-config.sh"] [] None (MergeEnvs [] envVars)
          [mkMount "ovn-db-data" "/etc/ovn" "" false;
           mkMount "config-scripts" "/etc/config" "" true]
          None None None None None ""]
       [mkVolume "ovn-db-data" (PVCVolume (name +:+ PVCSuffixEtcOVN +:+ "-" +:+ pod_Name pod));
        mkVolume "config-scripts"
          (ConfigMapVolume (name +:+ "-runtime-config") (Some scriptsVolumeDefaultMode))]
       None (pod_NodeName pod) None).

Definition createConsolidatedConfigJobs {S X} (instance : OVNDBCluster) (pods : list Pod)
    (labels : gmap string string) (jobTTL : Z) (changedConfigs : gset string)
    : Go S X (list Job) :=
  foldM (λ jobs pod,
    if negb (pod_available pod) then ret jobs
    else
      let flags := configFlags changedConfigs in
      if bool_decide (flags = []) then ret jobs
      else
        let! now := call NowUnix in
        ret (jobs ++ [configJob instance pod labels jobTTL now flags])) [] pods.

Definition RuntimeConfigJobs {S} (instance : OVNDBCluster) (labels : gmap string string)
    (serviceName : string) (changedConfigs : gset string)
    : Go S (fallible (list Job)) (fallible (list Job)) :=
  let jobTTLAfterFinished := 0%Z in
  let! ovnPods := getOVNDBClusterPods instance serviceName in
  match ovnPods with
  | Fail err => return_ (Fail err)
  | Okay pods =>
      let! jobs := createConsolidatedConfigJobs instance pods labels jobTTLAfterFinished
                     changedConfigs in
      ret (Okay jobs)
  end.
End manifests.
