(* ===== verification/Webhook.v ===== *)
(** * Admission (api/v1beta1/*_webhook.go, ovncontroller_probes.go, common.go,
      internal/webhook/v1beta1)

    The defaults of the custom resources, their validation, the probes of the
    ovn-controller containers (built by the same code at admission and at
    reconciliation), and the webhook handlers that dispatch on the type of the
    object. *)
From S2P Require Import Prelude Prog K8s Lib Api ApiMethods Calls.

Section webhook.
Context {AT : ApiTypes} {CL : CondLib} {L : Lib}.

(** ** Defaults *)

Record OVNDBClusterDefaults := mkOVNDBClusterDefaults {
  NBContainerImageURL : string;
  SBContainerImageURL : string;
  db_ExporterImageURL : string;
}.
Record OVNNorthdDefaults := mkOVNNorthdDefaults {
  ContainerImageURL : string;
  nd_ExporterImageURL : string;
}.
Record OVNControllerDefaults := mkOVNControllerDefaults {
  OVSContainerImageURL : string;
  OVNControllerContainerImageURL : string;
  oc_ExporterImageURL : string;
}.

(** The package variables [SetupDefaults] sets. *)
Definition SetupDefaults : OVNDBClusterDefaults * OVNNorthdDefaults * OVNControllerDefaults :=
  (mkOVNDBClusterDefaults
     (GetEnvVar "RELATED_IMAGE_OVN_NB_DBCLUSTER_IMAGE_URL_DEFAULT" OVNNBContainerImage)
     (GetEnvVar "RELATED_IMAGE_OVN_SB_DBCLUSTER_IMAGE_URL_DEFAULT" OVNSBContainerImage)
     (GetEnvVar "RELATED_IMAGE_OPENSTACK_NETWORK_EXPORTER_IMAGE_URL_DEFAULT"
        OpenstackNetworkExporterImage),
   mkOVNNorthdDefaults
     (GetEnvVar "RELATED_IMAGE_OVN_NORTHD_IMAGE_URL_DEFAULT" OVNNorthdContainerImage)
     (GetEnvVar "RELATED_IMAGE_OPENSTACK_NETWORK_EXPORTER_IMAGE_URL_DEFAULT"
        OpenstackNetworkExporterImage),
   mkOVNControllerDefaults
     (GetEnvVar "RELATED_IMAGE_OVN_CONTROLLER_OVS_IMAGE_URL_DEFAULT"
        OVNControllerOVSContainerImage)
     (GetEnvVar "RELATED_IMAGE_OVN_CONTROLLER_IMAGE_URL_DEFAULT" OVNControllerContainerImage)
     (GetEnvVar "RELATED_IMAGE_OPENSTACK_NETWORK_EXPORTER_IMAGE_URL_DEFAULT"
        OpenstackNetworkExporterImage)).

(** [if s == "" { s = d }]. *)
Definition orDefault (s d : string) : string := if nonempty s then s else d.

Definition OVNDBClusterSpec_Default (d : OVNDBClusterDefaults) (s : OVNDBClusterSpec)
    : OVNDBClusterSpec :=
  let image :=
    if bool_decide (db_ContainerImage s = "") then
      if bool_decide (db_DBType s = NBDBType) then NBContainerImageURL d
      else if bool_decide (db_DBType s = SBDBType) then SBContainerImageURL d
      else ""
    else db_ContainerImage s in
  mkOVNDBClusterSpec image (orDefault (db_ExporterImage s) (db_ExporterImageURL d))
    (db_DBType s) (db_Replicas s) (db_NodeSelector s) (db_LogLevel s) (db_ElectionTimer s)
    (db_InactivityProbe s) (db_ProbeIntervalToActive s) (db_Resources s) (db_StorageClass s)
    (db_StorageRequest s) (db_NetworkAttachment s) (db_TLS s) (db_Override_Service s)
    (db_TopologyRef s) (db_MetricsEnabled s) (db_MetricsTLS s).

Definition OVNDBCluster_Default (d : OVNDBClusterDefaults) (i : OVNDBCluster) : OVNDBCluster :=
  mkOVNDBCluster (db_Kind i) (db_Meta i) (OVNDBClusterSpec_Default d (db_Spec i)) (db_Status i).

Definition OVNNorthdSpec_Default (d : OVNNorthdDefaults) (s : OVNNorthdSpec) : OVNNorthdSpec :=
  mkOVNNorthdSpec (orDefault (nd_ContainerImage s) (ContainerImageURL d))
    (orDefault (nd_ExporterImage s) (nd_ExporterImageURL d)) (nd_Replicas s)
    (nd_NodeSelector s) (nd_LogLevel s) (nd_Resources s) (nd_TLS s) (nd_NThreads s)
    (nd_TopologyRef s) (nd_MetricsEnabled s) (nd_MetricsTLS s).

Definition OVNNorthd_Default (d : OVNNorthdDefaults) (i : OVNNorthd) : OVNNorthd :=
  mkOVNNorthd (nd_Kind i) (nd_Meta i) (OVNNorthdSpec_Default d (nd_Spec i)) (nd_Status i).

Definition OVNControllerSpec_Default (d : OVNControllerDefaults) (s : OVNControllerSpec)
    : OVNControllerSpec :=
  mkOVNControllerSpec (orDefault (oc_OvsContainerImage s) (OVSContainerImageURL d))
    (orDefault (oc_OvnContainerImage s) (OVNControllerContainerImageURL d))
    (orDefault (oc_ExporterImage s) (oc_ExporterImageURL d))
    (oc_ExternalIDS s) (oc_NicMappings s) (oc_BondConfiguration s) (oc_Resources s)
    (oc_Override_Probes s) (oc_NodeSelector s) (oc_NetworkAttachment s) (oc_OVNLogLevel s)
    (oc_OVSLogLevel s) (oc_TLS s) (oc_TopologyRef s) (oc_MetricsEnabled s) (oc_MetricsTLS s).

Definition OVNController_Default (d : OVNControllerDefaults) (i : OVNController)
    : OVNController :=
  mkOVNController (oc_Kind i) (oc_Meta i) (OVNControllerSpec_Default d (oc_Spec i))
    (oc_Status i).

(** ** Probes *)

Definition URISchemeHTTP : string := "HTTP".
Definition URISchemeHTTPS : string := "HTTPS".

(** The defaults of a probe that runs [script]. *)
Definition probeDefaults (script : string) : ProbeConf :=
  mkProbeConf ProbeHandlerExec "" 0 None ["/usr/local/bin/container-scripts/" +:+ script]
    30 5 5 3.

(** An Exec override without a command inherits the default one. *)
Definition suppliedProbe (config o : ProbeConf) : ProbeConf :=
  if bool_decide (pc_Type o = ProbeHandlerExec) && bool_decide (pc_Command o = []) then
    mkProbeConf (pc_Type o) (pc_Path o) (pc_Port o) (pc_Scheme o) (pc_Command config)
      (pc_InitialDelaySeconds o) (pc_TimeoutSeconds o) (pc_PeriodSeconds o)
      (pc_FailureThreshold o)
  else o.

(** [config.Scheme != nil && *config.Scheme != "" && ...]: the schemes refused. *)
Definition badScheme (config : ProbeConf) : option string :=
  match pc_Scheme config with
  | Some s =>
      if bool_decide (pc_Type config = ProbeHandlerHTTP) && nonempty s &&
         bool_decide (s ≠ URISchemeHTTP) && bool_decide (s ≠ URISchemeHTTPS)
      then Some s else None
  | None => None
  end.

(** One turn of the loop: the probe, or the errors that skip it. *)
Definition buildProbe (path script : string) (override : option ProbeConf)
    : Probe + list FieldError :=
  let config := probeDefaults script in
  let merged : ProbeConf + list FieldError :=
    match override with
    | None => inl config
    | Some o =>
        let supplied := suppliedProbe config o in
        match ValidateProbeConf path supplied with
        | [] => inl (ProbeConf_Merge config supplied)
        | errs => inr errs
        end
    end in
  match merged with
  | inr errs => inr errs
  | inl config =>
      match ValidateProbeConf path config with
      | [] =>
          match badScheme config with
          | Some s => inr [NotSupported (path_Child path "scheme") s]
          | None =>
              match SetProbeConfV2 config with
              | Okay built => inl built
              | Fail err => inr [Invalid path (Error err)]
              end
          end
      | errs => inr errs
      end
  end.

(** The target of a turn, and the errors it adds. *)
Definition probeOf (r : Probe + list FieldError) : option Probe :=
  match r with inl p => Some p | inr _ => None end.
Definition errorsOf (r : Probe + list FieldError) : list FieldError :=
  match r with inl _ => [] | inr errs => errs end.

(** The startup probe is only built when it is asked for. *)
Definition buildProbes (o : ProbeOverrides) (basePath : string)
    : ProbeSet * list FieldError :=
  let liveness := buildProbe (path_Child basePath "livenessProbes")
                    "ovn_controller_liveness.sh" (po_LivenessProbes o) in
  let readiness := buildProbe (path_Child basePath "readinessProbes")
                     "ovn_controller_readiness.sh" (po_ReadinessProbes o) in
  let startup := match po_StartupProbes o with
    | None => None
    | Some c => Some (buildProbe (path_Child basePath "startupProbes")
                        "ovn_controller_liveness.sh" (Some c))
    end in
  (mkProbeSet (probeOf liveness) (probeOf readiness) (startup ≫= probeOf),
   errorsOf liveness ++ errorsOf readiness ++ default [] (errorsOf <$> startup)).

Definition probesPath (basePath : string) : string :=
  path_Child (path_Child basePath "override") "probes".

Definition GetProbeSet (s : OVNControllerSpec) : ProbeSet * option error :=
  let '(set, errors) := buildProbes (oc_Override_Probes s) (probesPath "spec") in
  (set, ToAggregate errors).

Definition ValidateProbes (s : OVNControllerSpec) (basePath : string) : list FieldError :=
  (buildProbes (oc_Override_Probes s) basePath).2.

(** ** Validation *)

Definition ValidateTopology (t : option TopoRef) (basePath namespace : string)
    : list FieldError :=
  ValidateTopologyRef t (path_Child basePath "topologyRef") namespace.

(** [if len(errors) != 0 { return nil, apierrors.NewInvalid(...) }]. *)
Definition invalid (kind name : string) (errors : list FieldError) : option error :=
  match errors with [] => None | _ => Some (NewInvalid kind name errors) end.

Definition OVNDBCluster_ValidateCreate (i : OVNDBCluster) : option error :=
  invalid "OVNDBCluster" (om_Name (db_Meta i))
    (ValidateTopology (db_TopologyRef (db_Spec i)) "spec" (om_Namespace (db_Meta i))).
Definition OVNDBCluster_ValidateUpdate (i : OVNDBCluster) (old : Object) : option error :=
  invalid "OVNDBCluster" (om_Name (db_Meta i))
    (ValidateTopology (db_TopologyRef (db_Spec i)) "spec" (om_Namespace (db_Meta i))).
Definition OVNDBCluster_ValidateDelete (i : OVNDBCluster) : option error := None.

Definition OVNNorthd_ValidateCreate (i : OVNNorthd) : option error :=
  invalid "OVNNorthd" (om_Name (nd_Meta i))
    (ValidateTopology (nd_TopologyRef (nd_Spec i)) "spec" (om_Namespace (nd_Meta i))).
Definition OVNNorthd_ValidateUpdate (i : OVNNorthd) (old : Object) : option error :=
  invalid "OVNNorthd" (om_Name (nd_Meta i))
    (ValidateTopology (nd_TopologyRef (nd_Spec i)) "spec" (om_Namespace (nd_Meta i))).
Definition OVNNorthd_ValidateDelete (i : OVNNorthd) : option error := None.

Definition OVNControllerSpec_ValidateCreate (s : OVNControllerSpec)
    (basePath namespace : string) : list FieldError :=
  ValidateTopology (oc_TopologyRef s) basePath namespace ++
  ValidateProbes s (probesPath basePath).
Definition OVNControllerSpec_ValidateUpdate (s old : OVNControllerSpec)
    (basePath namespace : string) : list FieldError :=
  OVNControllerSpec_ValidateCreate s basePath namespace.

Definition OVNController_ValidateCreate (i : OVNController) : option error :=
  invalid "OVNController" (om_Name (oc_Meta i))
    (OVNControllerSpec_ValidateCreate (oc_Spec i) "spec" (om_Namespace (oc_Meta i))).
Definition OVNController_ValidateUpdate (i : OVNController) (old : Object) : option error :=
  invalid "OVNController" (om_Name (oc_Meta i))
    (OVNControllerSpec_ValidateCreate (oc_Spec i) "spec" (om_Namespace (oc_Meta i))).
Definition OVNController_ValidateDelete (i : OVNController) : option error := None.

(** ** The handlers (internal/webhook/v1beta1) *)

Definition ErrInvalidObjectType : error := errors_New "invalid object type".

(** [%T]. *)
Definition goType (o : Object) : string :=
  match o with
  | ObjOVNDBCluster _ => "*v1beta1.OVNDBCluster"
  | ObjOVNNorthd _ => "*v1beta1.OVNNorthd"
  | ObjOVNController _ => "*v1beta1.OVNController"
  | ObjOther t => t
  end.

Definition wrongType (expected : string) (obj : Object) : error :=
  Errorf_w (expected +:+ " but got " +:+ goType obj +:+ ": ") ErrInvalidObjectType "".

Definition OVNDBClusterCustomDefaulter_Default (d : OVNDBClusterDefaults) (obj : Object)
    : Object * option error :=
  match obj with
  | ObjOVNDBCluster i => (ObjOVNDBCluster (OVNDBCluster_Default d i), None)
  | _ => (obj, Some (wrongType "expected an OVNDBCluster object" obj))
  end.
Definition OVNDBClusterCustomValidator_ValidateCreate (obj : Object) : option error :=
  match obj with
  | ObjOVNDBCluster i => OVNDBCluster_ValidateCreate i
  | _ => Some (wrongType "expected a OVNDBCluster object" obj)
  end.
Definition OVNDBClusterCustomValidator_ValidateUpdate (oldObj newObj : Object)
    : option error :=
  match newObj with
  | ObjOVNDBCluster i => OVNDBCluster_ValidateUpdate i oldObj
  | _ => Some (wrongType "expected a OVNDBCluster object for the newObj" newObj)
  end.
Definition OVNDBClusterCustomValidator_ValidateDelete (obj : Object) : option error :=
  match obj with
  | ObjOVNDBCluster i => OVNDBCluster_ValidateDelete i
  | _ => Some (wrongType "expected a OVNDBCluster object" obj)
  end.

Definition OVNNorthdCustomDefaulter_Default (d : OVNNorthdDefaults) (obj : Object)
    : Object * option error :=
  match obj with
  | ObjOVNNorthd i => (ObjOVNNorthd (OVNNorthd_Default d i), None)
  | _ => (obj, Some (wrongType "expected an OVNNorthd object" obj))
  end.
Definition OVNNorthdCustomValidator_ValidateCreate (obj : Object) : option error :=
  match obj with
  | ObjOVNNorthd i => OVNNorthd_ValidateCreate i
  | _ => Some (wrongType "expected a OVNNorthd object" obj)
  end.
Definition OVNNorthdCustomValidator_ValidateUpdate (oldObj newObj : Object) : option error :=
  match newObj with
  | ObjOVNNorthd i => OVNNorthd_ValidateUpdate i oldObj
  | _ => Some (wrongType "expected a OVNNorthd object for the newObj" newObj)
  end.
Definition OVNNorthdCustomValidator_ValidateDelete (obj : Object) : option error :=
  match obj with
  | ObjOVNNorthd i => OVNNorthd_ValidateDelete i
  | _ => Some (wrongType "expected a OVNNorthd object" obj)
  end.

Definition OVNControllerCustomDefaulter_Default (d : OVNControllerDefaults) (obj : Object)
    : Object * option error :=
  match obj with
  | ObjOVNController i => (ObjOVNController (OVNController_Default d i), None)
  | _ => (obj, Some (wrongType "expected an OVNController object" obj))
  end.
Definition OVNControllerCustomValidator_ValidateCreate (obj : Object) : option error :=
  match obj with
  | ObjOVNController i => OVNController_ValidateCreate i
  | _ => Some (wrongType "expected a OVNController object" obj)
  end.
Definition OVNControllerCustomValidator_ValidateUpdate (oldObj newObj : Object)
    : option error :=
  match newObj with
  | ObjOVNController i => OVNController_ValidateUpdate i oldObj
  | _ => Some (wrongType "expected a OVNController object for the newObj" newObj)
  end.
Definition OVNControllerCustomValidator_ValidateDelete (obj : Object) : option error :=
  match obj with
  | ObjOVNController i => OVNController_ValidateDelete i
  | _ => Some (wrongType "expected a OVNController object" obj)
  end.
End webhook.
