(* ===== verification/Client.v ===== *)
(** * Queries and watches (api/v1beta1/client.go and the watch functions)

    How the reconcilers find each other's resources, and how a change of an
    object becomes reconcile requests: [OVNCRNamespaceMapFunc] for the other
    custom resources, the field indexes and [findObjectsForSrc] for secrets and
    topologies. *)
From S2P Require Import Prelude Prog K8s Lib Api ApiMethods Calls.
#[local] Open Scope go_scope.

Section client.
Context {AT : ApiTypes} {CL : CondLib}.
Context {S X : Type}.

Definition getDBClusters (namespace : string) (labelSelector : gmap string string)
    : Go S X (fallible (list OVNDBCluster)) :=
  call (ListOVNDBClusters namespace labelSelector).

Definition GetOVNController (namespace : string) : Go S X (fallible (option OVNController)) :=
  let! r := call (ListOVNControllers namespace) in
  match r with
  | Fail err => ret (Fail err)
  | Okay items => ret (Okay (head items))
  end.

Definition GetDBClusterByType (namespace : string) (labelSelector : gmap string string)
    (dbType : string) : Go S X (fallible OVNDBCluster) :=
  let! r := getDBClusters namespace labelSelector in
  match r with
  | Fail err => ret (Fail err)
  | Okay items =>
      match list_find (λ c, db_DBType (db_Spec c) = dbType) items with
      | Some (_, ovndb) => ret (Okay ovndb)
      | None => ret (Fail (errors_New ("failed to find DBCluster of type " +:+ dbType)))
      end
  end.

(** The map function of a watch on another custom resource, for the resources
    of kind [crs]; nil and the empty list are the same answer. *)
Definition OVNCRNamespaceMapFunc (crs : CRKind) (obj : ObjectMeta)
    : Go S X (list NamespacedName) :=
  let! r := call (ListNames crs (om_Namespace obj)) in
  match r with
  | Fail _ => ret []
  | Okay items => ret (filter (λ cr, om_Namespace obj = nn_Namespace cr) items)
  end.

(** ** Field indexes *)

Definition tlsField : string := ".spec.tls.secretName".
Definition caBundleSecretNameField : string := ".spec.tls.caBundleSecretName".
Definition metricsTLSField : string := ".spec.metricsTLS.secretName".
Definition topologyField : string := ".spec.topologyRef.Name".

Definition allWatchFields : list string :=
  [caBundleSecretNameField; tlsField; metricsTLSField; topologyField].

(** The values the indexers of [SetupWithManager] give a resource. *)
Definition indexField (field : string) (s : CommonSpec) : list string :=
  if bool_decide (field = caBundleSecretNameField) then
    if bool_decide (tls_CaBundleSecretName (cs_TLS s) = "") then []
    else [tls_CaBundleSecretName (cs_TLS s)]
  else if bool_decide (field = tlsField) then
    match tls_SecretName (cs_TLS s) with None => [] | Some n => [n] end
  else if bool_decide (field = metricsTLSField) then
    match tls_SecretName (cs_MetricsTLS s) with None => [] | Some n => [n] end
  else if bool_decide (field = topologyField) then
    match cs_TopologyRef s with None => [] | Some t => [tr_Name t] end
  else [].

(** [findObjectsForSrc] of the reconciler of [kind]: an error ends the search
    with what was found. *)
Definition findObjectsForSrc (kind : CRKind) (src : ObjectMeta)
    : Go S (list NamespacedName) (list NamespacedName) :=
  foldM (λ requests field,
    let! r := call (ListByField kind field (om_Name src) (om_Namespace src)) in
    match r with
    | Fail _ => return_ requests
    | Okay items => ret (requests ++ items)
    end) [] allWatchFields.

(** The methods of the three reconcilers. *)
Definition OVNDBCluster_findObjectsForSrc := findObjectsForSrc CROVNDBCluster.
Definition OVNNorthd_findObjectsForSrc := findObjectsForSrc CROVNNorthd.
Definition OVNController_findObjectsForSrc := findObjectsForSrc CROVNController.
End client.
