(* ===== verification/DBController.v ===== *)
(** * The OVNDBCluster reconciler (internal/controller/ovndbcluster_controller.go)

    [Reconcile] and everything it calls, statement by statement: each early
    return is a [return_], each nil dereference and index out of range a
    [panic], each request a [call].  [reconcileNormal] is the composition of
    the phases the source separates by comments. *)
From S2P Require Import Prelude Prog K8s Lib Api ApiMethods Calls Shared Client.
From S2P Require Import DBManifests.
#[local] Open Scope go_scope.

Section dbcluster.
Context {AT : ApiTypes} {CL : CondLib} {L : Lib}.

Abbreviation DB := OVNDBCluster.

(** The conditions [Reconcile] initialises. *)
Definition dbInitConditions (instance : DB) : list Condition :=
  [UnknownCondition InputReadyCondition InitReason (Msg "condition.InputReadyInitMessage" []);
   UnknownCondition ExposeServiceReadyCondition InitReason
     (Msg "condition.ExposeServiceReadyInitMessage" []);
   UnknownCondition ServiceConfigReadyCondition InitReason
     (Msg "condition.ServiceConfigReadyInitMessage" []);
   UnknownCondition NetworkAttachmentsReadyCondition InitReason
     (Msg "condition.NetworkAttachmentsReadyInitMessage" []);
   UnknownCondition DeploymentReadyCondition InitReason
     (Msg "condition.DeploymentReadyInitMessage" []);
   UnknownCondition ServiceAccountReadyCondition InitReason
     (Msg "condition.ServiceAccountReadyInitMessage" []);
   UnknownCondition RoleReadyCondition InitReason (Msg "condition.RoleReadyInitMessage" []);
   UnknownCondition RoleBindingReadyCondition InitReason
     (Msg "condition.RoleBindingReadyInitMessage" []);
   UnknownCondition TLSInputReadyCondition InitReason (Msg "condition.InputReadyInitMessage" []);
   UnknownCondition PDBReadyCondition InitReason (Msg "condition.PDBReadyInitMessage" []);
   UnknownCondition ExternalConfigReadyCondition InitReason
     (Msg "ovnv1.ExternalConfigInitMessage" [])] ++
  match db_TopologyRef (db_Spec instance) with
  | Some _ => [UnknownCondition TopologyReadyCondition InitReason
                 (Msg "condition.TopologyReadyInitMessage" [])]
  | None => []
  end.

Definition dbConditionError {X} (t : CondType) (msg : string) (err : error) : Go DB X unit :=
  setCond (FalseCondition t ErrorReason SeverityWarning (Msg msg [Error err])).

Definition dbDeploymentRunning {X} : Go DB X unit :=
  setCond (FalseCondition DeploymentReadyCondition RequestedReason SeverityInfo
             (Msg "condition.DeploymentReadyRunningMessage" [])).

(** ** Config maps *)

Definition ovnControllerConfigName : string := "ovncontroller-config".

Definition dbTemplateParameters (instance : DB) (serviceName : string)
    : gmap string TemplateParam :=
  let sb := isSB instance in
  <["OVN_RUNDIR" := PString "/etc/ovn"]>
  (<["OVN_METRICS_KEY_PATH" := PString OVNMetricsKeyPath]>
   (<["OVN_METRICS_CERT_PATH" := PString OVNMetricsCertPath]>
    (<["OVNDB_CACERT_PATH" := PString OVNDbCaCertPath]>
     (<["OVNDB_KEY_PATH" := PString OVNDbKeyPath]>
      (<["OVNDB_CERT_PATH" := PString OVNDbCertPath]>
       (<["TLS" := PBool (tls_Enabled (db_TLS (db_Spec instance)))]>
        (<["RAFT_PORT" := PInt (if sb then RaftPortSB else RaftPortNB)]>
         (<["DB_PORT" := PInt (if sb then DbPortSB else DbPortNB)]>
          (<["DB_TYPE" := PString (strings_ToLower (db_DBType (db_Spec instance)))]>
           (<["NAMESPACE" := PString (om_Namespace (db_Meta instance))]>
            {["SERVICE_NAME" := PString serviceName]})))))))))).

(** The config maps the pods mount. *)
Definition dbServiceConfigMaps (instance : DB) (serviceName : string) : list Template :=
  let meta := db_Meta instance in
  let cmLabels := GetLabels meta (GetGroupLabel serviceName) ∅ in
  let params := dbTemplateParameters instance serviceName in
  [mkTemplate (om_Name meta +:+ "-scripts") (om_Namespace meta) TemplateTypeScripts ∅
     (db_Kind instance) cmLabels params] ++
  (if db_metrics_on instance then
     [mkTemplate (om_Name meta +:+ "-config") (om_Namespace meta) TemplateTypeNone
        (<["openstack-network-exporter.yaml" :=
            "/ovndbcluster/config/openstack-network-exporter.yaml"]>
         {["web-config.yaml" := "/ovndbcluster/config/web-config.yaml"]})
        (db_Kind instance) cmLabels params]
   else []).

(** The variables after the call, and the error. *)
Definition dbGenerateServiceConfigMaps {X} (envVars : gmap string Setter)
    (serviceName : string) : Go DB X (gmap string Setter * option error) :=
  let! instance := get in
  call (EnsureConfigMaps (to_object instance) (dbServiceConfigMaps instance serviceName)
          (Some envVars)).

Definition runtimeConfigMap (instance : DB) (serviceName : string) : Template :=
  let meta := db_Meta instance in
  mkTemplate (om_Name meta +:+ "-runtime-config") (om_Namespace meta) TemplateTypeNone
    {["runtime-config.sh" := "/ovndbcluster/config/runtime-config.sh"]}
    (db_Kind instance) (GetLabels meta (GetGroupLabel serviceName) ∅)
    (<["TLS" := PBool (tls_Enabled (db_TLS (db_Spec instance)))]>
     (<["DB_PORT" := PInt (if isSB instance then DbPortSB else DbPortNB)]>
      (<["DB_TYPE" := PString (strings_ToLower (db_DBType (db_Spec instance)))]>
       {["SERVICE_NAME" := PString serviceName]}))).

Definition ensureRuntimeConfigMap {X} (serviceName : string) : Go DB X (option error) :=
  let! instance := get in
  let! r := call (EnsureConfigMaps (to_object instance)
                    [runtimeConfigMap instance serviceName] (Some ∅)) in
  ret r.2.

Definition generateExternalConfigMaps (serviceName : string)
    : Go DB (option error) (option error) :=
  let! instance := get in
  let meta := db_Meta instance in
  let cmLabels := GetLabels meta (GetGroupLabel serviceName) ∅ in
  match GetExternalEndpoint instance with
  | Fail err => return_ (Some err)
  | Okay externalEndpoint =>
      let! r := GetOVNController (om_Namespace meta) in
      match r with
      | Fail err => return_ (Some err)
      | Okay ovnController =>
          let params : gmap string TemplateParam :=
            match ovnController with
            | Some c =>
                <["OVNEncapTos" := PString (OvnEncapTos (oc_ExternalIDS (oc_Spec c)))]>
                (<["OVNEncapType" := PString (OvnEncapType (oc_ExternalIDS (oc_Spec c)))]>
                 {["OVNRemote" := PString externalEndpoint]})
            | None => {["OVNRemote" := PString externalEndpoint]}
            end in
          let! r := call (EnsureConfigMaps (to_object instance)
            [mkTemplate ovnControllerConfigName (om_Namespace meta) TemplateTypeNone
               {["ovsdb-config" := "/ovndbcluster/config/ovsdb-config"]}
               (db_Kind instance) cmLabels params] (Some ∅)) in
          ret r.2
      end
  end.

Definition deleteExternalConfigMaps (namespace : string)
    : Go DB (option error) (option error) :=
  let! err := call (Delete KConfigMap namespace ovnControllerConfigName) in
  match err with
  | Some e =>
      if IsNotFound e then ret None
      else return_ (Some (Errorf_w ("error deleting external config map " +:+
                                    ovnControllerConfigName +:+ ": ") e ""))
  | None => ret None
  end.

(** ** Runtime configuration *)

Definition runtimeConfigHashKey : string := "OvnDBClusterRuntimeConfigHash".

Definition runtimeEnvVars (instance : DB) : gmap string Setter :=
  <["ElectionTimer" := SetValue (fmt_d (db_ElectionTimer (db_Spec instance)))]>
  (<["InactivityProbe" := SetValue (fmt_d (db_InactivityProbe (db_Spec instance)))]>
   {["LogLevel" := SetValue (db_LogLevel (db_Spec instance))]}).

(** Reading a nil map gives the empty string. *)
Definition hashAt (h : option (gmap string string)) (key : string) : string :=
  default "" (default ∅ h !! key).

(** The jobs are all submitted; an error ends the loop. *)
Definition submitConfigJobs (runtimeConfigHash : string) (jobsDef : list Job)
    : Go DB (option error) bool :=
  foldM (λ anyJobInProgress jobDef,
    let configHashKey := "OvnDBClusterConfigHash-" +:+ ps_NodeName (job_Spec jobDef) in
    let! r := call (DoJob jobDef configHashKey false (5 * time_Second) runtimeConfigHash) in
    match r.1 with
    | (_, Some err) => return_ (Some err)
    | (ctrlResult, None) =>
        ret (anyJobInProgress || negb (bool_decide (ctrlResult = emptyResult)))
    end) false jobsDef.

Definition reconcileRuntimeConfig (serviceLabels : gmap string string) (serviceName : string)
    : Go DB (option error) (option error) :=
  let! instance := get in
  match ObjectHash (MergeEnvs [] (runtimeEnvVars instance)) with
  | Fail err => return_ (Some err)
  | Okay runtimeConfigHash =>
      let currentHash := hashAt (dbs_Hash (db_Status instance)) runtimeConfigHashKey in
      if bool_decide (runtimeConfigHash = currentHash) then return_ None
      else
        let changedConfigs : gset string := {["ElectionTimer"; "InactivityProbe"; "LogLevel"]} in
        let! hash := deref (dbs_Hash (db_Status instance)) in
        do! modify (db_set_Hash (Some (<[runtimeConfigHashKey := runtimeConfigHash]> hash)));
        let! err := ensureRuntimeConfigMap serviceName in
        match err with
        | Some e => return_ (Some e)
        | None =>
            let! instance := get in
            let! jobsDef := fn (RuntimeConfigJobs instance serviceLabels serviceName
                                  changedConfigs) in
            match jobsDef with
            | Fail e => return_ (Some e)
            | Okay jobs =>
                do! submitConfigJobs runtimeConfigHash jobs;
                ret None
            end
        end
  end.

(** ** Services *)

(** [for _, ip := range v.IPs { return ip }] inside the search of the network. *)
Fixpoint firstIPIn (network : string) (netStat : list NetworkStatus) : option string :=
  match netStat with
  | [] => None
  | v :: rest =>
      if bool_decide (ns_Name v = network) then
        match ns_IPs v with ip :: _ => Some ip | [] => firstIPIn network rest end
      else firstIPIn network rest
  end.

Definition getPodIPInNetwork (ovnPod : Pod) : Go DB (fallible string) (fallible string) :=
  let! instance := get in
  let namespace := om_Namespace (db_Meta instance) in
  let networkAttachment := db_NetworkAttachment (db_Spec instance) in
  match GetNetworkStatusFromAnnotation (pod_Annotations ovnPod) with
  | Fail err => return_ (Fail (Errorf_w ("error while getting the Network Status for pod "
                                         +:+ pod_Name ovnPod +:+ ": ") err ""))
  | Okay netStat =>
      match firstIPIn (namespace +:+ "/" +:+ networkAttachment) netStat with
      | Some ip => return_ (Okay ip)
      | None =>
          let err := Errorf_w "" ErrInvalidStatus (" IP address from pod " +:+ pod_Name ovnPod
            +:+ " in network " +:+ networkAttachment +:+ ", IP is empty") in
          do! dbConditionError NetworkAttachmentsReadyCondition
                "condition.NetworkAttachmentsReadyErrorMessage" err;
          ret (Fail err)
      end
  end.

(** [if svcOverride != nil { ... }]: the override's nil parts become zero values,
    in the resource. *)
Definition normalizeOverride (o : OverrideSpec) : OverrideSpec :=
  mkOverrideSpec
    (match ov_EmbeddedLabelsAnnotations o with Some e => Some e | None => Some None end)
    (match ov_Spec o with Some s => Some s | None => Some (mkOverrideServiceSpec "" None) end).

(** Delete the service [serviceName] when it is of the kind [stale] tells. *)
Definition deleteStaleService (serviceName : string) (stale : ServiceSpec → bool)
    (what : string) : Go DB RE unit :=
  let! instance := get in
  let! r := call (GetServiceWithName serviceName (om_Namespace (db_Meta instance))) in
  let '(svc, err) := r in
  do! (match err with
       | Some e => if IsNotFound e then ret tt else return_ (emptyResult, Some e)
       | None => ret tt
       end);
  match svc with
  | Some s =>
      if stale (svc_Spec s) then
        let! derr := call (Delete KService (svc_Namespace s) (svc_Name s)) in
        match derr with
        | Some e =>
            if IsNotFound e then ret tt
            else return_ (emptyResult, Some (Errorf_w
              ("error deleting service for transition to use " +:+ what +:+ " "
               +:+ serviceName +:+ ": ") e ""))
        | None => ret tt
        end
      else ret tt
  | None => ret tt
  end.

(** A pure [(T, error)] whose error is returned with an empty result. *)
Definition orReturn {A} (r : fallible A) : Go DB RE A :=
  match r with Okay a => ret a | Fail err => return_ (emptyResult, Some err) end.

(** The service of the cluster: the load balancer of the override, or the
    headless service of the StatefulSet. *)
Definition clusterService (serviceName : string) (serviceLabels : gmap string string)
    : Go DB RE SvcHandle :=
  let! instance := get in
  let svcOverride := normalizeOverride <$> db_Override_Service (db_Spec instance) in
  do! modify (db_set_Override_Service svcOverride);
  let! instance := get in
  let lbType := match svcOverride with
                | Some o => match ov_Spec o with Some s => os_Type s | None => "" end
                | None => "" end in
  if bool_decide (lbType = ServiceTypeLoadBalancer) then
    do! deleteStaleService serviceName (λ s, bool_decide (ss_ClusterIP s = "None"))
          "serviceOerrides";
    let svcLabels := MergeMaps serviceLabels {["type" := strings_ToLower lbType]} in
    let! ssvc := orReturn (NewService (Service_ serviceName instance svcLabels serviceLabels)
                             svcOverride) in
    ret (if bool_decide (GetServiceType ssvc = ServiceTypeLoadBalancer)
         then AddAnnotation {[AnnotationHostnameKey := GetServiceHostname ssvc]} ssvc
         else ssvc)
  else
    do! deleteStaleService serviceName
          (λ s, bool_decide (ss_Type s = ServiceTypeLoadBalancer)) "headless service";
    let svcLabels := MergeMaps serviceLabels {["type" := ServiceHeadlessType]} in
    orReturn (NewService (HeadlessService serviceName instance svcLabels serviceLabels) None).

(** [CreateOrPatch]: an error is returned, and so is an unfinished creation,
    without its requeue and without an error. *)
Definition createService (h : SvcHandle) : Go DB RE SvcHandle :=
  let! r := call (ServiceCreateOrPatch h (5 * time_Second)) in
  match r with
  | ((_, Some err), _) => return_ (emptyResult, Some err)
  | ((ctrlResult, None), h') =>
      if bool_decide (ctrlResult = emptyResult) then ret h' else return_ (emptyResult, None)
  end.

Definition podSelectorLabels (serviceName podName : string) : gmap string string :=
  <[AppSelector := serviceName]> {["statefulset.kubernetes.io/pod-name" := podName]}.

(** The service of one pod. *)
Definition podService (serviceName : string) (ovnPod : Pod) : Go DB RE unit :=
  let! instance := get in
  let ovndbSelectorLabels := podSelectorLabels serviceName (pod_Name ovnPod) in
  let serviceTypeLabels : gmap string string :=
    if db_metrics_on instance
    then <["metrics" := "enabled"]> {["type" := ServiceClusterType]}
    else {["type" := ServiceClusterType]} in
  let ovndbServiceLabels := MergeMaps ovndbSelectorLabels serviceTypeLabels in
  let! svc := orReturn (NewService (Service_ (pod_Name ovnPod) instance ovndbServiceLabels
                                      ovndbSelectorLabels) None) in
  do! createService svc;
  let spec := db_Spec instance in
  let needsMetricsRemoval :=
    bool_decide (db_ExporterImage spec = "") ||
    match db_MetricsEnabled spec with Some b => negb b | None => false end in
  if needsMetricsRemoval then
    let! r := call (GetServiceWithName (pod_Name ovnPod) (pod_Namespace ovnPod)) in
    match r with
    | (Some existingSvc, None) =>
        match svc_Labels existingSvc !! "metrics" with
        | Some _ =>
            let! err := call (UpdateService (mkService (svc_Name existingSvc)
              (svc_Namespace existingSvc) (delete "metrics" (svc_Labels existingSvc))
              (svc_Spec existingSvc))) in
            match err with
            | Some e => return_ (emptyResult, Some (Errorf_w
                ("error removing metrics label from service " +:+ pod_Name ovnPod +:+ ": ")
                e ""))
            | None => ret tt
            end
        | None => ret tt
        end
    | _ => ret tt
    end
  else ret tt.

(** [for i := from - 1; i >= to; i--], the values of [i]. *)
Definition downTo (from to : Z) : list Z :=
  (λ k : nat, from - 1 - Z.of_nat k)%Z <$> seq 0 (Z.to_nat (from - to)).

(** Delete the pod services left after a scale down. *)
Definition deleteExtraServices (serviceName : string) (serviceLabels : gmap string string)
    : Go DB RE unit :=
  let! instance := get in
  let clusterServiceLabels := MergeMaps serviceLabels {["type" := ServiceClusterType]} in
  let! r := call (GetServicesListWithLabel (om_Namespace (db_Meta instance))
                    clusterServiceLabels) in
  match r with
  | Fail _ => ret tt
  | Okay items =>
      let! replicas := deref (db_Replicas (db_Spec instance)) in
      forM (downTo (Z.of_nat (length items)) replicas) (λ i,
        let fullServiceName := serviceName +:+ "-" +:+ fmt_d i in
        let! err := call (DeleteServicesWithLabel (to_object instance)
                            (podSelectorLabels serviceName fullServiceName)) in
        match err with
        | Some e => return_ (emptyResult, Some (Errorf_w
            ("error while deleting service with name " +:+ fullServiceName +:+ ": ") e ""))
        | None => ret tt
        end)
  end.

(** The DNS records of the pods on the external network; the service of the
    last pod visited. *)
Definition externalDNS (serviceName : string) (serviceLabels : gmap string string)
    (podList : list Pod) : Go DB RE (option Service) :=
  let! instance := get in
  let! replicas := deref (db_Replicas (db_Spec instance)) in
  let minLen := Z.min (Z.of_nat (length podList)) replicas in
  if bool_decide (minLen < 0)%Z then panic
  else
    let! acc := foldM (λ acc ovnPod,
        let! r := call (GetServiceWithName (pod_Name ovnPod) (pod_Namespace ovnPod)) in
        match r with
        | (_, Some err) => return_ (emptyResult, Some err)
        | (svc, None) =>
            let! dnsIP := fn (getPodIPInNetwork ovnPod) in
            match dnsIP with
            | Fail err => return_ (emptyResult, Some err)
            | Okay ip => ret (svc, acc.2 ++ [ip])
            end
        end) (None, []) (take (Z.to_nat minLen) podList) in
    let '(svc, dnsIPsList) := acc in
    let! instance := get in
    let! err := fn (DNSData_ serviceName dnsIPsList instance serviceLabels) in
    match err with
    | Some e => return_ (emptyResult, Some e)
    | None =>
        if bool_decide (Z.of_nat (length podList) < replicas)%Z
        then return_ (mkResult false (1 * time_Second), None)
        else ret svc
    end.

Definition deleteDNS (serviceName : string) : Go DB RE unit :=
  let! instance := get in
  let! err := call (Delete KDNSData (om_Namespace (db_Meta instance)) serviceName) in
  match err with
  | Some e =>
      if IsNotFound e then ret tt
      else return_ (emptyResult, Some (Errorf_w ("error deleting dnsdata " +:+ serviceName
                                                 +:+ ": ") e ""))
  | None => ret tt
  end.

Definition connectionScheme (instance : DB) : string :=
  if tls_Enabled (db_TLS (db_Spec instance)) then "ssl" else "tcp".

(** [instance.Status.DBAddress = GetDBAddress(...)]. *)
Definition setDBAddress (svcSpec : option ServiceSpec) (serviceName : string)
    : Go DB RE unit :=
  let! instance := get in
  match GetDBAddress svcSpec serviceName (om_Namespace (db_Meta instance))
          (connectionScheme instance) with
  | GOk address => modify (db_set_DBAddress address)
  | _ => panic
  end.

Definition dbReconcileServices (serviceLabels : gmap string string) (serviceName : string)
    : Go DB RE RE :=
  let! ssvc := clusterService serviceName serviceLabels in
  let! ssvc := createService ssvc in
  let! instance := get in
  let! r := OVNDBPods instance serviceLabels in
  let! podList := orReturn r in
  do! forM podList (podService serviceName);
  do! deleteExtraServices serviceName serviceLabels;
  let! instance := get in
  let lb := bool_decide (GetServiceType ssvc = ServiceTypeLoadBalancer) in
  let! svc := (if nonempty (db_NetworkAttachment (db_Spec instance)) && negb lb
               then externalDNS serviceName serviceLabels podList
               else do! deleteDNS serviceName; ret None) in
  do! (if lb then setDBAddress (GetSpec ssvc) serviceName
       else match svc with
            | Some s => setDBAddress (Some (svc_Spec s)) serviceName
            | None => ret tt
            end);
  ret (emptyResult, None).
(** ** reconcileNormal, phase by phase *)

Definition dbRbacRules : list PolicyRule :=
  [mkPolicyRule ["security.openshift.io"] ["restricted-v2"] ["securitycontextconstraints"]
     ["use"]].

(** The network to attach to; without one, an SB cluster that is not exposed
    deletes the external config map. *)
Definition dbNetworkInputs : Go DB RE (list string * list NAD) :=
  let! instance := get in
  let namespace := om_Namespace (db_Meta instance) in
  let networkAttachment := db_NetworkAttachment (db_Spec instance) in
  if nonempty networkAttachment then
    let! r := call (GetNADWithName networkAttachment namespace) in
    match r with
    | Fail err =>
        if IsNotFound err then
          do! setCond (FalseCondition NetworkAttachmentsReadyCondition ErrorReason
                SeverityWarning (Msg "condition.NetworkAttachmentsReadyWaitingMessage"
                                   [networkAttachment]));
          return_ (mkResult false (time_Second * 10), None)
        else
          do! dbConditionError NetworkAttachmentsReadyCondition
                "condition.NetworkAttachmentsReadyErrorMessage" err;
          return_ (emptyResult, Some err)
    | Okay nad => ret ([networkAttachment], option_list nad)
    end
  else if isSB instance && bool_decide (db_Override_Service (db_Spec instance) = None) then
    let! err := fn (deleteExternalConfigMaps namespace) in
    match err with
    | Some e => return_ (emptyResult, Some e)
    | None =>
        do! markTrue ExternalConfigReadyCondition (Msg "External config not required" []);
        ret ([], [])
    end
  else ret ([], []).

Definition dbServiceAnnotations (nadList : list NAD) : Go DB RE (gmap string string) :=
  let! instance := get in
  match EnsureNetworksAnnotation nadList with
  | Fail err => return_ (emptyResult, Some (Errorf_w
      ("failed create network annotation from " +:+ db_NetworkAttachment (db_Spec instance)
       +:+ ": ") err ""))
  | Okay annotations => ret annotations
  end.

(** The secrets the cluster needs, validated; the variables of their hashes. *)
Definition dbTLSInputs : Go DB RE (gmap string Setter) :=
  let! configMapVars := validateTLS ∅ in
  do! markTrue TLSInputReadyCondition (Msg "condition.InputReadyMessage" []);
  ret configMapVars.

(** The config maps, and the hash of all the inputs. *)
Definition dbServiceConfig (configMapVars : gmap string Setter) (serviceName : string)
    : Go DB RE string :=
  let! r := dbGenerateServiceConfigMaps configMapVars serviceName in
  match r with
  | (_, Some err) =>
      do! dbConditionError ServiceConfigReadyCondition
            "condition.ServiceConfigReadyErrorMessage" err;
      return_ (emptyResult, Some err)
  | (vars, None) =>
      let! r := storeHash (X := RE) vars InputHashName in
      match r with
      | Fail err =>
          do! dbConditionError ServiceConfigReadyCondition
                "condition.ServiceConfigReadyErrorMessage" err;
          return_ (emptyResult, Some err)
      | Okay (inputHash, _) =>
          do! markTrue ServiceConfigReadyCondition
                (Msg "condition.ServiceConfigReadyMessage" []);
          ret inputHash
      end
  end.

Definition reconcileUpdate {S X} : Go S X RE := ret (emptyResult, None).
Definition reconcileUpgrade {S X} : Go S X RE := ret (emptyResult, None).

Definition dbTopology (serviceLabels : gmap string string) : Go DB RE (option Topology) :=
  let! instance := get in
  let! r := fn (ensureTopology (om_Name (db_Meta instance)) (GetLabelSelector serviceLabels)) in
  match r with
  | Fail err =>
      do! dbConditionError TopologyReadyCondition "condition.TopologyReadyErrorMessage" err;
      return_ (emptyResult, Some (Errorf_w "waiting for Topology requirements: " err ""))
  | Okay topology => ret topology
  end.

Definition dbWorkload (inputHash : string) (serviceLabels annotations : gmap string string)
    (topology : option Topology) : Go DB RE StatefulSetObs :=
  let! instance := get in
  let! stsSpec := lift_go (StatefulSet instance inputHash serviceLabels annotations topology) in
  match stsSpec with
  | Fail err => return_ (emptyResult, Some err)
  | Okay sts =>
      let! r := call (StatefulSetCreateOrPatch sts (5 * time_Second)) in
      match r with
      | ((ctrlResult, Some err), _) =>
          do! dbConditionError DeploymentReadyCondition
                "condition.DeploymentReadyErrorMessage" err;
          return_ (ctrlResult, Some err)
      | ((ctrlResult, None), stateful) =>
          if bool_decide (ctrlResult = emptyResult) then ret stateful
          else do! dbDeploymentRunning; return_ (ctrlResult, None)
      end
  end.

(** [instance.Spec.Replicas != nil && *instance.Spec.Replicas > 1]. *)
Definition dbWantsPDB (instance : DB) : bool :=
  match db_Replicas (db_Spec instance) with
  | Some n => bool_decide (n > 1)%Z
  | None => false
  end.

Definition dbPDB (serviceName : string) (serviceLabels : gmap string string)
    : Go DB RE unit :=
  let! instance := get in
  let namespace := om_Namespace (db_Meta instance) in
  do! (if dbWantsPDB instance then
         let! r := call (PDBCreateOrPatch (mkPDB serviceName namespace 1 serviceLabels)
                           (5 * time_Second)) in
         match r with
         | (_, Some err) =>
             do! dbConditionError PDBReadyCondition "condition.PDBReadyErrorMessage" err;
             return_ (emptyResult, Some err)
         | (ctrlResult, None) =>
             if bool_decide (ctrlResult = emptyResult) then ret tt
             else return_ (ctrlResult, None)
         end
       else
         let! err := call (DeletePDBWithName serviceName namespace) in
         match err with
         | Some e => return_ (emptyResult, Some (Errorf_w "failed to delete PDB: " e ""))
         | None => ret tt
         end);
  markTrue PDBReadyCondition (Msg "condition.PDBReadyMessage" []).

Definition dbExpose (serviceName : string) (serviceLabels : gmap string string)
    : Go DB RE unit :=
  let! r := fn (dbReconcileServices serviceLabels serviceName) in
  match r with
  | (ctrlResult, Some err) =>
      do! dbConditionError ExposeServiceReadyCondition
            "condition.ExposeServiceReadyErrorMessage" err;
      return_ (ctrlResult, Some err)
  | (ctrlResult, None) =>
      if bool_decide (ctrlResult = emptyResult) then ret tt
      else
        do! setCond (FalseCondition ExposeServiceReadyCondition RequestedReason SeverityInfo
                       (Msg "condition.ExposeServiceReadyRunningMessage" []));
        return_ (ctrlResult, None)
  end.

(** The ready replicas, once the StatefulSet controller has seen the spec, and
    the networks of the pods. *)
Definition dbNetworkStatus (stateful : StatefulSetObs) (networkAttachments : list string)
    (serviceLabels : gmap string string) : Go DB RE unit :=
  do! (if bool_decide (sts_Generation stateful = sts_ObservedGeneration stateful)
       then modify (db_set_ReadyCount (sts_ReadyReplicas stateful)) else ret tt);
  let! instance := get in
  let! r := call (VerifyNetworkStatusFromAnnotation networkAttachments serviceLabels
                    (dbs_ReadyCount (db_Status instance))) in
  match r with
  | Fail err => return_ (emptyResult, Some err)
  | Okay (networkReady, networkAttachmentStatus) =>
      do! modify (db_set_NetworkAttachments (Some networkAttachmentStatus));
      if (networkReady : bool) then
        markTrue NetworkAttachmentsReadyCondition
          (Msg "condition.NetworkAttachmentsReadyMessage" [])
      else
        do! dbConditionError NetworkAttachmentsReadyCondition
              "condition.NetworkAttachmentsReadyErrorMessage"
              (Errorf_w "" ErrPodsInterfaces (" with ips as configured in NetworkAttachments: "
                 +:+ db_NetworkAttachment (db_Spec instance)));
        return_ (emptyResult, None)
  end.

(** The runtime configuration, when every replica is ready and updated. *)
Definition dbRuntimeConfig (stateful : StatefulSetObs) (serviceName : string)
    (serviceLabels : gmap string string) : Go DB RE unit :=
  let! instance := get in
  let! replicas := deref (db_Replicas (db_Spec instance)) in
  if bool_decide (dbs_ReadyCount (db_Status instance) = replicas) &&
     bool_decide (sts_UpdatedReplicas stateful = replicas) then
    let! err := fn (reconcileRuntimeConfig serviceLabels serviceName) in
    match err with
    | Some e =>
        do! dbConditionError ServiceConfigReadyCondition
              "condition.ServiceConfigReadyErrorMessage" e;
        return_ (emptyResult, Some e)
    | None => ret tt
    end
  else ret tt.

(** The service is one of a pod: neither headless nor a load balancer. *)
Definition is_cluster_service (svc : Service) : bool :=
  negb (bool_decide (ss_ClusterIP (svc_Spec svc) = "None") ||
        bool_decide (ss_Type (svc_Spec svc) = ServiceTypeLoadBalancer)).

Definition internalAddress (scheme : string) (svc : Service) (clusterDomain : string)
    (svcPort : Z) : string :=
  scheme +:+ ":" +:+ svc_Name svc +:+ "." +:+ svc_Namespace svc +:+ ".svc." +:+
  clusterDomain +:+ ":" +:+ fmt_d svcPort.

(** [svc.Spec.Ports[0]] panics on a service without ports. *)
Definition internalDbAddresses (scheme : string) (items : list Service)
    : Go DB RE (list string) :=
  foldM (λ internalDbAddress svc,
    match ss_Ports (svc_Spec svc) with
    | [] => panic
    | port :: _ =>
        if is_cluster_service svc then
          let! clusterDomain := call GetDNSClusterDomain in
          ret (internalDbAddress ++ [internalAddress scheme svc clusterDomain (sp_Port port)])
        else ret internalDbAddress
    end) [] items.

(** Only an exposed SB cluster gives its address to the data plane nodes. *)
Definition dbExternalConfig (serviceName : string) : Go DB RE unit :=
  let! instance := get in
  if isSB instance && (nonempty (db_NetworkAttachment (db_Spec instance)) ||
                       bool_decide (is_Some (db_Override_Service (db_Spec instance)))) then
    let! err := fn (generateExternalConfigMaps serviceName) in
    match err with
    | Some e =>
        do! dbConditionError ExternalConfigReadyCondition "ovnv1.ExternalConfigErrorMessage" e;
        return_ (emptyResult, Some e)
    | None => markTrue ExternalConfigReadyCondition
                (Msg "condition.ServiceConfigReadyMessage" [])
    end
  else ret tt.

Definition dbDeploymentStatus (stateful : StatefulSetObs) (items : list Service)
    (serviceName : string) : Go DB RE RE :=
  if statefulset_IsReady stateful && bool_decide (items ≠ []) then
    do! markTrue DeploymentReadyCondition (Msg "condition.DeploymentReadyMessage" []);
    do! markTrue ExposeServiceReadyCondition (Msg "condition.ExposeServiceReadyMessage" []);
    let! instance := get in
    let! internalDbAddress := internalDbAddresses (connectionScheme instance) items in
    do! modify (db_set_InternalDBAddress (strings_Join internalDbAddress ","));
    do! dbExternalConfig serviceName;
    ret (emptyResult, None)
  else
    do! dbDeploymentRunning;
    return_ (emptyResult, None).

(** [GetServicesListWithLabel] on the services of the cluster. *)
Definition dbServiceList (serviceLabels : gmap string string) : Go DB RE (list Service) :=
  let! instance := get in
  let! r := call (GetServicesListWithLabel (om_Namespace (db_Meta instance)) serviceLabels) in
  match r with
  | Fail err =>
      do! dbConditionError ExposeServiceReadyCondition
            "condition.ExposeServiceReadyErrorMessage" err;
      return_ (emptyResult, Some err)
  | Okay items => ret items
  end.

Definition dbReconcileNormal : Go DB RE RE :=
  do! reconcileRbac OVNDBCluster_RbacConditionsSet dbRbacRules;
  let! instance := get in
  let serviceName := dbServiceName instance in
  do! (if isSB instance then ret tt
       else markTrue ExternalConfigReadyCondition
              (Msg "External config not required for NB DBCluster" []));
  let serviceLabels : gmap string string := {[AppSelector := serviceName]} in
  let! nets := dbNetworkInputs in
  let! annotations := dbServiceAnnotations nets.2 in
  do! markTrue InputReadyCondition (Msg "condition.InputReadyMessage" []);
  let! configMapVars := dbTLSInputs in
  let! inputHash := dbServiceConfig configMapVars serviceName in
  let! r := reconcileUpdate in
  do! returnUnlessDone r;
  let! r := reconcileUpgrade in
  do! returnUnlessDone r;
  let! topology := dbTopology serviceLabels in
  let! stateful := dbWorkload inputHash serviceLabels annotations topology in
  do! dbPDB serviceName serviceLabels;
  do! dbExpose serviceName serviceLabels;
  do! dbNetworkStatus stateful nets.1 serviceLabels;
  let! items := dbServiceList serviceLabels in
  do! dbRuntimeConfig stateful serviceName serviceLabels;
  dbDeploymentStatus stateful items serviceName.

(** ** Reconcile *)

(** The status at the start of a reconciliation. *)
Definition dbInitStatus (instance : DB) : DB :=
  let st := db_Status instance in
  let instance := db_set_Conditions
    (Conditions_Init (CreateList (dbInitConditions instance))
       (initConditionsIfNil (dbs_Conditions st))) instance in
  let instance := db_set_ObservedGeneration (om_Generation (db_Meta instance)) instance in
  let instance := db_set_Hash (Some (default ∅ (dbs_Hash st))) instance in
  db_set_NetworkAttachments (Some (default ∅ (dbs_NetworkAttachments st))) instance.

Definition OVNDBCluster_Reconcile (req : NamespacedName) : prog Ext RE :=
  reconcile (GetOVNDBCluster req) dbInitStatus
    (λ _, reconcileBody false (λ i, i) dbReconcileNormal).
End dbcluster.
