(* ===== verification/CtlNetworks.v ===== *)
(** * The networks of ovn-controller (internal/ovncontroller/network.go, utils.go)

    The network attachment definitions made from the NIC mappings and bonds of an
    [OVNController], and the list of networks its pods attach to. *)
From S2P Require Import Prelude Prog K8s Lib Api ApiMethods Calls.
#[local] Open Scope go_scope.

(** ** JSON text *)

Definition dquote : string := String (Ascii.ascii_of_N 34) "".
(** [s] between double quotes. *)
Definition quoted (s : string) : string := dquote +:+ s +:+ dquote.
(** [name: value] of a JSON object. *)
Definition jfield (name value : string) : string := quoted name +:+ ": " +:+ value.

(** [unicode.IsLetter(c) || unicode.IsNumber(c) || c == '-'] on ASCII text. *)
Definition name_char (c : Ascii.ascii) : bool :=
  let n := Ascii.N_of_ascii c in
  bool_decide (48 ≤ n ∧ n ≤ 57)%N || bool_decide (65 ≤ n ∧ n ≤ 90)%N ||
  bool_decide (97 ≤ n ∧ n ≤ 122)%N || bool_decide (n = 45)%N.

Definition hyphen : Ascii.ascii := Ascii.ascii_of_N 45.

(** The name of the attachment of a link: unwanted characters become hyphens. *)
Fixpoint linkName (interfaceName : string) : string :=
  match interfaceName with
  | EmptyString => EmptyString
  | String c s => String (if name_char c then c else hyphen) (linkName s)
  end.

Section networks.
Context {AT : ApiTypes} {CL : CondLib} {L : Lib}.

Definition errBondLink : error := errors_New "bondWithNoLinksError".
Definition bondWithNoLinksError (interfaceName : string) : error :=
  Errorf_w "" errBondLink (": bond configuration for " +:+ interfaceName +:+
                           " has no links defined").

Definition defineNADConfig (physNet interfaceName : string) : string :=
  "{" +:+ jfield "cniVersion" (quoted "0.3.1") +:+ ", " +:+
  jfield "name" (quoted physNet) +:+ ", " +:+
  jfield "type" (quoted "host-device") +:+ ", " +:+
  jfield "device" (quoted interfaceName) +:+ "}".

(** The loop that joins the links with [", "]. *)
Definition bondLinks (links : list string) : string :=
  "[" +:+ strings_Join ((λ link, "{" +:+ jfield "name" (quoted link) +:+ "}") <$> links) ", "
  +:+ "]".

Definition defineBondNADConfig (physNet : string) (bond : Bond) (links : list string)
    : string :=
  "{" +:+ jfield "cniVersion" (quoted "0.3.1") +:+ "," +:+
  jfield "name" (quoted physNet) +:+ ", " +:+
  jfield "type" (quoted "bond") +:+ ", " +:+
  jfield "mode" (quoted (bond_Mode bond)) +:+ ", " +:+
  jfield "failOverMac" "1" +:+ ", " +:+
  jfield "linksInContainer" "true" +:+ ", " +:+
  jfield "miimon" (quoted "100") +:+ ", " +:+
  jfield "mtu" (fmt_d (bond_Mtu bond)) +:+ ", " +:+
  jfield "links" (bondLinks links) +:+ "}".

Definition nad_owned (instance : OVNController) (nad : NAD) : bool :=
  existsb (λ owner, bool_decide (owner_Name owner = om_Name (oc_Meta instance)))
    (nad_OwnerReferences nad).

Definition createOrUpdateNetworkAttachmentDefinition {S X} (instance : OVNController)
    (labels : gmap string string) (physNet nadSpecConfig : string) : Go S X (option error) :=
  let namespace := om_Namespace (oc_Meta instance) in
  let! r := call (GetNAD namespace physNet) in
  match r with
  | Fail err =>
      if IsNotFound err then
        let ownerRef := mkOwnerRef (oc_Kind instance) (om_Name (oc_Meta instance)) in
        let! err := call (CreateNAD (mkNAD physNet namespace labels [ownerRef]
                                       nadSpecConfig)) in
        match err with
        | Some e => ret (Some (Errorf_w ("cannot create NetworkAttachmentDefinition " +:+
                                         nadSpecConfig +:+ ": ") e ""))
        | None => ret None
        end
      else ret (Some (Errorf_w ("cannot get NetworkAttachmentDefinition " +:+ nadSpecConfig
                                +:+ ": ") err ""))
  | Okay nad =>
      if nad_owned instance nad then
        let! err := call (UpdateNAD (mkNAD (nad_Name nad) (nad_Namespace nad)
          (nad_Labels nad) (nad_OwnerReferences nad) nadSpecConfig)) in
        match err with
        | Some e => ret (Some (Errorf_w ("cannot update NetworkAttachmentDefinition " +:+
                                         nadSpecConfig +:+ ": ") e ""))
        | None => ret None
        end
      else ret None
  end.

Definition createLinkNADs {S} (instance : OVNController) (labels : gmap string string)
    (links : list string) : Go S (fallible (list string)) (fallible (list string)) :=
  let! names := foldM (λ linkNames interfaceName,
    let nadName := linkName interfaceName in
    let! err := createOrUpdateNetworkAttachmentDefinition instance labels nadName
                  (defineNADConfig nadName interfaceName) in
    match err with
    | Some e => return_ (Fail e)
    | None => ret (linkNames ++ [nadName])
    end) [] links in
  ret (Okay names).

(** A map read of a missing key gives the zero [Bond]. *)
Definition bondAt (instance : OVNController) (interfaceName : string) : Bond :=
  default (mkBond "" 0 []) (oc_BondConfiguration (oc_Spec instance) !! interfaceName).
Definition nicAt (instance : OVNController) (physNet : string) : string :=
  default "" (oc_NicMappings (oc_Spec instance) !! physNet).

(** One turn of the loop over the sorted keys. *)
Definition additionalNetwork {S} (instance : OVNController) (labels : gmap string string)
    (networkAttachments bondKeys : list string) (finalNetworkAttachments : list string)
    (physNet : string) : Go S (fallible (list string)) (list string) :=
  if slices_Contains networkAttachments physNet then
    ret (finalNetworkAttachments ++ [physNet])
  else
    let interfaceName := nicAt instance physNet in
    let! pre := (if slices_Contains bondKeys interfaceName then
        let bond := bondAt instance interfaceName in
        if bool_decide (bond_Links bond = []) then
          return_ (Fail (bondWithNoLinksError interfaceName))
        else
          let! linkNames := fn (createLinkNADs instance labels (bond_Links bond)) in
          match linkNames with
          | Fail err => return_ (Fail err)
          | Okay names =>
              ret (finalNetworkAttachments ++ names, defineBondNADConfig physNet bond names)
          end
      else ret (finalNetworkAttachments, defineNADConfig physNet interfaceName)) in
    let! err := createOrUpdateNetworkAttachmentDefinition instance labels physNet pre.2 in
    match err with
    | Some e => return_ (Fail e)
    | None => ret (pre.1 ++ [physNet])
    end.

(** The body, from the keys in the order [maps.Keys] happened to give them. *)
Definition additionalNetworksFrom {S} (nicKeys bondKeys : list string)
    (instance : OVNController) (labels : gmap string string)
    (networkAttachments : list string)
    : Go S (fallible (list string)) (fallible (list string)) :=
  let allKeys := sort_Strings (nicKeys ++ networkAttachments) in
  let! nets := foldM (additionalNetwork instance labels networkAttachments bondKeys) []
                 allKeys in
  ret (Okay nets).

Definition CreateOrUpdateAdditionalNetworks {S} (instance : OVNController)
    (labels : gmap string string) (networkAttachments : list string)
    : Go S (fallible (list string)) (fallible (list string)) :=
  additionalNetworksFrom (maps_Keys (oc_NicMappings (oc_Spec instance)))
    (maps_Keys (oc_BondConfiguration (oc_Spec instance))) instance labels networkAttachments.

(** ** utils.go *)

Definition physicalNetworksFrom (nicKeys : list string) : string :=
  strings_Join (sort_Strings nicKeys) " ".

Definition getPhysicalNetworks (instance : OVNController) : string :=
  physicalNetworksFrom (maps_Keys (oc_NicMappings (oc_Spec instance))).

Definition getOVNControllerPods {S X} (instance : OVNController)
    : Go S X (fallible (list Pod)) :=
  let! r := call (ListPods (om_Namespace (oc_Meta instance))
                    {["service" := ServiceNameOVNController]}) in
  match r with
  | Fail err => ret (Fail (Errorf_w ("error listing pods for instance " +:+
                                     om_Name (oc_Meta instance) +:+ ": ") err ""))
  | Okay pods => ret (Okay pods)
  end.
End networks.
