(* ===== verification/Json.v ===== *)
(** * JSON texts

    The reading side of the network configurations that the operator prints: a reader of
    JSON texts, and what the pieces of a printed text denote to it.  Strings are read as
    they are: a text with an escape is not read at all. *)
From S2P Require Import Prelude CtlNetworks.
#[local] Open Scope go_scope.

Inductive json :=
| JString (s : string)
| JNumber (z : Z)
| JBool (b : bool)
| JArray (l : list json)
| JObject (l : list (string * json)).

Definition char (n : N) : Ascii.ascii := Ascii.ascii_of_N n.
Definition is_quote (c : Ascii.ascii) : bool := bool_decide (Ascii.N_of_ascii c = 34)%N.
(** Neither a quote, nor a backslash, nor a control character. *)
Definition plain (c : Ascii.ascii) : bool :=
  let n := Ascii.N_of_ascii c in
  negb (is_quote c) && bool_decide (n ≠ 92)%N && bool_decide (32 ≤ n)%N.
Fixpoint clean (s : string) : bool :=
  match s with EmptyString => true | String c s => plain c && clean s end.

Definition is_space (c : Ascii.ascii) : bool :=
  let n := Ascii.N_of_ascii c in
  bool_decide (n = 32)%N || bool_decide (n = 9)%N || bool_decide (n = 10)%N ||
  bool_decide (n = 13)%N.
Definition digit (c : Ascii.ascii) : option N :=
  let n := Ascii.N_of_ascii c in
  if bool_decide (48 ≤ n ∧ n ≤ 57)%N then Some (n - 48)%N else None.

(** ** The reader *)
Fixpoint skip_ws (s : string) : string :=
  match s with
  | String c s' => if is_space c then skip_ws s' else s
  | EmptyString => EmptyString
  end.

(** The text after the character [n]. *)
Definition expect (n : N) (s : string) : option string :=
  match skip_ws s with
  | String c s' => if bool_decide (Ascii.N_of_ascii c = n) then Some s' else None
  | EmptyString => None
  end.

(** A string whose opening quote was read. *)
Fixpoint read_string (s : string) : option (string * string) :=
  match s with
  | EmptyString => None
  | String c s' =>
      if is_quote c then Some ("", s')
      else if plain c then
        match read_string s' with Some (x, r) => Some (String c x, r) | None => None end
      else None
  end.

Fixpoint read_digits (acc : N) (s : string) : N * string :=
  match s with
  | String c s' =>
      match digit c with Some d => read_digits (acc * 10 + d) s' | None => (acc, s) end
  | EmptyString => (acc, s)
  end.

Definition read_natural (s : string) : option (N * string) :=
  match s with
  | String c _ => match digit c with Some _ => Some (read_digits 0 s) | None => None end
  | EmptyString => None
  end.

Definition read_number (s : string) : option (Z * string) :=
  match s with
  | String c s' =>
      if bool_decide (Ascii.N_of_ascii c = 45)%N then
        match read_natural s' with Some (n, r) => Some (- Z.of_N n, r)%Z | None => None end
      else
        match read_natural s with Some (n, r) => Some (Z.of_N n, r) | None => None end
  | EmptyString => None
  end.

(** The text after the word. *)
Fixpoint strip (word s : string) : option string :=
  match word, s with
  | EmptyString, _ => Some s
  | String c word', String c' s' => if bool_decide (c = c') then strip word' s' else None
  | String _ _, EmptyString => None
  end.

(** A value, the members of an object and the elements of an array, none of them
    empty; the fuel bounds the depth and the number of members. *)
Fixpoint value (fuel : nat) (s : string) : option (json * string) :=
  match fuel with
  | O => None
  | S n =>
      match expect 34 s, expect 123 s, expect 91 s with
      | Some s1, _, _ =>
          match read_string s1 with Some (x, r) => Some (JString x, r) | None => None end
      | _, Some s1, _ =>
          match expect 125 s1 with
          | Some r => Some (JObject [], r)
          | None => match members n s1 with Some (l, r) => Some (JObject l, r) | None => None end
          end
      | _, _, Some s1 =>
          match expect 93 s1 with
          | Some r => Some (JArray [], r)
          | None => match elements n s1 with Some (l, r) => Some (JArray l, r) | None => None end
          end
      | None, None, None =>
          match strip "true" (skip_ws s), strip "false" (skip_ws s), read_number (skip_ws s) with
          | Some r, _, _ => Some (JBool true, r)
          | _, Some r, _ => Some (JBool false, r)
          | _, _, Some (z, r) => Some (JNumber z, r)
          | None, None, None => None
          end
      end
  end
with members (fuel : nat) (s : string) : option (list (string * json) * string) :=
  match fuel with
  | O => None
  | S n =>
      match expect 34 s ≫= read_string with
      | None => None
      | Some (k, s1) =>
          match expect 58 s1 ≫= value n with
          | None => None
          | Some (v, s2) =>
              match expect 44 s2, expect 125 s2 with
              | Some s3, _ =>
                  match members n s3 with Some (l, r) => Some ((k, v) :: l, r) | None => None end
              | None, Some r => Some ([(k, v)], r)
              | None, None => None
              end
          end
      end
  end
with elements (fuel : nat) (s : string) : option (list json * string) :=
  match fuel with
  | O => None
  | S n =>
      match value n s with
      | None => None
      | Some (v, s1) =>
          match expect 44 s1, expect 93 s1 with
          | Some s2, _ =>
              match elements n s2 with Some (l, r) => Some (v :: l, r) | None => None end
          | None, Some r => Some ([v], r)
          | None, None => None
          end
      end
  end.

(** A text that is one value, and spaces. *)
Definition parse_json (s : string) : option json :=
  match value (String.length s) s with
  | Some (v, r) => if bool_decide (skip_ws r = "") then Some v else None
  | None => None
  end.
