(* ===== verification/CtlManifests.v ===== *)
(** * The objects of ovn-controller (internal/ovncontroller)

    The volumes, security contexts, DaemonSets, metrics objects and configuration
    jobs of an [OVNController], as functions of the resource. *)
From S2P Require Import Prelude Prog K8s Lib Api ApiMethods Calls Webhook DBManifests.
From S2P Require Import CtlNetworks.
#[local] Open Scope go_scope.

Definition HostPathDirectoryOrCreate : string := "DirectoryOrCreate".

(** ** Volumes (volumes.go) *)

Definition hostVolume (name path : string) : Volume :=
  mkVolume name (HostPathVolume path HostPathDirectoryOrCreate).

(** [/var/home/core/<namespace>/<dir>] on the host. *)
Definition hostDir (namespace dir : string) : string :=
  "/var/home/core/" +:+ namespace +:+ "/" +:+ dir.

Definition GetOVSVolumes (name namespace : string) : list Volume :=
  [hostVolume "etc-ovs" (hostDir namespace "etc/ovs");
   hostVolume "var-run" (hostDir namespace "var/run/openvswitch");
   hostVolume "var-log" (hostDir namespace "var/log/openvswitch");
   hostVolume "var-lib" (hostDir namespace "var/lib/openvswitch");
   mkVolume "scripts" (ConfigMapVolume (name +:+ "-scripts") (Some scriptsVolumeDefaultMode))].

Definition GetOVNControllerVolumes (name namespace : string) (includeAdditional : bool)
    : list Volume :=
  [hostVolume "etc-ovs" (hostDir namespace "etc/ovs");
   hostVolume "var-run" (hostDir namespace "var/run/openvswitch");
   hostVolume "var-log" (hostDir namespace "var/log/openvswitch");
   hostVolume "var-lib" (hostDir namespace "var/lib/openvswitch");
   hostVolume "var-run-ovn" (hostDir namespace "var/run/ovn");
   hostVolume "var-log-ovn" (hostDir namespace "var/log/ovn");
   mkVolume "scripts" (ConfigMapVolume (name +:+ "-scripts") (Some scriptsVolumeDefaultMode))] ++
  (if includeAdditional then
     [mkVolume "additional-scripts"
        (ConfigMapVolume (name +:+ "-extra-scripts") (Some scriptsVolumeDefaultMode))]
   else []).

Definition GetVswitchdVolumeMounts : list VolumeMount :=
  [mkMount "var-run" "/var/run/openvswitch" "" false;
   mkMount "var-log" "/var/log/openvswitch" "" false;
   mkMount "var-lib" "/var/lib/openvswitch" "" false;
   mkMount "scripts" "/usr/local/bin/container-scripts" "" true].

Definition GetOVSDbVolumeMounts : list VolumeMount :=
  [mkMount "etc-ovs" "/etc/openvswitch" "" false;
   mkMount "var-run" "/var/run/openvswitch" "" false;
   mkMount "var-log" "/var/log/openvswitch" "" false;
   mkMount "var-lib" "/var/lib/openvswitch" "" false;
   mkMount "scripts" "/usr/local/bin/container-scripts" "" true].

Definition GetOVNControllerVolumeMounts (includeAdditional : bool) : list VolumeMount :=
  [mkMount "var-run" "/var/run/openvswitch" "" false;
   mkMount "var-run-ovn" "/var/run/ovn" "" false;
   mkMount "var-log-ovn" "/var/log/ovn" "" false;
   mkMount "scripts" "/usr/local/bin/container-scripts" "" true] ++
  (if includeAdditional then
     [mkMount "additional-scripts" "/usr/local/bin/additional-scripts" "" true] else []).

(** ** Security contexts (securitycontext.go) *)

Definition privilegedOVSCapabilities : list string := ["NET_ADMIN"; "SYS_ADMIN"; "SYS_NICE"].
Definition SeccompProfileTypeRuntimeDefault : string := "RuntimeDefault".

Definition getPrivilegedDaemonSetPodSecurityContext : option PodSecurityContext :=
  Some (mkPodSecurityContext (Some SeccompProfileTypeRuntimeDefault)).

(** [if len(capabilities) > 0]. *)
Definition addedCapabilities (capabilities : list string) : option Capabilities :=
  match capabilities with [] => None | _ => Some (mkCapabilities capabilities []) end.

Definition getPrivilegedHostPathSecurityContext (capabilities : list string)
    : SecurityContext :=
  mkSecurityContext (Some 0%Z) None (Some true) (Some true) (Some false)
    (addedCapabilities capabilities) (Some SeccompProfileTypeRuntimeDefault).

Definition getLegacyOVSPodSecurityContext : option PodSecurityContext := None.

Definition getLegacyOVSHostPathSecurityContext (capabilities : list string) : SecurityContext :=
  mkSecurityContext (Some 0%Z) None (Some true) None None (addedCapabilities capabilities) None.

Definition getOVSPodSecurityContext (hardened : bool) : option PodSecurityContext :=
  if hardened then getPrivilegedDaemonSetPodSecurityContext
  else getLegacyOVSPodSecurityContext.

Definition getOVSContainerSecurityContext (hardened : bool) (capabilities : list string)
    : SecurityContext :=
  if hardened then getPrivilegedHostPathSecurityContext capabilities
  else getLegacyOVSHostPathSecurityContext capabilities.

Section manifests.
Context {AT : ApiTypes} {CL : CondLib} {L : Lib}.

(** [instance.Spec.TLS.CaBundleSecretName != ""]. *)
Definition oc_ca (instance : OVNController) : bool :=
  nonempty (tls_CaBundleSecretName (oc_TLS (oc_Spec instance))).

Definition hashEnv (configHash : string) : gmap string Setter :=
  {["CONFIG_HASH" := SetValue configHash]}.

(** The affinity of a topology replaces the template's, which has none. *)
Definition topologyAffinity (topology : option Topology) : option Affinity :=
  topology ≫= Topology_Affinity.

(** ** DaemonSets (daemonset.go) *)

(** [*instance.Spec.TLS.SecretName] panics on nil. *)
Definition CreateOVNDaemonSet (instance : OVNController) (configHash : string)
    (labels : gmap string string) (topology : option Topology) : go DaemonSetDef :=
  let spec := oc_Spec instance in
  let meta := oc_Meta instance in
  match GetProbeSet spec with
  | (_, Some err) => GErr (Errorf_w "invalid ovn-controller probes: " err "")
  | (probeSet, None) =>
  let tls := tls_Enabled (oc_TLS spec) in
  let ca := tls && oc_ca instance in
  match (if tls then tls_SecretName (oc_TLS spec) else Some "") with
  | None => GPanic
  | Some secretName =>
  let svc := dbCertService secretName in
  let volumes := GetOVNControllerVolumes (om_Name meta) (om_Namespace meta) false ++
    (if tls then [tls_CreateVolume svc ServiceNameOVNController] else []) ++
    (if ca then [Ca_CreateVolume (oc_TLS spec)] else []) in
  let mounts := GetOVNControllerVolumeMounts false ++
    (if tls then tls_CreateVolumeMounts svc ServiceNameOVNController else []) ++
    (if ca then Ca_CreateVolumeMounts (oc_TLS spec) else []) in
  let cmd := ["ovn-controller"; "--pidfile"; "unix:/run/openvswitch/db.sock"] ++
    (if tls then ["--certificate=" +:+ OVNDbCertPath; "--private-key=" +:+ OVNDbKeyPath;
                  "--ca-cert=" +:+ OVNDbCaCertPath] else []) in
  let containers := [mkContainer "ovn-controller" (oc_OvnContainerImage spec) cmd []
    (Some (getPrivilegedHostPathSecurityContext privilegedOVSCapabilities))
    (MergeEnvs [] (hashEnv configHash)) mounts (Some (oc_Resources spec))
    (pset_Readiness probeSet) (pset_Liveness probeSet) (pset_Startup probeSet)
    (Some ["/usr/share/ovn/scripts/ovn-ctl"; "stop_controller"])
    TerminationMessageFallbackToLogsOnError] in
  GOk (mkDaemonSet ServiceNameOVNController (om_Namespace meta) labels
    (mkPodTemplateSpec labels ∅
      (mkPodSpec None (OVNController_RbacResourceName instance)
         getPrivilegedDaemonSetPodSecurityContext "" [] containers volumes
         (oc_NodeSelector spec) "" (topologyAffinity topology))))
  end
  end.

(** The four probes of the OVS containers differ in their script alone. *)
Definition ovsProbe (script : string) : Probe :=
  mkProbe 5 5 30 0 (ExecAction ["/usr/local/bin/container-scripts/" +:+ script]).

Definition CreateOVSDaemonSet (instance : OVNController) (configHash : string)
    (labels annotations : gmap string string) (topology : option Topology)
    (hardened : bool) : DaemonSetDef :=
  let spec := oc_Spec instance in
  let meta := oc_Meta instance in
  let env := MergeEnvs [] (hashEnv configHash) in
  let sc := Some (getOVSContainerSecurityContext hardened privilegedOVSCapabilities) in
  let script s := "/usr/local/bin/container-scripts/" +:+ s in
  let initContainers := [mkContainer "ovsdb-server-init" (oc_OvsContainerImage spec)
    [script "init-ovsdb-server.sh"] [] sc env GetOVSDbVolumeMounts None None None None None ""] in
  let containers :=
    [mkContainer "ovsdb-server" (oc_OvsContainerImage spec) ["/usr/bin/dumb-init"]
       ["--single-child"; "--"; script "start-ovsdb-server.sh"] sc env GetOVSDbVolumeMounts
       (Some (oc_Resources spec)) (Some (ovsProbe "ovsdb_server_readiness.sh"))
       (Some (ovsProbe "ovsdb_server_liveness.sh")) None
       (Some [script "stop-ovsdb-server.sh"]) TerminationMessageFallbackToLogsOnError;
     mkContainer "ovs-vswitchd" (oc_OvsContainerImage spec) [script "start-vswitchd.sh"]
       [] sc env GetVswitchdVolumeMounts
       (Some (oc_Resources spec)) (Some (ovsProbe "vswitchd_readiness.sh"))
       (Some (ovsProbe "vswitchd_liveness.sh")) None
       (Some [script "stop-vswitchd.sh"]) TerminationMessageFallbackToLogsOnError] in
  let template := mkPodTemplateSpec labels ∅
    (mkPodSpec None (OVNController_RbacResourceName instance)
       (getOVSPodSecurityContext hardened) "" initContainers containers
       (GetOVSVolumes (om_Name meta) (om_Namespace meta)) (oc_NodeSelector spec) "" None) in
  let template := match topology with
                  | Some t => Topology_ApplyTo t template
                  | None => template
                  end in
  let template := if bool_decide (annotations = ∅) then template
                  else mkPodTemplateSpec (pt_Labels template) annotations (pt_Spec template) in
  mkDaemonSet ServiceNameOVS (om_Namespace meta) labels template.

Definition CreateMetricsDaemonSet (instance : OVNController) (configHash : string)
    (labels : gmap string string) (topology : option Topology) : DaemonSetDef :=
  let spec := oc_Spec instance in
  let meta := oc_Meta instance in
  let tls := tls_Enabled (oc_TLS spec) in
  let ca := tls && oc_ca instance in
  let svc := metricsCertService (oc_MetricsTLS spec) in
  let volumes :=
    [hostVolume "ovs-rundir" (hostDir (om_Namespace meta) "var/run/openvswitch");
     hostVolume "ovn-rundir" (hostDir (om_Namespace meta) "var/run/ovn");
     mkVolume "config" (ConfigMapVolume (om_Name meta +:+ "-metrics-config") None)] ++
    (if tls then [tls_CreateVolume svc "metrics-certs"] else []) ++
    (if ca then [Ca_CreateVolume (oc_TLS spec)] else []) in
  let volumeMounts :=
    [mkMount "ovs-rundir" "/var/run/openvswitch" "" true;
     mkMount "ovn-rundir" "/var/run/ovn" "" true;
     mkMount "config" "/etc/config" "" true] ++
    (if tls then tls_CreateVolumeMounts svc "metrics-certs" else []) ++
    (if ca then Ca_CreateVolumeMounts (oc_TLS spec) else []) in
  let containers := [mkContainer "openstack-network-exporter" (oc_ExporterImage spec)
    ["/app/openstack-network-exporter"] []
    (Some (getPrivilegedHostPathSecurityContext privilegedOVSCapabilities))
    (MergeEnvs [mkEnvVar "OPENSTACK_NETWORK_EXPORTER_YAML"
                  "/etc/config/openstack-network-exporter.yaml" None] (hashEnv configHash))
    volumeMounts None None None None None TerminationMessageFallbackToLogsOnError] in
  mkDaemonSet ServiceNameOVNControllerMetrics (om_Namespace meta) labels
    (mkPodTemplateSpec labels ∅
      (mkPodSpec None (OVNController_RbacResourceName instance)
         getPrivilegedDaemonSetPodSecurityContext "" [] containers volumes
         (oc_NodeSelector spec) "" (topologyAffinity topology))).

Definition GetMetricsConfigMap (instance : OVNController) : Template :=
  let meta := oc_Meta instance in
  let tls := tls_Enabled (oc_TLS (oc_Spec instance)) in
  let params : gmap string TemplateParam := {["TLS" := PBool tls]} in
  let params := if tls then
      <["OVN_METRICS_KEY_PATH" := PString OVNMetricsKeyPath]>
      (<["OVN_METRICS_CERT_PATH" := PString OVNMetricsCertPath]> params)
    else params in
  mkTemplate (om_Name meta +:+ "-metrics-config") (om_Namespace meta) TemplateTypeNone
    (<["openstack-network-exporter.yaml" :=
        "/ovncontroller/config/openstack-network-exporter.yaml"]>
     {["web-config.yaml" := "/ovncontroller/config/web-config.yaml"]})
    (oc_Kind instance) ∅ params.

(** ** Services (service.go) *)

Definition oc_MetricsService (serviceName : string) (instance : OVNController)
    (serviceLabels selectorLabels : gmap string string) : Service :=
  mkService serviceName (om_Namespace (oc_Meta instance)) serviceLabels
    (mkServiceSpec selectorLabels [mkServicePort "metrics" MetricsPort ProtocolTCP] false "" "").

(** ** Configuration jobs (configjob.go) *)

Definition ovnConfigEnv (instance : OVNController) (internalEndpoint : string)
    : gmap string Setter :=
  let spec := oc_Spec instance in
  let ids := oc_ExternalIDS spec in
  <["OVSLogLevel" := SetValue (oc_OVSLogLevel spec)]>
  (<["OVNLogLevel" := SetValue (oc_OVNLogLevel spec)]>
   (<["OVNHostName" := DownwardAPI "spec.nodeName"]>
    (<["PhysicalNetworks" := SetValue (getPhysicalNetworks instance)]>
     (<["OVNAvailabilityZones" := SetValue (strings_Join (OvnAvailabilityZones ids) ":")]>
      (<["OVNEncapTos" := SetValue (OvnEncapTos ids)]>
       (<["OVNEncapType" := SetValue (OvnEncapType ids)]>
        (<["OVNRemote" := SetValue internalEndpoint]>
         {["OVNBridge" := SetValue (OvnBridge ids)]}))))))).

(** The job that configures the node of one pod. *)
Definition ovnConfigJob (instance : OVNController) (labels : gmap string string)
    (internalEndpoint : string) (ovnPod : Pod) : Job :=
  let spec := oc_Spec instance in
  let meta := oc_Meta instance in
  let commands := ["/usr/local/bin/container-scripts/init.sh"; "&&";
                   "/usr/local/bin/additional-scripts/configure-ovn.sh"] in
  mkJob (pod_Name ovnPod +:+ "-config") (om_Namespace meta) labels (Some 0%Z)
    (mkPodSpec None (OVNController_RbacResourceName instance)
       getPrivilegedDaemonSetPodSecurityContext "OnFailure" []
       [mkContainer "ovn-config" (oc_OvnContainerImage spec)
          ["/bin/bash"; "-c"; strings_Join commands " "] []
          (Some (getPrivilegedHostPathSecurityContext []))
          (MergeEnvs [] (ovnConfigEnv instance internalEndpoint))
          (GetOVNControllerVolumeMounts true) (Some (oc_Resources spec))
          None None None None ""]
       (GetOVNControllerVolumes (om_Name meta) (om_Namespace meta) true)
       None (pod_NodeName ovnPod) None).

Definition ConfigJob {S X} (instance : OVNController) (sbCluster : OVNDBCluster)
    (labels : gmap string string) : Go S X (fallible (list Job)) :=
  let! ovnPods := getOVNControllerPods instance in
  match ovnPods with
  | Fail err => ret (Fail err)
  | Okay pods =>
      match GetInternalEndpoint sbCluster with
      | Fail err => ret (Fail err)
      | Okay internalEndpoint =>
          ret (Okay (ovnConfigJob instance labels internalEndpoint <$> pods))
      end
  end.
End manifests.
