(* ===== verification/CtlController.v ===== *)
(** * The OVNController reconciler (internal/controller/ovncontroller_controller.go)

    [Reconcile] and everything it calls, phase by phase: inputs and their hashes,
    networks, the OVN, OVS and metrics DaemonSets, readiness, and the configuration
    jobs of the nodes. *)
From S2P Require Import Prelude Prog K8s Lib Api ApiMethods Calls Shared Client Webhook.
From S2P Require Import DBManifests DBController CtlNetworks CtlManifests.
#[local] Open Scope go_scope.

Section ovncontroller.
Context {AT : ApiTypes} {CL : CondLib} {L : Lib}.

Abbreviation OC := OVNController.

(** The conditions [Reconcile] initialises. *)
Definition ocInitConditions (instance : OC) : list Condition :=
  [UnknownCondition InputReadyCondition InitReason (Msg "condition.InputReadyInitMessage" []);
   UnknownCondition ServiceConfigReadyCondition InitReason
     (Msg "condition.ServiceConfigReadyInitMessage" []);
   UnknownCondition NetworkAttachmentsReadyCondition InitReason
     (Msg "condition.NetworkAttachmentsReadyInitMessage" []);
   UnknownCondition DeploymentReadyCondition InitReason
     (Msg "condition.DeploymentReadyInitMessage" []);
   UnknownCondition ServiceAccountReadyCondition InitReason
     (Msg "condition.ServiceAccountReadyInitMessage" []);
   UnknownCondition RoleReadyCondition InitReason (Msg "condition.RoleReadyInitMessage" []);
   UnknownCondition RoleBindingReadyCondition InitReason
     (Msg "condition.RoleBindingReadyInitMessage" []);
   UnknownCondition TLSInputReadyCondition InitReason
     (Msg "condition.InputReadyInitMessage" [])] ++
  match oc_TopologyRef (oc_Spec instance) with
  | Some _ => [UnknownCondition TopologyReadyCondition InitReason
                 (Msg "condition.TopologyReadyInitMessage" [])]
  | None => []
  end.

Definition oc_metrics_on (instance : OC) : bool :=
  metrics_on (oc_ExporterImage (oc_Spec instance)) (oc_MetricsEnabled (oc_Spec instance)).

Definition ocConditionError {X} (t : CondType) (msg : string) (err : error) : Go OC X unit :=
  setCond (FalseCondition t ErrorReason SeverityWarning (Msg msg [Error err])).
Definition ocServiceConfigError {X} : error → Go OC X unit :=
  ocConditionError ServiceConfigReadyCondition "condition.ServiceConfigReadyErrorMessage".
Definition ocDeploymentError {X} : error → Go OC X unit :=
  ocConditionError DeploymentReadyCondition "condition.DeploymentReadyErrorMessage".
Definition ocDeploymentRunning {X} : Go OC X unit :=
  setCond (FalseCondition DeploymentReadyCondition RequestedReason SeverityInfo
             (Msg "condition.DeploymentReadyRunningMessage" [])).

(** ** Config maps and hashes *)

Definition ocLabels (instance : OC) : gmap string string :=
  GetLabels (oc_Meta instance) (GetGroupLabel ServiceNameOVNController) ∅.

Definition ocScripts (instance : OC) : Template :=
  let meta := oc_Meta instance in
  let na := oc_NetworkAttachment (oc_Spec instance) in
  mkTemplate (om_Name meta +:+ "-scripts") (om_Namespace meta) TemplateTypeScripts ∅
    (oc_Kind instance) (ocLabels instance)
    {["OVNEncapNIC" := PString (if nonempty na then GetNetworkIFName na else "eth0")]}.

Definition ocExtraScripts (instance : OC) : Template :=
  let meta := oc_Meta instance in
  let spec := oc_Spec instance in
  mkTemplate (om_Name meta +:+ "-extra-scripts") (om_Namespace meta) TemplateTypeNone
    {["configure-ovn.sh" := "/ovncontroller/config/configure-ovn.sh"]}
    (oc_Kind instance) (ocLabels instance)
    (<["OVNLogLevel" := PString (oc_OVNLogLevel spec)]>
     (<["OVSLogLevel" := PString (oc_OVSLogLevel spec)]>
      (<["OVNRemoteProbeInterval" := PInt (OvnRemoteProbeInterval (oc_ExternalIDS spec))]>
       {["OVNEncapTos" := PString (OvnEncapTos (oc_ExternalIDS spec))]}))).

(** The variables after the first config map, and the error. *)
Definition ocGenerateServiceConfigMaps {X} (envVars : gmap string Setter)
    : Go OC X (gmap string Setter * option error) :=
  let! instance := get in
  let! r := call (EnsureConfigMaps (to_object instance) [ocScripts instance] (Some envVars)) in
  match r with
  | (vars, Some err) => ret (vars, Some err)
  | (vars, None) =>
      let! r := call (EnsureConfigMaps (to_object instance) [ocExtraScripts instance] None) in
      ret (vars, r.2)
  end.

(** The hashes of the inputs.  An error of a hash is reported through the [err]
    of an earlier statement, which is nil: the dereference panics. *)
Definition ocInputHashes (OVNConfigMapVars configMapVars : gmap string Setter)
    : Go OC RE (string * string) :=
  let! ovn := storeHash OVNConfigMapVars OVNInputHash in
  let! ovs := storeHash configMapVars OVSInputHash in
  match ovn, ovs with
  | Okay (OVNinputHash, OVNhashChanged), Okay (OVSinputHash, OVShashChanged) =>
      if (OVNhashChanged : bool) || (OVShashChanged : bool) then return_ (emptyResult, None)
      else ret (OVNinputHash, OVSinputHash)
  | _, _ => panic
  end.

(** ** Readiness of a DaemonSet *)

Definition isDaemonSetRolloutComplete (ds : DaemonSetObs) : bool :=
  if bool_decide (ds_ObservedGeneration ds < ds_Generation ds)%Z then false
  else if bool_decide (ds_DesiredNumberScheduled ds = 0)%Z then true
  else if bool_decide (ds_NumberReady ds ≠ ds_DesiredNumberScheduled ds) then false
  else if bool_decide (ds_UpdatedNumberScheduled ds ≠ ds_DesiredNumberScheduled ds) then false
  else if bool_decide (ds_NumberUnavailable ds > 0)%Z then false
  else true.

Definition deleteResourceIfExists {X} (kind : ObjKind) (name namespace : string)
    : Go OC X (option error) :=
  let! err := call (Delete kind namespace name) in
  ret (match err with Some e => if IsNotFound e then None else Some e | None => None end).

(** ** reconcileNormal, phase by phase *)

Definition ocRbacRules : list PolicyRule :=
  [mkPolicyRule ["security.openshift.io"] ["anyuid"; "privileged"]
     ["securitycontextconstraints"] ["use"]].

(** The certificates: the variables of the OVN pods, and of the metrics pods. *)
Definition ocTLSInputs : Go OC RE (gmap string Setter * gmap string Setter) :=
  let! TLSConfigMapVars := validateCaBundle ∅ in
  let! TLSConfigMapVars := validateServiceCert TLSConfigMapVars in
  let! metricsConfigMapVars := validateMetricsCert ∅ in
  do! markTrue TLSInputReadyCondition (Msg "condition.InputReadyMessage" []);
  ret (TLSConfigMapVars, metricsConfigMapVars).

Definition ocServiceConfig (TLSConfigMapVars : gmap string Setter)
    : Go OC RE (string * string) :=
  (* a fresh map, to which the first loop copies [TLSConfigMapVars] *)
  let OVNConfigMapVars := TLSConfigMapVars in
  let! r := ocGenerateServiceConfigMaps OVNConfigMapVars in
  match r with
  | (_, Some err) => do! ocServiceConfigError err; return_ (emptyResult, Some err)
  | (vars, None) =>
      let! hashes := ocInputHashes vars ∅ in
      do! markTrue ServiceConfigReadyCondition (Msg "condition.ServiceConfigReadyMessage" []);
      ret hashes
  end.

(** [GetNADWithName] on each network. *)
Definition ocNADs (networkAttachments : list string) : Go OC RE (list NAD) :=
  let! instance := get in
  foldM (λ nadList netAtt,
    let! r := call (GetNADWithName netAtt (om_Namespace (oc_Meta instance))) in
    match r with
    | Fail err =>
        if IsNotFound err then
          do! setCond (FalseCondition NetworkAttachmentsReadyCondition ErrorReason
                SeverityWarning (Msg "condition.NetworkAttachmentsReadyWaitingMessage"
                                   [netAtt]));
          return_ (mkResult false (time_Second * 10), None)
        else
          do! ocConditionError NetworkAttachmentsReadyCondition
                "condition.NetworkAttachmentsReadyErrorMessage" err;
          return_ (emptyResult, Some err)
    | Okay nad => ret (nadList ++ option_list nad)
    end) [] networkAttachments.

(** The networks of the pods: the annotation, and the attachments of the spec. *)
Definition ocNetworks (ovsServiceLabels : gmap string string)
    : Go OC RE (gmap string string * list string) :=
  let! instance := get in
  let na := oc_NetworkAttachment (oc_Spec instance) in
  let networkAttachmentsNoPhysNet := if nonempty na then [na] else [] in
  let! r := fn (CreateOrUpdateAdditionalNetworks instance ovsServiceLabels
                  networkAttachmentsNoPhysNet) in
  match r with
  | Fail err =>
      do! ocConditionError NetworkAttachmentsReadyCondition
            "condition.NetworkAttachmentsReadyErrorMessage" err;
      return_ (emptyResult, Some err)
  | Okay networkAttachments =>
      let! nadList := ocNADs networkAttachments in
      match EnsureNetworksAnnotation nadList with
      | Fail err => return_ (emptyResult, Some (Errorf_w
          ("failed to create network annotation from [" +:+
           strings_Join networkAttachments " " +:+ "]: ") err ""))
      | Okay serviceAnnotations => ret (serviceAnnotations, networkAttachmentsNoPhysNet)
      end
  end.

Definition reconcileInit {S X} : Go S X RE := ret (emptyResult, None).

Definition ocTopology (ovnServiceLabels : gmap string string) : Go OC RE (option Topology) :=
  let! instance := get in
  let! r := fn (ensureTopology (om_Name (oc_Meta instance))
                  (GetLabelSelector ovnServiceLabels)) in
  match r with
  | Fail err =>
      do! ocConditionError TopologyReadyCondition "condition.TopologyReadyErrorMessage" err;
      return_ (emptyResult, Some (Errorf_w "waiting for Topology requirements: " err ""))
  | Okay topology => ret topology
  end.

(** [CreateOrPatch] on a DaemonSet, with the outcome as the Deployment condition. *)
Definition ocDaemonSet (ds : DaemonSetDef) : Go OC RE DaemonSetObs :=
  let! r := call (DaemonSetCreateOrPatch ds (5 * time_Second)) in
  match r with
  | ((ctrlResult, Some err), _) => do! ocDeploymentError err; return_ (ctrlResult, Some err)
  | ((ctrlResult, None), obs) =>
      if bool_decide (ctrlResult = emptyResult) then ret obs
      else do! ocDeploymentRunning; return_ (ctrlResult, None)
  end.

Definition ocOVNDaemonSet (OVNinputHash : string) (ovnServiceLabels : gmap string string)
    (topology : option Topology) : Go OC RE DaemonSetObs :=
  let! instance := get in
  let! def := lift_go (CreateOVNDaemonSet instance OVNinputHash ovnServiceLabels topology) in
  match def with
  | Fail err => do! ocDeploymentError err; return_ (emptyResult, Some err)
  | Okay ds =>
      let! dset := ocDaemonSet ds in
      do! modify (oc_set_DesiredNumberScheduled (ds_DesiredNumberScheduled dset));
      do! modify (oc_set_NumberReady (ds_NumberReady dset));
      ret dset
  end.

(** [GetBoolFromAnnotation]; absent means not hardened. *)
Definition ocHardened : Go OC RE bool :=
  let! instance := get in
  match GetBoolFromAnnotation (om_Annotations (oc_Meta instance))
          OVNHardenedOVSSecurityContextLabel with
  | Fail err => do! ocServiceConfigError err; return_ (emptyResult, Some err)
  | Okay (hardenedOVS, exists_) => ret ((hardenedOVS : bool) && (exists_ : bool))
  end.

Definition ocOVSDaemonSet (OVSinputHash : string)
    (ovsServiceLabels serviceAnnotations : gmap string string) (topology : option Topology)
    : Go OC RE DaemonSetObs :=
  let! hardenedOVS := ocHardened in
  let! instance := get in
  let! ovsdset := ocDaemonSet (CreateOVSDaemonSet instance OVSinputHash ovsServiceLabels
                                 serviceAnnotations topology hardenedOVS) in
  do! modify (oc_set_OVSNumberReady (ds_NumberReady ovsdset));
  ret ovsdset.

Definition ocNetworkStatus (networkAttachments : list string)
    (ovsServiceLabels : gmap string string) : Go OC RE unit :=
  let! instance := get in
  let! r := call (VerifyNetworkStatusFromAnnotation networkAttachments ovsServiceLabels
                    (ocs_OVSNumberReady (oc_Status instance))) in
  match r with
  | Fail err => return_ (emptyResult, Some err)
  | Okay (networkReady, networkAttachmentStatus) =>
      do! modify (oc_set_NetworkAttachments (Some networkAttachmentStatus));
      if (networkReady : bool) then
        markTrue NetworkAttachmentsReadyCondition
          (Msg "condition.NetworkAttachmentsReadyMessage" [])
      else
        let err := Errorf_w "" ErrPodsInterfaces (" with ips as configured in "
          +:+ "NetworkAttachments: " +:+ oc_NetworkAttachment (oc_Spec instance)) in
        do! ocConditionError NetworkAttachmentsReadyCondition
              "condition.NetworkAttachmentsReadyErrorMessage" err;
        return_ (emptyResult, Some err)
  end.

Definition ocMetricsServiceName : string := ServiceNameOVNController +:+ "-metrics".
Definition ocMetricsLabels : gmap string string :=
  <["metrics" := "enabled"]> {[AppSelector := ServiceNameOVNControllerMetrics]}.

(** The hash of the metrics inputs, apart from the others. *)
Definition createMetricsHashOfInputHashes {X} (envVars : gmap string Setter)
    : Go OC X (fallible string) :=
  let! r := storeHash envVars "MetricsInputHashName" in
  match r with
  | Fail err => ret (Fail err)
  | Okay (hash, _) => ret (Okay hash)
  end.

(** The metrics DaemonSet and service. *)
Definition ocMetricsOn (metricsConfigMapVars : gmap string Setter)
    (topology : option Topology) : Go OC RE DaemonSetObs :=
  let! instance := get in
  let cm := GetMetricsConfigMap instance in
  let cm := mkTemplate (tpl_Name cm) (tpl_Namespace cm) (tpl_Type cm)
    (tpl_AdditionalTemplate cm) (tpl_InstanceType cm) (ocLabels instance)
    (tpl_ConfigOptions cm) in
  let! r := call (EnsureConfigMaps (to_object instance) [cm] (Some metricsConfigMapVars)) in
  match r with
  | (_, Some err) => do! ocServiceConfigError err; return_ (emptyResult, Some err)
  | (vars, None) =>
      let! r := createMetricsHashOfInputHashes vars in
      match r with
      | Fail err => do! ocServiceConfigError err; return_ (emptyResult, Some err)
      | Okay metricsInputHash =>
          let! instance := get in
          let! metricsdset := ocDaemonSet (CreateMetricsDaemonSet instance metricsInputHash
                                             ocMetricsLabels topology) in
          do! modify (oc_set_MetricsNumberReady (ds_NumberReady metricsdset));
          let! instance := get in
          match NewService (oc_MetricsService ocMetricsServiceName instance ocMetricsLabels
                              ocMetricsLabels) None with
          | Fail err => return_ (emptyResult, Some err)
          | Okay metricsService =>
              let! r := call (ServiceCreateOrPatch metricsService (5 * time_Second)) in
              match r.1 with
              | (ctrlResult, Some err) =>
                  do! ocDeploymentError err; return_ (ctrlResult, Some err)
              | (ctrlResult, None) =>
                  if bool_decide (ctrlResult = emptyResult) then ret metricsdset
                  else return_ (ctrlResult, None)
              end
          end
      end
  end.

(** The metrics objects are removed, in order. *)
Definition ocMetricsOff : Go OC RE unit :=
  let! instance := get in
  let namespace := om_Namespace (oc_Meta instance) in
  do! forM [(KDaemonSet, ServiceNameOVNControllerMetrics); (KService, ocMetricsServiceName);
            (KConfigMap, om_Name (oc_Meta instance) +:+ "-metrics-config")] (λ o,
    let! err := deleteResourceIfExists o.1 o.2 namespace in
    match err with
    | Some e => return_ (emptyResult, Some e)
    | None => ret tt
    end);
  modify (oc_set_MetricsNumberReady 0).

Definition ocMetrics (metricsConfigMapVars : gmap string Setter) (topology : option Topology)
    : Go OC RE (option DaemonSetObs) :=
  let! instance := get in
  if oc_metrics_on instance then
    let! metricsdset := ocMetricsOn metricsConfigMapVars topology in
    ret (Some metricsdset)
  else do! ocMetricsOff; ret None.

(** The rollout of the two or three DaemonSets. *)
Definition allRolledOut (dset ovsdset : DaemonSetObs) (metricsdset : option DaemonSetObs)
    : bool :=
  isDaemonSetRolloutComplete dset && isDaemonSetRolloutComplete ovsdset &&
  match metricsdset with Some d => isDaemonSetRolloutComplete d | None => true end.

Definition ocRollout (dset ovsdset : DaemonSetObs) (metricsdset : option DaemonSetObs)
    : Go OC RE unit :=
  if allRolledOut dset ovsdset metricsdset then
    markTrue DeploymentReadyCondition (Msg "condition.DeploymentReadyMessage" [])
  else
    modify (updConds (Conditions_MarkFalse DeploymentReadyCondition RequestedReason
                        SeverityInfo (Msg "DaemonSet rollout in progress" []))).

Definition ocConfigHashKey (jobDef : Job) : string :=
  OVNConfigHash +:+ "-" +:+ ps_NodeName (job_Spec jobDef).

(** One configuration job: a result ends the loop before its error is looked at. *)
Definition ocRunJob (jobDef : Job) : Go OC RE unit :=
  let! instance := get in
  let configHashKey := ocConfigHashKey jobDef in
  let configHash := hashAt (ocs_Hash (oc_Status instance)) configHashKey in
  let! r := call (DoJob jobDef configHashKey false (5 * time_Second) configHash) in
  let '((ctrlResult, err), (changed, hash)) := r in
  if negb (bool_decide (ctrlResult = emptyResult)) then
    do! setCond (FalseCondition ServiceConfigReadyCondition RequestedReason SeverityInfo
                   (Msg "condition.ServiceConfigReadyMessage" []));
    return_ (ctrlResult, None)
  else
    match err with
    | Some e =>
        do! setCond (FalseCondition ServiceConfigReadyCondition RequestedReason SeverityInfo
                       (Msg "condition.ServiceConfigReadyErrorMessage" [Error e]));
        return_ (emptyResult, Some e)
    | None =>
        if (changed : bool) then
          let! instance := get in
          let! m := deref (ocs_Hash (oc_Status instance)) in
          modify (oc_set_Hash (Some (<[configHashKey := hash]> m)))
        else ret tt
    end.

(** The configuration jobs, once every node runs OVS. *)
Definition ocConfigJobs (ovnServiceLabels : gmap string string) : Go OC RE RE :=
  let! instance := get in
  let! r := GetDBClusterByType (om_Namespace (oc_Meta instance)) ∅ SBDBType in
  match r with
  | Fail _ => return_ (emptyResult, None)
  | Okay sbCluster =>
      let st := oc_Status instance in
      if bool_decide (ocs_OVSNumberReady st ≠ ocs_DesiredNumberScheduled st) then
        return_ (mkResult true 0, None)
      else
        let! r := ConfigJob instance sbCluster ovnServiceLabels in
        match r with
        | Fail err => return_ (emptyResult, Some err)
        | Okay jobsDef =>
            do! forM jobsDef ocRunJob;
            do! markTrue ServiceConfigReadyCondition
                  (Msg "condition.ServiceConfigReadyMessage" []);
            ret (emptyResult, None)
        end
  end.

Definition ocReconcileNormal : Go OC RE RE :=
  do! reconcileRbac OVNController_RbacConditionsSet ocRbacRules;
  do! markTrue InputReadyCondition (Msg "condition.InputReadyMessage" []);
  let! tlsVars := ocTLSInputs in
  let! hashes := ocServiceConfig tlsVars.1 in
  let ovnServiceLabels : gmap string string := {[AppSelector := ServiceNameOVNController]} in
  let ovsServiceLabels : gmap string string := {[AppSelector := ServiceNameOVS]} in
  let! nets := ocNetworks ovsServiceLabels in
  let! r := reconcileInit in
  do! returnUnlessDone r;
  let! r := reconcileUpdate in
  do! returnUnlessDone r;
  let! r := reconcileUpgrade in
  do! returnUnlessDone r;
  let! topology := ocTopology ovnServiceLabels in
  let! dset := ocOVNDaemonSet hashes.1 ovnServiceLabels topology in
  let! ovsdset := ocOVSDaemonSet hashes.2 ovsServiceLabels nets.1 topology in
  do! ocNetworkStatus nets.2 ovsServiceLabels;
  let! metricsdset := ocMetrics tlsVars.2 topology in
  do! ocRollout dset ovsdset metricsdset;
  ocConfigJobs ovnServiceLabels.

(** ** Reconcile *)

(** The status at the start of a reconciliation. *)
Definition ocInitStatus (instance : OC) : OC :=
  let instance := oc_set_Conditions
    (Conditions_Init (CreateList (ocInitConditions instance))
       (initConditionsIfNil (ocs_Conditions (oc_Status instance)))) instance in
  oc_set_ObservedGeneration (om_Generation (oc_Meta instance)) instance.

(** The maps, after the early return. *)
Definition ocInitMaps (instance : OC) : OC :=
  let st := oc_Status instance in
  let instance := oc_set_Hash (Some (default ∅ (ocs_Hash st))) instance in
  oc_set_NetworkAttachments (Some (default ∅ (ocs_NetworkAttachments st))) instance.

Definition OVNController_Reconcile (req : NamespacedName) : prog Ext RE :=
  reconcile (GetOVNController_ req) ocInitStatus
    (λ instance,
       let isNewInstance := Conditions_isNil (ocs_Conditions (oc_Status instance)) in
       reconcileBody isNewInstance ocInitMaps ocReconcileNormal).
End ovncontroller.
