(* ===== verification/NorthdManifests.v ===== *)
(** * The objects of ovn-northd (internal/ovnnorthd)

    The volumes, security context, metrics service and StatefulSet of an
    [OVNNorthd], as functions of the resource. *)
From S2P Require Import Prelude Prog K8s Lib Api ApiMethods Calls DBManifests.
#[local] Open Scope go_scope.

(** ** Security context (scc.go) *)
Definition getOVNNorthdSecurityContext : SecurityContext :=
  mkSecurityContext None (Some true) None (Some false) None (Some (mkCapabilities [] ["ALL"])) None.

(** ** Volumes (volumes.go) *)
Definition GetNorthdVolumes (name : string) : list Volume :=
  [mkVolume "scripts" (ConfigMapVolume (name +:+ "-scripts") (Some scriptsVolumeDefaultMode));
   mkVolume "ovn-rundir" EmptyDirVolume;
   mkVolume "config" (ConfigMapVolume (name +:+ "-config") (Some scriptsVolumeDefaultMode))].

Definition GetNorthdVolumeMounts : list VolumeMount :=
  [mkMount "scripts" "/usr/local/bin/container-scripts" "" true;
   mkMount "ovn-rundir" "/tmp" "" false].

Section manifests.
Context {AT : ApiTypes} {CL : CondLib} {L : Lib}.

Definition nd_metrics_on (instance : OVNNorthd) : bool :=
  metrics_on (nd_ExporterImage (nd_Spec instance)) (nd_MetricsEnabled (nd_Spec instance)).

(** ** Services (service.go) *)
Definition nd_MetricsService (serviceName : string) (instance : OVNNorthd)
    (serviceLabels selectorLabels : gmap string string) : Service :=
  mkService serviceName (om_Namespace (nd_Meta instance)) serviceLabels
    (mkServiceSpec selectorLabels [mkServicePort "metrics" MetricsPort ProtocolTCP] false "" "").

(** ** StatefulSet (statefulset.go) *)
Definition nd_ServiceCommand : string := "/usr/local/bin/container-scripts/setup.sh".

(** The liveness probe; the readiness probe has the same settings and command. *)
Definition nd_probe : Probe :=
  mkProbe 15 10 10 0 (ExecAction ["/usr/local/bin/container-scripts/status_check.sh"]).

(** The arguments that select the databases, by number of threads. *)
Definition nd_args (instance : OVNNorthd) (nThreads : Z) (nbEndpoint sbEndpoint : string)
    : list string :=
  ["-vfile:off";
   "-vconsole:" +:+ nd_LogLevel (nd_Spec instance);
   "--n-threads=" +:+ fmt_d nThreads;
   "--ovnnb-db=" +:+ nbEndpoint;
   "--ovnsb-db=" +:+ sbEndpoint].

Definition nd_tlsArgs : list string :=
  ["--certificate=" +:+ OVNDbCertPath; "--private-key=" +:+ OVNDbKeyPath;
   "--ca-cert=" +:+ OVNDbCaCertPath].

(** The exporter sidecar. *)
Definition nd_metricsContainer (instance : OVNNorthd) (envVars : gmap string Setter)
    : Container :=
  let spec := nd_Spec instance in
  let mounts := [mkMount "ovn-rundir" "/tmp" "" false; mkMount "config" "/etc/config" "" true] in
  let mounts := if tls_Enabled (nd_TLS spec)
                then mounts ++ tls_CreateVolumeMounts (metricsCertService (nd_MetricsTLS spec))
                                 "metrics-certs"
                else mounts in
  let metricsEnvVars : gmap string Setter :=
    match envVars !! "CONFIG_HASH" with
    | Some configHash => {["CONFIG_HASH" := configHash]}
    | None => ∅
    end in
  mkContainer "openstack-network-exporter" (nd_ExporterImage spec)
    ["/app/openstack-network-exporter"] [] None
    (MergeEnvs [mkEnvVar "OPENSTACK_NETWORK_EXPORTER_YAML"
                  "/etc/config/openstack-network-exporter.yaml" None] metricsEnvVars)
    mounts None None None None None "".

(** [*instance.Spec.NThreads] and [*instance.Spec.TLS.SecretName] panic on nil. *)
Definition nd_StatefulSet (instance : OVNNorthd) (labels : gmap string string)
    (nbEndpoint sbEndpoint : string) (envVars : gmap string Setter)
    (topology : option Topology) : go StatefulSetDef :=
  let spec := nd_Spec instance in
  let meta := nd_Meta instance in
  match nd_NThreads spec with
  | None => GPanic
  | Some nThreads =>
  let tls := tls_Enabled (nd_TLS spec) in
  match (if tls then tls_SecretName (nd_TLS spec) else Some "") with
  | None => GPanic
  | Some secretName =>
  let ca := nonempty (tls_CaBundleSecretName (nd_TLS spec)) in
  let svc := dbCertService secretName in
  let args := nd_args instance nThreads nbEndpoint sbEndpoint ++
              (if tls then nd_tlsArgs else []) in
  let volumes := GetNorthdVolumes (om_Name meta) ++
    (if ca then [Ca_CreateVolume (nd_TLS spec)] else []) ++
    (if tls then [tls_CreateVolume svc ServiceNameOVNNorthd] else []) in
  let volumeMounts := GetNorthdVolumeMounts ++
    (if ca then Ca_CreateVolumeMounts (nd_TLS spec) else []) ++
    (if tls then tls_CreateVolumeMounts svc ServiceNameOVNNorthd else []) in
  let envVars := <["OVN_RUNDIR" := SetValue "/tmp"]> envVars in
  let containers := [mkContainer ServiceNameOVNNorthd (nd_ContainerImage spec)
    [nd_ServiceCommand] args (Some getOVNNorthdSecurityContext) (MergeEnvs [] envVars)
    volumeMounts (Some (nd_Resources spec)) (Some nd_probe) (Some nd_probe) None None
    TerminationMessageFallbackToLogsOnError] in
  let metrics := nd_metrics_on instance in
  let volumes := if metrics && tls
    then volumes ++ [tls_CreateVolume (metricsCertService (nd_MetricsTLS spec)) "metrics-certs"]
    else volumes in
  let containers := if metrics then containers ++ [nd_metricsContainer instance envVars]
                    else containers in
  let podSpec := mkPodSpec None (OVNNorthd_RbacResourceName instance) None "" []
    containers volumes (nd_NodeSelector spec) "" None in
  let template := placePods ServiceNameOVNNorthd topology
    (mkPodTemplateSpec labels ∅ podSpec) in
  GOk (mkStatefulSet ServiceNameOVNNorthd (om_Namespace meta) labels ServiceNameOVNNorthd
    "Parallel" (nd_Replicas spec) template None [])
  end
  end.
End manifests.
