(* ===== verification/NorthdController.v ===== *)
(** * The OVNNorthd reconciler (internal/controller/ovnnorthd_controller.go)

    [Reconcile] and everything it calls, phase by phase: the endpoints of the two
    databases, the inputs and their hash, the StatefulSet, the migration from the
    Deployment of earlier releases, and the metrics services of the pods. *)
From S2P Require Import Prelude Prog K8s Lib Api ApiMethods Calls Shared Client.
From S2P Require Import DBManifests DBController NorthdManifests.
#[local] Open Scope go_scope.

Section northd.
Context {AT : ApiTypes} {CL : CondLib} {L : Lib}.

Abbreviation ND := OVNNorthd.

(** The conditions [Reconcile] initialises. *)
Definition ndInitConditions (instance : ND) : list Condition :=
  [UnknownCondition InputReadyCondition InitReason (Msg "condition.InputReadyInitMessage" []);
   UnknownCondition DeploymentReadyCondition InitReason
     (Msg "condition.DeploymentReadyInitMessage" []);
   UnknownCondition ServiceAccountReadyCondition InitReason
     (Msg "condition.ServiceAccountReadyInitMessage" []);
   UnknownCondition RoleReadyCondition InitReason (Msg "condition.RoleReadyInitMessage" []);
   UnknownCondition RoleBindingReadyCondition InitReason
     (Msg "condition.RoleBindingReadyInitMessage" []);
   UnknownCondition TLSInputReadyCondition InitReason
     (Msg "condition.InputReadyInitMessage" [])] ++
  match nd_TopologyRef (nd_Spec instance) with
  | Some _ => [UnknownCondition TopologyReadyCondition InitReason
                 (Msg "condition.TopologyReadyInitMessage" [])]
  | None => []
  end.

Definition ndConditionError {X} (t : CondType) (msg : string) (err : error) : Go ND X unit :=
  setCond (FalseCondition t ErrorReason SeverityWarning (Msg msg [Error err])).
Definition ndDeploymentRunning {X} : Go ND X unit :=
  setCond (FalseCondition DeploymentReadyCondition RequestedReason SeverityInfo
             (Msg "condition.DeploymentReadyRunningMessage" [])).

(** ** The databases *)

Definition getInternalEndpoint {X} (dbType : string) : Go ND X (fallible string) :=
  let! instance := get in
  let! cluster := GetDBClusterByType (om_Namespace (nd_Meta instance)) ∅ dbType in
  match cluster with
  | Fail err => ret (Fail err)
  | Okay c => ret (GetInternalEndpoint c)
  end.

Definition ndEndpoint (dbType : string) : Go ND RE string :=
  let! r := getInternalEndpoint dbType in
  match r with
  | Fail err => return_ (emptyResult, Some err)
  | Okay endpoint => ret endpoint
  end.

(** ** Config maps *)

Definition ndTemplateParameters (instance : ND) : gmap string TemplateParam :=
  <["OVN_METRICS_KEY_PATH" := PString OVNMetricsKeyPath]>
  (<["OVN_METRICS_CERT_PATH" := PString OVNMetricsCertPath]>
   {["TLS" := PBool (tls_Enabled (nd_TLS (nd_Spec instance)))]}).

Definition ndServiceConfigMaps (instance : ND) (serviceName : string) : list Template :=
  let meta := nd_Meta instance in
  let cmLabels := GetLabels meta (GetGroupLabel serviceName) ∅ in
  let params := ndTemplateParameters instance in
  [mkTemplate (om_Name meta +:+ "-scripts") (om_Namespace meta) TemplateTypeScripts ∅
     (nd_Kind instance) cmLabels params] ++
  (if nd_metrics_on instance then
     [mkTemplate (om_Name meta +:+ "-config") (om_Namespace meta) TemplateTypeConfig ∅
        (nd_Kind instance) cmLabels params]
   else []).

(** The variables after the call, and the error. *)
Definition ndGenerateServiceConfigMaps {X} (envVars : gmap string Setter)
    (serviceName : string) : Go ND X (gmap string Setter * option error) :=
  let! instance := get in
  call (EnsureConfigMaps (to_object instance) (ndServiceConfigMaps instance serviceName)
          (Some envVars)).

(** ** Metrics services *)

Definition ndPodName (i : Z) : string := ServiceNameOVNNorthd +:+ "-" +:+ fmt_d i.

Definition cleanupExtraServices {X} (desiredReplicas : Z) : Go ND X unit :=
  let! instance := get in
  let namespace := om_Namespace (nd_Meta instance) in
  forM (seqZ desiredReplicas (32 - desiredReplicas)) (λ i,
    let serviceName := ndPodName i in
    let! err := call (GetService namespace serviceName) in
    match err with
    | None => do! call (Delete KService namespace serviceName); ret tt
    | Some _ => ret tt
    end).

Definition ndSelectorLabels (podName : string) : gmap string string :=
  <["statefulset.kubernetes.io/pod-name" := podName]>
    {[AppSelector := ServiceNameOVNNorthd]}.

Definition reconcileMetricsServices (serviceLabels : gmap string string) : Go ND RE RE :=
  let! instance := get in
  let desiredReplicas := default 0%Z (nd_Replicas (nd_Spec instance)) in
  do! forM (seqZ 0 desiredReplicas) (λ i,
    let podName := ndPodName i in
    let metricsServiceLabels := MergeMaps serviceLabels {["metrics" := "enabled"]} in
    match NewService (nd_MetricsService podName instance metricsServiceLabels
                        (ndSelectorLabels podName)) None with
    | Fail err => return_ (emptyResult, Some err)
    | Okay svc =>
        let! r := call (ServiceCreateOrPatch svc (5 * time_Second)) in
        match r.1 with
        | (_, Some err) => return_ (emptyResult, Some err)
        | (ctrlResult, None) =>
            if bool_decide (ctrlResult = emptyResult) then ret tt
            else return_ (ctrlResult, None)
        end
    end);
  do! cleanupExtraServices desiredReplicas;
  ret (emptyResult, None).

(** ** The Deployment of earlier releases *)

Definition legacy_owned (instance : ND) (deployment : Deployment) : bool :=
  existsb (λ ownerRef, bool_decide (owner_Kind ownerRef = "OVNNorthd") &&
                       bool_decide (owner_Name ownerRef = om_Name (nd_Meta instance)))
    (dep_OwnerReferences deployment).

(** The log line dereferences the replicas before they are compared with nil. *)
Definition cleanupLegacyDeployment {X} : Go ND X (option error) :=
  let! instance := get in
  let namespace := om_Namespace (nd_Meta instance) in
  let deploymentName := ServiceNameOVNNorthd in
  let! r := call (GetDeployment namespace deploymentName) in
  match r with
  | Fail err =>
      if IsNotFound err then ret None
      else ret (Some (Errorf_w ("failed to check for legacy deployment " +:+ deploymentName
                                +:+ ": ") err ""))
  | Okay deployment =>
      if legacy_owned instance deployment then
        let! replicas := deref (dep_Replicas deployment) in
        do! (if bool_decide (replicas > 0)%Z then
               do! call (UpdateDeployment (mkDeployment (dep_Name deployment)
                 (dep_Namespace deployment) (dep_OwnerReferences deployment) (Some 0%Z)));
               ret tt
             else ret tt);
        let! err := call (Delete KDeployment (dep_Namespace deployment) (dep_Name deployment)) in
        match err with
        | Some e =>
            if IsNotFound e then ret None
            else ret (Some (Errorf_w ("failed to delete legacy deployment " +:+ deploymentName
                                      +:+ ": ") e ""))
        | None => ret None
        end
      else ret None
  end.

(** ** reconcileNormal, phase by phase *)

(** The secrets, validated, before the condition is reported. *)
Definition ndTLSInputs : Go ND RE (gmap string Setter) :=
  let! envVars := validateTLS ∅ in
  do! markTrue TLSInputReadyCondition (Msg "condition.InputReadyMessage" []);
  ret envVars.

Definition ndServiceConfigError {X} : error → Go ND X unit :=
  ndConditionError ServiceConfigReadyCondition "condition.ServiceConfigReadyErrorMessage".

(** The config maps and the hash of the inputs, which joins the variables. *)
Definition ndServiceConfig (envVars : gmap string Setter) : Go ND RE (gmap string Setter) :=
  let! r := ndGenerateServiceConfigMaps envVars ServiceNameOVNNorthd in
  match r with
  | (_, Some err) => do! ndServiceConfigError err; return_ (emptyResult, Some err)
  | (envVars, None) =>
      let! r := storeHash (X := RE) envVars InputHashName in
      match r with
      | Fail err => do! ndServiceConfigError err; return_ (emptyResult, Some err)
      | Okay (inputHash, _) =>
          do! markTrue ServiceConfigReadyCondition
                (Msg "condition.ServiceConfigReadyMessage" []);
          ret (<["CONFIG_HASH" := SetValue inputHash]> envVars)
      end
  end.

Definition ndTopology (serviceLabels : gmap string string) : Go ND RE (option Topology) :=
  let! instance := get in
  let! r := fn (ensureTopology (om_Name (nd_Meta instance)) (GetLabelSelector serviceLabels)) in
  match r with
  | Fail err =>
      do! ndConditionError TopologyReadyCondition "condition.TopologyReadyErrorMessage" err;
      return_ (emptyResult, Some (Errorf_w "waiting for Topology requirements: " err ""))
  | Okay topology => ret topology
  end.

Definition ndWorkload (nbEndpoint sbEndpoint : string) (envVars : gmap string Setter)
    (serviceLabels : gmap string string) (topology : option Topology)
    : Go ND RE StatefulSetObs :=
  let! instance := get in
  let! stsSpec := lift_go (nd_StatefulSet instance serviceLabels nbEndpoint sbEndpoint envVars
                             topology) in
  match stsSpec with
  | Fail err => return_ (emptyResult, Some err)
  | Okay sts =>
      let! r := call (StatefulSetCreateOrPatch sts (5 * time_Second)) in
      match r with
      | ((ctrlResult, Some err), _) =>
          do! ndConditionError DeploymentReadyCondition
                "condition.DeploymentReadyErrorMessage" err;
          return_ (ctrlResult, Some err)
      | ((ctrlResult, None), stateful) =>
          if bool_decide (ctrlResult = emptyResult) then ret stateful
          else do! ndDeploymentRunning; return_ (ctrlResult, None)
      end
  end.

(** The ready replicas; the Deployment goes once the StatefulSet serves. *)
Definition ndMigrate (stateful : StatefulSetObs) : Go ND RE unit :=
  do! (if bool_decide (sts_Generation stateful = sts_ObservedGeneration stateful)
       then modify (nd_set_ReadyCount (sts_ReadyReplicas stateful)) else ret tt);
  if bool_decide (sts_ReadyReplicas stateful > 0)%Z then
    (* the error is logged *)
    do! cleanupLegacyDeployment; ret tt
  else ret tt.

Definition ndDeploymentStatus (stateful : StatefulSetObs) : Go ND RE unit :=
  let! instance := get in
  let! replicas := deref (nd_Replicas (nd_Spec instance)) in
  if bool_decide (sts_ReadyReplicas stateful = replicas) &&
     bool_decide (sts_StatusReplicas stateful = replicas) then
    markTrue DeploymentReadyCondition (Msg "condition.DeploymentReadyMessage" [])
  else if bool_decide (replicas = 0%Z) then
    modify (updConds (Conditions_Remove DeploymentReadyCondition))
  else ndDeploymentRunning.

Definition ndMetrics (serviceLabels : gmap string string) : Go ND RE RE :=
  let! instance := get in
  if nd_metrics_on instance then
    let! r := fn (reconcileMetricsServices serviceLabels) in
    do! returnUnlessDone r;
    ret (emptyResult, None)
  else
    do! cleanupExtraServices 0;
    ret (emptyResult, None).

Definition ndReconcileNormal : Go ND RE RE :=
  do! reconcileRbac OVNNorthd_RbacConditionsSet dbRbacRules;
  do! markTrue InputReadyCondition (Msg "condition.InputReadyMessage" []);
  let serviceLabels : gmap string string := {[AppSelector := ServiceNameOVNNorthd]} in
  let! r := reconcileUpdate in
  do! returnUnlessDone r;
  let! r := reconcileUpgrade in
  do! returnUnlessDone r;
  let! nbEndpoint := ndEndpoint NBDBType in
  let! sbEndpoint := ndEndpoint SBDBType in
  let! envVars := ndTLSInputs in
  let! envVars := ndServiceConfig envVars in
  let! topology := ndTopology serviceLabels in
  let! stateful := ndWorkload nbEndpoint sbEndpoint envVars serviceLabels topology in
  do! ndMigrate stateful;
  do! ndDeploymentStatus stateful;
  ndMetrics serviceLabels.

(** ** Reconcile *)

(** The status at the start of a reconciliation. *)
Definition ndInitStatus (instance : ND) : ND :=
  let st := nd_Status instance in
  let instance := nd_set_Conditions
    (Conditions_Init (CreateList (ndInitConditions instance))
       (initConditionsIfNil (nds_Conditions st))) instance in
  let instance := nd_set_ObservedGeneration (om_Generation (nd_Meta instance)) instance in
  nd_set_Hash (Some (default ∅ (nds_Hash st))) instance.

Definition OVNNorthd_Reconcile (req : NamespacedName) : prog Ext RE :=
  reconcile (GetOVNNorthd req) ndInitStatus
    (λ _, reconcileBody false (λ i, i) ndReconcileNormal).
End northd.
