(* ===== verification/Slices.v ===== *)
(** * Go's slices

    A slice is a length and a reference to an array of the heap, so that two slices may
    share an array.  [append] writes into the array when there is room and moves to a
    new one otherwise; how much room a new array has is the runtime's choice, the
    parameter [grow]. *)
From S2P Require Import Prelude.

(** The arrays that were allocated; a cell that was never written is [None].  The
    array 0 is the one without cells, of the nil slice. *)
Abbreviation Heap A := (list (list (option A))).
Record Slice := mkSlice { sl_array : nat; sl_len : nat }.

Definition emptyHeap {A} : Heap A := [[]].
Definition nilSlice : Slice := mkSlice 0 0.

(** The capacity that the runtime gives to a slice of pointers that must hold [newLen]
    elements and had [cap]: double, a quarter more from 256 on.  For the capacities up
    to 4 the allocator has blocks of exactly that many words. *)
Definition growslice (cap newLen : nat) : nat :=
  if bool_decide (2 * cap < newLen) then newLen
  else if bool_decide (cap < 256) then 2 * cap
  else cap + (cap + 3 * 256) / 4.

Section slices.
Context {A : Type} (grow : nat → nat → nat).
Implicit Types (h : Heap A) (s t : Slice).

Definition sl_cells h s : list (option A) := match h !! sl_array s with Some cells => cells | None => [] end.
Definition sl_cap h s : nat := length (sl_cells h s).
(** The elements, as [range] enumerates them. *)
Definition elems h s : list A := omap id (take (sl_len s) (sl_cells h s)).

Definition append h s (x : A) : Heap A * Slice :=
  if bool_decide (sl_len s < sl_cap h s) then
    (<[sl_array s := <[sl_len s := Some x]> (sl_cells h s)]> h,
     mkSlice (sl_array s) (S (sl_len s)))
  else
    (h ++ [take (sl_len s) (sl_cells h s) ++
           Some x :: replicate (grow (sl_cap h s) (S (sl_len s)) - S (sl_len s)) None],
     mkSlice (length h) (S (sl_len s))).

(** A slice that was made by [append] from the nil slice. *)
Definition wf_slice h s : Prop := sl_array s < length h ∧ sl_len s ≤ sl_cap h s.

Lemma nilSlice_wf : wf_slice emptyHeap nilSlice.
Proof. split; cbn; lia. Qed.

Lemma append_spec h s x h' s' :
  wf_slice h s → append h s x = (h', s') →
  wf_slice h' s' ∧ elems h' s' = elems h s ++ [x].
Proof.
  unfold append, wf_slice, elems, sl_cap. intros [Ha Hl] He.
  destruct (lookup_lt_is_Some_2 h _ Ha) as [cells Hcells].
  assert (sl_cells h s = cells) as Hs by (unfold sl_cells; by rewrite Hcells).
  rewrite Hs in *. clear Hs.
  case_bool_decide as Hc; injection He as <- <-; unfold sl_cells; cbn [sl_array sl_len].
  - rewrite list_lookup_insert_eq by done. rewrite !length_insert.
    split; [lia|].
    rewrite (take_S_r _ _ (Some x)) by by apply list_lookup_insert_eq.
    rewrite take_insert_ge by done. by rewrite omap_app.
  - rewrite lookup_app_r, Nat.sub_diag by done. cbn [lookup list_lookup].
    rewrite !length_app, length_take. cbn [length].
    split; [lia|]. rewrite take_app_ge by (rewrite length_take; lia).
    rewrite length_take, Nat.min_l, Nat.sub_succ_l, Nat.sub_diag by lia. cbn [take].
    by rewrite omap_app.
Qed.

(** Another slice keeps its elements, unless it shares the array and reaches further. *)
Lemma append_frame h s x h' s' t :
  wf_slice h s → wf_slice h t → append h s x = (h', s') →
  sl_array t ≠ sl_array s ∨ sl_len t ≤ sl_len s ∨ sl_cap h s ≤ sl_len s →
  wf_slice h' t ∧ elems h' t = elems h t.
Proof.
  unfold append, wf_slice, elems, sl_cap. intros [Ha Hl] [Hat Hlt] He Hor.
  case_bool_decide as Hc; injection He as <- <-; unfold sl_cells in *; rewrite ?length_insert.
  - destruct (decide (sl_array t = sl_array s)) as [Heq|Hne].
    + rewrite Heq in *. rewrite list_lookup_insert_eq by done.
      rewrite length_insert. split; [done|]. by rewrite take_insert_ge by lia.
    + by rewrite list_lookup_insert_ne by done.
  - rewrite lookup_app_l by done. rewrite length_app. cbn [length]. split; [lia|done].
Qed.

(** The slice that was appended to keeps its capacity. *)
Lemma append_cap h s x h' s' :
  wf_slice h s → append h s x = (h', s') → sl_cap h' s = sl_cap h s.
Proof.
  unfold append, wf_slice, sl_cap. intros [Ha _] He.
  case_bool_decide; injection He as <- <-; unfold sl_cells.
  - rewrite list_lookup_insert_eq by done. by rewrite length_insert.
  - by rewrite lookup_app_l by done.
Qed.

(** A full slice is copied into an array of its own, another one keeps its array. *)
Lemma append_full h s x :
  sl_cap h s ≤ sl_len s → sl_array (append h s x).2 = length h.
Proof. intros Hc. unfold append. by rewrite bool_decide_eq_false_2 by lia. Qed.

Lemma append_spare h s x :
  sl_len s < sl_cap h s → sl_array (append h s x).2 = sl_array s.
Proof. intros Hc. unfold append. by rewrite bool_decide_eq_true_2. Qed.

(** Two slices made from the same one: with room to spare they share the array, and the
    second element overwrites the first. *)
Lemma append_twice h s x y h1 s1 h2 s2 :
  wf_slice h s → append h s x = (h1, s1) → append h1 s y = (h2, s2) →
  elems h2 s1 = elems h s ++ [if decide (sl_len s < sl_cap h s) then y else x].
Proof.
  intros Hw Hx Hy.
  destruct (append_spec _ _ _ _ _ Hw Hx) as [Hw1 E1].
  destruct (append_frame _ _ _ _ _ s Hw Hw Hx) as [Hws Es]; [auto|].
  case_decide as Hc.
  - assert (s1 = s2) as ->; [|rewrite <- Es; by apply (append_spec _ _ y)].
    pose proof (append_cap _ _ _ _ _ Hw Hx) as Hcap. unfold append in Hx, Hy.
    rewrite bool_decide_eq_true_2 in Hx, Hy by lia. by simplify_eq.
  - rewrite <- E1. apply (append_frame h1 s y h2 s2 s1 Hws Hw1 Hy).
    left. pose proof (append_full h s x) as Hf. rewrite Hx in Hf. cbn [snd] in Hf.
    rewrite Hf by lia. destruct Hw. lia.
Qed.
End slices.
