(* ===== verification/Manager.v ===== *)
(** * The manager: registration and start-up

    cmd/main.go, the [SetupWithManager] functions of the three reconcilers and those of
    their webhooks.  [main] is a program over the calls to controller-runtime,
    [MgrExt]; its memory holds the slices of TLS options and the package variables of
    the defaults, and is what the manager runs with once it is started. *)
From S2P Require Import Prelude Prog K8s Lib Api ApiMethods Calls Shared Slices.
From S2P Require Import Client Webhook DBController NorthdController CtlController.
#[local] Open Scope go_scope.

(** ** What the standard library does with paths *)

Definition slash : Ascii.ascii := Ascii.ascii_of_N 47.

(** The elements of a path between its slashes. *)
Fixpoint path_elements (s : string) : list string :=
  match s with
  | EmptyString => [""]
  | String c s' =>
      if bool_decide (c = slash) then "" :: path_elements s'
      else match path_elements s' with
           | e :: l => String c e :: l
           | [] => [String c ""]
           end
  end.

(** [filepath.Clean]: the elements that count, last first. *)
Definition cleanElement (rooted : bool) (stack : list string) (e : string) : list string :=
  if bool_decide (e = "") || bool_decide (e = ".") then stack
  else if bool_decide (e = "..") then
    match stack with
    | top :: stack' => if bool_decide (top = "..") then e :: stack else stack'
    | [] => if rooted then [] else [e]
    end
  else e :: stack.

Definition filepath_Clean (s : string) : string :=
  let rooted := match s with String c _ => bool_decide (c = slash) | EmptyString => false end in
  let body := strings_Join (rev (foldl (cleanElement rooted) [] (path_elements s))) "/" in
  if rooted then "/" +:+ body
  else if bool_decide (body = "") then "." else body.

(** [filepath.Join] of two elements; the empty ones are ignored. *)
Definition filepath_Join (a b : string) : string :=
  match filter (λ e, e ≠ "") [a; b] with
  | [] => ""
  | l => filepath_Clean (strings_Join l "/")
  end.

Example join_1 : filepath_Join "/certs/" "tls.crt" = "/certs/tls.crt".
Proof. reflexivity. Qed.
Example join_2 : filepath_Join "a/./b/../c" "" = "a/c".
Proof. reflexivity. Qed.
Example join_3 : filepath_Join "/../x" "../../y" = "/y".
Proof. reflexivity. Qed.

(** What controller-runtime and client-go hand out and take back. *)
Class ManagerTypes := {
  CertWatcher : Type;
  RestConfig : Type;
  Clientset : Type;
}.

(** The kinds of objects that a controller owns or watches. *)
Inductive Kind :=
| ovnv1_CR (k : CRKind)
| corev1_ConfigMap | corev1_Secret | corev1_Service | corev1_ServiceAccount
| batchv1_Job | appsv1_StatefulSet | appsv1_DaemonSet
| rbacv1_Role | rbacv1_RoleBinding | policyv1_PodDisruptionBudget
| netattdefv1_NetworkAttachmentDefinition | infranetworkv1_DNSData | topologyv1_Topology
| corev1_Pod | appsv1_Deployment.

#[export] Instance Kind_eq_dec : EqDecision Kind.
Proof. solve_decision. Defined.

Inductive EventPredicate := ResourceVersionChangedPredicate | GenerationChangedPredicate.

Section manager.
Context {AT : ApiTypes} {CL : CondLib} {L : Lib} {MT : ManagerTypes}.

(** ** What is registered *)

(** [EnqueueRequestsFromMapFunc] of the function, which is given the metadata of the
    object that changed. *)
Definition MapFunc : Type := ObjectMeta → Go unit (list NamespacedName) (list NamespacedName).

Record Watch := mkWatch {
  watch_Object : Kind;
  watch_Map : MapFunc;
  watch_Predicates : list EventPredicate;
}.

(** A controller, as [NewControllerManagedBy] builds it up to [Complete]. *)
Record Controller := mkController {
  ctl_For : CRKind;
  ctl_Owns : list Kind;
  ctl_Watches : list Watch;
  ctl_Reconcile : NamespacedName → prog Ext RE;
}.

(** A webhook, as [NewWebhookManagedBy] builds it.  Defaulting reads the package
    variables at each request. *)
Definition Defaults : Type := OVNDBClusterDefaults * OVNNorthdDefaults * OVNControllerDefaults.

Record WebhookReg := mkWebhookReg {
  wh_For : CRKind;
  wh_Default : Defaults → Object → Object * option error;
  wh_ValidateCreate : Object → option error;
  wh_ValidateUpdate : Object → Object → option error;
  wh_ValidateDelete : Object → option error;
}.

(** ** The memory, the options, and the calls *)

(** The functions on [tls.Config] that [main] makes. *)
Inductive TLSOpt := MinVersionTLS13 | disableHTTP2 | GetCertificateOf (w : CertWatcher).

(** The part of [tls.Config] that they set. *)
Record TLSConfig := mkTLSConfig {
  cfg_MinVersion : Z;
  cfg_NextProtos : list string;
  cfg_GetCertificate : option CertWatcher;
}.
Definition VersionTLS13 : Z := 772.

Definition applyOpt (c : TLSConfig) (o : TLSOpt) : TLSConfig :=
  match o with
  | MinVersionTLS13 => mkTLSConfig VersionTLS13 (cfg_NextProtos c) (cfg_GetCertificate c)
  | disableHTTP2 => mkTLSConfig (cfg_MinVersion c) ["http/1.1"] (cfg_GetCertificate c)
  | GetCertificateOf w => mkTLSConfig (cfg_MinVersion c) (cfg_NextProtos c) (Some w)
  end.

(** [mem_Defaults] is [None] as long as the package variables have their zero values. *)
Record Memory := mkMemory {
  mem_Heap : Heap TLSOpt;
  mem_Defaults : option Defaults;
}.

Inductive Checker := healthz_Ping | WebhookStartedChecker.

Record MetricsOptions := mkMetricsOptions {
  mo_BindAddress : string;
  mo_SecureServing : bool;
  mo_TLSOpts : Slice;
  (** [filters.WithAuthenticationAndAuthorization] is set. *)
  mo_FilterProvider : bool;
}.

Record WebhookOptions := mkWebhookOptions { who_Port : Z; who_TLSOpts : Slice }.

Record Options := mkOptions {
  op_Metrics : MetricsOptions;
  op_WebhookServer : WebhookOptions;
  (** The kinds the client reads without the cache. *)
  op_DisableFor : list Kind;
  op_HealthProbeBindAddress : string;
  op_PprofBindAddress : string;
  op_LeaderElection : bool;
  op_LeaderElectionID : string;
}.

Inductive MgrExt : Type → Type :=
| NewCertWatcher (cert key : string) : MgrExt (fallible CertWatcher)
| SetManagerOptions (o : Options) : MgrExt (Options * option error)
(** [None]: the process ends, with status 1. *)
| GetConfigOrDie : MgrExt (option RestConfig)
| NewManager (c : RestConfig) (o : Options) : MgrExt (option error)
| GetConfig : MgrExt (fallible RestConfig)
| NewForConfig (c : RestConfig) : MgrExt (fallible Clientset)
| IndexField (k : CRKind) (field : string) (extract : CommonSpec → list string) :
    MgrExt (option error)
| CompleteController (c : Controller) : MgrExt (option error)
| os_Getenv (name : string) : MgrExt string
| CompleteWebhook (w : WebhookReg) : MgrExt (option error)
| AddRunnable (w : CertWatcher) : MgrExt (option error)
| AddHealthzCheck (name : string) (c : Checker) : MgrExt (option error)
| AddReadyzCheck (name : string) (c : Checker) : MgrExt (option error)
(** Runs until the process is told to stop, with the memory as it is. *)
| StartManager (mem : Memory) : MgrExt (option error).

(** The body of [main]: it works on the memory and may end early with an exit
    status. *)
Abbreviation Main A := (M MgrExt Memory Z A).

(** ** [SetupWithManager] of the reconcilers *)

(** [if err := ..; err != nil { return err }]. *)
Definition returnOnErr (err : option error) : M MgrExt Memory (option error) unit :=
  match err with Some e => return_ (Some e) | None => ret tt end.

(** Each field is indexed by what the specification of a resource names there. *)
Definition indexFields (k : CRKind) : M MgrExt Memory (option error) unit :=
  let! err := call (IndexField k caBundleSecretNameField (indexField caBundleSecretNameField)) in
  do! returnOnErr err;
  let! err := call (IndexField k tlsField (indexField tlsField)) in
  do! returnOnErr err;
  let! err := call (IndexField k metricsTLSField (indexField metricsTLSField)) in
  do! returnOnErr err;
  let! err := call (IndexField k topologyField (indexField topologyField)) in
  returnOnErr err.

Definition northdController : Controller :=
  mkController CROVNNorthd
    [corev1_ConfigMap; appsv1_StatefulSet; corev1_Service; corev1_ServiceAccount;
     rbacv1_Role; rbacv1_RoleBinding]
    [mkWatch (ovnv1_CR CROVNDBCluster) (OVNCRNamespaceMapFunc CROVNNorthd) [];
     mkWatch corev1_Secret OVNNorthd_findObjectsForSrc
       [ResourceVersionChangedPredicate];
     mkWatch topologyv1_Topology OVNNorthd_findObjectsForSrc
       [GenerationChangedPredicate]]
    OVNNorthd_Reconcile.

Definition dbClusterController : Controller :=
  mkController CROVNDBCluster
    [corev1_Service; corev1_ConfigMap; appsv1_StatefulSet; corev1_ServiceAccount;
     rbacv1_Role; rbacv1_RoleBinding; infranetworkv1_DNSData; policyv1_PodDisruptionBudget]
    [mkWatch (ovnv1_CR CROVNController) (OVNCRNamespaceMapFunc CROVNDBCluster) [];
     mkWatch corev1_Secret OVNDBCluster_findObjectsForSrc
       [ResourceVersionChangedPredicate];
     mkWatch topologyv1_Topology OVNDBCluster_findObjectsForSrc
       [GenerationChangedPredicate]]
    OVNDBCluster_Reconcile.

Definition ovnControllerController : Controller :=
  mkController CROVNController
    [corev1_ConfigMap; batchv1_Job; netattdefv1_NetworkAttachmentDefinition;
     appsv1_DaemonSet; corev1_Service; corev1_ServiceAccount; rbacv1_Role;
     rbacv1_RoleBinding]
    [mkWatch (ovnv1_CR CROVNDBCluster) (OVNCRNamespaceMapFunc CROVNController) [];
     mkWatch corev1_Secret OVNController_findObjectsForSrc
       [ResourceVersionChangedPredicate];
     mkWatch topologyv1_Topology OVNController_findObjectsForSrc
       [GenerationChangedPredicate]]
    OVNController_Reconcile.

Definition OVNNorthd_SetupWithManager : M MgrExt Memory (option error) (option error) :=
  do! indexFields CROVNNorthd;
  call (CompleteController northdController).

Definition OVNDBCluster_SetupWithManager : M MgrExt Memory (option error) (option error) :=
  do! indexFields CROVNDBCluster;
  call (CompleteController dbClusterController).

Definition OVNController_SetupWithManager : M MgrExt Memory (option error) (option error) :=
  do! indexFields CROVNController;
  call (CompleteController ovnControllerController).

(** ** The webhooks *)
Definition northdWebhook : WebhookReg :=
  mkWebhookReg CROVNNorthd (λ d, OVNNorthdCustomDefaulter_Default d.1.2)
    OVNNorthdCustomValidator_ValidateCreate OVNNorthdCustomValidator_ValidateUpdate
    OVNNorthdCustomValidator_ValidateDelete.

Definition dbClusterWebhook : WebhookReg :=
  mkWebhookReg CROVNDBCluster (λ d, OVNDBClusterCustomDefaulter_Default d.1.1)
    OVNDBClusterCustomValidator_ValidateCreate OVNDBClusterCustomValidator_ValidateUpdate
    OVNDBClusterCustomValidator_ValidateDelete.

Definition ovnControllerWebhook : WebhookReg :=
  mkWebhookReg CROVNController (λ d, OVNControllerCustomDefaulter_Default d.2)
    OVNControllerCustomValidator_ValidateCreate OVNControllerCustomValidator_ValidateUpdate
    OVNControllerCustomValidator_ValidateDelete.

Definition SetupOVNNorthdWebhookWithManager : Main (option error) :=
  call (CompleteWebhook northdWebhook).
Definition SetupOVNDBClusterWebhookWithManager : Main (option error) :=
  call (CompleteWebhook dbClusterWebhook).
Definition SetupOVNControllerWebhookWithManager : Main (option error) :=
  call (CompleteWebhook ovnControllerWebhook).

(** ** [main] *)

(** The command line, as [flag.Parse] leaves it. *)
Record Flags := mkFlags {
  metricsAddr : string;
  probeAddr : string;
  enableLeaderElection : bool;
  secureMetrics : bool;
  webhookCertPath : string;
  webhookCertName : string;
  webhookCertKey : string;
  metricsCertPath : string;
  metricsCertName : string;
  metricsCertKey : string;
  pprofBindAddress : string;
  webhookPort : Z;
  enableHTTP2 : bool;
}.

(** The defaults of the flags. *)
Definition defaultFlags : Flags :=
  mkFlags "0" ":8081" false true "" "tls.crt" "tls.key" "" "tls.crt" "tls.key" "" 9443 false.

(** [if err != nil { os.Exit(1) }]. *)
Definition exitOnErr (err : option error) : Main unit :=
  match err with Some _ => return_ 1%Z | None => ret tt end.
Definition exitOnFail {A} (r : fallible A) : Main A :=
  match r with Fail _ => return_ 1%Z | Okay a => ret a end.

Section main.
(** The room that the runtime leaves in the array of a slice that grows. *)
Context (grow : nat → nat → nat).

Definition appendOpt (s : Slice) (x : TLSOpt) : Main Slice :=
  let! mem := get in
  let r := append grow (mem_Heap mem) s x in
  do! modify (λ mem, mkMemory r.1 (mem_Defaults mem));
  ret r.2.

(** The options that both servers get. *)
Definition mainTLSOpts (f : Flags) : Main Slice :=
  let! tlsOpts := appendOpt nilSlice MinVersionTLS13 in
  if negb (enableHTTP2 f) then appendOpt tlsOpts disableHTTP2 else ret tlsOpts.

(** The watcher of a certificate that the command line gives, and the options of the
    server that uses it. *)
Definition certWatcher (path name key : string) (tlsOpts : Slice)
    : Main (option CertWatcher * Slice) :=
  if nonempty path then
    let! r := call (NewCertWatcher (filepath_Join path name) (filepath_Join path key)) in
    let! w := exitOnFail r in
    let! tlsOpts := appendOpt tlsOpts (GetCertificateOf w) in
    ret (Some w, tlsOpts)
  else ret (None, tlsOpts).

Definition mainOptions (f : Flags) (webhookTLSOpts metricsTLSOpts : Slice) : Options :=
  mkOptions
    (mkMetricsOptions (metricsAddr f) (secureMetrics f) metricsTLSOpts (secureMetrics f))
    (mkWebhookOptions (webhookPort f) webhookTLSOpts)
    [appsv1_Deployment] (probeAddr f) (pprofBindAddress f) (enableLeaderElection f)
    "90840a60.openstack.org".

Definition mainNewManager (options : Options) : Main unit :=
  let! r := call (SetManagerOptions options) in
  let '(options, err) := r in
  do! exitOnErr err;
  let! cfg := call GetConfigOrDie in
  match cfg with
  | None => return_ 1%Z
  | Some cfg =>
      let! err := call (NewManager cfg options) in
      do! exitOnErr err;
      let! r := call GetConfig in
      let! cfg := exitOnFail r in
      let! r := call (NewForConfig cfg) in
      do! exitOnFail r;
      ret tt
  end.

Definition mainControllers : Main unit :=
  let! err := fn OVNNorthd_SetupWithManager in
  do! exitOnErr err;
  let! err := fn OVNDBCluster_SetupWithManager in
  do! exitOnErr err;
  let! err := fn OVNController_SetupWithManager in
  exitOnErr err.

Definition mainWebhooks : Main Checker :=
  let! v := call (os_Getenv "ENABLE_WEBHOOKS") in
  if bool_decide (strings_ToLower v ≠ "false") then
    let! err := SetupOVNNorthdWebhookWithManager in
    do! exitOnErr err;
    let! err := SetupOVNDBClusterWebhookWithManager in
    do! exitOnErr err;
    let! err := SetupOVNControllerWebhookWithManager in
    do! exitOnErr err;
    ret WebhookStartedChecker
  else ret healthz_Ping.

Definition mainAdd (w : option CertWatcher) : Main unit :=
  match w with
  | None => ret tt
  | Some w =>
      let! err := call (AddRunnable w) in
      exitOnErr err
  end.

Definition mainStart (checker : Checker) : Main unit :=
  let! err := call (AddHealthzCheck "healthz" checker) in
  do! exitOnErr err;
  let! err := call (AddReadyzCheck "readyz" checker) in
  do! exitOnErr err;
  let! mem := get in
  let! err := call (StartManager mem) in
  exitOnErr err.

Definition mainBody (f : Flags) : Main unit :=
  let! tlsOpts := mainTLSOpts f in
  let! w := certWatcher (webhookCertPath f) (webhookCertName f) (webhookCertKey f) tlsOpts in
  let '(webhookCertWatcher, webhookTLSOpts) := w in
  let! m := certWatcher (metricsCertPath f) (metricsCertName f) (metricsCertKey f) tlsOpts in
  let '(metricsCertWatcher, metricsTLSOpts) := m in
  do! mainNewManager (mainOptions f webhookTLSOpts metricsTLSOpts);
  do! mainControllers;
  do! modify (λ mem, mkMemory (mem_Heap mem) (Some SetupDefaults));
  let! checker := mainWebhooks in
  do! mainAdd metricsCertWatcher;
  do! mainAdd webhookCertWatcher;
  mainStart checker.

(** The exit status. *)
Definition main (f : Flags) : prog MgrExt Z :=
  pbind (mainBody f (mkMemory emptyHeap None)) (λ r,
    match r with Exit _ status => Ret status | Cont _ _ => Ret 0%Z end).
End main.
End manager.
