(* ===== verification/RefLib.v ===== *)
(** * A reference environment

    Concrete instances of the classes of [K8s] and [Lib] that satisfy every law
    class, and a small cluster, [World] with its [handler], that answers every
    call.  The witnesses run the reconcilers against them; no theorem about the
    operator depends on this file. *)
From S2P Require Import Prelude Prog K8s Lib Api ApiMethods Calls.

(** ** Types and conditions *)
#[export] Instance refTypes : ApiTypes := {
  ResourceRequirements := unit;
  Affinity := string;
  Topology := string;
  Quantity := string;
  OverrideRest := unit;
  LabelsAnnotations := unit;
  SvcHandle := Service;
}.

(** A condition list, by the first condition of each type. *)
Definition ref_Get (t : CondType) (cs : list Condition) : option Condition :=
  snd <$> list_find (λ c, cond_Type c = t) cs.

Fixpoint ref_Set (c : Condition) (cs : list Condition) : list Condition :=
  match cs with
  | [] => [c]
  | c' :: cs' => if decide (cond_Type c' = cond_Type c) then c :: cs' else c' :: ref_Set c cs'
  end.

Definition ref_notReady (cs : list Condition) (c : Condition) : bool :=
  bool_decide (cond_Type c ≠ ReadyCondition) &&
  bool_decide (cond_Status <$> ref_Get (cond_Type c) cs ≠ Some ConditionTrue).

Definition ref_True t m := mkCondition t ConditionTrue (OtherReason "Ready") SeverityNone m.
Definition ref_False t r s m := mkCondition t ConditionFalse r s m.
Definition ref_Unknown t r m := mkCondition t ConditionUnknown r SeverityNone m.

#[export] Instance refCond : CondLib := {
  Conditions := list Condition;
  Conditions_isNil l := match l with [] => true | _ => false end;
  Conditions_empty := [];
  TrueCondition := ref_True;
  FalseCondition := ref_False;
  UnknownCondition := ref_Unknown;
  CreateList l := l;
  Conditions_Get := ref_Get;
  Conditions_Set c cs := match c with Some c => ref_Set c cs | None => cs end;
  Conditions_Init cl cs := cl ++ [ref_Unknown ReadyCondition RequestedReason (Msg "" [])];
  Conditions_MarkTrue t m := ref_Set (ref_True t m);
  Conditions_MarkFalse t r s m := ref_Set (ref_False t r s m);
  Conditions_MarkUnknown t r m := ref_Set (ref_Unknown t r m);
  Conditions_Remove t := filter (λ c, cond_Type c ≠ t);
  Conditions_Mirror t cs :=
    (λ c, mkCondition t (if bool_decide (cond_Status c = ConditionTrue) then ConditionUnknown
                         else cond_Status c)
            (cond_Reason c) (cond_Severity c) (cond_Message c)) <$> head (filter (ref_notReady cs) cs);
  Conditions_AllSubConditionIsTrue cs := forallb (λ c, negb (ref_notReady cs c)) cs;
  Conditions_IsTrue t cs := bool_decide (cond_Status <$> ref_Get t cs = Some ConditionTrue);
  RestoreLastTransitionTimes cs saved := cs;
}.

Lemma ref_Get_Some t cs c : ref_Get t cs = Some c → c ∈ cs ∧ cond_Type c = t.
Proof.
  unfold ref_Get. intros ([n c'] & Hf & ->)%fmap_Some.
  apply list_find_Some in Hf as (Hl & Ht & _). split; [|done].
  by eapply list_elem_of_lookup_2.
Qed.

Lemma ref_Get_cons t c cs :
  ref_Get t (c :: cs) = if decide (cond_Type c = t) then Some c else ref_Get t cs.
Proof.
  unfold ref_Get. cbn. case_decide; [done|].
  by destruct (list_find _ cs) as [[]|].
Qed.

Lemma ref_Get_Set t c cs :
  ref_Get t (ref_Set c cs) = if decide (t = cond_Type c) then Some c else ref_Get t cs.
Proof.
  induction cs as [|c' cs IH]; cbn [ref_Set]; [|destruct (decide (cond_Type c' = cond_Type c))];
    rewrite ?ref_Get_cons, ?IH; repeat case_decide; try congruence.
Qed.

Lemma ref_Get_elem cs c : c ∈ cs → is_Some (ref_Get (cond_Type c) cs).
Proof.
  induction 1 as [c cs|c c' cs _ IH]; rewrite ref_Get_cons; case_decide; eauto. done.
Qed.

Lemma ref_Get_CreateList l c :
  NoDup (cond_Type <$> l) → c ∈ l → ref_Get (cond_Type c) l = Some c.
Proof.
  induction l as [|c' l IH]; [by intros _ ?%elem_of_nil|].
  rewrite fmap_cons, NoDup_cons, elem_of_cons, ref_Get_cons. intros [Hn Hnd] [->|Hc].
  - by case_decide.
  - case_decide as He; [|auto]. destruct Hn. rewrite He. by apply list_elem_of_fmap_2.
Qed.

Lemma ref_Get_filter t t' (cs : list Condition) :
  ref_Get t (filter (λ c, cond_Type c ≠ t') cs) = if decide (t = t') then None else ref_Get t cs.
Proof.
  induction cs as [|c cs IH]; [by case_decide|].
  rewrite filter_cons. repeat (case_decide; rewrite ?ref_Get_cons, ?IH); congruence.
Qed.

Lemma ref_Get_app t l1 l2 c : ref_Get t l1 = Some c → ref_Get t (l1 ++ l2) = Some c.
Proof.
  induction l1 as [|c1 l1 IH]; [done|]. cbn [app]. rewrite !ref_Get_cons. by case_decide.
Qed.

Lemma ref_Get_app_inv t l1 l2 c :
  ref_Get t (l1 ++ l2) = Some c → ref_Get t l1 = Some c ∨ ref_Get t l2 = Some c.
Proof.
  induction l1 as [|c1 l1 IH]; [by right|]. cbn [app]. rewrite !ref_Get_cons.
  case_decide; [by left|apply IH].
Qed.

Lemma ref_AllSub cs :
  forallb (λ c, negb (ref_notReady cs c)) cs = true ↔
  ∀ t c, t ≠ ReadyCondition → ref_Get t cs = Some c → cond_Status c = ConditionTrue.
Proof.
  rewrite forallb_forall. unfold ref_notReady. split.
  - intros Hall t c Ht Hc. destruct (ref_Get_Some _ _ _ Hc) as [Hin <-].
    specialize (Hall c (proj1 (list_elem_of_In _ _) Hin)).
    rewrite Hc in Hall. cbn in Hall.
    repeat case_bool_decide; try done. congruence.
  - intros Hall c Hin%list_elem_of_In. case_bool_decide as Ht; [|done].
    destruct (ref_Get_elem cs c Hin) as [c' Hc']. rewrite Hc'. cbn.
    rewrite (Hall _ _ Ht Hc'). by rewrite bool_decide_eq_false_2 by auto.
Qed.

#[export] Instance refCondLaws : CondLaws refCond.
Proof.
  split; cbn; intros; try done.
  - apply ref_Get_Set.
  - apply ref_Get_filter.
  - by apply ref_Get_CreateList.
  - by apply ref_Get_app.
  - by apply ref_Get_Some.
  - apply ref_Get_app_inv in H as [H|H]; [by right; left|].
    apply ref_Get_Some in H as [->%list_elem_of_singleton <-]. by left.
  - by destruct cs.
  - apply ref_AllSub.
  - apply fmap_Some in H0 as (c' & _ & ->). cbn. split; [done|]. by case_bool_decide.
  - rewrite bool_decide_eq_true. by rewrite fmap_Some; split; intros (?&?&?); eauto.
Qed.

(** ** The pure functions *)
Definition ref_env (n : string) (s : Setter) : EnvVar :=
  match s with
  | SetValue v => mkEnvVar n v None
  | DownwardAPI f => mkEnvVar n "" (Some f)
  end.

Definition ref_hash (l : list EnvVar) : string :=
  strings_Join ((λ e, ev_Name e +:+ "=" +:+ ev_Value e) <$> l) ";".

(** The functions, over the one that hashes. *)
Definition refLibWith (objectHash : list EnvVar → fallible string) : Lib := {|
  AppSelector := "service";
  InputHashName := "input";
  CABundleKey := "ca-bundle";
  TLSHashName := "certs";
  AnnotationHostnameKey := "dnsmasq.network.openstack.org/hostname";
  LabelHostname := "kubernetes.io/hostname";
  ProbeHandlerExec := "exec";
  ProbeHandlerHTTP := "http";
  ErrPodsInterfaces := errors_New "not all pods have interfaces";
  ErrInvalidStatus := errors_New "invalid status";
  MergeEnvs base m :=
    base ++ ((λ k, match m !! k with Some s => ref_env k s | None => mkEnvVar k "" None end)
             <$> sort_Strings (maps_Keys m));
  ObjectHash := objectHash;
  SetHash m k h := if decide (m !! k = Some h) then (m, false) else (<[k := h]> m, true);
  MergeMaps a b := a ∪ b;
  GetEnvVar _ d := d;
  GetLabels o g m := m;
  GetGroupLabel s := s +:+ ".openstack.org";
  GetLabelSelector m := m;
  labels_String m := strings_Join ((λ kv, kv.1 +:+ "=" +:+ kv.2) <$> map_to_list m) ",";
  tls_Enabled s := match tls_SecretName s with Some n => nonempty n | None => false end;
  Ca_CreateVolume s := mkVolume "combined-ca-bundle" (SecretVolume (tls_CaBundleSecretName s) "");
  Ca_CreateVolumeMounts s :=
    [mkMount "combined-ca-bundle" "/etc/pki/ca-trust/extracted/pem/tls-ca-bundle.pem"
       "tls-ca-bundle.pem" true];
  tls_CreateVolume s id := mkVolume (id +:+ "-tls-certs") (SecretVolume (ts_SecretName s) "");
  tls_CreateVolumeMounts s id :=
    [mkMount (id +:+ "-tls-certs") (default "" (ts_CertMount s)) "tls.crt" true];
  DistributePods k vs h := k;
  Topology_ApplyTo t p := p;
  Topology_Affinity t := None;
  ValidateTopologyRef t p ns :=
    match t with
    | Some t => if bool_decide (tr_Namespace t = ns) || bool_decide (tr_Namespace t = "") then []
                else [mkFieldError (p +:+ ".topologyRef.namespace") "Customizing namespace field is not supported"]
    | None => []
    end;
  EnsureNetworksAnnotation l :=
    Okay (match l with [] => ∅ | _ => {["k8s.v1.cni.cncf.io/networks" := strings_Join (nad_Name <$> l) ","]} end);
  GetNetworkStatusFromAnnotation m := Okay [];
  GetNetworkIFName s := s;
  ParseQuantity s := if nonempty s then Okay s else Fail (errors_New "quantities must match the regular expression");
  NewService s o := Okay (mkService (svc_Name s) (svc_Namespace s) (svc_Labels s)
    (mkServiceSpec (ss_Selector (svc_Spec s)) (ss_Ports (svc_Spec s))
       (ss_PublishNotReadyAddresses (svc_Spec s)) (ss_ClusterIP (svc_Spec s))
       (match o with
        | Some o => match ov_Spec o with Some sp => os_Type sp | None => ss_Type (svc_Spec s) end
        | None => ss_Type (svc_Spec s)
        end)));
  GetServiceType h := ss_Type (svc_Spec h);
  GetServiceHostname h := svc_Name h +:+ "." +:+ svc_Namespace h +:+ ".svc";
  AddAnnotation m h := h;
  GetSpec h := Some (svc_Spec h);
  statefulset_IsReady s :=
    bool_decide (default 0%Z (sts_SpecReplicas s) = sts_ReadyReplicas s) &&
    bool_decide (sts_StatusReplicas s = sts_ReadyReplicas s) &&
    bool_decide (sts_Generation s = sts_ObservedGeneration s);
  GetFinalizer k := "openstack.org/" +:+ strings_ToLower k;
  AddFinalizer l f := if decide (f ∈ l) then (l, false) else (l ++ [f], true);
  RemoveFinalizer l f := filter (λ g, g ≠ f) l;
  GetBoolFromAnnotation m k :=
    match m !! k with
    | None => Okay (false, false)
    | Some v => if bool_decide (v = "true") then Okay (true, true)
                else if bool_decide (v = "false") then Okay (false, true)
                else Fail (errors_New "invalid syntax")
    end;
  ValidateProbeConf p c :=
    if bool_decide (pc_TimeoutSeconds c < 0)%Z then [mkFieldError (p +:+ ".timeoutSeconds") "must be non-negative"]
    else [];
  ProbeConf_Merge d o := mkProbeConf
    (if nonempty (pc_Type o) then pc_Type o else pc_Type d)
    (if nonempty (pc_Path o) then pc_Path o else pc_Path d)
    (if bool_decide (pc_Port o = 0%Z) then pc_Port d else pc_Port o)
    (match pc_Scheme o with Some s => Some s | None => pc_Scheme d end)
    (match pc_Command o with [] => pc_Command d | c => c end)
    (if bool_decide (pc_InitialDelaySeconds o = 0%Z) then pc_InitialDelaySeconds d else pc_InitialDelaySeconds o)
    (if bool_decide (pc_TimeoutSeconds o = 0%Z) then pc_TimeoutSeconds d else pc_TimeoutSeconds o)
    (if bool_decide (pc_PeriodSeconds o = 0%Z) then pc_PeriodSeconds d else pc_PeriodSeconds o)
    (if bool_decide (pc_FailureThreshold o = 0%Z) then pc_FailureThreshold d else pc_FailureThreshold o);
  SetProbeConfV2 c := Okay (mkProbe (pc_TimeoutSeconds c) (pc_PeriodSeconds c)
    (pc_InitialDelaySeconds c) (pc_FailureThreshold c)
    (if bool_decide (pc_Type c = "exec") then ExecAction (pc_Command c)
     else HTTPGetAction (pc_Path c) (pc_Port c) (default "HTTP" (pc_Scheme c))));
  NotSupported p v := mkFieldError p v;
  Invalid p v := mkFieldError p v;
  ToAggregate l :=
    match l with [] => None | _ => Some (errors_New (strings_Join (fe_Detail <$> l) ", ")) end;
  NewInvalid k n l := errors_New (k +:+ " " +:+ n +:+ " is invalid: " +:+
                                  strings_Join (fe_Detail <$> l) ", ");
|}.

#[export] Instance refLib : Lib := refLibWith (λ l, Okay (ref_hash l)).


#[export] Instance refTlsLaws : TlsLaws refLib.
Proof. split. intros s. cbn. by destruct (tls_SecretName s). Qed.

#[export] Instance refHashLaws : HashLaws refLib.
Proof.
  split. intros m k h. cbn. case_decide as He; case_bool_decide; by split.
Qed.

#[export] Instance refFinalizerLaws : FinalizerLaws refLib.
Proof. by split. Qed.

#[export] Instance refEnvLaws : EnvLaws refLib.
Proof.
  split; cbn.
  - intros base m k v _ Hm. apply elem_of_app. right. apply list_elem_of_fmap. exists k.
    rewrite Hm. split; [done|]. rewrite elem_of_sort_Strings, elem_of_maps_Keys, Hm. eauto.
  - intros m k v e. rewrite list_elem_of_fmap. intros (k' & -> & Hk) <- Hm.
    rewrite elem_of_sort_Strings, elem_of_maps_Keys in Hk. destruct Hk as [s Hs].
    rewrite Hs in *. destruct s; cbn in *; rewrite Hs in Hm; by simplify_eq.
Qed.

#[export] Instance refVolumeLaws : VolumeLaws refLib.
Proof.
  split; cbn; eauto.
  - by intros s m ->%list_elem_of_singleton.
  - by intros s id m ->%list_elem_of_singleton.
Qed.

#[export] Instance refManifestLaws : ManifestLaws refLib.
Proof.
  split; cbn; try done.
  - intros s. by apply sublist_skip, sublist_nil_l.
  - intros s id c k a -> _ _. by apply sublist_skip, sublist_nil_l.
Qed.

#[export] Instance refFieldLaws : FieldLaws refLib.
Proof.
  split; cbn.
  - by intros [].
  - intros p q c. by case_bool_decide.
Qed.

(** ** A cluster that answers *)

(** What the cluster holds; the operator's writes are accepted and forgotten,
    except for the objects it reads back. *)
Record World := mkWorld {
  w_db : list OVNDBCluster;
  w_northd : list OVNNorthd;
  w_controllers : list OVNController;
  w_pods : list Pod;
  w_services : list Service;
  w_nads : list NAD;
  w_deployments : list Deployment;
  w_sts : StatefulSetObs;
  w_ds : DaemonSetObs;
  w_networkReady : bool;
  w_jobError : option error;
  w_missingSecret : bool;
}.

Definition notFound : error := mkError "not found" true.

Definition found {A} (o : option A) : fallible A :=
  match o with Some a => Okay a | None => Fail notFound end.

Definition named {A} (meta : A → ObjectMeta) (n : NamespacedName) (l : list A) : option A :=
  snd <$> list_find (λ a, om_Name (meta a) = nn_Name n ∧ om_Namespace (meta a) = nn_Namespace n) l.

Definition matches (labels m : gmap string string) : bool :=
  forallb (λ kv, bool_decide (m !! kv.1 = Some kv.2)) (map_to_list labels).

Definition okRE : Result * option error := (emptyResult, None).

Definition handler (R : Type) (e : Ext R) (w : World) : R * World :=
  match e in Ext R return R * World with
  | GetOVNDBCluster n => (found (named db_Meta n (w_db w)), w)
  | GetOVNNorthd n => (found (named nd_Meta n (w_northd w)), w)
  | GetOVNController_ n => (found (named oc_Meta n (w_controllers w)), w)
  | ListOVNDBClusters ns labels =>
      (Okay (filter (λ i, om_Namespace (db_Meta i) = ns) (w_db w)), w)
  | ListOVNControllers ns =>
      (Okay (filter (λ i, om_Namespace (oc_Meta i) = ns) (w_controllers w)), w)
  | ListNames _ _ => (Okay [], w)
  | ListByField _ _ _ _ => (Okay [], w)
  | NewHelper _ => (None, w)
  | PatchInstance _ => (None, w)
  | GetService _ n =>
      ((if bool_decide (n ∈ svc_Name <$> w_services w) then None else Some notFound), w)
  | GetDeployment _ n => (found (snd <$> list_find (λ d, dep_Name d = n) (w_deployments w)), w)
  | UpdateDeployment _ => (None, w)
  | GetNAD ns n =>
      (found (snd <$> list_find (λ a, nad_Name a = n ∧ nad_Namespace a = ns) (w_nads w)), w)
  | CreateNAD _ => (None, w)
  | UpdateNAD _ => (None, w)
  | UpdateService _ => (None, w)
  | Delete _ _ _ => (None, w)
  | ListPods _ _ => (Okay (w_pods w), w)
  | CreateOrPatchDNSData _ _ => (None, w)
  | ClientsetListPods _ _ => (Okay (w_pods w), w)
  | ReconcileRbac _ _ =>
      (((λ t, ref_True t (Msg "" [])) <$>
        [ServiceAccountReadyCondition; RoleReadyCondition; RoleBindingReadyCondition], okRE), w)
  | GetNADWithName n ns =>
      ((match found (snd <$> list_find (λ a, nad_Name a = n ∧ nad_Namespace a = ns) (w_nads w))
        with Okay a => Okay (Some a) | Fail e => Fail e end), w)
  | ValidateCACertSecret n =>
      ((if w_missingSecret w then Fail notFound else Okay ("hash-of-" +:+ nn_Name n)), w)
  | ValidateCertSecret s _ =>
      ((if w_missingSecret w then Fail notFound
        else Okay ("hash-of-" +:+ default "" (tls_SecretName s))), w)
  | EnsureConfigMaps _ cms vars =>
      ((<["configmaps" := SetValue (strings_Join (tpl_Name <$> cms) ",")]> (default ∅ vars), None), w)
  | EnsureServiceTopology ref _ _ _ => (Okay (tr_Name <$> ref), w)
  | EnsureDeletedTopologyRef _ _ => (okRE, w)
  | StatefulSetCreateOrPatch _ _ => ((okRE, w_sts w), w)
  | DaemonSetCreateOrPatch _ _ => ((okRE, w_ds w), w)
  | PDBCreateOrPatch _ _ => (okRE, w)
  | DeletePDBWithName _ _ => (None, w)
  | GetServiceWithName n _ =>
      ((match list_find (λ s, svc_Name s = n) (w_services w) with
        | Some (_, s) => (Some s, None)
        | None => (None, Some notFound)
        end), w)
  | GetServicesListWithLabel _ labels =>
      (Okay (filter (λ s, matches labels (svc_Labels s)) (w_services w)), w)
  | DeleteServicesWithLabel _ _ => (None, w)
  | ServiceCreateOrPatch h _ => ((okRE, h), w)
  | VerifyNetworkStatusFromAnnotation _ _ _ => (Okay (w_networkReady w, ∅), w)
  | DoJob j _ _ _ h =>
      (((match w_jobError w with Some e => (emptyResult, Some e) | None => okRE end), (false, h)), w)
  | GetDNSClusterDomain => ("cluster.local", w)
  | NowUnix => (1700000000%Z, w)
  end.

(** A secret reference that is off. *)
Definition noTLS : SimpleService := mkSimpleService None "".

Definition aMeta (kind name : string) : ObjectMeta :=
  mkObjectMeta name "openstack" ∅ ∅ [] [GetFinalizer kind] None 1.

(** An SB cluster of [replicas], as admitted, before its first status. *)
Definition aDBCluster (dbType name : string) (replicas : Z) (na : string) (tls : SimpleService)
    : OVNDBCluster :=
  mkOVNDBCluster "OVNDBCluster" (aMeta "OVNDBCluster" name)
    (mkOVNDBClusterSpec "image" "" dbType (Some replicas) None "info" 10000 60000 60000
       tt "local-storage" "10G" na tls None None None noTLS)
    (mkOVNDBClusterStatus 0 None [] "" "" None 0 None).

Definition aPod (name : string) : Pod := mkPod name "openstack" ∅ "Running" None "node-0".

Definition aService (name clusterIP type : string) (port : Z) : Service :=
  mkService name "openstack" {["service" := "ovsdbserver-sb"]}
    (mkServiceSpec ∅ [mkServicePort "south" port "TCP"] false clusterIP type).

Definition readySts (n : Z) : StatefulSetObs := mkStatefulSetObs 1 (Some n) 1 n n n.
Definition readyDs (n : Z) : DaemonSetObs := mkDaemonSetObs 1 1 n n n 0.

(** A cluster in which everything is ready. *)
Definition aWorld (dbs : list OVNDBCluster) : World :=
  mkWorld dbs [] [] [aPod "ovsdbserver-sb-0"]
    [aService "ovsdbserver-sb" "None" "" 6644; aService "ovsdbserver-sb-0" "10.0.0.1" "ClusterIP" 6642]
    [] [] (readySts 1) (readyDs 1) true None false.

Definition req (name : string) : NamespacedName := mkNamespacedName "openstack" name.

(** ** Runs against a cluster *)

Definition trace_of {A} (p : prog Ext A) (w : World) : list (event Ext) := (run handler p w).1.1.
Definition outcome_of {A} (p : prog Ext A) (w : World) : outcome A := (run handler p w).1.2.

Lemma runs {A} (p : prog Ext A) w : exec p (trace_of p w) (outcome_of p w).
Proof. apply run_exec. Qed.

Lemma handler_world R (e : Ext R) w : (handler R e w).2 = w.
Proof. by destruct e. Qed.

(** What holds of every answer of a cluster that stays the same holds of the events
    of a run. *)
Lemma run_Forall {A} (h : ∀ R, Ext R → World → R * World) (P : event Ext → Prop)
    (p : prog Ext A) w :
  (∀ R (e : Ext R), (h R e w).2 = w ∧ P (Ev e (h R e w).1)) → Forall P (run h p w).1.1.
Proof.
  intros HP. induction p as [a| |R e k IH]; cbn; [constructor..|].
  destruct (HP R e) as [Hw HPe]. destruct (h R e w) as [r w'] eqn:Hh. cbn in *. subst w'.
  specialize (IH r). destruct (run h (k r) w) as [[tr o] w2]. cbn in *. by constructor.
Qed.

Lemma trace_rbac_ok {A} (p : prog Ext A) w : Forall rbac_ok (trace_of p w).
Proof.
  apply run_Forall. intros R e. split; [apply handler_world|]. destruct e; cbn; trivial.
  unfold rbacTypes. repeat (constructor; cbn; [set_solver|]). constructor.
Qed.

(** What holds at a position of a list. *)
Lemma Exists_at {A} (P : A → Prop) l n : from_option P False (l !! n) → Exists P l.
Proof.
  intros HP. destruct (l !! n) eqn:Hl; [|done]. apply Exists_exists. eexists. split; [|exact HP].
  by eapply list_elem_of_lookup_2.
Qed.

(** An OVNNorthd of one replica. *)
Definition aNorthd (name exporter : string) (replicas : Z) : OVNNorthd :=
  mkOVNNorthd "OVNNorthd" (aMeta "OVNNorthd" name)
    (mkOVNNorthdSpec "image" exporter (Some replicas) None "info" tt noTLS (Some 1%Z) None None noTLS)
    (mkOVNNorthdStatus 0 [] None 0 None).

Definition noProbes : ProbeOverrides := mkProbeOverrides None None None.

(** An OVNController that has been reconciled before: it has conditions, and the
    hashes of its inputs. *)
Definition aController (name : string) (nics : gmap string string) (bonds : gmap string Bond)
    : OVNController :=
  mkOVNController "OVNController" (aMeta "OVNController" name)
    (mkOVNControllerSpec "ovs-image" "ovn-image" ""
       (mkOVSExternalIDs "random" "br-int" "geneve" "" 60000 [] (Some true))
       nics bonds tt noProbes None "" "info" "info" noTLS None None noTLS)
    (mkOVNControllerStatus 0 0 0 0
       [UnknownCondition InputReadyCondition InitReason (Msg "" [])]
       (Some {[OVNInputHash := "configmaps=" +:+ name +:+ "-scripts"; OVSInputHash := ""]})
       None 0 None).

(** The two databases, with their addresses. *)
Definition theDatabases : list OVNDBCluster :=
  [db_set_InternalDBAddress "tcp:ovsdbserver-nb-0.openstack.svc:6641"
     (aDBCluster "NB" "nb" 1 "" noTLS);
   db_set_InternalDBAddress "tcp:ovsdbserver-sb-0.openstack.svc:6642"
     (aDBCluster "SB" "sb" 1 "" noTLS)].

(** The worlds in which the three reconcilers run. *)
Definition dbWorld : World := aWorld [aDBCluster "SB" "sb" 1 "" noTLS].

Definition northdWorld (i : OVNNorthd) (pods : list Pod) (deployments : list Deployment) : World :=
  mkWorld theDatabases [i] [] pods [] [] deployments (readySts 1) (readyDs 1) true None false.

Definition ctlWorld (i : OVNController) : World :=
  mkWorld theDatabases [] [i] [aPod "ovn-controller-ovs-x"] [] [] [] (readySts 1) (readyDs 1)
    true None false.

(** An SB cluster behind a load balancer. *)
Definition exposedSB : OVNDBCluster :=
  db_set_Override_Service
    (Some (mkOverrideSpec None (Some (mkOverrideServiceSpec ServiceTypeLoadBalancer None))))
    (aDBCluster "SB" "sb" 1 "" noTLS).
