(* ===== verification/WebhookProofs.v ===== *)
(** * What admission guarantees

    Defaulting is idempotent and fills the images; a probe override that is
    admitted is one the reconciler can build, whatever the path it was reported
    under; the handlers reject the objects of other types. *)
From S2P Require Import Prelude Prog K8s Lib Api ApiMethods Calls Webhook RefLib.

Section webhook_proofs.
Context {AT : ApiTypes} {CL : CondLib} {L : Lib}.

(** ** Defaults *)

Lemma nonempty_spec s : nonempty s = true ↔ s ≠ "".
Proof. unfold nonempty. by rewrite negb_true_iff, bool_decide_eq_false. Qed.

Lemma orDefault_idem s d : orDefault (orDefault s d) d = orDefault s d.
Proof. unfold orDefault. destruct (nonempty s) eqn:Hs; by rewrite ?Hs; repeat case_match. Qed.

Lemma OVNDBClusterSpec_Default_image d s :
  db_ContainerImage (OVNDBClusterSpec_Default d s) =
  if bool_decide (db_ContainerImage s = "") then
    if bool_decide (db_DBType s = NBDBType) then NBContainerImageURL d
    else if bool_decide (db_DBType s = SBDBType) then SBContainerImageURL d else ""
  else db_ContainerImage s.
Proof. done. Qed.

(** Defaulting a resource of any of the three kinds twice is defaulting it once. *)
Theorem defaults_idempotent ddb dnd doc db nd oc :
  OVNDBCluster_Default ddb (OVNDBCluster_Default ddb db) = OVNDBCluster_Default ddb db ∧
  OVNNorthd_Default dnd (OVNNorthd_Default dnd nd) = OVNNorthd_Default dnd nd ∧
  OVNController_Default doc (OVNController_Default doc oc) = OVNController_Default doc oc.
Proof.
  unfold OVNDBCluster_Default, OVNNorthd_Default, OVNController_Default,
    OVNDBClusterSpec_Default, OVNNorthdSpec_Default, OVNControllerSpec_Default.
  cbn. rewrite !orDefault_idem. split; [|done]. f_equal. f_equal.
  repeat case_bool_decide; congruence.
Qed.

(** Defaulting a database cluster gives it an image exactly when it had one or its
    type is one the defaults know and have an image for; the rest of the resource is
    untouched. *)
Theorem default_db_image d i :
  (db_ContainerImage (db_Spec (OVNDBCluster_Default d i)) ≠ "" ↔
     db_ContainerImage (db_Spec i) ≠ "" ∨
     (db_DBType (db_Spec i) = NBDBType ∧ NBContainerImageURL d ≠ "") ∨
     (db_DBType (db_Spec i) = SBDBType ∧ SBContainerImageURL d ≠ "")) ∧
  (db_ContainerImage (db_Spec i) ≠ "" →
     db_ContainerImage (db_Spec (OVNDBCluster_Default d i)) = db_ContainerImage (db_Spec i)) ∧
  db_Meta (OVNDBCluster_Default d i) = db_Meta i ∧
  db_Status (OVNDBCluster_Default d i) = db_Status i ∧
  db_Replicas (db_Spec (OVNDBCluster_Default d i)) = db_Replicas (db_Spec i) ∧
  db_TLS (db_Spec (OVNDBCluster_Default d i)) = db_TLS (db_Spec i).
Proof.
  cbn. split; [|split; [|done]].
  - assert (NBDBType ≠ SBDBType) by done.
    repeat case_bool_decide; split; intros; intuition congruence.
  - intros Hi. by rewrite bool_decide_eq_false_2.
Qed.

(** ** Probes *)

Lemma validate_both {FLaws : FieldLaws L} p q c :
  (ValidateProbeConf p c = [] ∧ ValidateProbeConf q c = []) ∨
  ∃ e1 l1 e2 l2, ValidateProbeConf p c = e1 :: l1 ∧ ValidateProbeConf q c = e2 :: l2.
Proof.
  pose proof (ValidateProbeConf_path p q c) as Hpq.
  destruct (ValidateProbeConf p c) as [|e1 l1], (ValidateProbeConf q c) as [|e2 l2].
  - by left.
  - discriminate (proj1 Hpq eq_refl).
  - discriminate (proj2 Hpq eq_refl).
  - right. by eexists _, _, _, _.
Qed.

(** The path only shows in the text of the errors. *)
Lemma buildProbe_path {FLaws : FieldLaws L} p q script o :
  probeOf (buildProbe p script o) = probeOf (buildProbe q script o).
Proof.
  unfold buildProbe. destruct o as [o|].
  1: destruct (validate_both p q (suppliedProbe (probeDefaults script) o))
       as [[-> ->]|(? & ? & ? & ? & -> & ->)]; [|done].
  all: match goal with |- context [badScheme ?c] =>
         destruct (validate_both p q c) as [[-> ->]|(? & ? & ? & ? & -> & ->)]; [|done];
         destruct (badScheme c); [done|]; by destruct (SetProbeConfV2 c)
       end.
Qed.

(** A turn of the loop either builds the probe or reports something. *)
Lemma buildProbe_errors p script o :
  errorsOf (buildProbe p script o) = [] ↔ is_Some (probeOf (buildProbe p script o)).
Proof.
  assert (∀ r : Probe + list FieldError, r ≠ inr [] →
    (errorsOf r = [] ↔ is_Some (probeOf r))) as Hr.
  { intros [pr|[|e l]] Hne; cbn; [split; eauto|done|].
    split; [done|by intros [? ?]]. }
  apply Hr. unfold buildProbe. destruct o as [o|].
  1: destruct (ValidateProbeConf p (suppliedProbe _ o)) as [|? ?]; [|done].
  all: match goal with |- context [badScheme ?c] =>
         destruct (ValidateProbeConf p c); [|done];
         destruct (badScheme c); [done|]; by destruct (SetProbeConfV2 c)
       end.
Qed.

Lemma buildProbes_nil o base :
  (buildProbes o base).2 = [] ↔
  is_Some (pset_Liveness (buildProbes o base).1) ∧
  is_Some (pset_Readiness (buildProbes o base).1) ∧
  (is_Some (pset_Startup (buildProbes o base).1) ↔ is_Some (po_StartupProbes o)).
Proof.
  unfold buildProbes. cbn. rewrite !app_nil, !buildProbe_errors.
  destruct (po_StartupProbes o) as [c|]; cbn; rewrite ?buildProbe_errors.
  - split; intros (? & ? & Hs); repeat split; eauto. apply Hs. eauto.
  - split; [intros (? & ? & _)|tauto]. split; [done|]. split; [done|].
    by split; intros [? [=]].
Qed.

Lemma buildProbes_path {FLaws : FieldLaws L} o p q :
  (buildProbes o p).1 = (buildProbes o q).1.
Proof.
  unfold buildProbes. cbn.
  rewrite (buildProbe_path (path_Child p "livenessProbes") (path_Child q "livenessProbes")).
  rewrite (buildProbe_path (path_Child p "readinessProbes") (path_Child q "readinessProbes")).
  destruct (po_StartupProbes o) as [c|]; cbn; [|done]. f_equal. apply buildProbe_path.
Qed.

Lemma ValidateProbes_nil {FLaws : FieldLaws L} s base :
  ValidateProbes s base = [] ↔ (GetProbeSet s).2 = None.
Proof.
  unfold ValidateProbes, GetProbeSet.
  pose proof (buildProbes_nil (oc_Override_Probes s) base) as Hb.
  pose proof (buildProbes_nil (oc_Override_Probes s) (probesPath "spec")) as Hs.
  rewrite (buildProbes_path _ base (probesPath "spec")) in Hb.
  destruct (buildProbes (oc_Override_Probes s) (probesPath "spec")) as [set errs].
  cbn in *. rewrite ToAggregate_None. tauto.
Qed.

(** C25. A probe override is admitted by the webhook exactly when the reconciler can
    build its probes from it, and then the probes are there. *)
Theorem admitted_probes_build {FLaws : FieldLaws L} s base :
  (ValidateProbes s base = [] ↔ (GetProbeSet s).2 = None) ∧
  (ValidateProbes s base = [] →
     is_Some (pset_Liveness (GetProbeSet s).1) ∧
     is_Some (pset_Readiness (GetProbeSet s).1) ∧
     (is_Some (pset_Startup (GetProbeSet s).1) ↔
        is_Some (po_StartupProbes (oc_Override_Probes s)))).
Proof.
  split; [apply ValidateProbes_nil|]. unfold ValidateProbes, GetProbeSet.
  rewrite buildProbes_nil, (buildProbes_path _ base (probesPath "spec")).
  by destruct (buildProbes (oc_Override_Probes s) (probesPath "spec")).
Qed.

(** ** Handlers *)

Lemma invalid_None kind name l : invalid kind name l = None ↔ l = [].
Proof. by destruct l. Qed.

Definition admissible (i : OVNController) : Prop :=
  ValidateTopologyRef (oc_TopologyRef (oc_Spec i)) "spec.topologyRef"
    (om_Namespace (oc_Meta i)) = [] ∧
  (GetProbeSet (oc_Spec i)).2 = None.

(** The OVNController webhook admits exactly the OVNControllers whose topology
    reference is allowed and whose probes can be built, on creation and update alike. *)
Theorem controller_admission {FLaws : FieldLaws L} obj old :
  (OVNControllerCustomValidator_ValidateCreate obj = None ↔
     ∃ i, obj = ObjOVNController i ∧ admissible i) ∧
  (OVNControllerCustomValidator_ValidateUpdate old obj = None ↔
     ∃ i, obj = ObjOVNController i ∧ admissible i).
Proof.
  assert (∀ i, OVNController_ValidateCreate i = None ↔ admissible i) as Hi.
  { intros i. unfold OVNController_ValidateCreate, OVNControllerSpec_ValidateCreate.
    rewrite invalid_None, app_nil. unfold admissible.
    by rewrite ValidateProbes_nil. }
  assert (∀ P Q : OVNController → Prop, (∀ i, P i ↔ Q i) → ∀ i,
    P i ↔ ∃ j, ObjOVNController i = ObjOVNController j ∧ Q j) as Hex.
  { intros P Q HPQ i. rewrite HPQ. split; [by exists i|]. by intros (j & [= ->] & Hj). }
  destruct obj; cbn; split; try (split; [done|by intros (? & ? & _)]).
  - by apply (Hex (λ i, OVNController_ValidateCreate i = None)).
  - by apply (Hex (λ i, OVNController_ValidateUpdate i old = None)).
Qed.
End webhook_proofs.
