(* ===== verification/DBProofs.v ===== *)
(** * Properties of the OVNDBCluster reconciler *)
From S2P Require Import Prelude Prog Triples K8s Lib Api ApiMethods Calls Shared.
From S2P Require Import SharedProofs Client DBManifests DBController RefLib.
#[local] Open Scope go_scope.

Section db_proofs.
Context {AT : ApiTypes} {CL : CondLib} {L : Lib}.

(** ** Clusters that differ in their status *)

(** The objects the operator makes depend on a cluster up to its status. *)
Record same_db (i j : OVNDBCluster) : Prop := mk_same_db {
  same_Kind : db_Kind i = db_Kind j;
  same_Meta : db_Meta i = db_Meta j;
  same_Spec : db_Spec i = db_Spec j;
}.

#[local] Instance db_equiv : Equiv OVNDBCluster := same_db.
#[local] Instance db_equivalence : Equivalence (≡@{OVNDBCluster}).
Proof.
  split.
  - by intros [].
  - intros i j []. by split.
  - intros i j k [] []. split; congruence.
Qed.

#[local] Instance isSB_proper : Proper ((≡) ==> (=)) isSB.
Proof. intros [] [] []. by simplify_eq/=. Qed.
#[local] Instance dbServiceName_proper : Proper ((≡) ==> (=)) dbServiceName.
Proof. intros [] [] []. by simplify_eq/=. Qed.
#[local] Instance StatefulSet_proper :
  Proper ((≡) ==> (=) ==> (=) ==> (=) ==> (=) ==> (=)) StatefulSet.
Proof. intros [] [] [] ? ? -> ? ? -> ? ? -> ? ? ->. by simplify_eq/=. Qed.
#[local] Instance dbServiceConfigMaps_proper :
  Proper ((≡) ==> (=) ==> (=)) dbServiceConfigMaps.
Proof. intros [] [] [] ? ? ->. by simplify_eq/=. Qed.
#[local] Instance tls_validated_proper :
  Proper ((≡) ==> (=) ==> (=) ==> (iff)) (tls_validated (I := OVNDBCluster)).
Proof. intros [] [] [] ? ? -> ? ? ->. by simplify_eq/=. Qed.

(** ** The phases before the workload *)

Definition nad_found (i : OVNDBCluster) (nads : list NAD) (tr : list (event Ext)) : Prop :=
  if nonempty (db_NetworkAttachment (db_Spec i)) then
    ∃ nad, nads = option_list nad ∧
      Ev (GetNADWithName (db_NetworkAttachment (db_Spec i)) (om_Namespace (db_Meta i)))
        (Okay nad) ∈ tr
  else nads = [].

Lemma dbNetworkInputs_spec i :
  quietly is_workload dbNetworkInputs i (λ tr i' nets,
    i' ≡ i ∧ nad_found i nets.2 tr).
Proof.
  unfold quietly, dbNetworkInputs, deleteExternalConfigMaps, dbConditionError, markTrue,
    setCond, nad_found.
  repeat wp_step. all: quiet_end with idtac.
  all: try done. eexists. split; [done|]. solve_in.
Qed.

Lemma dbTLSInputs_spec i :
  quietly is_workload dbTLSInputs i (λ tr i' vars, i' ≡ i ∧ tls_validated i vars tr).
Proof.
  unfold dbTLSInputs. eapply quietly_bind.
  { eapply quietly_weaken; [|apply validateTLS_spec]. intros [R []]; cbn; tauto. }
  cbn. intros tr i' vars [-> Htls]. split; [solve_quiet|]. split; [done|].
  by rewrite app_nil_r.
Qed.

(** The hash of the inputs comes from the answer to the config maps' request. *)
Definition inputs_hashed (i : OVNDBCluster) (vars : gmap string Setter) (hash : string)
    (tr : list (event Ext)) : Prop :=
  ∃ j vars', j ≡ i ∧
    Ev (EnsureConfigMaps (ObjOVNDBCluster j) (dbServiceConfigMaps i (dbServiceName i))
          (Some vars)) (vars', None) ∈ tr ∧
    ObjectHash (MergeEnvs [] vars') = Okay hash.

Lemma dbServiceConfig_spec vars serviceName i :
  serviceName = dbServiceName i →
  quietly is_workload (dbServiceConfig vars serviceName) i (λ tr i' hash,
    i' ≡ i ∧ inputs_hashed i vars hash tr).
Proof.
  intros ->. unfold quietly, dbServiceConfig, dbGenerateServiceConfigMaps, storeHash, dbConditionError,
    markTrue, setCond, inputs_hashed.
  repeat wp_step. all: quiet_end with (eexists i, _; split; [done|]; split; [solve_in|done]).
Qed.

Lemma dbTopology_spec labels i :
  quietly is_workload (dbTopology labels) i (λ tr i' topology, i' ≡ i ∧
    Ev (EnsureServiceTopology (db_TopologyRef (db_Spec i))
          (dbs_LastAppliedTopology (db_Status i)) (om_Name (db_Meta i))
          (GetLabelSelector labels)) (Okay topology) ∈ tr).
Proof.
  unfold quietly, dbTopology, ensureTopology, dbConditionError, markTrue, setCond, updConds.
  repeat wp_step; simplify_eq/=.
  all: quiet_end with (change (db_TopologyRef (db_Spec i))
    with (OVNDBCluster_GetSpecTopologyRef i); rewrite ?Heqo; solve_in).
Qed.

(** ** The workload *)

(** The event asks for the StatefulSet [sts]. *)
Definition creates_sts (sts : StatefulSetDef) (ev : event Ext) : Prop :=
  match ev with Ev e _ =>
    match e with StatefulSetCreateOrPatch sts' _ => sts' = sts | _ => False end
  end.

Lemma creates_sts_workload sts ev : creates_sts sts ev → is_workload ev.
Proof. destruct ev as [R []]; cbn; tauto. Qed.

(** Every input of the StatefulSet [sts] of the cluster [i] has been checked in
    [tr], and [sts] is the one the answers determine. *)
Definition sts_inputs (i : OVNDBCluster) (sts : StatefulSetDef) (tr : list (event Ext)) : Prop :=
  ∃ nads annotations vars hash last topology,
    let labels := {[AppSelector := dbServiceName i]} in
    nad_found i nads tr ∧
    EnsureNetworksAnnotation nads = Okay annotations ∧
    tls_validated i vars tr ∧
    inputs_hashed i vars hash tr ∧
    Ev (EnsureServiceTopology (db_TopologyRef (db_Spec i)) last (om_Name (db_Meta i))
          (GetLabelSelector labels)) (Okay topology) ∈ tr ∧
    StatefulSet i hash labels annotations topology = GOk sts.

Lemma reconcileRbac_spec i :
  quietly is_workload (reconcileRbac OVNDBCluster_RbacConditionsSet dbRbacRules) i
    (λ tr i' _, i' ≡ i).
Proof.
  assert (∀ cs i, foldl (λ i c, OVNDBCluster_RbacConditionsSet c i) i cs ≡ i) as Hfold.
  { induction cs as [|c cs IH]; intros j; [done|]. cbn. by rewrite IH. }
  unfold quietly, reconcileRbac, returnUnlessDone. repeat wp_step.
  all: cbn; split; [solve_quiet|try done].
Qed.

Lemma nad_found_mono i nads tr tr' : tr ⊆ tr' → nad_found i nads tr → nad_found i nads tr'.
Proof.
  unfold nad_found. intros Hsub. destruct (nonempty _); [|done].
  intros (nad & -> & Hin). eauto.
Qed.

Lemma inputs_hashed_mono i vars hash tr tr' :
  tr ⊆ tr' → inputs_hashed i vars hash tr → inputs_hashed i vars hash tr'.
Proof. intros Hsub (j & vars' & Hj & Hin & Hh). exists j, vars'. eauto. Qed.

#[local] Instance nad_found_proper : Proper ((≡) ==> (=) ==> (=) ==> (iff)) nad_found.
Proof. intros [] [] [] ? ? -> ? ? ->. by simplify_eq/=. Qed.

#[local] Instance inputs_hashed_proper :
  Proper ((≡) ==> (=) ==> (=) ==> (=) ==> (iff)) inputs_hashed.
Proof.
  intros i1 i2 Hi ? ? -> ? ? -> ? ? ->. unfold inputs_hashed.
  split; intros (j & vars' & Hj & Hin & Hh); exists j, vars'; (split; [by rewrite Hj|]);
    (split; [|done]); by rewrite <- ?Hi in * || by rewrite ?Hi in *.
Qed.

Lemma dbWorkload_guarded sts hash labels annotations topology i G :
  (StatefulSet i hash labels annotations topology = GOk sts → G []) →
  wpM (dbWorkload hash labels annotations topology) i (λ tr o,
    match o with
    | Done (Cont _ _) => ∃ ev, tr = [ev] ∧ (creates_sts sts ev → G [])
    | _ => guarded (λ t _, G t) (creates_sts sts) tr
    end).
Proof.
  intros HG. unfold dbWorkload, lift_go, dbDeploymentRunning, dbConditionError, setCond.
  repeat wp_step; cbn; try apply guarded_nil; simplify_eq.
  all: try (apply guarded_cons_quiet; [|solve_quiet]).
  all: try (eexists; split; [done|]); cbn; intros ->; auto.
Qed.

Lemma sts_inputs_same i j sts tr : same_db i j → sts_inputs i sts tr → sts_inputs j sts tr.
Proof.
  intros Hij (nads & ann & vars & hash & last & topo & Hnad & Hann & Htls & Hhash & Htopo & Hs).
  exists nads, ann, vars, hash, last, topo. cbn zeta in *.
  assert (dbServiceName i = dbServiceName j) as Hsn by by apply dbServiceName_proper.
  rewrite Hsn in *. split; [by rewrite <- (nad_found_proper i j Hij _ _ eq_refl _ _ eq_refl)|].
  split; [done|]. split; [by rewrite <- (tls_validated_proper i j Hij _ _ eq_refl _ _ eq_refl)|].
  split; [by rewrite <- (inputs_hashed_proper i j Hij _ _ eq_refl _ _ eq_refl _ _ eq_refl)|].
  destruct Hij as [Hk Hm Hsp] eqn:He. rewrite <- Hm, <- Hsp. split; [done|].
  by rewrite <- (StatefulSet_proper i j Hij _ _ eq_refl _ _ eq_refl _ _ eq_refl _ _ eq_refl).
Qed.

(** What follows the workload creates no other. *)
Lemma after_workload sts stateful nets serviceName labels :
  triple (λ _, True) (λ ev, ¬ creates_sts sts ev) True (λ _, True)
    (do! dbPDB serviceName labels;
     do! dbExpose serviceName labels;
     do! dbNetworkStatus stateful nets labels;
     let! items := dbServiceList labels in
     do! dbRuntimeConfig stateful serviceName labels;
     dbDeploymentStatus stateful items serviceName) (λ _, True).
Proof. triples fail with (try (cbn; tauto)). Qed.

Lemma dbReconcileNormal_workload sts i :
  wpM dbReconcileNormal i (λ tr _, guarded (λ t _, sts_inputs i sts t) (creates_sts sts) tr).
Proof.
Ltac phase H :=
    eapply guarded_bind;
      [eapply quietly_weaken; [apply creates_sts_workload|apply H]|cbn beta].
  unfold dbReconcileNormal.
  phase reconcileRbac_spec. intros tr1 i1 _ Hi1.
  apply guarded_get.
  eapply guarded_bind with (Q := λ tr i' _, i' ≡ i1).
  { destruct (isSB i1); (split; [solve_quiet|done]). }
  intros tr2 i2 _ Hi2. rewrite Hi1 in Hi2. replace (dbServiceName i1) with (dbServiceName i) by by rewrite Hi1.
  phase dbNetworkInputs_spec. intros tr3 i3 nets [Hi3 Hnets].
  eapply guarded_bind with (Q := λ tr i' ann, i' ≡ i3 ∧ EnsureNetworksAnnotation nets.2 = Okay ann).
  { unfold quietly, dbServiceAnnotations. repeat wp_step. all: quiet_end with done. }
  intros tr4 i4 ann [Hi4 Hann].
  eapply guarded_bind with (Q := λ tr i' _, i' ≡ i4).
  { split; [solve_quiet|done]. }
  intros tr5 i5 _ Hi5.
  phase dbTLSInputs_spec. intros tr6 i6 vars [Hi6 Htls].
  rewrite Hi2 in Hnets, Hi3. rewrite Hi3 in Hi4. rewrite Hi4 in Hi5. rewrite Hi5 in Htls, Hi6.
  phase dbServiceConfig_spec; [by rewrite Hi6|]. intros tr7 i7 hash [Hi7 Hhash].
  rewrite Hi6 in Hi7, Hhash.
  set (labels := {[AppSelector := dbServiceName i]}).
  change (wpM (let! topology := dbTopology labels in
               let! stateful := dbWorkload hash labels ann topology in
               do! dbPDB (dbServiceName i) labels;
               do! dbExpose (dbServiceName i) labels;
               do! dbNetworkStatus stateful nets.1 labels;
               let! items := dbServiceList labels in
               do! dbRuntimeConfig stateful (dbServiceName i) labels;
               dbDeploymentStatus stateful items (dbServiceName i)) i7
    (λ tr' _, guarded
       (λ t _, sts_inputs i sts (tr1 ++ tr2 ++ tr3 ++ tr4 ++ tr5 ++ tr6 ++ tr7 ++ t))
       (creates_sts sts) tr')).
  phase dbTopology_spec. intros tr8 i8 topology [Hi8 Htopo].
  rewrite Hi7 in Hi8.
  apply wpM_bind. eapply wpM_mono.
  2:{ apply (dbWorkload_guarded sts) with (G := λ t, sts_inputs i sts
        (tr1 ++ tr2 ++ tr3 ++ tr4 ++ tr5 ++ tr6 ++ tr7 ++ tr8 ++ t)).
      intros Hsts. rewrite Hi8 in Hsts.
      exists nets.2, ann, vars, hash, (dbs_LastAppliedTopology (db_Status i7)), topology.
      split; [|split; [done|split; [|split; [|split]]]].
      - eapply nad_found_mono; [|exact Hnets]. set_solver.
      - eapply tls_validated_mono; [|exact Htls]. set_solver.
      - eapply inputs_hashed_mono; [|exact Hhash]. set_solver.
      - destruct Hi7 as [_ Hmeta Hspec]. rewrite <- Hmeta, <- Hspec. fold labels. solve_in.
      - exact Hsts. }
  intros tr9 [[i9 x|i9 stateful]|]; cbn beta iota; [done| |done].
  intros (ev & -> & Hev).
  pose proof (after_workload sts stateful nets.1 (dbServiceName i) labels i9 Logic.I) as Hq.
  eapply wpM_mono; [clear Hq|exact Hq].
  intros tr10 o Hq. apply guarded_cons_quiet; [exact Hev|]. apply Hq. by apply Forall_forall.
Qed.

(** ** Readiness *)
Context {CLaws : CondLaws CL}.

(** The cluster [i] is [c] as far as the names of its objects go. *)
Definition db_about (c i : OVNDBCluster) : Prop :=
  om_Namespace (db_Meta i) = om_Namespace (db_Meta c) ∧ isSB i = isSB c.
Definition db_pending (c i : OVNDBCluster) : Prop :=
  db_about c i ∧ cond_pending DeploymentReadyCondition (dbs_Conditions (db_Status i)).

Lemma db_about_service c i : db_about c i → dbServiceName i = dbServiceName c.
Proof. unfold dbServiceName. by intros [_ ->]. Qed.

Lemma db_pending_rbac c0 c i :
  cond_Type c ∈ rbacTypes → db_pending c0 i → db_pending c0 (OVNDBCluster_RbacConditionsSet c i).
Proof.
  intros Hc [Ha Hi]. split; [done|]. unfold OVNDBCluster_RbacConditionsSet, set_shared. cbn.
  destruct (Conditions_Get _ _); [|done]. apply pending_Set_ne; [|done].
  intros Heq. revert Hc. unfold rbacTypes. rewrite <- Heq, !elem_of_cons, elem_of_nil.
  by intros [|[|[|]]].
Qed.

Lemma rbac_keeps c :
  keeps rbac_ok (db_pending c) (reconcileRbac OVNDBCluster_RbacConditionsSet dbRbacRules).
Proof. apply triple_reconcileRbac; [apply db_pending_rbac|done]. Qed.

Ltac db_keeps := unfold keeps;
  triples fail with (first [exact Logic.I
    | match goal with H : db_pending _ _ |- _ =>
        destruct H; split; [done|first [by apply pending_False | by apply pending_MarkTrue]] end
    | done]).

Lemma dbNetworkInputs_keeps c : keeps rbac_ok (db_pending c) dbNetworkInputs.
Proof. db_keeps. Qed.
Lemma dbServiceAnnotations_keeps nads c : keeps rbac_ok (db_pending c) (dbServiceAnnotations nads).
Proof. db_keeps. Qed.
Lemma dbTLSInputs_keeps c : keeps rbac_ok (db_pending c) dbTLSInputs.
Proof. db_keeps. Qed.
Lemma dbServiceConfig_keeps vars sn c : keeps rbac_ok (db_pending c) (dbServiceConfig vars sn).
Proof. db_keeps. Qed.
Lemma dbTopology_keeps labels c : keeps rbac_ok (db_pending c) (dbTopology labels).
Proof. db_keeps. Qed.
Lemma dbPDB_keeps sn labels c : keeps rbac_ok (db_pending c) (dbPDB sn labels).
Proof. db_keeps. Qed.
Lemma dbExpose_keeps sn labels c : keeps rbac_ok (db_pending c) (dbExpose sn labels).
Proof. db_keeps. Qed.
Lemma dbNetworkStatus_keeps st nas labels c :
  keeps rbac_ok (db_pending c) (dbNetworkStatus st nas labels).
Proof. db_keeps. Qed.
Lemma dbRuntimeConfig_keeps st sn labels c :
  keeps rbac_ok (db_pending c) (dbRuntimeConfig st sn labels).
Proof. db_keeps. Qed.

(** The address of a pod's service, for some answer of the cluster's domain. *)
Definition pod_address (i : OVNDBCluster) (svc : Service) (a : string) : Prop :=
  ∃ domain port, head (ss_Ports (svc_Spec svc)) = Some port ∧
    a = internalAddress (connectionScheme i) svc domain (sp_Port port).

(** The clients' address lists the pods' services among [items]. *)
Definition db_addressed (i : OVNDBCluster) (items : list Service) : Prop :=
  ∃ addrs, Forall2 (pod_address i) (filter (λ s, is_cluster_service s = true) items) addrs ∧
    dbs_InternalDBAddress (db_Status i) = strings_Join addrs ",".

(** The services of the cluster [c] are asked for by its name. *)
Definition services_asked (c : OVNDBCluster) (items : list Service) (tr : list (event Ext)) : Prop :=
  Ev (GetServicesListWithLabel (om_Namespace (db_Meta c)) {[AppSelector := dbServiceName c]})
    (Okay items) ∈ tr.

(** The StatefulSet of the cluster [c] was written and read back as [stateful]. *)
Definition sts_read_back (c : OVNDBCluster) (stateful : StatefulSetObs) (tr : list (event Ext))
    : Prop :=
  ∃ sts timeout, sts_Name sts = dbServiceName c ∧ sts_Namespace sts = om_Namespace (db_Meta c) ∧
    Ev (StatefulSetCreateOrPatch sts timeout) (emptyResult, None, stateful) ∈ tr.

Definition db_observed (c : OVNDBCluster) (stateful : StatefulSetObs) (items : list Service)
    (tr : list (event Ext)) : Prop :=
  sts_read_back c stateful tr ∧ services_asked c items tr.

Lemma internalDbAddresses_spec i items :
  wpM (internalDbAddresses (connectionScheme i) items) i (λ tr o,
    match o with
    | Done (Cont i' addrs) => i' = i ∧
        Forall2 (pod_address i) (filter (λ s, is_cluster_service s = true) items) addrs
    | Done (Exit _ _) => False
    | Panicked => True
    end).
Proof.
  unfold internalDbAddresses. apply (wpM_foldM _ (λ dn acc s tr, s = i ∧
    Forall2 (pod_address i) (filter (λ s, is_cluster_service s = true) dn) acc)).
  - by split; [|constructor].
  - intros dn svc rest acc s tr _ [-> Hacc]. rewrite filter_app, filter_cons, filter_nil.
    destruct (ss_Ports (svc_Spec svc)) as [|port ports] eqn:Hp; [done|].
    destruct (is_cluster_service svc) eqn:Hsvc; repeat wp_step; cbn; (split; [done|]);
      (case_decide; [|congruence]) || rewrite app_nil_r; try done.
    apply Forall2_app; [done|]. constructor; [|constructor].
    exists r, port. by rewrite Hp.
  - by intros acc s tr HI.
Qed.

Lemma dbExternalConfig_addressed items sn :
  triple (λ _, True) (λ _, True) True (λ i, db_addressed i items) (dbExternalConfig sn)
    (λ _, True).
Proof. triples fail with idtac. Qed.

Lemma dbDeploymentStatus_spec stateful items sn c i :
  db_pending c i →
  wpM (dbDeploymentStatus stateful items sn) i (λ tr o, ∀ i' x, ended i' x o →
    status_of DeploymentReadyCondition (dbs_Conditions (db_Status i')) = Some ConditionTrue →
    statefulset_IsReady stateful = true ∧ items ≠ [] ∧ db_addressed i' items).
Proof.
  intros Hi. unfold dbDeploymentStatus.
  destruct (statefulset_IsReady stateful) eqn:Hready; cbn [andb];
    [case_bool_decide as Hitems|].
  2,3: unfold dbDeploymentRunning, setCond; repeat wp_step; cbn; intros i' x [[=]|[=]]; subst;
    intros Hst; by destruct (pending_not_True _ _ (pending_False _ _ _ _ _ _ (proj2 Hi)) Hst).
  apply wpM_bind. cbn [wpM markTrue modify wp]. apply wpM_bind. cbn [wpM markTrue modify wp].
  apply wpM_bind. cbn [wpM get wp]. apply wpM_bind.
  match goal with |- wpM _ ?i1 _ => set (i2 := i1) end.
  eapply wpM_mono; [|apply (internalDbAddresses_spec i2)].
  intros tr [[? ?|i3 addrs]|]; [done| |intros _ i' x [|]; done]. intros [-> Haddrs].
  apply wpM_bind. cbn [wpM modify wp]. apply wpM_bind.
  assert (db_addressed (db_set_InternalDBAddress (strings_Join addrs ",") i2) items) as Hadd
    by by exists addrs.
  eapply wpM_mono; [|exact (dbExternalConfig_addressed items sn _ Hadd)].
  intros tr' o Ho. specialize (Ho ltac:(by apply Forall_true)) as [_ Ho].
  destruct o as [[i4 x4|i4 []]|]; cbn; intros i' x [[=]|[=]]; subst; intros _; tauto.
Qed.

Lemma StatefulSet_named i hash labels ann topo sts :
  StatefulSet i hash labels ann topo = GOk sts →
  sts_Name sts = dbServiceName i ∧ sts_Namespace sts = om_Namespace (db_Meta i).
Proof. unfold StatefulSet. repeat case_match; by intros [= <-]. Qed.

Lemma dbWorkload_spec hash labels ann topo c i :
  db_pending c i →
  wpM (dbWorkload hash labels ann topo) i (λ tr o,
    match o with
    | Done (Exit i' _) => db_pending c i'
    | Done (Cont i' st) => db_pending c i' ∧ sts_read_back c st tr
    | Panicked => True
    end).
Proof.
  intros [Ha Hi]. unfold dbWorkload, lift_go, dbDeploymentRunning, dbConditionError, setCond.
  repeat wp_step; cbn; try done; try (split; [done|]; by apply pending_False).
  split; [done|]. case_bool_decide; [|done]. simplify_eq.
  match goal with H : StatefulSet _ _ _ _ _ = GOk _ |- _ => apply StatefulSet_named in H as [Hn Hns] end.
  eexists _, _. split; [by rewrite Hn; apply db_about_service|].
  split; [rewrite Hns; apply Ha|solve_in].
Qed.

Lemma dbServiceList_spec c i :
  db_pending c i →
  wpM (dbServiceList {[AppSelector := dbServiceName c]}) i (λ tr o,
    match o with
    | Done (Exit i' _) => db_pending c i'
    | Done (Cont i' items) => db_pending c i' ∧ services_asked c items tr
    | Panicked => True
    end).
Proof.
  intros [Ha Hi]. unfold dbServiceList, dbConditionError, setCond.
  repeat wp_step; cbn; try (split; [done|]; by apply pending_False).
  split; [done|]. unfold services_asked. destruct Ha as [<- _]. solve_in.
Qed.

(** The deployment is ready for a reason: what [K] says of the answers used. *)
Definition ready_from (K : StatefulSetObs → list Service → list (event Ext) → Prop)
    (tr : list (event Ext)) (o : outcome (mres OVNDBCluster RE RE)) : Prop :=
  ∀ i' x, ended i' x o →
    status_of DeploymentReadyCondition (dbs_Conditions (db_Status i')) = Some ConditionTrue →
    ∃ stateful items, K stateful items tr ∧
      statefulset_IsReady stateful = true ∧ items ≠ [] ∧ db_addressed i' items.

Definition db_listed (c : OVNDBCluster) (stateful' stateful : StatefulSetObs)
    (items : list Service) (tr : list (event Ext)) : Prop :=
  stateful = stateful' ∧ services_asked c items tr.

Lemma ready_from_pending c K tr i x : db_pending c i → ready_from K tr (Done (Exit i x)).
Proof.
  intros [_ Hp] i' x' [[=]|[=]] Hs; subst. by destruct (pending_not_True _ _ Hp Hs).
Qed.

Lemma ready_from_panic K tr : ready_from K tr Panicked.
Proof. by intros ? ? [|]. Qed.

Lemma ready_from_mono (K K' : StatefulSetObs → list Service → list (event Ext) → Prop) tr tr' o :
  (∀ st items, K st items tr → K' st items tr') → ready_from K tr o → ready_from K' tr' o.
Proof.
  intros HK Ho i' x He Hs. destruct (Ho i' x He Hs) as (st & items & Hk & Hrest).
  exists st, items. auto.
Qed.

Lemma sts_read_back_app c st tr1 tr2 : sts_read_back c st tr2 → sts_read_back c st (tr1 ++ tr2).
Proof. intros (sts & t & Hn & Hns & H). exists sts, t. split; [done|]. split; [done|]. solve_in. Qed.
Lemma services_asked_app c items tr1 tr2 :
  services_asked c items tr2 → services_asked c items (tr1 ++ tr2).
Proof. unfold services_asked. intros. solve_in. Qed.
Lemma db_observed_app c stateful items tr1 tr2 :
  db_observed c stateful items tr2 → db_observed c stateful items (tr1 ++ tr2).
Proof. intros [H1 H2]. split; [by apply sts_read_back_app|by apply services_asked_app]. Qed.
Lemma db_listed_app c st stateful items tr1 tr2 :
  db_listed c st stateful items tr2 → db_listed c st stateful items (tr1 ++ tr2).
Proof. intros [-> H2]. split; [done|by apply services_asked_app]. Qed.

Ltac skip H :=
  eapply (wpM_skip rbac_ok (db_pending _));
    [ intros ? ? ? ?; eapply ready_from_pending; eassumption | intros ?; apply ready_from_panic
    | intros ? ? ?; apply ready_from_mono; intros ? ?;
        first [apply db_observed_app | apply db_listed_app | done]
    | apply H | eassumption | cbn beta; intros ? ? ? ].

Ltac skip_auto :=
  let Hm := fresh in
  match goal with |- wpM (bind ?m _) _ _ =>
    assert (∀ c, keeps rbac_ok (db_pending c) m) as Hm by (intros; db_keeps)
  end; skip Hm; clear Hm.

(** After the services have been listed. *)
Lemma dbListed_ready stateful items sn labels c i :
  db_pending c i →
  wpM (do! dbRuntimeConfig stateful sn labels; dbDeploymentStatus stateful items sn) i
    (λ tr o, Forall rbac_ok tr → ready_from (λ st its _, st = stateful ∧ its = items) tr o).
Proof.
  intros Hi. skip dbRuntimeConfig_keeps.
  eapply wpM_mono; [|by eapply dbDeploymentStatus_spec].
  intros tr o Ho _ i' x He Hs. destruct (Ho i' x He Hs) as (? & ? & ?).
  exists stateful, items. auto.
Qed.

(** After the workload. *)
Lemma dbWorkload_ready stateful nas sn c i :
  db_pending c i →
  wpM (do! dbPDB sn {[AppSelector := dbServiceName c]};
       do! dbExpose sn {[AppSelector := dbServiceName c]};
       do! dbNetworkStatus stateful nas {[AppSelector := dbServiceName c]};
       let! items := dbServiceList {[AppSelector := dbServiceName c]} in
       do! dbRuntimeConfig stateful sn {[AppSelector := dbServiceName c]};
       dbDeploymentStatus stateful items sn) i
    (λ tr o, Forall rbac_ok tr → ready_from (db_listed c stateful) tr o).
Proof.
  intros Hi. skip dbPDB_keeps. skip dbExpose_keeps. skip dbNetworkStatus_keeps.
  apply wpM_bind. eapply wpM_mono; [|by apply dbServiceList_spec].
  intros tr [[i1 x1|i1 items]|]; cbn beta iota.
  - intros Hp _. by eapply ready_from_pending.
  - intros [Hp Hin]. eapply wpM_mono; [|by eapply dbListed_ready].
    intros tr' o Ho [_ Henv]%Forall_app. eapply ready_from_mono; [|by apply Ho].
    intros st its [-> ->]. split; [done|]. unfold services_asked in *. solve_in.
  - intros _ _. apply ready_from_panic.
Qed.

Lemma dbReconcileNormal_ready c i :
  db_pending c i →
  wpM dbReconcileNormal i (λ tr o, Forall rbac_ok tr → ready_from (db_observed c) tr o).
Proof.
  intros Hi. unfold dbReconcileNormal.
  skip rbac_keeps. apply wpM_get.
  match goal with H : db_pending c ?j |- _ => rewrite (db_about_service c j (proj1 H)) end.
  skip_auto. skip dbNetworkInputs_keeps.
  skip dbServiceAnnotations_keeps. skip_auto. skip dbTLSInputs_keeps.
  skip dbServiceConfig_keeps. do 4 skip_auto. skip dbTopology_keeps.
  apply wpM_bind. eapply wpM_mono; [|by eapply dbWorkload_spec].
  intros tr [[i1 x1|i1 stateful]|]; cbn beta iota.
  - intros Hp _. by eapply ready_from_pending.
  - intros [Hp (sts & t & Hn & Hns & Hin)]. eapply wpM_mono; [|by apply dbWorkload_ready].
    intros tr' o Ho [_ Henv]%Forall_app. eapply ready_from_mono; [|by apply Ho].
    intros st its (-> & Hin'). split; [|by apply services_asked_app].
    exists sts, t. split; [done|]. split; [done|]. solve_in.
  - intros _ _. apply ready_from_panic.
Qed.

(** No phase removes the condition. *)
Definition db_tracked (i : OVNDBCluster) : Prop :=
  is_Some (status_of DeploymentReadyCondition (dbs_Conditions (db_Status i))).

Lemma db_pending_tracked c i : db_pending c i → db_tracked i.
Proof. intros (_ & st & Hst & _). by exists st. Qed.

Lemma db_tracked_rbac cs i :
  db_tracked i → db_tracked (foldl (λ i c, OVNDBCluster_RbacConditionsSet c i) i cs).
Proof.
  revert i. induction cs as [|c cs IH]; intros i Hi; [done|]. cbn. apply IH.
  unfold db_tracked, OVNDBCluster_RbacConditionsSet, set_shared in *. cbn.
  destruct (Conditions_Get _ _); [|done]. rewrite status_Set. by case_decide.
Qed.

Lemma dbReconcileNormal_tracked :
  triple (λ _, True) (λ _, True) True db_tracked dbReconcileNormal (λ _, True).
Proof.
  triples fail with (first [exact Logic.I | by apply db_tracked_rbac
    | unfold db_tracked; cbn; autorewrite with conds; by case_decide]).
Qed.

Lemma dbReconcileNormal_patchless : patchless dbReconcileNormal.
Proof. unfold patchless. triples fail with (cbn; tauto). Qed.

(** ** The initial status *)

Lemma dbInitStatus_same i : dbInitStatus i ≡ i.
Proof. done. Qed.

Lemma dbInit_pending i : db_pending i (dbInitStatus i).
Proof.
  assert (∀ t r m, cond_Type (UnknownCondition t r m) = t) as Ht by (intros; apply Unknown_spec).
  split; [done|]. unfold dbInitStatus. cbn.
  rewrite <- (Ht DeploymentReadyCondition InitReason
                (Msg "condition.DeploymentReadyInitMessage" [])) at 1.
  apply pending_Init.
  - unfold dbInitConditions. destruct (db_TopologyRef _); cbn; rewrite !Ht;
      apply (bool_decide_unpack _); vm_compute; exact Logic.I.
  - unfold dbInitConditions. solve_in.
  - destruct (Unknown_spec DeploymentReadyCondition InitReason
      (Msg "condition.DeploymentReadyInitMessage" [])) as [_ ->]. done.
Qed.
End db_proofs.

(** ** Properties *)
Section db_properties.
Context {AT : ApiTypes} {CL : CondLib} {L : Lib}.

(** C1. An OVNDBCluster is reported Ready only if the StatefulSet of its name, written
    and read back in that reconciliation, was ready and at least one service was listed by
    the cluster's own label in its namespace; the internal address in the status then holds
    the addresses of the listed services that are neither headless nor load balancers, in
    order, and is empty when there is none. *)
Theorem db_deployment_ready {FL : FinalizerLaws L} {CLaws : CondLaws CL} req tr o i' perr :
  exec (OVNDBCluster_Reconcile req) tr o →
  Forall rbac_ok tr →
  Ev (PatchInstance (ObjOVNDBCluster i')) perr ∈ tr →
  OVNDBCluster_IsReady i' = true →
  ∃ c stateful items, head tr = Some (Ev (GetOVNDBCluster req) (Okay c)) ∧
    db_observed c stateful items tr ∧
    statefulset_IsReady stateful = true ∧ items ≠ [] ∧ db_addressed i' items.
Proof.
  intros Hex Henv Hin Hready. unfold OVNDBCluster_Reconcile in Hex.
  eapply (reconcile_settled _ dbInitStatus (λ i, i) (λ _, false) _ ltac:(done) ltac:(done)
    DeploymentReadyCondition _ _ i' perr) in Hex
    as (i & trn & on & ib & x & _ & Hn & He & Hnot & -> & ->);
    [|done|apply dbReconcileNormal_patchless|by intros r []|intros j; apply dbInit_pending|done|done|done].
  do 2 apply Forall_cons in Henv as [_ Henv]. apply Forall_app in Henv as [Henv _].
  pose proof (dbInit_pending i) as Hi.
  assert (db_tracked ib) as [st Hst].
  { destruct (triple_exec _ _ _ _ _ _ _ _ _ dbReconcileNormal_tracked
      (db_pending_tracked _ _ Hi) Hn) as [_ Ho]; [by apply Forall_true|].
    destruct He as [-> | ->]; tauto. }
  destruct (decide (st = ConditionTrue)) as [->|]; [|by destruct Hnot; exists st].
  destruct (proj1 (wp_exec _ _) (dbReconcileNormal_ready _ _ Hi) _ _ Hn Henv ib x He Hst)
    as (stateful & items & Hobs & Hsts & Hitems & Haddr).
  exists i, stateful, items. split; [done|]. split; [|done].
  destruct Hobs as [(sts & t & Hname & Hns & H1) H2]. unfold services_asked in H2.
  split; [exists sts, t; split; [done|]; split; [done|]|unfold services_asked]; solve_in.
Qed.

Lemma sts_inputs_mono i sts tr tr' : tr ⊆ tr' → sts_inputs i sts tr → sts_inputs i sts tr'.
Proof.
  intros Hsub (nads & ann & vars & hash & last & topo & Hnad & Hann & Htls & Hhash & Htopo & Hs).
  exists nads, ann, vars, hash, last, topo.
  eauto 10 using nad_found_mono, tls_validated_mono, inputs_hashed_mono.
Qed.

(** C2. The StatefulSet of a database cluster is created or patched only for a managed
    resource, after the network attachment was found, the CA bundle and the certificates
    were validated, the config maps were generated with exactly the hashes of those secrets
    for variables, the variables that gave back were hashed, and the topology was obtained,
    in the same reconciliation; it is exactly the StatefulSet those answers determine. *)
Theorem db_workload_inputs {FL : FinalizerLaws L} req sts tr o :
  exec (OVNDBCluster_Reconcile req) tr o →
  guarded (λ t _, ∃ i, head t = Some (Ev (GetOVNDBCluster req) (Okay i)) ∧
             managed i ∧ sts_inputs i sts t) (creates_sts sts) tr.
Proof.
  apply (reconcile_guarded _ dbInitStatus (λ i, i) (λ _, false)); try done.
  - intros [R []]; cbn; tauto.
  - intros i Hi _. eapply wpM_mono; [|exact (dbReconcileNormal_workload sts (dbInitStatus i))].
    intros tr' o'; cbn beta. apply guarded_mono. intros t _ _ Ht. exists i. split; [done|]. split; [done|].
    apply (sts_inputs_same (dbInitStatus i)); [by split|].
    eapply sts_inputs_mono; [|exact Ht]. intros ev Hev. solve_in.
Qed.
End db_properties.
