(* ===== verification/Mounts.v ===== *)
(** * Pods that can start

    A pod starts when every volume its containers mount is there: a claim of the
    workload, a volume of the pod, and, for a volume made from a config map, a
    config map the reconciler generates. *)
From S2P Require Import Prelude K8s Lib DBManifests.

Section mounts.
Context {AT : ApiTypes} {CL : CondLib} {L : Lib}.

(** What a volume is made from exists, [cms] being the config maps that do; secrets
    and claims are not the operator's to make. *)
Definition source_ok (cms : list string) (v : Volume) : Prop :=
  match vol_Source v with ConfigMapVolume cm _ => cm ∈ cms | _ => True end.

Definition provided (cms claims : list string) (vols : list Volume) (m : VolumeMount) : Prop :=
  vm_Name m ∈ claims ∨ ∃ v, v ∈ vols ∧ vol_Name v = vm_Name m ∧ source_ok cms v.

Definition pod_provided (cms claims : list string) (p : PodSpec) : Prop :=
  Forall (λ c, Forall (provided cms claims (ps_Volumes p)) (c_VolumeMounts c))
    (ps_InitContainers p ++ ps_Containers p).

Lemma provided_claim cms claims vols m : vm_Name m ∈ claims → provided cms claims vols m.
Proof. by left. Qed.

Lemma provided_volume cms claims vols m v :
  v ∈ vols → vol_Name v = vm_Name m → source_ok cms v → provided cms claims vols m.
Proof. right. by exists v. Qed.

(** The volume, looked up by name. *)
Lemma provided_find cms claims vols m n v :
  list_find (λ v, vol_Name v = vm_Name m) vols = Some (n, v) → source_ok cms v →
  provided cms claims vols m.
Proof.
  intros (Hl & Hn & _)%list_find_Some Hv. right. exists v. split; [|done].
  by eapply list_elem_of_lookup_2.
Qed.

Lemma provided_ca {VL : VolumeLaws L} cms claims vols s :
  Ca_CreateVolume s ∈ vols → Forall (provided cms claims vols) (Ca_CreateVolumeMounts s).
Proof.
  intros Hin. rewrite Forall_forall. intros m Hm.
  apply (provided_volume _ _ _ _ _ Hin); [by rewrite (Ca_mounts _ _ Hm)|].
  unfold source_ok. by destruct (Ca_volume s) as (? & ? & ->).
Qed.

Lemma provided_tls {VL : VolumeLaws L} cms claims vols s id :
  tls_CreateVolume s id ∈ vols → Forall (provided cms claims vols) (tls_CreateVolumeMounts s id).
Proof.
  intros Hin. rewrite Forall_forall. intros m Hm.
  apply (provided_volume _ _ _ _ _ Hin); [by rewrite (tls_mounts _ _ _ Hm)|].
  unfold source_ok. by destruct (tls_volume s id) as (? & ? & ->).
Qed.

Lemma provided_if (b : bool) cms claims vols ms :
  (b = true → Forall (provided cms claims vols) ms) →
  Forall (provided cms claims vols) (if b then ms else []).
Proof. destruct b; [auto|intros _; apply Forall_nil_2]. Qed.

Lemma elem_of_if {A} (b : bool) (x : A) : b = true → x ∈ (if b then [x] else []).
Proof. intros ->. by apply list_elem_of_singleton. Qed.
End mounts.

(** Membership in a concatenation of optional parts. *)
Ltac in_parts :=
  repeat first
    [ solve [eauto using elem_of_if]
    | lazymatch goal with
      | |- _ ∨ _ => first [solve [left; in_parts] | right]
      | |- _ => first [rewrite elem_of_app | rewrite elem_of_cons]
      end ].

(** Go through the mounts of a container, part by part. *)
Ltac provide :=
  repeat first
    [ apply Forall_nil_2
    | apply Forall_app_intro
    | apply provided_if; intros ?
    | apply provided_ca; in_parts
    | apply provided_tls; in_parts
    | apply Forall_cons_2 ].

(** A mount of a volume with a literal name. *)
Ltac find_volume :=
  eapply provided_find; [reflexivity|first [exact Logic.I | cbn; set_solver]].
