(* ===== verification/DBManifestProofs.v ===== *)
(** * The objects of an OVN database cluster are well formed

    The StatefulSet mounts what it declares, carries the hash of its inputs in
    every container, and its claims are the ones the runtime configuration jobs
    mount. *)
From S2P Require Import Prelude Prog Triples K8s Lib Api ApiMethods Calls DBManifests.
From S2P Require Import DBController Mounts.
#[local] Open Scope go_scope.

Section manifests.
Context {AT : ApiTypes} {CL : CondLib} {L : Lib}.

(** ** The parts of the StatefulSet *)

Definition containers_of (sts : StatefulSetDef) : list Container :=
  ps_Containers (pt_Spec (sts_Template sts)).
Definition volumes_of (sts : StatefulSetDef) : list Volume :=
  ps_Volumes (pt_Spec (sts_Template sts)).

Definition sts_envVars (configHash : string) : gmap string Setter :=
  <["OVN_LOGDIR" := SetValue "/tmp"]>
  (<["OVN_RUNDIR" := SetValue "/etc/ovn"]> {["CONFIG_HASH" := SetValue configHash]}).

Definition tls_on (i : OVNDBCluster) : bool := tls_Enabled (db_TLS (db_Spec i)).
Definition ca_on (i : OVNDBCluster) : bool :=
  nonempty (tls_CaBundleSecretName (db_TLS (db_Spec i))).
Definition metrics_service (i : OVNDBCluster) : tlsService :=
  metricsCertService (db_MetricsTLS (db_Spec i)).

(** What the manifest is made of. *)
Lemma StatefulSet_parts {VL : VolumeLaws L} i hash labels annotations topology sts :
  StatefulSet i hash labels annotations topology = GOk sts →
  ∃ secret main,
    let sn := dbServiceName i in
    let name := om_Name (db_Meta i) in
    ps_InitContainers (pt_Spec (sts_Template sts)) = [] ∧
    (tls_on i = true → tls_SecretName (db_TLS (db_Spec i)) = Some secret) ∧
    containers_of sts =
      main :: (if db_metrics_on i then [metricsContainer i (sts_envVars hash)] else []) ∧
    c_Env main = MergeEnvs [] (sts_envVars hash) ∧
    c_VolumeMounts main =
      GetDBClusterVolumeMounts (name +:+ PVCSuffixEtcOVN) ++
      (if ca_on i then Ca_CreateVolumeMounts (db_TLS (db_Spec i)) else []) ++
      (if tls_on i then tls_CreateVolumeMounts (dbCertService secret) sn else []) ∧
    volumes_of sts =
      GetDBClusterVolumes name ++
      (if ca_on i then [Ca_CreateVolume (db_TLS (db_Spec i))] else []) ++
      (if tls_on i then [tls_CreateVolume (dbCertService secret) sn] else []) ++
      (if db_metrics_on i && tls_on i
       then [tls_CreateVolume (metrics_service i) "metrics-certs"] else []) ∧
    (∃ labels' storage, sts_VolumeClaimTemplates sts =
      [mkPVC (name +:+ PVCSuffixEtcOVN) (om_Namespace (db_Meta i)) labels' ["ReadWriteOnce"]
         (db_StorageClass (db_Spec i)) storage]) ∧
    sts_Replicas sts = db_Replicas (db_Spec i) ∧ sts_Name sts = sn ∧
    sts_Namespace sts = om_Namespace (db_Meta i).
Proof.
  unfold StatefulSet. destruct (ParseQuantity _) as [q|]; [|done].
  fold (tls_on i) (ca_on i) (metrics_service i).
  destruct (if tls_on i then _ else _) as [secret|] eqn:Hs; [|done]. intros [= <-].
  exists secret. unfold containers_of, volumes_of. cbn [sts_Template].
  eexists. split; [destruct topology; cbn; by rewrite ?ApplyTo_InitContainers|].
  split; [intros Ht; by rewrite Ht in Hs|].
  split; [|split; [|split; [|split; [|split; [by eexists _, _|done]]]]].
  - destruct topology; cbn; rewrite ?ApplyTo_Containers; cbn; destruct (db_metrics_on i); reflexivity.
  - reflexivity.
  - cbn. destruct (ca_on i), (tls_on i); by rewrite ?app_nil_r, <- ?app_assoc.
  - destruct topology; cbn; rewrite ?ApplyTo_Volumes; cbn;
      by destruct (ca_on i), (tls_on i), (db_metrics_on i).
Qed.

(** ** Volumes *)

(** Every volume mounted by a container of the database StatefulSet is a claim
    template, a secret or a config map of the reconciliation. *)
Theorem sts_mounts_provided {VL : VolumeLaws L} i hash labels annotations topology sts sn :
  StatefulSet i hash labels annotations topology = GOk sts →
  pod_provided (tpl_Name <$> dbServiceConfigMaps i sn)
    (pvc_Name <$> sts_VolumeClaimTemplates sts) (pt_Spec (sts_Template sts)).
Proof.
  intros Hsts. destruct (StatefulSet_parts _ _ _ _ _ _ Hsts)
    as (secret & main & Hi & _ & Hc & _ & Hm & Hv & (ls & q & Hpvc) & _).
  unfold containers_of, volumes_of in *. unfold pod_provided. rewrite Hi, Hc, Hv, Hpvc. cbn [app fmap].
  apply Forall_cons_2; [rewrite Hm|destruct (db_metrics_on i) eqn:Hon; provide].
  - unfold GetDBClusterVolumeMounts. provide.
    + eapply provided_volume; [by left|done|]. cbn. unfold dbServiceConfigMaps. cbn. set_solver.
    + apply provided_claim. by left.
  - unfold metricsContainer. cbn [c_VolumeMounts]. fold (tls_on i) (metrics_service i).
    destruct (tls_on i) eqn:Htls; provide;
      first [apply provided_claim; by left|
             eapply provided_volume; [by right; left|done|]].
    all: cbn; unfold dbServiceConfigMaps; rewrite Hon; cbn; set_solver.
Qed.

(** Every config map the database StatefulSet declares as a volume is generated
    exactly when metrics are on; without metrics the volume of the exporter's configuration
    is declared, unmounted, with no config map behind it. *)
Theorem sts_configmaps_generated {VL : VolumeLaws L} i hash labels annotations topology sts sn :
  StatefulSet i hash labels annotations topology = GOk sts →
  (∀ v cm mode, v ∈ volumes_of sts → vol_Source v = ConfigMapVolume cm mode →
     cm ∈ tpl_Name <$> dbServiceConfigMaps i sn) ↔ db_metrics_on i = true.
Proof.
  intros Hsts. destruct (StatefulSet_parts _ _ _ _ _ _ Hsts)
    as (secret & main & _ & _ & _ & _ & _ & Hv & _).
  rewrite Hv. unfold dbServiceConfigMaps. split.
  - intros Hall. specialize (Hall (mkVolume "config"
      (ConfigMapVolume (om_Name (db_Meta i) +:+ "-config") (Some scriptsVolumeDefaultMode)))
      _ _ ltac:(right; left) eq_refl).
    destruct (db_metrics_on i); [done|]. cbn in Hall.
    apply list_elem_of_singleton in Hall.
    exfalso. revert Hall. generalize (om_Name (db_Meta i)).
    intros n Heq. apply (f_equal String.length) in Heq. rewrite !string_app_length in Heq.
    cbn in Heq. lia.
  - intros -> v cm mode Hin Hsrc. rewrite !elem_of_app in Hin.
    destruct Hin as [Hin|[Hin|[Hin|Hin]]].
    + unfold GetDBClusterVolumes in Hin. rewrite !elem_of_cons, elem_of_nil in Hin. destruct Hin as [->|[->|[]]];
        injection Hsrc as <- _; [left|right; left].
    + destruct (ca_on i); [|by apply elem_of_nil in Hin].
      apply list_elem_of_singleton in Hin as ->.
      destruct (Ca_volume (db_TLS (db_Spec i))) as (? & ? & He). congruence.
    + destruct (tls_on i); [|by apply elem_of_nil in Hin].
      apply list_elem_of_singleton in Hin as ->.
      destruct (tls_volume (dbCertService secret) (dbServiceName i)) as (? & ? & He). congruence.
    + destruct (true && tls_on i); [|by apply elem_of_nil in Hin].
      apply list_elem_of_singleton in Hin as ->.
      destruct (tls_volume (metrics_service i) "metrics-certs") as (? & ? & He). congruence.
Qed.

(** ** The hash of the inputs *)

Lemma sts_envVars_hash hash : sts_envVars hash !! "CONFIG_HASH" = Some (SetValue hash).
Proof. unfold sts_envVars. rewrite !lookup_insert_ne by done. apply lookup_singleton_eq. Qed.

(** Every container of the database StatefulSet carries the input hash, and two
    different hashes give different pod templates. *)
Theorem sts_hash_restarts {VL : VolumeLaws L} {EL : EnvLaws L} i h1 h2 ls1 ls2 a1 a2 t1 t2 s1 s2 :
  StatefulSet i h1 ls1 a1 t1 = GOk s1 →
  StatefulSet i h2 ls2 a2 t2 = GOk s2 →
  (∀ c, c ∈ containers_of s1 → mkEnvVar "CONFIG_HASH" h1 None ∈ c_Env c) ∧
  (h1 ≠ h2 → sts_Template s1 ≠ sts_Template s2).
Proof.
  intros Hs1 Hs2.
  destruct (StatefulSet_parts _ _ _ _ _ _ Hs1) as (? & m1 & _ & _ & Hc1 & He1 & _).
  destruct (StatefulSet_parts _ _ _ _ _ _ Hs2) as (? & m2 & _ & _ & Hc2 & He2 & _).
  assert (mkEnvVar "CONFIG_HASH" h1 None ∈ c_Env m1) as Hm1.
  { rewrite He1. apply MergeEnvs_SetValue; [by apply not_elem_of_nil|apply sts_envVars_hash]. }
  split.
  - intros c. rewrite Hc1, elem_of_cons. intros [->|Hin]; [done|].
    destruct (db_metrics_on i); [|by apply elem_of_nil in Hin].
    apply list_elem_of_singleton in Hin as ->. unfold metricsContainer. cbn [c_Env].
    rewrite sts_envVars_hash. apply MergeEnvs_SetValue; [|by rewrite lookup_singleton_eq].
    cbn. by intros [|?%elem_of_nil]%elem_of_cons.
  - intros Hne Heq. unfold containers_of in *. rewrite Heq, Hc2 in Hc1.
    injection Hc1 as Hm _. rewrite <- Hm, He2 in Hm1.
    apply MergeEnvs_value with (k := "CONFIG_HASH") (v := h2) in Hm1;
      [congruence|done|apply sts_envVars_hash].
Qed.

(** ** Runtime configuration jobs *)

(** The runtime configuration jobs are one per pod that runs, in the order of the
    pods, with no other request than the clock's. *)
Theorem jobs_for_running_pods {S X} i pods labels ttl changed (s : S) tr
    (o : outcome (mres S X (list Job))) :
  exec (createConsolidatedConfigJobs i pods labels ttl changed s) tr o →
  configFlags changed ≠ [] →
  ∃ jobs, o = Done (Cont s jobs) ∧
    Forall2 (λ pod job, ∃ now, job = configJob i pod labels ttl now (configFlags changed))
      (filter (λ p, pod_available p = true) pods) jobs ∧
    Forall (λ ev, ∃ now, ev = Ev NowUnix now) tr.
Proof.
  intros Hex Hflags. revert tr o Hex. apply wp_exec.
  apply (wpM_foldM _ (λ dn jobs s' tr, s' = s ∧
    Forall2 (λ pod job, ∃ now, job = configJob i pod labels ttl now (configFlags changed))
      (filter (λ p, pod_available p = true) dn) jobs ∧
    Forall (λ ev, ∃ now, ev = Ev NowUnix now) tr)).
  - done.
  - intros dn pod rest jobs s' tr _ (-> & Hjobs & Htr).
    rewrite filter_app, filter_cons, filter_nil. cbn beta zeta.
    rewrite (bool_decide_eq_false_2 (configFlags changed = [])) by done.
    destruct (pod_available pod); cbn; case_decide; try done.
    + intros now. split; [done|]. split; [apply Forall2_app; [done|]|].
      * constructor; [by exists now|constructor].
      * apply Forall_app_intro; [done|]. constructor; [by exists now|constructor].
    + by rewrite !app_nil_r.
  - intros jobs s' tr (-> & Hjobs & Htr). by exists jobs.
Qed.

(** The runtime configuration job of a pod mounts the claim that the StatefulSet
    makes for that pod, in its namespace, on its node. *)
Theorem job_mounts_claim {VL : VolumeLaws L} i hash ls ann topo sts pod labels ttl now flags :
  StatefulSet i hash ls ann topo = GOk sts →
  ∃ template,
    sts_VolumeClaimTemplates sts = [template] ∧
    let job := configJob i pod labels ttl now flags in
    job_Namespace job = pvc_Namespace template ∧
    (∃ v, v ∈ ps_Volumes (job_Spec job) ∧
       vol_Source v = PVCVolume (pvc_Name template +:+ "-" +:+ pod_Name pod)) ∧
    ps_NodeName (job_Spec job) = pod_NodeName pod.
Proof.
  intros Hsts. destruct (StatefulSet_parts _ _ _ _ _ _ Hsts)
    as (? & ? & _ & _ & _ & _ & _ & _ & (ls' & q & Hpvc) & _).
  eexists. split; [exact Hpvc|]. cbn. split; [done|]. split; [|done].
  eexists. split; [left|]. cbn. by rewrite <- string_app_assoc.
Qed.
End manifests.
