(* ===== verification/DBPhases.v ===== *)
(** * What single phases of the OVNDBCluster reconciler do

    Scaling down, the runtime configuration and the address given to the data
    plane. *)
From S2P Require Import Prelude Prog Triples K8s Lib Api ApiMethods Calls Shared.
From S2P Require Import SharedProofs Client DBManifests DBController.
#[local] Open Scope go_scope.

Section phases.
Context {AT : ApiTypes} {CL : CondLib} {L : Lib}.

(** ** Scaling down *)

Lemma elem_of_downTo k from to : k ∈ downTo from to ↔ (to ≤ k < from)%Z.
Proof.
  unfold downTo. rewrite list_elem_of_fmap. setoid_rewrite elem_of_seq. split.
  - intros (n & -> & Hn). lia.
  - intros Hk. exists (Z.to_nat (from - 1 - k)). lia.
Qed.

Definition extraServiceName (sn : string) (k : Z) : string := sn +:+ "-" +:+ fmt_d k.
(** The request that deletes the service of the pod [k]. *)
Definition deletion (i : OVNDBCluster) (sn : string) (k : Z) : event Ext :=
  Ev (DeleteServicesWithLabel (ObjOVNDBCluster i) (podSelectorLabels sn (extraServiceName sn k)))
     None.

Definition deletion_of (ev : event Ext) : option (gmap string string * option error) :=
  match ev with Ev e r =>
    match e in Ext R return R → _ with
    | DeleteServicesWithLabel _ ls => λ r, Some (ls, r)
    | _ => λ _, None
    end r
  end.

Lemma deletion_inj i sn k1 k2 :
  AppSelector ≠ "statefulset.kubernetes.io/pod-name" →
  deletion i sn k1 = deletion i sn k2 → k1 = k2.
Proof.
  intros Hne Heq. apply (f_equal deletion_of) in Heq. apply (inj Some), (f_equal fst) in Heq. cbn in Heq.
  apply (f_equal (lookup "statefulset.kubernetes.io/pod-name")) in Heq.
  unfold podSelectorLabels in Heq. rewrite !lookup_insert_ne, !lookup_singleton_eq in Heq by done.
  injection Heq as Heq. unfold extraServiceName in Heq.
  apply fmt_d_inj. by do 2 apply (inj (String.app _)) in Heq.
Qed.

(** C13. A scale down of a database cluster that succeeds deletes exactly the services
    whose ordinal is at or above the replica count, and below the number of services found.
    *)
Theorem scale_down_exact sn labels i n tr i' :
  AppSelector ≠ "statefulset.kubernetes.io/pod-name" →
  db_Replicas (db_Spec i) = Some n →
  exec (deleteExtraServices sn labels i) tr (Done (Cont i' tt)) →
  ∃ r, head tr = Some (Ev (GetServicesListWithLabel (om_Namespace (db_Meta i))
                 (MergeMaps labels {["type" := ServiceClusterType]})) r) ∧
    ∀ k, deletion i sn k ∈ tr ↔
      ∃ items, r = Okay items ∧ (n ≤ k < Z.of_nat (length items))%Z.
Proof.
  intros Hne Hn. set (o := Done (Cont i' tt)).
  enough (wpM (deleteExtraServices sn labels) i (λ tr o', o' = o →
    ∃ r, head tr = Some (Ev (GetServicesListWithLabel (om_Namespace (db_Meta i))
                 (MergeMaps labels {["type" := ServiceClusterType]})) r) ∧
      tail tr = match r with
                | Okay items => deletion i sn <$> downTo (Z.of_nat (length items)) n
                | Fail _ => [] end)) as Hall.
  { intros Hex. destruct (proj1 (wp_exec _ _) Hall _ _ Hex eq_refl) as (r & Hhd & Htl). exists r. split; [done|].
    destruct tr as [|ev tr]; [done|]. injection Hhd as ->. cbn in Htl. subst tr.
    intros k. rewrite elem_of_cons. destruct r as [items|err].
    - rewrite list_elem_of_fmap. setoid_rewrite elem_of_downTo. split.
      + intros [Heq|(k' & ->%deletion_inj & Hk)]; [|by exists items|done].
        by apply (f_equal deletion_of) in Heq.
      + intros (its & [= <-] & Hk). right. by exists k.
    - split; [|by intros (its & ? & _)].
      intros [Heq|[]%elem_of_nil]. by apply (f_equal deletion_of) in Heq. }
  unfold deleteExtraServices. apply wpM_bind. cbn [wpM get wp app].
  apply wpM_bind. cbn [wpM call wp]. intros r. cbn [app].
  destruct r as [items|err]; [|intros _; eexists; by split].
  rewrite Hn. apply wpM_bind. cbn [wpM deref ret wp].
  apply (wpM_foldM _ (λ dn _ s tr, s = i ∧ tr = deletion i sn <$> dn)).
  - done.
  - intros dn k rest [] s tr' _ (-> & ->). repeat wp_step; cbn; [by unfold o|].
    by rewrite fmap_app.
  - intros [] s tr' (-> & ->) _. eexists. by split.
Qed.

(** ** Runtime configuration *)

(** The runtime settings of the object are the ones last submitted. *)
Definition runtime_recorded (h : string) (spec : OVNDBClusterSpec) (i : OVNDBCluster) : Prop :=
  hashAt (dbs_Hash (db_Status i)) runtimeConfigHashKey = h ∧ db_Spec i = spec.

Lemma runtime_rest_records h spec sn labels changed :
  triple (λ _, True) (λ _, True) True (runtime_recorded h spec)
    (let! err := ensureRuntimeConfigMap sn in
     match err with
     | Some e => return_ (Some e)
     | None =>
         let! instance := get in
         let! jobsDef := fn (RuntimeConfigJobs instance labels sn changed) in
         match jobsDef with
         | Fail e => return_ (Some e)
         | Okay jobs => do! submitConfigJobs h jobs; ret None
         end
     end : Go OVNDBCluster (option error) (option error)) (λ _, True).
Proof. triples fail with idtac. Qed.

(** C24. The hash of the runtime settings is stored before the jobs run: the next
    reconciliation with the same settings submits nothing and reports success, whatever
    became of the jobs. *)
Theorem runtime_config_once labels sn i tr o i' x h tr' o' :
  ObjectHash (MergeEnvs [] (runtimeEnvVars i)) = Okay h →
  exec (reconcileRuntimeConfig labels sn i) tr o → ended i' x o →
  exec (reconcileRuntimeConfig labels sn i') tr' o' →
  tr' = [] ∧ ended i' None o'.
Proof.
  intros Hh Hex He Hex'.
  assert (runtime_recorded h (db_Spec i) i') as [Hrec Hspec].
  { enough (wpM (reconcileRuntimeConfig labels sn) i (λ _ o, ∀ i' x, ended i' x o →
      runtime_recorded h (db_Spec i) i')) as Hall
      by exact (proj1 (wp_exec _ _) Hall _ _ Hex _ _ He).
    clear i' x He Hex Hex'. unfold reconcileRuntimeConfig. apply wpM_bind. cbn [wpM get wp app].
    rewrite Hh. case_bool_decide as Hcur.
    { cbn. intros i' x [[=]|[=]]. by subst. }
    apply wpM_bind. destruct (dbs_Hash (db_Status i)) as [m|]; cbn [deref wpM panic ret wp];
      [|by intros ? ? [|]].
    apply wpM_bind. cbn [wpM modify wp app].
    assert (runtime_recorded h (db_Spec i)
      (db_set_Hash (Some (<[runtimeConfigHashKey := h]> m)) i)) as Hr.
    { split; [|done]. unfold hashAt. cbn. by rewrite lookup_insert_eq. }
    eapply wpM_mono; [|exact (runtime_rest_records h (db_Spec i) sn labels _ _ Hr)].
    intros tr1 o1 Ho i' x He. destruct (Ho ltac:(by apply Forall_true)) as [_ Hi].
    destruct He as [-> | ->]; tauto. }
  revert tr' o' Hex'. apply wp_exec. unfold reconcileRuntimeConfig. apply wpM_bind.
  cbn [wpM get wp app]. unfold runtimeEnvVars in *. rewrite Hspec, Hh, Hrec.
  rewrite bool_decide_eq_true_2 by done. cbn. split; [done|]. by left.
Qed.

(** ** The address given to the data plane *)

(** The event publishes [param] as the remote of the data plane nodes. *)
Definition publishes (ev : event Ext) (param : TemplateParam) : Prop :=
  match ev with Ev e _ =>
    match e with
    | EnsureConfigMaps _ cms _ => ∃ t, t ∈ cms ∧ tpl_ConfigOptions t !! "OVNRemote" = Some param
    | _ => False
    end
  end.

Definition exposed (i : OVNDBCluster) : bool :=
  isSB i && (nonempty (db_NetworkAttachment (db_Spec i)) ||
             bool_decide (is_Some (db_Override_Service (db_Spec i)))).

(** What a published address may be, for a cluster that is exposed or not. *)
Definition address_ok (b : bool) (ev : event Ext) : Prop :=
  ∀ param, publishes ev param → b = true ∧ ∃ a, param = PString a ∧ a ≠ "".

(** What exposes the cluster [j] is as it was. *)
Definition stays_exposed (j i : OVNDBCluster) : Prop :=
  isSB i = isSB j ∧
  db_NetworkAttachment (db_Spec i) = db_NetworkAttachment (db_Spec j) ∧
  (is_Some (db_Override_Service (db_Spec i)) ↔ is_Some (db_Override_Service (db_Spec j))).

Lemma stays_exposed_eq i j : stays_exposed j i → exposed i = exposed j.
Proof.
  intros (Hsb & Hna & Hov). unfold exposed. rewrite Hsb, Hna. f_equal. f_equal.
  by apply bool_decide_ext.
Qed.

Lemma stays_exposed_override j k i :
  stays_exposed j k → stays_exposed j i →
  stays_exposed j (db_set_Override_Service
                     (normalizeOverride <$> db_Override_Service (db_Spec k)) i).
Proof.
  intros (_ & _ & Hk) (Hsb & Hna & _). split; [exact Hsb|]. split; [exact Hna|].
  rewrite <- Hk. cbn. by rewrite fmap_is_Some.
Qed.

Lemma stays_exposed_rbac j cs i :
  stays_exposed j i → stays_exposed j (foldl (λ i c, OVNDBCluster_RbacConditionsSet c i) i cs).
Proof. revert i. induction cs as [|c cs IH]; intros i Hi; [done|]. by apply IH. Qed.

Lemma no_remote t (cms : list Template) param :
  (∀ t, t ∈ cms → tpl_ConfigOptions t !! "OVNRemote" = None) →
  ¬ (t ∈ cms ∧ tpl_ConfigOptions t !! "OVNRemote" = Some param).
Proof. intros Hall [Hin Heq]. rewrite (Hall t Hin) in Heq. done. Qed.

Lemma service_maps_quiet b o i sn vars r :
  address_ok b (Ev (EnsureConfigMaps o (dbServiceConfigMaps i sn) vars) r).
Proof.
  intros param (t & Ht). exfalso. revert Ht. apply no_remote. clear t. intros t.
  unfold dbServiceConfigMaps. rewrite elem_of_app, list_elem_of_singleton.
  assert (dbTemplateParameters i sn !! "OVNRemote" = None) as Hp.
  { unfold dbTemplateParameters. rewrite !lookup_insert_ne by done.
    by rewrite lookup_singleton_ne. }
  intros [->|Hin]; [done|]. destruct (db_metrics_on i); [|by apply elem_of_nil in Hin].
  by apply list_elem_of_singleton in Hin as ->.
Qed.

Lemma runtime_map_quiet b o i sn vars r :
  address_ok b (Ev (EnsureConfigMaps o [runtimeConfigMap i sn] vars) r).
Proof.
  intros param (t & Ht). exfalso. revert Ht. apply no_remote. clear t.
  intros t ->%list_elem_of_singleton. cbn. rewrite !lookup_insert_ne by done.
  by rewrite lookup_singleton_ne.
Qed.

(** The external endpoint of an exposed cluster is not empty. *)
Lemma external_endpoint_nonempty i a :
  exposed i = true → GetExternalEndpoint i = Okay a → a ≠ "".
Proof.
  unfold exposed, GetExternalEndpoint. intros [_ He]%andb_true_iff. rewrite He. cbn.
  destruct (bool_decide_reflect (dbs_DBAddress (db_Status i) = "")); [done|]. intros [= <-]. done.
Qed.

Lemma external_map_ok j sn :
  triple (λ _, True) (address_ok (exposed j)) True
    (λ i, stays_exposed j i ∧ exposed j = true) (generateExternalConfigMaps sn) (λ _, True).
Proof.
  unfold generateExternalConfigMaps. eapply triple_bind; [apply triple_get|]. intros i [Hi Hj].
  rewrite Hj. destruct (GetExternalEndpoint i) as [a|err] eqn:Ha; [|by apply triple_return].
  apply external_endpoint_nonempty in Ha; [|by rewrite (stays_exposed_eq _ _ Hi)].
  apply (triple_bind _ _ _ _ _ _ (λ _, True)); [triples fail with (intros ? []; done)|].
  intros [oc|err] _; [|by apply triple_return].
  eapply (triple_bind _ _ _ _ _ _ (λ _, True)); [|intros r _; by apply triple_ret].
  apply triple_call. intros r _. split; [|done].
  intros param (t & ->%list_elem_of_singleton & Ht). split; [done|]. cbn in Ht. exists a.
  destruct oc; cbn in Ht; rewrite ?lookup_insert_ne, lookup_singleton_eq in Ht by done;
    by simplify_eq.
Qed.

Lemma dbExternalConfig_addresses j sn :
  triple (λ _, True) (address_ok (exposed j)) True (stays_exposed j) (dbExternalConfig sn)
    (λ _, True).
Proof.
  unfold dbExternalConfig. eapply triple_bind; [apply triple_get|]. intros i Hi.
  fold (exposed i). destruct (exposed i) eqn:He; [|by apply triple_ret].
  rewrite (stays_exposed_eq _ _ Hi) in He.
  apply (triple_bind _ _ _ _ _ _ (λ _, True)).
  - apply triple_fn; [done|]. intros k Hk. eapply wpM_mono; [|by apply external_map_ok].
    intros tr [[|]|] Htr Henv; specialize (Htr Henv); tauto.
  - intros [e|] _; triples fail with idtac.
Qed.

Lemma dbReconcileNormal_addresses j :
  triple (λ _, True) (address_ok (exposed j)) True (stays_exposed j) dbReconcileNormal (λ _, True).
Proof.
  triples (apply dbExternalConfig_addresses) with (first
    [ exact Logic.I | by apply stays_exposed_rbac | apply service_maps_quiet
    | apply runtime_map_quiet | by apply stays_exposed_override ]).
Qed.

Lemma dbReconcileBody_addresses j :
  triple (λ _, True) (address_ok (exposed j)) True (stays_exposed j)
    (reconcileBody false (λ i, i) dbReconcileNormal) (λ _, True).
Proof.
  unfold reconcileBody.
  triples (apply triple_fn; [done|apply dbReconcileNormal_addresses]) with (exact Logic.I).
Qed.

(** C14. Data plane nodes are given an SB address only by an SB cluster that is exposed,
    and never an empty one. *)
Theorem external_address_published req tr o j ev param :
  exec (OVNDBCluster_Reconcile req) tr o →
  head tr = Some (Ev (GetOVNDBCluster req) (Okay j)) →
  ev ∈ tr → publishes ev param →
  exposed j = true ∧ ∃ a, param = PString a ∧ a ≠ "".
Proof.
  intros Hex Hj Hev Hpub.
  assert (∀ tr ob, exec (reconcileBody false (λ i, i) dbReconcileNormal (dbInitStatus j)) tr ob →
    Forall (address_ok (exposed j)) tr) as Hbody.
  { intros tr' ob Hb. assert (stays_exposed j (dbInitStatus j)) as Hj' by done.
    by apply (triple_exec _ _ _ _ _ _ _ _ _ (dbReconcileBody_addresses j) Hj' Hb), Forall_true. }
  enough (Forall (address_ok (exposed j)) tr) as Hall
    by (rewrite Forall_forall in Hall; by apply (Hall ev Hev)).
  destruct (reconcile_runs _ _ _ _ _ Hex) as [err|i err|i tr' Hb|i tr' ib x ob perr Hb He];
    apply (f_equal (fmap fetched)) in Hj; cbn in Hj; try done; simplify_eq.
  all: repeat (apply Forall_cons_2; [by intros ? []|]); eauto using Forall_nil_2.
  apply Forall_app_intro; [eauto|]. repeat (apply Forall_cons_2; [by intros ? []|]).
  apply Forall_nil_2.
Qed.
End phases.
