(* ===== verification/DBSafety.v ===== *)
(** * The OVNDBCluster reconciler does not panic

    Every nil dereference and index of the reconciler is in bounds when the
    answers of the API server respect the schema: a cluster has a replica count
    (the CRD gives a default and a minimum of 0), and a service has ports. *)
From S2P Require Import Prelude Prog Triples K8s Lib Api ApiMethods Calls Shared.
From S2P Require Import SharedProofs Client DBManifests DBController.
#[local] Open Scope go_scope.

Section db_safety.
Context {AT : ApiTypes} {CL : CondLib} {L : Lib} {TL : TlsLaws L}.

(** What the schema says of an answer. *)
Definition has_ports (s : ServiceSpec) : Prop := ss_Ports s ≠ [].
Definition has_replicas (i : OVNDBCluster) : Prop :=
  ∃ n, db_Replicas (db_Spec i) = Some n ∧ (0 ≤ n)%Z.
Definition schema_ok (ev : event Ext) : Prop :=
  match ev with Ev e r =>
    match e in Ext R return R → Prop with
    | GetOVNDBCluster _ => λ r, ∀ i, r = Okay i → has_replicas i
    | GetServiceWithName _ _ => λ r, ∀ s, r.1 = Some s → has_ports (svc_Spec s)
    | GetServicesListWithLabel _ _ =>
        λ r, ∀ l, r = Okay l → Forall (λ s, has_ports (svc_Spec s)) l
    | ServiceCreateOrPatch _ _ => λ r, ∀ s, GetSpec r.2 = Some s → has_ports s
    | _ => λ _, True
    end r
  end.

(** The object while it is reconciled: its replicas, and a hash map to write to. *)
Definition db_sane (i : OVNDBCluster) : Prop :=
  has_replicas i ∧ is_Some (dbs_Hash (db_Status i)).

Definition safe {X A} (m : Go OVNDBCluster X A) (R : A → Prop) : Prop :=
  triple schema_ok (λ _, True) False db_sane m R.

Lemma StatefulSet_no_panic i hash ls ann topo : StatefulSet i hash ls ann topo ≠ GPanic.
Proof.
  unfold StatefulSet. destruct (ParseQuantity _); [|done].
  destruct (tls_Enabled (db_TLS (db_Spec i))) eqn:Htls; [|done].
  destruct (Enabled_SecretName _ Htls) as [n ->]. done.
Qed.

Lemma lift_sts_safe {X} i hash ls ann topo :
  safe (X := X) (lift_go (StatefulSet i hash ls ann topo)) (λ _, True).
Proof.
  unfold lift_go, safe. destruct (StatefulSet i hash ls ann topo) eqn:Hs;
    [by apply triple_ret..|]. by apply StatefulSet_no_panic in Hs.
Qed.


Lemma db_sane_rbac cs i :
  db_sane i → db_sane (foldl (λ i c, OVNDBCluster_RbacConditionsSet c i) i cs).
Proof. revert i. induction cs as [|c cs IH]; intros i Hi; [done|]. by apply IH. Qed.

Lemma db_sane_hash h i : db_sane i → db_sane (db_set_Hash (Some h) i).
Proof. intros [Hr _]. split; [exact Hr|by eexists]. Qed.

Lemma db_sane_replicas {i n} : db_sane i → db_Replicas (db_Spec i) = Some n → (0 ≤ n)%Z.
Proof. intros [(m & -> & Hm) _] [= <-]. done. Qed.

Lemma deref_replicas_safe {X} i :
  db_sane i → safe (X := X) (deref (db_Replicas (db_Spec i))) (λ n, 0 ≤ n)%Z.
Proof.
  intros Hi. apply triple_deref; [intros n; by apply db_sane_replicas|].
  destruct Hi as [(n & -> & _) _]. done.
Qed.

Lemma deref_hash_safe {X} i :
  db_sane i → safe (X := X) (deref (dbs_Hash (db_Status i))) (λ _, True).
Proof. intros [_ [h ->]]. by apply triple_ret. Qed.

Definition spec_ports (h : SvcHandle) : Prop := ∀ s, GetSpec h = Some s → has_ports s.

Lemma createService_safe h : safe (createService h) spec_ports.
Proof.
  unfold safe, createService.
  apply (triple_bind _ _ _ _ _ _ (λ r, spec_ports r.2)).
  { apply triple_call. intros r Hr. split; [done|]. exact Hr. }
  intros [[ctrlResult [err|]] h'] Hr; [by apply triple_return|]. triples fail with idtac.
Qed.

Lemma externalDNS_safe sn labels pods :
  safe (externalDNS sn labels pods) (λ o, ∀ s, o = Some s → has_ports (svc_Spec s)).
Proof.
  unfold safe, externalDNS. eapply triple_bind; [apply triple_get|]. intros i Hi.
  eapply triple_bind; [by apply deref_replicas_safe|]. intros n Hn. cbv beta in Hn.
  case_bool_decide; [lia|].
  apply (triple_bind _ _ _ _ _ _ (λ acc, ∀ s, acc.1 = Some s → has_ports (svc_Spec s))).
  - apply triple_foldM; [done|]. intros acc p Hacc _.
    apply (triple_bind _ _ _ _ _ _ (λ r, ∀ s, r.1 = Some s → has_ports (svc_Spec s))).
    { apply triple_call. intros r Hr. split; [done|]. exact Hr. }
    intros [svc [err|]] Hr; [by apply triple_return|].
    triples fail with idtac.
  - intros [svc ips] Hsvc. triples fail with idtac.
Qed.

Lemma setDBAddress_safe s sn : has_ports s → safe (setDBAddress (Some s) sn) (λ _, True).
Proof.
  intros Hs. unfold safe, setDBAddress, GetDBAddress, has_ports in *.
  destruct (ss_Ports s) as [|p ps]; [done|]. triples fail with idtac.
Qed.

Lemma setDBAddress_handle_safe h sn :
  spec_ports h → safe (setDBAddress (GetSpec h) sn) (λ _, True).
Proof.
  intros Hh. destruct (GetSpec h) as [s|] eqn:Hs; [apply setDBAddress_safe; auto|].
  unfold safe, setDBAddress. triples fail with idtac. 
Qed.

Lemma dbServiceList_safe labels :
  safe (dbServiceList labels) (Forall (λ s, has_ports (svc_Spec s))).
Proof.
  unfold safe, dbServiceList. eapply triple_bind; [apply triple_get|]. intros i Hi.
  apply (triple_bind _ _ _ _ _ _
    (λ r, ∀ l, r = Okay l → Forall (λ s, has_ports (svc_Spec s)) l)).
  { apply triple_call. intros r Hr. split; [done|]. exact Hr. }
  intros [l|err] Hr; [apply triple_ret; auto|]. triples fail with idtac.
Qed.

Lemma internalDbAddresses_safe scheme items :
  Forall (λ s, has_ports (svc_Spec s)) items →
  safe (internalDbAddresses scheme items) (λ _, True).
Proof.
  rewrite Forall_forall. intros Hp. unfold safe, internalDbAddresses.
  apply triple_foldM; [done|]. intros acc svc _ Hin. specialize (Hp svc Hin).
  unfold has_ports in Hp. destruct (ss_Ports (svc_Spec svc)); [done|]. triples fail with idtac.
Qed.

Lemma dns_safe (b : bool) sn labels pods :
  safe (if b then externalDNS sn labels pods else do! deleteDNS sn; ret None)
    (λ o, ∀ s, o = Some s → has_ports (svc_Spec s)).
Proof. destruct b; [apply externalDNS_safe|]. unfold safe. triples fail with idtac. Qed.

Ltac safe_known := idtac;
  lazymatch goal with
  | |- triple _ _ _ _ (lift_go (StatefulSet _ _ _ _ _)) _ => apply lift_sts_safe
  | |- triple _ _ _ _ (bind (deref (db_Replicas _)) _) _ =>
      eapply triple_bind; [apply deref_replicas_safe; assumption|intros ? ?]
  | |- triple _ _ _ _ (deref (dbs_Hash _)) _ => apply deref_hash_safe; assumption
  | |- triple _ _ _ _ (bind (createService _) _) _ =>
      eapply triple_bind; [apply createService_safe|intros ? ?]
  | |- triple _ _ _ _ (setDBAddress (GetSpec _) _) _ => apply setDBAddress_handle_safe; assumption
  | |- triple _ _ _ _ (setDBAddress (Some _) _) _ => apply setDBAddress_safe; eauto
  | |- triple _ _ _ _ (bind (match _ with true => externalDNS _ _ _ | false => _ end) _) _ =>
      eapply triple_bind; [apply dns_safe|intros ? ?]
  | |- triple _ _ _ _ (bind (dbServiceList _) _) _ =>
      eapply triple_bind; [apply dbServiceList_safe|intros ? ?]
  | |- triple _ _ _ _ (internalDbAddresses _ _) _ => apply internalDbAddresses_safe; assumption
  end.

Lemma dbReconcileNormal_safe : safe dbReconcileNormal (λ _, True).
Proof.
  unfold safe. triples safe_known with (first [exact Logic.I | by apply db_sane_rbac
    | by apply db_sane_hash]).
Qed.

Lemma dbReconcileBody_safe :
  safe (reconcileBody false (λ i, i) dbReconcileNormal) (λ _, True).
Proof.
  unfold safe, reconcileBody.
  triples (apply triple_fn; [done|apply dbReconcileNormal_safe]) with (exact Logic.I).
Qed.

(** C15. The OVNDBCluster reconciler never panics when the answers of the API server
    respect the schema. *)
Theorem db_no_panic req tr o :
  exec (OVNDBCluster_Reconcile req) tr o → Forall schema_ok tr → o ≠ Panicked.
Proof.
  intros Hex Henv ->. apply reconcile_runs in Hex.
  inversion Hex as [| |i tr' Hb Htr|]; subst.
  apply Forall_cons in Henv as [Hi [_ Henv]%Forall_cons].
  assert (db_sane (dbInitStatus i)) as Hs by (split; [exact (Hi i eq_refl)|by eexists]).
  by destruct (triple_exec _ _ _ _ _ _ _ _ _ dbReconcileBody_safe Hs Hb Henv).
Qed.
End db_safety.
