(* ===== verification/NorthdProofs.v ===== *)
(** * What the OVNNorthd reconciler guarantees

    The StatefulSet is created from checked inputs, a ready status is an observed
    one, the Deployment of earlier releases goes only after the StatefulSet serves,
    and the metrics services are those of the replicas. *)
From S2P Require Import Prelude Prog Triples K8s Lib Api ApiMethods Calls Shared.
From S2P Require Import SharedProofs Client DBManifests DBController DBProofs.
From S2P Require Import NorthdManifests NorthdController.
#[local] Open Scope go_scope.

Section northd_proofs.
Context {AT : ApiTypes} {CL : CondLib} {L : Lib}.

(** The resource [i] with another status. *)
Definition nd_at (i i' : OVNNorthd) : Prop :=
  ∃ st, i' = mkOVNNorthd (nd_Kind i) (nd_Meta i) (nd_Spec i) st.

Lemma nd_at_refl i : nd_at i i.
Proof. exists (nd_Status i). by destruct i. Qed.

Lemma nd_at_rbac i cs i' :
  nd_at i i' → nd_at i (foldl (λ i c, OVNNorthd_RbacConditionsSet c i) i' cs).
Proof.
  revert i'. induction cs as [|c cs IH]; intros i' Hi; [done|]. apply IH.
  destruct Hi as [st ->]. by eexists.
Qed.

Lemma nd_at_upd f i i' : nd_at i i' → nd_at i (nd_upd_Status f i').
Proof. intros [st ->]. by eexists. Qed.

(** ** The inputs of the StatefulSet *)

(** The address of the first cluster listed of type [t], published in its status. *)
Definition endpoint_found (i : OVNNorthd) (t a : string) (tr : list (event Ext)) : Prop :=
  ∃ items n c, Ev (ListOVNDBClusters (om_Namespace (nd_Meta i)) ∅) (Okay items) ∈ tr ∧
    list_find (λ c, db_DBType (db_Spec c) = t) items = Some (n, c) ∧
    dbs_InternalDBAddress (db_Status c) = a ∧ a ≠ "".

Definition nd_inputs_hashed (i : OVNNorthd) (vars vars' : gmap string Setter) (hash : string)
    (tr : list (event Ext)) : Prop :=
  ∃ j, nd_at i j ∧
    Ev (EnsureConfigMaps (ObjOVNNorthd j) (ndServiceConfigMaps i ServiceNameOVNNorthd)
          (Some vars)) (vars', None) ∈ tr ∧
    ObjectHash (MergeEnvs [] vars') = Okay hash.

Definition nd_labels : gmap string string := {[AppSelector := ServiceNameOVNNorthd]}.

(** Every input of the StatefulSet [sts] of [i] has been checked in [tr], and [sts]
    is the one the answers determine. *)
Definition nd_sts_inputs (i : OVNNorthd) (sts : StatefulSetDef) (tr : list (event Ext)) : Prop :=
  ∃ nb sb vars vars' hash last topology,
    endpoint_found i NBDBType nb tr ∧
    endpoint_found i SBDBType sb tr ∧
    tls_validated i vars tr ∧
    nd_inputs_hashed i vars vars' hash tr ∧
    Ev (EnsureServiceTopology (nd_TopologyRef (nd_Spec i)) last (om_Name (nd_Meta i))
          (GetLabelSelector nd_labels)) (Okay topology) ∈ tr ∧
    nd_StatefulSet i nd_labels nb sb (<["CONFIG_HASH" := SetValue hash]> vars') topology
      = GOk sts.

Lemma ndRbac_spec i0 i :
  nd_at i0 i →
  quietly is_workload (reconcileRbac OVNNorthd_RbacConditionsSet dbRbacRules) i
    (λ tr i' _, nd_at i0 i').
Proof.
  intros Hi. unfold quietly, reconcileRbac, returnUnlessDone. repeat wp_step.
  all: cbn; split; [solve_quiet|try done]. by apply nd_at_rbac.
Qed.

Lemma ndEndpoint_spec t i0 i :
  nd_at i0 i →
  quietly is_workload (ndEndpoint t) i (λ tr i' a, nd_at i0 i' ∧ endpoint_found i0 t a tr).
Proof.
  intros Hi. unfold quietly, ndEndpoint, getInternalEndpoint, GetDBClusterByType, getDBClusters,
    GetInternalEndpoint.
  repeat wp_step; simplify_eq. all: cbn; split; [solve_quiet|try done].
  all: repeat (case_bool_decide || simplify_eq/=). split; [done|].
  destruct Hi as [st ->]. cbn in *.
  eexists _, _, _. split; [solve_in|]. split; [eassumption|]. done.
Qed.

Lemma ndTLSInputs_spec i0 i :
  nd_at i0 i →
  quietly is_workload ndTLSInputs i (λ tr i' vars, nd_at i0 i' ∧ tls_validated i0 vars tr).
Proof.
  intros [st ->]. unfold ndTLSInputs. eapply quietly_bind.
  { eapply quietly_weaken; [|apply validateTLS_spec]. intros [R []]; cbn; tauto. }
  cbn. intros tr i' vars [-> Htls]. split; [solve_quiet|]. split; [by eexists|].
  by rewrite app_nil_r.
Qed.

Lemma ndServiceConfig_spec vars i0 i :
  nd_at i0 i →
  quietly is_workload (ndServiceConfig vars) i (λ tr i' envVars, nd_at i0 i' ∧
    ∃ vars' hash, envVars = <["CONFIG_HASH" := SetValue hash]> vars' ∧
      nd_inputs_hashed i0 vars vars' hash tr).
Proof.
  intros [st ->]. unfold quietly, ndServiceConfig, ndGenerateServiceConfigMaps, storeHash,
    ndServiceConfigError, ndConditionError, markTrue, setCond, nd_inputs_hashed.
  repeat wp_step. all: cbn; split; [solve_quiet|try done].
  all: split; [by eexists|]; eexists _, _; split; [done|].
  all: eexists; split; [|split; [solve_in|done]]; by eexists.
Qed.

Lemma ndTopology_spec labels i0 i :
  nd_at i0 i →
  quietly is_workload (ndTopology labels) i (λ tr i' topology, nd_at i0 i' ∧
    ∃ last, Ev (EnsureServiceTopology (nd_TopologyRef (nd_Spec i0)) last (om_Name (nd_Meta i0))
          (GetLabelSelector labels)) (Okay topology) ∈ tr).
Proof.
  intros [st ->]. unfold quietly, ndTopology, ensureTopology, ndConditionError, markTrue, setCond,
    updConds.
  repeat wp_step; simplify_eq/=. all: cbn; split; [solve_quiet|try done].
  all: split; [by eexists|]; eexists; change (nd_TopologyRef (nd_Spec i0))
    with (OVNNorthd_GetSpecTopologyRef i0);
    change (OVNNorthd_GetSpecTopologyRef i0) with (nd_TopologyRef (nd_Spec i0)) in *.
  all: unfold OVNNorthd_GetSpecTopologyRef in *; cbn in *; rewrite ?Heqo; solve_in.
Qed.

(** ** The workload *)

Lemma ndWorkload_guarded sts nb sb vars labels topology i0 i G :
  nd_at i0 i →
  (nd_StatefulSet i0 labels nb sb vars topology = GOk sts → G []) →
  wpM (ndWorkload nb sb vars labels topology) i (λ tr o,
    match o with
    | Done (Cont _ _) => ∃ ev, tr = [ev] ∧ (creates_sts sts ev → G [])
    | _ => guarded (λ t _, G t) (creates_sts sts) tr
    end).
Proof.
  intros [st ->] HG. unfold ndWorkload, lift_go, ndDeploymentRunning, ndConditionError, setCond.
  change (nd_StatefulSet i0) with (nd_StatefulSet (mkOVNNorthd (nd_Kind i0) (nd_Meta i0) (nd_Spec i0) st)) in HG.
  repeat wp_step; cbn; try apply guarded_nil; simplify_eq.
  all: try (apply guarded_cons_quiet; [|solve_quiet]).
  all: try (eexists; split; [done|]); cbn; intros ->; auto.
Qed.

Lemma nd_after_workload sts stateful labels :
  triple (λ _, True) (λ ev, ¬ creates_sts sts ev) True (λ _, True)
    (do! ndMigrate stateful;
     do! ndDeploymentStatus stateful;
     ndMetrics labels) (λ _, True).
Proof. triples fail with (try (cbn; tauto)). Qed.

Lemma endpoint_found_mono i t a tr tr' :
  tr ⊆ tr' → endpoint_found i t a tr → endpoint_found i t a tr'.
Proof. intros Hsub (items & n & c & Hin & ?). exists items, n, c. auto. Qed.

Lemma nd_inputs_hashed_mono i vars vars' hash tr tr' :
  tr ⊆ tr' → nd_inputs_hashed i vars vars' hash tr → nd_inputs_hashed i vars vars' hash tr'.
Proof. intros Hsub (j & Hj & Hin & Hh). exists j. auto. Qed.

Lemma nd_sts_inputs_mono i sts tr tr' :
  tr ⊆ tr' → nd_sts_inputs i sts tr → nd_sts_inputs i sts tr'.
Proof.
  intros Hsub (nb & sb & vars & vars' & hash & last & topo & H1 & H2 & H3 & H4 & H5 & H6).
  exists nb, sb, vars, vars', hash, last, topo.
  split; [by eapply endpoint_found_mono|]. split; [by eapply endpoint_found_mono|].
  split; [by eapply tls_validated_mono|]. split; [by eapply nd_inputs_hashed_mono|].
  split; [by apply Hsub|done].
Qed.

Lemma ndReconcileNormal_workload sts i0 i :
  nd_at i0 i →
  wpM ndReconcileNormal i (λ tr _, guarded (λ t _, nd_sts_inputs i0 sts t) (creates_sts sts) tr).
Proof.
Ltac phase H :=
    eapply guarded_bind;
      [eapply quietly_weaken; [apply creates_sts_workload|eapply H; eassumption]|cbn beta].
Ltac quiet_phase i0 :=
    eapply guarded_bind with (Q := λ _ i' _, nd_at i0 i'); [split; [solve_quiet|done]|cbn beta].
  intros Hi. unfold ndReconcileNormal.
  phase ndRbac_spec. intros tr1 i1 _ Hi1.
  eapply guarded_bind with (Q := λ _ i' _, nd_at i0 i').
  { split; [solve_quiet|]. by apply nd_at_upd. }
  intros tr2 i2 _ Hi2.
  eapply guarded_bind with (Q := λ _ i' r, nd_at i0 i' ∧ r = (emptyResult, None)).
  { split; [solve_quiet|done]. }
  intros tr3 i3 r3 [Hi3 ->]. quiet_phase i0. intros tr4 i4 _ Hi4.
  eapply guarded_bind with (Q := λ _ i' r, nd_at i0 i' ∧ r = (emptyResult, None)).
  { split; [solve_quiet|done]. }
  intros tr5 i5 r5 [Hi5 ->]. quiet_phase i0. intros tr6 i6 _ Hi6.
  phase ndEndpoint_spec. intros tr7 i7 nb [Hi7 Hnb].
  phase ndEndpoint_spec. intros tr8 i8 sb [Hi8 Hsb].
  phase ndTLSInputs_spec. intros tr9 i9 vars [Hi9 Htls].
  phase ndServiceConfig_spec. intros tr10 i10 env [Hi10 (vars' & hash & -> & Hhash)].
  phase ndTopology_spec. intros tr11 i11 topo [Hi11 [last Htopo]].
  apply wpM_bind. eapply wpM_mono.
  2:{ eapply (ndWorkload_guarded sts) with (G := λ t, nd_sts_inputs i0 sts
        (tr1 ++ tr2 ++ tr3 ++ tr4 ++ tr5 ++ tr6 ++ tr7 ++ tr8 ++ tr9 ++ tr10 ++ tr11 ++ t));
        [exact Hi11|].
      intros Hsts. exists nb, sb, vars, vars', hash, last, topo.
      split; [eapply endpoint_found_mono; [|exact Hnb]; set_solver|].
      split; [eapply endpoint_found_mono; [|exact Hsb]; set_solver|].
      split; [eapply tls_validated_mono; [|exact Htls]; set_solver|].
      split; [eapply nd_inputs_hashed_mono; [|exact Hhash]; set_solver|].
      split; [solve_in|exact Hsts]. }
  intros tr12 [[i12 x|i12 stateful]|]; cbn beta iota; [done| |done].
  intros (ev & -> & Hev).
  eapply wpM_mono; [|exact (nd_after_workload sts stateful nd_labels i12 Logic.I)].
  intros tr13 o Hq. apply guarded_cons_quiet; [exact Hev|]. apply Hq. by apply Forall_forall.
Qed.

(** C5. The StatefulSet of ovn-northd is created or patched only for a managed resource,
    after its TLS inputs, both database endpoints and the input hash have been obtained in
    the same reconciliation, and is the one they determine. *)
Theorem nd_workload_inputs {FL : FinalizerLaws L} req sts tr o :
  exec (OVNNorthd_Reconcile req) tr o →
  guarded (λ t _, ∃ i, head t = Some (Ev (GetOVNNorthd req) (Okay i)) ∧
             managed i ∧ nd_sts_inputs i sts t) (creates_sts sts) tr.
Proof.
  apply (reconcile_guarded _ ndInitStatus (λ i, i) (λ _, false)); try done.
  - intros [R []]; cbn; tauto.
  - intros i Hi _. eapply wpM_mono; [|apply (ndReconcileNormal_workload sts i); by eexists].
    intros tr' o'. cbn beta. apply guarded_mono. intros t _ _ Ht. exists i. split; [done|]. split; [done|].
    eapply nd_sts_inputs_mono; [|exact Ht]. intros ev Hev. solve_in.
Qed.

(** ** Readiness *)
Context {CLaws : CondLaws CL}.

(** While the deployment is pending, with the specification [spec]. *)
Definition nd_pending (spec : OVNNorthdSpec) (i : OVNNorthd) : Prop :=
  cond_pending DeploymentReadyCondition (nds_Conditions (nd_Status i)) ∧ nd_Spec i = spec.

Lemma nd_pending_rbac spec c i :
  cond_Type c ∈ rbacTypes → nd_pending spec i → nd_pending spec (OVNNorthd_RbacConditionsSet c i).
Proof.
  intros Hc [Hi Hs]. split; [|done]. unfold OVNNorthd_RbacConditionsSet, set_shared. cbn.
  destruct (Conditions_Get _ _); [|done]. apply pending_Set_ne; [|done].
  intros Heq. revert Hc. unfold rbacTypes. rewrite <- Heq, !elem_of_cons, elem_of_nil.
  by intros [|[|[|]]].
Qed.

Ltac nd_keeps := unfold keeps;
  triples fail with (first [exact Logic.I
    | match goal with H : nd_pending _ _ |- _ =>
        destruct H; split; [first [by apply pending_False | by apply pending_MarkTrue]|done] end
    | done]).

Lemma nd_rbac_keeps spec :
  keeps rbac_ok (nd_pending spec) (reconcileRbac OVNNorthd_RbacConditionsSet dbRbacRules).
Proof. apply triple_reconcileRbac; [apply nd_pending_rbac|done]. Qed.
Lemma ndEndpoint_keeps spec t : keeps rbac_ok (nd_pending spec) (ndEndpoint t).
Proof. nd_keeps. Qed.
Lemma ndTLSInputs_keeps spec : keeps rbac_ok (nd_pending spec) ndTLSInputs.
Proof. nd_keeps. Qed.
Lemma ndServiceConfig_keeps spec vars : keeps rbac_ok (nd_pending spec) (ndServiceConfig vars).
Proof. nd_keeps. Qed.
Lemma ndTopology_keeps spec labels : keeps rbac_ok (nd_pending spec) (ndTopology labels).
Proof. nd_keeps. Qed.
Lemma ndMigrate_keeps spec st : keeps rbac_ok (nd_pending spec) (ndMigrate st).
Proof. nd_keeps. Qed.
Lemma ndMetrics_keeps spec labels : keeps rbac_ok (nd_pending spec) (ndMetrics labels).
Proof. nd_keeps. Qed.

(** All the replicas asked for run and are ready, or none is asked for. *)
Definition replicas_ready (spec : OVNNorthdSpec) (stateful : StatefulSetObs) : Prop :=
  ∃ n, nd_Replicas spec = Some n ∧
    (n = 0%Z ∨ sts_ReadyReplicas stateful = n ∧ sts_StatusReplicas stateful = n).

(** The deployment is not pending any more for a reason. *)
Definition nd_settled (spec : OVNNorthdSpec) (K : list (event Ext) → Prop)
    (tr : list (event Ext)) (o : outcome (mres OVNNorthd RE RE)) : Prop :=
  ∀ i' x, ended i' x o →
    ¬ cond_pending DeploymentReadyCondition (nds_Conditions (nd_Status i')) → K tr.

Lemma nd_settled_pending spec K tr i x : nd_pending spec i → nd_settled spec K tr (Done (Exit i x)).
Proof. intros [Hp _] i' x' [[=]|[=]] Hs; by subst. Qed.

Lemma nd_settled_panic spec K tr : nd_settled spec K tr Panicked.
Proof. by intros ? ? [|]. Qed.

Lemma ndDeploymentStatus_spec stateful spec i :
  nd_pending spec i →
  wpM (ndDeploymentStatus stateful) i (λ tr o,
    match o with
    | Done (Cont i' _) => nd_pending spec i' ∨ replicas_ready spec stateful
    | Done (Exit i' _) => nd_pending spec i'
    | Panicked => True
    end).
Proof.
  intros [Hp Hs]. unfold ndDeploymentStatus, ndDeploymentRunning, markTrue, setCond.
  repeat wp_step; cbn; try done.
  - right. rewrite Hs in *. eexists. split; [done|].
    match goal with H : _ && _ = true |- _ => apply andb_true_iff in H as [H1 H2] end.
    apply bool_decide_eq_true in H1, H2. auto.
  - right. rewrite Hs in *. eexists. split; [done|]. left. by eapply bool_decide_eq_true_1.
  - left. split; [by apply pending_False|done].
Qed.

Lemma nd_serving stateful labels spec i :
  nd_pending spec i →
  wpM (do! ndMigrate stateful; do! ndDeploymentStatus stateful; ndMetrics labels) i
    (λ tr o, Forall rbac_ok tr → nd_settled spec (λ _, replicas_ready spec stateful) tr o).
Proof.
  intros Hi. eapply (wpM_skip rbac_ok (nd_pending spec)); [ | | |apply ndMigrate_keeps|done|].
  - intros ???. apply nd_settled_pending.
  - intros ?. apply nd_settled_panic.
  - intros ?? o Ho. exact Ho.
  - intros s' _ Hs'. apply wpM_bind. eapply wpM_mono; [|by apply ndDeploymentStatus_spec].
    intros tr [[i1 x|i1 []]|]; cbn beta iota; [| |].
    + intros Hp _. by apply nd_settled_pending.
    + intros [Hp|Hr]; [|by apply wp_exec; intros tr' o _ _ ? ? _ _].
      eapply wpM_mono; [|by apply ndMetrics_keeps]. intros tr' o Ho [_ Henv]%Forall_app.
      destruct (Ho Henv) as [_ Ho']. intros i' x He Hnot. exfalso. apply Hnot.
      destruct He as [-> | ->]; [apply Ho'|apply Ho'].
    + intros _ _. apply nd_settled_panic.
Qed.

Definition nd_observed (stateful : StatefulSetObs) (tr : list (event Ext)) : Prop :=
  ∃ sts timeout, Ev (StatefulSetCreateOrPatch sts timeout) (emptyResult, None, stateful) ∈ tr.

Lemma ndWorkload_observed nb sb vars labels topology spec i :
  nd_pending spec i →
  wpM (ndWorkload nb sb vars labels topology) i (λ tr o,
    match o with
    | Done (Exit i' _) => nd_pending spec i'
    | Done (Cont i' st) => nd_pending spec i' ∧ nd_observed st tr
    | Panicked => True
    end).
Proof.
  intros [Hp Hs]. unfold ndWorkload, lift_go, ndDeploymentRunning, ndConditionError, setCond.
  repeat wp_step; cbn; try done; try (split; [by apply pending_False|done]).
  split; [done|]. case_bool_decide; [|done]. subst. eexists _, _. solve_in.
Qed.

Definition nd_ready_from (spec : OVNNorthdSpec) (tr : list (event Ext)) : Prop :=
  ∃ stateful, nd_observed stateful tr ∧ replicas_ready spec stateful.

Lemma nd_ready_from_mono spec tr tr' : tr ⊆ tr' → nd_ready_from spec tr → nd_ready_from spec tr'.
Proof.
  intros Hsub (st & (sts & t & Hin) & Hr). exists st. split; [|done].
  exists sts, t. by apply Hsub.
Qed.

Lemma ndReconcileNormal_ready spec i :
  nd_pending spec i →
  wpM ndReconcileNormal i
    (λ tr o, Forall rbac_ok tr → nd_settled spec (nd_ready_from spec) tr o).
Proof.
Ltac skip H :=
    eapply (wpM_skip rbac_ok (nd_pending _));
      [ intros ? ? ?; apply nd_settled_pending | intros ?; apply nd_settled_panic
      | intros ? ? o Ho i' x He Hn; eapply nd_ready_from_mono; [|by eapply Ho]; set_solver
      | apply H | eassumption | cbn beta; intros ? ? ? ].
Ltac skip_auto :=
    let Hm := fresh in
    match goal with H : nd_pending ?spec _ |- wpM (bind ?m _) _ _ =>
      assert (keeps rbac_ok (nd_pending spec) m) as Hm by nd_keeps
    end; skip Hm; clear Hm.
  intros Hi. unfold ndReconcileNormal.
  skip nd_rbac_keeps. do 5 skip_auto. do 2 skip ndEndpoint_keeps. skip ndTLSInputs_keeps.
  skip ndServiceConfig_keeps. skip ndTopology_keeps.
  apply wpM_bind. eapply wpM_mono; [|by apply ndWorkload_observed].
  intros tr [[i1 x1|i1 stateful]|]; cbn beta iota.
  - intros Hp _. by apply (nd_settled_pending spec).
  - intros [Hp Hobs]. eapply wpM_mono; [|by apply nd_serving].
    intros tr' o Ho [_ Henv]%Forall_app i' x He Hn.
    apply (nd_ready_from_mono _ tr); [set_solver|]. exists stateful.
    split; [done|]. by eapply (Ho Henv).
  - intros _ _. apply (nd_settled_panic spec).
Qed.

Lemma ndInit_pending i : nd_pending (nd_Spec i) (ndInitStatus i).
Proof.
  assert (∀ t r m, cond_Type (UnknownCondition t r m) = t) as Ht by (intros; apply Unknown_spec).
  split; [|done]. unfold ndInitStatus. cbn.
  rewrite <- (Ht DeploymentReadyCondition InitReason
                (Msg "condition.DeploymentReadyInitMessage" [])) at 1.
  apply pending_Init.
  - unfold ndInitConditions. destruct (nd_TopologyRef _); cbn; rewrite !Ht;
      apply (bool_decide_unpack _); vm_compute; exact Logic.I.
  - unfold ndInitConditions. solve_in.
  - destruct (Unknown_spec DeploymentReadyCondition InitReason
      (Msg "condition.DeploymentReadyInitMessage" [])) as [_ ->]. done.
Qed.

Lemma ndReconcileNormal_patchless : patchless ndReconcileNormal.
Proof. unfold patchless. triples fail with (cbn; tauto). Qed.

(** C6. An OVNNorthd is reported Ready only if the StatefulSet read back in that
    reconciliation has all the replicas the specification asks for ready, or it asks for
    none. *)
Theorem nd_deployment_ready {FL : FinalizerLaws L} req tr o i' perr :
  exec (OVNNorthd_Reconcile req) tr o →
  Forall rbac_ok tr →
  Ev (PatchInstance (ObjOVNNorthd i')) perr ∈ tr →
  OVNNorthd_IsReady i' = true →
  ∃ i stateful, head tr = Some (Ev (GetOVNNorthd req) (Okay i)) ∧
    nd_observed stateful tr ∧ replicas_ready (nd_Spec i) stateful.
Proof.
  intros Hex Henv Hin Hready. unfold OVNNorthd_Reconcile in Hex.
  eapply (reconcile_settled _ ndInitStatus (λ i, i) (λ _, false) _ ltac:(done) ltac:(done)
    DeploymentReadyCondition _ _ i' perr) in Hex
    as (i & trn & on & ib & x & _ & Hn & He & Hnot & -> & ->);
    [|done|apply ndReconcileNormal_patchless|by intros r []|apply ndInit_pending|done|done|done].
  do 2 apply Forall_cons in Henv as [_ Henv]. apply Forall_app in Henv as [Henv _].
  destruct (proj1 (wp_exec _ _) (ndReconcileNormal_ready _ _ (ndInit_pending i)) _ _ Hn Henv
    ib x He Hnot) as (stateful & Hobs & Hr).
  exists i, stateful. split; [done|]. split; [|done].
  destruct Hobs as (sts & t & H1). eexists _, _. rewrite !elem_of_app. eauto.
Qed.
End northd_proofs.
