(* ===== verification/NorthdPhases.v ===== *)
(** * What single phases of the OVNNorthd reconciler do

    The migration from the Deployment of earlier releases, the metrics services of
    the pods, and the absence of panics. *)
From S2P Require Import Prelude Prog Triples K8s Lib Api ApiMethods Calls Shared.
From S2P Require Import SharedProofs Client DBManifests DBController NorthdManifests.
From S2P Require Import NorthdController NorthdProofs.
#[local] Open Scope go_scope.

Section migration.
Context {AT : ApiTypes} {CL : CondLib} {L : Lib}.

(** The event scales down or deletes a Deployment, the one named. *)
Definition retires_deployment (ev : event Ext) : Prop :=
  match ev with Ev e _ =>
    match e with
    | UpdateDeployment _ => True
    | Delete k _ _ => k = KDeployment
    | _ => False
    end
  end.
Definition retires (d : Deployment) (ev : event Ext) : Prop :=
  match ev with Ev e _ =>
    match e with
    | UpdateDeployment d' =>
        dep_Name d' = dep_Name d ∧ dep_Namespace d' = dep_Namespace d ∧ dep_Replicas d' = Some 0%Z
    | Delete k ns n => k = KDeployment ∧ ns = dep_Namespace d ∧ n = dep_Name d
    | _ => False
    end
  end.

(** The Deployment was found, and belongs to [i]. *)
Definition legacy_found (i : OVNNorthd) (t : list (event Ext)) (ev : event Ext) : Prop :=
  ∃ d, Ev (GetDeployment (om_Namespace (nd_Meta i)) ServiceNameOVNNorthd) (Okay d) ∈ t ∧
    legacy_owned i d = true ∧ retires d ev.
(** And the StatefulSet has a ready pod. *)
Definition replaced (i : OVNNorthd) (t : list (event Ext)) (ev : event Ext) : Prop :=
  legacy_found i t ev ∧
  ∃ stateful, nd_observed stateful t ∧ (sts_ReadyReplicas stateful > 0)%Z.

Lemma legacy_found_app i tr t ev : legacy_found i t ev → legacy_found i (tr ++ t) ev.
Proof. intros (d & Hin & Hd). exists d. split; [solve_in|done]. Qed.

Lemma replaced_app i tr t ev : replaced i t ev → replaced i (tr ++ t) ev.
Proof.
  intros [Hl (st & (sts & to & Hin) & Hst)]. split; [by apply legacy_found_app|].
  exists st. split; [|done]. exists sts, to. solve_in.
Qed.

Lemma cleanupLegacyDeployment_guarded i i' :
  nd_at i i' →
  wpM (cleanupLegacyDeployment (X := RE)) i' (λ tr o,
    guarded (legacy_found i) retires_deployment tr ∧
    match o with Done (Exit _ _) => False | _ => True end).
Proof.
  intros [st ->]. unfold cleanupLegacyDeployment.
  change (legacy_owned (mkOVNNorthd (nd_Kind i) (nd_Meta i) (nd_Spec i) st)) with (legacy_owned i).
  repeat wp_step; cbn; (split; [|done]).
  all: repeat (apply guarded_cons; [|]); try apply guarded_nil.
  all: cbn; try tauto; intros _; eexists; (split; [solve_in|]); (split; [done|]); done.
Qed.

Lemma ndMigrate_guarded stateful i i' :
  nd_at i i' →
  wpM (ndMigrate stateful) i' (λ tr _,
    guarded (λ t ev, legacy_found i t ev ∧ (sts_ReadyReplicas stateful > 0)%Z)
      retires_deployment tr).
Proof.
  intros Hi. unfold ndMigrate.
  apply (guarded_bind _ _ _ _ _ (λ _ s' _, nd_at i s')).
  { case_bool_decide; (split; [solve_quiet|]); [by apply nd_at_upd|done]. }
  intros tr s' [] Hs'. case_bool_decide as Hready; [|apply guarded_nil].
  apply wpM_bind. eapply wpM_mono; [|by apply cleanupLegacyDeployment_guarded].
  intros tr' [[s1 x|s1 a]|] [Hg Ho]; cbn; [done| |].
  - rewrite app_nil_r. revert Hg. apply guarded_mono. intros t ev _ Hl.
    split; [by apply legacy_found_app|done].
  - revert Hg. apply guarded_mono. intros t ev _ Hl. split; [by apply legacy_found_app|done].
Qed.

Lemma nd_serving_guarded stateful labels i i' :
  nd_at i i' →
  wpM (do! ndMigrate stateful; do! ndDeploymentStatus stateful; ndMetrics labels) i'
    (λ tr _, guarded (λ t ev, legacy_found i t ev ∧ (sts_ReadyReplicas stateful > 0)%Z)
               retires_deployment tr).
Proof.
  intros Hi. apply guarded_last; [by apply ndMigrate_guarded|]. intros _.
  triples fail with (first [exact Logic.I | cbn; first [tauto | by intros [=]]]).
Qed.

Lemma ndWorkload_step nb sb vars labels topology i i' :
  nd_at i i' →
  wpM (ndWorkload nb sb vars labels topology) i' (λ tr o,
    Forall (λ ev, ¬ retires_deployment ev) tr ∧
    match o with Done (Cont s st) => nd_at i s ∧ nd_observed st tr | _ => True end).
Proof.
  intros Hi. unfold ndWorkload, lift_go, ndDeploymentRunning, ndConditionError, setCond.
  repeat wp_step; cbn; (split; [solve_quiet|try done]).
  split; [done|]. case_bool_decide; [|done]. subst. eexists _, _. solve_in.
Qed.

Lemma ndReconcileNormal_migration i i' :
  nd_at i i' →
  wpM ndReconcileNormal i' (λ tr _, guarded (replaced i) retires_deployment tr).
Proof.
Ltac quiet_skip :=
    eapply (guarded_skip (nd_at _));
      [ intros ???; apply replaced_app
      | triples fail with (first [exact Logic.I | by apply nd_at_rbac | by apply nd_at_upd | cbn; first [tauto | by intros [=]]])
      | eassumption | intros ? ? ? ].
  intros Hi. unfold ndReconcileNormal. do 11 quiet_skip.
  apply wpM_bind. eapply wpM_mono; [|eapply ndWorkload_step; eassumption].
  intros tr o [Hq Ho].
  destruct o as [[s x|s stateful]|]; [by apply guarded_quiet| |by apply guarded_quiet].
  destruct Ho as [Hs Hobs]. eapply wpM_mono; [|by apply nd_serving_guarded].
  intros tr' o Hg. apply guarded_quiet_app; [done|]. revert Hg. apply guarded_mono.
  intros t ev _ [Hl Hr]. split; [by apply legacy_found_app|]. exists stateful.
  split; [|done]. destruct Hobs as (sts & to & Hin). exists sts, to. solve_in.
Qed.

(** C10. The Deployment of earlier releases is scaled down or deleted only when the
    OVNNorthd owns it and after the StatefulSet that replaces it has been seen with a ready
    replica. *)
Theorem nd_migration_safe {FL : FinalizerLaws L} req tr o :
  exec (OVNNorthd_Reconcile req) tr o →
  guarded (λ t ev, ∃ i, head t = Some (Ev (GetOVNNorthd req) (Okay i)) ∧ managed i ∧
             replaced i t ev) retires_deployment tr.
Proof.
  apply (reconcile_guarded _ ndInitStatus (λ i, i) (λ _, false)); try done.
  - intros [R []]; cbn; tauto.
  - intros i Hi _. eapply wpM_mono; [|apply (ndReconcileNormal_migration i); by eexists].
    intros tr' o'. cbn beta. apply guarded_mono. intros t ev _ Ht.
    exists i. split; [done|]. split; [done|]. by apply (replaced_app i [_; _]).
Qed.
End migration.

(** ** Metrics services *)
Section metrics.
Context {AT : ApiTypes} {CL : CondLib} {L : Lib}.

(** The event is about the service of the pod [k]. *)
Definition probed (i : OVNNorthd) (k : Z) (err : option error) : event Ext :=
  Ev (GetService (om_Namespace (nd_Meta i)) (ndPodName k)) err.
Definition dropped (i : OVNNorthd) (k : Z) (err : option error) : event Ext :=
  Ev (Delete KService (om_Namespace (nd_Meta i)) (ndPodName k)) err.
Definition is_delete (ev : event Ext) : Prop :=
  match ev with Ev e _ => match e with Delete _ _ _ => True | _ => False end end.

(** The object of a deletion. *)
Definition delete_of (ev : event Ext) : option (ObjKind * string * string) :=
  match ev with Ev e _ =>
    match e with Delete k ns n => Some (k, ns, n) | _ => None end end.

Lemma dropped_inj i k k' e e' : dropped i k e = dropped i k' e' → k = k'.
Proof.
  intros Heq. apply (f_equal delete_of) in Heq. injection Heq as Heq.
  by apply fmt_d_inj.
Qed.

(** Of the services of the pods in the index range [ks], those that could be read have
    been deleted, or their deletion failed; nothing else has been deleted. *)
Definition cleaned (i : OVNNorthd) (ks : list Z) (tr : list (event Ext)) : Prop :=
  (∀ k, k ∈ ks → (∃ e, probed i k (Some e) ∈ tr) ∨
     (probed i k None ∈ tr ∧ ∃ e, dropped i k e ∈ tr)) ∧
  (∀ ev, ev ∈ tr → is_delete ev → ∃ k e, k ∈ ks ∧ ev = dropped i k e).

Lemma cleaned_app i ks1 ks2 tr1 tr2 :
  cleaned i ks1 tr1 → cleaned i ks2 tr2 → cleaned i (ks1 ++ ks2) (tr1 ++ tr2).
Proof.
  intros [Ha1 Hb1] [Ha2 Hb2]. split.
  - intros k [Hk|Hk]%elem_of_app.
    + destruct (Ha1 k Hk) as [[e He]|[Hp [e He]]]; [left|right; split; [solve_in|]]; exists e; solve_in.
    + destruct (Ha2 k Hk) as [[e He]|[Hp [e He]]]; [left|right; split; [solve_in|]]; exists e; solve_in.
  - intros ev [Hev|Hev]%elem_of_app Hd.
    + destruct (Hb1 ev Hev Hd) as (k & e & Hk & ->). exists k, e. split; [set_solver|done].
    + destruct (Hb2 ev Hev Hd) as (k & e & Hk & ->). exists k, e. split; [set_solver|done].
Qed.

Lemma cleaned_quiet i tr : Forall (λ ev, ¬ is_delete ev) tr → cleaned i [] tr.
Proof.
  intros Hq. split; [by intros k ?%elem_of_nil|]. rewrite Forall_forall in Hq.
  intros ev Hev Hd. by destruct (Hq ev Hev).
Qed.

Lemma cleanupExtraServices_spec {X} d i :
  wpM (cleanupExtraServices (X := X) d) i (λ tr o,
    o = Done (Cont i tt) ∧ cleaned i (seqZ d (32 - d)) tr).
Proof.
  unfold cleanupExtraServices. apply wpM_get.
  apply (wpM_foldM _ (λ dn _ s tr, s = i ∧ cleaned i dn tr)).
  - split; [done|]. by apply cleaned_quiet, Forall_nil_2.
  - intros dn k rest [] s tr _ [-> Htr]. repeat wp_step; cbn; (split; [done|]).
    all: apply cleaned_app; [done|]; split.
    all: try (intros k' ->%list_elem_of_singleton).
    + left. eexists. left.
    + done.
    + right. split; [left|]. eexists. right. left.
    + intros ev Hev Hd. rewrite !elem_of_cons, elem_of_nil in Hev.
      destruct Hev as [->|[->|[]]]; [done|].
      eexists _, _. split; [by apply list_elem_of_singleton|done].
  - by intros [] s tr [-> Htr].
Qed.

(** The number of pods that have a metrics service. *)
Definition metrics_replicas (i : OVNNorthd) : Z :=
  if nd_metrics_on i then default 0%Z (nd_Replicas (nd_Spec i)) else 0%Z.

(** The service of the pod [k] has been created or patched. *)
Definition exposed_pod (i : OVNNorthd) (labels : gmap string string) (tr : list (event Ext))
    (k : Z) : Prop :=
  ∃ h h' timeout,
    NewService (nd_MetricsService (ndPodName k) i
      (MergeMaps labels {["metrics" := "enabled"]}) (ndSelectorLabels (ndPodName k))) None
      = Okay h ∧
    Ev (ServiceCreateOrPatch h timeout) (emptyResult, None, h') ∈ tr.

Lemma exposed_pod_mono i labels tr tr' k :
  tr ⊆ tr' → exposed_pod i labels tr k → exposed_pod i labels tr' k.
Proof. intros Hsub (h & h' & t & Hh & Hin). exists h, h', t. auto. Qed.

Lemma reconcileMetricsServices_spec labels i :
  let n := default 0%Z (nd_Replicas (nd_Spec i)) in
  wpM (reconcileMetricsServices labels) i (λ tr o,
    match o with
    | Done (Cont s r) => s = i ∧ r = (emptyResult, None) ∧
        (∀ k, k ∈ seqZ 0 n → exposed_pod i labels tr k) ∧ cleaned i (seqZ n (32 - n)) tr
    | Done (Exit s r) => r ≠ (emptyResult, None)
    | Panicked => False
    end).
Proof.
  intros n. unfold reconcileMetricsServices. apply wpM_get. fold n. apply wpM_bind.
  apply (wpM_foldM _ (λ dn _ s tr, s = i ∧ Forall (λ ev, ¬ is_delete ev) tr ∧
    ∀ k, k ∈ dn → exposed_pod i labels tr k)).
  - split; [done|]. split; [apply Forall_nil_2|]. by intros k ?%elem_of_nil.
  - intros dn k rest [] s tr _ (-> & Hq & Hdn). repeat wp_step; cbn; simplify_eq/=; try done.
    + match goal with H : bool_decide _ = true |- _ => apply bool_decide_eq_true_1 in H as -> end.
      split; [done|]. split; [apply Forall_app_intro; [done|solve_quiet]|].
      intros k' Hk'. rewrite elem_of_app, list_elem_of_singleton in Hk'. destruct Hk' as [Hk'| ->].
      * eapply exposed_pod_mono; [|by apply Hdn]. set_solver.
      * destruct r as [? h']. cbn in *. simplify_eq. eexists _, h', _.
        split; [eassumption|]. solve_in.
    + match goal with H : bool_decide _ = false |- _ => apply bool_decide_eq_false_1 in H end.
      congruence.
  - intros [] s tr (-> & Hq & Hdn). apply wpM_bind.
    eapply wpM_mono; [|apply cleanupExtraServices_spec].
    intros tr' o [-> Hc]. cbn. split; [done|]. split; [done|]. rewrite app_nil_r. split.
    + intros k Hin. eapply exposed_pod_mono; [|by apply Hdn]. by apply list_subseteq_app_l.
    + change (seqZ n (32 - n)) with ([] ++ seqZ n (32 - n)).
      apply cleaned_app; [by apply cleaned_quiet|done].
Qed.

(** A service that could not be read, or not be deleted, was not there. *)
Definition only_absent (i : OVNNorthd) (tr : list (event Ext)) : Prop :=
  (∀ k e, probed i k (Some e) ∈ tr → IsNotFound e = true) ∧
  (∀ k e, dropped i k (Some e) ∈ tr → IsNotFound e = true).

(** C12. A successful reconciliation of the metrics of ovn-northd creates or patches one
    service per replica, and of the services of the other pod ordinals up to 32 asks for the
    deletion of each one that it could read, and of nothing else; an error of the read or of
    the deletion is passed over, so that those services are all gone when such errors only
    say that the service is absent. *)
Theorem metrics_services_exact labels i tr i' :
  exec (ndMetrics labels i) tr (Done (Cont i' (emptyResult, None))) →
  let n := metrics_replicas i in
  (∀ k, (0 ≤ k < n)%Z → exposed_pod i labels tr k) ∧
  (∀ k, (n ≤ k < 32)%Z →
     (∃ e, probed i k (Some e) ∈ tr) ∨ (probed i k None ∈ tr ∧ ∃ e, dropped i k e ∈ tr)) ∧
  (∀ ev, ev ∈ tr → is_delete ev → ∃ k e, (n ≤ k < 32)%Z ∧ ev = dropped i k e) ∧
  (∀ k e, (0 ≤ k < n)%Z → dropped i k e ∉ tr) ∧
  (only_absent i tr → ∀ k, (n ≤ k < 32)%Z →
     dropped i k None ∈ tr ∨
     ∃ e, IsNotFound e = true ∧ (probed i k (Some e) ∈ tr ∨ dropped i k (Some e) ∈ tr)).
Proof.
  intros Hex n.
  enough ((∀ k, k ∈ seqZ 0 n → exposed_pod i labels tr k) ∧ cleaned i (seqZ n (32 - n)) tr)
    as (Hexp & Ha & Hb).
  { repeat setoid_rewrite elem_of_seqZ in Ha. repeat setoid_rewrite elem_of_seqZ in Hb.
    setoid_rewrite elem_of_seqZ in Hexp.
    split; [intros k Hk; apply Hexp; lia|]. split; [intros k Hk; apply Ha; lia|].
    split; [|split].
    - intros ev Hev Hd. destruct (Hb ev Hev Hd) as (k & e & Hk & ->). exists k, e.
      split; [lia|done].
    - intros k e Hk Hin. destruct (Hb _ Hin Logic.I) as (k' & e' & Hk' & ->%dropped_inj). lia.
    - intros [Hp Hd] k Hk. destruct (Ha k ltac:(lia)) as [[e He]|[_ [[e|] He]]]; [| |by left];
        right; exists e; eauto. }
  revert Hex. enough (wpM (ndMetrics labels) i (λ tr o,
    ∀ s, o = Done (Cont s (emptyResult, None)) →
    (∀ k, k ∈ seqZ 0 n → exposed_pod i labels tr k) ∧ cleaned i (seqZ n (32 - n)) tr)) as Hall
    by (intros Hex; by apply (proj1 (wp_exec _ _) Hall _ _ Hex i')).
  unfold ndMetrics, n, metrics_replicas. apply wpM_get.
  destruct (nd_metrics_on i); apply wpM_bind.
  - apply wpM_fn. eapply wpM_mono; [|apply reconcileMetricsServices_spec].
    intros tr' [[s r|s r]|]; cbn beta iota; [| |done].
    + destruct r as [res [e|]]; intros Hr; [by repeat wp_step|].
      unfold returnUnlessDone. apply wpM_bind. case_bool_decide as Hres; [congruence|].
      by repeat wp_step.
    + intros (-> & -> & Hs & Hc). unfold returnUnlessDone.
      rewrite bool_decide_eq_true_2 by done. repeat wp_step. cbn. rewrite app_nil_r. auto.
  - eapply wpM_mono; [|apply cleanupExtraServices_spec].
    intros tr' o [-> Hc]. cbn. intros s _. rewrite app_nil_r. split; [|done].
    by intros k ?%elem_of_nil.
Qed.
End metrics.

(** ** No panic *)
Section nd_safety.
Context {AT : ApiTypes} {CL : CondLib} {L : Lib} {TL : TlsLaws L}.

(** What the schemas say of an answer: a northd has its replicas and threads, a
    Deployment its replicas. *)
Definition nd_schema_ok (ev : event Ext) : Prop :=
  match ev with Ev e r =>
    match e in Ext R return R → Prop with
    | GetOVNNorthd _ => λ r, ∀ i, r = Okay i →
        is_Some (nd_Replicas (nd_Spec i)) ∧ is_Some (nd_NThreads (nd_Spec i))
    | GetDeployment _ _ => λ r, ∀ d, r = Okay d → is_Some (dep_Replicas d)
    | _ => λ _, True
    end r
  end.

Definition nd_sane (i : OVNNorthd) : Prop :=
  is_Some (nd_Replicas (nd_Spec i)) ∧ is_Some (nd_NThreads (nd_Spec i)).

Definition nd_safe {X A} (m : Go OVNNorthd X A) (R : A → Prop) : Prop :=
  triple nd_schema_ok (λ _, True) False nd_sane m R.

Lemma nd_StatefulSet_no_panic i ls nb sb vars topo :
  nd_sane i → nd_StatefulSet i ls nb sb vars topo ≠ GPanic.
Proof.
  intros [_ [n Hn]]. unfold nd_StatefulSet. rewrite Hn.
  destruct (tls_Enabled (nd_TLS (nd_Spec i))) eqn:Htls; [|done].
  destruct (Enabled_SecretName _ Htls) as [s ->]. done.
Qed.

Lemma lift_nd_sts_safe {X} i ls nb sb vars topo :
  nd_sane i → nd_safe (X := X) (lift_go (nd_StatefulSet i ls nb sb vars topo)) (λ _, True).
Proof.
  intros Hi. unfold lift_go, nd_safe. destruct (nd_StatefulSet i ls nb sb vars topo) eqn:Hs;
    [by apply triple_ret..|]. by apply nd_StatefulSet_no_panic in Hs.
Qed.

Lemma cleanupLegacyDeployment_safe {X} : nd_safe (cleanupLegacyDeployment (X := X)) (λ _, True).
Proof.
  unfold nd_safe, cleanupLegacyDeployment. eapply triple_bind; [apply triple_get|]. intros i Hi.
  apply (triple_bind _ _ _ _ _ _ (λ r, ∀ d, r = Okay d → is_Some (dep_Replicas d))).
  { apply triple_call. intros r Hr. split; [done|]. exact Hr. }
  intros [d|e] Hr; [destruct (Hr d eq_refl) as [n ->]|]; triples fail with idtac.
Qed.

Lemma deref_nd_replicas_safe {X} i :
  nd_sane i → nd_safe (X := X) (deref (nd_Replicas (nd_Spec i))) (λ _, True).
Proof. intros [[n ->] _]. by apply triple_ret. Qed.

Lemma nd_sane_rbac cs i :
  nd_sane i → nd_sane (foldl (λ i c, OVNNorthd_RbacConditionsSet c i) i cs).
Proof. revert i. induction cs as [|c cs IH]; intros i Hi; [done|]. by apply IH. Qed.

Lemma ndReconcileNormal_safe : nd_safe ndReconcileNormal (λ _, True).
Proof.
  unfold nd_safe.
  triples (idtac; lazymatch goal with
    | |- triple _ _ _ _ (lift_go _) _ => by apply lift_nd_sts_safe
    | |- triple _ _ _ _ cleanupLegacyDeployment _ => apply cleanupLegacyDeployment_safe
    | |- triple _ _ _ _ (deref (nd_Replicas _)) _ => by apply deref_nd_replicas_safe
    end) with (first [exact Logic.I | by apply nd_sane_rbac]).
Qed.

Lemma ndReconcileBody_safe :
  nd_safe (reconcileBody false (λ i, i) ndReconcileNormal) (λ _, True).
Proof.
  unfold nd_safe, reconcileBody.
  triples (apply triple_fn; [done|apply ndReconcileNormal_safe]) with (exact Logic.I).
Qed.

(** C16. The OVNNorthd reconciler never panics when the answers of the API server
    respect the schema. *)
Theorem nd_no_panic req tr o :
  exec (OVNNorthd_Reconcile req) tr o → Forall nd_schema_ok tr → o ≠ Panicked.
Proof.
  intros Hex Henv ->. apply reconcile_runs in Hex.
  inversion Hex as [| |i tr' Hb Htr|]; subst.
  apply Forall_cons in Henv as [Hi [_ Henv]%Forall_cons].
  assert (nd_sane (ndInitStatus i)) as Hs by exact (Hi i eq_refl).
  by destruct (triple_exec _ _ _ _ _ _ _ _ _ ndReconcileBody_safe Hs Hb Henv).
Qed.
End nd_safety.

(** ** The Deployment condition *)
Section deployment_condition.
Context {AT : ApiTypes} {CL : CondLib} {L : Lib} {CLaws : CondLaws CL}.

(** The condition that the replicas asked for and the state of the StatefulSet give. *)
Definition deployment_status (n : Z) (stateful : StatefulSetObs) : option CondStatus :=
  if bool_decide (sts_ReadyReplicas stateful = n ∧ sts_StatusReplicas stateful = n)
  then Some ConditionTrue
  else if bool_decide (n = 0%Z) then None else Some ConditionFalse.

Definition deployment_of (i : OVNNorthd) : option CondStatus :=
  status_of DeploymentReadyCondition (nds_Conditions (nd_Status i)).

Lemma ndDeploymentStatus_reports stateful n i :
  nd_Replicas (nd_Spec i) = Some n →
  wpM (ndDeploymentStatus stateful) i (λ tr o, tr = [] ∧ ∃ i', o = Done (Cont i' tt) ∧
    deployment_of i' = deployment_status n stateful).
Proof.
  intros Hn. apply wp_exec. intros tr o. unfold ndDeploymentStatus. cbn. rewrite Hn. cbn.
  unfold deployment_status. rewrite bool_decide_and.
  destruct (bool_decide _ && bool_decide _); [|destruct (bool_decide (n = 0%Z))];
    intros [-> ->]; (split; [done|]); eexists; (split; [reflexivity|]); unfold deployment_of; cbn.
  - rewrite status_MarkTrue. by case_decide.
  - rewrite status_Remove. by case_decide.
  - rewrite status_Set, False_spec. by case_decide.
Qed.

(** The StatefulSet that was read back. *)
Definition read_back (ev : event Ext) : option StatefulSetObs :=
  match ev with Ev e r =>
    match e in Ext R return R → option StatefulSetObs with
    | StatefulSetCreateOrPatch _ _ => λ r,
        match r.1 with
        | (res, None) => if bool_decide (res = emptyResult) then Some r.2 else None
        | _ => None
        end
    | _ => λ _, None
    end r
  end.

(** The body ends with the condition of the StatefulSet it read back, if it did. *)
Definition reports (n : Z) (tr : list (event Ext)) (o : outcome (mres OVNNorthd RE RE)) : Prop :=
  ∀ ev st, ev ∈ tr → read_back ev = Some st → ∀ i x, ended i x o →
    deployment_of i = deployment_status n st.

Definition asks_for (n : Z) (i : OVNNorthd) : Prop := nd_Replicas (nd_Spec i) = Some n.

Lemma reports_skip {A} n (m : Go OVNNorthd RE A) f i :
  triple (λ _, True) (λ ev, read_back ev = None) True (asks_for n) m (λ _, True) → asks_for n i →
  (∀ j a, asks_for n j → wpM (f a) j (reports n)) → wpM (bind m f) i (reports n).
Proof.
  intros Hm Hi Hf. apply wpM_bind. eapply wpM_mono; [|by apply (Hm i)].
  intros tr o Htr. destruct (Htr ltac:(by apply Forall_true)) as [Hq Ho].
  rewrite Forall_forall in Hq. destruct o as [[j x|j a]|]; cbn beta iota.
  - intros ev st Hev Hst. by rewrite (Hq ev Hev) in Hst.
  - eapply wpM_mono; [|apply Hf, Ho]. intros tr' o' Hr ev st [Hev|Hev]%elem_of_app Hst.
    + by rewrite (Hq ev Hev) in Hst.
    + by apply (Hr ev st Hev Hst).
  - intros ev st Hev Hst. by rewrite (Hq ev Hev) in Hst.
Qed.

(** What follows the condition leaves it. *)
Lemma ndMetrics_keeps_condition v labels :
  triple (λ _, True) (λ ev, read_back ev = None) True (λ i, deployment_of i = v)
    (ndMetrics labels) (λ _, True).
Proof. triples fail with done. Qed.

Lemma ndStatus_reports n stateful labels i :
  asks_for n i →
  wpM (do! ndDeploymentStatus stateful; ndMetrics labels) i (λ tr o,
    Forall (λ ev, read_back ev = None) tr ∧
    ∀ j x, ended j x o → deployment_of j = deployment_status n stateful).
Proof.
  intros Hi. apply wpM_bind. eapply wpM_mono; [|by apply ndDeploymentStatus_reports].
  intros tr o (-> & i' & -> & Hs). cbn beta iota.
  eapply wpM_mono; [|exact (ndMetrics_keeps_condition _ labels i' Hs)].
  intros tr' o' Htr. destruct (Htr ltac:(by apply Forall_true)) as [Hq Ho].
  split; [done|]. intros j x [-> | ->]; apply Ho.
Qed.

(** The migration does not end the body. *)
Lemma ndMigrate_silent n stateful i :
  asks_for n i →
  wpM (ndMigrate stateful) i (λ tr o, Forall (λ ev, read_back ev = None) tr ∧
    match o with
    | Done (Exit _ _) => False
    | Done (Cont j _) => asks_for n j
    | Panicked => True
    end).
Proof.
  intros Hi. unfold ndMigrate, cleanupLegacyDeployment. repeat wp_step; cbn.
  all: split; [|done].
  all: repeat (apply Forall_cons_2; [done|]); apply Forall_nil_2.
Qed.

Lemma ndWorkload_reports n nb sb vars labels topology i :
  asks_for n i →
  wpM (let! stateful := ndWorkload nb sb vars labels topology in
       do! ndMigrate stateful;
       do! ndDeploymentStatus stateful;
       ndMetrics labels) i (reports n).
Proof.
  intros Hi. apply wpM_bind.
  assert (wpM (ndWorkload nb sb vars labels topology) i (λ tr o,
    match o with
    | Done (Cont j st) => asks_for n j ∧ ∀ ev st', ev ∈ tr → read_back ev = Some st' → st' = st
    | _ => Forall (λ ev, read_back ev = None) tr
    end)) as Hw.
  { unfold ndWorkload, lift_go, ndDeploymentRunning, ndConditionError, setCond.
    repeat wp_step; cbn; try (split; [done|]).
    all: try (lazymatch goal with |- Forall _ [] => apply Forall_nil_2
                | |- Forall _ [_] => apply Forall_singleton; cbn end).
    all: try first [done|case_bool_decide; congruence].
    intros ev st' ->%list_elem_of_singleton. cbn. case_bool_decide; congruence. }
  eapply wpM_mono; [|exact Hw]. intros tr [[j x|j st]|]; cbn beta iota.
  - intros Hq ev st Hev Hst. rewrite Forall_forall in Hq. by rewrite (Hq ev Hev) in Hst.
  - intros [Hj Hst].
    apply wpM_bind. eapply wpM_mono; [|exact (ndMigrate_silent n st j Hj)].
    intros tr1 [[j1 x1|j1 []]|] [Hq1 Ho1]; cbn beta iota; [done| |by intros ev st' _ _ ? ? []].
    eapply wpM_mono; [|exact (ndStatus_reports n st labels j1 Ho1)].
    intros tr2 o2 [Hq2 Hr] ev st' Hev Hrb i' x He. rewrite Forall_forall in Hq1, Hq2.
    rewrite !elem_of_app in Hev. destruct Hev as [Hev|[Hev|Hev]].
    + rewrite (Hst ev st' Hev Hrb). by eapply Hr.
    + by rewrite (Hq1 ev Hev) in Hrb.
    + by rewrite (Hq2 ev Hev) in Hrb.
  - intros Hq ev st Hev Hst. rewrite Forall_forall in Hq. by rewrite (Hq ev Hev) in Hst.
Qed.

Lemma asks_for_rbac n cs i :
  asks_for n i → asks_for n (foldl (λ i c, OVNNorthd_RbacConditionsSet c i) i cs).
Proof. revert i. induction cs as [|c cs IH]; intros i Hi; [done|]. by apply IH. Qed.

Lemma ndReconcileNormal_reports n i : asks_for n i → wpM ndReconcileNormal i (reports n).
Proof.
  intros Hi. unfold ndReconcileNormal.
  repeat (apply reports_skip;
    [triples fail with first [done|by apply asks_for_rbac]|done|clear Hi i; intros i ? Hi]).
  by apply ndWorkload_reports.
Qed.

(** C26. In every reconciliation of an OVNNorthd that writes its StatefulSet and reads
    it back without an error or a requeue, however it goes on, the patched status carries
    the Deployment condition that the StatefulSet read back determines: true when its ready
    and its current replicas are both those asked for, zero included; otherwise absent when
    none is asked for and false when some are; the generation the StatefulSet's status was
    observed at plays no part. *)
Theorem nd_deployment_condition {FL : FinalizerLaws L} req i n tr o sts timeout stateful i' perr :
  exec (OVNNorthd_Reconcile req) (Ev (GetOVNNorthd req) (Okay i) :: tr) o →
  nd_Replicas (nd_Spec i) = Some n →
  Ev (StatefulSetCreateOrPatch sts timeout) (emptyResult, None, stateful) ∈ tr →
  Ev (PatchInstance (ObjOVNNorthd i')) perr ∈ tr →
  deployment_of i' = deployment_status n stateful.
Proof.
  intros Hex Hn Hsts Hin. unfold OVNNorthd_Reconcile in Hex.
  destruct (reconcile_patched (GetOVNNorthd req) ndInitStatus
    (λ _, reconcileBody false (λ i, i) ndReconcileNormal)
    (Ev (GetOVNNorthd req) (Okay i) :: tr) o i' perr)
    as (j & tr' & ib & x & ob & Hb & He & Htr & -> & _);
    [by intros ? []|intros _; apply reconcileBody_patchless, ndReconcileNormal_patchless|done
    |by apply elem_of_cons; right|].
  apply (inj2 cons) in Htr as [Hj ->]. apply (f_equal fetched) in Hj as [= <-].
  rewrite elem_of_cons, elem_of_app, list_elem_of_singleton in Hsts.
  destruct Hsts as [?|[Hsts|?]]; [done| |done].
  unfold deployment_of. change (nds_Conditions (nd_Status ?k)) with (cr_Conditions k).
  rewrite status_patched by done. apply reconcileBody_runs in Hb; [|done].
  destruct Hb as [| |trn on _ _ _ Hn'|r _ _]; [by apply elem_of_nil in Hsts..| |].
  - assert (ended ib x on) as Hon.
    { destruct on as [[i1 y|i1 y]|]; destruct He as [[=]|[=]]; subst; first [by left|by right]. }
    exact (proj1 (wp_exec _ _) (ndReconcileNormal_reports n (ndInitStatus i) Hn) _ _ Hn' _ _ Hsts
      eq_refl _ _ Hon).
  - by apply list_elem_of_singleton in Hsts.
Qed.
End deployment_condition.
