(* ===== verification/NorthdManifestProofs.v ===== *)
(** * The objects of ovn-northd are well formed

    The StatefulSet mounts what is there, is restarted by a change of its inputs,
    and connects to the databases it was given. *)
From S2P Require Import Prelude Prog Triples K8s Lib Api ApiMethods Calls DBManifests.
From S2P Require Import DBController Mounts DBManifestProofs NorthdManifests.
From S2P Require Import NorthdController.
#[local] Open Scope go_scope.

Section manifests.
Context {AT : ApiTypes} {CL : CondLib} {L : Lib}.

Definition nd_tls_on (i : OVNNorthd) : bool := tls_Enabled (nd_TLS (nd_Spec i)).
Definition nd_ca_on (i : OVNNorthd) : bool :=
  nonempty (tls_CaBundleSecretName (nd_TLS (nd_Spec i))).
Definition nd_metrics_service (i : OVNNorthd) : tlsService :=
  metricsCertService (nd_MetricsTLS (nd_Spec i)).

(** What the manifest is made of. *)
Lemma nd_StatefulSet_parts {VL : VolumeLaws L} i ls nb sb vars topology sts :
  nd_StatefulSet i ls nb sb vars topology = GOk sts →
  ∃ secret nThreads main,
    let vars' := <["OVN_RUNDIR" := SetValue "/tmp"]> vars in
    ps_InitContainers (pt_Spec (sts_Template sts)) = [] ∧
    (nd_tls_on i = true → tls_SecretName (nd_TLS (nd_Spec i)) = Some secret) ∧
    nd_NThreads (nd_Spec i) = Some nThreads ∧
    containers_of sts =
      main :: (if nd_metrics_on i then [nd_metricsContainer i vars'] else []) ∧
    c_Env main = MergeEnvs [] vars' ∧
    c_Args main = nd_args i nThreads nb sb ++ (if nd_tls_on i then nd_tlsArgs else []) ∧
    c_VolumeMounts main =
      GetNorthdVolumeMounts ++
      (if nd_ca_on i then Ca_CreateVolumeMounts (nd_TLS (nd_Spec i)) else []) ++
      (if nd_tls_on i then tls_CreateVolumeMounts (dbCertService secret) ServiceNameOVNNorthd
       else []) ∧
    volumes_of sts =
      GetNorthdVolumes (om_Name (nd_Meta i)) ++
      (if nd_ca_on i then [Ca_CreateVolume (nd_TLS (nd_Spec i))] else []) ++
      (if nd_tls_on i then [tls_CreateVolume (dbCertService secret) ServiceNameOVNNorthd]
       else []) ++
      (if nd_metrics_on i && nd_tls_on i
       then [tls_CreateVolume (nd_metrics_service i) "metrics-certs"] else []) ∧
    sts_VolumeClaimTemplates sts = [] ∧
    sts_Replicas sts = nd_Replicas (nd_Spec i).
Proof.
  unfold nd_StatefulSet. destruct (nd_NThreads (nd_Spec i)) as [nThreads|]; [|done].
  fold (nd_tls_on i) (nd_ca_on i) (nd_metrics_service i).
  destruct (if nd_tls_on i then _ else _) as [secret|] eqn:Hs; [|done]. intros [= <-].
  exists secret, nThreads. unfold containers_of, volumes_of. cbn [sts_Template].
  eexists. split; [destruct topology; cbn; by rewrite ?ApplyTo_InitContainers|].
  split; [intros Ht; by rewrite Ht in Hs|]. split; [done|].
  split; [|split; [|split; [|split; [|split; [|done]]]]].
  - destruct topology; cbn; rewrite ?ApplyTo_Containers; cbn; destruct (nd_metrics_on i); reflexivity.
  - reflexivity.
  - reflexivity.
  - reflexivity.
  - destruct topology; cbn; rewrite ?ApplyTo_Volumes; cbn;
      by destruct (nd_ca_on i), (nd_tls_on i), (nd_metrics_on i).
Qed.

(** Every volume mounted by a container of the ovn-northd StatefulSet is provided.
    *)
Theorem nd_sts_mounts_provided {VL : VolumeLaws L} i ls nb sb vars topology sts sn :
  nd_StatefulSet i ls nb sb vars topology = GOk sts →
  pod_provided (tpl_Name <$> ndServiceConfigMaps i sn) [] (pt_Spec (sts_Template sts)).
Proof.
  intros Hsts. destruct (nd_StatefulSet_parts _ _ _ _ _ _ _ Hsts)
    as (secret & n & main & Hi & _ & _ & Hc & _ & _ & Hm & Hv & _).
  unfold containers_of, volumes_of in *. unfold pod_provided. rewrite Hi, Hc, Hv. cbn [app].
  apply Forall_cons_2; [rewrite Hm|destruct (nd_metrics_on i) eqn:Hon; provide].
  - unfold GetNorthdVolumeMounts. provide.
    + eapply provided_volume; [by left|done|]. cbn. unfold ndServiceConfigMaps. cbn. set_solver.
    + eapply provided_volume; [right; by left|done|done].
  - unfold nd_metricsContainer. cbn [c_VolumeMounts]. fold (nd_tls_on i) (nd_metrics_service i).
    destruct (nd_tls_on i) eqn:Htls; provide.
    all: first [eapply provided_volume; [right; by left|done|done]
               |eapply provided_volume; [right; right; by left|done|]].
    all: cbn; unfold ndServiceConfigMaps; rewrite Hon; cbn; set_solver.
Qed.

(** ** Restarts *)

Definition nd_hashed (hash : string) (vars : gmap string Setter) : gmap string Setter :=
  <["CONFIG_HASH" := SetValue hash]> vars.

Lemma nd_hashed_lookup hash vars :
  (<["OVN_RUNDIR" := SetValue "/tmp"]> (nd_hashed hash vars) : gmap string Setter)
    !! "CONFIG_HASH" = Some (SetValue hash).
Proof. unfold nd_hashed. rewrite lookup_insert_ne by done. apply lookup_insert_eq. Qed.

(** Every container of the ovn-northd StatefulSet carries the input hash and northd
    the database addresses; a change of any of them changes the pod template. *)
Theorem nd_sts_restarts {VL : VolumeLaws L} {EL : EnvLaws L} i
    ls1 ls2 nb1 nb2 sb1 sb2 h1 h2 v1 v2 t1 t2 s1 s2 :
  nd_StatefulSet i ls1 nb1 sb1 (nd_hashed h1 v1) t1 = GOk s1 →
  nd_StatefulSet i ls2 nb2 sb2 (nd_hashed h2 v2) t2 = GOk s2 →
  (∀ c, c ∈ containers_of s1 → mkEnvVar "CONFIG_HASH" h1 None ∈ c_Env c) ∧
  (∃ c, head (containers_of s1) = Some c ∧
     "--ovnnb-db=" +:+ nb1 ∈ c_Args c ∧ "--ovnsb-db=" +:+ sb1 ∈ c_Args c) ∧
  (h1 ≠ h2 ∨ nb1 ≠ nb2 ∨ sb1 ≠ sb2 → sts_Template s1 ≠ sts_Template s2).
Proof.
  intros Hs1 Hs2.
  destruct (nd_StatefulSet_parts _ _ _ _ _ _ _ Hs1)
    as (? & n1 & m1 & _ & _ & Hn1 & Hc1 & He1 & Ha1 & _).
  destruct (nd_StatefulSet_parts _ _ _ _ _ _ _ Hs2)
    as (? & n2 & m2 & _ & _ & Hn2 & Hc2 & He2 & Ha2 & _).
  assert (mkEnvVar "CONFIG_HASH" h1 None ∈ c_Env m1) as Hm1.
  { rewrite He1. apply MergeEnvs_SetValue; [by apply not_elem_of_nil|apply nd_hashed_lookup]. }
  split; [|split].
  - intros c. rewrite Hc1, elem_of_cons. intros [->|Hin]; [done|].
    destruct (nd_metrics_on i); [|by apply elem_of_nil in Hin].
    apply list_elem_of_singleton in Hin as ->. unfold nd_metricsContainer. cbn [c_Env].
    rewrite nd_hashed_lookup. apply MergeEnvs_SetValue; [|by rewrite lookup_singleton_eq].
    cbn. by intros [|?%elem_of_nil]%elem_of_cons.
  - exists m1. rewrite Hc1, Ha1. unfold nd_args. split; [done|]. split; solve_in.
  - intros Hne Heq. unfold containers_of in *. rewrite Heq, Hc2 in Hc1.
    injection Hc1 as Hm _. subst m2. rewrite Hn1 in Hn2. injection Hn2 as ->.
    rewrite Ha2 in Ha1. apply app_inv_tail in Ha1. unfold nd_args in Ha1.
    injection Ha1 as Hnb Hsb. change (nb2 = nb1) in Hnb. change (sb2 = sb1) in Hsb.
    destruct Hne as [Hne|[Hne|Hne]]; [|congruence..].
    rewrite He2 in Hm1.
    apply MergeEnvs_value with (k := "CONFIG_HASH") (v := h2) in Hm1;
      [congruence|done|apply nd_hashed_lookup].
Qed.
End manifests.
