(* ===== verification/CtlManifestProofs.v ===== *)
(** * The objects of ovn-controller are well formed

    The pods of the three DaemonSets and of the configuration jobs mount what is
    there; the DaemonSets restart when their inputs change; hardening changes the
    security of the OVS pods and nothing else. *)
From S2P Require Import Prelude Prog Triples K8s Lib Api ApiMethods Calls Webhook.
From S2P Require Import DBManifests Mounts CtlNetworks CtlManifests CtlController.
#[local] Open Scope go_scope.

Section manifests.
Context {AT : ApiTypes} {CL : CondLib} {L : Lib}.

Definition oc_tls_on (i : OVNController) : bool := tls_Enabled (oc_TLS (oc_Spec i)).
Definition ds_pod (ds : DaemonSetDef) : PodSpec := pt_Spec (ds_Template ds).

(** What the OVN DaemonSet is made of. *)
Lemma CreateOVNDaemonSet_parts i hash ls topology ds :
  CreateOVNDaemonSet i hash ls topology = GOk ds →
  ∃ secret main,
    let svc := dbCertService secret in
    (oc_tls_on i = true → tls_SecretName (oc_TLS (oc_Spec i)) = Some secret) ∧
    ps_InitContainers (ds_pod ds) = [] ∧
    ps_Containers (ds_pod ds) = [main] ∧
    c_Env main = MergeEnvs [] (hashEnv hash) ∧
    c_VolumeMounts main = GetOVNControllerVolumeMounts false ++
      (if oc_tls_on i then tls_CreateVolumeMounts svc ServiceNameOVNController else []) ++
      (if oc_tls_on i && oc_ca i then Ca_CreateVolumeMounts (oc_TLS (oc_Spec i)) else []) ∧
    ps_Volumes (ds_pod ds) =
      GetOVNControllerVolumes (om_Name (oc_Meta i)) (om_Namespace (oc_Meta i)) false ++
      (if oc_tls_on i then [tls_CreateVolume svc ServiceNameOVNController] else []) ++
      (if oc_tls_on i && oc_ca i then [Ca_CreateVolume (oc_TLS (oc_Spec i))] else []) ∧
    ds_Name ds = ServiceNameOVNController.
Proof.
  unfold CreateOVNDaemonSet. destruct (GetProbeSet _) as [ps [e|]]; [done|].
  fold (oc_tls_on i).
  destruct (if oc_tls_on i then _ else _) as [secret|] eqn:Hs; [|done]. intros [= <-].
  exists secret. eexists. split; [intros Ht; by rewrite Ht in Hs|]. done.
Qed.

(** The OVS containers, by their mounts and the hash they run with. *)
Lemma CreateOVSDaemonSet_parts {VL : VolumeLaws L} i hash ls ann topology hardened :
  let p := ds_pod (CreateOVSDaemonSet i hash ls ann topology hardened) in
  let sc := Some (getOVSContainerSecurityContext hardened privilegedOVSCapabilities) in
  let part c := (c_VolumeMounts c, c_Env c, c_SecurityContext c) in
  part <$> ps_InitContainers p ++ ps_Containers p =
    [(GetOVSDbVolumeMounts, MergeEnvs [] (hashEnv hash), sc);
     (GetOVSDbVolumeMounts, MergeEnvs [] (hashEnv hash), sc);
     (GetVswitchdVolumeMounts, MergeEnvs [] (hashEnv hash), sc)] ∧
  ps_Volumes p = GetOVSVolumes (om_Name (oc_Meta i)) (om_Namespace (oc_Meta i)).
Proof.
  unfold CreateOVSDaemonSet, ds_pod. cbn [ds_Template]. cbv zeta.
  case_bool_decide; destruct topology; cbn [pt_Spec];
    rewrite ?ApplyTo_InitContainers, ?ApplyTo_Containers, ?ApplyTo_Volumes; done.
Qed.

(** ** Volumes *)

(** Every volume mounted by a container of the OVN, OVS and metrics DaemonSets and
    of the configuration job is provided. *)
Theorem oc_mounts_provided {VL : VolumeLaws L} i hash ls ann topology ds hardened endpoint pod :
  (CreateOVNDaemonSet i hash ls topology = GOk ds →
   pod_provided [tpl_Name (ocScripts i)] [] (ds_pod ds)) ∧
  pod_provided [tpl_Name (ocScripts i)] []
    (ds_pod (CreateOVSDaemonSet i hash ls ann topology hardened)) ∧
  pod_provided [tpl_Name (GetMetricsConfigMap i)] []
    (ds_pod (CreateMetricsDaemonSet i hash ls topology)) ∧
  pod_provided [tpl_Name (ocScripts i); tpl_Name (ocExtraScripts i)] []
    (job_Spec (ovnConfigJob i ls endpoint pod)).
Proof.
  split; [|split; [|split]].
  - intros Hds. destruct (CreateOVNDaemonSet_parts _ _ _ _ _ Hds)
      as (secret & main & _ & Hi & Hc & _ & Hm & Hv & _).
    unfold pod_provided. rewrite Hi, Hc, Hv. cbn [app]. apply Forall_cons_2; [|apply Forall_nil_2].
    rewrite Hm. unfold GetOVNControllerVolumeMounts. provide; find_volume.
  - unfold pod_provided. destruct (CreateOVSDaemonSet_parts i hash ls ann topology hardened)
      as (Hc & Hv). rewrite Hv. apply Forall_forall. intros c Hin.
    apply (list_elem_of_fmap_2 (λ c, (c_VolumeMounts c, c_Env c, c_SecurityContext c))) in Hin.
    rewrite Hc in Hin. rewrite !elem_of_cons, elem_of_nil in Hin.
    destruct Hin as [[= -> _ _]|[[= -> _ _]|[[= -> _ _]|[]]]];
      unfold GetOVSDbVolumeMounts, GetVswitchdVolumeMounts; provide; find_volume.
  - unfold pod_provided, CreateMetricsDaemonSet, ds_pod.
    cbn [ds_Template pt_Spec ps_InitContainers ps_Containers ps_Volumes app].
    apply Forall_cons_2; [|apply Forall_nil_2]. cbn [c_VolumeMounts].
    fold (oc_tls_on i). provide; find_volume.
  - unfold pod_provided, ovnConfigJob.
    cbn [job_Spec ps_InitContainers ps_Containers ps_Volumes app].
    apply Forall_cons_2; [|apply Forall_nil_2]. cbn [c_VolumeMounts].
    unfold GetOVNControllerVolumeMounts. provide; find_volume.
Qed.

(** ** Restarts *)

Lemma hashEnv_lookup hash : hashEnv hash !! "CONFIG_HASH" = Some (SetValue hash).
Proof. apply lookup_singleton_eq. Qed.

(** The containers of a DaemonSet run with the hash of its inputs. *)
Definition ds_hashed (hash : string) (ds : DaemonSetDef) : Prop :=
  Forall (λ c, mkEnvVar "CONFIG_HASH" hash None ∈ c_Env c) (ps_Containers (ds_pod ds)).

Lemma hashed_env {EL : EnvLaws L} base hash :
  "CONFIG_HASH" ∉ ev_Name <$> base →
  mkEnvVar "CONFIG_HASH" hash None ∈ MergeEnvs base (hashEnv hash).
Proof. intros Hb. apply MergeEnvs_SetValue; [done|apply hashEnv_lookup]. Qed.

(** Every container of the three DaemonSets of an OVNController carries the hash of
    its inputs. *)
Theorem oc_hash_restarts {VL : VolumeLaws L} {EL : EnvLaws L} i hash ls ann topology ds hardened :
  (CreateOVNDaemonSet i hash ls topology = GOk ds → ds_hashed hash ds) ∧
  ds_hashed hash (CreateOVSDaemonSet i hash ls ann topology hardened) ∧
  ds_hashed hash (CreateMetricsDaemonSet i hash ls topology).
Proof.
  split; [|split].
  - intros Hds. destruct (CreateOVNDaemonSet_parts _ _ _ _ _ Hds)
      as (secret & main & _ & _ & Hc & He & _).
    unfold ds_hashed. rewrite Hc. apply Forall_cons_2; [|apply Forall_nil_2].
    rewrite He. by apply hashed_env, not_elem_of_nil.
  - destruct (CreateOVSDaemonSet_parts i hash ls ann topology hardened) as [Hc _].
    apply Forall_forall. intros c Hin.
    assert (c ∈ ps_InitContainers (ds_pod (CreateOVSDaemonSet i hash ls ann topology hardened)) ++
      ps_Containers (ds_pod (CreateOVSDaemonSet i hash ls ann topology hardened))) as Hin'
      by solve_in.
    apply (list_elem_of_fmap_2 (λ c, (c_VolumeMounts c, c_Env c, c_SecurityContext c))) in Hin'.
    rewrite Hc in Hin'. rewrite !elem_of_cons, elem_of_nil in Hin'.
    destruct Hin' as [[= _ -> _]|[[= _ -> _]|[[= _ -> _]|[]]]];
      by apply hashed_env, not_elem_of_nil.
  - apply Forall_cons_2; [|apply Forall_nil_2]. apply hashed_env. cbn.
    by rewrite list_elem_of_singleton.
Qed.

(** ** Hardening *)

(** The containers of the OVS pods, init containers included. *)
Definition ovs_containers (ds : DaemonSetDef) : list Container :=
  ps_InitContainers (ds_pod ds) ++ ps_Containers (ds_pod ds).

(** A container without its security context. *)
Definition unsecured (c : Container) : Container :=
  mkContainer (c_Name c) (c_Image c) (c_Command c) (c_Args c) None (c_Env c)
    (c_VolumeMounts c) (c_Resources c) (c_ReadinessProbe c) (c_LivenessProbe c)
    (c_StartupProbe c) (c_PreStop c) (c_TerminationMessagePolicy c).

(** The OVS containers run under the runtime's seccomp profile exactly when
    hardening is asked for, with the same capabilities, and nothing else of the pod depends
    on it. *)
Theorem ovs_hardening {VL : VolumeLaws L} i hash ls ann topology
    (hardened : bool) :
  let ds b := CreateOVSDaemonSet i hash ls ann topology b in
  Forall (λ c, ∃ sc, c_SecurityContext c = Some sc ∧
      sc_SeccompProfile sc = (if hardened then Some SeccompProfileTypeRuntimeDefault else None) ∧
      sc_Privileged sc = Some true ∧
      sc_Capabilities sc = Some (mkCapabilities privilegedOVSCapabilities []))
    (ovs_containers (ds hardened)) ∧
  unsecured <$> ovs_containers (ds true) = unsecured <$> ovs_containers (ds false) ∧
  ps_Volumes (ds_pod (ds true)) = ps_Volumes (ds_pod (ds false)).
Proof.
  intros ds. split; [|split].
  - destruct (CreateOVSDaemonSet_parts i hash ls ann topology hardened) as [Hc _].
    apply Forall_forall. intros c Hin. unfold ovs_containers in Hin.
    apply (list_elem_of_fmap_2 (λ c, (c_VolumeMounts c, c_Env c, c_SecurityContext c))) in Hin.
    unfold ds in Hin. rewrite Hc in Hin. rewrite !elem_of_cons, elem_of_nil in Hin.
    destruct Hin as [[= _ _ ->]|[[= _ _ ->]|[[= _ _ ->]|[]]]];
      eexists; (split; [done|]); by destruct hardened.
  - unfold ds, ovs_containers, ds_pod, CreateOVSDaemonSet. cbn [ds_Template]. cbv zeta.
    case_bool_decide; destruct topology; cbn [pt_Spec];
      rewrite ?ApplyTo_InitContainers, ?ApplyTo_Containers; done.
  - unfold ds. destruct (CreateOVSDaemonSet_parts i hash ls ann topology true) as [_ ->].
    by destruct (CreateOVSDaemonSet_parts i hash ls ann topology false) as [_ ->].
Qed.
End manifests.
