(* ===== verification/CtlNetworksProofs.v ===== *)
(** * What the network attachments of ovn-controller are

    The list of networks as a function of the specification, whatever order Go
    enumerates the maps in; and the definitions the operator writes, which are its
    own. *)
From S2P Require Import Prelude Prog Triples K8s Lib Api ApiMethods Calls Shared.
From S2P Require Import SharedProofs CtlNetworks.
#[local] Open Scope go_scope.

Section networks.
Context {AT : ApiTypes} {CL : CondLib} {L : Lib}.

(** ** Order *)

Lemma slices_Contains_perm l1 l2 x : l1 ≡ₚ l2 → slices_Contains l1 x = slices_Contains l2 x.
Proof. intros Hp. unfold slices_Contains. apply bool_decide_ext. by rewrite Hp. Qed.

(** C21. The networks of an OVNController, its requests and their result, do not depend
    on the order in which Go iterates over the two maps. *)
Theorem networks_order_independent {S} (s : S) nk1 nk2 bk1 bk2 i labels na tr o :
  nk1 ≡ₚ nk2 → bk1 ≡ₚ bk2 →
  (exec (additionalNetworksFrom nk1 bk1 i labels na s) tr o ↔
   exec (additionalNetworksFrom nk2 bk2 i labels na s) tr o) ∧
  physicalNetworksFrom nk1 = physicalNetworksFrom nk2.
Proof.
  intros Hnk Hbk. split.
  - revert s tr o. change (additionalNetworksFrom (S := S) nk1 bk1 i labels na ≡
                           additionalNetworksFrom (S := S) nk2 bk2 i labels na).
    unfold additionalNetworksFrom.
    rewrite (sort_Strings_Permutation (nk1 ++ na) (nk2 ++ na)) by by rewrite Hnk.
    apply bind_proper; [|by intros nets]. apply foldM_equiv. intros acc x.
    unfold additionalNetwork. by rewrite (slices_Contains_perm bk1 bk2).
  - unfold physicalNetworksFrom. by rewrite (sort_Strings_Permutation nk1 nk2).
Qed.

(** ** Ownership *)

(** The event writes a network attachment definition. *)
Definition writes_nad (ev : event Ext) : Prop :=
  match ev with Ev e _ =>
    match e with CreateNAD _ | UpdateNAD _ => True | _ => False end
  end.

(** A definition is created when there was none of the name, with [i] as its owner,
    and updated when [i] owns it, in its configuration alone. *)
Definition nad_justified (i : OVNController) (t : list (event Ext)) (ev : event Ext) : Prop :=
  let ns := om_Namespace (oc_Meta i) in
  match ev with Ev e _ =>
    match e with
    | CreateNAD n => nad_Namespace n = ns ∧
        nad_OwnerReferences n = [mkOwnerRef (oc_Kind i) (om_Name (oc_Meta i))] ∧
        ∃ err, IsNotFound err = true ∧ Ev (GetNAD ns (nad_Name n)) (Fail err) ∈ t
    | UpdateNAD n => ∃ nad name, Ev (GetNAD ns name) (Okay nad) ∈ t ∧ nad_owned i nad = true ∧
        n = mkNAD (nad_Name nad) (nad_Namespace nad) (nad_Labels nad) (nad_OwnerReferences nad)
              (nad_Config n)
    | _ => False
    end
  end.

Lemma nad_justified_app i tr t ev : nad_justified i t ev → nad_justified i (tr ++ t) ev.
Proof.
  destruct ev as [R []]; cbn; try done.
  - intros (Hns & Ho & err & He & Hin). split; [done|]. split; [done|]. exists err.
    split; [done|]. solve_in.
  - intros (nad & name & Hin & Hrest). exists nad, name. split; [solve_in|done].
Qed.

(** The definition [name] is as the operator wants it: created or updated with the
    configuration [cfg], or left to its owner. *)
Definition nad_ensured (i : OVNController) (tr : list (event Ext)) (n : string * string) : Prop :=
  let ns := om_Namespace (oc_Meta i) in
  (∃ nad, Ev (GetNAD ns n.1) (Okay nad) ∈ tr ∧ nad_owned i nad = false) ∨
  (∃ nad, nad_Name nad = n.1 ∧ nad_Config nad = n.2 ∧ Ev (CreateNAD nad) None ∈ tr) ∨
  (∃ nad nad', Ev (GetNAD ns n.1) (Okay nad) ∈ tr ∧ nad_Name nad' = nad_Name nad ∧
     nad_Config nad' = n.2 ∧ Ev (UpdateNAD nad') None ∈ tr).

Lemma nad_ensured_mono i n tr tr' : tr ⊆ tr' → nad_ensured i tr n → nad_ensured i tr' n.
Proof.
  intros Hsub [(d & H1 & H2)|[(d & H1 & H2 & H3)|(d & d' & H1 & H2 & H3 & H4)]].
  - left. exists d. auto.
  - right; left. exists d. auto.
  - right; right. exists d, d'. auto.
Qed.

(** What a step leaves: its writes are justified, and the networks [l] ensured. *)
Definition nets_ensured (i : OVNController) (l : list (string * string))
    (tr : list (event Ext)) : Prop :=
  guarded (nad_justified i) writes_nad tr ∧ Forall (nad_ensured i tr) l.

Lemma nets_ensured_app i l1 l2 tr1 tr2 :
  nets_ensured i l1 tr1 → nets_ensured i l2 tr2 → nets_ensured i (l1 ++ l2) (tr1 ++ tr2).
Proof.
  intros [Hg1 H1] [Hg2 H2]. split.
  - apply guarded_app; [|done|done]. intros ???. apply nad_justified_app.
  - apply Forall_app_intro; [eapply Forall_impl; [exact H1|]|eapply Forall_impl; [exact H2|]];
      intros n; apply nad_ensured_mono; set_solver.
Qed.

Lemma nets_ensured_nil i : nets_ensured i [] [].
Proof. split; [apply guarded_nil|apply Forall_nil_2]. Qed.

Lemma nets_ensured_one i n tr :
  guarded (nad_justified i) writes_nad tr → nad_ensured i tr n → nets_ensured i [n] tr.
Proof. intros Hg Hn. split; [done|]. apply Forall_cons_2; [done|apply Forall_nil_2]. Qed.

Lemma createOrUpdate_spec {S X} i labels physNet cfg (s : S) :
  wpM (createOrUpdateNetworkAttachmentDefinition (X := X) i labels physNet cfg) s (λ tr o,
    ∃ r, o = Done (Cont s r) ∧ guarded (nad_justified i) writes_nad tr ∧
      (r = None → nad_ensured i tr (physNet, cfg))).
Proof.
  unfold createOrUpdateNetworkAttachmentDefinition. repeat wp_step.
  all: cbn; eexists; (split; [done|]); split; try done.
  all: try (repeat (apply guarded_cons; [|]); try apply guarded_nil; cbn; try tauto; intros _).
  all: try (split; [done|]; split; [done|]; eexists; split; [eassumption|]; solve_in).
  all: try (eexists _, _; split; [solve_in|done]).
  - right; right. eexists _, _. split; [solve_in|]. split; [|split; [|subst; solve_in]]; done.
  - left. eexists. split; [solve_in|done].
  - right; left. eexists. split; [|split; [|subst; solve_in]]; done.
Qed.

(** ** The list of networks *)

Definition is_bond (i : OVNController) (k : string) : bool :=
  slices_Contains (maps_Keys (oc_BondConfiguration (oc_Spec i))) (nicAt i k).
Definition linksOf (i : OVNController) (k : string) : list string :=
  bond_Links (bondAt i (nicAt i k)).
Definition link_net (link : string) : string * string :=
  (linkName link, defineNADConfig (linkName link) link).

(** The networks the operator makes for the key [k], with their configurations: a
    bond comes after its links. *)
Definition made_of (i : OVNController) (na : list string) (k : string)
    : list (string * string) :=
  if slices_Contains na k then []
  else if is_bond i k then
    (link_net <$> linksOf i k) ++
    [(k, defineBondNADConfig k (bondAt i (nicAt i k)) (linkName <$> linksOf i k))]
  else [(k, defineNADConfig k (nicAt i k))].
(** The networks of the key [k]: the attachments of the specification are there. *)
Definition networks_of (i : OVNController) (na : list string) (k : string) : list string :=
  if slices_Contains na k then [k] else (made_of i na k).*1.

Definition keys_of (i : OVNController) (na : list string) : list string :=
  sort_Strings (maps_Keys (oc_NicMappings (oc_Spec i)) ++ na).
(** A bond without links. *)
Definition bad_bond (i : OVNController) (na : list string) (k : string) : Prop :=
  slices_Contains na k = false ∧ is_bond i k = true ∧ linksOf i k = [].

Lemma createLinkNADs_spec {S} i labels links (s : S) :
  wpM (createLinkNADs i labels links) s (λ tr o,
    ∃ r, ended s r o ∧ guarded (nad_justified i) writes_nad tr ∧
      ∀ names, r = Okay names →
        names = linkName <$> links ∧ nets_ensured i (link_net <$> links) tr).
Proof.
  unfold createLinkNADs. apply wpM_bind.
  apply (wpM_foldM _ (λ dn acc s' tr, s' = s ∧ acc = linkName <$> dn ∧
    nets_ensured i (link_net <$> dn) tr)).
  - split; [done|]. split; [done|]. apply nets_ensured_nil.
  - intros dn link rest acc s' tr _ (-> & -> & Hdn). apply wpM_bind.
    eapply wpM_mono; [|apply createOrUpdate_spec]. intros tr' o (r & -> & Hg & Hr).
    assert (guarded (nad_justified i) writes_nad (tr ++ tr')) as Hg2.
    { apply guarded_app; [|apply Hdn|done]. intros ???. apply nad_justified_app. }
    destruct r as [e|]; cbn; rewrite app_nil_r.
    + exists (Fail e). split; [by left|]. by split.
    + rewrite !fmap_app. split; [done|]. split; [done|]. apply nets_ensured_app; [done|].
      by apply nets_ensured_one; [|apply Hr].
  - intros acc s' tr (-> & -> & Hdn). cbn. eexists. split; [by right|].
    rewrite app_nil_r. split; [apply Hdn|]. by intros names [= <-].
Qed.

(** The last step of a turn, after the networks [l] of the key. *)
Lemma physNet_step {S} i labels k cfg l tr1 (pre : list string) (s : S) :
  nets_ensured i l tr1 →
  wpM (let! err := createOrUpdateNetworkAttachmentDefinition i labels k cfg in
       match err with
       | Some e => return_ (Fail e)
       | None => ret (pre ++ [k])
       end : Go S (fallible (list string)) (list string)) s
    (λ tr o, guarded (nad_justified i) writes_nad (tr1 ++ tr) ∧
      match o with
      | Done (Cont s' acc') => s' = s ∧ acc' = pre ++ [k] ∧
          nets_ensured i (l ++ [(k, cfg)]) (tr1 ++ tr)
      | Done (Exit s' r) => s' = s ∧ ∃ e, r = Fail e
      | Panicked => False
      end).
Proof.
  intros Hl. apply wpM_bind. eapply wpM_mono; [|apply createOrUpdate_spec].
  intros tr o (r & -> & Hg & Hr).
  assert (guarded (nad_justified i) writes_nad (tr1 ++ tr)) as Hg2.
  { apply guarded_app; [|apply Hl|done]. intros ???. apply nad_justified_app. }
  destruct r as [e|]; cbn; rewrite app_nil_r; (split; [done|]); [by eauto|].
  split; [done|]. split; [done|]. apply nets_ensured_app; [done|].
  by apply nets_ensured_one; [|apply Hr].
Qed.

Lemma additionalNetwork_spec {S} i labels na acc k (s : S) :
  wpM (additionalNetwork i labels na (maps_Keys (oc_BondConfiguration (oc_Spec i))) acc k) s
    (λ tr o, guarded (nad_justified i) writes_nad tr ∧
      match o with
      | Done (Cont s' acc') => s' = s ∧ acc' = acc ++ networks_of i na k ∧
          ¬ bad_bond i na k ∧ nets_ensured i (made_of i na k) tr
      | Done (Exit s' r) => s' = s ∧ ∃ e, r = Fail e
      | Panicked => False
      end).
Proof.
  unfold additionalNetwork, networks_of, made_of, bad_bond.
  destruct (slices_Contains na k).
  { cbn. split; [apply guarded_nil|]. split; [done|]. split; [done|]. split; [by intros [? _]|].
    apply nets_ensured_nil. }
  fold (is_bond i k) (linksOf i k). apply wpM_bind. destruct (is_bond i k).
  - case_bool_decide as Hl; [cbn; split; [apply guarded_nil|by eauto]|].
    apply wpM_bind. eapply wpM_mono; [|apply fn_ended, createLinkNADs_spec].
    intros tr o (r & -> & Hg & Hr). destruct r as [names|e].
    + destruct (Hr names eq_refl) as [-> Hn]. cbn -[createOrUpdateNetworkAttachmentDefinition].
      rewrite app_nil_r. eapply wpM_mono; [|by apply physNet_step].
      intros tr' [[s' r|s' a]|] [Hg' Ho]; (split; [done|]); [done| |done].
      destruct Ho as (-> & -> & He). split; [done|].
      split; [|split; [by intros (_ & _ & ?)|done]].
      rewrite fmap_app, <- app_assoc. f_equal. cbn. f_equal.
      by rewrite <- list_fmap_compose.
    + cbn. rewrite app_nil_r. split; [done|]. by eauto.
  - cbn -[createOrUpdateNetworkAttachmentDefinition].
    eapply wpM_mono; [|apply (physNet_step i labels k _ [] [])]; [|apply nets_ensured_nil].
    intros tr' [[s' r|s' a]|] [Hg' Ho]; (split; [done|]); [done| |done].
    destruct Ho as (-> & -> & He). split; [done|]. split; [done|].
    split; [by intros (_ & ? & _)|done].
Qed.

Lemma CreateOrUpdateAdditionalNetworks_spec {S} i labels na (s : S) :
  wpM (CreateOrUpdateAdditionalNetworks i labels na) s (λ tr o,
    ∃ r, (o = Done (Exit s r) ∨ o = Done (Cont s r)) ∧
      guarded (nad_justified i) writes_nad tr ∧
      ∀ nets, r = Okay nets →
        nets = concat (networks_of i na <$> keys_of i na) ∧
        Forall (λ k, ¬ bad_bond i na k) (keys_of i na) ∧
        Forall (nad_ensured i tr) (concat (made_of i na <$> keys_of i na))).
Proof.
  unfold CreateOrUpdateAdditionalNetworks, additionalNetworksFrom. fold (keys_of i na).
  apply wpM_bind.
  apply (wpM_foldM _ (λ dn acc s' tr, s' = s ∧ acc = concat (networks_of i na <$> dn) ∧
    Forall (λ k, ¬ bad_bond i na k) dn ∧
    nets_ensured i (concat (made_of i na <$> dn)) tr)).
  - split; [done|]. split; [done|]. split; [apply Forall_nil_2|apply nets_ensured_nil].
  - intros dn k rest acc s' tr _ (-> & -> & Hbad & Hdn).
    eapply wpM_mono; [|apply additionalNetwork_spec]. intros tr' o [Hg Ho].
    assert (guarded (nad_justified i) writes_nad (tr ++ tr')) as Hg2.
    { apply guarded_app; [|apply Hdn|done]. intros ???. apply nad_justified_app. }
    destruct o as [[s' r|s' acc]|]; [| |done].
    + destruct Ho as (-> & e & ->). exists (Fail e). split; [by left|]. by split.
    + destruct Ho as (-> & -> & Hk & Hn). rewrite !fmap_app, !concat_app. cbn.
      rewrite !app_nil_r. split; [done|]. split; [done|].
      split; [by apply Forall_app_intro; [|apply Forall_cons_2; [|apply Forall_nil_2]]|].
      by apply nets_ensured_app.
  - intros acc s' tr (-> & -> & Hbad & Hg & Hdn). cbn. eexists. split; [by right|].
    rewrite app_nil_r. split; [done|]. by intros nets [= <-].
Qed.

(** C22. The networks attached to the OVS pods, as a function of the specification; each
    one the operator makes has been created or updated with its configuration, unless
    another owns its name, and a bond without links is an error. *)
Theorem additional_networks_result {S} i labels na (s : S) tr s' nets :
  exec (CreateOrUpdateAdditionalNetworks i labels na s) tr (Done (Cont s' (Okay nets))) →
  s' = s ∧
  nets = concat (networks_of i na <$> keys_of i na) ∧
  Forall (λ k, ¬ bad_bond i na k) (keys_of i na) ∧
  Forall (nad_ensured i tr) (concat (made_of i na <$> keys_of i na)).
Proof.
  intros Hex. destruct (proj1 (wp_exec _ _) (CreateOrUpdateAdditionalNetworks_spec i labels na s)
    _ _ Hex) as (r & [[=]|[= -> <-]] & _ & Hr). split; [done|]. by apply Hr.
Qed.
End networks.
