(* ===== verification/JsonProofs.v ===== *)
(** * The network configurations are what they say

    The texts that the operator stores in network attachments read back as the objects
    they are meant to be, exactly when the names in them need no escape. *)
From S2P Require Import Prelude K8s Lib Api CtlNetworks Json.
#[local] Open Scope go_scope.

#[local] Arguments plain : simpl never.
#[local] Arguments is_quote : simpl never.
#[local] Arguments is_space : simpl never.
#[local] Arguments digit : simpl never.

(** ** Texts *)
Lemma app_assoc_string (a b c : string) : (a +:+ b) +:+ c = a +:+ (b +:+ c).
Proof. induction a as [|x a IH]; [done|]. exact (f_equal (String x) IH). Qed.
Lemma app_nil_string (a : string) : a +:+ "" = a.
Proof. induction a as [|x a IH]; [done|]. exact (f_equal (String x) IH). Qed.
Lemma length_app_string a b : String.length (a +:+ b) = String.length a + String.length b.
Proof. induction a as [|x a IH]; [done|]. exact (f_equal S IH). Qed.

(** ** Strings *)
Lemma read_string_clean x r : clean x = true → read_string (x +:+ dquote +:+ r) = Some (x, r).
Proof.
  induction x as [|c x IH]; [done|]. intros [Hc Hx]%andb_true_iff.
  change (String c x +:+ dquote +:+ r) with (String c (x +:+ dquote +:+ r)).
  cbn [read_string]. rewrite (IH Hx), Hc. unfold plain in Hc. by destruct (is_quote c).
Qed.

Lemma read_string_inv s x r : read_string s = Some (x, r) → clean x = true.
Proof.
  revert x. induction s as [|c s IH]; intros x; cbn; [done|].
  destruct (is_quote c); [by intros [= <- _]|]. destruct (plain c) eqn:Hc; [|done].
  destruct (read_string s) as [[y r']|] eqn:Hr; [|done]. intros [= <- ->].
  cbn. rewrite Hc. by apply IH.
Qed.

(** ** Numbers *)
Definition stops (r : string) : Prop :=
  match r with String c _ => digit c = None | EmptyString => True end.

Lemma read_digits_stop acc r : stops r → read_digits acc r = (acc, r).
Proof. destruct r as [|c r]; cbn; [done|]. by intros ->. Qed.

Lemma digit_char d : (d < 10)%N → digit (pretty_N_char d) = Some d.
Proof.
  intros Hd. assert (d ∈ [0;1;2;3;4;5;6;7;8;9]%N) as Hin.
  { rewrite !elem_of_cons, elem_of_nil. lia. }
  rewrite !elem_of_cons, elem_of_nil in Hin.
  repeat (destruct Hin as [->|Hin]; [reflexivity|]). done.
Qed.

Lemma read_digits_go x s :
  (0 < x)%N → ∃ k, ∀ acc, read_digits acc (pretty_N_go x s) = read_digits (acc * 10 ^ k + x) s.
Proof.
  revert s. induction (N.lt_wf_0 x) as [x _ IH]. intros s Hx.
  rewrite pretty_N_go_step by done.
  assert (x mod 10 < 10)%N as Hmod by (apply N.mod_lt; lia).
  assert (∀ acc, read_digits acc (String (pretty_N_char (x mod 10)) s) =
            read_digits (acc * 10 + x mod 10) s) as Hone
    by (intros acc; cbn [read_digits]; by rewrite digit_char).
  destruct (decide (x / 10 = 0)%N) as [H0|H0].
  - exists 1%N. intros acc. rewrite H0, pretty_N_go_0, Hone. f_equal.
    apply N.div_small_iff in H0; [|done]. rewrite N.mod_small by lia. lia.
  - destruct (IH (x / 10)%N) with (s := String (pretty_N_char (x mod 10)) s) as [k Hk];
      [by apply N.div_lt|by apply N.neq_0_lt_0|].
    exists (N.succ k). intros acc. rewrite Hk, Hone. f_equal. rewrite N.pow_succ_r'.
    pose proof (N.div_mod x 10 ltac:(done)). nia.
Qed.

Lemma pretty_N_go_app x s r : pretty_N_go x s +:+ r = pretty_N_go x (s +:+ r).
Proof.
  revert s. induction (N.lt_wf_0 x) as [x _ IH]. intros s.
  destruct (decide (x = 0)%N) as [->|Hx]; [by rewrite !pretty_N_go_0|].
  rewrite !(pretty_N_go_step x) by lia. by rewrite IH by (apply N.div_lt; lia).
Qed.

Lemma pretty_N_digit (n : N) : ∃ c s, pretty n = String c s ∧ is_Some (digit c).
Proof.
  unfold pretty, pretty_N. destruct (decide (n = 0)%N); [by eexists _, _|].
  assert (∀ x s, (0 < x)%N → ∃ c s', pretty_N_go x s = String c s' ∧ is_Some (digit c)) as Hgo.
  { intros x. induction (N.lt_wf_0 x) as [x _ IH]. intros s Hx. rewrite pretty_N_go_step by done.
    destruct (decide (x / 10 = 0)%N) as [H0|H0].
    - rewrite H0, pretty_N_go_0. eexists _, _. split; [done|].
      rewrite digit_char by (apply N.mod_lt; lia). by eexists.
    - apply IH; [by apply N.div_lt|by apply N.neq_0_lt_0]. }
  apply Hgo. lia.
Qed.

Lemma read_natural_pretty (n : N) r : stops r → read_natural (pretty n +:+ r) = Some (n, r).
Proof.
  intros Hr. assert (read_digits 0 (pretty n +:+ r) = (n, r)) as Hd.
  { unfold pretty, pretty_N. destruct (decide (n = 0)%N) as [->|Hn].
    - change ("0" +:+ r) with (String (pretty_N_char 0) r). cbn [read_digits].
      rewrite digit_char by lia. by apply read_digits_stop.
    - rewrite pretty_N_go_app. destruct (read_digits_go n r) as [k Hk]; [lia|].
      change ("" +:+ r) with r. rewrite Hk. by apply read_digits_stop. }
  destruct (pretty_N_digit n) as (c & s & Hp & [d Hc]). rewrite Hp in *.
  change (String c s +:+ r) with (String c (s +:+ r)) in *. unfold read_natural.
  by rewrite Hc, Hd.
Qed.

Lemma read_number_pretty (z : Z) r : stops r → read_number (pretty z +:+ r) = Some (z, r).
Proof.
  intros Hr. assert (∀ n : N, (match pretty n +:+ r with
      | String c _ => bool_decide (Ascii.N_of_ascii c = 45)%N | EmptyString => true end) = false) as Hminus.
  { intros n. destruct (pretty_N_digit n) as (c & s & -> & Hc). cbn. apply bool_decide_eq_false_2.
    intros H45. unfold digit in Hc. rewrite H45 in Hc. by destruct Hc. }
  assert (∀ n : N, read_number (pretty n +:+ r) = Some (Z.of_N n, r)) as Hnat.
  { intros n. unfold read_number. specialize (Hminus n).
    pose proof (read_natural_pretty n r Hr) as Hn.
    destruct (pretty n +:+ r) as [|c s]; [done|]. by rewrite Hminus, Hn. }
  destruct z as [|p|p].
  - exact (Hnat 0%N).
  - exact (Hnat (Npos p)).
  - change (pretty (Zneg p) +:+ r) with (String (Ascii.ascii_of_N 45) (pretty (Npos p) +:+ r)).
    cbn [read_number]. rewrite read_natural_pretty by done. done.
Qed.

(** ** Pieces of text *)

(** The first steps of the reader. *)
Lemma value_string n x r : clean x = true → value (S n) (quoted x +:+ r) = Some (JString x, r).
Proof.
  intros Hx. unfold quoted. rewrite !app_assoc_string.
  transitivity (match read_string (x +:+ dquote +:+ r) with
                | Some (y, r) => Some (JString y, r) | None => None end); [reflexivity|].
  by rewrite read_string_clean.
Qed.

Lemma value_object n t :
  value (S n) ("{" +:+ t) =
  match expect 125 t with
  | Some r => Some (JObject [], r)
  | None => match members n t with Some (l, r) => Some (JObject l, r) | None => None end
  end.
Proof. reflexivity. Qed.

Lemma value_array n t :
  value (S n) ("[" +:+ t) =
  match expect 93 t with
  | Some r => Some (JArray [], r)
  | None => match elements n t with Some (l, r) => Some (JArray l, r) | None => None end
  end.
Proof. reflexivity. Qed.

Lemma value_space n t : value n (" " +:+ t) = value n t.
Proof. by destruct n. Qed.

(** The first character of a number. *)
Lemma number_start c :
  (45 ≤ Ascii.N_of_ascii c ∧ Ascii.N_of_ascii c ≤ 57)%N →
  ∀ n s, expect 93 (String c s) = None ∧
    value (S n) (String c s) = match read_number (String c s) with
      | Some (z, r) => Some (JNumber z, r) | None => None end.
Proof.
  destruct c as [[] [] [] [] [] [] [] []]; vm_compute Ascii.N_of_ascii; intros [H1 H2];
    try (exfalso; lia); by intros n s.
Qed.

Lemma members_field n k vt v rest :
  clean k = true → value n (vt +:+ rest) = Some (v, rest) →
  members (S n) (jfield k vt +:+ rest) =
  match expect 44 rest, expect 125 rest with
  | Some s3, _ =>
      match members n s3 with Some (l, r) => Some ((k, v) :: l, r) | None => None end
  | None, Some r => Some ([(k, v)], r)
  | None, None => None
  end.
Proof.
  intros Hk Hv. unfold jfield, quoted. rewrite !app_assoc_string.
  transitivity (match read_string (k +:+ dquote +:+ ": " +:+ vt +:+ rest) with
    | None => None
    | Some (k, s1) =>
        match expect 58 s1 ≫= value n with
        | None => None
        | Some (v, s2) =>
            match expect 44 s2, expect 125 s2 with
            | Some s3, _ =>
                match members n s3 with Some (l, r) => Some ((k, v) :: l, r) | None => None end
            | None, Some r => Some ([(k, v)], r)
            | None, None => None
            end
        end
    end); [reflexivity|].
  rewrite read_string_clean by done.
  change (expect 58 (": " +:+ vt +:+ rest)) with (Some (" " +:+ vt +:+ rest)).
  cbn [mbind option_bind]. by rewrite value_space, Hv.
Qed.

(** A text is read as a value, whatever follows that is not a digit. *)
Definition denotes (txt : string) (v : json) : Prop :=
  (∀ n rest, String.length txt ≤ n → stops rest → value n (txt +:+ rest) = Some (v, rest)) ∧
  ∀ rest, expect 93 (txt +:+ rest) = None.

(** A text is read as the members of an object, with its end. *)
Definition fields (txt : string) (l : list (string * json)) : Prop :=
  (∀ n rest, String.length txt ≤ n → members n (txt +:+ rest) = Some (l, rest)) ∧
  ∀ rest, expect 125 (txt +:+ rest) = None.

Lemma length_quoted x : String.length (quoted x) = S (S (String.length x)).
Proof.
  unfold quoted. rewrite !length_app_string.
  change (String.length dquote) with 1. lia.
Qed.

Lemma denotes_string x : clean x = true → denotes (quoted x) (JString x).
Proof.
  intros Hx. split; [|reflexivity]. intros n rest Hn _. rewrite length_quoted in Hn.
  destruct n as [|n]; [lia|]. by apply value_string.
Qed.

Lemma denotes_true : denotes "true" (JBool true).
Proof. split; [|reflexivity]. intros n rest Hn _. cbn in Hn. destruct n as [|n]; [lia|reflexivity]. Qed.

Lemma fmt_d_start z :
  ∃ c s, fmt_d z = String c s ∧ (45 ≤ Ascii.N_of_ascii c ∧ Ascii.N_of_ascii c ≤ 57)%N.
Proof.
  assert (∀ n : N, ∃ c s, pretty n = String c s ∧
            (45 ≤ Ascii.N_of_ascii c ∧ Ascii.N_of_ascii c ≤ 57)%N) as Hn.
  { intros n. destruct (pretty_N_digit n) as (c & s & Hp & Hc). exists c, s. split; [done|].
    unfold digit in Hc. case_bool_decide; [lia|by destruct Hc]. }
  destruct z as [|p|p]; [exact (Hn 0%N)|exact (Hn (Npos p))|].
  exists (Ascii.ascii_of_N 45), (pretty (Npos p)). split; [done|]. by vm_compute.
Qed.

Lemma denotes_number z : denotes (fmt_d z) (JNumber z).
Proof.
  destruct (fmt_d_start z) as (c & s & Hz & Hc). unfold denotes. split.
  - intros n rest Hn Hrest. pose proof (read_number_pretty z rest Hrest) as Hr.
    unfold fmt_d in *. rewrite Hz in *. destruct n as [|n]; [cbn in Hn; lia|].
    change (String c s +:+ rest) with (String c (s +:+ rest)) in *.
    destruct (number_start c Hc n (s +:+ rest)) as [_ ->]. by rewrite Hr.
  - intros rest. rewrite Hz. by destruct (number_start c Hc 0 (s +:+ rest)).
Qed.

Lemma length_jfield k vt :
  String.length (jfield k vt) = 4 + String.length k + String.length vt.
Proof.
  unfold jfield. rewrite !length_app_string, length_quoted.
  change (String.length ": ") with 2. lia.
Qed.

Lemma fields_one k vt v : clean k = true → denotes vt v → fields (jfield k vt +:+ "}") [(k, v)].
Proof.
  intros Hk [Hv _]. split; [|reflexivity]. intros n rest Hn.
  rewrite length_app_string, length_jfield in Hn.
  destruct n as [|n]; [lia|]. rewrite app_assoc_string, (members_field n k vt v); [reflexivity|done|].
  apply Hv; [lia|reflexivity].
Qed.

Lemma fields_cons k vt v sep txt l :
  sep = ", " ∨ sep = "," → clean k = true → denotes vt v → fields txt l →
  fields (jfield k vt +:+ sep +:+ txt) ((k, v) :: l).
Proof.
  intros Hsep Hk [Hv _] [Hl _]. split; [|reflexivity]. intros n rest Hn.
  rewrite !length_app_string, length_jfield in Hn. destruct n as [|n]; [lia|].
  rewrite !app_assoc_string. rewrite (members_field n k vt v); [|done|].
  - destruct Hsep as [->| ->].
    + change (expect 44 (", " +:+ txt +:+ rest)) with (Some (" " +:+ txt +:+ rest)).
      cbv iota. assert (members n (" " +:+ txt +:+ rest) = members n (txt +:+ rest)) as ->
        by by destruct n.
      by rewrite Hl by lia.
    + change (expect 44 ("," +:+ txt +:+ rest)) with (Some (txt +:+ rest)).
      cbv iota. by rewrite Hl by lia.
  - apply Hv; [lia|]. by destruct Hsep as [->| ->].
Qed.

Lemma denotes_object txt l : fields txt l → denotes ("{" +:+ txt) (JObject l).
Proof.
  intros [Hl Hne]. split; [|reflexivity]. intros n rest Hn _.
  rewrite !length_app_string in Hn. cbn [String.length] in Hn. destruct n as [|n]; [lia|].
  rewrite !app_assoc_string, value_object, Hne, Hl by lia. done.
Qed.

(** ** Arrays *)
Definition items (txt : string) (l : list json) : Prop :=
  (∀ n rest, String.length txt < n → elements n (txt +:+ "]" +:+ rest) = Some (l, rest)) ∧
  ∀ rest, expect 93 (txt +:+ rest) = None.

Lemma elements_item n vt v rest :
  value n (vt +:+ rest) = Some (v, rest) →
  elements (S n) (vt +:+ rest) =
  match expect 44 rest, expect 93 rest with
  | Some s2, _ => match elements n s2 with Some (l, r) => Some (v :: l, r) | None => None end
  | None, Some r => Some ([v], r)
  | None, None => None
  end.
Proof. intros Hv. cbn [elements]. by rewrite Hv. Qed.

Lemma items_join t ts v vs :
  denotes t v → Forall2 denotes ts vs → items (strings_Join (t :: ts) ", ") (v :: vs).
Proof.
  intros Ht Hts. revert t v Ht. induction Hts as [|t' v' ts vs Ht' _ IH]; intros t v [Hv Hne].
  - split; [|exact Hne]. intros n rest Hn. destruct n as [|n]; [lia|].
    change (strings_Join [t] ", ") with t in *.
    rewrite (elements_item n t v); [reflexivity|]. apply Hv; [lia|reflexivity].
  - specialize (IH t' v' Ht') as [Hitems _].
    change (strings_Join (t :: t' :: ts) ", ") with (t +:+ ", " +:+ strings_Join (t' :: ts) ", ").
    split; [|intros rest; rewrite app_assoc_string; apply Hne].
    intros n rest Hn. rewrite !length_app_string in Hn. destruct n as [|n]; [lia|].
    rewrite !app_assoc_string.
    rewrite (elements_item n t v); [|apply Hv; [lia|reflexivity]].
    set (tail := strings_Join (t' :: ts) ", " +:+ "]" +:+ rest).
    change (expect 44 (", " +:+ tail)) with (Some (" " +:+ tail)).
    cbv iota. assert (elements n (" " +:+ tail) = elements n tail) as ->
      by (destruct n; [done|cbn [elements]; by rewrite value_space]).
    unfold tail. rewrite Hitems; [done|]. cbn [String.length] in Hn. lia.
Qed.

Lemma denotes_array ts vs :
  Forall2 denotes ts vs → denotes ("[" +:+ strings_Join ts ", " +:+ "]") (JArray vs).
Proof.
  intros Hts. split; [|reflexivity]. intros n rest Hn _.
  rewrite !length_app_string in Hn. cbn [String.length] in Hn. destruct n as [|n]; [lia|].
  rewrite !app_assoc_string, value_array.
  destruct Hts as [|t v ts vs Ht Hts]; [reflexivity|].
  destruct (items_join t ts v vs Ht Hts) as [Hi ->]. by rewrite Hi by lia.
Qed.

(** ** What is read is clean *)
Fixpoint clean_json (v : json) : bool :=
  match v with
  | JString s => clean s
  | JArray l => forallb clean_json l
  | JObject l => forallb (λ kv, clean kv.1 && clean_json kv.2) l
  | JNumber _ | JBool _ => true
  end.

Lemma reader_clean n :
  (∀ s v r, value n s = Some (v, r) → clean_json v = true) ∧
  (∀ s l r, members n s = Some (l, r) → clean_json (JObject l) = true) ∧
  (∀ s l r, elements n s = Some (l, r) → clean_json (JArray l) = true).
Proof.
  induction n as [|n (IHv & IHm & IHe)]; [done|]. split; [|split].
  - intros s v r. cbn [value]. intros Hv.
    repeat case_match; simplify_eq; cbn; try done; eauto using read_string_inv.
  - intros s l r. cbn [members]. intros Hl.
    destruct (expect 34 s ≫= read_string) as [[k s1]|] eqn:Hk; [|done].
    assert (clean k = true) as Hck.
    { destruct (expect 34 s); [|done]. by apply read_string_inv in Hk. }
    destruct (expect 58 s1 ≫= value n) as [[v s2]|] eqn:Hv; [|done].
    assert (clean_json v = true) as Hcv by (destruct (expect 58 s1); [by apply IHv in Hv|done]).
    repeat case_match; simplify_eq; cbn; rewrite Hck, Hcv; [|done].
    match goal with H : members n _ = Some _ |- _ => exact (IHm _ _ _ H) end.
  - intros s l r. cbn [elements]. intros Hl.
    destruct (value n s) as [[v s1]|] eqn:Hv; [|done]. apply IHv in Hv.
    repeat case_match; simplify_eq; cbn; rewrite Hv; [|done].
    match goal with H : elements n _ = Some _ |- _ => exact (IHe _ _ _ H) end.
Qed.

Lemma parse_clean s v : parse_json s = Some v → clean_json v = true.
Proof.
  unfold parse_json. destruct (value _ s) as [[v' r]|] eqn:Hv; [|done].
  case_bool_decide; [|done]. intros [= <-]. by apply reader_clean in Hv.
Qed.

Lemma parse_denotes txt v : denotes txt v → parse_json txt = Some v.
Proof.
  intros [Hv _]. unfold parse_json. rewrite <- (app_nil_string txt) at 2.
  rewrite Hv by done. done.
Qed.

(** ** The configurations *)
Definition hostDevice (physNet interfaceName : string) : json :=
  JObject [("cniVersion", JString "0.3.1"); ("name", JString physNet);
           ("type", JString "host-device"); ("device", JString interfaceName)].

Definition bondDevice (physNet : string) (bond : Bond) (links : list string) : json :=
  JObject [("cniVersion", JString "0.3.1"); ("name", JString physNet); ("type", JString "bond");
           ("mode", JString (bond_Mode bond)); ("failOverMac", JNumber 1);
           ("linksInContainer", JBool true); ("miimon", JString "100");
           ("mtu", JNumber (bond_Mtu bond));
           ("links", JArray ((λ link, JObject [("name", JString link)]) <$> links))].

(** Follow the text, piece by piece. *)
Ltac denote :=
  repeat match goal with
  | |- denotes ("{" +:+ _) _ => apply denotes_object
  | |- denotes (quoted _) _ => apply denotes_string
  | |- denotes "true" _ => apply denotes_true
  | |- denotes "1" _ => apply (denotes_number 1)
  | |- denotes (fmt_d _) _ => apply denotes_number
  | |- denotes (bondLinks _) _ => apply denotes_array
  | |- fields (jfield _ _ +:+ "}") _ => apply fields_one
  | |- fields (jfield _ _ +:+ _ +:+ _) _ => apply fields_cons; [first [by left|by right]|..]
  | |- clean _ = true => first [assumption | reflexivity]
  end.

Lemma defineNADConfig_denotes p i :
  clean p = true → clean i = true → denotes (defineNADConfig p i) (hostDevice p i).
Proof. intros Hp Hi. unfold defineNADConfig, hostDevice. denote. Qed.

Lemma defineBondNADConfig_denotes p bond links :
  clean p = true → clean (bond_Mode bond) = true → Forall (λ l, clean l = true) links →
  denotes (defineBondNADConfig p bond links) (bondDevice p bond links).
Proof.
  intros Hp Hm Hl. unfold defineBondNADConfig, bondDevice. denote.
  apply Forall2_fmap, Forall_Forall2_diag. eapply Forall_impl; [exact Hl|].
  intros l Hcl. cbn beta. denote.
Qed.

Lemma linkName_clean s : clean (linkName s) = true.
Proof.
  induction s as [|c s IH]; [done|]. cbn. rewrite IH, andb_true_r.
  destruct (name_char c) eqn:Hc; [|reflexivity].
  unfold name_char in Hc. unfold plain, is_quote.
  rewrite !orb_true_iff, !bool_decide_eq_true in Hc.
  rewrite !andb_true_iff, negb_true_iff, bool_decide_eq_false, !bool_decide_eq_true. lia.
Qed.

(** C40. The configuration of a network or of a bond reads back as the object it
    describes, exactly when the names put into it are free of quotes, backslashes and
    control characters; those of links always are. *)
Theorem nad_config_roundtrip p i bond links :
  (parse_json (defineNADConfig p i) = Some (hostDevice p i) ↔
     clean p = true ∧ clean i = true) ∧
  (parse_json (defineBondNADConfig p bond links) = Some (bondDevice p bond links) ↔
     clean p = true ∧ clean (bond_Mode bond) = true ∧ Forall (λ l, clean l = true) links) ∧
  clean (linkName i) = true.
Proof.
  split; [|split; [|apply linkName_clean]]; split.
  - intros Hp%parse_clean. cbn in Hp. rewrite !andb_true_iff in Hp. tauto.
  - intros [Hp Hi]. by apply parse_denotes, defineNADConfig_denotes.
  - intros Hp%parse_clean. cbn in Hp. rewrite !andb_true_iff in Hp.
    destruct Hp as (_ & [_ Hp] & _ & [_ Hm] & _ & _ & _ & _ & [_ Hl] & _).
    split; [done|]. split; [done|]. apply Forall_forall. intros l Hin%list_elem_of_In.
    rewrite forallb_forall in Hl.
    specialize (Hl (JObject [("name", JString l)])). cbn in Hl.
    rewrite !andb_true_r in Hl. apply Hl, in_map_iff. eauto.
  - intros (Hp & Hm & Hl). by apply parse_denotes, defineBondNADConfig_denotes.
Qed.
