(* ===== verification/CtlProofs.v ===== *)
(** * What the OVNController reconciler guarantees

    DaemonSets are created from inputs that have settled, configuration jobs run once
    every node runs OVS, a ready status is an observed rollout, and the network
    attachments written are the operator's own. *)
From S2P Require Import Prelude Prog Triples Learning K8s Lib Api ApiMethods Calls Shared.
From S2P Require Import SharedProofs Client Webhook DBManifests DBController CtlNetworks.
From S2P Require Import CtlManifests CtlController CtlNetworksProofs.
#[local] Open Scope go_scope.

Section ctl_proofs.
Context {AT : ApiTypes} {CL : CondLib} {L : Lib}.

(** The resource [i] with another status. *)
Definition oc_at (i i' : OVNController) : Prop :=
  ∃ st, i' = mkOVNController (oc_Kind i) (oc_Meta i) (oc_Spec i) st.

Lemma oc_at_refl i : oc_at i i.
Proof. exists (oc_Status i). by destruct i. Qed.

Lemma oc_at_rbac i cs i' :
  oc_at i i' → oc_at i (foldl (λ i c, OVNController_RbacConditionsSet c i) i' cs).
Proof.
  revert i'. induction cs as [|c cs IH]; intros i' Hi; [done|]. apply IH.
  destruct Hi as [st ->]. by eexists.
Qed.

Lemma oc_at_upd f i i' : oc_at i i' → oc_at i (oc_upd_Status f i').
Proof. intros [st ->]. by eexists. Qed.

Lemma oc_at_init i : oc_at i (ocInitMaps (ocInitStatus i)).
Proof. by eexists. Qed.

Ltac oc_leaf :=
  first [ exact Logic.I | by apply oc_at_rbac | by apply oc_at_upd
        | cbn; first [tauto | by intros [=]] ].

(** ** Network attachments *)

Lemma ocNetworks_nads labels i i' :
  oc_at i i' →
  wpM (ocNetworks labels) i' (λ tr _, guarded (nad_justified i) writes_nad tr).
Proof.
  intros [st ->]. unfold ocNetworks. apply wpM_get.
  change (nad_justified i) with (nad_justified (mkOVNController (oc_Kind i) (oc_Meta i) (oc_Spec i) st)).
  apply guarded_last; [|intros r; triples fail with oc_leaf].
  eapply wpM_mono; [|apply fn_ended, CreateOrUpdateAdditionalNetworks_spec].
  by intros tr o (r & _ & Hg & _).
Qed.

Lemma ocReconcileNormal_nads i i' :
  oc_at i i' →
  wpM ocReconcileNormal i' (λ tr _, guarded (nad_justified i) writes_nad tr).
Proof.
Ltac nad_skip :=
    eapply (guarded_skip (oc_at _));
      [ intros ???; apply nad_justified_app | triples fail with oc_leaf
      | eassumption | intros ? ? ? ].
  intros Hi. unfold ocReconcileNormal. do 4 nad_skip.
  apply guarded_last; [by apply ocNetworks_nads|]. intros nets. triples fail with oc_leaf.
Qed.

(** [isNewInstance]. *)
Definition oc_isNew (i : OVNController) : bool := Conditions_isNil (ocs_Conditions (oc_Status i)).

(** C23. A NetworkAttachmentDefinition is created only where there was none, owned by
    the OVNController, and updated only when the OVNController owns it, in its configuration
    alone. *)
Theorem oc_nads_owned {FL : FinalizerLaws L} req tr o :
  exec (OVNController_Reconcile req) tr o →
  guarded (λ t ev, ∃ i, head t = Some (Ev (GetOVNController_ req) (Okay i)) ∧ managed i ∧
             nad_justified i t ev) writes_nad tr.
Proof.
  apply (reconcile_guarded _ ocInitStatus ocInitMaps oc_isNew); try done.
  - intros [R []]; cbn; tauto.
  - intros i Hi _. eapply wpM_mono; [|apply (ocReconcileNormal_nads i), oc_at_init].
    intros tr' o'. cbn beta. apply guarded_mono. intros t ev _ Ht.
    exists i. split; [done|]. split; [done|]. by apply (nad_justified_app i [_; _]).
Qed.

(** ** The inputs of the DaemonSets *)

(** While the hashes of the status are [h]. *)
Definition oc_here (i : OVNController) (h : gmap string string) (i' : OVNController) : Prop :=
  oc_at i i' ∧ ocs_Hash (oc_Status i') = Some h.

(** The certificates are validated; the config maps have been generated with their
    hashes for variables; and the hashes of what that gave are the ones of the status. *)
Definition oc_inputs (i : OVNController) (h : gmap string string) (OVNhash OVShash : string)
    (tr : list (event Ext)) : Prop :=
  ∃ v1 vars vars' j,
    ca_validated i ∅ v1 tr ∧
    cert_validated (oc_TLS (oc_Spec i)) i TLSHashName v1 vars tr ∧
    oc_at i j ∧
    Ev (EnsureConfigMaps (ObjOVNController j) [ocScripts i] (Some vars)) (vars', None) ∈ tr ∧
    (∃ r, Ev (EnsureConfigMaps (ObjOVNController j) [ocExtraScripts i] None) (r, None) ∈ tr) ∧
    ObjectHash (MergeEnvs [] vars') = Okay OVNhash ∧ h !! OVNInputHash = Some OVNhash ∧
    ObjectHash (MergeEnvs [] ∅) = Okay OVShash ∧ h !! OVSInputHash = Some OVShash.

Lemma oc_inputs_mono i h h1 h2 tr tr' : tr ⊆ tr' → oc_inputs i h h1 h2 tr → oc_inputs i h h1 h2 tr'.
Proof.
  intros Hsub (v1 & vars & vars' & j & Hca & Hc & Hj & Hs & (r & He) & Hrest).
  exists v1, vars, vars', j. split; [by eapply ca_validated_mono|].
  split; [by eapply cert_validated_mono|]. split; [done|]. split; [by auto|].
  split; [exists r; by auto|done].
Qed.

Lemma ocTLSInputs_spec i h i' :
  oc_here i h i' →
  quietly is_workload ocTLSInputs i' (λ tr i1 vs, oc_here i h i1 ∧
    (∃ v1, ca_validated i ∅ v1 tr ∧
       cert_validated (oc_TLS (oc_Spec i)) i TLSHashName v1 vs.1 tr) ∧
    metrics_validated i ∅ vs.2 tr).
Proof.
  intros [[st ->] Hh]. unfold ocTLSInputs.
  eapply quietly_bind.
  { eapply quietly_weaken; [|apply validateCaBundle_spec]. intros [R []]; cbn; tauto. }
  intros tr1 i1 v1 [-> Hca]. eapply quietly_bind.
  { unfold validateServiceCert. apply quietly_get.
    eapply quietly_weaken; [|apply validateCert_spec]. intros [R []]; cbn; tauto. }
  intros tr2 i2 v2 [-> Hc]. eapply quietly_bind.
  { eapply quietly_weaken; [|apply validateMetricsCert_spec]. intros [R []]; cbn; tauto. }
  intros tr3 i3 v3 [-> Hm]. split; [solve_quiet|]. cbn. split; [by split; [by eexists|]|].
  split; [exists v1; split|].
  - eapply ca_validated_mono; [|exact Hca]. set_solver.
  - eapply cert_validated_mono; [|exact Hc]. set_solver.
  - eapply metrics_validated_mono; [|exact Hm]. set_solver.
Qed.

Lemma storeHash_here {HL : HashLaws L} {X} vars key i i' :
  oc_at i i' →
  wpM (storeHash (X := X) vars key) i' (λ tr o, tr = [] ∧ ∃ i1 r,
    o = Done (Cont i1 r) ∧ oc_at i i1 ∧
    match ObjectHash (MergeEnvs [] vars) with
    | Fail e => r = Fail e
    | Okay hash => ∃ changed, r = Okay (hash, changed) ∧ (changed = false →
        i1 = i' ∧ default ∅ (ocs_Hash (oc_Status i')) !! key = Some hash)
    end).
Proof.
  intros Hat. unfold storeHash.
  destruct (ObjectHash (MergeEnvs [] vars)) as [hash|e] eqn:Ho; repeat wp_step; cbn.
  all: split; [done|]; eexists _, _; split; [done|].
  all: try (destruct (SetHash_spec (default ∅ (ocs_Hash (oc_Status i'))) key hash) as [Hc _];
    change (cr_Hash i') with (ocs_Hash (oc_Status i')) in *;
    match goal with H : SetHash _ _ _ = _ |- _ => rewrite H in Hc; cbn in Hc end).
  - split; [by apply oc_at_upd|]. by exists true.
  - split; [done|]. exists false. split; [done|]. intros _. split; [done|].
    symmetry in Hc. by apply negb_false_iff, bool_decide_eq_true in Hc.
  - done.
Qed.

Lemma ocInputHashes_spec {HL : HashLaws L} vars1 vars2 i h i' :
  oc_here i h i' →
  wpM (ocInputHashes vars1 vars2) i' (λ tr o, tr = [] ∧
    match o with
    | Done (Cont i1 (h1, h2)) => oc_here i h i1 ∧
        ObjectHash (MergeEnvs [] vars1) = Okay h1 ∧ h !! OVNInputHash = Some h1 ∧
        ObjectHash (MergeEnvs [] vars2) = Okay h2 ∧ h !! OVSInputHash = Some h2
    | Done (Exit i1 x) => x = (emptyResult, None)
    | Panicked => ∃ e, ObjectHash (MergeEnvs [] vars1) = Fail e ∨
                       ObjectHash (MergeEnvs [] vars2) = Fail e
    end).
Proof.
  intros [Hat Hh]. unfold ocInputHashes. apply wpM_bind.
  eapply wpM_mono; [|by apply storeHash_here]. intros tr1 o1 (-> & i1 & r1 & -> & Hat1 & Hr1).
  apply wpM_bind. eapply wpM_mono; [|by apply storeHash_here].
  intros tr2 o2 (-> & i2 & r2 & -> & Hat2 & Hr2).
  destruct (ObjectHash (MergeEnvs [] vars1)) as [h1|e1]; [|by subst; cbn; eauto].
  destruct Hr1 as (c1 & -> & Hc1).
  destruct (ObjectHash (MergeEnvs [] vars2)) as [h2|e2]; [|by subst; cbn; eauto].
  destruct Hr2 as (c2 & -> & Hc2).
  destruct c1; [by cbn|]. destruct c2; [by cbn|]. cbn.
  destruct (Hc1 eq_refl) as [-> Hl1]. destruct (Hc2 eq_refl) as [-> Hl2].
  rewrite Hh in Hl1, Hl2. cbn in Hl1, Hl2. by repeat split.
Qed.

Lemma ocServiceConfig_spec {HL : HashLaws L} vars i h i' :
  oc_here i h i' →
  quietly is_workload (ocServiceConfig vars) i' (λ tr i1 hs, oc_here i h i1 ∧
    ∃ vars' j, oc_at i j ∧
      Ev (EnsureConfigMaps (ObjOVNController j) [ocScripts i] (Some vars)) (vars', None) ∈ tr ∧
      (∃ r, Ev (EnsureConfigMaps (ObjOVNController j) [ocExtraScripts i] None) (r, None) ∈ tr) ∧
      ObjectHash (MergeEnvs [] vars') = Okay hs.1 ∧ h !! OVNInputHash = Some hs.1 ∧
      ObjectHash (MergeEnvs [] ∅) = Okay hs.2 ∧ h !! OVSInputHash = Some hs.2).
Proof.
  intros [[st ->] Hh]. unfold ocServiceConfig. cbv zeta.
  set (j := mkOVNController (oc_Kind i) (oc_Meta i) (oc_Spec i) st) in *.
  eapply quietly_bind with (Q1 := λ tr i' r, i' = j ∧ (r.2 = None →
      Ev (EnsureConfigMaps (ObjOVNController j) [ocScripts i] (Some vars)) (r.1, None) ∈ tr ∧
      ∃ m, Ev (EnsureConfigMaps (ObjOVNController j) [ocExtraScripts i] None) (m, None) ∈ tr)).
  { unfold quietly, ocGenerateServiceConfigMaps. repeat wp_step; cbn.
    all: split; [solve_quiet|]; split; [done|]; try done.
    intros Hr. split; [solve_in|]. destruct r0 as [m e]. cbn in Hr. subst.
    exists m. solve_in. }
  intros tr1 i1 [vars' [e|]] [-> Hr]; [by unfold quietly, ocServiceConfigError, ocConditionError,
    setCond; repeat wp_step; cbn; split; [solve_quiet|]|].
  destruct (Hr eq_refl) as [Hs [m He]]. cbn in Hs.
  eapply quietly_bind with (Q1 := λ _ i2 hs, oc_here i h i2 ∧
    ObjectHash (MergeEnvs [] vars') = Okay hs.1 ∧ h !! OVNInputHash = Some hs.1 ∧
    ObjectHash (MergeEnvs [] ∅) = Okay hs.2 ∧ h !! OVSInputHash = Some hs.2).
  { eapply wpM_mono; [|apply (ocInputHashes_spec vars' ∅ i h); by split; [eexists|]].
    intros tr o [-> Ho]. split; [solve_quiet|]. destruct o as [[|i2 [h1 h2]]|]; [done| |done].
    exact Ho. }
  intros tr2 i2 [h1 h2] [Hhere Hhs]. cbn in Hhs. split; [solve_quiet|]. cbn.
  destruct Hhere as [Hat2 Hh2]. split; [split; [by apply oc_at_upd|done]|].
  exists vars', j. split; [by eexists|]. split; [solve_in|]. split; [exists m; solve_in|done].
Qed.

(** ** The DaemonSets *)

Definition creates_ds (ev : event Ext) : Prop :=
  match ev with Ev e _ => match e with DaemonSetCreateOrPatch _ _ => True | _ => False end end.

Lemma creates_ds_workload ev : creates_ds ev → is_workload ev.
Proof. destruct ev as [R []]; cbn; tauto. Qed.

Definition ovn_labels : gmap string string := {[AppSelector := ServiceNameOVNController]}.
Definition ovs_labels : gmap string string := {[AppSelector := ServiceNameOVS]}.

(** The config map of the metrics, with the labels it is generated with. *)
Definition metricsConfigMap (i : OVNController) : Template :=
  let cm := GetMetricsConfigMap i in
  mkTemplate (tpl_Name cm) (tpl_Namespace cm) (tpl_Type cm) (tpl_AdditionalTemplate cm)
    (tpl_InstanceType cm) (ocLabels i) (tpl_ConfigOptions cm).

(** The config map of the metrics has been generated in [tr] with the variables [mvars],
    and [hash] is that of the variables it gave back. *)
Definition metrics_hashed (i : OVNController) (mvars : gmap string Setter) (hash : string)
    (tr : list (event Ext)) : Prop :=
  ∃ j vars, oc_at i j ∧
    Ev (EnsureConfigMaps (ObjOVNController j) [metricsConfigMap i] (Some mvars)) (vars, None) ∈ tr ∧
    ObjectHash (MergeEnvs [] vars) = Okay hash.

(** A DaemonSet asked for after [tr] is one of the three of [i], with the hash of its
    inputs. *)
Definition oc_ds_shape (i : OVNController) (OVNhash OVShash : string)
    (mvars : gmap string Setter) (tr : list (event Ext)) (ev : event Ext) : Prop :=
  match ev with Ev e _ =>
    match e with
    | DaemonSetCreateOrPatch ds _ =>
        (∃ topology, CreateOVNDaemonSet i OVNhash ovn_labels topology = GOk ds) ∨
        (∃ annotations topology hardened,
           ds = CreateOVSDaemonSet i OVShash ovs_labels annotations topology hardened) ∨
        (oc_metrics_on i = true ∧ ∃ hash topology, metrics_hashed i mvars hash tr ∧
           ds = CreateMetricsDaemonSet i hash ocMetricsLabels topology)
    | _ => True
    end
  end.

Lemma metrics_hashed_mono i mvars hash tr tr' :
  tr ⊆ tr' → metrics_hashed i mvars hash tr → metrics_hashed i mvars hash tr'.
Proof. intros Hsub (j & vars & Hj & Hin & Hh). exists j, vars. auto. Qed.

Lemma oc_ds_shape_mono i h1 h2 mvars tr tr' ev :
  tr ⊆ tr' → oc_ds_shape i h1 h2 mvars tr ev → oc_ds_shape i h1 h2 mvars tr' ev.
Proof.
  intros Hsub. destruct ev as [R []]; try done.
  intros [?|[?|(Hon & hash & topo & Hm & ->)]]; [by left|by right; left|]. right; right.
  split; [done|]. exists hash, topo. split; [by eapply metrics_hashed_mono|done].
Qed.

Lemma CreateOVNDaemonSet_at i i' : oc_at i i' → CreateOVNDaemonSet i' = CreateOVNDaemonSet i.
Proof. by intros [st ->]. Qed.

(** What is known of the DaemonSets while a run goes on: all that happened. *)
Definition shaping {X A} (i : OVNController) (h1 h2 : string) (mvars : gmap string Setter)
    (K : list (event Ext)) (m : Go OVNController X A) (R : list (event Ext) → A → Prop) : Prop :=
  learns (λ ev, [ev]) (oc_ds_shape i h1 h2 mvars) (oc_at i) K m R.

Lemma shaping_lift_go i h1 h2 mvars K {X A} (g : go A) :
  shaping i h1 h2 mvars K (lift_go (X := X) g) (λ _ r, ∀ a, r = Okay a → g = GOk a).
Proof.
  unfold shaping, lift_go. destruct g; [apply learns_ret|apply learns_ret|by apply learns_panic];
    by intros ? [= <-].
Qed.

Lemma shaping_hash i h1 h2 mvars K vars {X} :
  shaping i h1 h2 mvars K (createMetricsHashOfInputHashes (X := X) vars)
    (λ _ r, ∀ h, r = Okay h → ObjectHash (MergeEnvs [] vars) = Okay h).
Proof.
  unfold shaping, createMetricsHashOfInputHashes, storeHash.
  eapply (learns_bind _ _ _ _ _ _ (λ _ r, ∀ h c, r = Okay (h, c) →
    ObjectHash (MergeEnvs [] vars) = Okay h)).
  - learning fail with (try by apply oc_at_upd). all: by intros ? ? [= <- _].
  - intros K' [[h c]|e] _ Hr; apply learns_ret; [|done]. intros ? [= <-]. by eapply Hr.
Qed.

Ltac shape_leaf :=
  first
    [ exact Logic.I | by apply oc_at_upd | by apply oc_at_rbac
    | cbv beta iota delta [oc_ds_shape]; left; eexists;
      match goal with H : oc_at ?i ?i' |- _ => rewrite <- (CreateOVNDaemonSet_at i i' H) end;
      solve [eauto]
    | cbn; right; left; repeat match goal with H : oc_at _ _ |- _ => destruct H as [? ->] end;
      by eexists _, _, _ ].

Lemma oc_after_inputs i h1 h2 mvars K :
  shaping i h1 h2 mvars K
    (let! nets := ocNetworks ovs_labels in
     let! r := reconcileInit in
     do! returnUnlessDone r;
     let! r := reconcileUpdate in
     do! returnUnlessDone r;
     let! r := reconcileUpgrade in
     do! returnUnlessDone r;
     let! topology := ocTopology ovn_labels in
     let! dset := ocOVNDaemonSet h1 ovn_labels topology in
     let! ovsdset := ocOVSDaemonSet h2 ovs_labels nets.1 topology in
     do! ocNetworkStatus nets.2 ovs_labels;
     let! metricsdset := ocMetrics mvars topology in
     do! ocRollout dset ovsdset metricsdset;
     ocConfigJobs ovn_labels) (λ _ _, True).
Proof.
  unfold shaping. learning (idtac; lazymatch goal with
    | |- learns _ _ _ _ (bind (lift_go _) _) _ =>
        eapply learns_bind; [apply shaping_lift_go|intros ? ? ? ?]
    | |- learns _ _ _ _ (bind (createMetricsHashOfInputHashes _) _) _ =>
        eapply learns_bind; [apply shaping_hash|intros ? ? ? ?]
    end) with (try shape_leaf).
  all: cbv beta in *.
  - left. match goal with Hi : oc_at i ?j, Hg : ∀ _, _ → CreateOVNDaemonSet ?j _ _ _ = _ |- _ =>
      rewrite (CreateOVNDaemonSet_at i j Hi) in Hg; by eexists; apply Hg end.
  - right; left. match goal with Hi : oc_at i ?j |- context [CreateOVSDaemonSet ?j] =>
      destruct Hi as [? ->]; by eexists _, _, _ end.
  - right; right.
    match goal with Hon : oc_metrics_on ?j = true, Hi : oc_at i ?j |- _ =>
      split; [by destruct Hi as [? ->]|] end.
    match goal with Hi : oc_at i ?j |- context [CreateMetricsDaemonSet ?j ?h] =>
      exists h; eexists; split; [|by destruct Hi as [? ->]] end.
    match goal with
    | Hh : ∀ _, Okay ?h = _ → ObjectHash (MergeEnvs [] ?vars) = _, Hi : oc_at i ?j,
      Hin : [Ev (EnsureConfigMaps (to_object ?j) _ _) (?vars, _)] ⊆ _ |- metrics_hashed _ _ ?h ?K =>
        assert ([Ev (EnsureConfigMaps (ObjOVNController j) [metricsConfigMap i] (Some mvars))
          (vars, None)] ⊆ K) as Hk
          by (destruct Hi as [? ->]; etransitivity; [exact Hin|still_known]);
        exists j, vars; split; [exact Hi|split; [apply Hk; left|by apply Hh]]
    end.
Qed.

Lemma oc_rbac_spec i h i' :
  oc_here i h i' →
  quietly is_workload (reconcileRbac OVNController_RbacConditionsSet ocRbacRules) i'
    (λ tr i1 _, oc_here i h i1).
Proof.
  intros [Hi Hh].
  assert (∀ cs i', ocs_Hash (oc_Status (foldl (λ i c, OVNController_RbacConditionsSet c i) i' cs))
    = ocs_Hash (oc_Status i')) as Hfold.
  { induction cs as [|c cs IH]; intros j; [done|]. cbn. by rewrite IH. }
  unfold quietly, reconcileRbac, returnUnlessDone. repeat wp_step.
  all: cbn; split; [solve_quiet|try done]. split; [by apply oc_at_rbac|by rewrite Hfold].
Qed.

Lemma learned_events (tr : list (event Ext)) : learned (λ ev, [ev]) tr = tr.
Proof. induction tr as [|ev tr IH]; [done|]. unfold learned in *. cbn. by rewrite IH. Qed.

Lemma ocReconcileNormal_settled {HL : HashLaws L} i h i' :
  oc_here i h i' →
  wpM ocReconcileNormal i' (λ tr _, guarded (λ t ev, ∃ h1 h2 mvars,
    oc_inputs i h h1 h2 t ∧ metrics_validated i ∅ mvars t ∧ oc_ds_shape i h1 h2 mvars t ev)
    creates_ds tr).
Proof.
Ltac oc_phase H :=
    eapply guarded_bind;
      [eapply quietly_weaken; [apply creates_ds_workload|eapply H; eassumption]|cbn beta].
  intros Hi. unfold ocReconcileNormal.
  oc_phase oc_rbac_spec. intros tr1 i1 _ Hi1.
  eapply guarded_bind with (Q := λ _ i' _, oc_here i h i').
  { split; [solve_quiet|]. destruct Hi1 as [Hat Hh]. split; [by apply oc_at_upd|done]. }
  intros tr2 i2 _ Hi2.
  oc_phase ocTLSInputs_spec. intros tr3 i3 [vars mvars] (Hi3 & (v1 & Hca & Hc) & Hm). cbn in Hc, Hm.
  oc_phase ocServiceConfig_spec.
  intros tr4 i4 [h1 h2] (Hi4 & vars' & j & Hj & Hs & [m He] & Hhs). cbn in Hhs.
  eapply wpM_mono; [|exact (oc_after_inputs i h1 h2 mvars [] i4 (proj1 Hi4))].
  intros tr5 o [Hshape _] t ev t2 -> Hev. specialize (Hshape t ev t2 eq_refl Logic.I).
  cbv beta in Hshape. rewrite learned_events in Hshape. exists h1, h2, mvars. split; [|split].
  - exists v1, vars, vars', j. split; [|split; [|split; [done|split; [|split; [|done]]]]].
    + eapply ca_validated_mono; [|exact Hca]. set_solver.
    + eapply cert_validated_mono; [|exact Hc]. set_solver.
    + solve_in.
    + exists m. solve_in.
  - eapply metrics_validated_mono; [|exact Hm]. set_solver.
  - eapply oc_ds_shape_mono; [|exact Hshape]. set_solver.
Qed.

(** C3. The DaemonSets of an OVNController are written only for a managed resource that
    has been reconciled before, after its secrets were validated and its config maps
    generated with their hashes, and when the resulting hashes are those already stored in
    the status; the OVN and OVS DaemonSets are built with those hashes, and the metrics
    DaemonSet, only when metrics are on, with the hash of the variables that its own config
    map, generated with the hash of the metrics certificate, gave back earlier in the same
    run. *)
Theorem oc_daemonsets_settled {FL : FinalizerLaws L} {HL : HashLaws L} req tr o :
  exec (OVNController_Reconcile req) tr o →
  guarded (λ t ev, ∃ i h1 h2 mvars, head t = Some (Ev (GetOVNController_ req) (Okay i)) ∧
             managed i ∧ oc_isNew i = false ∧
             oc_inputs i (default ∅ (ocs_Hash (oc_Status i))) h1 h2 t ∧
             metrics_validated i ∅ mvars t ∧ oc_ds_shape i h1 h2 mvars t ev)
    creates_ds tr.
Proof.
  apply (reconcile_guarded _ ocInitStatus ocInitMaps oc_isNew); try done.
  - intros [R []]; cbn; tauto.
  - intros i Hi Hnew. eapply wpM_mono;
      [|apply (ocReconcileNormal_settled i (default ∅ (ocs_Hash (oc_Status i)))); by split; [eexists|]].
    intros tr' o'. cbn beta. apply guarded_mono. intros t ev _ (h1 & h2 & mvars & Hin & Hm & Hs).
    assert (∀ p : list (event Ext), t ⊆ p ++ t) as Hsub by set_solver.
    exists i, h1, h2, mvars. split; [done|]. split; [done|]. split; [done|].
    split; [by eapply oc_inputs_mono, Hin|]. split; [by eapply metrics_validated_mono, Hm|].
    by eapply oc_ds_shape_mono, Hs.
Qed.

(** ** Configuration jobs *)

Definition runs_job (ev : event Ext) : Prop :=
  match ev with Ev e _ => match e with DoJob _ _ _ _ _ => True | _ => False end end.

(** The job is the one of a pod of [i], for the address of an SB cluster. *)
Definition job_of (i : OVNController) (endpoint : string) (pods : list Pod) (ev : event Ext)
    : Prop :=
  match ev with Ev e _ =>
    match e with
    | DoJob j _ _ _ _ => ∃ pod, pod ∈ pods ∧ j = ovnConfigJob i ovn_labels endpoint pod
    | _ => True
    end
  end.
Definition job_justified (i : OVNController) (t : list (event Ext)) (ev : event Ext) : Prop :=
  ∃ items sb endpoint pods,
    Ev (ListOVNDBClusters (om_Namespace (oc_Meta i)) ∅) (Okay items) ∈ t ∧
    sb ∈ items ∧ db_DBType (db_Spec sb) = SBDBType ∧ GetInternalEndpoint sb = Okay endpoint ∧
    Ev (ListPods (om_Namespace (oc_Meta i)) {["service" := ServiceNameOVNController]}) (Okay pods)
      ∈ t ∧
    job_of i endpoint pods ev.

Lemma job_justified_app i tr t ev : job_justified i t ev → job_justified i (tr ++ t) ev.
Proof.
  intros (items & sb & a & pods & H1 & H2 & H3 & H4 & H5 & H6).
  exists items, sb, a, pods. split; [solve_in|]. split; [done|]. split; [done|].
  split; [done|]. split; [solve_in|done].
Qed.

(** The numbers the jobs wait for, as the status has them. *)
Definition oc_counts (i : OVNController) (desired ready : Z) (i' : OVNController) : Prop :=
  oc_at i i' ∧ ocs_DesiredNumberScheduled (oc_Status i') = desired ∧
  ocs_OVSNumberReady (oc_Status i') = ready.

Lemma oc_jobs_of i endpoint pods :
  triple (λ _, True) (job_of i endpoint pods) True (oc_at i)
    (do! forM (ovnConfigJob i ovn_labels endpoint <$> pods) ocRunJob;
     do! markTrue ServiceConfigReadyCondition (Msg "condition.ServiceConfigReadyMessage" []);
     ret (emptyResult, None) : Go OVNController RE RE) (λ _, True).
Proof.
  apply (triple_bind _ _ _ _ _ _ (λ _, True)).
  - apply triple_forM. intros j Hj. apply list_elem_of_fmap in Hj as (pod & -> & Hpod).
    triples fail with (first [exact Logic.I | by apply oc_at_upd | by exists pod]).
  - intros _ _. triples fail with (first [exact Logic.I | by apply oc_at_upd]).
Qed.

Lemma ocConfigJobs_guarded i desired ready i' :
  oc_counts i desired ready i' →
  wpM (ocConfigJobs ovn_labels) i'
    (λ tr _, guarded (λ t ev, ready = desired ∧ job_justified i t ev) runs_job tr).
Proof.
  intros ([st ->] & Hd & Hr). unfold ocConfigJobs. apply wpM_get.
  unfold GetDBClusterByType, getDBClusters. apply wpM_bind. apply wpM_bind. cbn [wpM call wp].
  intros r. destruct r as [items|e]; [|cbn; by apply guarded_quiet; solve_quiet].
  destruct (list_find _ _) as [[n sb]|] eqn:Hf; [|cbn; apply guarded_quiet; solve_quiet].
  apply list_find_Some in Hf as (Hl & Ht & _). cbn [wpM ret wp app].
  case_bool_decide as Hne; [cbn; apply guarded_quiet; solve_quiet|].
  apply wpM_bind. unfold ConfigJob, getOVNControllerPods. apply wpM_bind, wpM_bind.
  cbn [wpM call wp]. intros r. destruct r as [pods|e]; [|cbn; apply guarded_quiet; solve_quiet].
  cbn [wpM ret wp app]. destruct (GetInternalEndpoint sb) as [a|e] eqn:Ha;
    [|cbn; apply guarded_quiet; solve_quiet].
  cbn [wpM ret wp app]. cbn in Hd, Hr, Hne.
  eapply wp_mono;
    [|apply (guarded_local (oc_at i) runs_job (job_of i a pods)
        (λ t ev, ready = desired ∧ job_of i a pods ev) _ _ _ (oc_jobs_of i a pods))].
  - intros tr o Hg. apply guarded_cons; [done|]. apply guarded_cons; [done|].
    revert Hg. apply guarded_mono. intros t ev _ [Heq Hj]. split; [done|].
    exists items, sb, a, pods. split; [solve_in|]. split; [by eapply list_elem_of_lookup_2|].
    split; [done|]. split; [done|]. split; [solve_in|done].
  - by eexists.
  - intros t ev _ Hj. split; [|done]. congruence.
Qed.

Definition ds_observed (name : string) (obs : DaemonSetObs) (tr : list (event Ext)) : Prop :=
  ∃ ds timeout, ds_Name ds = name ∧
    Ev (DaemonSetCreateOrPatch ds timeout) (emptyResult, None, obs) ∈ tr.

Lemma ds_observed_mono name obs tr tr' : tr ⊆ tr' → ds_observed name obs tr → ds_observed name obs tr'.
Proof. intros Hsub (ds & t & Hn & Hin). exists ds, t. auto. Qed.

Lemma CreateOVNDaemonSet_Name i hash ls topology ds :
  CreateOVNDaemonSet i hash ls topology = GOk ds → ds_Name ds = ServiceNameOVNController.
Proof.
  unfold CreateOVNDaemonSet. destruct (GetProbeSet _) as [ps [e|]]; [done|].
  destruct (if tls_Enabled _ then _ else _); [|done]. by intros [= <-].
Qed.

Lemma ocOVNDaemonSet_spec hash topology i i' :
  oc_at i i' →
  wpM (ocOVNDaemonSet hash ovn_labels topology) i' (λ tr o,
    Forall (λ ev, ¬ runs_job ev) tr ∧
    match o with
    | Done (Cont s dset) => ds_observed ServiceNameOVNController dset tr ∧
        oc_counts i (ds_DesiredNumberScheduled dset) (ocs_OVSNumberReady (oc_Status i')) s
    | _ => True
    end).
Proof.
  intros [st ->]. unfold ocOVNDaemonSet, ocDaemonSet, ocDeploymentError, ocDeploymentRunning,
    ocConditionError, setCond, lift_go.
  repeat wp_step; cbn; simplify_eq; (split; [solve_quiet|try done]).
  match goal with H : bool_decide _ = true |- _ => apply bool_decide_eq_true_1 in H as -> end.
  split; [|by split; [eexists|]]. eexists _, _. split; [by eapply CreateOVNDaemonSet_Name|].
  solve_in.
Qed.

Lemma ocOVSDaemonSet_spec hash labels ann topology i d r i' :
  oc_counts i d r i' →
  wpM (ocOVSDaemonSet hash labels ann topology) i' (λ tr o,
    Forall (λ ev, ¬ runs_job ev) tr ∧
    match o with
    | Done (Cont s ovsdset) => ds_observed ServiceNameOVS ovsdset tr ∧
        oc_counts i d (ds_NumberReady ovsdset) s
    | _ => True
    end).
Proof.
  intros ([st ->] & Hd & _). unfold ocOVSDaemonSet, ocHardened, ocDaemonSet, ocServiceConfigError,
    ocDeploymentError, ocDeploymentRunning, ocConditionError, setCond.
  repeat wp_step; cbn; simplify_eq; (split; [solve_quiet|try done]).
  match goal with H : bool_decide _ = true |- _ => apply bool_decide_eq_true_1 in H as -> end.
  split; [|by split; [eexists|]]. eexists _, _. split; [|solve_in]. done.
Qed.

(** A job runs when OVS was seen ready on every node ovn-controller is scheduled on. *)
Definition jobs_allowed (i : OVNController) (t : list (event Ext)) (ev : event Ext) : Prop :=
  (∃ dset ovsdset,
     ds_observed ServiceNameOVNController dset t ∧ ds_observed ServiceNameOVS ovsdset t ∧
     ds_NumberReady ovsdset = ds_DesiredNumberScheduled dset) ∧
  job_justified i t ev.

Lemma jobs_allowed_app i tr t ev : jobs_allowed i t ev → jobs_allowed i (tr ++ t) ev.
Proof.
  intros [(d1 & d2 & H1 & H2 & Heq) Hj]. split; [|by apply job_justified_app].
  exists d1, d2. split; [|split; [|done]]; eapply ds_observed_mono; try eassumption; set_solver.
Qed.

(** The phases between the DaemonSets and the jobs keep the numbers. *)
Lemma oc_jobs_last i d r dset ovsdset nas mvars topology i' :
  oc_counts i d r i' →
  wpM (do! ocNetworkStatus nas ovs_labels;
       let! metricsdset := ocMetrics mvars topology in
       do! ocRollout dset ovsdset metricsdset;
       ocConfigJobs ovn_labels) i'
    (λ tr _, guarded (λ t ev, r = d ∧ job_justified i t ev) runs_job tr).
Proof.
Ltac count_skip :=
    eapply (guarded_skip (oc_counts _ _ _));
      [ intros ??? [??]; split; [done|by apply job_justified_app]
      | triples fail with (first [exact Logic.I | cbn; tauto
          | match goal with H : oc_counts _ _ _ _ |- _ =>
              destruct H as (?&?&?); split; [by apply oc_at_upd|done] end])
      | eassumption | intros ? ? ? ].
  intros Hi. do 3 count_skip. by apply ocConfigJobs_guarded.
Qed.

Lemma ocReconcileNormal_jobs i i' :
  oc_at i i' → wpM ocReconcileNormal i' (λ tr _, guarded (jobs_allowed i) runs_job tr).
Proof.
Ltac job_skip :=
    eapply (guarded_skip (oc_at _));
      [ intros ???; apply jobs_allowed_app
      | triples fail with (first [ exact Logic.I | by apply oc_at_rbac | by apply oc_at_upd
                                 | cbn; tauto ])
      | eassumption | intros ? ? ? ].
  intros Hi. unfold ocReconcileNormal. do 12 job_skip.
  apply wpM_bind. eapply wpM_mono; [|eapply ocOVNDaemonSet_spec; eassumption].
  intros tr1 [[s1 x|s1 dset]|] [Hq1 Ho]; [by apply guarded_quiet| |by apply guarded_quiet].
  destruct Ho as [Hobs1 Hc1].
  apply wpM_bind. eapply wpM_mono; [|eapply ocOVSDaemonSet_spec; exact Hc1].
  intros tr2 [[s2 x|s2 ovsdset]|] [Hq2 Ho]; [apply guarded_quiet; by apply Forall_app_intro| |
    apply guarded_quiet; by apply Forall_app_intro].
  destruct Ho as [Hobs2 Hc2].
  eapply wpM_mono; [|eapply oc_jobs_last; exact Hc2].
  intros tr3 o Hg. apply guarded_quiet_app; [done|]. apply guarded_quiet_app; [done|].
  revert Hg. apply guarded_mono. intros t ev _ [Heq Hj].
  split; [|by do 2 apply job_justified_app].
  exists dset, ovsdset. split; [eapply ds_observed_mono; [|exact Hobs1]; set_solver|].
  split; [eapply ds_observed_mono; [|exact Hobs2]; set_solver|done].
Qed.

(** C11. A configuration job is submitted only after the OVS DaemonSet was seen with as
    many ready pods as the OVN DaemonSet has scheduled, for a pod listed in the run and for
    the address of an SB cluster. *)
Theorem oc_jobs_after_rollout {FL : FinalizerLaws L} req tr o :
  exec (OVNController_Reconcile req) tr o →
  guarded (λ t ev, ∃ i, head t = Some (Ev (GetOVNController_ req) (Okay i)) ∧ managed i ∧
             jobs_allowed i t ev) runs_job tr.
Proof.
  apply (reconcile_guarded _ ocInitStatus ocInitMaps oc_isNew); try done.
  - intros [R []]; cbn; tauto.
  - intros i Hi _. eapply wpM_mono; [|apply (ocReconcileNormal_jobs i), oc_at_init].
    intros tr' o'. cbn beta. apply guarded_mono. intros t ev _ Ht.
    exists i. split; [done|]. split; [done|]. by apply (jobs_allowed_app i [_; _]).
Qed.
End ctl_proofs.
