(* ===== verification/CtlPhases.v ===== *)
(** * Readiness of ovn-controller, and its panics

    The rollout test; what a ready status says of the DaemonSets; and when the
    reconciler panics. *)
From S2P Require Import Prelude Prog Triples K8s Lib Api ApiMethods Calls Shared.
From S2P Require Import SharedProofs Client Webhook DBManifests DBController CtlNetworks.
From S2P Require Import CtlManifests CtlController CtlNetworksProofs CtlProofs.
#[local] Open Scope go_scope.

(** ** Rollout *)

(** The controller of the DaemonSet has seen its last change, and every pod it
    schedules is updated, ready and available, or it schedules none. *)
Definition rolled_out (ds : DaemonSetObs) : Prop :=
  (ds_Generation ds ≤ ds_ObservedGeneration ds)%Z ∧
  (ds_DesiredNumberScheduled ds = 0%Z ∨
   ds_NumberReady ds = ds_DesiredNumberScheduled ds ∧
   ds_UpdatedNumberScheduled ds = ds_DesiredNumberScheduled ds ∧
   (ds_NumberUnavailable ds ≤ 0)%Z).

#[export] Instance rolled_out_dec ds : Decision (rolled_out ds).
Proof. unfold rolled_out. apply _. Defined.

Lemma isDaemonSetRolloutComplete_spec ds :
  isDaemonSetRolloutComplete ds = true ↔ rolled_out ds.
Proof.
  unfold isDaemonSetRolloutComplete, rolled_out.
  repeat case_bool_decide; split; intros; try done; lia.
Qed.

Lemma allRolledOut_spec dset ovsdset m :
  allRolledOut dset ovsdset m = true ↔
  rolled_out dset ∧ rolled_out ovsdset ∧ ∀ d, m = Some d → rolled_out d.
Proof.
  unfold allRolledOut. rewrite !andb_true_iff, !isDaemonSetRolloutComplete_spec.
  destruct m as [d|]; [rewrite isDaemonSetRolloutComplete_spec|]; naive_solver.
Qed.

Section ready.
Context {AT : ApiTypes} {CL : CondLib} {L : Lib} {CLaws : CondLaws CL}.

(** While the deployment of [i] is pending. *)
Definition oc_pending (i i' : OVNController) : Prop :=
  oc_at i i' ∧ cond_pending DeploymentReadyCondition (ocs_Conditions (oc_Status i')).

Lemma oc_pending_rbac i c i' :
  cond_Type c ∈ rbacTypes → oc_pending i i' → oc_pending i (OVNController_RbacConditionsSet c i').
Proof.
  intros Hc [Hi Hs]. split; [by apply (oc_at_rbac _ [c])|].
  unfold OVNController_RbacConditionsSet, set_shared. cbn.
  destruct (Conditions_Get _ _); [|done]. apply pending_Set_ne; [|done].
  intros Heq. revert Hc. unfold rbacTypes. rewrite <- Heq, !elem_of_cons, elem_of_nil.
  by intros [|[|[|]]].
Qed.

Lemma oc_pending_upd i f i' :
  ocs_Conditions (f (oc_Status i')) = ocs_Conditions (oc_Status i') →
  oc_pending i i' → oc_pending i (oc_upd_Status f i').
Proof. intros Hf [Hat Hp]. split; [by apply oc_at_upd|]. cbn. by rewrite Hf. Qed.

Lemma oc_pending_conds i f i' :
  cond_pending DeploymentReadyCondition (f (ocs_Conditions (oc_Status i'))) →
  oc_pending i i' → oc_pending i (updConds f i').
Proof. intros Hf [Hat Hp]. split; [by apply oc_at_upd|done]. Qed.

Ltac pend_leaf :=
  first
    [ exact Logic.I | done
    | match goal with H : oc_pending _ _ |- _ =>
        first
          [ apply oc_pending_conds; [|exact H]; destruct H as [_ H];
            first [by apply pending_False | by apply pending_MarkTrue]
          | by apply oc_pending_upd ]
      end ].
Ltac oc_keeps := unfold keeps; triples fail with pend_leaf.

Lemma oc_rbac_keeps i :
  keeps rbac_ok (oc_pending i) (reconcileRbac OVNController_RbacConditionsSet ocRbacRules).
Proof. apply triple_reconcileRbac; [apply oc_pending_rbac|done]. Qed.

Lemma ocDaemonSet_pends i ds i' :
  oc_pending i i' →
  pends rbac_ok (oc_pending i) (ocDaemonSet ds) i' (λ tr _ obs, ds_observed (ds_Name ds) obs tr).
Proof.
  intros Hi. unfold pends, ocDaemonSet, ocDeploymentError, ocDeploymentRunning, ocConditionError,
    setCond.
  repeat wp_step; cbn; intros _; try pend_leaf.
  split; [done|]. match goal with H : bool_decide _ = true |- _ =>
    apply bool_decide_eq_true_1 in H as -> end.
  eexists _, _. split; [done|]. solve_in.
Qed.

Lemma ocOVNDaemonSet_pends i hash labels topology i' :
  oc_pending i i' →
  pends rbac_ok (oc_pending i) (ocOVNDaemonSet hash labels topology) i'
    (λ tr _ obs, ds_observed ServiceNameOVNController obs tr).
Proof.
  intros Hi. unfold pends, ocOVNDaemonSet. apply wpM_get. apply wpM_bind. unfold lift_go.
  destruct (CreateOVNDaemonSet i' hash labels topology) as [ds|e|] eqn:Hds; [|
    unfold ocDeploymentError, ocConditionError, setCond; repeat wp_step; cbn; intros _; pend_leaf|done].
  apply CreateOVNDaemonSet_Name in Hds. cbn [wpM ret wp]. apply wpM_bind.
  eapply wpM_mono; [|by apply ocDaemonSet_pends].
  intros tr [[s x|s obs]|] Htr; cbn; [by rewrite ?app_nil_r|..|done].
  rewrite !app_nil_r. intros Henv. destruct (Htr Henv) as [Hp Hobs]. rewrite Hds in Hobs.
  split; [|done]. by repeat (apply oc_pending_upd; [done|]).
Qed.

Lemma ocOVSDaemonSet_pends i hash labels ann topology i' :
  oc_pending i i' →
  pends rbac_ok (oc_pending i) (ocOVSDaemonSet hash labels ann topology) i'
    (λ tr _ obs, ds_observed ServiceNameOVS obs tr).
Proof.
  intros Hi. unfold pends, ocOVSDaemonSet, ocHardened. apply wpM_bind, wpM_get.
  destruct (GetBoolFromAnnotation _ _) as [[h x]|e];
    [|unfold ocServiceConfigError, ocConditionError, setCond; repeat wp_step; cbn; intros _; pend_leaf].
  cbn [wpM ret wp]. apply wpM_get. apply wpM_bind.
  eapply wpM_mono; [|by apply ocDaemonSet_pends].
  intros tr [[s x1|s obs]|] Htr; cbn; [done| |done].
  rewrite !app_nil_r. intros Henv. destruct (Htr Henv) as [Hp Hobs].
  split; [|done]. by apply oc_pending_upd.
Qed.

(** The exporter runs, and its DaemonSet was observed, or it is off. *)
Definition metrics_observed (i : OVNController) (m : option DaemonSetObs)
    (tr : list (event Ext)) : Prop :=
  match m with
  | Some obs => oc_metrics_on i = true ∧ ds_observed ServiceNameOVNControllerMetrics obs tr
  | None => oc_metrics_on i = false
  end.

Lemma ocMetricsOn_pends i vars topology i' :
  oc_pending i i' →
  pends rbac_ok (oc_pending i) (ocMetricsOn vars topology) i'
    (λ tr _ obs, ds_observed ServiceNameOVNControllerMetrics obs tr).
Proof.
  intros Hi. unfold pends, ocMetricsOn, createMetricsHashOfInputHashes, storeHash, ocDaemonSet, ocServiceConfigError,
    ocDeploymentError, ocDeploymentRunning, ocConditionError, setCond.
  repeat wp_step; cbn; intros _; simplify_eq/=.
  all: repeat match goal with H : bool_decide _ = true |- _ => apply bool_decide_eq_true_1 in H as -> end.
  all: try (split; [|eexists _, _; split; [|solve_in]; done]).
  all: repeat (apply oc_pending_upd; [done|]); try pend_leaf.
  all: split; [repeat apply oc_at_upd; apply Hi|apply pending_False, Hi].
Qed.

Lemma ocMetrics_pends i vars topology i' :
  oc_pending i i' →
  pends rbac_ok (oc_pending i) (ocMetrics vars topology) i'
    (λ tr _ m, metrics_observed i m tr).
Proof.
  intros Hi. unfold pends, ocMetrics. apply wpM_get.
  assert (oc_metrics_on i' = oc_metrics_on i) as -> by by destruct Hi as [[st ->] _].
  destruct (oc_metrics_on i) eqn:Hon; apply wpM_bind.
  - eapply wpM_mono; [|by apply ocMetricsOn_pends].
    intros tr [[s x|s obs]|] Htr; cbn; [done| |done].
    rewrite app_nil_r. intros Henv. destruct (Htr Henv). by split.
  - assert (keeps rbac_ok (oc_pending i) (ocMetricsOff)) as Hoff by oc_keeps.
    eapply wpM_mono; [|by apply Hoff]. intros tr [[s x|s []]|] Htr; cbn; [| |done].
    + intros Henv. apply Htr, Henv.
    + rewrite app_nil_r. intros Henv. split; [by apply Htr|done].
Qed.

(** Every DaemonSet of [i] was observed rolled out. *)
Definition oc_rolled_out (i : OVNController) (tr : list (event Ext)) : Prop :=
  ∃ dset ovsdset m,
    ds_observed ServiceNameOVNController dset tr ∧ ds_observed ServiceNameOVS ovsdset tr ∧
    metrics_observed i m tr ∧
    rolled_out dset ∧ rolled_out ovsdset ∧ ∀ d, m = Some d → rolled_out d.

Lemma metrics_observed_mono i m tr tr' :
  tr ⊆ tr' → metrics_observed i m tr → metrics_observed i m tr'.
Proof.
  destruct m as [obs|]; [|done]. intros Hsub [Hon Hobs]. split; [done|].
  by eapply ds_observed_mono.
Qed.

Lemma oc_rolled_out_mono i tr tr' : tr ⊆ tr' → oc_rolled_out i tr → oc_rolled_out i tr'.
Proof.
  intros Hsub (d1 & d2 & m & H1 & H2 & H3 & H4). exists d1, d2, m.
  eauto 10 using ds_observed_mono, metrics_observed_mono.
Qed.

Lemma ocRollout_settles i dset ovsdset m labels i' (K : list (event Ext) → Prop) :
  oc_pending i i' → (allRolledOut dset ovsdset m = true → ∀ tr, K tr) →
  settles rbac_ok (oc_pending i) (do! ocRollout dset ovsdset m; ocConfigJobs labels) i' K.
Proof.
  intros Hi HK. apply settles_last; [|intros []; oc_keeps].
  unfold ocRollout. destruct (allRolledOut dset ovsdset m); cbn; intros _; [by right; apply HK|].
  left. split; [apply oc_at_upd, Hi|]. cbn. rewrite MarkFalse_spec. apply pending_False, Hi.
Qed.

Lemma ocReconcileNormal_ready i i' :
  oc_pending i i' → settles rbac_ok (oc_pending i) ocReconcileNormal i' (oc_rolled_out i).
Proof.
Ltac ready_skip H :=
    eapply settles_skip;
      [ intros ? ?; apply oc_rolled_out_mono; set_solver | H | eassumption | intros ? ? ? ].
  intros Hi. unfold ocReconcileNormal. ready_skip ltac:(apply oc_rbac_keeps).
  do 11 ready_skip ltac:(oc_keeps).
  eapply settles_bind; [by apply ocOVNDaemonSet_pends|]. intros tr1 s1 dset Hs1 Hd1.
  eapply settles_bind; [by apply ocOVSDaemonSet_pends|]. intros tr2 s2 ovsdset Hs2 Hd2.
  cbn beta in *. ready_skip ltac:(oc_keeps).
  eapply settles_bind; [by apply ocMetrics_pends|]. intros tr3 s3 m Hs3 Hm.
  apply ocRollout_settles; [done|]. intros Hall%allRolledOut_spec tr4. exists dset, ovsdset, m.
  split; [eapply ds_observed_mono; [|exact Hd1]; set_solver|].
  split; [eapply ds_observed_mono; [|exact Hd2]; set_solver|].
  split; [eapply metrics_observed_mono; [|exact Hm]; set_solver|done].
Qed.

Lemma ocReconcileNormal_patchless : patchless ocReconcileNormal.
Proof. unfold patchless. triples fail with (cbn; tauto). Qed.

Lemma ocInit_pending i :
  cond_pending DeploymentReadyCondition (ocs_Conditions (oc_Status (ocInitStatus i))).
Proof.
  assert (∀ t r m, cond_Type (UnknownCondition t r m) = t) as Ht by (intros; apply Unknown_spec).
  unfold ocInitStatus. cbn.
  rewrite <- (Ht DeploymentReadyCondition InitReason
                (Msg "condition.DeploymentReadyInitMessage" [])) at 1.
  apply pending_Init.
  - unfold ocInitConditions. destruct (oc_TopologyRef _); cbn; rewrite !Ht;
      apply (bool_decide_unpack _); vm_compute; exact Logic.I.
  - unfold ocInitConditions. solve_in.
  - destruct (Unknown_spec DeploymentReadyCondition InitReason
      (Msg "condition.DeploymentReadyInitMessage" [])) as [_ ->]. done.
Qed.

(** C4. An OVNController is reported Ready only if the rollout of the OVN and OVS
    DaemonSets, and of the metrics DaemonSet when metrics are on, was seen complete in that
    reconciliation. *)
Theorem oc_deployment_ready {FL : FinalizerLaws L} req tr o i' perr :
  exec (OVNController_Reconcile req) tr o →
  Forall rbac_ok tr →
  Ev (PatchInstance (ObjOVNController i')) perr ∈ tr →
  OVNController_IsReady i' = true →
  ∃ i, head tr = Some (Ev (GetOVNController_ req) (Okay i)) ∧ oc_rolled_out i tr.
Proof.
  intros Hex Henv Hin Hready. unfold OVNController_Reconcile in Hex.
  eapply (reconcile_settled _ ocInitStatus ocInitMaps _ _ ltac:(done) ltac:(done)
    DeploymentReadyCondition _ _ i' perr) in Hex
    as (i & trn & on & ib & x & _ & Hn & He & Hnot & -> & ->);
    [|done|apply ocReconcileNormal_patchless|by intros r []|apply ocInit_pending|done|done|done].
  do 2 apply Forall_cons in Henv as [_ Henv]. apply Forall_app in Henv as [Henv _].
  assert (oc_pending i (ocInitMaps (ocInitStatus i))) as Hi
    by (split; [apply oc_at_init|exact (ocInit_pending i)]).
  exists i. split; [done|]. apply (oc_rolled_out_mono _ trn); [set_solver|].
  refine (proj1 (wp_exec _ _) (ocReconcileNormal_ready i _ Hi) _ _ Hn Henv ib x He _).
  by intros [_ Hp].
Qed.
End ready.

(** ** Panics *)
Section oc_safety.
Context {AT : ApiTypes} {CL : CondLib} {L : Lib}.

(** The object while it is reconciled: a hash map to write to. *)
Definition oc_sane (i : OVNController) : Prop := is_Some (ocs_Hash (oc_Status i)).

Definition oc_safe {X A} (m : Go OVNController X A) (R : A → Prop) : Prop :=
  triple (λ _, True) (λ _, True) False oc_sane m R.

(** The hashes of variables can be computed. *)
Definition hashable : Prop := ∀ vars, ∃ h, ObjectHash (MergeEnvs [] vars) = Okay h.

Lemma CreateOVNDaemonSet_no_panic {TL : TlsLaws L} i h ls topo :
  CreateOVNDaemonSet i h ls topo ≠ GPanic.
Proof.
  unfold CreateOVNDaemonSet. destruct (GetProbeSet _) as [ps [e|]]; [done|].
  destruct (tls_Enabled (oc_TLS (oc_Spec i))) eqn:Htls; [|done].
  destruct (Enabled_SecretName _ Htls) as [n ->]. done.
Qed.

Lemma oc_sane_rbac cs i :
  oc_sane i → oc_sane (foldl (λ i c, OVNController_RbacConditionsSet c i) i cs).
Proof. revert i. induction cs as [|c cs IH]; intros i Hi; [done|]. by apply IH. Qed.

Lemma oc_sane_hash h i : oc_sane i → oc_sane (oc_set_Hash (Some h) i).
Proof. by eexists. Qed.

Lemma storeHash_safe {X} vars key :
  hashable → oc_safe (storeHash (X := X) vars key) (λ r, ∃ x, r = Okay x).
Proof.
  intros Hh. unfold oc_safe, storeHash. eapply triple_bind; [apply triple_get|]. intros i Hi.
  destruct (Hh vars) as [h ->]. destruct (SetHash _ _ _) as [m c].
  apply (triple_bind _ _ _ _ _ _ (λ _, True)).
  - destruct c; [apply triple_modify; [|done]; intros ? _; by eexists|by apply triple_ret].
  - intros _ _. apply triple_ret. by eexists.
Qed.

Lemma ocInputHashes_safe v1 v2 : hashable → oc_safe (ocInputHashes v1 v2) (λ _, True).
Proof.
  intros Hh. unfold oc_safe, ocInputHashes.
  eapply triple_bind; [by apply storeHash_safe|]. intros ? [[h1 c1] ->].
  eapply triple_bind; [by apply storeHash_safe|]. intros ? [[h2 c2] ->].
  triples fail with idtac.
Qed.

Lemma deref_oc_hash_safe {X} i :
  oc_sane i → oc_safe (X := X) (deref (ocs_Hash (oc_Status i))) (λ _, True).
Proof. intros [h ->]. by apply triple_ret. Qed.

Lemma ocReconcileNormal_safe {TL : TlsLaws L} :
  hashable → oc_safe ocReconcileNormal (λ _, True).
Proof.
  intros Hh. unfold oc_safe.
  triples (idtac; lazymatch goal with
    | |- triple _ _ _ _ (bind (lift_go _) _) _ =>
        eapply triple_bind; [apply triple_lift_go;
          intros Hp; by apply CreateOVNDaemonSet_no_panic in Hp|intros ? ?]
    | |- triple _ _ _ _ (ocInputHashes _ _) _ => by apply ocInputHashes_safe
    | |- triple _ _ _ _ (deref (ocs_Hash _)) _ => by apply deref_oc_hash_safe
    end) with (first [exact Logic.I | by apply oc_sane_rbac | by apply oc_sane_hash]).
Qed.

(** C17. The OVNController reconciler panics in no run in which hashing the inputs
    succeeds, whatever the answers of the API server. *)
Theorem oc_panics_on_hash_alone {TL : TlsLaws L} {FL : FinalizerLaws L} req tr o :
  hashable → exec (OVNController_Reconcile req) tr o → o ≠ Panicked.
Proof.
  intros Hh Hex ->. apply reconcile_runs in Hex.
  inversion Hex as [| |i tr' Hb Htr|]; subst.
  apply reconcileBody_runs in Hb; [|done]. inversion Hb as [| |tr2 on _ _ _ Hn Heq1 Heq2|]; subst.
  destruct on as [[]|]; try done.
  assert (oc_sane (ocInitMaps (ocInitStatus i))) as Hs by by eexists.
  by destruct (triple_exec _ _ _ _ _ _ _ _ _ (ocReconcileNormal_safe Hh) Hs Hn
    ltac:(by apply Forall_true)).
Qed.

(** When hashing an input of the OVNController fails the reconciler panics: the
    error it formats is the nil error of an earlier call. *)
Theorem oc_hash_error_panics v1 v2 e i tr o :
  ObjectHash (MergeEnvs [] v1) = Fail e →
  exec (ocInputHashes v1 v2 i) tr o → tr = [] ∧ o = Panicked.
Proof.
  intros He. revert tr o. apply wp_exec. unfold ocInputHashes, storeHash. rewrite He.
  repeat wp_step; cbn; try done; simplify_eq.
Qed.
End oc_safety.
