(* ===== verification/Protocol.v ===== *)
(** * The protocol the three reconcilers share

    Whatever the cluster answers: the status is patched once, last, with a Ready
    condition that sums up the others; nothing is written before the finalizer is
    there or once the resource is being deleted; and a deleted resource is let go
    when the topology is. *)
From S2P Require Import Prelude Prog Triples K8s Lib Api ApiMethods Calls Shared.
From S2P Require Import SharedProofs Client DBManifests DBController DBProofs.
From S2P Require Import NorthdController NorthdProofs CtlController CtlProofs CtlPhases.
#[local] Open Scope go_scope.

Section protocol.
Context {AT : ApiTypes} {CL : CondLib} {L : Lib}.
Context {I : Type} {CR : CustomResource I} {OI : IsObject I} {CRL : CustomResourceLaws I}.

(** ** What is promised of a reconciler *)

(** The Ready condition is true when all the others are. *)
Definition ready_sums_up (cs : Conditions) : Prop :=
  Conditions_IsTrue ReadyCondition cs = true ↔
  ∀ t s, t ≠ ReadyCondition → status_of t cs = Some s → s = ConditionTrue.

(** A reconciliation that read its resource patches it once, at its end, unless it
    panics; the error of the patch is not lost. *)
Definition patch_protocol (fetch : Ext (fallible I)) (p : prog Ext RE) : Prop :=
  ∀ tr o, exec p tr o →
    match o with
    | Panicked => Forall (λ ev, ¬ is_patch ev) tr
    | Done x =>
        (∃ e, tr = [Ev fetch (Fail e)] ∧ x = (emptyResult, if IsNotFound e then None else Some e)) ∨
        (∃ i e, tr = [Ev fetch (Okay i); Ev (NewHelper (to_object i)) (Some e)] ∧
           x = (emptyResult, Some e)) ∨
        (∃ i tr' i' perr,
           tr = Ev fetch (Okay i) :: Ev (NewHelper (to_object i)) None ::
                tr' ++ [Ev (PatchInstance (to_object i')) perr] ∧
           Forall (λ ev, ¬ is_patch ev) tr' ∧
           (∀ e, perr = Some e → x.2 = Some e) ∧
           ready_sums_up (cr_Conditions i'))
    end.

(** The first reconciliation of a resource adds the finalizer and does nothing else;
    that of a deleted one asks the topology and, unless it fails, removes it. *)
Definition lifecycle (isNew : I → bool) (fetch : Ext (fallible I)) (p : prog Ext RE) : Prop :=
  ∀ i tr o,
    exec p (Ev fetch (Okay i) :: Ev (NewHelper (to_object i)) None :: tr) o →
    (om_DeletionTimestamp (cr_Meta i) = None → ¬ has_finalizer i →
       ∃ i' perr, tr = [Ev (PatchInstance (to_object i')) perr] ∧
         om_Finalizers (cr_Meta i') = om_Finalizers (cr_Meta i) ++ [GetFinalizer cr_GoKind]) ∧
    (is_Some (om_DeletionTimestamp (cr_Meta i)) → isNew i = false →
       ∃ last r i' perr,
         tr = [Ev (EnsureDeletedTopologyRef last (om_Name (cr_Meta i))) r;
               Ev (PatchInstance (to_object i')) perr] ∧
         (has_finalizer i' ↔ has_finalizer i ∧ r.2 ≠ None)).

(** Nothing of the cluster is written before the resource has its finalizer, nor once
    it is being deleted; only then is its finalizer taken off the topology. *)
Definition writes_managed (fetch : Ext (fallible I)) (p : prog Ext RE) : Prop :=
  ∀ tr o, exec p tr o →
    guarded (λ t _, ∃ i, head t = Some (Ev fetch (Okay i)) ∧ managed i) is_write tr ∧
    guarded (λ t _, ∃ i, head t = Some (Ev fetch (Okay i)) ∧
               is_Some (om_DeletionTimestamp (cr_Meta i))) drops_finalizer tr.

(** ** The shared code keeps them *)

Context (fetch : Ext (fallible I)) (init prepare : I → I) (isNew : I → bool)
  (normal : Go I RE RE).
Context (Hfetch : ∀ r, is_protocol (Ev fetch r)) (Hget : ∀ r, ¬ is_patch (Ev fetch r)).
Context (Hinit : ∀ i, cr_Meta (init i) = cr_Meta i).
Context (Hprepare : ∀ i, cr_Meta (prepare i) = cr_Meta i).
Context (Hnormal : patchless normal).

Abbreviation the_reconcile :=
  (reconcile fetch init (λ i, reconcileBody (isNew i) prepare normal)).

Lemma patched_sums_up {CLaws : CondLaws CL} saved i :
  ready_sums_up (cr_Conditions (patched saved i)).
Proof.
  unfold ready_sums_up. rewrite IsTrue_status, ready_patched.
  split; intros Hall t s Ht Hs; apply (Hall t s Ht).
  - by rewrite status_patched in Hs.
  - by rewrite status_patched.
Qed.

Lemma reconcile_patch_protocol {CLaws : CondLaws CL} : patch_protocol fetch the_reconcile.
Proof.
  intros tr o Hex.
  destruct (reconcile_runs _ _ _ _ _ Hex) as [err|i err|i tr' Hb|i tr' ib x ob perr Hb He].
  - left. by exists err.
  - right; left. by exists i, err.
  - apply Forall_cons_2; [apply Hget|]. apply Forall_cons_2; [by intros []|].
    eapply patchless_exec; [|exact Hb]. by apply reconcileBody_patchless.
  - right; right. eexists i, tr', _, perr. split; [done|]. split; [|split].
    + eapply patchless_exec; [|exact Hb]. by apply reconcileBody_patchless.
    + by intros e ->.
    + apply patched_sums_up.
Qed.

Lemma deleted_finalizer r i : has_finalizer (deleted r i) ↔ has_finalizer i ∧ r.2 ≠ None.
Proof.
  unfold deleted, has_finalizer, cr_set_Finalizers. destruct (r.2) as [e|].
  - by split; [|intros [? _]].
  - rewrite Meta_Meta. cbn. rewrite list_elem_of_filter. by split; intros [].
Qed.

Lemma patched_Meta saved i : cr_Meta (patched saved i) = cr_Meta i.
Proof. unfold patched. by rewrite Meta_Cond. Qed.

Lemma has_finalizer_Meta i j : cr_Meta i = cr_Meta j → has_finalizer i ↔ has_finalizer j.
Proof. unfold has_finalizer. by intros ->. Qed.

(** The answers in the trace are what they are. *)
Context (Hread : ∀ i j, Ev fetch (Okay i) = Ev fetch (Okay j) → i = j).

Definition helper_of (ev : event Ext) : option (option error) :=
  match ev with Ev e r =>
    match e in Ext R return R → option (option error) with
    | NewHelper _ => λ r, Some r
    | _ => λ _, None
    end r
  end.

(** The body that ran, from the trace of a resource that was read. *)
Lemma reconcile_read {FL : FinalizerLaws L} i tr o :
  exec the_reconcile (Ev fetch (Okay i) :: Ev (NewHelper (to_object i)) None :: tr) o →
  ∃ tr' ob, body_run (isNew i) prepare normal (init i) tr' ob ∧
    match ob with
    | Done (Exit ib x) | Done (Cont ib x) => ∃ perr,
        tr = tr' ++ [Ev (PatchInstance
                           (to_object (patched (initConditionsIfNil (cr_Conditions i)) ib))) perr]
    | Panicked => tr = tr'
    end.
Proof.
  intros Hex. apply reconcile_runs in Hex.
  remember (Ev fetch (Okay i) :: Ev (NewHelper (to_object i)) None :: tr) as tr0 eqn:Htr.
  destruct Hex as [err|j err|j tr' Hb|j tr' ib x ob perr Hb He];
    apply (inj2 cons) in Htr as [Hi Htr]; [done| | |].
  - apply (inj2 cons) in Htr as [Hh _]. by apply (f_equal helper_of) in Hh.
  - apply Hread in Hi as ->. apply (inj2 cons) in Htr as [_ <-].
    exists tr', Panicked. by split; [apply reconcileBody_runs|].
  - apply Hread in Hi as ->. apply (inj2 cons) in Htr as [_ <-].
    exists tr', ob. split; [by apply reconcileBody_runs|]. destruct He as [-> | ->]; by exists perr.
Qed.

Lemma reconcile_lifecycle {FL : FinalizerLaws L} : lifecycle isNew fetch the_reconcile.
Proof.
  intros i tr o Hex. apply reconcile_read in Hex as (tr' & ob & Hb & Htr).
  assert (DeletionTimestamp_IsZero (init i) = true ↔ om_DeletionTimestamp (cr_Meta i) = None) as Hz.
  { unfold DeletionTimestamp_IsZero. rewrite Hinit. by destruct (om_DeletionTimestamp _). }
  assert (has_finalizer (init i) ↔ has_finalizer i) as Hf by by apply has_finalizer_Meta.
  destruct Hb as [H1 H2|H1 H2|trn on H1 H2 H3 H4|r H1 H2].
  - destruct Htr as [perr ->]. split.
    + intros _ _. eexists _, perr. split; [done|].
      rewrite patched_Meta. unfold cr_set_Finalizers. rewrite Meta_Meta, Hinit. done.
    + intros [d Hd] _. rewrite (proj1 Hz H1) in Hd. done.
  - split; [|congruence]. intros Hd Hn. destruct Hn. apply Hf, H2, Hz, Hd.
  - split; [intros _ []; by apply Hf|]. intros [d Hd] _. rewrite (proj1 Hz H2) in Hd. done.
  - split; [intros Hd; apply Hz in Hd; congruence|]. intros _ _. destruct Htr as [perr ->].
    eexists _, r, _, perr. split; [by rewrite Hinit|].
    rewrite (has_finalizer_Meta _ (deleted r (prepare (init i)))) by apply patched_Meta.
    rewrite deleted_finalizer, (has_finalizer_Meta (prepare (init i)) i); [done|].
    by rewrite Hprepare.
Qed.

(** A body that does not call [EnsureDeletedTopologyRef]. *)
Definition dropless (m : Go I RE RE) : Prop :=
  triple (λ _, True) (λ ev, ¬ drops_finalizer ev) True (λ _, True) m (λ _, True).

Lemma reconcile_drops {FL : FinalizerLaws L} tr o :
  (∀ r, ¬ drops_finalizer (Ev fetch r)) → dropless normal → exec the_reconcile tr o →
  guarded (λ t _, ∃ i, head t = Some (Ev fetch (Okay i)) ∧
             is_Some (om_DeletionTimestamp (cr_Meta i))) drops_finalizer tr.
Proof.
  intros Hf Hdrop Hex.
  assert (∀ j trb ob, exec (reconcileBody (isNew j) prepare normal (init j)) trb ob →
    guarded (λ _ _, is_Some (om_DeletionTimestamp (cr_Meta j))) drops_finalizer trb) as Hbody.
  { intros j trb ob Hb. apply reconcileBody_runs in Hb; [|done].
    destruct Hb as [| |trn on _ _ _ Hn|r _ Hz]; [apply guarded_nil..| |].
    - apply guarded_quiet. by destruct (triple_exec _ _ _ _ _ _ _ _ _ Hdrop Logic.I Hn) as [Hd _];
        [by apply Forall_true|].
    - intros t ev t' _ _. unfold DeletionTimestamp_IsZero in Hz. rewrite Hinit in Hz.
      by destruct (om_DeletionTimestamp _). }
  assert (∀ j trb ob, exec (reconcileBody (isNew j) prepare normal (init j)) trb ob →
    guarded (λ t _, ∃ i, head t = Some (Ev fetch (Okay i)) ∧
               is_Some (om_DeletionTimestamp (cr_Meta i))) drops_finalizer
      (Ev fetch (Okay j) :: Ev (NewHelper (to_object j)) None :: trb)) as Hall.
  { intros j trb ob Hb. apply (guarded_quiet_app _ _ [_; _]).
    { apply Forall_cons_2; [apply Hf|]. apply Forall_cons_2; [by intros []|apply Forall_nil_2]. }
    apply (guarded_mono (λ _ _, is_Some (om_DeletionTimestamp (cr_Meta j)))); [|by eapply Hbody].
    intros t ev _ Hd. by exists j. }
  destruct (reconcile_runs _ _ _ _ _ Hex) as [| |j trb Hb|j trb ib x ob perr Hb _].
  - apply guarded_quiet, Forall_cons_2; [apply Hf|apply Forall_nil_2].
  - apply guarded_quiet. apply Forall_cons_2; [apply Hf|].
    apply Forall_cons_2; [by intros []|apply Forall_nil_2].
  - by eapply Hall.
  - rewrite !app_comm_cons. apply guarded_app_quiet; [by eapply Hall|].
    apply Forall_cons_2; [by intros []|apply Forall_nil_2].
Qed.

Lemma reconcile_writes_managed {FL : FinalizerLaws L} :
  (∀ r, ¬ drops_finalizer (Ev fetch r)) → dropless normal → writes_managed fetch the_reconcile.
Proof.
  intros Hf Hdrop tr o Hex. split; [|by eapply reconcile_drops].
  revert Hex. apply (reconcile_guarded _ init prepare isNew); try done.
  - intros [R []]; cbn; tauto.
  - intros i Hi _. apply wp_exec. intros tr' o' _ t1 ev t2 _ _. by exists i.
Qed.
End protocol.

Section kinds.
Context {AT : ApiTypes} {CL : CondLib} {L : Lib}.

Lemma ocMaps_Meta i : cr_Meta (ocInitMaps i) = cr_Meta i.
Proof. done. Qed.

(** C7. For all three reconcilers: a run that does not panic ends before anything else
    when the resource is absent or the helper fails, and otherwise patches the resource
    exactly once, as its last call, with a Ready condition that sums up the others, and
    reports the patch's error. *)
Theorem status_patched_once {CLaws : CondLaws CL} req :
  patch_protocol (GetOVNDBCluster req) (OVNDBCluster_Reconcile req) ∧
  patch_protocol (GetOVNNorthd req) (OVNNorthd_Reconcile req) ∧
  patch_protocol (GetOVNController_ req) (OVNController_Reconcile req).
Proof.
  split; [|split].
  - apply (reconcile_patch_protocol _ dbInitStatus (λ i, i) (λ _, false)); 
      [by intros ? []|apply dbReconcileNormal_patchless|done].
  - apply (reconcile_patch_protocol _ ndInitStatus (λ i, i) (λ _, false)); 
      [by intros ? []|apply ndReconcileNormal_patchless|done].
  - apply (reconcile_patch_protocol _ ocInitStatus ocInitMaps oc_isNew); 
      [by intros ? []|apply ocReconcileNormal_patchless|done].
Qed.

(** C8. For all three reconcilers: a live resource without the finalizer only gets the
    finalizer; a deleted one (for an OVNController, one that had conditions) only drops its
    topology reference and, if that succeeds, its finalizer. *)
Theorem finalizer_lifecycle {FL : FinalizerLaws L} req :
  lifecycle (λ _, false) (GetOVNDBCluster req) (OVNDBCluster_Reconcile req) ∧
  lifecycle (λ _, false) (GetOVNNorthd req) (OVNNorthd_Reconcile req) ∧
  lifecycle oc_isNew (GetOVNController_ req) (OVNController_Reconcile req).
Proof.
  split; [|split].
  - apply (reconcile_lifecycle _ dbInitStatus (λ i, i)); try done.
    intros i j Heq. by apply (f_equal fetched) in Heq as [= ->].
  - apply (reconcile_lifecycle _ ndInitStatus (λ i, i)); try done.
    intros i j Heq. by apply (f_equal fetched) in Heq as [= ->].
  - apply (reconcile_lifecycle _ ocInitStatus ocInitMaps); try done.
    intros i j Heq. by apply (f_equal fetched) in Heq as [= ->].
Qed.

(** [reconcileNormal] is not the one to call [EnsureDeletedTopologyRef]. *)
Lemma dbReconcileNormal_dropless : dropless dbReconcileNormal.
Proof. unfold dropless. triples fail with (cbn; tauto). Qed.
Lemma ndReconcileNormal_dropless : dropless ndReconcileNormal.
Proof. unfold dropless. triples fail with (cbn; tauto). Qed.
Lemma ocReconcileNormal_dropless : dropless ocReconcileNormal.
Proof. unfold dropless. triples fail with (cbn; tauto). Qed.

(** C9. For all three reconcilers: every write to the cluster, other than to the
    resource itself and the release of its topology, happens for a resource that was fetched
    first, is not being deleted and has the finalizer; its topology is released
    (EnsureDeletedTopologyRef) only for a resource that was fetched first and is being
    deleted. *)
Theorem cluster_written_when_managed {FL : FinalizerLaws L} req :
  writes_managed (GetOVNDBCluster req) (OVNDBCluster_Reconcile req) ∧
  writes_managed (GetOVNNorthd req) (OVNNorthd_Reconcile req) ∧
  writes_managed (GetOVNController_ req) (OVNController_Reconcile req).
Proof.
  split; [|split].
  - apply (reconcile_writes_managed _ dbInitStatus (λ i, i) (λ _, false)); try done.
    + by intros ? [].
    + apply dbReconcileNormal_dropless.
  - apply (reconcile_writes_managed _ ndInitStatus (λ i, i) (λ _, false)); try done.
    + by intros ? [].
    + apply ndReconcileNormal_dropless.
  - apply (reconcile_writes_managed _ ocInitStatus ocInitMaps oc_isNew); try done.
    + by intros ? [].
    + apply ocReconcileNormal_dropless.
Qed.
End kinds.
