(* ===== verification/ClientProofs.v ===== *)
(** * Queries and watches find what they should

    The first cluster of a type is the one used, and a change of a secret or a
    topology reaches exactly the resources that name it. *)
From S2P Require Import Prelude Prog Triples K8s Lib Api ApiMethods Calls Client.
#[local] Open Scope go_scope.

Section client_proofs.
Context {AT : ApiTypes} {CL : CondLib}.

(** The first database cluster of the type among those listed is used, and it is an
    error if the list fails or has none. *)
Theorem cluster_by_type {S X} ns ls dbType (s : S) tr (o : outcome (mres S X (fallible OVNDBCluster))) :
  exec (GetDBClusterByType ns ls dbType s) tr o →
  ∃ answer res, tr = [Ev (ListOVNDBClusters ns ls) answer] ∧ o = Done (Cont s res) ∧
    match res with
    | Okay c => ∃ pre post, answer = Okay (pre ++ c :: post) ∧ db_DBType (db_Spec c) = dbType ∧
        Forall (λ c', db_DBType (db_Spec c') ≠ dbType) pre
    | Fail e => answer = Fail e ∨
        ∃ items, answer = Okay items ∧ Forall (λ c, db_DBType (db_Spec c) ≠ dbType) items
    end.
Proof.
  revert tr o. apply wp_exec. unfold GetDBClusterByType, getDBClusters.
  repeat wp_step; cbn; eexists _, _; (split; [done|]); (split; [done|]).
  - match goal with H : list_find _ _ = _ |- _ =>
      apply list_find_Some in H as (Hl & Ht & Hpre) end.
    destruct (list_elem_of_split_length _ _ _ Hl) as (pre & post & -> & Hn).
    exists pre, post. split; [done|]. split; [done|]. apply Forall_forall. intros c' Hin.
    apply list_elem_of_lookup in Hin as [k Hk]. apply (Hpre k).
    + by apply lookup_app_l_Some.
    + apply lookup_lt_Some in Hk. lia.
  - right. eexists. split; [done|].
    match goal with H : list_find _ _ = None |- _ => by apply list_find_None in H end.
  - by left.
Qed.

(** ** Watches *)

(** The specification names the object [n], as a secret or a topology. *)
Definition names_object (s : CommonSpec) (n : string) : Prop :=
  (tls_CaBundleSecretName (cs_TLS s) = n ∧ n ≠ "") ∨
  tls_SecretName (cs_TLS s) = Some n ∨
  tls_SecretName (cs_MetricsTLS s) = Some n ∨
  tr_Name <$> cs_TopologyRef s = Some n.

(** What each index holds. *)
Lemma indexField_ca s n :
  n ∈ indexField caBundleSecretNameField s ↔ tls_CaBundleSecretName (cs_TLS s) = n ∧ n ≠ "".
Proof.
  change (n ∈ (if bool_decide (tls_CaBundleSecretName (cs_TLS s) = "") then []
               else [tls_CaBundleSecretName (cs_TLS s)]) ↔
          tls_CaBundleSecretName (cs_TLS s) = n ∧ n ≠ "").
  case_bool_decide; rewrite ?elem_of_nil, ?list_elem_of_singleton; naive_solver.
Qed.

Lemma elem_of_optional {A} (o : option A) (f : A → string) n :
  n ∈ match o with None => [] | Some a => [f a] end ↔ f <$> o = Some n.
Proof.
  destruct o; cbn; rewrite ?elem_of_nil, ?list_elem_of_singleton; naive_solver.
Qed.

Lemma indexField_tls s n : n ∈ indexField tlsField s ↔ tls_SecretName (cs_TLS s) = Some n.
Proof. rewrite <- (option_fmap_id (tls_SecretName _)). apply (elem_of_optional _ id). Qed.

Lemma indexField_metrics s n :
  n ∈ indexField metricsTLSField s ↔ tls_SecretName (cs_MetricsTLS s) = Some n.
Proof. rewrite <- (option_fmap_id (tls_SecretName _)). apply (elem_of_optional _ id). Qed.

Lemma indexField_topology s n :
  n ∈ indexField topologyField s ↔ tr_Name <$> cs_TopologyRef s = Some n.
Proof. apply (elem_of_optional _ tr_Name). Qed.

Lemma indexField_names s n :
  (∃ field, field ∈ allWatchFields ∧ n ∈ indexField field s) ↔ names_object s n.
Proof.
  unfold names_object.
  rewrite <- indexField_ca, <- indexField_tls, <- indexField_metrics, <- indexField_topology.
  change allWatchFields with
    [caBundleSecretNameField; tlsField; metricsTLSField; topologyField].
  split.
  - intros (field & Hf & Hn). rewrite !elem_of_cons, elem_of_nil in Hf.
    destruct Hf as [->|[->|[->|[->|[]]]]]; tauto.
  - intros [H|[H|[H|H]]]; eexists; (split; [|exact H]); rewrite !elem_of_cons; tauto.
Qed.

(** The cache lists, from the resources [store], those the indexers gave the value. *)
Definition index_answers (store : list (NamespacedName * CommonSpec)) (ev : event Ext) : Prop :=
  match ev with Ev e r =>
    match e in Ext R return R → Prop with
    | ListByField _ field value ns => λ r, ∃ l, r = Okay l ∧ ∀ n, n ∈ l ↔
        ∃ s, (n, s) ∈ store ∧ nn_Namespace n = ns ∧ value ∈ indexField field s
    | _ => λ _, True
    end r
  end.

(** A change of a secret or topology enqueues exactly the resources of its
    namespace that name it, when the cache answers from the field indexes. *)
Theorem watch_exact {S} store kind src (s : S) tr o :
  exec (findObjectsForSrc kind src s) tr o →
  Forall (index_answers store) tr →
  ∃ requests, o = Done (Cont s requests) ∧
    ∀ n, n ∈ requests ↔ ∃ spec, (n, spec) ∈ store ∧ nn_Namespace n = om_Namespace src ∧
                          names_object spec (om_Name src).
Proof.
  setoid_rewrite <- indexField_names. revert tr o.
  refine (proj1 (wp_exec _ (λ tr o, Forall (index_answers store) tr → _)) _).
  unfold findObjectsForSrc.
  apply (wpM_foldM _ (λ dn acc s' tr, s' = s ∧ (Forall (index_answers store) tr →
    ∀ n, n ∈ acc ↔ ∃ spec, (n, spec) ∈ store ∧ nn_Namespace n = om_Namespace src ∧
           ∃ field, field ∈ dn ∧ om_Name src ∈ indexField field spec))).
  - split; [done|]. intros _ n. rewrite elem_of_nil. split; [done|].
    by intros (? & _ & _ & ? & ?%elem_of_nil & _).
  - intros dn field rest acc s' tr _ [-> Hacc]. repeat wp_step; cbn.
    + split; [done|]. intros [Ht [(l & [= <-] & Hl) _]%Forall_cons]%Forall_app n.
      rewrite elem_of_app, (Hacc Ht n), Hl. setoid_rewrite elem_of_app.
      setoid_rewrite list_elem_of_singleton. naive_solver.
    + by intros [_ [(l & [=] & _) _]%Forall_cons]%Forall_app.
  - intros acc s' tr [-> Hacc] Henv. exists acc. split; [done|]. by apply Hacc.
Qed.
End client_proofs.
