(* ===== verification/ManagerProofs.v ===== *)
(** * What is in place when the manager starts

    [main] ends with status 1 without having started the manager, or starts it last,
    with the indexes, the controllers, the webhooks, the defaults, the certificates and
    the health checks in place. *)
From S2P Require Import Prelude Prog Triples K8s Lib Api ApiMethods Calls Shared Slices.
From S2P Require Import Client Webhook Manager.
#[local] Open Scope go_scope.

Section manager_proofs.
Context {AT : ApiTypes} {CL : CondLib} {L : Lib} {MT : ManagerTypes}.

(** ** Steps of [main] *)
Abbreviation mevent := (event MgrExt).
Abbreviation Main A := (M MgrExt Memory Z A).

(** A step whose events satisfy [P] ends the process with status 1 or goes on with
    [Q]. *)
Definition stepped {A} (P : mevent → Prop) (m : Main A) (mem : Memory)
    (Q : list mevent → Memory → A → Prop) : Prop :=
  wpM m mem (λ tr o, Forall P tr ∧
    match o with
    | Done (Cont mem' a) => Q tr mem' a
    | Done (Exit _ status) => status = 1%Z
    | Panicked => False
    end).

Lemma stepped_mono {A} (P1 P2 : mevent → Prop) (m : Main A) mem
    (Q1 Q2 : list mevent → Memory → A → Prop) :
  (∀ ev, P1 ev → P2 ev) → (∀ tr mem' a, Q1 tr mem' a → Q2 tr mem' a) →
  stepped P1 m mem Q1 → stepped P2 m mem Q2.
Proof.
  intros HP HQ. apply wpM_mono. intros tr [[|]|] [Hf ?]; (split; [by eapply Forall_impl|]); auto.
Qed.

Lemma stepped_bind {A B} P (m : Main A) (f : A → Main B) mem Q1 Q2 :
  stepped P m mem Q1 →
  (∀ tr mem' a, Q1 tr mem' a → stepped P (f a) mem' (λ tr', Q2 (tr ++ tr'))) →
  stepped P (bind m f) mem Q2.
Proof.
  intros Hm Hf. apply wpM_bind. eapply wpM_mono; [|exact Hm].
  intros tr [[s' x|s' a]|] [Hq HQ]; cbn; auto.
  eapply wpM_mono; [|by apply Hf]. intros tr' o [Hq' HQ']. split; [by apply Forall_app|done].
Qed.

Lemma stepped_ret {A} P (a : A) mem (Q : list mevent → Memory → A → Prop) :
  Q [] mem a → stepped P (ret a) mem Q.
Proof. by split. Qed.

Lemma stepped_call {R} (P : mevent → Prop) (e : MgrExt R) mem :
  (∀ r, P (Ev e r)) → stepped P (call e) mem (λ tr mem' r, mem' = mem ∧ tr = [Ev e r]).
Proof. intros He r. by repeat constructor. Qed.

Lemma stepped_modify P g mem :
  stepped P (modify g) mem (λ tr mem' _, tr = [] ∧ mem' = g mem).
Proof. by repeat constructor. Qed.

Lemma stepped_exit P err mem (Q : list mevent → Memory → unit → Prop) :
  (err = None → Q [] mem tt) → stepped P (exitOnErr err) mem Q.
Proof. intros HQ. destruct err; split; auto. Qed.

(** A call whose error ends the process. *)
Lemma stepped_checked {A} P (e : MgrExt (option error)) (k : Main A) mem
    (Q : list mevent → Memory → A → Prop) :
  (∀ r, P (Ev e r)) →
  stepped P k mem (λ tr, Q (Ev e None :: tr)) →
  stepped P (let! err := call e in do! exitOnErr err; k) mem Q.
Proof.
  intros He Hf. eapply stepped_bind; [by apply stepped_call|]. intros tr mem' err [-> ->].
  apply (stepped_bind _ _ _ _ (λ tr mem' _, err = None ∧ tr = [] ∧ mem' = mem));
    [by apply stepped_exit|].
  by intros tr mem' [] (-> & -> & ->).
Qed.

(** What an event is about. *)
Definition is_start (ev : mevent) : Prop :=
  match ev with Ev e _ => match e with StartManager _ => True | _ => False end end.
(** The options that the manager may be made with. *)
Definition made_with (options : Options) (ev : mevent) : Prop :=
  match ev with Ev e _ => match e with SetManagerOptions o => o = options | _ => True end end.
(** Neither the start nor the options. *)
Definition other (ev : mevent) : Prop :=
  match ev with Ev e _ =>
    match e with StartManager _ | SetManagerOptions _ => False | _ => True end end.

Lemma other_made options ev : other ev → made_with options ev ∧ ¬ is_start ev.
Proof. destruct ev as [R []]; cbn; tauto. Qed.

(** ** The controllers *)

(** The fields by which the controller searches are indexed. *)
Definition indexed (c : Controller) (t : list mevent) : Prop :=
  ∀ field, field ∈ allWatchFields →
    Ev (IndexField (ctl_For c) field (indexField field)) None ∈ t.
Definition controllers : list Controller :=
  [northdController; dbClusterController; ovnControllerController].
(** The controller was completed after its indexes. *)
Definition complete (c : Controller) (t : list mevent) : Prop :=
  ∃ t1 t2, t = t1 ++ Ev (CompleteController c) None :: t2 ∧ indexed c t1.
(** All of them were. *)
Definition controlled (t : list mevent) : Prop :=
  ∀ c, c ∈ controllers → complete c t.

Lemma setup_stepped c m mem :
  m = (do! indexFields (ctl_For c); call (CompleteController c)) →
  stepped other (fn m) mem
    (λ tr mem' err, mem' = mem ∧ (err = None →
       ∃ t1, tr = t1 ++ [Ev (CompleteController c) None] ∧ indexed c t1)).
Proof.
  intros ->. unfold stepped, indexFields, returnOnErr. repeat first [wp_step | intros ?].
  all: cbn; split; [repeat constructor|try done]. split; [done|]. intros ->.
  eexists [_; _; _; _]. split; [done|].
  intros field. unfold allWatchFields. rewrite !elem_of_cons, elem_of_nil.
  intros [->|[->|[->|[->|[]]]]]; tauto.
Qed.

Lemma complete_app c t0 t1 t2 : complete c t1 → complete c (t0 ++ t1 ++ t2).
Proof.
  intros (l1 & l2 & -> & Hi). exists (t0 ++ l1), (l2 ++ t2). split; [by rewrite <- !app_assoc|].
  intros field Hf. apply elem_of_app. right. auto.
Qed.

Lemma controller_stepped {A} c m (k : Main A) mem Q :
  m = (do! indexFields (ctl_For c); call (CompleteController c)) →
  (∀ t, complete c t → stepped other k mem (λ tr, Q (t ++ tr))) →
  stepped other (let! err := fn m in do! exitOnErr err; k) mem Q.
Proof.
  intros Hm Hf. eapply stepped_bind; [apply (setup_stepped _ _ _ Hm)|]. intros t ? err [-> Ht].
  apply (stepped_bind _ _ _ _ (λ tr mem' _, err = None ∧ tr = [] ∧ mem' = mem));
    [by apply stepped_exit|].
  intros ? ? [] (-> & -> & ->). apply Hf.
  destruct (Ht eq_refl) as (t1 & -> & Hi). by exists t1, [].
Qed.

Lemma mainControllers_stepped mem :
  stepped other mainControllers mem (λ tr mem' _, mem' = mem ∧ controlled tr).
Proof.
  unfold mainControllers.
  apply (controller_stepped northdController OVNNorthd_SetupWithManager); [reflexivity|]. intros t1 H1.
  apply (controller_stepped dbClusterController OVNDBCluster_SetupWithManager); [reflexivity|]. intros t2 H2.
  eapply stepped_bind; [by apply (setup_stepped ovnControllerController)|]. intros t3 ? err [-> H3].
  apply stepped_exit. intros ->. split; [done|].
  destruct (H3 eq_refl) as (t3' & -> & Hi).
  assert (complete ovnControllerController (t3' ++ [Ev (CompleteController ovnControllerController) None]))
    as Hc by by exists t3', [].
  intros c. unfold controllers. rewrite !elem_of_cons, elem_of_nil.
  rewrite app_nil_r. intros [->|[->|[->|[]]]].
  - by apply (complete_app _ []).
  - by apply complete_app.
  - rewrite app_assoc. rewrite <- (app_nil_r (_ ++ [_])). by apply complete_app.
Qed.

(** ** The webhooks and the checks *)
Definition webhooks : list WebhookReg := [northdWebhook; dbClusterWebhook; ovnControllerWebhook].

(** The webhooks are registered, unless the environment says not to, and then the
    checks of the process wait for their server. *)
Definition hooked (t : list mevent) (checker : Checker) : Prop :=
  ∃ v, Ev (os_Getenv "ENABLE_WEBHOOKS") v ∈ t ∧
    if bool_decide (strings_ToLower v ≠ "false") then
      checker = WebhookStartedChecker ∧ ∀ w, w ∈ webhooks → Ev (CompleteWebhook w) None ∈ t
    else checker = healthz_Ping.

Lemma mainWebhooks_stepped mem :
  stepped other mainWebhooks mem (λ tr mem' checker, mem' = mem ∧ hooked tr checker).
Proof.
  unfold mainWebhooks. eapply stepped_bind; [by apply stepped_call|].
  intros ? ? v [-> ->]. destruct (bool_decide (strings_ToLower v ≠ "false")) eqn:Hv.
  - do 3 (apply stepped_checked; [done|]). apply stepped_ret. split; [done|].
    exists v. rewrite Hv. split; [solve_in|]. split; [done|].
    intros w. unfold webhooks. rewrite !elem_of_cons, elem_of_nil.
    intros [->|[->|[->|[]]]]; solve_in.
  - apply stepped_ret. split; [done|]. exists v. rewrite Hv. split; [solve_in|done].
Qed.

Lemma mainAdd_stepped w mem :
  stepped other (mainAdd w) mem (λ tr mem' _, mem' = mem ∧
    ∀ x, w = Some x → Ev (AddRunnable x) None ∈ tr).
Proof.
  destruct w as [w|]; [|by apply stepped_ret].
  eapply stepped_bind; [by apply stepped_call|]. intros ? ? err [-> ->].
  apply stepped_exit. intros ->. split; [done|]. intros x [= <-]. solve_in.
Qed.

(** ** The options *)
Definition managed_with (options : Options) (t : list mevent) : Prop :=
  ∃ options' cfg, Ev (SetManagerOptions options) (options', None) ∈ t ∧
    Ev (NewManager cfg options') None ∈ t.

Lemma mainNewManager_stepped options mem :
  stepped (λ ev, made_with options ev ∧ ¬ is_start ev) (mainNewManager options) mem
    (λ tr mem' _, mem' = mem ∧ managed_with options tr).
Proof.
  unfold stepped, mainNewManager, exitOnErr, exitOnFail. repeat first [wp_step | intros ?].
  all: cbn; split; [repeat (constructor; [by cbn; auto|]); try constructor|try done].
  split; [done|]. eexists _, _. split; solve_in.
Qed.

(** ** The slices of options *)
Context (grow : nat → nat → nat).

Definition baseOpts (f : Flags) : list TLSOpt :=
  MinVersionTLS13 :: if enableHTTP2 f then [] else [disableHTTP2].

(** [tlsOpts] and the memory it is in. *)
Definition tlsSlice (f : Flags) : Heap TLSOpt * Slice :=
  let r := append grow emptyHeap nilSlice MinVersionTLS13 in
  if enableHTTP2 f then r else append grow r.1 r.2 disableHTTP2.
(** Its array has room for one more. *)
Definition spare (f : Flags) : Prop :=
  sl_len (tlsSlice f).2 < sl_cap (tlsSlice f).1 (tlsSlice f).2.
#[export] Instance spare_dec f : Decision (spare f) := _.

Lemma tlsSlice_spec f :
  wf_slice (tlsSlice f).1 (tlsSlice f).2 ∧
  elems (tlsSlice f).1 (tlsSlice f).2 = baseOpts f.
Proof.
  unfold tlsSlice, baseOpts.
  destruct (append grow emptyHeap nilSlice MinVersionTLS13) as [h1 s1] eqn:H1.
  destruct (append_spec _ _ _ _ _ _ nilSlice_wf H1) as [Hw1 He1].
  destruct (enableHTTP2 f); [by split|]. cbn [fst snd].
  destruct (append grow h1 s1 disableHTTP2) as [h2 s2] eqn:H2.
  destruct (append_spec _ _ _ _ _ _ Hw1 H2) as [Hw2 He2]. cbn [fst snd].
  split; [done|]. by rewrite He2, He1.
Qed.

Lemma appendOpt_stepped s x mem :
  stepped other (appendOpt grow s x) mem (λ tr mem' s', tr = [] ∧
    mem' = mkMemory (append grow (mem_Heap mem) s x).1 (mem_Defaults mem) ∧
    s' = (append grow (mem_Heap mem) s x).2).
Proof. by repeat constructor. Qed.

Lemma mainTLSOpts_stepped f :
  stepped other (mainTLSOpts grow f) (mkMemory emptyHeap None)
    (λ tr mem s, tr = [] ∧ mem = mkMemory (tlsSlice f).1 None ∧ s = (tlsSlice f).2).
Proof.
  unfold mainTLSOpts, tlsSlice. eapply stepped_bind; [apply appendOpt_stepped|].
  intros ? ? ? (-> & -> & ->). destruct (enableHTTP2 f); cbn [negb].
  - by apply stepped_ret.
  - eapply stepped_mono; [done| |apply appendOpt_stepped]. by intros ? ? ? (-> & -> & ->).
Qed.

(** What [certWatcher] makes of a slice. *)
Definition with_cert (h : Heap TLSOpt) (s : Slice) (w : option CertWatcher) : Heap TLSOpt * Slice :=
  match w with Some w => append grow h s (GetCertificateOf w) | None => (h, s) end.
(** The watcher that the command line asks for. *)
Definition watches (path name key : string) (w : option CertWatcher) (t : list mevent) : Prop :=
  match w with
  | Some w => path ≠ "" ∧
      Ev (NewCertWatcher (filepath_Join path name) (filepath_Join path key)) (Okay w) ∈ t
  | None => path = ""
  end.

Lemma certWatcher_stepped path name key s mem :
  stepped other (certWatcher grow path name key s) mem (λ tr mem' r,
    mem' = mkMemory (with_cert (mem_Heap mem) s r.1).1 (mem_Defaults mem) ∧
    r.2 = (with_cert (mem_Heap mem) s r.1).2 ∧ watches path name key r.1 tr).
Proof.
  unfold certWatcher. destruct (nonempty path) eqn:Hp.
  - assert (path ≠ "") as Hne by by intros ->.
    eapply stepped_bind; [by apply stepped_call|]. intros ? ? [w|e] [-> ->]; [|by repeat constructor].
    apply (stepped_bind _ _ _ _ (λ tr mem' w', tr = [] ∧ mem' = mem ∧ w' = w));
      [by repeat constructor|]. intros ? ? ? (-> & -> & ->).
    eapply stepped_bind; [apply appendOpt_stepped|]. intros ? ? ? (-> & -> & ->).
    apply stepped_ret. split; [done|]. split; [done|]. split; [done|]. solve_in.
  - apply stepped_ret. split; [by destruct mem|]. split; [done|].
    unfold nonempty in Hp. by apply negb_false_iff, bool_decide_eq_true in Hp.
Qed.

(** The options of the two servers, when the watchers are [ww] and [wm].  With room to
    spare the webhook server's certificate is overwritten. *)
Definition certOpt (w : option CertWatcher) : list TLSOpt :=
  match w with Some w => [GetCertificateOf w] | None => [] end.
Definition webhookWatcher (f : Flags) (ww wm : option CertWatcher) : option CertWatcher :=
  match ww, wm with
  | Some _, Some _ => if decide (spare f) then wm else ww
  | _, _ => ww
  end.

Lemma with_cert_spec h s w :
  wf_slice h s →
  let r := with_cert h s w in
  wf_slice r.1 r.2 ∧ wf_slice r.1 s ∧
  elems r.1 r.2 = elems h s ++ certOpt w ∧ elems r.1 s = elems h s.
Proof.
  intros Hw. destruct w as [w|]; cbn [with_cert certOpt]; [|by rewrite app_nil_r].
  destruct (append grow h s (GetCertificateOf w)) as [h' s'] eqn:Ha. cbn [fst snd].
  destruct (append_spec _ _ _ _ _ _ Hw Ha) as [Hw' He'].
  destruct (append_frame _ _ _ _ _ _ s Hw Hw Ha) as [Hws Hes]; [auto|]. done.
Qed.

Lemma servers_elems f ww wm :
  let r1 := with_cert (tlsSlice f).1 (tlsSlice f).2 ww in
  let r2 := with_cert r1.1 (tlsSlice f).2 wm in
  elems r2.1 r2.2 = baseOpts f ++ certOpt wm ∧
  elems r2.1 r1.2 = baseOpts f ++ certOpt (webhookWatcher f ww wm).
Proof.
  destruct (tlsSlice_spec f) as [Hw He]. cbn zeta.
  destruct (with_cert_spec (tlsSlice f).1 (tlsSlice f).2 ww Hw) as (Hw1 & Hws & E1 & Es).
  destruct (with_cert_spec _ (tlsSlice f).2 wm Hws) as (Hw2 & _ & E2 & Es2).
  rewrite E2, Es, He. split; [done|].
  destruct wm as [wm|]; [|cbn [with_cert fst snd]; by rewrite E1, He; destruct ww]. cbn [with_cert] in *.
  destruct ww as [ww|]; [|by cbn [with_cert fst snd] in *; rewrite Es2, He, app_nil_r].
  cbn [with_cert webhookWatcher certOpt] in *.
  rewrite (append_twice grow _ _ _ (GetCertificateOf wm) _ _ _ _ Hw (surjective_pairing _)
             (surjective_pairing _)), He.
  by destruct (decide (spare f)), (decide (sl_len _ < _)).
Qed.

(** ** [main] *)

(** What is in place when the manager starts with the memory [mem]. *)
Definition installed (f : Flags) (t : list mevent) (mem : Memory) : Prop :=
  controlled t ∧ mem_Defaults mem = Some SetupDefaults ∧
  (∃ checker, hooked t checker ∧ Ev (AddHealthzCheck "healthz" checker) None ∈ t ∧
     Ev (AddReadyzCheck "readyz" checker) None ∈ t) ∧
  ∃ ww wm sw sm,
    watches (webhookCertPath f) (webhookCertName f) (webhookCertKey f) ww t ∧
    watches (metricsCertPath f) (metricsCertName f) (metricsCertKey f) wm t ∧
    (∀ w, ww = Some w ∨ wm = Some w → Ev (AddRunnable w) None ∈ t) ∧
    managed_with (mainOptions f sw sm) t ∧
    Forall (made_with (mainOptions f sw sm)) t ∧
    elems (mem_Heap mem) sm = baseOpts f ++ certOpt wm ∧
    elems (mem_Heap mem) sw = baseOpts f ++ certOpt (webhookWatcher f ww wm).

(** How [mainBody] ends. *)
Definition main_ended (f : Flags) (tr : list mevent) (o : outcome (mres Memory Z unit)) : Prop :=
  (∃ mem, o = Done (Exit mem 1%Z) ∧ Forall (λ ev, ¬ is_start ev) tr) ∨
  ∃ t mem err, tr = t ++ [Ev (StartManager mem) err] ∧
    Forall (λ ev, ¬ is_start ev) t ∧ installed f t mem ∧
    o = Done (match err with Some _ => Exit mem 1%Z | None => Cont mem tt end).

Lemma started_bind {A} P (m : Main A) (k : A → Main unit) mem f Q t0 :
  (∀ ev, P ev → ¬ is_start ev) → Forall (λ ev, ¬ is_start ev) t0 →
  stepped P m mem Q →
  (∀ tr mem' a, Q tr mem' a → Forall P tr →
     wpM (k a) mem' (λ tr' o, main_ended f ((t0 ++ tr) ++ tr') o)) →
  wpM (bind m k) mem (λ tr o, main_ended f (t0 ++ tr) o).
Proof.
  intros HP H0 Hm Hk. apply wpM_bind. eapply wpM_mono; [|exact Hm].
  assert (∀ tr, Forall P tr → Forall (λ ev, ¬ is_start ev) tr) as Hq
    by (intros tr Htr; eapply Forall_impl; [exact Htr|auto]).
  intros tr [[mem' x|mem' a]|] [Hf Ho]; [| |done].
  2: { eapply wpM_mono; [|by apply Hk]. intros tr' o. by rewrite app_assoc. }
  subst x. left. eexists. split; [done|]. apply Forall_app. auto.
Qed.

Lemma other_quiet ev : other ev → ¬ is_start ev.
Proof. destruct ev as [R []]; cbn; tauto. Qed.
Lemma others_made options t : Forall other t → Forall (made_with options) t.
Proof. intros Ht. eapply Forall_impl; [exact Ht|]. intros ev. apply other_made. Qed.
Lemma others_quiet t : Forall other t → Forall (λ ev, ¬ is_start ev) t.
Proof. intros Ht. eapply Forall_impl; [exact Ht|]. apply other_quiet. Qed.

Lemma mainStart_spec f checker mem t0 :
  Forall (λ ev, ¬ is_start ev) t0 →
  (∀ t, Ev (AddHealthzCheck "healthz" checker) None ∈ t →
        Ev (AddReadyzCheck "readyz" checker) None ∈ t →
        Forall other t → installed f (t0 ++ t) mem) →
  wpM (mainStart checker) mem (λ tr o, main_ended f (t0 ++ tr) o).
Proof.
  intros H0 Hi. unfold mainStart, exitOnErr. repeat first [wp_step | intros ?]; cbn.
  1-2: left; exists mem; split; [done|]; apply Forall_app; split; [done|];
    repeat (constructor; [cbn; tauto|]); constructor.
  all: right; eexists (t0 ++ [_; _]), _, _; split; [by rewrite <- app_assoc|].
  all: split; [apply Forall_app; split; [done|];
    repeat (constructor; [cbn; tauto|]); constructor|].
  all: split; [apply Hi; [solve_in|solve_in|by repeat constructor]|done].
Qed.

(** What is in place stays in place. *)
Definition stays_in (P : list mevent → Prop) : Prop :=
  ∀ t t', P t → P (t ++ t') ∧ P (t' ++ t).
Lemma stays_r P t t' : stays_in P → P t → P (t ++ t').
Proof. intros HP Ht. exact (proj1 (HP t t' Ht)). Qed.
Lemma stays_l P t t' : stays_in P → P t → P (t' ++ t).
Proof. intros HP Ht. exact (proj2 (HP t t' Ht)). Qed.

Lemma event_stays ev : stays_in (λ t, ev ∈ t).
Proof. intros t t' Hev. rewrite !elem_of_app. auto. Qed.
Lemma controlled_stays : stays_in controlled.
Proof.
  intros t t' Ht. split; intros c Hc.
  - by apply (complete_app c [] t t'), Ht.
  - rewrite <- (app_nil_r t). by apply complete_app, Ht.
Qed.
Lemma hooked_stays checker : stays_in (λ t, hooked t checker).
Proof.
  intros t t' (v & Hv & Hc). 
  split; exists v; (split; [solve_in|]); revert Hc; destruct (bool_decide _); try done;
    intros [-> Hc]; (split; [done|]); intros w Hw%Hc; solve_in.
Qed.
Lemma watches_stays path name key w : stays_in (watches path name key w).
Proof.
  intros t t' Hw. destruct w as [w|]; [|done]. destruct Hw as [Hp Hin].
  split; (split; [done|]); solve_in.
Qed.
Lemma managed_stays options : stays_in (managed_with options).
Proof. intros t t' (o & c & H1 & H2). split; exists o, c; split; solve_in. Qed.

Create HintDb main.
#[local] Hint Resolve event_stays controlled_stays hooked_stays watches_stays managed_stays : main.
(** Look for the step at which something was put in place. *)
Ltac in_place := first [assumption | apply stays_l; [eauto with main|in_place]
                       | apply stays_r; [eauto with main|in_place]].

Lemma mainBody_spec f :
  wpM (mainBody grow f) (mkMemory emptyHeap None) (main_ended f).
Proof.
  unfold mainBody.
  change (main_ended f) with (λ tr o, main_ended f ([] ++ tr) o).
  eapply started_bind; [exact other_quiet|done|apply mainTLSOpts_stepped|].
  intros ? ? ? (-> & -> & ->) _.
  eapply started_bind; [exact other_quiet|done|apply certWatcher_stepped|].
  intros t1 ? [ww sw] (-> & Hsw & Hww) Ho1. cbn [fst snd mem_Heap mem_Defaults] in *.
  eapply started_bind; [exact other_quiet|by apply others_quiet|apply certWatcher_stepped|].
  intros t2 ? [wm sm] (-> & Hsm & Hwm) Ho2. cbn [fst snd mem_Heap mem_Defaults] in *.
  set (options := mainOptions f sw sm).
  set (quiet := λ ev : mevent, made_with options ev ∧ ¬ is_start ev).
  assert (∀ t, Forall other t → Forall quiet t) as Hother
    by (intros t Ht; eapply Forall_impl; [exact Ht|]; intros ev; apply other_made).
  assert (∀ t, Forall quiet t → Forall (λ ev, ¬ is_start ev) t ∧ Forall (made_with options) t)
    as Hquiet by (intros t; rewrite !Forall_forall; unfold quiet; naive_solver).
  assert (Forall quiet ((([] ++ []) ++ t1) ++ t2)) as H2 by (apply Forall_app; auto).
  eapply (started_bind quiet); [by intros ev [_ ?]|by apply Hquiet|apply mainNewManager_stepped|].
  intros t3 ? [] [-> Hman] H3. pose proof (Forall_app_2 _ _ _ H2 H3) as H23.
  eapply (started_bind other); [exact other_quiet|by apply Hquiet|apply mainControllers_stepped|].
  intros t4 ? [] [-> Hctl] H4%Hother. pose proof (Forall_app_2 _ _ _ H23 H4) as H24.
  eapply (started_bind other); [exact other_quiet|by apply Hquiet|apply stepped_modify|].
  intros ? ? [] [-> ->] _. rewrite app_nil_r. cbn [mem_Heap mem_Defaults].
  eapply (started_bind other); [exact other_quiet|by apply Hquiet|apply mainWebhooks_stepped|].
  intros t5 ? checker [-> Hhook] H5%Hother. pose proof (Forall_app_2 _ _ _ H24 H5) as H25.
  eapply (started_bind other); [exact other_quiet|by apply Hquiet|apply mainAdd_stepped|].
  intros t6 ? [] [-> Hwm'] H6%Hother. pose proof (Forall_app_2 _ _ _ H25 H6) as H26.
  eapply (started_bind other); [exact other_quiet|by apply Hquiet|apply mainAdd_stepped|].
  intros t7 ? [] [-> Hww'] H7%Hother. pose proof (Forall_app_2 _ _ _ H26 H7) as H27.
  apply mainStart_spec; [by apply Hquiet|]. intros t Hhealth Hready H8%Hother.
  destruct (servers_elems f ww wm) as [Em Ew].
  split; [in_place|]. split; [done|].
  split; [exists checker; split; [in_place|]; split; in_place|].
  exists ww, wm, sw, sm.
  split; [in_place|]. split; [in_place|].
  split. { intros w [->| ->]; [specialize (Hww' _ eq_refl)|specialize (Hwm' _ eq_refl)]; in_place. }
  split; [in_place|]. split; [apply Hquiet, Forall_app; by split|].
  cbn [mem_Heap]. by subst sw sm.
Qed.

(** A run of [main] is one of its body. *)
Lemma main_exec f tr o :
  exec (main grow f) tr o → ∃ ob, main_ended f tr ob ∧
    o = match ob with
        | Done (Exit _ status) => Done status
        | Done (Cont _ _) => Done 0%Z
        | Panicked => Panicked
        end.
Proof.
  revert tr o. apply wp_exec. unfold main. apply wp_bind.
  eapply wp_mono; [|apply mainBody_spec].
  intros tr [[mem status|mem []]|] He; cbn; rewrite ?app_nil_r; eauto.
Qed.

(** C36. main never panics.  Either it ends with status 1 and the manager never ran, or
    the manager ran as its last call with everything in place: each controller completed
    after the fields its searches use were indexed, the defaults set, the webhooks
    registered unless the environment says not to, the certificates watched and the options
    of both servers what the command line asks for; the status tells whether the manager
    failed. *)
Theorem main_starts_installed f tr o :
  exec (main grow f) tr o →
  (o = Done 1%Z ∧ Forall (λ ev, ¬ is_start ev) tr) ∨
  ∃ t mem err, tr = t ++ [Ev (StartManager mem) err] ∧ Forall (λ ev, ¬ is_start ev) t ∧
    installed f t mem ∧ o = Done (if err is Some _ then 1 else 0)%Z.
Proof.
  intros (ob & [(mem & -> & Hq)|(t & mem & err & -> & Hq & Hi & ->)] & ->)%main_exec.
  - by left.
  - right. exists t, mem, err. by destruct err.
Qed.

(** The configuration of a server that starts from [cfg]. *)
Definition served (f : Flags) (cfg : TLSConfig) (w : option CertWatcher) : TLSConfig :=
  mkTLSConfig VersionTLS13 (if enableHTTP2 f then cfg_NextProtos cfg else ["http/1.1"])
    (match w with Some w => Some w | None => cfg_GetCertificate cfg end).

Lemma served_opts f cfg w : foldl applyOpt cfg (baseOpts f ++ certOpt w) = served f cfg w.
Proof. unfold baseOpts, served. by destruct (enableHTTP2 f), w. Qed.

(** The runtime leaves no room: doubling the capacity 1 of the first option makes 2. *)
Lemma growslice_full f : grow = growslice → ¬ spare f.
Proof. intros Hg. unfold spare, tlsSlice. rewrite Hg. destruct (enableHTTP2 f); cbv; lia. Qed.

(** C37. Whatever configuration a server starts from, with the options main gives it:
    TLS 1.3 at least, HTTP/2 only when asked for, and the certificate of its own files,
    because the array of the common options has no room to spare; with room the webhook
    server would serve the certificate of the metrics. *)
Theorem servers_tls f tr o mem r cfg :
  exec (main grow f) tr o → Ev (StartManager mem) r ∈ tr →
  ∃ sw sm ww wm,
    (∀ options answer, Ev (SetManagerOptions options) answer ∈ tr →
       options = mainOptions f sw sm) ∧
    watches (webhookCertPath f) (webhookCertName f) (webhookCertKey f) ww tr ∧
    watches (metricsCertPath f) (metricsCertName f) (metricsCertKey f) wm tr ∧
    foldl applyOpt cfg (elems (mem_Heap mem) sm) = served f cfg wm ∧
    foldl applyOpt cfg (elems (mem_Heap mem) sw) = served f cfg (webhookWatcher f ww wm) ∧
    (grow = growslice → webhookWatcher f ww wm = ww).
Proof.
  intros (ob & [(m & -> & Hq)|(t & m & err & -> & Hq & Hi & ->)] & _)%main_exec Hin.
  { by destruct (proj1 (Forall_forall _ _) Hq _ Hin). }
  assert (mem = m) as ->.
  { apply elem_of_app in Hin as [Hin|Hin%list_elem_of_singleton].
    - by destruct (proj1 (Forall_forall _ _) Hq _ Hin).
    - by injection Hin. }
  destruct Hi as (_ & _ & _ & ww & wm & sw & sm & Hw & Hm & _ & _ & Hmade & Em & Ew).
  exists sw, sm, ww, wm. rewrite Em, Ew, !served_opts.
  split. { intros options answer [Ho|Ho%list_elem_of_singleton]%elem_of_app; [|done].
    exact (proj1 (Forall_forall _ _) Hmade _ Ho). }
  split; [in_place|]. split; [in_place|]. split; [done|]. split; [done|].
  intros Hg%(growslice_full f). destruct ww, wm; cbn; [|done..]. by rewrite decide_False.
Qed.
End manager_proofs.
