(* ===== verification/ManagerWitnesses.v ===== *)
(** * The start of the manager at a concrete command line *)
From S2P Require Import Prelude Prog Triples K8s Lib Api ApiMethods Calls Shared Slices.
From S2P Require Import Client Webhook Manager RefLib ManagerProofs.
#[local] Open Scope go_scope.
(** Watchers are the files they watch; the rest of what is handed out has no content. *)
#[export] Instance refManager : ManagerTypes := {
  CertWatcher := string * string;
  RestConfig := unit;
  Clientset := unit;
}.

(** Every call succeeds, and the manager runs until it is stopped. *)
Definition startHandler (R : Type) (e : MgrExt R) (w : unit) : R * unit :=
  (match e in MgrExt R return R with
   | NewCertWatcher cert key => Okay (cert, key)
   | SetManagerOptions o => (o, None)
   | GetConfigOrDie => Some tt
   | NewManager _ _ => None
   | GetConfig => Okay tt
   | NewForConfig _ => Okay tt
   | IndexField _ _ _ => None
   | CompleteController _ => None
   | os_Getenv _ => ""
   | CompleteWebhook _ => None
   | AddRunnable _ => None
   | AddHealthzCheck _ _ => None
   | AddReadyzCheck _ _ => None
   | StartManager _ => None
   end, w).

(** Both servers have certificates of their own. *)
Definition certFlags : Flags :=
  mkFlags ":8443" ":8081" true true "/webhook-certs" "tls.crt" "tls.key"
    "/metrics-certs/" "tls.crt" "tls.key" "" 9443 false.

Definition startRun := run startHandler (main growslice certFlags) tt.
Lemma startRun_exec : exec (main growslice certFlags) startRun.1.1 startRun.1.2.
Proof. apply (run_exec startHandler). Qed.
Lemma startRun_done : startRun.1.2 = Done 0%Z.
Proof. vm_compute. reflexivity. Qed.

Lemma main_starts_installed_witness :
  ∃ t mem, startRun.1.1 = t ++ [Ev (StartManager mem) None] ∧
    installed growslice certFlags t mem.
Proof.
  destruct (main_starts_installed growslice certFlags _ _ startRun_exec)
    as [[Ho _]|(t & mem & err & Htr & _ & Hi & Ho)]; rewrite startRun_done in Ho; [done|].
  exists t, mem. destruct err; [done|]. by split.
Defined.

(** A watcher is that of the files it was made for. *)
Definition of_files (ev : event MgrExt) : Prop :=
  match ev with Ev e r =>
    match e in MgrExt R return R → Prop with
    | NewCertWatcher cert key => λ r, r = Okay (cert, key)
    | _ => λ _, True
    end r
  end.
Lemma startRun_watcher cert key w :
  Ev (NewCertWatcher cert key) (Okay w) ∈ startRun.1.1 → w = (cert, key).
Proof.
  assert (Forall of_files startRun.1.1) as Hf by repeat constructor.
  rewrite Forall_forall in Hf. intros Hin%Hf. by injection Hin.
Qed.

(** The memory that the manager was started with. *)
Definition startedWith : Memory :=
  match last startRun.1.1 with
  | Some (Ev e _) => match e with StartManager mem => mem | _ => mkMemory [] None end
  | None => mkMemory [] None
  end.

Lemma servers_tls_witness :
  ∃ sw sm,
    foldl applyOpt (mkTLSConfig 0 [] None) (elems (mem_Heap startedWith) sm) =
      mkTLSConfig 772 ["http/1.1"] (Some ("/metrics-certs/tls.crt", "/metrics-certs/tls.key")) ∧
    foldl applyOpt (mkTLSConfig 0 [] None) (elems (mem_Heap startedWith) sw) =
      mkTLSConfig 772 ["http/1.1"] (Some ("/webhook-certs/tls.crt", "/webhook-certs/tls.key")).
Proof.
  destruct (servers_tls growslice certFlags _ _ startedWith None (mkTLSConfig 0 [] None)
              startRun_exec) as (sw & sm & ww & wm & _ & Hw & Hm & Em & Ew & Hg).
  { cbn. repeat first [apply list_elem_of_here | apply list_elem_of_further]. }
  exists sw, sm. rewrite Em, Ew, Hg by done.
  destruct ww as [ww|]; [|done]. destruct wm as [wm|]; [|done].
  by rewrite (startRun_watcher _ _ _ (proj2 Hw)), (startRun_watcher _ _ _ (proj2 Hm)).
Defined.
