(* ===== verification/Lifecycle.v ===== *)
(** * The life of a resource

    The API server, the users and a reconciler as a transition system around one
    resource: users create, change and delete it, the reconciler runs on what is
    stored, and the object goes when it is deleted and has no finalizer left.  What a
    reconciler has written in the cluster is not orphaned: the resource stays until its
    reference to the topology has been dropped, unless a user strips its finalizer. *)
From S2P Require Import Prelude Prog Triples K8s Lib Api ApiMethods Calls Shared.
From S2P Require Import SharedProofs Client DBManifests DBController DBProofs.
From S2P Require Import NorthdController NorthdProofs CtlController CtlProofs CtlPhases.
From S2P Require Import Protocol.
#[local] Open Scope go_scope.

Section lifecycle.
Context {AT : ApiTypes} {CL : CondLib} {L : Lib}.
Context {I : Type} {CR : CustomResource I} {OI : IsObject I} {CRL : CustomResourceLaws I}.

(** The object as the API server stores it, and what has happened since it was
    created: whether something was written for it, whether its reference to the topology
    was dropped, and whether a user took the finalizer away that it had, and it has none
    since. *)
Record Life := mkLife {
  stored : option I;
  written : bool;
  released : bool;
  stripped : bool;
}.

#[local] Instance has_finalizer_dec i : Decision (has_finalizer i).
Proof. unfold has_finalizer. apply _. Defined.

(** The stored object has the finalizer. *)
Definition held (s : option I) : bool :=
  match s with Some i => bool_decide (has_finalizer i) | None => false end.

(** The topology let the resource go. *)
Definition releases (ev : event Ext) : bool :=
  match ev with Ev e r =>
    match e in Ext R return R → bool with
    | EnsureDeletedTopologyRef _ _ => λ r, match r.2 with None => true | Some _ => false end
    | _ => λ _, false
    end r
  end.

(** A deleted object without finalizers is removed. *)
Definition collect (i : I) : option I :=
  match om_DeletionTimestamp (cr_Meta i), om_Finalizers (cr_Meta i) with
  | Some _, [] => None
  | _, _ => Some i
  end.

(** The object after a run: the one of the patch, when it was accepted. *)
Definition after_run (i : I) (tr : list (event Ext)) (s : option I) : Prop :=
  (s = Some i ∧ ∀ i', Ev (PatchInstance (to_object i')) None ∉ tr) ∨
  (∃ i', Ev (PatchInstance (to_object i')) None ∈ tr ∧ s = collect i').

(** The reconciler, as the program it runs on the object it fetches. *)
Context (fetch : Ext (fallible I)) (prog : prog Ext RE).

(** Users do what the API server lets them: it keeps the deletion timestamp. *)
Inductive step : Life → Life → Prop :=
| user_creates i w r p :
    om_DeletionTimestamp (cr_Meta i) = None →
    step (mkLife None w r p) (mkLife (Some i) false false false)
| user_changes i j w r p :
    om_DeletionTimestamp (cr_Meta j) = om_DeletionTimestamp (cr_Meta i) →
    step (mkLife (Some i) w r p)
      (mkLife (collect j) w r (negb (held (Some j)) && (p || held (Some i))))
| user_deletes i t w r p :
    step (mkLife (Some i) w r p)
      (mkLife (collect (cr_set_Meta (mkObjectMeta (om_Name (cr_Meta i))
         (om_Namespace (cr_Meta i)) (om_Labels (cr_Meta i)) (om_Annotations (cr_Meta i))
         (om_OwnerReferences (cr_Meta i)) (om_Finalizers (cr_Meta i)) (Some t)
         (om_Generation (cr_Meta i))) i)) w r p)
| reconciles i tr o s w r p :
    exec prog (Ev fetch (Okay i) :: tr) o → after_run i tr s →
    step (mkLife (Some i) w r p)
      (mkLife s (w || bool_decide (Exists is_write tr)) (r || existsb releases tr)
         (negb (held s) && p)).

(** What is reachable before any resource was created. *)
Definition reachable : Life → Prop := rtc step (mkLife None false false false).

(** What was written belongs to a resource with the finalizer, or to one that the
    topology has let go, or that a user stripped of its finalizer. *)
Definition not_orphaned (s : Life) : Prop :=
  written s = true →
  (∃ i, stored s = Some i ∧ has_finalizer i) ∨ released s = true ∨ stripped s = true.

(** ** No step orphans *)

Lemma has_finalizer_nonempty i : has_finalizer i → om_Finalizers (cr_Meta i) ≠ [].
Proof. unfold has_finalizer. intros Hin Heq. rewrite Heq in Hin. by apply elem_of_nil in Hin. Qed.

(** A resource that has its finalizer outlives its deletion. *)
Lemma collect_finalizer i : has_finalizer i → collect i = Some i.
Proof.
  intros Hf%has_finalizer_nonempty. unfold collect.
  by destruct (om_DeletionTimestamp _), (om_Finalizers _).
Qed.

(** What the steps below promise of a resource that had its finalizer. *)
Definition kept (tr : list (event Ext)) (s : option I) : Prop :=
  existsb releases tr = true ∨ ∃ j, s = Some j ∧ has_finalizer j.

Context (Hrun : ∀ i tr o s,
  exec prog (Ev fetch (Okay i) :: tr) o → after_run i tr s → has_finalizer i → kept tr s).
Context (Hwrites : ∀ i tr o,
  exec prog (Ev fetch (Okay i) :: tr) o → Exists is_write tr → has_finalizer i).

Lemma held_spec s : held s = true ↔ ∃ i, s = Some i ∧ has_finalizer i.
Proof.
  destruct s as [i|]; cbn; [|by split; [|intros (? & ? & _)]].
  rewrite bool_decide_eq_true. split; [by exists i|]. by intros (? & [= <-] & ?).
Qed.

Lemma held_collect i : held (Some i) = true → held (collect i) = true.
Proof. intros (? & [= <-] & Hf)%held_spec. by rewrite collect_finalizer; [apply held_spec; exists i|]. Qed.

Lemma not_orphaned_held s :
  not_orphaned s ↔ (written s = true → held (stored s) = true ∨ released s = true ∨ stripped s = true).
Proof. unfold not_orphaned. by rewrite held_spec. Qed.

Lemma step_not_orphaned s s' : step s s' → not_orphaned s → not_orphaned s'.
Proof.
  rewrite !not_orphaned_held.
  intros [i w r p Hd|i j w r p _|i t w r p|i tr o s0 w r p Hex Hafter] IH; cbn [written stored
    released stripped] in *; [done| | |].
  - intros [Hi|[Hr|Hp]]%IH; [|by right; left|]; destruct (held (Some j)) eqn:Hj;
      try (left; by apply held_collect); right; right; cbn [negb andb];
      [by rewrite Hi, orb_true_r|by rewrite Hp].
  - intros [(k & [= <-] & Hk)%held_spec|[Hr|Hp]]%IH; [|by right; left|by right; right].
    left. apply held_collect, held_spec. eexists. split; [done|].
    unfold has_finalizer. by rewrite Meta_Meta.
  - intros Hw. rewrite orb_true_iff in Hw.
    destruct (held s0) eqn:Hs; [by left|]. right. cbn [negb andb].
    assert (has_finalizer i ∨ r = true ∨ p = true) as [Hf|[Hr|Hp]];
      [| |left; by rewrite Hr|by right].
    { destruct Hw as [Hw|Hw%bool_decide_eq_true]; [|left; by eapply Hwrites].
      destruct (IH Hw) as [(k & [= <-] & Hk)%held_spec|?]; [by left|by right]. }
    destruct (Hrun _ _ _ _ Hex Hafter Hf) as [Hr|Hj%held_spec]; [|congruence].
    left. by rewrite Hr, orb_true_r.
Qed.

Lemma reachable_not_orphaned s : reachable s → not_orphaned s.
Proof.
  intros Hs. eapply (rtc_ind_r not_orphaned (mkLife None false false false)); [done| |exact Hs].
  intros s1 s2 _ Hstep. by apply step_not_orphaned.
Qed.
End lifecycle.

(** ** The shared code keeps a resource that has its finalizer *)
Section kept.
Context {AT : ApiTypes} {CL : CondLib} {L : Lib} {FL : FinalizerLaws L}.
Context {I : Type} {CR : CustomResource I} {OI : IsObject I} {CRL : CustomResourceLaws I}.
Context (fetch : Ext (fallible I)) (init prepare : I → I) (isNew : I → bool)
  (normal : Go I RE RE).
Context `{!Inj (=) (=) (to_object (I := I))}.
Context (Hget : ∀ r, ¬ is_patch (Ev fetch r)).
Context (Hread : ∀ i j, Ev fetch (Okay i) = Ev fetch (Okay j) → i = j).
Context (Hinit : ∀ i, cr_Meta (init i) = cr_Meta i).
Context (Hprepare : ∀ i, cr_Meta (prepare i) = cr_Meta i).
Context (Hnormal : patchless normal).

(** The body changes the rest of the resource, not its metadata. *)
Definition keeps_Meta {X A} (m : Go I X A) : Prop :=
  ∀ meta, triple (λ _, True) (λ _, True) True (λ i, cr_Meta i = meta) m (λ _, True).
Context (Hmeta : keeps_Meta normal).

Lemma body_run_kept i tr ib x ob :
  body_run (isNew i) prepare normal (init i) tr ob → ended ib x ob → has_finalizer i →
  existsb releases tr = true ∨ has_finalizer ib.
Proof.
  intros Hb He Hf. assert (has_finalizer (init i)) as Hfi by by apply (has_finalizer_Meta _ i).
  assert (has_finalizer (prepare (init i))) as Hfp.
  { apply (has_finalizer_Meta _ (init i)); [apply Hprepare|done]. }
  destruct Hb as [_ H|_ _|tr o _ _ _ Hex|r _ _].
  - by destruct H.
  - right. by destruct He as [[= <- <-]|?].
  - right. destruct (triple_exec _ _ _ _ _ _ _ _ _ (Hmeta _) eq_refl Hex) as [_ Ho];
      [by apply Forall_true|].
    destruct o as [[i' y|i' y]|]; destruct He as [He|He]; try done;
      injection He as <- <-; eapply has_finalizer_Meta, Hfp; intuition.
  - destruct He as [He|He]; [done|]. injection He as <- <-. cbn.
    destruct (r.2) eqn:Hr; [|by left]. right. unfold deleted. by rewrite Hr.
Qed.

Lemma reconcile_kept i tr o s :
  exec (reconcile fetch init (λ i, reconcileBody (isNew i) prepare normal))
    (Ev fetch (Okay i) :: tr) o →
  after_run i tr s → has_finalizer i → kept tr s.
Proof.
  intros Hex [[-> _]|(i' & Hin & ->)] Hf; [right; by exists i|].
  destruct (reconcile_patched _ _ _ _ _ i' None Hget
    (λ j, reconcileBody_patchless (isNew j) _ _ Hnormal) Hex) as (j & tr' & ib & x & ob & Hb & He & Htr & -> & _).
  { rewrite elem_of_cons. by right. }
  apply (inj2 cons) in Htr as [<-%Hread ->].
  apply reconcileBody_runs in Hb; [|done].
  destruct (body_run_kept _ _ _ _ _ Hb He Hf) as [Hr|Hk].
  - left. cbn. by rewrite existsb_app, Hr.
  - right. eexists. assert (has_finalizer (patched (initConditionsIfNil (cr_Conditions i)) ib)).
    { by apply (has_finalizer_Meta _ ib); [apply patched_Meta|]. }
    by rewrite collect_finalizer.
Qed.
End kept.

(** ** The three reconcilers *)
Section kinds.
Context {AT : ApiTypes} {CL : CondLib} {L : Lib}.

Lemma foldl_Meta {I} {CR : CustomResource I} (set : Condition → I → I) cs i :
  (∀ c i, cr_Meta (set c i) = cr_Meta i) → cr_Meta (foldl (λ i c, set c i) i cs) = cr_Meta i.
Proof. intros Hset. revert i. induction cs as [|c cs IH]; intros i; cbn; [done|]. by rewrite IH. Qed.

Ltac meta_kept :=
  intros meta; triples fail with (autorewrite with cr; try done); by rewrite foldl_Meta.

Lemma dbReconcileNormal_Meta : keeps_Meta dbReconcileNormal.
Proof. meta_kept. Qed.

Lemma ndReconcileNormal_Meta : keeps_Meta ndReconcileNormal.
Proof. meta_kept. Qed.

Lemma ocReconcileNormal_Meta : keeps_Meta ocReconcileNormal.
Proof. meta_kept. Qed.

(** What was written is never orphaned, from what [Protocol] says of the writes. *)
Lemma managed_not_orphaned {FL : FinalizerLaws L} {I} {CR : CustomResource I} {OI : IsObject I}
    {CRL : CustomResourceLaws I} `{!Inj (=) (=) (to_object (I := I))}
    fetch init prepare isNew (normal : Go I RE RE) s :
  (∀ r, ¬ is_patch (Ev fetch r)) → (∀ r, is_protocol (Ev fetch r)) →
  (∀ i j, Ev fetch (Okay i) = Ev fetch (Okay j) → i = j) →
  (∀ i, cr_Meta (init i) = cr_Meta i) → (∀ i, cr_Meta (prepare i) = cr_Meta i) →
  (∀ r, ¬ drops_finalizer (Ev fetch r)) → dropless normal →
  patchless normal → keeps_Meta normal →
  reachable fetch (reconcile fetch init (λ i, reconcileBody (isNew i) prepare normal)) s →
  not_orphaned s.
Proof.
  intros Hget Hprot Hread Hinit Hprep Hdf Hdrop Hnormal Hmeta. apply reachable_not_orphaned.
  - intros i tr o s'. by apply reconcile_kept.
  - intros i tr o Hex (ev & Hin & Hev)%Exists_exists.
    apply list_elem_of_split in Hin as (l1 & l2 & ->).
    destruct (proj1 (reconcile_writes_managed fetch init prepare isNew normal Hprot Hinit Hprep
      Hdf Hdrop _ _ Hex) (Ev fetch (Okay i) :: l1) ev l2) as (j & Heq & _ & Hf); [done..|].
    apply Some_inj, Hread in Heq. by subst.
Qed.

(** C31. For all three reconcilers, whatever users do with the resource and whatever the
    API server answers, run after run: once something was written for a resource, it stays
    stored with its finalizer, until its topology has let it go or a user strips the
    finalizer; those are the only ways to orphan what was written. *)
Theorem nothing_orphaned {FL : FinalizerLaws L} req :
  (∀ s, reachable (GetOVNDBCluster req) (OVNDBCluster_Reconcile req) s → not_orphaned s) ∧
  (∀ s, reachable (GetOVNNorthd req) (OVNNorthd_Reconcile req) s → not_orphaned s) ∧
  (∀ s, reachable (GetOVNController_ req) (OVNController_Reconcile req) s → not_orphaned s).
Proof.
  split; [|split]; intros s.
  - apply (managed_not_orphaned _ dbInitStatus (λ i, i) (λ _, false));
      [by intros ? []|done| |done|done|by intros ? []|apply dbReconcileNormal_dropless
      |apply dbReconcileNormal_patchless|apply dbReconcileNormal_Meta].
    intros i j Heq. by apply (f_equal fetched) in Heq as [= ->].
  - apply (managed_not_orphaned _ ndInitStatus (λ i, i) (λ _, false));
      [by intros ? []|done| |done|done|by intros ? []|apply ndReconcileNormal_dropless
      |apply ndReconcileNormal_patchless|apply ndReconcileNormal_Meta].
    intros i j Heq. by apply (f_equal fetched) in Heq as [= ->].
  - apply (managed_not_orphaned _ ocInitStatus ocInitMaps oc_isNew);
      [by intros ? []|done| |done|done|by intros ? []|apply ocReconcileNormal_dropless
      |apply ocReconcileNormal_patchless|apply ocReconcileNormal_Meta].
    intros i j Heq. by apply (f_equal fetched) in Heq as [= ->].
Qed.
End kinds.
