(* ===== verification/DBExposure.v ===== *)
(** * An SB cluster that cannot become Ready

    An SB cluster whose service override is not a load balancer and that has no network
    attachment counts as exposed, but nothing gives it an external address: as long as it
    has none from before, the external configuration fails in every reconciliation. *)
From S2P Require Import Prelude Prog Triples K8s Lib Api ApiMethods Calls Shared.
From S2P Require Import SharedProofs Client DBManifests DBController DBProofs.
#[local] Open Scope go_scope.

Section exposure.
Context {AT : ApiTypes} {CL : CondLib} {L : Lib} {CLaws : CondLaws CL}.

(** The type the override gives to the service. *)
Definition overrideType (o : OverrideSpec) : string :=
  match ov_Spec o with Some s => os_Type s | None => "" end.

(** Exposed by an override that is not a load balancer, without an address. *)
Definition misexposed (i : OVNDBCluster) : Prop :=
  isSB i = true ∧ db_NetworkAttachment (db_Spec i) = "" ∧
  (∃ o, db_Override_Service (db_Spec i) = Some o ∧ overrideType o ≠ ServiceTypeLoadBalancer) ∧
  dbs_DBAddress (db_Status i) = "".

(** While it is reconciled, its external configuration is pending. *)
Definition stuck (i : OVNDBCluster) : Prop :=
  misexposed i ∧ cond_pending ExternalConfigReadyCondition (dbs_Conditions (db_Status i)).

(** The services the operator asks for are not load balancers. *)
Definition no_load_balancer (ev : event Ext) : Prop :=
  rbac_ok ev ∧
  match ev with Ev e r =>
    match e in Ext R return R → Prop with
    | ServiceCreateOrPatch _ _ => λ r, GetServiceType r.2 ≠ ServiceTypeLoadBalancer
    | _ => λ _, True
    end r
  end.

Abbreviation stays_stuck m R := (triple no_load_balancer (λ _, True) True stuck m R).

Lemma stuck_upd f i :
  dbs_DBAddress (f (db_Status i)) = dbs_DBAddress (db_Status i) →
  dbs_Conditions (f (db_Status i)) = dbs_Conditions (db_Status i) →
  stuck i → stuck (db_upd_Status f i).
Proof. intros Ha Hc [Hm Hp]. split; [|cbn; by rewrite Hc]. unfold misexposed. cbn. by rewrite Ha. Qed.

Lemma stuck_conds f i :
  cond_pending ExternalConfigReadyCondition (f (dbs_Conditions (db_Status i))) →
  stuck i → stuck (updConds f i).
Proof. intros Hf [Hm _]. by split. Qed.

Lemma stuck_rbac c i :
  cond_Type c ∈ rbacTypes → stuck i → stuck (OVNDBCluster_RbacConditionsSet c i).
Proof.
  intros Hc [Hm Hp]. split; [done|]. unfold OVNDBCluster_RbacConditionsSet, set_shared. cbn.
  destruct (Conditions_Get _ _); [|done]. apply pending_Set_ne; [|done].
  intros Heq. revert Hc. unfold rbacTypes. rewrite <- Heq, !elem_of_cons, elem_of_nil.
  by intros [|[|[|]]].
Qed.

Lemma stuck_override i j :
  stuck i → stuck j →
  stuck (db_set_Override_Service (normalizeOverride <$> db_Override_Service (db_Spec i)) j).
Proof.
  intros [(_ & _ & (o & Ho & Hlb) & _) _] [(Hsb & Hna & _ & Ha) Hp]. split; [|done].
  split; [done|]. split; [done|]. split; [|done]. exists (normalizeOverride o).
  cbn. rewrite Ho. split; [done|]. unfold normalizeOverride, overrideType in *. cbn.
  by destruct (ov_Spec o).
Qed.

(** The external configuration of a stuck cluster fails. *)
Lemma generateExternalConfigMaps_fails sn i :
  stuck i →
  wpM (generateExternalConfigMaps sn) i (λ tr o, ∃ e, o = Done (Exit i (Some e))).
Proof.
  intros [(_ & _ & (o & Ho & _) & Ha) _]. unfold generateExternalConfigMaps. apply wpM_get.
  unfold GetExternalEndpoint. rewrite Ho, Ha.
  rewrite (bool_decide_eq_true_2 (is_Some _)) by by eexists. rewrite orb_true_r. cbn. by eexists.
Qed.

(** A statement that reports the external configuration is not reached. *)
Lemma stuck_not_NB {A : Prop} i : stuck i → isSB i = false → A.
Proof. intros [(Hsb & _) _]. congruence. Qed.

Lemma stuck_not_internal {A : Prop} i :
  stuck i → isSB i && bool_decide (db_Override_Service (db_Spec i) = None) = true → A.
Proof.
  intros [(_ & _ & (o & Ho & _) & _) _] [_ Hn%bool_decide_eq_true]%andb_true_iff. congruence.
Qed.

Ltac stuck_leaf :=
  first
    [ exact Logic.I | done
    | match goal with
      | H : stuck ?i, E : isSB ?i = false |- _ => exact (stuck_not_NB i H E)
      | H : stuck ?i, E : isSB ?i && _ = true |- _ =>
          exact (stuck_not_internal i H E)
      | Hi : stuck ?i, Hj : stuck ?j |- stuck (db_set_Override_Service _ ?j) =>
          by apply stuck_override
      | H : stuck _ |- _ =>
        first
          [ apply stuck_conds; [|exact H]; destruct H as [_ H];
            first [by apply pending_False | by apply pending_MarkTrue]
          | by apply stuck_upd ]
      end ].

Lemma dbExternalConfig_stuck sn : stays_stuck (dbExternalConfig sn) (λ _, True).
Proof.
  unfold dbExternalConfig. eapply triple_bind; [apply triple_get|]. intros i Hi.
  destruct (_ && _); [|by apply triple_ret].
  eapply (triple_bind _ _ _ _ _ _ (λ r, ∃ e, r = Some e)).
  - intros j Hj. apply wpM_fn. eapply wpM_mono; [|by apply generateExternalConfigMaps_fails].
    intros tr o (e & ->) _. cbn. split; [by apply Forall_true|]. split; [done|by eexists].
  - intros r [e ->]. triples fail with stuck_leaf.
Qed.

Lemma createService_stuck h :
  stays_stuck (createService h) (λ h', GetServiceType h' ≠ ServiceTypeLoadBalancer).
Proof.
  unfold createService.
  apply (triple_bind _ _ _ _ _ _ (λ r, GetServiceType r.2 ≠ ServiceTypeLoadBalancer)).
  - apply triple_call. intros r [_ Hr]. by split.
  - intros [[res [e|]] h'] Hh; [by apply triple_return|]. case_bool_decide; [|by apply triple_return].
    by apply triple_ret.
Qed.

Lemma externalDNS_stuck i b sn labels pods :
  stuck i →
  stays_stuck (if nonempty (db_NetworkAttachment (db_Spec i)) && b
               then externalDNS sn labels pods else do! deleteDNS sn; ret None) (λ r, r = None).
Proof.
  intros [(_ & -> & _) _]. change (nonempty "") with false. cbn [andb].
  apply (triple_bind _ _ _ _ _ _ (λ _, True)); [triples fail with stuck_leaf|].
  intros [] _. by apply triple_ret.
Qed.

Lemma reconcileRbac_stuck :
  stays_stuck (reconcileRbac OVNDBCluster_RbacConditionsSet dbRbacRules) (λ _, True).
Proof.
  intros i Hi. apply (triple_mono_env rbac_ok); [by intros ev []| |done].
  by apply triple_reconcileRbac; [apply stuck_rbac|].
Qed.

Lemma dbReconcileNormal_stuck : stays_stuck dbReconcileNormal (λ _, True).
Proof.
  triples (idtac; lazymatch goal with
    | |- triple _ _ _ _ (reconcileRbac _ _) _ => apply reconcileRbac_stuck
    | |- triple _ _ _ _ (dbExternalConfig _) _ => apply dbExternalConfig_stuck
    | |- triple _ _ _ _ (bind (createService _) _) _ =>
        eapply triple_bind; [apply createService_stuck|intros ? ?]
    | |- triple _ _ _ _ (bind (if _ && _ then externalDNS _ _ _ else _) _) _ =>
        eapply triple_bind; [by apply externalDNS_stuck|intros ? ->]
    end) with (try stuck_leaf).
  match goal with H : bool_decide (GetServiceType _ = _) = true |- _ =>
    apply bool_decide_eq_true in H; cbn in *; congruence end.
Qed.

Lemma reconcileBody_stuck :
  stays_stuck (reconcileBody false (λ i, i) dbReconcileNormal) (λ _, True).
Proof.
  unfold reconcileBody.
  triples (apply triple_fn; [done|apply dbReconcileNormal_stuck]) with (try stuck_leaf).
Qed.

Lemma dbInit_stuck i : misexposed i → stuck (dbInitStatus i).
Proof.
  intros Hm. split; [done|].
  assert (∀ t r m, cond_Type (UnknownCondition t r m) = t) as Ht by (intros; apply Unknown_spec).
  unfold dbInitStatus. cbn.
  rewrite <- (Ht ExternalConfigReadyCondition InitReason (Msg "ovnv1.ExternalConfigInitMessage" [])) at 1.
  apply pending_Init.
  - unfold dbInitConditions. destruct (db_TopologyRef _); cbn; rewrite !Ht;
      apply (bool_decide_unpack _); vm_compute; exact Logic.I.
  - unfold dbInitConditions. solve_in.
  - destruct (Unknown_spec ExternalConfigReadyCondition InitReason
      (Msg "ovnv1.ExternalConfigInitMessage" [])) as [_ ->]. done.
Qed.

(** C35. A reconciliation of an SB cluster that has no external address yet, with a
    service override that is not a load balancer and without a network attachment, when the
    services it is answered are no load balancers either, does not report it Ready and
    leaves it without an external address, so that the next such reconciliation does not
    either. *)
Theorem misexposed_stays_unready req i tr o i' perr :
  misexposed i →
  exec (OVNDBCluster_Reconcile req) (Ev (GetOVNDBCluster req) (Okay i) :: tr) o →
  Forall no_load_balancer tr →
  Ev (PatchInstance (ObjOVNDBCluster i')) perr ∈ tr →
  OVNDBCluster_IsReady i' = false ∧ misexposed i'.
Proof.
  intros Hm Hex Henv Hin. unfold OVNDBCluster_Reconcile in Hex.
  apply (reconcile_patched _ _ _ _ _ i' perr) in Hex
    as (j & tr' & ib & x & ob & Hb & He & Htr & -> & _); [|by intros r []| |by right].
  - apply (inj2 cons) in Htr as [Hj ->]. apply (f_equal fetched) in Hj as [= <-].
    apply Forall_cons in Henv as [_ Henv]. apply Forall_app in Henv as [Henv _].
    destruct (triple_exec _ _ _ _ _ _ _ _ _ reconcileBody_stuck (dbInit_stuck i Hm) Hb Henv) as [_ Hs].
    assert (stuck ib) as [Hmi (st & Hst & Hne)] by (destruct He as [-> | ->]; tauto).
    split; [|done]. apply not_true_is_false. unfold OVNDBCluster_IsReady.
    change (dbs_Conditions (db_Status ?k)) with (cr_Conditions k). rewrite IsTrue_status, ready_patched.
    intros Hall. by destruct (Hne (Hall ExternalConfigReadyCondition st ltac:(done) Hst)).
  - intros k. apply reconcileBody_patchless, dbReconcileNormal_patchless.
Qed.
End exposure.
