(* ===== verification/Confinement.v ===== *)
(** * The reconcilers stay in the namespace of their resource

    Every request a reconciliation makes, read or write, is for objects of the
    namespace of the resource it was asked to reconcile, when the API server answers
    a request in a namespace with objects of that namespace.  The topology is the
    exception: it is named, namespace included, by the specification. *)
From S2P Require Import Prelude Prog Triples K8s Lib Api ApiMethods Calls Shared.
From S2P Require Import SharedProofs Client DBManifests DBController CtlNetworks.
From S2P Require Import CtlManifests CtlController NorthdManifests NorthdController.
From S2P Require Import DBProofs NorthdProofs CtlProofs.
#[local] Open Scope go_scope.

Section confinement.
Context {AT : ApiTypes} {CL : CondLib} {L : Lib}.
Context (ns : string).

(** ** Requests and answers of a namespace *)

Definition object_in (o : Object) : Prop :=
  match o with
  | ObjOVNDBCluster i => om_Namespace (db_Meta i) = ns
  | ObjOVNNorthd i => om_Namespace (nd_Meta i) = ns
  | ObjOVNController i => om_Namespace (oc_Meta i) = ns
  | ObjOther _ => False
  end.

(** The handle of a service of the namespace. *)
Inductive handle_in : SvcHandle → Prop :=
| new_handle svc o h : svc_Namespace svc = ns → NewService svc o = Okay h → handle_in h
| annotated_handle a h : handle_in h → handle_in (AddAnnotation a h).

(** A request for objects of the namespace.  Topologies, the clock and the DNS
    domain have none; the helper verifies the pods of the namespace of its object. *)
Definition confined (ev : event Ext) : Prop :=
  match ev with Ev e _ =>
    match e with
    | GetOVNDBCluster n | GetOVNNorthd n | GetOVNController_ n => nn_Namespace n = ns
    | ListOVNDBClusters n _ | ListOVNControllers n | ListNames _ n
    | ListByField _ _ _ n | GetService n _ | GetDeployment n _ | GetNAD n _
    | Delete _ n _ | ListPods n _ | ClientsetListPods n _ | GetNADWithName _ n
    | ValidateCertSecret _ n | DeletePDBWithName _ n | GetServiceWithName _ n
    | GetServicesListWithLabel n _ => n = ns
    | ValidateCACertSecret n => nn_Namespace n = ns
    | NewHelper o | PatchInstance o | ReconcileRbac o _ | DeleteServicesWithLabel o _ =>
        object_in o
    | UpdateDeployment d => dep_Namespace d = ns
    | CreateNAD n | UpdateNAD n => nad_Namespace n = ns
    | UpdateService s => svc_Namespace s = ns
    | CreateOrPatchDNSData o d => object_in o ∧ dns_Namespace d = ns
    | EnsureConfigMaps o cms _ => object_in o ∧ Forall (λ t, tpl_Namespace t = ns) cms
    | StatefulSetCreateOrPatch s _ =>
        sts_Namespace s = ns ∧ Forall (λ c, pvc_Namespace c = ns) (sts_VolumeClaimTemplates s)
    | DaemonSetCreateOrPatch d _ => ds_Namespace d = ns
    | PDBCreateOrPatch p _ => pdb_Namespace p = ns
    | ServiceCreateOrPatch h _ => handle_in h
    | DoJob j _ _ _ _ => job_Namespace j = ns
    | EnsureServiceTopology _ _ _ _ | EnsureDeletedTopologyRef _ _
    | VerifyNetworkStatusFromAnnotation _ _ _ | GetDNSClusterDomain | NowUnix => True
    end
  end.

(** What is asked for in a namespace is in that namespace. *)
Definition answers_in (ev : event Ext) : Prop :=
  match ev with Ev e r =>
    match e in Ext R return R → Prop with
    | GetOVNDBCluster n => λ r, ∀ i, r = Okay i → om_Namespace (db_Meta i) = nn_Namespace n
    | GetOVNNorthd n => λ r, ∀ i, r = Okay i → om_Namespace (nd_Meta i) = nn_Namespace n
    | GetOVNController_ n => λ r, ∀ i, r = Okay i → om_Namespace (oc_Meta i) = nn_Namespace n
    | GetDeployment n _ => λ r, ∀ d, r = Okay d → dep_Namespace d = n
    | GetNAD n _ => λ r, ∀ d, r = Okay d → nad_Namespace d = n
    | GetServiceWithName _ n => λ r, ∀ s, r.1 = Some s → svc_Namespace s = n
    | ClientsetListPods n _ => λ r, ∀ ps, r = Okay ps → Forall (λ p, pod_Namespace p = n) ps
    | _ => λ _, True
    end r
  end.

Lemma Forall_optional {A} (P : A → Prop) (b : bool) l :
  (b = true → Forall P l) → Forall P (if b then l else []).
Proof. destruct b; auto. Qed.

(** ** The shared code *)
Definition stays {I} {CR : CustomResource I} {X A} (m : Go I X A) (R : A → Prop) : Prop :=
  triple answers_in confined True (λ i, om_Namespace (cr_Meta i) = ns) m R.

(** The answer of a call is what the environment promises of it. *)
Ltac stay_call :=
  match goal with
  | |- triple ?Env _ _ _ (bind (call ?e) _) _ =>
      apply (triple_bind _ _ _ _ _ _ (λ r, Env (Ev e r)));
        [apply triple_call; intros ? ?; split; [|assumption]|intros ? ?]
  end.
(** A statement that returns a handle or a list of pods. *)
Create HintDb stay.
Ltac stay_leaf :=
  unfold updConds in *; cbn in *; autorewrite with cr;
  repeat match goal with
  | H : ∀ x, Okay ?y = Okay x → _ |- _ => specialize (H _ eq_refl)
  | H : _ ∧ _ |- _ => destruct H
  | E : om_Namespace ?m = _, H : Forall (λ _, _ = om_Namespace ?m) _ |- _ => rewrite E in H
  | H : Forall _ ?l, Hx : ?x ∈ ?l |- _ => apply (proj1 (Forall_forall _ _) H) in Hx
  | H : ∀ x, Some ?y = Some x → _ |- _ => specialize (H _ eq_refl)
  | H : NewService ?s _ = Okay ?h |- handle_in ?h => apply (new_handle s _ _) in H
  | |- _ ∧ _ => split
  | |- Forall _ (if _ then _ else _) => apply Forall_optional; intros _
  | |- Forall _ [] => apply Forall_nil_2
  | |- Forall _ (_ :: _) => apply Forall_cons_2
  end; cbn; first [exact Logic.I | congruence | eauto with stay].
Tactic Notation "stays_by" tactic3(known) :=
  unfold stays; triples (first [known | stay_call]) with (try by stay_leaf).

Lemma validateTLS_stays {I} {CR : CustomResource I} {CRL : CustomResourceLaws I} vars :
  stays (validateTLS (I := I) vars) (λ _, True).
Proof. stays_by fail. Qed.

Lemma storeHash_stays {I} {CR : CustomResource I} {CRL : CustomResourceLaws I} {X} vars key :
  stays (storeHash (I := I) (X := X) vars key) (λ _, True).
Proof. stays_by fail. Qed.

Lemma ensureTopology_stays {I} {CR : CustomResource I} {CRL : CustomResourceLaws I} f sel :
  stays (ensureTopology (I := I) f sel) (λ _, True).
Proof. stays_by fail. Qed.

Lemma lift_go_stays {I} {CR : CustomResource I} {X A} (g : go A) (R : fallible A → Prop) :
  (∀ a, g = GOk a → R (Okay a)) → (∀ e, R (Fail e)) → stays (X := X) (lift_go g) R.
Proof.
  intros Ha He. unfold stays, lift_go. destruct g; [by apply triple_ret, Ha|..].
  - apply triple_ret, He.
  - by apply triple_panic.
Qed.

Lemma rbac_stays {I} {CR : CustomResource I} {OI : IsObject I} {CRL : CustomResourceLaws I}
    set rules :
  (∀ c i, cr_Meta (set c i) = cr_Meta i) →
  (∀ i, om_Namespace (cr_Meta i) = ns → object_in (to_object i)) →
  stays (reconcileRbac (I := I) set rules) (λ _, True).
Proof.
  intros Hset Ho.
  assert (∀ cs i, cr_Meta (foldl (λ i c, set c i) i cs) = cr_Meta i) as Hfold.
  { intros cs. induction cs as [|c cs IH]; intros i; cbn; [done|]. by rewrite IH. }
  stays_by fail.
Qed.

(** ** OVNNorthd *)
Lemma nd_StatefulSet_in i labels nb sb vars topo sts :
  om_Namespace (nd_Meta i) = ns → nd_StatefulSet i labels nb sb vars topo = GOk sts →
  sts_Namespace sts = ns ∧ Forall (λ c, pvc_Namespace c = ns) (sts_VolumeClaimTemplates sts).
Proof. intros Hns. unfold nd_StatefulSet. intros. by split_matches. Qed.

Lemma ndReconcileNormal_stays : stays ndReconcileNormal (λ _, True).
Proof.
  stays_by (idtac; lazymatch goal with
    | |- triple _ _ _ _ (reconcileRbac _ _) _ => by apply rbac_stays
    | |- triple _ _ _ _ (bind (lift_go (nd_StatefulSet ?i _ _ _ _ _)) _) _ =>
        apply (triple_bind _ _ _ _ _ _ (λ r, ∀ sts, r = Okay sts →
          sts_Namespace sts = ns ∧
          Forall (λ c, pvc_Namespace c = ns) (sts_VolumeClaimTemplates sts)));
          [apply lift_go_stays; [|done]|intros ? ?]
    end).
  all: try (intros sts Hsts ? [= <-]; by apply nd_StatefulSet_in in Hsts).
Qed.

(** ** OVNController *)
Lemma CreateOVNDaemonSet_in i h labels topo ds :
  om_Namespace (oc_Meta i) = ns → CreateOVNDaemonSet i h labels topo = GOk ds →
  ds_Namespace ds = ns.
Proof. intros Hns. unfold CreateOVNDaemonSet. intros. by split_matches. Qed.

Lemma createOrUpdate_stays {S X} i labels physNet config :
  om_Namespace (oc_Meta i) = ns →
  triple (S := S) answers_in confined True (λ _, True)
    (createOrUpdateNetworkAttachmentDefinition (X := X) i labels physNet config) (λ _, True).
Proof. intros Hns. triples (idtac; stay_call) with (try by stay_leaf). Qed.

Lemma networks_stay {S} i labels atts :
  om_Namespace (oc_Meta i) = ns →
  triple (S := S) answers_in confined True (λ _, True)
    (CreateOrUpdateAdditionalNetworks i labels atts) (λ _, True).
Proof.
  intros Hns. triples (idtac; lazymatch goal with
    | |- triple _ _ _ _ (createOrUpdateNetworkAttachmentDefinition _ _ _ _) _ =>
        by apply createOrUpdate_stays
    end) with (try by stay_leaf).
Qed.

Lemma ConfigJob_stays i sb labels :
  om_Namespace (oc_Meta i) = ns →
  stays (I := OVNController) (X := RE) (ConfigJob i sb labels)
    (λ r, ∀ jobs, r = Okay jobs → Forall (λ j, job_Namespace j = ns) jobs).
Proof.
  intros Hns. unfold stays, ConfigJob, getOVNControllerPods. 
  triples (idtac; stay_call) with (try by stay_leaf).
  intros jobs [= <-]. apply Forall_fmap, Forall_true. by intros pod.
Qed.

Lemma ocReconcileNormal_stays : stays ocReconcileNormal (λ _, True).
Proof.
  stays_by (idtac; lazymatch goal with
    | |- triple _ _ _ _ (reconcileRbac _ _) _ => by apply rbac_stays
    | |- triple _ _ _ _ (CreateOrUpdateAdditionalNetworks _ _ _) _ => apply networks_stay
    | |- triple _ _ _ _ (bind (ConfigJob _ _ _) _) _ =>
        eapply triple_bind; [by apply ConfigJob_stays|intros ? ?]
    | |- triple _ _ _ _ (bind (lift_go (CreateOVNDaemonSet _ _ _ _)) _) _ =>
        apply (triple_bind _ _ _ _ _ _ (λ r, ∀ ds, r = Okay ds → ds_Namespace ds = ns));
          [apply lift_go_stays; [|done]|intros ? ?]
    end).
  all: try (intros ds Hds ? [= <-]; by apply CreateOVNDaemonSet_in in Hds).
Qed.

(** ** OVNDBCluster *)
Lemma StatefulSet_in i h labels ann topo sts :
  om_Namespace (db_Meta i) = ns → StatefulSet i h labels ann topo = GOk sts →
  sts_Namespace sts = ns ∧ Forall (λ c, pvc_Namespace c = ns) (sts_VolumeClaimTemplates sts).
Proof. intros Hns. unfold StatefulSet. intros. split_matches; by repeat constructor. Qed.

Lemma orReturn_stays {A} (r : fallible A) :
  stays (I := OVNDBCluster) (orReturn r) (λ a, r = Okay a).
Proof. unfold stays, orReturn. destruct r; [by apply triple_ret|by apply triple_return]. Qed.

(** A service made for the resource. *)
Lemma NewService_stays svc o :
  svc_Namespace svc = ns → stays (I := OVNDBCluster) (orReturn (NewService svc o)) handle_in.
Proof.
  intros Hns. unfold stays, orReturn. destruct (NewService svc o) as [h|e] eqn:Hh.
  - apply triple_ret. by eapply new_handle.
  - by apply triple_return.
Qed.

Lemma clusterService_stays name labels :
  stays (I := OVNDBCluster) (clusterService name labels) handle_in.
Proof.
  stays_by (idtac; lazymatch goal with
    | |- triple _ _ _ _ (bind (orReturn _) _) _ =>
        eapply triple_bind; [apply NewService_stays|intros ? ?]
    | |- triple _ _ _ _ (orReturn _) _ => apply NewService_stays
    end).
  destruct (bool_decide (GetServiceType _ = _)); [by apply annotated_handle|done].
Qed.

Lemma createService_stays h :
  handle_in h → stays (I := OVNDBCluster) (createService h) (λ _, True).
Proof. intros Hh. stays_by fail. Qed.

Lemma podService_stays name pod :
  pod_Namespace pod = ns → stays (I := OVNDBCluster) (podService name pod) (λ _, True).
Proof.
  intros Hpod.
  stays_by (idtac; lazymatch goal with
    | |- triple _ _ _ _ (bind (orReturn _) _) _ =>
        eapply triple_bind; [apply NewService_stays|intros ? ?]
    | |- triple _ _ _ _ (createService _) _ => by apply createService_stays
    end).
Qed.

Lemma externalDNS_stays name labels pods :
  Forall (λ p, pod_Namespace p = ns) pods →
  stays (I := OVNDBCluster) (externalDNS name labels pods) (λ _, True).
Proof.
  intros Hpods.
  assert (∀ n, Forall (λ p, pod_Namespace p = ns) (take n pods)) as Htake
    by (intros n; by apply Forall_take).
  stays_by (idtac; lazymatch goal with
    | |- triple _ _ _ _ (foldM _ _ _) _ =>
        apply triple_foldM; [done|intros ? ? _ Hx; apply (proj1 (Forall_forall _ _) (Htake _)) in Hx]
    end).
Qed.

Lemma createConsolidatedConfigJobs_stay {S X} i pods labels ttl changed s :
  om_Namespace (db_Meta i) = ns →
  wpM (S := S) (X := X) (createConsolidatedConfigJobs i pods labels ttl changed) s (λ tr o,
    Forall confined tr ∧
    ∃ jobs, o = Done (Cont s jobs) ∧ Forall (λ j, job_Namespace j = ns) jobs).
Proof.
  intros Hns. apply (wpM_foldM _ (λ _ jobs s' tr, Forall confined tr ∧
    s' = s ∧ Forall (λ j, job_Namespace j = ns) jobs)); [done| |naive_solver].
  intros dn pod rest jobs s' tr _ (Htr & -> & Hjobs).
  repeat wp_step; cbn; rewrite ?app_nil_r; try done.
  split; [by apply Forall_app_2; [|repeat constructor]|]. split; [done|].
  apply Forall_app_2; [done|]. by repeat constructor.
Qed.

(** The jobs, whether the list of pods fails or not. *)
Lemma RuntimeConfigJobs_stays {X} i labels name changed :
  om_Namespace (db_Meta i) = ns →
  stays (I := OVNDBCluster) (X := X) (fn (RuntimeConfigJobs i labels name changed))
    (λ r, ∀ jobs, r = Okay jobs → Forall (λ j, job_Namespace j = ns) jobs).
Proof.
  intros Hns s Hs. apply wpM_fn. unfold RuntimeConfigJobs, getOVNDBClusterPods.
  apply wpM_bind. cbn. intros [pods|e]; [|cbn; intros _; split; [by repeat constructor|done]].
  apply wpM_bind. eapply wpM_mono; [|by apply createConsolidatedConfigJobs_stay].
  intros tr o (Htr & jobs & -> & Hjobs). cbn. rewrite ?app_nil_r. intros _.
  split; [by constructor|]. split; [done|]. by intros ? [= <-].
Qed.

Lemma dbReconcileServices_stays labels name :
  stays (dbReconcileServices labels name) (λ _, True).
Proof.
  stays_by (idtac; lazymatch goal with
    | |- triple _ _ _ _ (bind (clusterService _ _) _) _ =>
        eapply triple_bind; [apply clusterService_stays|intros ? ?]
    | |- triple _ _ _ _ (createService _) _ => by apply createService_stays
    | |- triple _ _ _ _ (bind (OVNDBPods _ _) _) _ => unfold OVNDBPods; stay_call
    | |- triple _ _ _ _ (bind (orReturn _) _) _ =>
        eapply triple_bind; [apply orReturn_stays|intros ? ->]
    | |- triple _ _ _ _ (podService _ _) _ => apply podService_stays
    | |- triple _ _ _ _ (externalDNS _ _ _) _ => apply externalDNS_stays
    end).
Qed.

Lemma dbReconcileNormal_stays : stays dbReconcileNormal (λ _, True).
Proof.
  stays_by (idtac; lazymatch goal with
    | |- triple _ _ _ _ (reconcileRbac _ _) _ => by apply rbac_stays
    | |- triple _ _ _ _ (dbReconcileServices _ _) _ => apply dbReconcileServices_stays
    | |- triple _ _ _ _ (bind (fn (RuntimeConfigJobs _ _ _ _)) _) _ =>
        eapply triple_bind; [apply RuntimeConfigJobs_stays|intros ? ?]
    | |- triple _ _ _ _ (submitConfigJobs _ _) _ => 
        apply triple_foldM; [done|intros ? ? _ ?]
    | |- triple _ _ _ _ (bind (lift_go (StatefulSet _ _ _ _ _)) _) _ =>
        apply (triple_bind _ _ _ _ _ _ (λ r, ∀ sts, r = Okay sts →
          sts_Namespace sts = ns ∧
          Forall (λ c, pvc_Namespace c = ns) (sts_VolumeClaimTemplates sts)));
          [apply lift_go_stays; [|done]|intros ? ?]
    end).
  all: try (intros sts Hsts ? [= <-]; by apply StatefulSet_in in Hsts).
Qed.

(** ** Reconcile *)
Lemma reconcile_stays {I} {CR : CustomResource I} {OI : IsObject I}
    {CRL : CustomResourceLaws I} fetch init prepare isNew (normal : Go I RE RE) tr o :
  (∀ r, confined (Ev fetch r)) →
  (∀ i, answers_in (Ev fetch (Okay i)) → om_Namespace (cr_Meta i) = ns) →
  (∀ i, cr_Meta (init i) = cr_Meta i) → (∀ i, cr_Meta (prepare i) = cr_Meta i) →
  (∀ i, om_Namespace (cr_Meta i) = ns → object_in (to_object i)) →
  stays normal (λ _, True) →
  exec (reconcile fetch init (λ i, reconcileBody (isNew i) prepare normal)) tr o →
  Forall answers_in tr → Forall confined tr.
Proof.
  intros Hfetch Hns Hinit Hprep Ho Hnormal Hex Henv.
  destruct Hex as (r & tr' & -> & Hex). apply Forall_cons in Henv as [Hr Henv].
  apply Forall_cons_2; [apply Hfetch|]. destruct r as [i|e].
  - apply Hns in Hr. revert tr' o Hex Henv. 
    refine (proj1 (wp_exec _ (λ tr _, Forall answers_in tr → Forall confined tr)) _).
    cbv beta iota. apply wp_bind.
    assert (stays (reconcileInstance init (λ i, reconcileBody (isNew i) prepare normal))
              (λ _, True)) as Hbody by (stays_by (idtac; lazymatch goal with
        | |- triple _ _ _ _ normal _ => apply Hnormal
        end)).
    eapply wpM_mono; [|by apply (Hbody i)].
    intros tr [[|]|] Htr; cbn; rewrite ?app_nil_r; intros Henv; by apply Htr.
  - by destruct (IsNotFound e), Hex as [-> ->].
Qed.
End confinement.

Section reconcilers.
Context {AT : ApiTypes} {CL : CondLib} {L : Lib}.

(** C33. For all three reconcilers: every request of a reconciliation is for the
    namespace of the resource, topologies apart, when the API server answers a request
    within its namespace. *)
Theorem requests_confined req tr o :
  exec (OVNDBCluster_Reconcile req) tr o ∨ exec (OVNNorthd_Reconcile req) tr o ∨
  exec (OVNController_Reconcile req) tr o →
  Forall answers_in tr → Forall (confined (nn_Namespace req)) tr.
Proof.
  intros [Hex|[Hex|Hex]].
  - apply (reconcile_stays _ (GetOVNDBCluster req) dbInitStatus (λ i, i) (λ _, false) dbReconcileNormal tr o);
      [done|naive_solver|done..|apply dbReconcileNormal_stays|done].
  - apply (reconcile_stays _ (GetOVNNorthd req) ndInitStatus (λ i, i) (λ _, false) ndReconcileNormal tr o);
      [done|naive_solver|done..|apply ndReconcileNormal_stays|done].
  - apply (reconcile_stays _ (GetOVNController_ req) ocInitStatus ocInitMaps oc_isNew ocReconcileNormal tr o);
      [done|naive_solver|done..|apply ocReconcileNormal_stays|done].
Qed.
End reconcilers.
