(* ===== verification/Validity.v ===== *)
(** * The objects the reconcilers write are well formed

    Rules the API server checks, or that a pod needs to start: containers, volumes
    and mount points with names of their own, mounts of volumes that are there,
    config maps generated earlier in the same run, a selector that selects the pods
    it is written for, ports with distinct names and numbers.  [valid_request] says
    it of a request; the builders satisfy it, and so does every run. *)
From S2P Require Import Prelude Prog Triples Learning K8s Lib Api ApiMethods Calls Shared.
From S2P Require Import SharedProofs Client DBManifests DBController CtlNetworks.
From S2P Require Import CtlManifests CtlController NorthdManifests NorthdController.
From S2P Require Import Mounts DBManifestProofs NorthdManifestProofs CtlManifestProofs.
From S2P Require Import DBProofs NorthdProofs CtlProofs.
#[local] Open Scope go_scope.

Section validity.
Context {AT : ApiTypes} {CL : CondLib} {L : Lib}.

(** ** Well formed objects *)

Definition mounts_apart (c : Container) : Prop := NoDup (vm_MountPath <$> c_VolumeMounts c).

(** A pod with the claims [claims], when the config maps [cms] exist. *)
Record pod_valid (cms claims : list string) (p : PodSpec) : Prop := {
  pod_has_container : ps_Containers p ≠ [];
  pod_containers_named : NoDup (c_Name <$> ps_InitContainers p ++ ps_Containers p);
  pod_volumes_named : NoDup (claims ++ (vol_Name <$> ps_Volumes p));
  pod_mounts_apart : Forall mounts_apart (ps_InitContainers p ++ ps_Containers p);
  pod_mounts_provided : pod_provided cms claims p;
}.

(** The pods of a template run for ever and are the ones the selector selects. *)
Definition template_valid (cms claims : list string) (selector : gmap string string)
    (t : PodTemplateSpec) : Prop :=
  pod_valid cms claims (pt_Spec t) ∧ selector ≠ ∅ ∧ selector ⊆ pt_Labels t ∧
  ps_RestartPolicy (pt_Spec t) = "".

Definition sts_valid (cms : list string) (s : StatefulSetDef) : Prop :=
  template_valid cms (pvc_Name <$> sts_VolumeClaimTemplates s) (sts_Selector s)
    (sts_Template s).

Definition ds_valid (cms : list string) (d : DaemonSetDef) : Prop :=
  template_valid cms [] (ds_Selector d) (ds_Template d).

(** A job must say that its pods are not restarted for ever. *)
Definition job_valid (cms : list string) (j : Job) : Prop :=
  pod_valid cms [] (job_Spec j) ∧ ps_RestartPolicy (job_Spec j) ∈ ["OnFailure"; "Never"].

Definition port_valid (p : ServicePort) : Prop :=
  sp_Name p ≠ "" ∧ (1 ≤ sp_Port p ≤ 65535)%Z.

Definition service_valid (s : Service) : Prop :=
  let ports := ss_Ports (svc_Spec s) in
  ports ≠ [] ∧ NoDup (sp_Name <$> ports) ∧ NoDup (sp_Port <$> ports) ∧
  Forall port_valid ports ∧ ss_Selector (svc_Spec s) ≠ ∅.

(** The handle of a well formed service. *)
Inductive handle_valid : SvcHandle → Prop :=
| new_handle_valid svc o h : service_valid svc → NewService svc o = Okay h → handle_valid h
| annotated_handle_valid a h : handle_valid h → handle_valid (AddAnnotation a h).

(** The objects of a request are well formed, when the config maps [cms] exist; the
    config maps of one request do not overwrite one another. *)
Definition valid_request (cms : list string) (ev : event Ext) : Prop :=
  match ev with Ev e _ =>
    match e with
    | StatefulSetCreateOrPatch s _ => sts_valid cms s
    | DaemonSetCreateOrPatch d _ => ds_valid cms d
    | DoJob j _ _ _ _ => job_valid cms j
    | ServiceCreateOrPatch h _ => handle_valid h
    | EnsureConfigMaps _ ts _ => NoDup (tpl_Name <$> ts)
    | PDBCreateOrPatch p _ => (0 ≤ pdb_MaxUnavailable p)%Z ∧ pdb_Selector p ≠ ∅
    | _ => True
    end
  end.

(** The config maps a request generated. *)
Definition generated (ev : event Ext) : list string :=
  match ev with Ev e r =>
    match e in Ext R return R → list string with
    | EnsureConfigMaps _ ts _ => λ r, if r.2 is None then tpl_Name <$> ts else []
    | _ => λ _, []
    end r
  end.

(** More config maps never harm. *)
Lemma pod_provided_mono cms cms' claims p :
  cms ⊆ cms' → pod_provided cms claims p → pod_provided cms' claims p.
Proof.
  intros Hsub Hp. eapply Forall_impl; [exact Hp|]. cbn. intros c Hc.
  eapply Forall_impl; [exact Hc|]. intros m [Hm|(v & Hv & Hn & Hs)]; [by left|].
  right. exists v. split; [done|]. split; [done|]. unfold source_ok in *.
  destruct (vol_Source v); auto.
Qed.

Lemma pod_valid_mono cms cms' claims p :
  cms ⊆ cms' → pod_valid cms claims p → pod_valid cms' claims p.
Proof. intros Hsub []. split; eauto using pod_provided_mono. Qed.

Lemma valid_request_mono cms cms' ev :
  cms ⊆ cms' → valid_request cms ev → valid_request cms' ev.
Proof.
  intros Hsub. destruct ev as [R []]; cbn; try done.
  - intros [? ?]. split; [by eapply pod_valid_mono|done].
  - intros [? ?]. split; [by eapply pod_valid_mono|done].
  - intros [? ?]. split; [by eapply pod_valid_mono|done].
Qed.

(** ** Names that are apart *)

Lemma sublist_if {A} (b : bool) (l k : list A) :
  l `sublist_of` k → (if b then l else []) `sublist_of` k.
Proof. destruct b; [done|]. intros _. apply sublist_nil_l. Qed.

Lemma fmap_if {A B} (f : A → B) (b : bool) l : f <$> (if b then l else []) = if b then f <$> l else [].
Proof. by destruct b. Qed.

Lemma singleton_map_nonempty (k v : string) : ({[k := v]} : gmap string string) ≠ ∅.
Proof. apply map_non_empty_singleton. Qed.

Context {VL : VolumeLaws L} {ML : ManifestLaws L}.

(** Mount points among literal ones. *)
Lemma dbCert_paths secret id :
  (vm_MountPath <$> tls_CreateVolumeMounts (dbCertService secret) id)
    `sublist_of` [OVNDbCertPath; OVNDbKeyPath; OVNDbCaCertPath].
Proof. by apply tls_mount_paths. Qed.
Lemma metricsCert_paths t id :
  (vm_MountPath <$> tls_CreateVolumeMounts (metricsCertService t) id)
    `sublist_of` [OVNMetricsCertPath; OVNMetricsKeyPath; OVNDbCaCertPath].
Proof. by apply tls_mount_paths. Qed.

Lemma NoDup_within {A} (l k : list A) : l `sublist_of` k → NoDup k → NoDup l.
Proof. intros Hs Hn. by apply (sublist_NoDup _ _ Hn). Qed.
End validity.

(** Mount points, part by part: within those of the parts, which are literals. *)
Ltac paths_within :=
  rewrite ?fmap_app, ?fmap_if;
  repeat first
    [ apply sublist_app | apply sublist_if
    | apply dbCert_paths | apply metricsCert_paths | apply Ca_mount_paths | reflexivity ].
Ltac mounts_apart :=
  unfold mounts_apart; cbn [c_VolumeMounts]; eapply NoDup_within; [solve [paths_within]|];
  apply (bool_decide_unpack _); vm_compute; exact Logic.I.

(** Volumes and containers, case by case on what is enabled. *)
Ltac names_apart :=
  rewrite ?fmap_app, ?fmap_if; cbn [fmap list_fmap];
  rewrite ?Ca_volume_named, ?tls_volume_named;
  repeat match goal with |- context [if ?b then _ else _] => destruct b end;
  apply (bool_decide_unpack _); vm_compute; exact Logic.I.

Section builders.
Context {AT : ApiTypes} {CL : CondLib} {L : Lib} {VL : VolumeLaws L} {ML : ManifestLaws L}.

(** ** OVNNorthd *)

Lemma nd_StatefulSet_frame i ls nb sb vars topology sts :
  nd_StatefulSet i ls nb sb vars topology = GOk sts →
  let t := sts_Template sts in
  c_Name <$> containers_of sts =
    ServiceNameOVNNorthd :: (if nd_metrics_on i then ["openstack-network-exporter"] else []) ∧
  sts_Selector sts = ls ∧ pt_Labels t = ls ∧ ps_RestartPolicy (pt_Spec t) = "".
Proof.
  unfold nd_StatefulSet, placePods, containers_of. destruct topology; intros; split_matches; cbn;
    rewrite ?ApplyTo_Containers, ?ApplyTo_Labels, ?ApplyTo_RestartPolicy; done.
Qed.

Lemma nd_StatefulSet_valid i ls nb sb vars topology sts sn :
  nd_StatefulSet i ls nb sb vars topology = GOk sts → ls ≠ ∅ →
  sts_valid (tpl_Name <$> ndServiceConfigMaps i sn) sts.
Proof.
  intros Hsts Hls. pose proof (nd_sts_mounts_provided _ _ _ _ _ _ _ sn Hsts) as Hprov.
  destruct (nd_StatefulSet_frame _ _ _ _ _ _ _ Hsts) as (Hnames & Hsel & Hlab & Hrestart).
  destruct (nd_StatefulSet_parts _ _ _ _ _ _ _ Hsts)
    as (secret & n & main & Hi & _ & _ & Hc & _ & _ & Hm & Hv & Hpvc & _).
  unfold sts_valid, template_valid. rewrite Hsel, Hlab, Hpvc.
  split; [|by split; [|split]]. unfold containers_of, volumes_of in *.
  split; [| | | |exact Hprov]; rewrite ?Hi; cbn [app].
  - by rewrite Hc.
  - rewrite Hnames. names_apart.
  - rewrite Hv. unfold GetNorthdVolumes. names_apart.
  - rewrite Hc. apply Forall_cons_2.
    + unfold mounts_apart. rewrite Hm. unfold GetNorthdVolumeMounts. mounts_apart.
    + destruct (nd_metrics_on i); [|done]. apply Forall_cons_2; [|done].
      unfold nd_metricsContainer. destruct (tls_Enabled _); mounts_apart.
Qed.

(** ** OVNDBCluster *)

Lemma StatefulSet_frame i hash ls ann topology sts :
  StatefulSet i hash ls ann topology = GOk sts →
  let t := sts_Template sts in
  c_Name <$> containers_of sts =
    dbServiceName i :: (if db_metrics_on i then ["openstack-network-exporter"] else []) ∧
  sts_Selector sts = ls ∧ pt_Labels t = ls ∧ ps_RestartPolicy (pt_Spec t) = "".
Proof.
  unfold StatefulSet, dbStatefulSetOf, placePods, containers_of.
  destruct topology; intros; split_matches; cbn;
    rewrite ?ApplyTo_Containers, ?ApplyTo_Labels, ?ApplyTo_RestartPolicy; done.
Qed.

(** The volume of the claim is none of the others. *)
Lemma claim_volume_apart name (l : list string) :
  Forall (λ n, ∀ m, m +:+ PVCSuffixEtcOVN ≠ n) l → NoDup l →
  NoDup ([name +:+ PVCSuffixEtcOVN] ++ l).
Proof.
  intros Hl Hn. apply NoDup_cons_2; [|done]. intros Hin.
  by apply (proj1 (Forall_forall _ _) Hl _ Hin name).
Qed.

(** A name does not end in the suffix of another. *)
Definition ends_in (suffix s : string) : bool :=
  bool_decide (String.substring (String.length s - String.length suffix)
    (String.length suffix) s = suffix).
Lemma substring_suffix m suffix :
  String.substring (String.length m) (String.length suffix) (m +:+ suffix) = suffix.
Proof.
  induction m as [|c m IH]; [|exact IH].
  induction suffix as [|c s IH]; [done|]. exact (f_equal (String c) IH).
Qed.
Lemma not_suffixed suffix m s : ends_in suffix s = false → m +:+ suffix ≠ s.
Proof.
  intros Hs <-. unfold ends_in in Hs. apply bool_decide_eq_false in Hs. apply Hs.
  rewrite string_app_length.
  replace (String.length m + String.length suffix - String.length suffix) with (String.length m)
    by lia.
  apply substring_suffix.
Qed.

Lemma StatefulSet_valid i hash ls ann topology sts sn :
  StatefulSet i hash ls ann topology = GOk sts → ls ≠ ∅ →
  sts_valid (tpl_Name <$> dbServiceConfigMaps i sn) sts.
Proof.
  intros Hsts Hls. pose proof (sts_mounts_provided _ _ _ _ _ _ sn Hsts) as Hprov.
  destruct (StatefulSet_frame _ _ _ _ _ _ Hsts) as (Hnames & Hsel & Hlab & Hrestart).
  destruct (StatefulSet_parts _ _ _ _ _ _ Hsts)
    as (secret & main & Hi & _ & Hc & _ & Hm & Hv & (ls' & q & Hpvc) & _).
  unfold sts_valid, template_valid. rewrite Hsel, Hlab, Hpvc in *.
  split; [|by split; [|split]]. unfold containers_of, volumes_of in *.
  split; [| | | |exact Hprov]; rewrite ?Hi; cbn [app].
  - by rewrite Hc.
  - rewrite Hnames. unfold dbServiceName. destruct (isSB i); names_apart.
  - rewrite Hv. unfold GetDBClusterVolumes. apply claim_volume_apart.
    + rewrite !fmap_app, !fmap_if. cbn [fmap list_fmap]. rewrite ?Ca_volume_named, ?tls_volume_named.
      unfold dbServiceName. destruct (ca_on i), (tls_on i), (db_metrics_on i), (isSB i); cbn [app andb];
        repeat apply Forall_cons_2; try apply Forall_nil_2; intros m; by apply not_suffixed.
    + unfold dbServiceName. destruct (isSB i); names_apart.
  - rewrite Hc. apply Forall_cons_2.
    + unfold mounts_apart. rewrite Hm. unfold GetDBClusterVolumeMounts. mounts_apart.
    + destruct (db_metrics_on i); [|done]. apply Forall_cons_2; [|done].
      unfold metricsContainer. destruct (tls_Enabled _); mounts_apart.
Qed.

(** The runtime configuration job of a pod. *)
Lemma configJob_valid i pod labels ttl now flags sn :
  job_valid [tpl_Name (runtimeConfigMap i sn)] (configJob i pod labels ttl now flags).
Proof.
  split; [|left]. split; cbn; try done.
  - by apply NoDup_singleton.
  - apply (bool_decide_unpack _); vm_compute; exact Logic.I.
  - apply Forall_cons_2; [mounts_apart|apply Forall_nil_2].
  - apply Forall_cons_2; [|apply Forall_nil_2]. cbn. provide; find_volume.
Qed.

(** ** OVNController *)

Lemma CreateOVNDaemonSet_frame i hash ls topology ds :
  CreateOVNDaemonSet i hash ls topology = GOk ds →
  let t := ds_Template ds in
  c_Name <$> ps_Containers (pt_Spec t) = ["ovn-controller"] ∧
  ds_Selector ds = ls ∧ pt_Labels t = ls ∧ ps_RestartPolicy (pt_Spec t) = "".
Proof. unfold CreateOVNDaemonSet. intros. by split_matches. Qed.

Lemma CreateOVNDaemonSet_valid i hash ls topology ds :
  CreateOVNDaemonSet i hash ls topology = GOk ds → ls ≠ ∅ →
  ds_valid [tpl_Name (ocScripts i)] ds.
Proof.
  intros Hds Hls. destruct (oc_mounts_provided i hash ls ∅ topology ds false "" (mkPod "" "" ∅ "" None ""))
    as [Hprov _]. specialize (Hprov Hds).
  destruct (CreateOVNDaemonSet_frame _ _ _ _ _ Hds) as (Hnames & Hsel & Hlab & Hrestart).
  destruct (CreateOVNDaemonSet_parts _ _ _ _ _ Hds)
    as (secret & main & _ & Hi & Hc & _ & Hm & Hv & _).
  unfold ds_valid, template_valid. rewrite Hsel, Hlab.
  split; [|by split; [|split]]. unfold ds_pod in *.
  split; [| | | |exact Hprov]; rewrite ?Hi; cbn [app].
  - by rewrite Hc.
  - rewrite Hnames. by apply NoDup_singleton.
  - rewrite Hv. unfold GetOVNControllerVolumes. names_apart.
  - rewrite Hc. apply Forall_cons_2; [|apply Forall_nil_2].
    unfold mounts_apart. rewrite Hm. unfold GetOVNControllerVolumeMounts. mounts_apart.
Qed.

(** The OVS pods: their containers are those of the template, whatever the topology and
    the annotations. *)
Lemma CreateOVSDaemonSet_frame i hash ls ann topology hardened :
  let ds := CreateOVSDaemonSet i hash ls ann topology hardened in
  let p := ds_pod ds in
  c_Name <$> ps_InitContainers p ++ ps_Containers p =
    ["ovsdb-server-init"; "ovsdb-server"; "ovs-vswitchd"] ∧ ps_Containers p ≠ [] ∧
  ds_Selector ds = ls ∧ pt_Labels (ds_Template ds) = ls ∧
  ps_RestartPolicy (pt_Spec (ds_Template ds)) = "".
Proof.
  unfold CreateOVSDaemonSet, ds_pod. cbn [ds_Template ds_Selector]. cbv zeta.
  case_bool_decide; destruct topology; cbn [pt_Spec pt_Labels];
    rewrite ?ApplyTo_InitContainers, ?ApplyTo_Containers, ?ApplyTo_Labels,
      ?ApplyTo_RestartPolicy; done.
Qed.

Lemma CreateOVSDaemonSet_valid i hash ls ann topology hardened :
  ls ≠ ∅ → ds_valid [tpl_Name (ocScripts i)] (CreateOVSDaemonSet i hash ls ann topology hardened).
Proof.
  intros Hls. destruct (oc_mounts_provided i hash ls ann topology (mkDaemonSet "" "" ∅
    (mkPodTemplateSpec ∅ ∅ (mkPodSpec None "" None "" [] [] [] None "" None)))
    hardened "" (mkPod "" "" ∅ "" None "")) as (_ & Hprov & _).
  destruct (CreateOVSDaemonSet_frame i hash ls ann topology hardened)
    as (Hnames & Hc & Hsel & Hlab & Hrestart).
  destruct (CreateOVSDaemonSet_parts i hash ls ann topology hardened) as [Hparts Hv].
  unfold ds_valid, template_valid. rewrite Hsel, Hlab.
  split; [|by split; [|split]]. unfold ds_pod in *. split; [done| | | |exact Hprov].
  - rewrite Hnames. names_apart.
  - rewrite Hv. names_apart.
  - apply Forall_forall. intros c Hin.
    apply (list_elem_of_fmap_2 (λ c, (c_VolumeMounts c, c_Env c, c_SecurityContext c))) in Hin.
    rewrite Hparts in Hin. rewrite !elem_of_cons, elem_of_nil in Hin.
    unfold mounts_apart.
    destruct Hin as [[= -> _ _]|[[= -> _ _]|[[= -> _ _]|[]]]]; names_apart.
Qed.

Lemma CreateMetricsDaemonSet_valid i hash ls topology :
  ls ≠ ∅ → ds_valid [tpl_Name (GetMetricsConfigMap i)] (CreateMetricsDaemonSet i hash ls topology).
Proof.
  intros Hls. destruct (oc_mounts_provided i hash ls ∅ topology (mkDaemonSet "" "" ∅
    (mkPodTemplateSpec ∅ ∅ (mkPodSpec None "" None "" [] [] [] None "" None)))
    false "" (mkPod "" "" ∅ "" None "")) as (_ & _ & Hprov & _).
  split; [|done]. split; [done|by apply NoDup_singleton| | |exact Hprov].
  - cbn [ds_Template CreateMetricsDaemonSet pt_Spec ps_Volumes]. names_apart.
  - apply Forall_cons_2; [|apply Forall_nil_2]. mounts_apart.
Qed.

Lemma ovnConfigJob_valid i ls endpoint pod :
  job_valid [tpl_Name (ocScripts i); tpl_Name (ocExtraScripts i)] (ovnConfigJob i ls endpoint pod).
Proof.
  destruct (oc_mounts_provided i "" ls ∅ None (mkDaemonSet "" "" ∅
    (mkPodTemplateSpec ∅ ∅ (mkPodSpec None "" None "" [] [] [] None "" None)))
    false endpoint pod) as (_ & _ & _ & Hprov).
  split; [|left]. split; [done|by apply NoDup_singleton| | |exact Hprov].
  - cbn [job_Spec ovnConfigJob ps_Volumes]. names_apart.
  - apply Forall_cons_2; [|apply Forall_nil_2]. mounts_apart.
Qed.

(** ** Services and config maps *)

Ltac service_parts :=
  repeat split; cbn; try done;
  try (apply (bool_decide_unpack _); vm_compute; exact Logic.I).

Lemma Service_valid name i ls sel : sel ≠ ∅ → service_valid (Service_ name i ls sel).
Proof.
  intros Hsel. unfold Service_. destruct (isSB i), (db_metrics_on i); service_parts.
Qed.

Lemma HeadlessService_valid name i ls sel :
  sel ≠ ∅ → service_valid (HeadlessService name i ls sel).
Proof.
  intros Hsel. unfold HeadlessService. destruct (isSB i); service_parts.
Qed.

Lemma metricsService_valid name ns ls sel :
  sel ≠ ∅ → service_valid (mkService name ns ls
    (mkServiceSpec sel [mkServicePort "metrics" MetricsPort ProtocolTCP] false "" "")).
Proof.
  intros Hsel. service_parts.
Qed.

(** Two config maps of a resource: the suffixes differ. *)
Lemma suffixes_apart (n s1 s2 : string) : s1 ≠ s2 → NoDup [n +:+ s1; n +:+ s2].
Proof.
  intros Hs. apply NoDup_cons_2; [|by apply NoDup_singleton].
  rewrite list_elem_of_singleton. intros Heq. apply Hs. clear Hs.
  induction n as [|c n IH]; [exact Heq|]. apply IH. by injection Heq.
Qed.

Lemma dbServiceConfigMaps_apart i sn : NoDup (tpl_Name <$> dbServiceConfigMaps i sn).
Proof.
  unfold dbServiceConfigMaps. destruct (db_metrics_on i); [by apply suffixes_apart|].
  by apply NoDup_singleton.
Qed.
Lemma ndServiceConfigMaps_apart i sn : NoDup (tpl_Name <$> ndServiceConfigMaps i sn).
Proof.
  unfold ndServiceConfigMaps. destruct (nd_metrics_on i); [by apply suffixes_apart|].
  by apply NoDup_singleton.
Qed.
End builders.
