(* ===== verification/ValidRuns.v ===== *)
(** * Every run writes well formed objects

    Each reconciler, followed with the config maps it has generated so far: whatever
    it is answered, the objects of its requests are well formed, and the pods among
    them mount config maps that the run has already generated. *)
From S2P Require Import Prelude Prog Triples Learning K8s Lib Api ApiMethods Calls Shared.
From S2P Require Import SharedProofs Client DBManifests DBController CtlNetworks.
From S2P Require Import CtlManifests CtlController NorthdManifests NorthdController.
From S2P Require Import Mounts DBManifestProofs NorthdManifestProofs CtlManifestProofs.
From S2P Require Import DBProofs NorthdProofs CtlProofs Validity.
#[local] Open Scope go_scope.

Section runs.
Context {AT : ApiTypes} {CL : CondLib} {L : Lib} {VL : VolumeLaws L} {ML : ManifestLaws L}.

(** A body that works on a resource that satisfies [J] writes valid objects, from the
    config maps [K] on. *)
Definition writes_valid {I : Type} (J : I → Prop) {X A} (K : list string) (m : Go I X A)
    (R : list string → A → Prop) : Prop :=
  learns generated valid_request J K m R.

Lemma writes_lift_go {I X A} (J : I → Prop) K (g : go A) :
  writes_valid J (X := X) K (lift_go g) (λ _ r, ∀ a, r = Okay a → g = GOk a).
Proof.
  unfold lift_go. destruct g; [apply learns_ret|apply learns_ret|apply learns_panic];
    by intros ? [= <-].
Qed.

Lemma selector_nonempty k v (m : gmap string string) : <[k := v]> m ≠ ∅.
Proof. apply insert_non_empty. Qed.

(** *** OVNNorthd *)

(** Another state of the resource [i]. *)
Definition nd_like (i i' : OVNNorthd) : Prop :=
  om_Name (nd_Meta i') = om_Name (nd_Meta i) ∧ nd_metrics_on i' = nd_metrics_on i.

Lemma nd_names_like i i' sn sn' :
  nd_like i i' → tpl_Name <$> ndServiceConfigMaps i' sn = tpl_Name <$> ndServiceConfigMaps i sn'.
Proof.
  intros [Hn Hm]. unfold ndServiceConfigMaps. rewrite Hn, Hm. by destruct (nd_metrics_on i).
Qed.

Lemma nd_like_rbac i cs i' :
  nd_like i i' → nd_like i (foldl (λ i c, OVNNorthd_RbacConditionsSet c i) i' cs).
Proof. revert i'. induction cs as [|c cs IH]; intros i' Hi; [done|]. by apply IH. Qed.

Lemma ndServiceConfig_learns i K vars :
  writes_valid (nd_like i) K (ndServiceConfig vars)
    (λ K' _, (tpl_Name <$> ndServiceConfigMaps i "") ⊆ K').
Proof.
  unfold writes_valid, ndServiceConfig.
  apply (learns_bind _ _ _ _ _ _ (λ K' r, r.2 = None →
    (tpl_Name <$> ndServiceConfigMaps i "") ⊆ K')).
  - unfold ndGenerateServiceConfigMaps. eapply learns_bind; [apply learns_get|].
    intros K' j _ Hj. apply learns_call. intros [vars' err]. split.
    + apply ndServiceConfigMaps_apart.
    + intros Herr. cbn in Herr. subst err. cbn [generated snd]. rewrite (nd_names_like _ _ _ "" Hj). by apply list_subseteq_app_r.
  - intros K' [vars' err] _ Hr. cbn in Hr. learning fail with idtac.
    specialize (Hr eq_refl). still_known.
Qed.

(** The goals the rules leave: facts about updates, and the requests. *)
Ltac nd_like_leaf := first [ exact Logic.I | by apply nd_like_rbac | assumption ].

Lemma ndMetrics_valid i K ls :
  writes_valid (nd_like i) K (ndMetrics ls) (λ _ _, True).
Proof.
  unfold writes_valid. learning fail with (try nd_like_leaf).
  all: eapply new_handle_valid; [|eassumption]; apply metricsService_valid, selector_nonempty.
Qed.

Lemma ndReconcileNormal_valid i K : writes_valid (nd_like i) K ndReconcileNormal (λ _ _, True).
Proof.
  unfold writes_valid, ndReconcileNormal.
  learning (idtac; lazymatch goal with
    | |- learns _ _ _ _ (bind (ndServiceConfig _) _) _ =>
        eapply learns_bind; [apply ndServiceConfig_learns|intros ? ? ? ?]
    | |- learns _ _ _ _ (ndMetrics _) _ => apply ndMetrics_valid
    | |- learns _ _ _ _ (bind (lift_go (nd_StatefulSet ?j _ _ _ _ _)) _) _ =>
        eapply learns_bind; [apply writes_lift_go|intros ? ? ? ?]
    end) with (try nd_like_leaf).
  cbn beta in *.
  match goal with
  | Hj : nd_like i ?j, Hs : ∀ a, Okay ?sts = Okay a → nd_StatefulSet ?j _ _ _ _ _ = GOk a
    |- valid_request _ (Ev (StatefulSetCreateOrPatch ?sts _) _) =>
      apply (valid_request_mono (tpl_Name <$> ndServiceConfigMaps i "")); [still_known|];
      rewrite <- (nd_names_like _ _ "" "" Hj);
      eapply nd_StatefulSet_valid; [by apply Hs|apply singleton_map_nonempty]
  end.
Qed.

(** *** OVNController *)

Definition oc_like (i i' : OVNController) : Prop := om_Name (oc_Meta i') = om_Name (oc_Meta i).

Lemma oc_like_rbac i cs i' :
  oc_like i i' → oc_like i (foldl (λ i c, OVNController_RbacConditionsSet c i) i' cs).
Proof. revert i'. induction cs as [|c cs IH]; intros i' Hi; [done|]. by apply IH. Qed.

(** The config maps are named by the resource alone. *)
Definition oc_names (i : OVNController) : list string :=
  [tpl_Name (ocScripts i); tpl_Name (ocExtraScripts i)].
Lemma oc_names_like i i' :
  oc_like i i' → tpl_Name (ocScripts i') = tpl_Name (ocScripts i) ∧
    tpl_Name (ocExtraScripts i') = tpl_Name (ocExtraScripts i).
Proof. intros Hn. cbn. by rewrite Hn. Qed.

Lemma ocServiceConfig_learns i K vars :
  writes_valid (oc_like i) K (ocServiceConfig vars)
    (λ K' _, oc_names i ⊆ K').
Proof.
  unfold writes_valid, ocServiceConfig.
  apply (learns_bind _ _ _ _ _ _ (λ K' r, r.2 = None →
    oc_names i ⊆ K')).
  - learning fail with (try (by apply NoDup_singleton)).
    intros Herr. cbn beta in *.
    match goal with
    | Hj : oc_like i ?j, H1 : generated (Ev (EnsureConfigMaps _ [ocScripts ?j] _) _) ⊆ _,
      H2 : generated (Ev (EnsureConfigMaps _ _ _) ?a) ⊆ _ |- _ =>
        destruct a as [? ?]; cbn [snd] in Herr; subst; cbn [generated snd fmap list_fmap] in H1, H2;
        destruct (oc_names_like _ _ Hj) as [Hs He]; rewrite Hs in H1; rewrite He in H2
    end. unfold oc_names. set_solver.
  - intros K' [vars' err] _ Hr. cbn in Hr. learning fail with idtac.
    specialize (Hr eq_refl). still_known.
Qed.

Lemma ConfigJob_learns i K j sb ls :
  writes_valid (X := RE) (oc_like i) K (ConfigJob j sb ls)
    (λ _ r, ∀ jobs, r = Okay jobs → ∃ endpoint pods, jobs = ovnConfigJob j ls endpoint <$> pods).
Proof.
  unfold writes_valid, ConfigJob, getOVNControllerPods. learning fail with idtac.
  intros jobs [= <-]. eauto.
Qed.

(** The requests for pods of the resource, once its config maps are known. *)
Section pods.
Context (i j : OVNController) (Hj : oc_like i j) (K : list string) (HK : oc_names i ⊆ K).

Lemma oc_valid_in cms ev : cms ⊆ oc_names j → valid_request cms ev → valid_request K ev.
Proof.
  intros Hc. apply valid_request_mono. unfold oc_names in *.
  destruct (oc_names_like _ _ Hj) as [Hs He]. rewrite <- Hs, <- He in HK. set_solver.
Qed.

Lemma ovn_request_valid h topology ds t r k v :
  CreateOVNDaemonSet j h {[k := v]} topology = GOk ds →
  valid_request K (Ev (DaemonSetCreateOrPatch ds t) r).
Proof.
  intros Hds. apply (oc_valid_in [tpl_Name (ocScripts j)]); [unfold oc_names; set_solver|].
  eapply CreateOVNDaemonSet_valid; [exact Hds|apply singleton_map_nonempty].
Qed.

Lemma ovs_request_valid h ann topology hardened t r k v :
  valid_request K (Ev (DaemonSetCreateOrPatch
    (CreateOVSDaemonSet j h {[k := v]} ann topology hardened) t) r).
Proof.
  apply (oc_valid_in [tpl_Name (ocScripts j)]); [unfold oc_names; set_solver|].
  apply CreateOVSDaemonSet_valid, singleton_map_nonempty.
Qed.

Lemma job_request_valid ls endpoint (pods : list Pod) job key keep t h r :
  job ∈ ovnConfigJob j ls endpoint <$> pods → valid_request K (Ev (DoJob job key keep t h) r).
Proof.
  intros (pod & -> & _)%list_elem_of_fmap. apply (oc_valid_in (oc_names j)); [done|].
  apply ovnConfigJob_valid.
Qed.

Lemma metrics_request_valid h k v m topology t r :
  [tpl_Name (GetMetricsConfigMap j)] ⊆ K →
  valid_request K (Ev (DaemonSetCreateOrPatch
    (CreateMetricsDaemonSet j h (<[k := v]> m) topology) t) r).
Proof.
  intros Hm. apply (valid_request_mono _ _ _ Hm).
  apply CreateMetricsDaemonSet_valid, selector_nonempty.
Qed.
End pods.

Ltac oc_request := cbn beta in *;
  match goal with
  | |- valid_request _ (Ev (EnsureConfigMaps _ [_] _) _) => by apply NoDup_singleton
  | H : NewService _ None = Okay ?h |- valid_request _ (Ev (ServiceCreateOrPatch ?h _) _) =>
      eapply new_handle_valid; [|exact H]; apply metricsService_valid, selector_nonempty
  | Hj : oc_like ?i ?j, Hs : ∀ a, Okay ?ds = Okay a → CreateOVNDaemonSet ?j _ _ _ = GOk a
    |- valid_request _ (Ev (DaemonSetCreateOrPatch ?ds _) _) =>
      eapply (ovn_request_valid _ _ Hj); [still_known|by apply Hs]
  | Hj : oc_like ?i ?j
    |- valid_request _ (Ev (DaemonSetCreateOrPatch (CreateOVSDaemonSet ?j _ _ _ _ _) _) _) =>
      apply (ovs_request_valid _ _ Hj); still_known
  | Hj : oc_like _ ?j, Hc : oc_like _ ?c, Hg : generated (Ev (EnsureConfigMaps (to_object ?c) _ _) _) ⊆ _
    |- valid_request _ (Ev (DaemonSetCreateOrPatch (CreateMetricsDaemonSet ?j _ _ _) _) _) =>
      apply metrics_request_valid; cbn [generated snd fmap list_fmap tpl_Name GetMetricsConfigMap] in *;
      unfold oc_like in *; rewrite Hj; rewrite Hc in Hg; still_known
  | Hj : oc_like _ ?j, Hx : ?x ∈ ?jobs, Hjobs : ∀ l, Okay ?jobs = Okay l → ∃ _ _, l = ovnConfigJob ?j _ _ <$> _
    |- valid_request _ (Ev (DoJob ?x _ _ _ _) _) =>
      destruct (Hjobs _ eq_refl) as (? & ? & ->);
      eapply (job_request_valid _ _ Hj); [still_known|exact Hx]
  end.
Ltac oc_like_leaf :=
  first [ exact Logic.I | by apply oc_like_rbac | assumption | oc_request ].

Lemma ocReconcileNormal_valid i K : writes_valid (oc_like i) K ocReconcileNormal (λ _ _, True).
Proof.
  unfold writes_valid, ocReconcileNormal.
  learning (idtac; lazymatch goal with
    | |- learns _ _ _ _ (bind (ocServiceConfig _) _) _ =>
        eapply learns_bind; [apply ocServiceConfig_learns|intros ? ? ? ?]
    | |- learns _ _ _ _ (bind (lift_go (CreateOVNDaemonSet _ _ _ _)) _) _ =>
        eapply learns_bind; [apply writes_lift_go|intros ? ? ? ?]
    | |- learns _ _ _ _ (bind (ConfigJob _ _ _) _) _ =>
        eapply learns_bind; [apply ConfigJob_learns|intros ? ? ? ?]
    end) with (try oc_like_leaf).
Qed.

(** *** OVNDBCluster *)

Definition db_like (i i' : OVNDBCluster) : Prop :=
  om_Name (db_Meta i') = om_Name (db_Meta i) ∧ db_metrics_on i' = db_metrics_on i.

Lemma db_like_rbac i cs i' :
  db_like i i' → db_like i (foldl (λ i c, OVNDBCluster_RbacConditionsSet c i) i' cs).
Proof. revert i'. induction cs as [|c cs IH]; intros i' Hi; [done|]. by apply IH. Qed.

Lemma db_names_like i i' sn sn' :
  db_like i i' → tpl_Name <$> dbServiceConfigMaps i' sn = tpl_Name <$> dbServiceConfigMaps i sn'.
Proof.
  intros [Hn Hm]. unfold dbServiceConfigMaps. rewrite Hn, Hm. by destruct (db_metrics_on i).
Qed.

Ltac db_like_leaf := first [ exact Logic.I | by apply db_like_rbac | assumption ].

Lemma dbServiceConfig_learns i K vars sn :
  writes_valid (db_like i) K (dbServiceConfig vars sn)
    (λ K' _, (tpl_Name <$> dbServiceConfigMaps i "") ⊆ K').
Proof.
  unfold writes_valid, dbServiceConfig.
  apply (learns_bind _ _ _ _ _ _ (λ K' r, r.2 = None →
    (tpl_Name <$> dbServiceConfigMaps i "") ⊆ K')).
  - unfold dbGenerateServiceConfigMaps. eapply learns_bind; [apply learns_get|].
    intros K' j _ Hj. apply learns_call. intros [vars' err]. split.
    + apply dbServiceConfigMaps_apart.
    + intros Herr. cbn in Herr. subst err. cbn [generated snd].
      rewrite (db_names_like _ _ _ "" Hj). by apply list_subseteq_app_r.
  - intros K' [vars' err] _ Hr. cbn in Hr. learning fail with (try db_like_leaf).
    specialize (Hr eq_refl). still_known.
Qed.

Lemma orReturn_learns {A} (J : OVNDBCluster → Prop) K (r : fallible A) :
  writes_valid J K (orReturn r) (λ _ a, r = Okay a).
Proof. destruct r; [by apply learns_ret|by apply learns_return]. Qed.

Lemma NewService_learns i K svc o :
  service_valid svc → writes_valid (db_like i) K (orReturn (NewService svc o)) (λ _ h, handle_valid h).
Proof.
  intros Hsvc. eapply learns_mono; [|apply orReturn_learns].
  intros K' h _ Hh. exact (new_handle_valid _ _ _ Hsvc Hh).
Qed.

Lemma clusterService_learns i K sn k v :
  writes_valid (db_like i) K (clusterService sn {[k := v]}) (λ _ h, handle_valid h).
Proof.
  unfold writes_valid. learning (idtac; lazymatch goal with
    | |- learns _ _ _ _ (bind (orReturn (NewService _ _)) _) _ =>
        eapply learns_bind; [apply NewService_learns, Service_valid, singleton_map_nonempty
                            |intros ? ? ? ?]
    | |- learns _ _ _ _ (orReturn (NewService _ _)) _ =>
        apply NewService_learns, HeadlessService_valid, singleton_map_nonempty
    end) with (try db_like_leaf).
  destruct (bool_decide (GetServiceType _ = _)); [by apply annotated_handle_valid|done].
Qed.

Lemma createService_learns i K h :
  handle_valid h → writes_valid (db_like i) K (createService h) (λ _ _, True).
Proof. intros Hh. unfold writes_valid. learning fail with (try db_like_leaf). Qed.

Lemma podService_learns i K sn pod :
  writes_valid (db_like i) K (podService sn pod) (λ _ _, True).
Proof.
  unfold writes_valid. learning (idtac; lazymatch goal with
    | |- learns _ _ _ _ (bind (orReturn (NewService _ _)) _) _ =>
        eapply learns_bind; [apply NewService_learns, Service_valid, selector_nonempty
                            |intros ? ? ? ?]
    | |- learns _ _ _ _ (bind (createService _) _) _ =>
        eapply learns_bind; [by apply createService_learns|intros ? ? ? ?]
    end) with (try db_like_leaf).
Qed.

Lemma dbReconcileServices_learns i K sn k v :
  writes_valid (db_like i) K (dbReconcileServices {[k := v]} sn) (λ _ _, True).
Proof.
  unfold writes_valid. learning (idtac; lazymatch goal with
    | |- learns _ _ _ _ (bind (clusterService _ _) _) _ =>
        eapply learns_bind; [apply clusterService_learns|intros ? ? ? ?]
    | |- learns _ _ _ _ (bind (createService _) _) _ =>
        eapply learns_bind; [by apply createService_learns|intros ? ? ? ?]
    | |- learns _ _ _ _ (podService _ _) _ => apply podService_learns
    end) with (try db_like_leaf).
Qed.

Lemma createConsolidatedConfigJobs_learns {S X} (i : OVNDBCluster) pods labels ttl changed (s : S) K :
  wpM (X := X) (createConsolidatedConfigJobs i pods labels ttl changed) s (λ tr o,
    guarded (λ t, valid_request (K ++ learned generated t)) (λ _, True) tr ∧
    ∃ jobs, o = Done (Cont s jobs) ∧
      Forall (λ j, ∃ pod now flags, j = configJob i pod labels ttl now flags) jobs).
Proof.
  apply (wpM_foldM _ (λ _ jobs s' tr, Forall (λ ev, ∃ now, ev = Ev NowUnix now) tr ∧
    s' = s ∧ Forall (λ j, ∃ pod now flags, j = configJob i pod labels ttl now flags) jobs)).
  - done.
  - intros dn pod rest jobs s' tr _ (Htr & -> & Hjobs).
    repeat wp_step; cbn; rewrite ?app_nil_r; try done.
    split; [apply Forall_app_intro; [done|]; apply Forall_cons_2; [by eexists|apply Forall_nil_2]|].
    split; [done|]. apply Forall_app_intro; [done|]. apply Forall_cons_2; [by eexists _, _, _|apply Forall_nil_2].
  - intros jobs s' tr (Htr & -> & Hjobs). split; [|by exists jobs].
    intros t1 ev t2 -> _. apply Forall_app in Htr as [_ Htr].
    by apply Forall_cons in Htr as [[now ->] _].
Qed.

Lemma RuntimeConfigJobs_learns {X} i j K ls sn changed :
  writes_valid (X := X) (db_like i) K (fn (RuntimeConfigJobs j ls sn changed))
    (λ _ r, ∀ jobs, r = Okay jobs →
       Forall (λ job, ∃ pod now flags, job = configJob j pod ls 0%Z now flags) jobs).
Proof.
  intros s Hs. apply wpM_fn. unfold RuntimeConfigJobs, getOVNDBClusterPods.
  apply wpM_bind. cbn. intros [pods|e].
  - apply wpM_bind.
    eapply wpM_mono; [|apply (createConsolidatedConfigJobs_learns j pods ls 0%Z changed s K)].
    intros tr o (Hg & jobs & -> & Hjobs). cbn. rewrite app_nil_r.
    split; [by apply guarded_cons|]. split; [done|]. by intros ? [= <-].
  - split; [|done]. by apply guarded_cons_quiet; [|apply Forall_nil_2].
Qed.

Lemma ensureRuntimeConfigMap_learns {X} i K sn :
  writes_valid (X := X) (db_like i) K (ensureRuntimeConfigMap sn)
    (λ K' err, err = None → [tpl_Name (runtimeConfigMap i "")] ⊆ K').
Proof.
  unfold writes_valid, ensureRuntimeConfigMap. eapply learns_bind; [apply learns_get|].
  intros K' j _ [Hn _].
  eapply (learns_bind _ _ _ _ _ _ (λ K' r, r.2 = None → [tpl_Name (runtimeConfigMap i "")] ⊆ K')).
  - apply learns_call. intros [vars' err]. split; [by apply NoDup_singleton|].
    intros Herr. cbn in Herr. subst err. cbn. rewrite Hn. by apply list_subseteq_app_r.
  - intros K'' r _ Hr. by apply learns_ret.
Qed.

Ltac db_request := cbn beta in *;
  match goal with
  | |- valid_request _ (Ev (EnsureConfigMaps _ [_] _) _) => by apply NoDup_singleton
  | Hj : db_like ?i ?j, Hs : ∀ a, Okay ?sts = Okay a → StatefulSet ?j _ _ _ _ = GOk a
    |- valid_request _ (Ev (StatefulSetCreateOrPatch ?sts _) _) =>
      apply (valid_request_mono (tpl_Name <$> dbServiceConfigMaps i "")); [still_known|];
      rewrite <- (db_names_like _ _ "" "" Hj);
      eapply StatefulSet_valid; [by apply Hs|apply singleton_map_nonempty]
  | Hj : db_like ?i ?j, Hx : ?x ∈ ?jobs, Hm : None = None → _ ⊆ _,
    Hjobs : ∀ l, Okay ?jobs = Okay l → Forall _ l
    |- valid_request _ (Ev (DoJob ?x _ _ _ _) _) =>
      destruct (proj1 (Forall_forall _ _) (Hjobs _ eq_refl) _ Hx) as (? & ? & ? & ->);
      specialize (Hm eq_refl);
      apply (valid_request_mono [tpl_Name (runtimeConfigMap i "")]); [still_known|];
      replace (tpl_Name (runtimeConfigMap i "")) with (tpl_Name (runtimeConfigMap j ""))
        by (cbn; by rewrite (proj1 Hj));
      apply configJob_valid
  end.

Lemma dbReconcileNormal_valid i K : writes_valid (db_like i) K dbReconcileNormal (λ _ _, True).
Proof.
  unfold writes_valid, dbReconcileNormal.
  learning (idtac; lazymatch goal with
    | |- learns _ _ _ _ (bind (dbServiceConfig _ _) _) _ =>
        eapply learns_bind; [apply dbServiceConfig_learns|intros ? ? ? ?]
    | |- learns _ _ _ _ (bind (lift_go (StatefulSet _ _ _ _ _)) _) _ =>
        eapply learns_bind; [apply writes_lift_go|intros ? ? ? ?]
    | |- learns _ _ _ _ (dbReconcileServices _ _) _ => apply dbReconcileServices_learns
    | |- learns _ _ _ _ (bind (fn (RuntimeConfigJobs _ _ _ _)) _) _ =>
        eapply learns_bind; [apply RuntimeConfigJobs_learns|intros ? ? ? ?]
    | |- learns _ _ _ _ (bind (ensureRuntimeConfigMap _) _) _ =>
        eapply learns_bind; [apply ensureRuntimeConfigMap_learns|intros ? ? ? ?]
    | |- learns _ _ _ _ (submitConfigJobs _ _) _ =>
        apply learns_foldM; [done|intros ? ? ? ? _ ?]
    end) with (first [db_like_leaf | db_request]).
Qed.

(** *** Reconcile *)

(** A request with objects the reconciler has built. *)
Definition builds (ev : event Ext) : Prop :=
  match ev with Ev e _ =>
    match e with
    | StatefulSetCreateOrPatch _ _ | DaemonSetCreateOrPatch _ _ | DoJob _ _ _ _ _
    | ServiceCreateOrPatch _ _ | EnsureConfigMaps _ _ _ | PDBCreateOrPatch _ _ => True
    | _ => False
    end
  end.

Definition requests_are_valid (tr : list (event Ext)) : Prop :=
  guarded (λ t, valid_request (learned generated t)) builds tr.

(** What [reconcileNormal] writes is valid, and nothing else builds objects. *)
Lemma valid_after {I X} (J : I → Prop) (normal : Go I X RE) R i t :
  writes_valid J [] normal R → J i →
  wpM normal i (λ tr _, guarded (λ t' ev, valid_request (learned generated (t ++ t')) ev) builds tr).
Proof.
  intros Hn Hi. eapply wpM_mono; [|by eapply learns_guarded].
  intros tr o. cbn beta. apply guarded_mono. intros t' ev _. apply valid_request_mono.
  unfold learned. rewrite bind_app. by apply list_subseteq_app_r.
Qed.

(** C18. Every run of the three reconcilers, whatever it is answered, writes well formed
    objects only: pods whose containers, volumes and mount points have names of their own,
    that mount volumes that are there and config maps the run has generated before, under a
    selector that selects them; services with distinct ports; config maps that do not
    overwrite one another. *)
Theorem requests_valid {FL : FinalizerLaws L} req tr o :
  exec (OVNDBCluster_Reconcile req) tr o ∨ exec (OVNNorthd_Reconcile req) tr o ∨
  exec (OVNController_Reconcile req) tr o →
  requests_are_valid tr.
Proof.
  intros [Hex|[Hex|Hex]]; revert Hex; unfold requests_are_valid.
  - apply (reconcile_guarded _ dbInitStatus (λ i, i) (λ _, false)); try done.
    + intros [R []]; cbn; tauto.
    + intros i _ _. by apply (valid_after _ _ _ _ _ (dbReconcileNormal_valid i [])).
  - apply (reconcile_guarded _ ndInitStatus (λ i, i) (λ _, false)); try done.
    + intros [R []]; cbn; tauto.
    + intros i _ _. by apply (valid_after _ _ _ _ _ (ndReconcileNormal_valid i [])).
  - apply (reconcile_guarded _ ocInitStatus ocInitMaps oc_isNew); try done.
    + intros [R []]; cbn; tauto.
    + intros i _ _. by apply (valid_after _ _ _ _ _ (ocReconcileNormal_valid i [])).
Qed.
End runs.
