(* ===== verification/Selection.v ===== *)
(** * The services reach the pods

    The services and the disruption budget a reconciler writes select pods of the
    workload it writes in the same run, and the pods it looks for are those: every
    selector of a run is made from the labels of the pod template. *)
From S2P Require Import Prelude Prog Triples K8s Lib Api ApiMethods Calls Shared.
From S2P Require Import SharedProofs Client DBManifests DBController CtlNetworks.
From S2P Require Import CtlManifests CtlController NorthdManifests NorthdController.
From S2P Require Import DBManifestProofs NorthdManifestProofs CtlManifestProofs.
From S2P Require Import DBProofs NorthdProofs CtlProofs Validity ValidRuns.
#[local] Open Scope go_scope.

Section selection.
Context {AT : ApiTypes} {CL : CondLib} {L : Lib}.

(** The label the StatefulSet controller gives a pod: its name. *)
Definition podNameLabel : string := "statefulset.kubernetes.io/pod-name".

(** A selector of pods with the labels [wl], or of one of them by name. *)
Definition selects (wl sel : gmap string string) : Prop := delete podNameLabel sel = wl.

Inductive handle_selects (wl : gmap string string) : SvcHandle → Prop :=
| new_handle_selects svc o h :
    selects wl (ss_Selector (svc_Spec svc)) → NewService svc o = Okay h → handle_selects wl h
| annotated_handle_selects a h : handle_selects wl h → handle_selects wl (AddAnnotation a h).

(** What a request says of the pods it is about.  The ones that are served, with the
    labels [served]: a StatefulSet or the metrics DaemonSet makes them; services, the
    disruption budget and the clientset's list select them.  The ones a run looks for,
    with the labels [listed]: the DaemonSet of ovn-controller makes them. *)
Definition for_pods (served listed : gmap string string) (ev : event Ext) : Prop :=
  match ev with Ev e _ =>
    match e with
    | StatefulSetCreateOrPatch s _ =>
        pt_Labels (sts_Template s) = served ∧ sts_Selector s = served
    | DaemonSetCreateOrPatch d _ =>
        (ds_Name d = ServiceNameOVNControllerMetrics → pt_Labels (ds_Template d) = served) ∧
        (ds_Name d = ServiceNameOVNController → pt_Labels (ds_Template d) = listed)
    | PDBCreateOrPatch p _ => pdb_Selector p = served
    | ServiceCreateOrPatch h _ => handle_selects served h
    | ClientsetListPods _ s => s = labels_String served
    | ListPods _ s => s = listed
    | _ => True
    end
  end.

Definition selecting {I} (J : I → Prop) (served listed : gmap string string) {X A} (m : Go I X A)
    (R : A → Prop) : Prop :=
  triple (λ _, True) (for_pods served listed) True J m R.

Lemma selecting_lift_go {I X A} (J : I → Prop) wl wl' (g : go A) :
  selecting J wl wl' (X := X) (lift_go g) (λ r, ∀ a, r = Okay a → g = GOk a).
Proof.
  unfold lift_go. destruct g; [apply triple_ret|apply triple_ret|by apply triple_panic];
    by intros ? [= <-].
Qed.

Context {VL : VolumeLaws L} {ML : ManifestLaws L}.

(** The selector of one pod, by its name. *)
Lemma one_pod_selects sn pod :
  selects {[AppSelector := sn]}
    (<[podNameLabel := pod]> {[AppSelector := sn]} : gmap string string).
Proof.
  unfold selects. rewrite AppSelector_service, delete_insert_eq.
  by rewrite delete_singleton_ne.
Qed.

(** ** OVNNorthd *)

Lemma nd_service_selects i ls pod o h :
  NewService (nd_MetricsService pod i ls (ndSelectorLabels pod)) o = Okay h →
  handle_selects nd_labels h.
Proof. apply new_handle_selects. apply one_pod_selects. Qed.

Lemma ndReconcileNormal_selects i :
  selecting (nd_like i) nd_labels nd_labels ndReconcileNormal (λ _, True).
Proof.
  unfold selecting, ndReconcileNormal.
  triples (idtac; lazymatch goal with
    | |- triple _ _ _ _ (bind (lift_go (nd_StatefulSet _ _ _ _ _ _)) _) _ =>
        eapply triple_bind; [apply selecting_lift_go|intros ? ?]
    end) with (try first [exact Logic.I | by apply nd_like_rbac | assumption
                         | by eapply nd_service_selects]).
  match goal with H : ∀ _, _ → nd_StatefulSet _ _ _ _ _ _ = _ |- _ =>
    destruct (nd_StatefulSet_frame _ _ _ _ _ _ _ (H _ eq_refl)) as (_ & Hsel & Hlab & _) end.
  by split.
Qed.

(** ** OVNController *)

Lemma CreateOVNDaemonSet_labels i h topology ds :
  CreateOVNDaemonSet i h ovn_labels topology = GOk ds →
  (ds_Name ds = ServiceNameOVNControllerMetrics → pt_Labels (ds_Template ds) = ocMetricsLabels) ∧
  (ds_Name ds = ServiceNameOVNController → pt_Labels (ds_Template ds) = ovn_labels).
Proof.
  intros Hds. rewrite (CreateOVNDaemonSet_Name _ _ _ _ _ Hds). split; [done|]. intros _.
  by destruct (CreateOVNDaemonSet_frame _ _ _ _ _ Hds) as (_ & _ & ? & _).
Qed.

Lemma oc_service_selects i ls o h :
  NewService (oc_MetricsService ocMetricsServiceName i ls ocMetricsLabels) o = Okay h →
  handle_selects ocMetricsLabels h.
Proof.
  apply new_handle_selects. unfold selects, ocMetricsLabels. cbn [svc_Spec oc_MetricsService ss_Selector].
  by rewrite AppSelector_service, delete_insert_ne, delete_singleton_ne.
Qed.

Lemma ocReconcileNormal_selects i :
  selecting (oc_like i) ocMetricsLabels ovn_labels ocReconcileNormal (λ _, True).
Proof.
  unfold selecting, ocReconcileNormal.
  triples (idtac; lazymatch goal with
    | |- triple _ _ _ _ (bind (lift_go (CreateOVNDaemonSet _ _ _ _)) _) _ =>
        eapply triple_bind; [apply selecting_lift_go|intros ? ?]
    end) with (try first [exact Logic.I | by apply oc_like_rbac | assumption
                         | by eapply oc_service_selects]).
  - match goal with Hs : ∀ _, _ → CreateOVNDaemonSet _ _ _ _ = _ |- _ =>
      by eapply CreateOVNDaemonSet_labels, Hs end.
  - unfold for_pods, ovn_labels. by rewrite AppSelector_service.
Qed.

(** ** OVNDBCluster *)

(** The labels of the pods of a database. *)
Definition db_labels (sn : string) : gmap string string := {[AppSelector := sn]}.
Definition db_serves (sn : string) (i : OVNDBCluster) : Prop := dbServiceName i = sn.
Abbreviation db_selecting sn := (selecting (db_serves sn) (db_labels sn) (db_labels sn)).

Lemma db_serves_rbac sn cs i :
  db_serves sn i → db_serves sn (foldl (λ i c, OVNDBCluster_RbacConditionsSet c i) i cs).
Proof. revert i. induction cs as [|c cs IH]; intros i Hi; [done|]. by apply IH. Qed.

Ltac db_leaf := first [ exact Logic.I | by apply db_serves_rbac | assumption ].

Lemma NewService_selects sn svc o :
  selects (db_labels sn) (ss_Selector (svc_Spec svc)) →
  db_selecting sn (orReturn (NewService svc o)) (handle_selects (db_labels sn)).
Proof.
  intros Hs. unfold orReturn. destruct (NewService svc o) as [h|] eqn:Hh; [|by apply triple_return].
  apply triple_ret. by eapply new_handle_selects.
Qed.

Lemma db_labels_select sn : selects (db_labels sn) (db_labels sn).
Proof. unfold selects, db_labels. by rewrite AppSelector_service, delete_singleton_ne. Qed.

Lemma clusterService_selects sn name :
  db_selecting sn (clusterService name (db_labels sn)) (handle_selects (db_labels sn)).
Proof.
  unfold selecting. triples (idtac; lazymatch goal with
    | |- triple _ _ _ _ (bind (orReturn _) _) _ =>
        eapply triple_bind; [apply NewService_selects, db_labels_select|intros ? ?]
    | |- triple _ _ _ _ (orReturn _) _ => apply NewService_selects, db_labels_select
    end) with (try db_leaf).
  destruct (bool_decide (GetServiceType _ = _)); [by apply annotated_handle_selects|done].
Qed.

Lemma podService_selects sn pod : db_selecting sn (podService sn pod) (λ _, True).
Proof.
  unfold selecting. triples (idtac; lazymatch goal with
    | |- triple _ _ _ _ (bind (orReturn _) _) _ =>
        eapply triple_bind; [apply NewService_selects|intros ? ?]
    end) with (try db_leaf).
  unfold podSelectorLabels. cbn [svc_Spec Service_ ss_Selector].
  unfold selects, db_labels. rewrite AppSelector_service.
  by rewrite delete_insert_ne, delete_singleton_eq by done.
Qed.

Lemma dbReconcileServices_selects sn :
  db_selecting sn (dbReconcileServices (db_labels sn) sn) (λ _, True).
Proof.
  unfold selecting. triples (idtac; lazymatch goal with
    | |- triple _ _ _ _ (bind (clusterService _ _) _) _ =>
        eapply triple_bind; [apply clusterService_selects|intros ? ?]
    | |- triple _ _ _ _ (podService _ _) _ => apply podService_selects
    end) with (try db_leaf).
Qed.

(** The names of a run agree. *)
Ltac served := repeat match goal with
  | H : db_serves ?sn ?i |- context [dbServiceName ?i] => rewrite H
  end; try done.

Lemma dbReconcileNormal_selects sn : db_selecting sn dbReconcileNormal (λ _, True).
Proof.
  unfold selecting, dbReconcileNormal.
  triples (idtac; lazymatch goal with
    | |- triple _ _ _ _ (bind (lift_go (StatefulSet _ _ _ _ _)) _) _ =>
        eapply triple_bind; [apply selecting_lift_go|intros ? ?]
    | H : db_serves sn ?i |- triple _ _ _ _ (dbReconcileServices _ (dbServiceName ?i)) _ =>
        rewrite H; apply dbReconcileServices_selects
    end) with (try db_leaf).
  - match goal with Hi : db_serves sn ?i, Hs : ∀ _, _ → StatefulSet _ _ _ _ _ = _ |- _ =>
      destruct (StatefulSet_frame _ _ _ _ _ _ (Hs _ eq_refl)) as (_ & Hsel & Hlab & _) end.
    cbn. rewrite Hsel, Hlab. served.
  - cbn. served.
  - cbn. served; unfold db_labels; by rewrite AppSelector_service.
Qed.

(** ** Reconcile *)

(** A guard about the resource that was fetched, the resource being known. *)
Lemma guarded_fetched {A} (f : A → event Ext) `{!Inj (=) (=) f}
    (G : A → list (event Ext) → event Ext → Prop) P tr a :
  guarded (λ t ev, ∃ j, head t = Some (f j) ∧ G j t ev) P tr → head tr = Some (f a) →
  guarded (G a) P tr.
Proof.
  intros Hg Ha t ev t' -> Hev. destruct (Hg t ev t' eq_refl Hev) as (j & Hj & Hf).
  destruct t as [|e t]; [done|]. cbn in Ha, Hj. rewrite Ha in Hj. by simplify_eq.
Qed.

#[export] Instance fetched_db_inj req :
  Inj (=) (=) (λ i, Ev (GetOVNDBCluster req) (Okay i) : event Ext).
Proof. intros i j Heq. apply (f_equal fetched) in Heq. by injection Heq. Qed.
#[export] Instance fetched_nd_inj req :
  Inj (=) (=) (λ i, Ev (GetOVNNorthd req) (Okay i) : event Ext).
Proof. intros i j Heq. apply (f_equal fetched) in Heq. by injection Heq. Qed.

Definition speaks_of_pods (ev : event Ext) : Prop :=
  match ev with Ev e _ =>
    match e with
    | StatefulSetCreateOrPatch _ _ | DaemonSetCreateOrPatch _ _ | PDBCreateOrPatch _ _
    | ServiceCreateOrPatch _ _ | ClientsetListPods _ _ | ListPods _ _ => True
    | _ => False
    end
  end.

Lemma selecting_guarded {I X} (J : I → Prop) served listed (normal : Go I X RE) R i :
  selecting J served listed normal R → J i →
  wpM normal i (λ tr _, guarded (λ _, for_pods served listed) speaks_of_pods tr).
Proof. intros Hn Hi. by eapply guarded_local. Qed.

Lemma for_pods_all served listed tr :
  guarded (λ _, for_pods served listed) speaks_of_pods tr → Forall (for_pods served listed) tr.
Proof.
  intros Hg. apply Forall_forall. intros ev (t1 & t2 & ->)%list_elem_of_split.
  assert (speaks_of_pods ev ∨ for_pods served listed ev) as [Hs|?]; [|by eapply Hg|done].
  destruct ev as [R []]; cbn; tauto.
Qed.

(** C19. Every selector a run writes, or looks for pods with, is made from the labels of
    the pods the run makes.  The services and the disruption budget of a database select the
    pods of its StatefulSet; the metrics services of northd those of its StatefulSet; the
    metrics service of an OVNController those of the metrics DaemonSet, and its
    configuration jobs are for the pods of the OVN DaemonSet. *)
Theorem services_reach_pods {FL : FinalizerLaws L} req tr o :
  (∀ i, exec (OVNDBCluster_Reconcile req) tr o →
     head tr = Some (Ev (GetOVNDBCluster req) (Okay i)) →
     Forall (for_pods (db_labels (dbServiceName i)) (db_labels (dbServiceName i))) tr) ∧
  (exec (OVNNorthd_Reconcile req) tr o → Forall (for_pods nd_labels nd_labels) tr) ∧
  (exec (OVNController_Reconcile req) tr o → Forall (for_pods ocMetricsLabels ovn_labels) tr).
Proof.
  split; [|split].
  - intros i Hex Hi. apply for_pods_all.
    refine (guarded_fetched _ (λ j _, for_pods (db_labels (dbServiceName j))
      (db_labels (dbServiceName j))) _ _ _ _ Hi).
    revert Hex. apply (reconcile_guarded _ dbInitStatus (λ i, i) (λ _, false)); try done.
    + intros [R []]; cbn; tauto.
    + intros j _ _. eapply wpM_mono; [|apply (selecting_guarded _ _ _ _ _ _
        (dbReconcileNormal_selects (dbServiceName j))); done].
      intros tr' o'. cbn beta. apply guarded_mono. intros t ev _ Ht. by exists j.
  - intros Hex. apply for_pods_all. revert Hex.
    apply (reconcile_guarded _ ndInitStatus (λ i, i) (λ _, false)); try done.
    + intros [R []]; cbn; tauto.
    + intros i _ _. by apply (selecting_guarded _ _ _ _ _ _ (ndReconcileNormal_selects i)).
  - intros Hex. apply for_pods_all. revert Hex.
    apply (reconcile_guarded _ ocInitStatus ocInitMaps oc_isNew); try done.
    + intros [R []]; cbn; tauto.
    + intros i _ _. by apply (selecting_guarded _ _ _ _ _ _ (ocReconcileNormal_selects i)).
Qed.
End selection.
