(* ===== verification/Stability.v ===== *)
(** * A reconciliation that finds nothing changed restarts nothing

    The StatefulSet of a database cluster, that of ovn-northd and the DaemonSets of an
    OVNController are determined by the specification of the resource and by what the
    cluster holds: the network attachments, the generated config maps, the topology, the
    database clusters.  The status of the
    resource has no part in it, so that two runs over the same inputs write the same
    objects, and the pods are left alone. *)
From S2P Require Import Prelude Prog Triples K8s Lib Api ApiMethods Calls Shared.
From S2P Require Import SharedProofs Client DBManifests DBController NorthdManifests.
From S2P Require Import NorthdController CtlNetworks CtlManifests CtlController.
From S2P Require Import CtlNetworksProofs DBProofs NorthdProofs CtlProofs Selection.
#[local] Open Scope go_scope.

Section stability.
Context {AT : ApiTypes} {CL : CondLib} {L : Lib}.

(** What the cluster holds, as far as the pods depend on it. *)
Record Inputs := mkInputs {
  in_nad : string → string → option NAD;
  (** The variables of the generated config maps: the hashes of their contents, and of
      the certificates. *)
  in_vars : list Template → gmap string Setter;
  in_topology : option TopoRef → option Topology;
  in_clusters : string → list OVNDBCluster;
}.

(** The answer, when it is one, is what the cluster holds. *)
Definition reads (w : Inputs) (ev : event Ext) : Prop :=
  match ev with Ev e r =>
    match e in Ext R return R → Prop with
    | GetNADWithName n ns => λ r, ∀ x, r = Okay x → x = in_nad w n ns
    | EnsureConfigMaps _ ts _ => λ r, r.2 = None → r.1 = in_vars w ts
    | EnsureServiceTopology ref _ _ _ => λ r, ∀ t, r = Okay t → t = in_topology w ref
    | ListOVNDBClusters ns _ => λ r, ∀ l, r = Okay l → l = in_clusters w ns
    | _ => λ _, True
    end r
  end.

Context (w : Inputs).

Lemma read_event {tr ev} : Forall (reads w) tr → ev ∈ tr → reads w ev.
Proof. intros Hr Hin. by apply (proj1 (Forall_forall _ _) Hr). Qed.

(** ** OVNDBCluster *)

(** The network attachments the annotations are made from. *)
Definition held_nads (i : OVNDBCluster) : list NAD :=
  let na := db_NetworkAttachment (db_Spec i) in
  if nonempty na then option_list (in_nad w na (om_Namespace (db_Meta i))) else [].

Lemma nad_held i nads tr : Forall (reads w) tr → nad_found i nads tr → nads = held_nads i.
Proof.
  intros Hr. unfold nad_found, held_nads. destruct (nonempty _); [|done].
  intros (nad & -> & Hin). by rewrite (read_event Hr Hin nad eq_refl).
Qed.

(** The hash in the pods. *)
Definition held_hash (ts : list Template) : fallible string := ObjectHash (MergeEnvs [] (in_vars w ts)).

(** The StatefulSet, from the specification and the inputs. *)
Definition db_intended (i : OVNDBCluster) : option StatefulSetDef :=
  match EnsureNetworksAnnotation (held_nads i),
        held_hash (dbServiceConfigMaps i (dbServiceName i)) with
  | Okay annotations, Okay hash =>
      match StatefulSet i hash {[AppSelector := dbServiceName i]} annotations
              (in_topology w (db_TopologyRef (db_Spec i))) with
      | GOk sts => Some sts
      | _ => None
      end
  | _, _ => None
  end.

Lemma sts_inputs_intended i sts tr :
  Forall (reads w) tr → sts_inputs i sts tr → db_intended i = Some sts.
Proof.
  intros Hr (nads & ann & vars & hash & last & topo & Hnad & Hann & _ & Hhash & Htopo & Hsts).
  destruct Hhash as (j & vars' & _ & Hcms & Hhash).
  unfold db_intended, held_hash. rewrite <- (nad_held _ _ _ Hr Hnad), Hann.
  rewrite <- (read_event Hr Hcms eq_refl). cbn [fst]. rewrite Hhash.
  by rewrite <- (read_event Hr Htopo topo eq_refl), Hsts.
Qed.

(** ** OVNNorthd *)

Definition held_address (ns t : string) : string :=
  match list_find (λ c, db_DBType (db_Spec c) = t) (in_clusters w ns) with
  | Some (_, c) => dbs_InternalDBAddress (db_Status c)
  | None => ""
  end.

Lemma address_held i t a tr :
  Forall (reads w) tr → endpoint_found i t a tr → a = held_address (om_Namespace (nd_Meta i)) t.
Proof.
  intros Hr (items & n & c & Hin & Hf & <- & _). unfold held_address.
  by rewrite <- (read_event Hr Hin items eq_refl), Hf.
Qed.

Definition nd_intended (i : OVNNorthd) : option StatefulSetDef :=
  let ns := om_Namespace (nd_Meta i) in
  let vars := in_vars w (ndServiceConfigMaps i ServiceNameOVNNorthd) in
  match ObjectHash (MergeEnvs [] vars) with
  | Okay hash =>
      match nd_StatefulSet i nd_labels (held_address ns NBDBType) (held_address ns SBDBType)
              (<["CONFIG_HASH" := SetValue hash]> vars)
              (in_topology w (nd_TopologyRef (nd_Spec i))) with
      | GOk sts => Some sts
      | _ => None
      end
  | Fail _ => None
  end.

Lemma nd_sts_inputs_intended i sts tr :
  Forall (reads w) tr → nd_sts_inputs i sts tr → nd_intended i = Some sts.
Proof.
  intros Hr (nb & sb & vars & vars' & hash & last & topo & Hnb & Hsb & _ & Hhash & Htopo & Hsts).
  destruct Hhash as (j & _ & Hcms & Hhash). unfold nd_intended.
  rewrite <- (read_event Hr Hcms eq_refl). cbn [fst]. rewrite Hhash.
  rewrite <- (read_event Hr Htopo topo eq_refl).
  by rewrite <- (address_held _ _ _ _ Hr Hnb), <- (address_held _ _ _ _ Hr Hsb), Hsts.
Qed.

(** ** OVNController *)

(** The networks of the OVS pods, and their attachments. *)
Definition held_oc_nads (i : OVNController) : list NAD :=
  let na := if nonempty (oc_NetworkAttachment (oc_Spec i))
            then [oc_NetworkAttachment (oc_Spec i)] else [] in
  concat ((λ n, option_list (in_nad w n (om_Namespace (oc_Meta i)))) <$>
          concat (networks_of i na <$> keys_of i na)).

(** The OVS pods are hardened by an annotation of the resource. *)
Definition oc_hardened (i : OVNController) : bool :=
  match GetBoolFromAnnotation (om_Annotations (oc_Meta i)) OVNHardenedOVSSecurityContextLabel with
  | Okay (hardened, found) => hardened && found
  | Fail _ => false
  end.

(** The DaemonSet [ds] is the one that the specification and the inputs determine. *)
Definition oc_intended (i : OVNController) (ds : DaemonSetDef) : Prop :=
  let topology := in_topology w (oc_TopologyRef (oc_Spec i)) in
  (∃ h, held_hash [ocScripts i] = Okay h ∧ CreateOVNDaemonSet i h ovn_labels topology = GOk ds) ∨
  (∃ h ann, ObjectHash (MergeEnvs [] ∅) = Okay h ∧
     EnsureNetworksAnnotation (held_oc_nads i) = Okay ann ∧
     ds = CreateOVSDaemonSet i h ovs_labels ann topology (oc_hardened i)) ∨
  (∃ h, held_hash [metricsConfigMap i] = Okay h ∧
     ds = CreateMetricsDaemonSet i h ocMetricsLabels topology).

Definition as_intended (i : OVNController) (ev : event Ext) : Prop :=
  match ev with Ev e _ =>
    match e with DaemonSetCreateOrPatch ds _ => oc_intended i ds | _ => True end
  end.

Abbreviation intends i := (triple (reads w) (as_intended i) True (oc_at i)).

(** The name tells which of the three, and the three names differ. *)
Lemma oc_intended_unique i ds ds' :
  oc_intended i ds → oc_intended i ds' → ds_Name ds = ds_Name ds' → ds = ds'.
Proof.
  intros [(h & Hh & H)|[(h & ann & Hh & Ha & H)|(h & Hh & H)]]
         [(h' & Hh' & H')|[(h' & ann' & Hh' & Ha' & H')|(h' & Hh' & H')]] Hn.
  all: try (apply CreateOVNDaemonSet_Name in H as Hn1; rewrite Hn1 in Hn).
  all: try (apply CreateOVNDaemonSet_Name in H' as Hn2; rewrite Hn2 in Hn).
  all: subst; cbn in Hn; first [discriminate Hn | congruence].
Qed.

Ltac intend_call :=
  match goal with
  | |- triple ?Env _ _ _ (bind (call ?e) _) _ =>
      apply (triple_bind _ _ _ _ _ _ (λ r, Env (Ev e r)));
        [apply triple_call; intros ? ?; split; [|assumption]|intros ? ?]
  end.

(** A loop that collects a list per element. *)
Lemma triple_collect {A B : Type} {E : Type → Type} {S X} {Env P : event E → Prop} {N : Prop}
    {J : S → Prop} (f : A → list B) (body : list B → A → M E S X (list B)) l :
  (∀ acc x, triple Env P N J (body acc x) (λ r, r = acc ++ f x)) →
  triple Env P N J (foldM body [] l) (λ r, r = concat (f <$> l)).
Proof.
  intros Hbody. enough (∀ acc, triple Env P N J (foldM body acc l)
    (λ r, r = acc ++ concat (f <$> l))) as Hall by apply (Hall []).
  induction l as [|x l IH]; intros acc; [apply triple_ret; by rewrite app_nil_r|].
  cbn [foldM]. eapply triple_bind; [apply Hbody|]. intros r ->.
  eapply triple_mono; [|apply IH]. intros r ->. by rewrite fmap_cons, <- app_assoc.
Qed.

Lemma storeHash_intends i vars key {X} :
  intends i (storeHash (X := X) vars key)
    (λ r, ∀ h c, r = Okay (h, c) → ObjectHash (MergeEnvs [] vars) = Okay h).
Proof.
  unfold storeHash. triples fail with (try first [exact Logic.I | by apply oc_at_upd]).
  all: by intros ? ? [= <- <-] || done.
Qed.

Ltac intend_leaf := first [exact Logic.I | by apply oc_at_upd | by apply oc_at_rbac | assumption].

(** The config maps of the OVN pods, as the resource names and fills them. *)
Lemma ocServiceConfig_intends i vars :
  intends i (ocServiceConfig vars)
    (λ hs, held_hash [ocScripts i] = Okay hs.1 ∧ ObjectHash (MergeEnvs [] ∅) = Okay hs.2).
Proof.
  unfold ocServiceConfig. cbv zeta.
  apply (triple_bind _ _ _ _ _ _ (λ r, r.2 = None → r.1 = in_vars w [ocScripts i])).
  - unfold ocGenerateServiceConfigMaps.
    triples (idtac; intend_call) with (try intend_leaf).
    intros Herr. destruct H as [st ->]. by apply H0.
  - intros [vars' err] Hr. cbn in Hr. destruct err as [e|]; [triples fail with (try intend_leaf)|].
    specialize (Hr eq_refl) as ->.
    apply (triple_bind _ _ _ _ _ _ (λ hs, held_hash [ocScripts i] = Okay hs.1 ∧
      ObjectHash (MergeEnvs [] ∅) = Okay hs.2)).
    + unfold ocInputHashes. eapply triple_bind; [apply storeHash_intends|intros r1 H1].
      eapply triple_bind; [apply storeHash_intends|intros r2 H2].
      triples fail with (try intend_leaf).
      split; [by eapply H1|by eapply H2].
    + intros hs Hhs. triples fail with (try intend_leaf).
Qed.

Lemma ocNADs_intends i nets :
  intends i (ocNADs nets)
    (λ l, l = concat ((λ n, option_list (in_nad w n (om_Namespace (oc_Meta i)))) <$> nets)).
Proof.
  unfold ocNADs. eapply triple_bind; [apply triple_get|]. intros j [st ->].
  apply (triple_collect (λ n, option_list (in_nad w n (om_Namespace (oc_Meta i))))).
  intros acc n. triples (idtac; intend_call) with (try intend_leaf). by f_equal; f_equal; apply H.
Qed.

(** The networks are those of the specification, and no DaemonSet is written for them. *)
Lemma networks_intend i j labels na :
  oc_at i j →
  intends i (fn (Y := RE) (CreateOrUpdateAdditionalNetworks j labels na))
    (λ r, ∀ nets, r = Okay nets → nets = concat (networks_of i na <$> keys_of i na)).
Proof.
  intros [st ->]. set (j := mkOVNController _ _ _ _). intros s Hs.
  apply wp_exec. intros tr o Hex Henv.
  assert (intends i (fn (Y := RE) (CreateOrUpdateAdditionalNetworks j labels na)) (λ _, True))
    as Ht by triples fail with (try intend_leaf).
  assert (wpM (fn (Y := RE) (CreateOrUpdateAdditionalNetworks j labels na)) s (λ _ o,
    ∃ r, o = Done (Cont s r) ∧
      ∀ nets, r = Okay nets → nets = concat (networks_of i na <$> keys_of i na))) as Hr.
  { apply (fn_ended _ _ (λ _ r, ∀ nets, r = Okay nets → nets = concat (networks_of i na <$> keys_of i na))).
    eapply wpM_mono; [|apply (CreateOrUpdateAdditionalNetworks_spec j labels na s)].
    intros tr' o' (r & Ho & _ & Hr). exists r. split; [exact Ho|].
    intros nets Hn. by destruct (Hr nets Hn). }
  split; [by apply (triple_exec _ _ _ _ _ _ _ _ _ Ht Hs Hex Henv)|].
  destruct (proj1 (wp_exec _ _) Hr tr o Hex) as (r & -> & Hnets). by split.
Qed.

Lemma ocNetworks_intends i labels :
  intends i (ocNetworks labels) (λ r, EnsureNetworksAnnotation (held_oc_nads i) = Okay r.1).
Proof.
  unfold ocNetworks. eapply triple_bind; [apply triple_get|]. intros j Hj.
  set (na := if nonempty _ then _ else _).
  eapply triple_bind; [by apply networks_intend|]. intros [nets|e] Hn;
    [specialize (Hn _ eq_refl); subst nets|triples fail with (try intend_leaf)].
  eapply triple_bind; [apply ocNADs_intends|]. intros nads ->.
  assert (concat ((λ n, option_list (in_nad w n (om_Namespace (oc_Meta i)))) <$>
    concat (networks_of i na <$> keys_of i na)) = held_oc_nads i) as ->
    by by destruct Hj as [st ->].
  triples fail with (try intend_leaf).
Qed.

Lemma ocTopology_intends i labels :
  intends i (ocTopology labels) (λ t, t = in_topology w (oc_TopologyRef (oc_Spec i))).
Proof.
  unfold ocTopology. eapply triple_bind; [apply triple_get|]. intros j Hj.
  apply (triple_bind _ _ _ _ _ _ (λ r, ∀ t, r = Okay t →
    t = in_topology w (oc_TopologyRef (oc_Spec i)))).
  - intros s Hs. apply wpM_fn. unfold ensureTopology, markTrue, setCond.
    repeat wp_step; cbn; intros Henv; apply Forall_cons in Henv as [Henv _].
    all: split; [by apply Forall_cons_2; [|apply Forall_nil_2]|].
    all: split; [repeat apply oc_at_upd; exact Hs|]; try done.
    all: intros t' [= <-]; destruct Hs as [st ->]; specialize (Henv _ eq_refl).
    all: change (oc_TopologyRef (oc_Spec i)) with
      (cs_TopologyRef (cr_Spec (mkOVNController (oc_Kind i) (oc_Meta i) (oc_Spec i) st))); congruence.
  - intros [t|e] Ht; triples fail with (try intend_leaf). by apply Ht.
Qed.

Lemma createMetricsHash_intends i vars {X} :
  intends i (createMetricsHashOfInputHashes (X := X) vars)
    (λ r, ∀ h, r = Okay h → ObjectHash (MergeEnvs [] vars) = Okay h).
Proof.
  unfold createMetricsHashOfInputHashes. eapply triple_bind; [apply storeHash_intends|].
  intros [[h c]|e] Hr; apply triple_ret; [|done]. intros ? [= <-]. by eapply Hr.
Qed.

Lemma lift_go_intends i {X A} (g : go A) :
  intends i (lift_go (X := X) g) (λ r, ∀ a, r = Okay a → g = GOk a).
Proof.
  unfold lift_go. destruct g; [apply triple_ret|apply triple_ret|by apply triple_panic];
    by intros ? [= <-].
Qed.

(** Whether the OVS pods are hardened. *)
Lemma ocHardened_intends i : intends i ocHardened (λ b, b = oc_hardened i).
Proof.
  unfold ocHardened. eapply triple_bind; [apply triple_get|]. intros j [st ->]. cbn [oc_Meta].
  triples fail with (try intend_leaf). unfold oc_hardened. by rewrite Heqf.
Qed.

Lemma ocReconcileNormal_intends i : intends i ocReconcileNormal (λ _, True).
Proof.
  unfold ocReconcileNormal.
  triples (idtac; lazymatch goal with
    | |- triple _ _ _ _ (bind (ocServiceConfig _) _) _ =>
        eapply triple_bind; [apply ocServiceConfig_intends|intros ? Hhash; cbv beta in Hhash]
    | |- triple _ _ _ _ (bind (ocNetworks _) _) _ =>
        eapply triple_bind; [apply ocNetworks_intends|intros ? Hann; cbv beta in Hann]
    | |- triple _ _ _ _ (bind (ocTopology _) _) _ =>
        eapply triple_bind; [apply ocTopology_intends|intros ? ->]
    | |- triple _ _ _ _ (bind ocHardened _) _ =>
        eapply triple_bind; [apply ocHardened_intends|intros ? ->]
    | |- triple _ _ _ _ (bind (createMetricsHashOfInputHashes _) _) _ =>
        eapply triple_bind; [apply createMetricsHash_intends|intros ? Hmetrics; cbv beta in Hmetrics]
    | |- triple _ _ _ _ (bind (lift_go _) _) _ =>
        eapply triple_bind; [apply lift_go_intends|intros ? Hdef; cbv beta in Hdef]
    | |- triple _ _ _ _ (bind (call (EnsureConfigMaps _ _ _)) _) _ => intend_call
    end) with (try intend_leaf).
  all: repeat match goal with H : oc_at _ _ |- _ => destruct H as [? ->] end.
  - left. exists a2.1. split; [apply Hhash|]. by apply Hdef.
  - right; left. exists a2.2, a3.1. split; [apply Hhash|]. by split.
  - right; right. exists a17. split; [|done]. unfold held_hash.
    match goal with H : reads w (Ev (EnsureConfigMaps _ _ _) (?g, _)) |- _ =>
      rewrite <- (H eq_refl : g = in_vars w [metricsConfigMap i]) end.
    by apply Hmetrics.
Qed.

(** ** Runs *)

Definition writes_sts (sts : StatefulSetDef) (tr : list (event Ext)) : Prop :=
  ∃ ev, ev ∈ tr ∧ creates_sts sts ev.

(** From a guard on the requests for a StatefulSet, what is true of the one written. *)
Lemma written_guarded (G : list (event Ext) → Prop) sts tr :
  (∀ t t', G t → tr = t ++ t' → G tr) →
  guarded (λ t _, G t) (creates_sts sts) tr → writes_sts sts tr → G tr.
Proof.
  intros HG Hg (ev & (t & t' & ->)%list_elem_of_split & Hev).
  by eapply HG, eq_refl; eapply (Hg t ev t').
Qed.

Lemma db_run_intended {FL : FinalizerLaws L} req i tr o sts :
  exec (OVNDBCluster_Reconcile req) tr o → Forall (reads w) tr →
  head tr = Some (Ev (GetOVNDBCluster req) (Okay i)) → writes_sts sts tr →
  db_intended i = Some sts.
Proof.
  intros Hex Hr Hi Hw. apply (sts_inputs_intended i sts tr Hr).
  revert Hw. apply (written_guarded (sts_inputs i sts)).
  { intros t t' Ht ->. eapply sts_inputs_mono; [|exact Ht]. set_solver. }
  refine (guarded_fetched _ (λ j t _, sts_inputs j sts t) _ _ _ _ Hi).
  revert Hex. apply (reconcile_guarded _ dbInitStatus (λ i, i) (λ _, false)); try done.
  - intros [R []]; cbn; tauto.
  - intros j _ _. eapply wpM_mono; [|exact (dbReconcileNormal_workload sts (dbInitStatus j))].
    intros tr' o'; cbn beta. apply guarded_mono. intros t _ _ Ht. exists j. split; [done|].
    apply (sts_inputs_same (dbInitStatus j)); [by split|].
    eapply sts_inputs_mono; [|exact Ht]. intros ev Hev. solve_in.
Qed.

Lemma nd_run_intended {FL : FinalizerLaws L} req i tr o sts :
  exec (OVNNorthd_Reconcile req) tr o → Forall (reads w) tr →
  head tr = Some (Ev (GetOVNNorthd req) (Okay i)) → writes_sts sts tr →
  nd_intended i = Some sts.
Proof.
  intros Hex Hr Hi Hw. apply (nd_sts_inputs_intended i sts tr Hr).
  revert Hw. apply (written_guarded (nd_sts_inputs i sts)).
  { intros t t' Ht ->. eapply nd_sts_inputs_mono; [|exact Ht]. set_solver. }
  refine (guarded_fetched _ (λ j t _, nd_sts_inputs j sts t) _ _ _ _ Hi).
  revert Hex. apply (reconcile_guarded _ ndInitStatus (λ i, i) (λ _, false)); try done.
  - intros [R []]; cbn; tauto.
  - intros j _ _. eapply wpM_mono; [|apply (ndReconcileNormal_workload sts j); by eexists].
    intros tr' o'; cbn beta. apply guarded_mono. intros t _ _ Ht. exists j. split; [done|].
    eapply nd_sts_inputs_mono; [|exact Ht]. intros ev Hev. solve_in.
Qed.

#[local] Instance fetched_oc_inj req :
  Inj (=) (=) (λ i, Ev (GetOVNController_ req) (Okay i) : event Ext).
Proof. intros i j Heq. apply (f_equal fetched) in Heq. by injection Heq. Qed.

(** A run of the OVNController writes intended DaemonSets only. *)
Lemma oc_run_intended {FL : FinalizerLaws L} req i tr o :
  exec (OVNController_Reconcile req) tr o → Forall (reads w) tr →
  head tr = Some (Ev (GetOVNController_ req) (Okay i)) → Forall (as_intended i) tr.
Proof.
  intros Hex Hr Hi.
  assert (∀ j trb ob, j = i → exec (reconcileBody (oc_isNew j) ocInitMaps ocReconcileNormal
    (ocInitStatus j)) trb ob → Forall (reads w) trb → Forall (as_intended i) trb) as Hbody.
  { intros j trb ob -> Hb Hrb. apply reconcileBody_runs in Hb; [|done].
    destruct Hb as [| |trn on _ _ _ Hn|]; rewrite ?Forall_cons, ?Forall_nil; [done..| |done].
    by apply (triple_exec _ _ _ _ _ _ _ _ _ (ocReconcileNormal_intends i) (oc_at_init i) Hn). }
  destruct (reconcile_runs _ _ _ _ _ Hex) as [| |j trb Hb|j trb ib x ob perr Hb _];
    rewrite ?Forall_cons, ?Forall_nil; [done..| |];
    assert (j = i) as -> by exact (inj (λ i, Ev (GetOVNController_ req) (Okay i)) _ _
      (inj Some _ _ Hi));
    do 2 apply Forall_cons in Hr as [_ Hr]; (split; [done|]); (split; [done|]).
  - by eapply Hbody.
  - apply Forall_app in Hr as [Hr _]. apply Forall_app; split; [by eapply Hbody|].
    by rewrite Forall_singleton.
Qed.

(** The intention depends on what the user asked for alone. *)
Lemma db_intended_same i j : same_db i j → db_intended i = db_intended j.
Proof. intros [? ? ?]. destruct i, j. by simplify_eq/=. Qed.
Lemma nd_intended_same i j : nd_at i j → nd_intended i = nd_intended j.
Proof. by intros [st ->]. Qed.
Lemma oc_intended_same i j ds : oc_at i j → oc_intended j ds → oc_intended i ds.
Proof. by intros [st ->]. Qed.

Definition writes_ds (ds : DaemonSetDef) (tr : list (event Ext)) : Prop :=
  ∃ t r, Ev (DaemonSetCreateOrPatch ds t) r ∈ tr.

Lemma oc_written_intended {FL : FinalizerLaws L} req i tr o ds :
  exec (OVNController_Reconcile req) tr o → Forall (reads w) tr →
  head tr = Some (Ev (GetOVNController_ req) (Okay i)) → writes_ds ds tr → oc_intended i ds.
Proof.
  intros Hex Hr Hi (t & r & Hin).
  exact (proj1 (Forall_forall _ _) (oc_run_intended _ _ _ _ Hex Hr Hi) _ Hin).
Qed.

(** C20. Two reconciliations of a database cluster, of ovn-northd or of an OVNController
    that differ in the status of the resource alone and find the same network attachments,
    config maps, topology and database clusters write the same StatefulSet, and under each
    name the same DaemonSet: a run that finds nothing changed restarts no pod, whatever
    earlier runs left in the status. *)
Theorem unchanged_inputs_restart_nothing {FL : FinalizerLaws L} req tr1 o1 tr2 o2 :
  Forall (reads w) tr1 → Forall (reads w) tr2 →
  (∀ i1 i2 s1 s2, same_db i1 i2 →
     exec (OVNDBCluster_Reconcile req) tr1 o1 → exec (OVNDBCluster_Reconcile req) tr2 o2 →
     head tr1 = Some (Ev (GetOVNDBCluster req) (Okay i1)) →
     head tr2 = Some (Ev (GetOVNDBCluster req) (Okay i2)) →
     writes_sts s1 tr1 → writes_sts s2 tr2 → s1 = s2) ∧
  (∀ i1 i2 s1 s2, nd_at i1 i2 →
     exec (OVNNorthd_Reconcile req) tr1 o1 → exec (OVNNorthd_Reconcile req) tr2 o2 →
     head tr1 = Some (Ev (GetOVNNorthd req) (Okay i1)) →
     head tr2 = Some (Ev (GetOVNNorthd req) (Okay i2)) →
     writes_sts s1 tr1 → writes_sts s2 tr2 → s1 = s2) ∧
  (∀ i1 i2 d1 d2, oc_at i1 i2 →
     exec (OVNController_Reconcile req) tr1 o1 → exec (OVNController_Reconcile req) tr2 o2 →
     head tr1 = Some (Ev (GetOVNController_ req) (Okay i1)) →
     head tr2 = Some (Ev (GetOVNController_ req) (Okay i2)) →
     writes_ds d1 tr1 → writes_ds d2 tr2 → ds_Name d1 = ds_Name d2 → d1 = d2).
Proof.
  intros Hr1 Hr2. split; [|split]; intros i1 i2 s1 s2 Hs He1 He2 Hh1 Hh2 Hw1 Hw2.
  - pose proof (db_run_intended _ _ _ _ _ He1 Hr1 Hh1 Hw1) as H1.
    pose proof (db_run_intended _ _ _ _ _ He2 Hr2 Hh2 Hw2) as H2.
    rewrite (db_intended_same _ _ Hs) in H1. congruence.
  - pose proof (nd_run_intended _ _ _ _ _ He1 Hr1 Hh1 Hw1) as H1.
    pose proof (nd_run_intended _ _ _ _ _ He2 Hr2 Hh2 Hw2) as H2.
    rewrite (nd_intended_same _ _ Hs) in H1. congruence.
  - apply (oc_intended_unique i1); [exact (oc_written_intended _ _ _ _ _ He1 Hr1 Hh1 Hw1)|].
    exact (oc_intended_same _ _ _ Hs (oc_written_intended _ _ _ _ _ He2 Hr2 Hh2 Hw2)).
Qed.
End stability.
