(* ===== verification/Watches.v ===== *)
(** * What a reconciliation depends on wakes it up

    The watches that [SetupWithManager] registers, against what the reconcilers read
    and write: whatever secret, topology or other custom resource of its namespace a
    reconciliation reads, a change of it is mapped to a request for the resource; and the
    kinds of objects a reconciler touches are owned or watched, a few apart. *)
From S2P Require Import Prelude Prog Triples K8s Lib Api ApiMethods Calls Shared.
From S2P Require Import SharedProofs Client ClientProofs DBManifests DBController CtlNetworks.
From S2P Require Import CtlManifests CtlController NorthdManifests NorthdController.
From S2P Require Import DBProofs NorthdProofs CtlProofs Slices Webhook Manager Confinement.
#[local] Open Scope go_scope.

Section watches.
Context {AT : ApiTypes} {CL : CondLib} {L : Lib}.

(** ** What a request is about *)
Definition kind_of_object (o : Object) : list Kind :=
  match o with
  | ObjOVNDBCluster _ => [ovnv1_CR CROVNDBCluster]
  | ObjOVNNorthd _ => [ovnv1_CR CROVNNorthd]
  | ObjOVNController _ => [ovnv1_CR CROVNController]
  | ObjOther _ => []
  end.

Definition kind_of (k : ObjKind) : Kind :=
  match k with
  | KService => corev1_Service
  | KConfigMap => corev1_ConfigMap
  | KDNSData => infranetworkv1_DNSData
  | KDeployment => appsv1_Deployment
  | KDaemonSet => appsv1_DaemonSet
  end.

(** The kinds of the objects that a request reads or writes. *)
Definition touched (ev : event Ext) : list Kind :=
  match ev with Ev e _ =>
    match e with
    | GetOVNDBCluster _ | ListOVNDBClusters _ _ => [ovnv1_CR CROVNDBCluster]
    | GetOVNNorthd _ => [ovnv1_CR CROVNNorthd]
    | GetOVNController_ _ | ListOVNControllers _ => [ovnv1_CR CROVNController]
    | ListNames k _ | ListByField k _ _ _ => [ovnv1_CR k]
    | NewHelper o | PatchInstance o => kind_of_object o
    | GetService _ _ | UpdateService _ | GetServiceWithName _ _ | GetServicesListWithLabel _ _
    | DeleteServicesWithLabel _ _ | ServiceCreateOrPatch _ _ => [corev1_Service]
    | GetDeployment _ _ | UpdateDeployment _ => [appsv1_Deployment]
    | GetNAD _ _ | CreateNAD _ | UpdateNAD _ | GetNADWithName _ _ =>
        [netattdefv1_NetworkAttachmentDefinition]
    | Delete k _ _ => [kind_of k]
    | ListPods _ _ | ClientsetListPods _ _ | VerifyNetworkStatusFromAnnotation _ _ _ =>
        [corev1_Pod]
    | CreateOrPatchDNSData _ _ => [infranetworkv1_DNSData]
    | ReconcileRbac _ _ => [corev1_ServiceAccount; rbacv1_Role; rbacv1_RoleBinding]
    | ValidateCACertSecret _ | ValidateCertSecret _ _ => [corev1_Secret]
    | EnsureConfigMaps _ _ _ => [corev1_ConfigMap]
    | EnsureServiceTopology _ _ _ _ | EnsureDeletedTopologyRef _ _ => [topologyv1_Topology]
    | StatefulSetCreateOrPatch _ _ => [appsv1_StatefulSet]
    | DaemonSetCreateOrPatch _ _ => [appsv1_DaemonSet]
    | PDBCreateOrPatch _ _ | DeletePDBWithName _ _ => [policyv1_PodDisruptionBudget]
    | DoJob _ _ _ _ _ => [batchv1_Job]
    | GetDNSClusterDomain | NowUnix => []
    end
  end.

(** The secrets and topologies that a request reads are named in the specification. *)
Definition reads_named (spec : CommonSpec) (ev : event Ext) : Prop :=
  match ev with Ev e _ =>
    match e with
    | ValidateCACertSecret n => names_object spec (nn_Name n)
    | ValidateCertSecret svc _ => ∀ n, tls_SecretName svc = Some n → names_object spec n
    | EnsureServiceTopology ref _ _ _ => ∀ t, ref = Some t → names_object spec (tr_Name t)
    | _ => True
    end
  end.

(** The kinds of its inputs: other custom resources, secrets and topologies. *)
Definition input_kinds (ev : event Ext) : list Kind :=
  match ev with Ev e _ =>
    match e with
    | ListOVNDBClusters _ _ => [ovnv1_CR CROVNDBCluster]
    | ListOVNControllers _ => [ovnv1_CR CROVNController]
    | ValidateCACertSecret _ | ValidateCertSecret _ _ => [corev1_Secret]
    | EnsureServiceTopology _ _ _ _ => [topologyv1_Topology]
    | _ => []
    end
  end.

(** The kinds whose changes reach the controller. *)
Definition reaching (c : Controller) : list Kind :=
  ovnv1_CR (ctl_For c) :: ctl_Owns c ++ (watch_Object <$> ctl_Watches c).

(** What is shown of each request of a reconciliation. *)
Definition among (l kinds : list Kind) : bool := forallb (λ k, bool_decide (k ∈ kinds)) l.
Definition accounted (spec : CommonSpec) (c : Controller) (unwatched : list Kind)
    (ev : event Ext) : Prop :=
  reads_named spec ev ∧ among (input_kinds ev) (watch_Object <$> ctl_Watches c) = true ∧
  among (touched ev) (reaching c ++ unwatched) = true.

Definition accounts {I} {CR : CustomResource I} {X A} spec c unwatched (m : Go I X A)
    (R : A → Prop) : Prop :=
  triple (λ _, True) (accounted spec c unwatched) True (λ i, cr_Spec i = spec) m R.

Lemma names_ca spec :
  nonempty (tls_CaBundleSecretName (cs_TLS spec)) = true →
  names_object spec (tls_CaBundleSecretName (cs_TLS spec)).
Proof. intros Hn. left. split; [done|]. intros Heq. by rewrite Heq in Hn. Qed.

(** The specification stays what it was. *)
Ltac use_spec :=
  cbn beta in *;
  repeat match goal with
  | H : cr_Spec ?a = ?s |- context [cr_Spec ?a] => rewrite H
  | H : cr_Spec ?a = ?s, H' : context [cr_Spec ?a] |- _ =>
      lazymatch H' with H => fail | _ => rewrite H in H' end
  end.
Ltac account_leaf :=
  unfold updConds in *; cbn beta iota in *; autorewrite with cr; use_spec;
  first [ exact Logic.I | congruence
        | split;
          [ cbn; first [ exact Logic.I | by apply names_ca
                  | intros ? Hn; unfold names_object; rewrite Hn; cbn; tauto ]
          | split; vm_compute; reflexivity ] ].
Tactic Notation "accounts_by" tactic3(known) :=
  unfold accounts; triples known with (try by account_leaf).

Lemma foldl_spec {I} {CR : CustomResource I} (set : Condition → I → I) cs i :
  (∀ c i, cr_Spec (set c i) = cr_Spec i) → cr_Spec (foldl (λ i c, set c i) i cs) = cr_Spec i.
Proof. intros Hset. revert i. induction cs as [|c cs IH]; intros i; cbn; [done|]. by rewrite IH. Qed.

(** ** OVNNorthd *)
Definition northd_unwatched : list Kind := [appsv1_Deployment].

Lemma ndReconcileNormal_accounts spec :
  accounts spec northdController northd_unwatched ndReconcileNormal (λ _, True).
Proof.
  accounts_by fail. by rewrite foldl_spec.
Qed.

(** ** OVNDBCluster *)
Definition db_unwatched : list Kind := [batchv1_Job; netattdefv1_NetworkAttachmentDefinition; corev1_Pod].
Lemma dbReconcileNormal_accounts spec :
  accounts spec dbClusterController db_unwatched dbReconcileNormal (λ _, True).
Proof.
  accounts_by fail. by rewrite foldl_spec.
Qed.

(** ** OVNController *)
Definition oc_unwatched : list Kind := [corev1_Pod].
Lemma ocReconcileNormal_accounts spec :
  accounts spec ovnControllerController oc_unwatched ocReconcileNormal (λ _, True).
Proof.
  accounts_by fail. { by rewrite foldl_spec. }
  match goal with H : ?x ∈ _ |- context [Delete (?x).1] =>
    rewrite !elem_of_cons, elem_of_nil in H; destruct H as [->|[->|[->|[]]]] end;
    (split; [exact Logic.I|]); split; vm_compute; reflexivity.
Qed.

(** ** Reconcile *)
Lemma reconcile_accounts {I} {CR : CustomResource I} {OI : IsObject I}
    {CRL : CustomResourceLaws I} c unwatched fetch init prepare isNew (normal : Go I RE RE) i tr o :
  (∀ r r', Ev fetch r = Ev fetch r' → r = r') →
  (∀ i, among (kind_of_object (to_object i)) (reaching c ++ unwatched) = true) →
  among [topologyv1_Topology] (reaching c ++ unwatched) = true →
  (∀ i, cr_Spec (init i) = cr_Spec i) → (∀ i, cr_Spec (prepare i) = cr_Spec i) →
  accounts (cr_Spec i) c unwatched normal (λ _, True) →
  exec (reconcile fetch init (λ i, reconcileBody (isNew i) prepare normal))
    (Ev fetch (Okay i) :: tr) o →
  Forall (accounted (cr_Spec i) c unwatched) tr.
Proof.
  intros Hread Hobj Htopo Hinit Hprep Hnormal (r & tr' & Heq & Hex).
  apply (inj2 cons) in Heq as [Hr ->]. apply Hread in Hr as <-. revert tr' o Hex.
  refine (proj1 (wp_exec _ (λ tr _, Forall (accounted (cr_Spec i) c unwatched) tr)) _).
  apply wp_bind.
  assert (accounts (cr_Spec i) c unwatched
            (reconcileInstance init (λ i, reconcileBody (isNew i) prepare normal))
            (λ _, True)) as Hbody.
  { accounts_by (idtac; lazymatch goal with
      | |- triple _ _ _ _ normal _ => apply Hnormal
      end).
    all: try (split; [exact Logic.I|split; [reflexivity|first [exact Htopo|apply Hobj]]]). }
  eapply wpM_mono; [|by apply (Hbody i)].
  intros tr [[|]|] Htr; cbn; rewrite ?app_nil_r; by apply Htr, Forall_forall.
Qed.

(** ** Waking up *)

(** The object [n] of the kind [kind] is one that the request depends on. *)
Definition depends (ev : event Ext) (kind : Kind) (n : NamespacedName) : Prop :=
  match ev with Ev e _ =>
    match e with
    | ListOVNDBClusters ns _ => kind = ovnv1_CR CROVNDBCluster ∧ nn_Namespace n = ns
    | ListOVNControllers ns => kind = ovnv1_CR CROVNController ∧ nn_Namespace n = ns
    | ValidateCACertSecret m => kind = corev1_Secret ∧ n = m
    | ValidateCertSecret svc ns => kind = corev1_Secret ∧
        tls_SecretName svc = Some (nn_Name n) ∧ nn_Namespace n = ns
    | EnsureServiceTopology ref _ _ _ => kind = topologyv1_Topology ∧
        tr_Name <$> ref = Some (nn_Name n)
    | _ => False
    end
  end.

(** The cache, of the resources of a controller: what it lists and finds by field. *)
Definition cache_answers (store : list (NamespacedName * CommonSpec)) (ev : event Ext) : Prop :=
  index_answers store ev ∧
  match ev with Ev e r =>
    match e in Ext R return R → Prop with
    | ListNames _ ns => λ r, ∃ l, r = Okay l ∧ ∀ n, n ∈ l ↔
        nn_Namespace n = ns ∧ ∃ s, (n, s) ∈ store
    | _ => λ _, True
    end r
  end.

(** A change of the object [n] is mapped to requests among which is [req]. *)
Definition wakes (c : Controller) (kind : Kind) (n req : NamespacedName) (spec : CommonSpec) : Prop :=
  ∃ w, w ∈ ctl_Watches c ∧ watch_Object w = kind ∧
  ∀ store src tr o, (req, spec) ∈ store →
    om_Name src = nn_Name n → om_Namespace src = nn_Namespace n →
    exec (watch_Map w src tt) tr o → Forall (cache_answers store) tr →
    ∃ requests, o = Done (Cont tt requests) ∧ req ∈ requests.

Lemma namespace_wakes kind k n req spec c w :
  w = mkWatch kind (OVNCRNamespaceMapFunc k) [] → w ∈ ctl_Watches c →
  nn_Namespace n = nn_Namespace req → wakes c kind n req spec.
Proof.
  intros -> Hw Hns. eexists. split; [exact Hw|]. split; [done|].
  intros store src tr o Hin _ Hsrc. cbn [watch_Map]. revert tr o.
  refine (proj1 (wp_exec _ (λ tr o, Forall (cache_answers store) tr → _)) _).
  unfold OVNCRNamespaceMapFunc. repeat wp_step; intros [[_ Hl] _]%Forall_cons; cbn in Hl;
    destruct Hl as (l & Hl & Hmem); simplify_eq.
  eexists. split; [done|]. rewrite list_elem_of_filter, Hmem, Hsrc, Hns. eauto.
Qed.

Lemma named_wakes kind k preds n req spec c w :
  w = mkWatch kind (findObjectsForSrc k) preds → w ∈ ctl_Watches c →
  names_object spec (nn_Name n) → nn_Namespace n = nn_Namespace req →
  wakes c kind n req spec.
Proof.
  intros -> Hw Hnamed Hns. eexists. split; [exact Hw|]. split; [done|].
  intros store src tr o Hin Hname Hsrc Hex Hcache.
  destruct (watch_exact store k src tt tr o Hex) as (requests & -> & Hreq).
  { eapply Forall_impl; [exact Hcache|]. by intros ev [? _]. }
  eexists. split; [done|]. apply Hreq. exists spec. rewrite Hname, Hsrc. by rewrite Hns.
Qed.

(** A controller that watches another kind in its namespace, secrets and topologies. *)
Definition watching (c : Controller) (k k' : CRKind) : Prop :=
  ctl_Watches c =
    [mkWatch (ovnv1_CR k') (OVNCRNamespaceMapFunc k) [];
     mkWatch corev1_Secret (findObjectsForSrc k) [ResourceVersionChangedPredicate];
     mkWatch topologyv1_Topology (findObjectsForSrc k) [GenerationChangedPredicate]].

Lemma accounted_wakes c k k' unwatched spec ev kind n req :
  watching c k k' → accounted spec c unwatched ev → depends ev kind n →
  nn_Namespace n = nn_Namespace req → wakes c kind n req spec.
Proof.
  intros Hc (Hnamed & Hin & _) Hdep Hns. rewrite Hc in Hin.
  destruct ev as [R e r]. destruct e; try done; cbn in Hdep, Hin, Hnamed;
    rewrite andb_true_r in Hin; apply bool_decide_eq_true in Hin.
  1-2: destruct Hdep as [-> _]; rewrite !elem_of_cons, elem_of_nil in Hin;
    destruct Hin as [Heq|[[=]|[[=]|[]]]]; rewrite Heq;
    eapply namespace_wakes; [reflexivity|rewrite Hc; left|exact Hns].
  - destruct Hdep as [-> ->]. eapply named_wakes; [reflexivity|rewrite Hc; right; left|done|done].
  - destruct Hdep as (-> & Hn & _).
    eapply named_wakes; [reflexivity|rewrite Hc; right; left|by apply Hnamed|done].
  - destruct Hdep as [-> Ht]. destruct ref as [t|]; [|done]. injection Ht as Ht.
    eapply named_wakes; [reflexivity|rewrite Hc; do 2 right; left|rewrite <- Ht; by apply Hnamed|done].
Qed.

(** Each controller, with what it reads and writes without watching it. *)
Definition controls {I} {CR : CustomResource I} (c : Controller) (unwatched : list Kind)
    (fetch : NamespacedName → Ext (fallible I)) : Prop :=
  ∀ req i tr o, exec (ctl_Reconcile c req) (Ev (fetch req) (Okay i) :: tr) o →
    Forall (accounted (cr_Spec i) c unwatched) tr.

Lemma northd_controls : controls northdController northd_unwatched GetOVNNorthd.
Proof.
  intros req i tr o Hex.
  apply (reconcile_accounts northdController northd_unwatched (GetOVNNorthd req) ndInitStatus
           (λ i, i) (λ _, false) ndReconcileNormal i tr o); try done.
  - intros r r' Heq. apply (f_equal fetched) in Heq. by destruct r, r'; simplify_eq/=.
  - apply ndReconcileNormal_accounts.
Qed.

Lemma db_controls : controls dbClusterController db_unwatched GetOVNDBCluster.
Proof.
  intros req i tr o Hex.
  apply (reconcile_accounts dbClusterController db_unwatched (GetOVNDBCluster req) dbInitStatus
           (λ i, i) (λ _, false) dbReconcileNormal i tr o); try done.
  - intros r r' Heq. apply (f_equal fetched) in Heq. by destruct r, r'; simplify_eq/=.
  - apply dbReconcileNormal_accounts.
Qed.

Lemma oc_controls : controls ovnControllerController oc_unwatched GetOVNController_.
Proof.
  intros req i tr o Hex.
  apply (reconcile_accounts ovnControllerController oc_unwatched (GetOVNController_ req)
           ocInitStatus ocInitMaps oc_isNew ocReconcileNormal i tr o); try done.
  - intros r r' Heq. apply (f_equal fetched) in Heq. by destruct r, r'; simplify_eq/=.
  - apply ocReconcileNormal_accounts.
Qed.

(** Whatever its inputs were, a change of one of them wakes the reconciliation up. *)
Definition inputs_wake {I} {CR : CustomResource I} (c : Controller)
    (fetch : NamespacedName → Ext (fallible I)) : Prop :=
  ∀ req i tr o ev kind n,
    exec (ctl_Reconcile c req) (Ev (fetch req) (Okay i) :: tr) o → ev ∈ tr →
    depends ev kind n → nn_Namespace n = nn_Namespace req →
    wakes c kind n req (cr_Spec i).

Lemma controls_wake {I} {CR : CustomResource I} c k k' unwatched
    (fetch : NamespacedName → Ext (fallible I)) :
  watching c k k' → controls c unwatched fetch → inputs_wake c fetch.
Proof.
  intros Hc Hctl req i tr o ev kind n Hex Hev Hdep Hns.
  apply (accounted_wakes c k k' unwatched _ ev); [done| |done|done].
  exact (proj1 (Forall_forall _ _) (Hctl req i tr o Hex) _ Hev).
Qed.

(** C38. For all three reconcilers: whatever secret, topology or other custom resource
    of its namespace a reconciliation reads, a change of it is mapped, by a watch that is
    registered for its kind, to requests among which is the one for the resource, when the
    cache lists what the indexes say. *)
Theorem changes_wake :
  inputs_wake northdController GetOVNNorthd ∧
  inputs_wake dbClusterController GetOVNDBCluster ∧
  inputs_wake ovnControllerController GetOVNController_.
Proof.
  split; [|split]; eapply controls_wake; try reflexivity.
  - apply northd_controls.
  - apply db_controls.
  - apply oc_controls.
Qed.

(** The kinds that a reconciliation touches are watched, those of [unwatched] apart,
    which are not. *)
Definition kinds_covered {I} {CR : CustomResource I} (c : Controller) (unwatched : list Kind)
    (fetch : NamespacedName → Ext (fallible I)) : Prop :=
  (∀ req i tr o kind ev, exec (ctl_Reconcile c req) (Ev (fetch req) (Okay i) :: tr) o →
     ev ∈ tr → kind ∈ touched ev → kind ∈ reaching c ∨ kind ∈ unwatched) ∧
  Forall (λ k, k ∉ reaching c) unwatched.

Lemma controls_cover {I} {CR : CustomResource I} c unwatched
    (fetch : NamespacedName → Ext (fallible I)) :
  controls c unwatched fetch → Forall (λ k, k ∉ reaching c) unwatched →
  kinds_covered c unwatched fetch.
Proof.
  intros Hctl Hun. split; [|done]. intros req i tr o kind ev Hex Hev Hk.
  destruct (proj1 (Forall_forall _ _) (Hctl req i tr o Hex) _ Hev) as (_ & _ & Ha).
  unfold among in Ha. rewrite forallb_forall in Ha. apply list_elem_of_In in Hk.
  by apply elem_of_app, (bool_decide_eq_true_1 _), Ha.
Qed.

(** C39. For all three reconcilers: each kind of object that a reconciliation reads or
    writes is its own, one that it owns, or one that it watches; the exceptions are pods,
    the network attachments and the jobs of an OVNDBCluster, and the Deployment of earlier
    releases of ovn-northd, which are not. *)
Theorem touched_kinds_watched :
  kinds_covered northdController northd_unwatched GetOVNNorthd ∧
  kinds_covered dbClusterController db_unwatched GetOVNDBCluster ∧
  kinds_covered ovnControllerController oc_unwatched GetOVNController_.
Proof.
  split; [|split]; apply controls_cover;
    first [apply northd_controls|apply db_controls|apply oc_controls|
           apply (bool_decide_unpack _); vm_compute; exact Logic.I].
Qed.
End watches.
