(* ===== verification/Progress.v ===== *)
(** * Reconciliations that succeed

    When every request succeeds a reconciliation goes on to its end.  [progresses]
    states it of a body, [conds_done] says which conditions have been reported true
    on the way, and [reconcile_progress] concludes that the resource is patched
    Ready.  The files of the three reconcilers apply it. *)
From S2P Require Import Prelude Prog Triples K8s Lib Api ApiMethods Calls Shared.
From S2P Require Import SharedProofs.
#[local] Open Scope go_scope.

(** ** Bodies that reach their end *)
Section progresses.
Context {E : Type → Type} {S X : Type} (good : event E → Prop).

(** When every answer is good, control goes on after [m], where [Q] holds. *)
Definition progresses {A} (m : M E S X A) (s : S) (Q : S → A → Prop) : Prop :=
  wpM m s (λ tr o, Forall good tr → ∃ s' a, o = Done (Cont s' a) ∧ Q s' a).

Lemma progresses_mono {A} (m : M E S X A) s (Q1 Q2 : S → A → Prop) :
  (∀ s' a, Q1 s' a → Q2 s' a) → progresses m s Q1 → progresses m s Q2.
Proof.
  intros HQ. apply wpM_mono. intros tr o Htr Henv.
  destruct (Htr Henv) as (s' & a & -> & Ha). exists s', a. auto.
Qed.

(** What else is known of the end of [m]. *)
Lemma progresses_known {A} (m : M E S X A) s (Q0 Q : S → A → Prop) :
  progresses m s (λ _ _, True) →
  wpM m s (λ _ o, match o with Done (Cont s' a) => Q0 s' a | _ => True end) →
  (∀ s' a, Q0 s' a → Q s' a) → progresses m s Q.
Proof.
  intros Hm Hk HQ. apply wp_exec. intros tr o Hex Henv.
  destruct (proj1 (wp_exec _ _) Hm tr o Hex Henv) as (s' & a & -> & _).
  exists s', a. split; [done|]. apply HQ, (proj1 (wp_exec _ _) Hk tr _ Hex).
Qed.

Lemma progresses_bind {A B} (m : M E S X A) (f : A → M E S X B) s Q1 Q2 :
  progresses m s Q1 → (∀ s' a, Q1 s' a → progresses (f a) s' Q2) →
  progresses (bind m f) s Q2.
Proof.
  intros Hm Hf. apply wpM_bind. eapply wpM_mono; [|exact Hm].
  intros tr [[s1 x|s1 a]|] Htr; cbn beta iota in *;
    [intros Henv; by destruct (Htr Henv) as (?&?&?&?)| |
     intros Henv; by destruct (Htr Henv) as (?&?&?&?)].
  apply wp_exec. intros tr' o Hex [H1 H2]%Forall_app.
  destruct (Htr H1) as (s' & b & [= <- <-] & HQ).
  exact (proj1 (wp_exec _ _) (Hf _ _ HQ) tr' o Hex H2).
Qed.

Lemma progresses_get {B} (f : S → M E S X B) s Q :
  progresses (f s) s Q → progresses (bind get f) s Q.
Proof. done. Qed.

Lemma progresses_bind_call {T B} (e : E T) (f : T → M E S X B) s Q :
  (∀ r, good (Ev e r) → progresses (f r) s Q) → progresses (bind (call e) f) s Q.
Proof.
  intros Hf r. apply wp_exec. intros tr o Hex [Hr Henv]%Forall_cons.
  exact (proj1 (wp_exec _ _) (Hf r Hr) tr o Hex Henv).
Qed.

Lemma progresses_bind_modify {B} g (f : unit → M E S X B) s Q :
  progresses (f tt) (g s) Q → progresses (bind (modify g) f) s Q.
Proof. done. Qed.

Lemma progresses_bind_ret {A B} (a : A) (f : A → M E S X B) s Q :
  progresses (f a) s Q → progresses (bind (ret a) f) s Q.
Proof. done. Qed.

Lemma progresses_ret {A} (a : A) s (Q : S → A → Prop) : Q s a → progresses (ret a) s Q.
Proof. intros HQ _. by exists s, a. Qed.

Lemma progresses_modify f s (Q : S → unit → Prop) : Q (f s) tt → progresses (modify f) s Q.
Proof. intros HQ _. by exists (f s), tt. Qed.

Lemma progresses_call {T} (e : E T) s (Q : S → T → Prop) :
  (∀ r, good (Ev e r) → Q s r) → progresses (call e) s Q.
Proof. intros HQ r [Hr _]%Forall_cons. exists s, r. auto. Qed.

Lemma progresses_assoc {A B C} (m : M E S X A) (f : A → M E S X B) (g : B → M E S X C) s Q :
  progresses (bind m (λ a, bind (f a) g)) s Q → progresses (bind (bind m f) g) s Q.
Proof.
  unfold progresses. rewrite !wpM_bind. apply wpM_mono. intros tr [[s1 x|s1 a]|]; [done| |done].
  rewrite wpM_bind. apply wpM_mono. intros tr' [[s2 x|s2 b]|]; [done| |done].
  apply wpM_mono. intros tr'' o. by rewrite app_assoc.
Qed.

Lemma progresses_deref {A B} (p : option A) a (f : A → M E S X B) s Q :
  p = Some a → progresses (f a) s Q → progresses (bind (deref p) f) s Q.
Proof. by intros ->. Qed.

Lemma progresses_foldM {A L} (body : L → A → M E S X L) (I : S → L → Prop) acc l s :
  I s acc → (∀ s acc x, x ∈ l → I s acc → progresses (body acc x) s I) →
  progresses (foldM body acc l) s I.
Proof.
  revert acc s. induction l as [|x l IH]; intros acc s HI Hbody; [by apply progresses_ret|].
  cbn. eapply progresses_bind; [apply Hbody; [left|done]|].
  intros s' acc' HI'. apply IH; [done|]. intros. apply Hbody; [by right|done].
Qed.

Lemma progresses_forM {A} (body : A → M E S X unit) (I : S → Prop) l s :
  I s → (∀ s x, x ∈ l → I s → progresses (body x) s (λ s' _, I s')) →
  progresses (forM l body) s (λ s' _, I s').
Proof. intros HI Hbody. by apply (progresses_foldM _ (λ s _, I s)); auto. Qed.

End progresses.
#[global] Arguments progresses {E S X} good {A} m s Q : simpl never.

Lemma progresses_bind_fn {E S X Y B} good (m : M E S X X) (f : X → M E S Y B) s Q1 Q2 :
  progresses good m s Q1 → (∀ s' a, Q1 s' a → progresses good (f a) s' Q2) →
  progresses good (bind (fn m) f) s Q2.
Proof.
  intros Hm. apply progresses_bind. apply wpM_fn. eapply wpM_mono; [|exact Hm].
  intros tr [[s1 x|s1 x]|] Htr Henv; destruct (Htr Henv) as (s' & a & Heq & HQ);
    simplify_eq. by exists s', a.
Qed.

Lemma progresses_fn {E S X Y} good (m : M E S X X) s (Q : S → X → Prop) :
  progresses good m s Q → progresses good (fn (Y := Y) m) s Q.
Proof.
  intros Hm. apply wpM_fn. eapply wpM_mono; [|exact Hm].
  intros tr [[s1 x|s1 x]|] Htr Henv; destruct (Htr Henv) as (s' & a & Heq & HQ);
    simplify_eq. by exists s', a.
Qed.

(** A function that succeeds, by an early [return] or at its end. *)
Section returns.
Context {E : Type → Type} {S X : Type} (good : event E → Prop).

Definition returns (m : M E S X X) (s : S) (Q : S → X → Prop) : Prop :=
  wpM m s (λ tr o, Forall good tr →
    ∃ s' x, (o = Done (Exit s' x) ∨ o = Done (Cont s' x)) ∧ Q s' x).

Lemma returns_bind {A} (m : M E S X A) (f : A → M E S X X) s Q1 Q2 :
  progresses good m s Q1 → (∀ s' a, Q1 s' a → returns (f a) s' Q2) → returns (bind m f) s Q2.
Proof.
  intros Hm Hf. apply wpM_bind. eapply wpM_mono; [|exact Hm].
  intros tr [[s1 x|s1 a]|] Htr; cbn beta iota in *;
    [intros Henv; by destruct (Htr Henv) as (?&?&?&?)| |
     intros Henv; by destruct (Htr Henv) as (?&?&?&?)].
  apply wp_exec. intros tr' o Hex [H1 H2]%Forall_app.
  destruct (Htr H1) as (s' & b & [= <- <-] & HQ).
  exact (proj1 (wp_exec _ _) (Hf _ _ HQ) tr' o Hex H2).
Qed.

Lemma returns_bind_call {T} (e : E T) (f : T → M E S X X) s Q :
  (∀ r, good (Ev e r) → returns (f r) s Q) → returns (bind (call e) f) s Q.
Proof.
  intros Hf r. apply wp_exec. intros tr o Hex [Hr Henv]%Forall_cons.
  exact (proj1 (wp_exec _ _) (Hf r Hr) tr o Hex Henv).
Qed.

Lemma returns_bind_modify g (f : unit → M E S X X) s Q :
  returns (f tt) (g s) Q → returns (bind (modify g) f) s Q.
Proof. done. Qed.

Lemma returns_deref {A} (p : option A) a (f : A → M E S X X) s Q :
  p = Some a → returns (f a) s Q → returns (bind (deref p) f) s Q.
Proof. by intros ->. Qed.

Lemma returns_assoc {A B} (m : M E S X A) (f : A → M E S X B) (g : B → M E S X X) s Q :
  returns (bind m (λ a, bind (f a) g)) s Q → returns (bind (bind m f) g) s Q.
Proof.
  unfold returns. rewrite !wpM_bind. apply wpM_mono. intros tr [[s1 x|s1 a]|]; [done| |done].
  rewrite wpM_bind. apply wpM_mono. intros tr' [[s2 x|s2 b]|]; [done| |done].
  apply wpM_mono. intros tr'' o. by rewrite app_assoc.
Qed.

Lemma returns_get (f : S → M E S X X) s Q : returns (f s) s Q → returns (bind get f) s Q.
Proof. done. Qed.

Lemma returns_return x s (Q : S → X → Prop) : Q s x → returns (return_ x) s Q.
Proof. intros HQ _. exists s, x. auto. Qed.

Lemma returns_ret x s (Q : S → X → Prop) : Q s x → returns (ret x) s Q.
Proof. intros HQ _. exists s, x. auto. Qed.

(** An early [return]. *)
Definition exits {A} (m : M E S X A) (s : S) (Q : S → X → Prop) : Prop :=
  wpM m s (λ tr o, Forall good tr → ∃ s' x, o = Done (Exit s' x) ∧ Q s' x).

Lemma exits_return {A} x s (Q : S → X → Prop) : Q s x → exits (A := A) (return_ x) s Q.
Proof. intros HQ _. by exists s, x. Qed.

Lemma exits_first {A B} (m : M E S X A) (f : A → M E S X B) s Q :
  exits m s Q → exits (bind m f) s Q.
Proof.
  intros Hm. apply wpM_bind. eapply wpM_mono; [|exact Hm].
  intros tr [[s1 x|s1 a]|] Htr; cbn beta iota in *; [| |].
  - intros Henv. destruct (Htr Henv) as (s' & y & [= <- <-] & HQ). by exists s1, x.
  - apply wp_exec. intros tr' o Hex [H1 _]%Forall_app. by destruct (Htr H1) as (?&?&?&?).
  - intros Henv. by destruct (Htr Henv) as (?&?&?&?).
Qed.

Lemma exits_bind {A B} (m : M E S X A) (f : A → M E S X B) s Q1 Q2 :
  progresses good m s Q1 → (∀ s' a, Q1 s' a → exits (f a) s' Q2) → exits (bind m f) s Q2.
Proof.
  intros Hm Hf. apply wpM_bind. eapply wpM_mono; [|exact Hm].
  intros tr [[s1 x|s1 a]|] Htr; cbn beta iota in *;
    [intros Henv; by destruct (Htr Henv) as (?&?&?&?)| |
     intros Henv; by destruct (Htr Henv) as (?&?&?&?)].
  apply wp_exec. intros tr' o Hex [H1 H2]%Forall_app.
  destruct (Htr H1) as (s' & b & [= <- <-] & HQ).
  exact (proj1 (wp_exec _ _) (Hf _ _ HQ) tr' o Hex H2).
Qed.

Lemma exits_returns (m : M E S X X) s Q : exits m s Q → returns m s Q.
Proof.
  apply wpM_mono. intros tr o Htr Henv. destruct (Htr Henv) as (s' & x & -> & HQ).
  exists s', x. auto.
Qed.
End returns.
#[global] Arguments returns {E S X} good m s Q : simpl never.
#[global] Arguments exits {E S X} good {A} m s Q : simpl never.

Lemma progresses_returns {E S X Y B} good (m : M E S X X) (f : X → M E S Y B) s Q1 Q2 :
  returns good m s Q1 → (∀ s' a, Q1 s' a → progresses good (f a) s' Q2) →
  progresses good (bind (fn m) f) s Q2.
Proof.
  intros Hm. apply progresses_bind. apply wpM_fn. eapply wpM_mono; [|exact Hm].
  intros tr [[s1 x|s1 x]|] Htr Henv; destruct (Htr Henv) as (s' & a & [Heq|Heq] & HQ);
    simplify_eq; by exists s', a.
Qed.

Lemma returns_bind_fn {E S X Y} good (m : M E S X X) (f : X → M E S Y Y) s Q1 Q2 :
  returns good m s Q1 → (∀ s' a, Q1 s' a → returns good (f a) s' Q2) →
  returns good (bind (fn m) f) s Q2.
Proof.
  intros Hm. apply returns_bind. apply wpM_fn. eapply wpM_mono; [|exact Hm].
  intros tr [[s1 x|s1 x]|] Htr Henv; destruct (Htr Henv) as (s' & a & [Heq|Heq] & HQ);
    simplify_eq; by exists s', a.
Qed.

(** To go on to the end is to return. *)
Lemma progresses_are_returns {E S X} good (m : M E S X X) s Q :
  progresses good m s Q → returns good m s Q.
Proof.
  apply wpM_mono. intros tr o Htr Henv. destruct (Htr Henv) as (s' & a & -> & HQ).
  exists s', a. auto.
Qed.

(** One statement of a body: its first, when it is an operation of the language. *)
Ltac advance_step :=
  lazymatch goal with
  | |- progresses _ (bind (bind _ _) _) _ _ => apply progresses_assoc
  | |- progresses _ (bind get _) _ _ => apply progresses_get
  | |- progresses _ (bind (call _) _) _ _ =>
      let r := fresh "r" in let Hr := fresh "Hr" in
      apply progresses_bind_call; intros r Hr
  | |- progresses _ (bind (ret _) _) _ _ => apply progresses_bind_ret
  | |- progresses _ (bind (modify _) _) _ _ => apply progresses_bind_modify
  | |- progresses _ (ret _) _ _ => apply progresses_ret
  | |- progresses _ (modify _) _ _ => apply progresses_modify
  | |- progresses _ (let _ := _ in _) _ _ => cbv zeta
  | |- progresses _ (call _) _ _ => apply progresses_call; intros ? ?
  end; cbv beta iota.
Ltac advance := cbv beta iota; repeat advance_step.

(** The first statement is known: its lemma, and what holds after it. *)
Tactic Notation "advance_with" uconstr(H) "as" simple_intropattern(s)
    simple_intropattern(a) simple_intropattern(Hs) :=
  first [eapply progresses_bind_fn | eapply progresses_bind]; [eapply H|intros s a Hs]; cbv beta iota.

(** ** Conditions reported true *)
Section conds_done.
Context {CL : CondLib} {CLaws : CondLaws CL}.

(** The conditions of [cs] are among [All], and those of [D] that it has are true. *)
Definition conds_done (All D : list CondType) (cs : Conditions) : Prop :=
  ∀ t s, t ≠ ReadyCondition → status_of t cs = Some s →
    t ∈ All ∧ (t ∈ D → s = ConditionTrue).

Lemma done_MarkTrue All D t m cs :
  t ∈ All → conds_done All D cs → conds_done All (t :: D) (Conditions_MarkTrue t m cs).
Proof.
  intros Ht Hcs t' s Hr. rewrite status_MarkTrue. case_decide as Heq.
  - intros [= <-]. by subst.
  - intros Hs. destruct (Hcs t' s Hr Hs) as [HA HD]. split; [done|].
    by intros [?|?]%elem_of_cons; [|apply HD].
Qed.

Lemma done_Remove All D t cs :
  conds_done All D cs → conds_done All (t :: D) (Conditions_Remove t cs).
Proof.
  intros Hcs t' s Hr. rewrite status_Remove. case_decide as Heq; [done|].
  intros Hs. destruct (Hcs t' s Hr Hs) as [HA HD]. split; [done|].
  by intros [?|?]%elem_of_cons; [|apply HD].
Qed.

Lemma done_shared All D c cs :
  cond_Status c = ConditionTrue → conds_done All D cs →
  conds_done All (cond_Type c :: D) (set_shared c cs).
Proof.
  intros Hc Hcs t s Hr. unfold set_shared.
  destruct (Conditions_Get (cond_Type c) cs) as [c'|] eqn:Hg.
  - rewrite status_Set. case_decide as Heq.
    + intros [= <-]. split; [|done]. apply (Hcs t (cond_Status c')); [done|].
      unfold status_of. by rewrite Heq, Hg.
    + intros Hs. destruct (Hcs t s Hr Hs) as [HA HD]. split; [done|].
      by intros [?|?]%elem_of_cons; [|apply HD].
  - intros Hs. destruct (Hcs t s Hr Hs) as [HA HD]. split; [done|].
    intros [->|?]%elem_of_cons; [|by apply HD]. unfold status_of in Hs. by rewrite Hg in Hs.
Qed.

Lemma done_Forall_shared {I} (All D : list CondType) (conds : I → Conditions)
    (set : Condition → I → I) cs i :
  (∀ c i, conds (set c i) = set_shared c (conds i)) →
  Forall (λ c, cond_Status c = ConditionTrue) cs → conds_done All D (conds i) →
  conds_done All ((cond_Type <$> reverse cs) ++ D) (conds (foldl (λ i c, set c i) i cs)).
Proof.
  intros Hset Hcs. revert i D. induction Hcs as [|c cs Hc _ IH]; intros i D Hi; [done|].
  cbn [foldl]. rewrite reverse_cons, fmap_app, <- app_assoc. cbn. apply IH. rewrite Hset. by apply done_shared.
Qed.

Lemma done_weaken All D D' cs : D' ⊆ D → conds_done All D cs → conds_done All D' cs.
Proof. intros HD Hcs t s Hr Hs. destruct (Hcs t s Hr Hs) as [? Ht]. split; auto. Qed.

Lemma done_Init All l cs :
  (∀ c, c ∈ l → cond_Type c ∈ All) →
  (∀ t, t ≠ ReadyCondition → is_Some (status_of t cs) → t ∈ All) →
  conds_done All [] (Conditions_Init (CreateList l) cs).
Proof.
  intros Hl Hcs t s Hr Hs. split; [|by intros ?%elem_of_nil].
  unfold status_of in Hs. apply fmap_Some in Hs as (c & Hc & _).
  apply Get_Init_inv in Hc as [?|[Hc|Hc]]; [done| |].
  - apply Get_CreateList_inv in Hc as [Hin <-]. auto.
  - apply Hcs; [done|]. unfold status_of. by rewrite Hc.
Qed.

(** Nothing but true conditions. *)
Lemma done_all All cs :
  conds_done All All cs → ∀ t s, t ≠ ReadyCondition → status_of t cs = Some s → s = ConditionTrue.
Proof. intros Hcs t s Hr Hs. destruct (Hcs t s Hr Hs) as [HA HD]. auto. Qed.
End conds_done.

(** ** Requests that succeed *)
Section shared_progress.
Context {AT : ApiTypes} {CL : CondLib} {L : Lib}.

(** The answer is the one of a request that succeeded.  A search may find nothing;
    what the operator does not look at does not matter. *)
Definition succeeded (ev : event Ext) : Prop :=
  match ev with Ev e r =>
    match e in Ext R return R → Prop with
    | NewHelper _ | PatchInstance _ | CreateNAD _ | UpdateNAD _ | UpdateService _
    | CreateOrPatchDNSData _ _ | DeletePDBWithName _ _ | DeleteServicesWithLabel _ _ =>
        λ r, r = None
    | Delete _ _ _ => λ r, ∀ e, r = Some e → IsNotFound e = true
    | ListOVNDBClusters _ _ => λ r, ∃ l, r = Okay l
    | ListOVNControllers _ => λ r, ∃ l, r = Okay l
    | ListPods _ _ | ClientsetListPods _ _ => λ r, ∃ l, r = Okay l
    | GetServicesListWithLabel _ _ => λ r, ∃ l, r = Okay l
    | GetNADWithName _ _ => λ r, ∃ n, r = Okay n
    | GetNAD _ _ => λ r, ∀ e, r = Fail e → IsNotFound e = true
    | GetServiceWithName _ _ => λ r, ∀ e, r.2 = Some e → IsNotFound e = true
    | ReconcileRbac _ _ => λ r,
        r.2 = (emptyResult, None) ∧ Forall (λ c, cond_Status c = ConditionTrue) r.1 ∧
        rbacTypes ⊆ cond_Type <$> r.1
    | ValidateCACertSecret _ | ValidateCertSecret _ _ => λ r, ∃ h, r = Okay h
    | EnsureConfigMaps _ _ _ => λ r, r.2 = None
    | EnsureServiceTopology _ _ _ _ => λ r, ∃ t, r = Okay t
    | StatefulSetCreateOrPatch _ _ => λ r, r.1 = (emptyResult, None)
    | DaemonSetCreateOrPatch _ _ => λ r, r.1 = (emptyResult, None)
    | PDBCreateOrPatch _ _ => λ r, r = (emptyResult, None)
    | ServiceCreateOrPatch _ _ => λ r, r.1 = (emptyResult, None)
    | VerifyNetworkStatusFromAnnotation _ _ _ => λ r, ∃ st, r = Okay (true, st)
    | DoJob _ _ _ _ _ => λ r, r.1 = (emptyResult, None)
    | _ => λ _, True
    end r
  end.

(** An assumption on the environment under which every request succeeds. *)
Class Succeeds (good : event Ext → Prop) : Prop :=
  good_succeeded ev : good ev → succeeded ev.

(** What is fixed during a reconciliation: it survives the changes of the status. *)
Class CondFrame {I} {CR : CustomResource I} (At : I → Prop) : Prop :=
  At_Cond c i : At i → At (cr_set_Conditions c i).
Class StatusFrame {I} {CR : CustomResource I} (At : I → Prop) : Prop := {
  #[global] frame_cond :: CondFrame At;
  At_Topo t i : At i → At (cr_SetLastAppliedTopology t i);
}.
(** The hash stored under [key] may change. *)
Class HashFrame {I} {CR : CustomResource I} (At : I → Prop) (key : string) : Prop :=
  At_Hash h i : At i → At (cr_set_Hash (Some (<[key := h]> (default ∅ (cr_Hash i)))) i).

Context {CLaws : CondLaws CL}.
Context {I : Type} {CR : CustomResource I} {OI : IsObject I} {CRL : CustomResourceLaws I}.
Context {good : event Ext → Prop} {Hgood : Succeeds good}.

(** The resource with the conditions of [D] reported true. *)
Definition here (At : I → Prop) (All D : list CondType) (i : I) : Prop :=
  At i ∧ conds_done All D (cr_Conditions i).

Context {At : I → Prop} {CF : CondFrame At} {All : list CondType}.
Abbreviation here_now := (here At All).

Lemma here_weaken D D' i : D' ⊆ D → here_now D i → here_now D' i.
Proof. intros HD [Hat Hd]. split; [done|]. by eapply done_weaken. Qed.

Lemma here_MarkTrue D t m i :
  t ∈ All → here_now D i → here_now (t :: D) (updConds (Conditions_MarkTrue t m) i).
Proof.
  intros Ht [Hat Hd]. split; [by apply At_Cond|]. unfold updConds. rewrite Cond_Cond.
  by apply done_MarkTrue.
Qed.

Lemma markTrue_progress {X} D t m i :
  t ∈ All → here_now D i →
  progresses good (markTrue (X := X) t m) i (λ i' _, here_now (t :: D) i').
Proof. intros Ht Hi. by apply progresses_modify, here_MarkTrue. Qed.

Lemma returnUnlessDone_empty : returnUnlessDone (I := I) (emptyResult, None) = ret tt.
Proof. unfold returnUnlessDone. by rewrite bool_decide_eq_true_2. Qed.

Lemma reconcileRbac_progress D set rules i :
  (∀ c i, set c i = cr_set_Conditions (set_shared c (cr_Conditions i)) i) → here_now D i →
  progresses good (reconcileRbac set rules) i (λ i' _, here_now (rbacTypes ++ D) i').
Proof.
  intros Hset [Hat Hd]. unfold reconcileRbac. apply progresses_get.
  apply progresses_bind_call. intros [cs re] Hr. apply good_succeeded in Hr. cbn in Hr. destruct Hr as (-> & Hcs & Hsub).
  apply progresses_bind_modify, progresses_ret. split.
  - clear -Hat CF Hset. revert i Hat. induction cs as [|c cs IH]; intros i Hi; [done|].
    cbn. apply IH. rewrite Hset. by apply At_Cond.
  - eapply done_weaken; [|apply (done_Forall_shared All D cr_Conditions set cs i)]; [|..|done|done].
    + intros t. rewrite !elem_of_app. intros [Ht|Ht]; [left|by right].
      apply Hsub in Ht. rewrite list_elem_of_fmap in Ht |- *. destruct Ht as (c & -> & Hc).
      exists c. split; [done|]. by apply elem_of_reverse.
    + intros c j. by rewrite Hset, Cond_Cond.
Qed.

(** A request whose answer can only be a success. *)
Lemma validateCaBundle_progress vars i :
  progresses good (validateCaBundle vars) i (λ i' _, i' = i).
Proof.
  unfold validateCaBundle. apply progresses_get. destruct (nonempty _); [|by apply progresses_ret].
  apply progresses_bind_call. intros r Hr. apply good_succeeded in Hr as [h ->]. by apply progresses_ret.
Qed.

Lemma validateCert_progress svc key vars i :
  progresses good (validateCert svc key vars) i (λ i' _, i' = i).
Proof.
  unfold validateCert. apply progresses_get. destruct (tls_Enabled svc); [|by apply progresses_ret].
  apply progresses_bind_call. intros r Hr. apply good_succeeded in Hr as [h ->]. by apply progresses_ret.
Qed.

Lemma validateServiceCert_progress vars i :
  progresses good (validateServiceCert vars) i (λ i' _, i' = i).
Proof. apply progresses_get, validateCert_progress. Qed.

Lemma validateMetricsCert_progress vars i :
  progresses good (validateMetricsCert vars) i (λ i' _, i' = i).
Proof.
  apply progresses_get. destruct (metrics_on _ _); [apply validateCert_progress|by apply progresses_ret].
Qed.

Lemma validateTLS_progress vars i :
  progresses good (validateTLS vars) i (λ i' _, i' = i).
Proof.
  eapply progresses_bind; [apply validateCaBundle_progress|intros ? ? ->].
  eapply progresses_bind; [apply validateServiceCert_progress|intros ? ? ->].
  apply validateMetricsCert_progress.
Qed.

(** The hash is stored unless it is there, and the answer says which. *)
Lemma storeHash_flag {X} {HL : HashLaws L} vars key h i :
  ObjectHash (MergeEnvs [] vars) = Okay h →
  progresses good (storeHash (X := X) vars key) i (λ i' r, ∃ c, r = Okay (h, c) ∧
    c = negb (bool_decide (default ∅ (cr_Hash i) !! key = Some h)) ∧
    i' = if c then cr_set_Hash (Some (<[key := h]> (default ∅ (cr_Hash i)))) i else i).
Proof.
  intros Hh. unfold storeHash. apply progresses_get. rewrite Hh.
  destruct (SetHash_spec (default ∅ (cr_Hash i)) key h) as [Hc Hm].
  destruct (SetHash _ _ _) as [m c]. cbn in Hc, Hm. destruct c.
  - rewrite Hm by done. apply progresses_bind_modify, progresses_ret. by exists true.
  - apply progresses_bind_ret, progresses_ret. by exists false.
Qed.

(** Every list of variables has a hash. *)
Lemma storeHash_progress {X} {HL : HashLaws L} D vars key i :
  (∃ h, ObjectHash (MergeEnvs [] vars) = Okay h) → here_now D i → HashFrame At key →
  progresses good (storeHash (X := X) vars key) i (λ i' r, here_now D i' ∧ ∃ x, r = Okay x).
Proof.
  intros [h Hh] [Hat Hd] HF. eapply progresses_mono; [|by apply storeHash_flag].
  intros i' r (c & -> & _ & ->). split; [|by eexists]. destruct c; [|done].
  split; [by apply At_Hash|by rewrite Cond_Hash].
Qed.

Lemma ensureTopology_progress {SF : StatusFrame At} finalizer sel D i :
  (is_Some (cs_TopologyRef (cr_Spec i)) → TopologyReadyCondition ∈ All) → here_now D i →
  progresses good (ensureTopology finalizer sel) i (λ i' r, (∃ t, r = Okay t) ∧
    here_now (match cs_TopologyRef (cr_Spec i) with
          | Some _ => TopologyReadyCondition :: D | None => D end) i').
Proof.
  intros HAll [Hat Hd]. unfold ensureTopology. apply progresses_get, progresses_bind_call.
  intros r Hr. apply good_succeeded in Hr as [t ->]. apply progresses_bind_modify.
  assert (here_now D (cr_SetLastAppliedTopology (cs_TopologyRef (cr_Spec i)) i)) as Hh.
  { split; [by apply At_Topo|]. by rewrite Cond_Topo. }
  destruct (cs_TopologyRef (cr_Spec i)) as [tr|].
  - apply progresses_bind_modify, progresses_ret. split; [by eexists|].
    apply here_MarkTrue; [by apply HAll|done].
  - apply progresses_bind_ret, progresses_ret. split; [by eexists|done].
Qed.

(** ** From reconcileNormal to a Ready resource *)

Lemma ready_all saved i :
  here_now All i → Conditions_IsTrue ReadyCondition (cr_Conditions (patched saved i)) = true.
Proof. intros [_ Hd]. rewrite IsTrue_status, ready_patched. exact (done_all _ _ Hd). Qed.

(** The patch changes no condition but Ready. *)
Lemma here_patched saved D i : here_now D i → here_now D (patched saved i).
Proof.
  intros [Hat Hd]. split; [by apply At_Cond|]. intros t s Ht. rewrite status_patched by done.
  by apply Hd.
Qed.

(** A managed resource runs [reconcileNormal], which returns. *)
Lemma body_returns {FL : FinalizerLaws L} (Q : I → Prop) prepare isNew (normal : Go I RE RE)
    i tr ob :
  (∀ i, cr_Meta (prepare i) = cr_Meta i) → managed i → isNew = false →
  returns good normal (prepare i) (λ i' r, Q i' ∧ r = (emptyResult, None)) →
  exec (reconcileBody isNew prepare normal i) tr ob → Forall good tr →
  ∃ i', ob = Done (Cont i' (emptyResult, None)) ∧ Q i'.
Proof.
  intros Hprep [Hz Hf] -> Hn Hb Henv.
  assert (DeletionTimestamp_IsZero i = true) as Hzero
    by (unfold DeletionTimestamp_IsZero; by rewrite Hz).
  apply reconcileBody_runs in Hb; [|done].
  inversion Hb as [? Hno|Hnew|trn on ? ? ? Hrun|r ? Hno]; subst; [done|done| |congruence].
  destruct (proj1 (wp_exec _ _) Hn _ _ Hrun Henv) as (i' & r & [-> | ->] & Hi' & ->); by exists i'.
Qed.

(** The reconciliation of a resource whose body ends without an error, in [Q]. *)
Lemma reconcile_ends {FL : FinalizerLaws L} (Q : I → Prop) fetch init body i tr o :
  (∀ r r', Ev fetch r = Ev fetch r' → r = r') →
  (∀ tr ob, exec (body i (init i)) tr ob → Forall good tr →
     ∃ i', ended i' (emptyResult, None) ob ∧ Q i') →
  exec (reconcile fetch init body) (Ev fetch (Okay i) :: tr) o →
  Forall good tr →
  o = Done (emptyResult, None) ∧
  ∃ ib, last tr = Some (Ev (PatchInstance (to_object
          (patched (initConditionsIfNil (cr_Conditions i)) ib))) None) ∧ Q ib.
Proof.
  intros Hread Hbody Hex Henv. apply reconcile_runs in Hex.
  remember (Ev fetch (Okay i) :: tr) as tr0 eqn:Htr.
  destruct Hex as [err|j err|j tr' Hb|j tr' ib x ob perr Hb He];
    apply (inj2 cons) in Htr as [Hi <-]; apply Hread in Hi; simplify_eq.
  - apply Forall_cons in Henv as [Hh%good_succeeded _]. done.
  - apply Forall_cons in Henv as [_ Henv].
    destruct (Hbody _ _ Hb Henv) as (i' & [?|?] & _); done.
  - apply Forall_cons in Henv as [_ Henv]. apply Forall_app in Henv as [Henv Hp].
    apply Forall_cons in Hp as [Hp%good_succeeded _]. cbn in Hp. subst perr.
    destruct (Hbody _ _ Hb Henv) as (i' & He' & Hi').
    assert (ib = i' ∧ x = (emptyResult, None)) as [-> ->]
      by (destruct He as [-> | ->], He' as [[= -> ->]|[= -> ->]]; done).
    split; [done|]. exists i'. split; [|done]. by rewrite last_cons, last_snoc.
Qed.

Lemma reconcile_returns {FL : FinalizerLaws L} (Q : I → Prop) fetch init prepare isNew
    (normal : Go I RE RE) i tr o :
  (∀ i, cr_Meta (init i) = cr_Meta i) → (∀ i, cr_Meta (prepare i) = cr_Meta i) →
  (∀ r r', Ev fetch r = Ev fetch r' → r = r') →
  managed i → isNew i = false →
  returns good normal (prepare (init i)) (λ i' r, Q i' ∧ r = (emptyResult, None)) →
  exec (reconcile fetch init (λ i, reconcileBody (isNew i) prepare normal))
    (Ev fetch (Okay i) :: tr) o →
  Forall good tr →
  o = Done (emptyResult, None) ∧
  ∃ ib, last tr = Some (Ev (PatchInstance (to_object
          (patched (initConditionsIfNil (cr_Conditions i)) ib))) None) ∧ Q ib.
Proof.
  intros Hinit Hprep Hread Hm Hnew Hn. apply reconcile_ends; [done|].
  assert (managed (init i)) as Hm' by (unfold managed, has_finalizer in *; by rewrite Hinit).
  intros tr' ob Hb Henv. destruct (body_returns Q _ _ _ _ _ _ Hprep Hm' Hnew Hn Hb Henv)
    as (i' & -> & Hi'). exists i'. split; [by right|done].
Qed.

(** When it reports every condition, the resource is patched Ready. *)
Lemma reconcile_progress {FL : FinalizerLaws L} fetch init prepare isNew (normal : Go I RE RE)
    i tr o :
  (∀ i, cr_Meta (init i) = cr_Meta i) → (∀ i, cr_Meta (prepare i) = cr_Meta i) →
  (∀ r r', Ev fetch r = Ev fetch r' → r = r') →
  managed i → isNew i = false →
  progresses good normal (prepare (init i)) (λ i' r, here_now All i' ∧ r = (emptyResult, None)) →
  exec (reconcile fetch init (λ i, reconcileBody (isNew i) prepare normal))
    (Ev fetch (Okay i) :: tr) o →
  Forall good tr →
  o = Done (emptyResult, None) ∧
  ∃ i', last tr = Some (Ev (PatchInstance (to_object i')) None) ∧
    here_now All i' ∧ Conditions_IsTrue ReadyCondition (cr_Conditions i') = true.
Proof.
  intros Hinit Hprep Hread Hm Hnew Hn Hex Henv.
  destruct (reconcile_returns (here_now All) fetch init prepare isNew normal i tr o)
    as (-> & ib & Hlast & Hib); [done..|by apply progresses_are_returns|done|done|].
  split; [done|]. eexists. split; [exact Hlast|].
  by split; [apply here_patched|apply ready_all].
Qed.
End shared_progress.
