(* ===== verification/DBProgress.v ===== *)
(** * An OVNDBCluster becomes Ready

    When every request of a reconciliation succeeds, the StatefulSet is ready and the
    services of the pods are there, a cluster that is not exposed outside the control
    plane is patched Ready and the reconciliation ends without an error. *)
From S2P Require Import Prelude Prog Triples K8s Lib Api ApiMethods Calls Shared.
From S2P Require Import SharedProofs Client DBManifests DBController DBProofs Progress.
#[local] Open Scope go_scope.

Section db_progress.
Context {AT : ApiTypes} {CL : CondLib} {L : Lib} {CLaws : CondLaws CL} {TL : TlsLaws L}.
Context {HL : HashLaws L}.

(** The StatefulSet is ready, no service is a load balancer, and the services listed
    have ports, with one of a pod among them. *)
Definition db_favourable (ev : event Ext) : Prop :=
  succeeded ev ∧
  match ev with Ev e r =>
    match e in Ext R return R → Prop with
    | StatefulSetCreateOrPatch _ _ => λ r, statefulset_IsReady r.2 = true
    | ServiceCreateOrPatch _ _ => λ r, GetServiceType r.2 ≠ ServiceTypeLoadBalancer
    | GetServicesListWithLabel _ _ => λ r, ∀ items, r = Okay items →
        Exists (λ s, is_cluster_service s = true) items ∧
        Forall (λ s, ss_Ports (svc_Spec s) ≠ []) items
    | _ => λ _, True
    end r
  end.

(** The conditions of an OVNDBCluster. *)
Definition db_types (i : OVNDBCluster) : list CondType :=
  [InputReadyCondition; ExposeServiceReadyCondition; ServiceConfigReadyCondition;
   NetworkAttachmentsReadyCondition; DeploymentReadyCondition; ServiceAccountReadyCondition;
   RoleReadyCondition; RoleBindingReadyCondition; TLSInputReadyCondition; PDBReadyCondition;
   ExternalConfigReadyCondition] ++
  match db_TopologyRef (db_Spec i) with Some _ => [TopologyReadyCondition] | None => [] end.

(** A cluster of the control plane alone. *)
Definition unexposed (i : OVNDBCluster) : Prop :=
  db_NetworkAttachment (db_Spec i) = "" ∧ db_Override_Service (db_Spec i) = None.

Context (i : OVNDBCluster) (replicas : Z).
Context (Hreplicas : db_Replicas (db_Spec i) = Some replicas) (Hunexposed : unexposed i).
Context (Hstorage : ∃ q, ParseQuantity (db_StorageRequest (db_Spec i)) = Okay q).
Context (Hhash : ∀ vars, ∃ h, ObjectHash (MergeEnvs [] vars) = Okay h).
Context (Hservice : ∀ svc, ∃ h, NewService svc None = Okay h).
Context (Hnetworks : ∃ a, EnsureNetworksAnnotation [] = Okay a).

Abbreviation good := db_favourable.

#[local] Instance db_favourable_succeeds : Succeeds good.
Proof. by intros ev [? _]. Qed.

(** The resource [i] with another status, in which the hash map is there. *)
Definition db_at (j : OVNDBCluster) : Prop :=
  (∃ st, j = mkOVNDBCluster (db_Kind i) (db_Meta i) (db_Spec i) st) ∧
  is_Some (dbs_Hash (db_Status j)).

#[local] Instance db_at_frame : StatusFrame db_at.
Proof. split; intros ? j [[st ->] Hh]; (split; [by eexists|done]). Qed.

#[local] Instance db_at_hash key : HashFrame db_at key.
Proof. intros ? j [[st ->] Hh]. split; by eexists. Qed.

Abbreviation db_here := (here (I := OVNDBCluster) db_at (db_types i)).

Lemma db_markTrue {X} D t m j :
  t ∈ db_types i → db_here D j →
  progresses good (markTrue (I := OVNDBCluster) (X := X) t m) j (λ j' _, db_here (t :: D) j').
Proof. apply markTrue_progress. Qed.

Lemma db_here_upd D f j :
  dbs_Conditions (f (db_Status j)) = dbs_Conditions (db_Status j) →
  dbs_Hash (f (db_Status j)) = dbs_Hash (db_Status j) →
  db_here D j → db_here D (db_upd_Status f j).
Proof.
  intros Hc Hh [[[st ->] Hs] Hd]. cbn in *. split; [|cbn; by rewrite Hc].
  split; [by eexists|]. cbn. by rewrite Hh.
Qed.

(** What the specification says, of the resource at hand. *)
Lemma here_spec D j : db_here D j → db_Spec j = db_Spec i ∧ db_Meta j = db_Meta i.
Proof. by intros [[[st ->] _] _]. Qed.

Lemma isSB_here D j : db_here D j → isSB j = isSB i.
Proof. intros Hj. unfold isSB. by destruct (here_spec _ _ Hj) as [-> _]. Qed.

Lemma dbNetworkInputs_progress D j :
  (isSB i = false → ExternalConfigReadyCondition ∈ D) → db_here D j →
  progresses good dbNetworkInputs j (λ j' nets,
    db_here (ExternalConfigReadyCondition :: D) j' ∧ nets.2 = []).
Proof.
  intros HD Hj. unfold dbNetworkInputs. advance. rewrite (isSB_here _ _ Hj).
  destruct (here_spec _ _ Hj) as [-> ->]. destruct Hunexposed as [-> ->].
  rewrite (bool_decide_eq_true_2 (None = None)) by done.
  change (nonempty "") with false. cbv beta iota.
  destruct (isSB i) eqn:Hsb; cbn [andb].
  - eapply (progresses_returns _ _ _ _ (λ j' r, j' = j ∧ r = None)).
    + unfold deleteExternalConfigMaps. apply returns_bind_call. intros r [Hr _]. cbn in Hr.
      destruct r as [e|]; [rewrite (Hr e eq_refl)|]; by apply returns_ret.
    + intros ? ? [-> ->].
      advance_with db_markTrue as j' ? Hj'; [cbn; set_solver|exact Hj|]. by advance.
  - advance. split; [|done]. eapply here_weaken; [|exact Hj]. specialize (HD eq_refl). set_solver.
Qed.

Lemma dbServiceAnnotations_progress j :
  progresses good (dbServiceAnnotations []) j (λ j' _, j' = j).
Proof.
  unfold dbServiceAnnotations. advance. destruct Hnetworks as [a ->]. by advance.
Qed.

Lemma dbTLSInputs_progress D j :
  db_here D j →
  progresses good dbTLSInputs j (λ j' _, db_here (TLSInputReadyCondition :: D) j').
Proof.
  intros Hj. unfold dbTLSInputs. advance_with validateTLS_progress as ? ? ->.
  advance_with db_markTrue as j' ? Hj'; [cbn; set_solver|exact Hj|]. by advance.
Qed.

Lemma dbServiceConfig_progress vars name D j :
  db_here D j →
  progresses good (dbServiceConfig vars name) j
    (λ j' _, db_here (ServiceConfigReadyCondition :: D) j').
Proof.
  intros Hj. unfold dbServiceConfig, dbGenerateServiceConfigMaps. advance.
  destruct r as [vars' err], Hr as [-> _].
  advance_with storeHash_progress as j1 ? [Hj1 [[h c] ->]]; [apply Hhash|exact Hj|apply _|].
  advance_with db_markTrue as j2 ? Hj2; [cbn; set_solver|exact Hj1|]. by advance.
Qed.

Lemma dbTopology_progress labels D j :
  db_here D j →
  progresses good (dbTopology labels) j (λ j' _, db_here
    (match db_TopologyRef (db_Spec i) with Some _ => TopologyReadyCondition :: D | None => D end) j').
Proof.
  intros Hj. unfold dbTopology. advance.
  assert (cs_TopologyRef (cr_Spec j) = db_TopologyRef (db_Spec i)) as Href
    by by destruct Hj as [[[st ->] _] _].
  advance_with ensureTopology_progress as j' a [[t ->] Hj']; [|exact Hj|].
  - rewrite Href. intros [t Ht]. unfold db_types. rewrite Ht. set_solver.
  - rewrite Href in Hj'. by advance.
Qed.

Lemma dbWorkload_progress h labels ann topology D j :
  db_here D j →
  progresses good (dbWorkload h labels ann topology) j
    (λ j' obs, db_here D j' ∧ statefulset_IsReady obs = true).
Proof.
  intros Hj. unfold dbWorkload. advance.
  assert (∃ sts, StatefulSet j h labels ann topology = GOk sts) as [sts ->].
  { unfold StatefulSet. destruct (here_spec _ _ Hj) as [-> ->], Hstorage as [q ->].
    destruct (tls_Enabled _) eqn:Htls; [|by eexists].
    destruct (Enabled_SecretName _ Htls) as [n ->]. by eexists. }
  unfold lift_go. advance. destruct r as [[res err] obs], Hr as [Heq Hobs]. cbn in Heq, Hobs.
  injection Heq as -> ->. rewrite bool_decide_eq_true_2 by done. by advance.
Qed.

Lemma dbPDB_progress name labels D j :
  db_here D j →
  progresses good (dbPDB name labels) j (λ j' _, db_here (PDBReadyCondition :: D) j').
Proof.
  intros Hj. unfold dbPDB. advance.
  eapply progresses_bind with (Q1 := λ j' _, db_here D j').
  - destruct (dbWantsPDB j); advance; destruct Hr as [Heq _]; cbn in Heq; subst r;
      rewrite ?bool_decide_eq_true_2 by done; by advance.
  - intros j' _ Hj'. by apply db_markTrue; [cbn; set_solver|].
Qed.

(** ** Services *)
Lemma deleteStaleService_progress name stale what j :
  progresses good (deleteStaleService name stale what) j (λ j' _, j' = j).
Proof.
  unfold deleteStaleService. advance. destruct r as [svc err], Hr as [Hr _]. cbn in Hr.
  eapply progresses_bind with (Q1 := λ j' _, j' = j).
  { destruct err as [e|]; [rewrite (Hr e eq_refl)|]; by advance. }
  intros ? _ ->. destruct svc as [s|]; [|by advance]. destruct (stale _); [|by advance].
  advance. destruct Hr0 as [Hd _]. cbn in Hd. destruct r as [e|]; [rewrite (Hd e eq_refl)|]; by advance.
Qed.

Lemma createService_progress h j :
  progresses good (createService h) j (λ j' h', j' = j ∧ GetServiceType h' ≠ ServiceTypeLoadBalancer).
Proof.
  unfold createService. advance. destruct r as [[res err] h'], Hr as [Heq Hlb]. cbn in Heq, Hlb.
  injection Heq as -> ->. rewrite bool_decide_eq_true_2 by done. by advance.
Qed.

Lemma NewService_progress svc j :
  progresses good (orReturn (NewService svc None)) j (λ j' _, j' = j).
Proof. destruct (Hservice svc) as [h ->]. by apply progresses_ret. Qed.

Lemma clusterService_progress name labels D j :
  db_here D j → progresses good (clusterService name labels) j (λ j' _, db_here D j').
Proof.
  intros Hj. unfold clusterService. advance.
  destruct (here_spec _ _ Hj) as [Hs _]. destruct Hunexposed as [_ Ho]. rewrite Hs, Ho. cbn [fmap option_fmap option_map].
  assert (db_set_Override_Service None j = j) as ->.
  { unfold db_set_Override_Service. destruct j as [k m sp st]. cbn in *. subst sp.
    rewrite <- Ho. by destruct (db_Spec i). }
  rewrite bool_decide_eq_false_2 by done.
  advance_with deleteStaleService_progress as ? ? ->. advance.
  eapply progresses_mono; [|apply NewService_progress]. by intros ? ? ->.
Qed.

Lemma podService_progress name pod j :
  progresses good (podService name pod) j (λ j' _, j' = j).
Proof.
  unfold podService. advance. advance_with NewService_progress as ? ? ->.
  advance_with createService_progress as ? ? [-> _].
  destruct (_ || _); [|by advance]. advance. destruct r as [[s|] [e|]]; try by advance.
  destruct (svc_Labels s !! "metrics"); [|by advance]. advance. destruct Hr0 as [Heq _]. cbn in Heq. subst r. by advance.
Qed.

Lemma deleteExtraServices_progress name labels j :
  db_Replicas (db_Spec j) = Some replicas →
  progresses good (deleteExtraServices name labels) j (λ j' _, j' = j).
Proof.
  intros Hr. unfold deleteExtraServices. advance. destruct r as [items|e]; [|by advance].
  eapply progresses_deref; [exact Hr|]. apply progresses_forM; [done|]. intros ? n _ ->. advance.
  destruct Hr1 as [Heq _]. cbn in Heq. subst. by advance.
Qed.

Lemma deleteDNS_progress name j :
  progresses good (deleteDNS name) j (λ j' _, j' = j).
Proof.
  unfold deleteDNS. advance. destruct Hr as [Hr _]. cbn in Hr.
  destruct r as [e|]; [rewrite (Hr e eq_refl)|]; by advance.
Qed.

Lemma dbReconcileServices_progress labels name D j :
  db_here D j →
  progresses good (dbReconcileServices labels name) j
    (λ j' r, db_here D j' ∧ r = (emptyResult, None)).
Proof.
  intros Hj. unfold dbReconcileServices.
  advance_with clusterService_progress as j1 h Hj1; [exact Hj|].
  advance_with createService_progress as ? h' [-> Hlb]. unfold OVNDBPods. advance.
  destruct Hr as [[pods ->] _]. unfold orReturn. advance.
  eapply progresses_bind with (Q1 := λ j' _, j' = j1).
  { apply (progresses_forM _ _ (λ j', j' = j1)); [done|]. intros ? pod _ ->. apply podService_progress. }
  intros ? _ ->. destruct (here_spec _ _ Hj1) as [Hs Hm].
  advance_with deleteExtraServices_progress as ? ? ->; [by rewrite Hs|]. advance.
  rewrite Hs. destruct Hunexposed as [-> _]. rewrite (bool_decide_eq_false_2 _ Hlb).
  change (nonempty "") with false. cbn [negb andb]. advance.
  advance_with deleteDNS_progress as ? ? ->. by advance.
Qed.

Lemma dbExpose_progress name labels D j :
  db_here D j → progresses good (dbExpose name labels) j (λ j' _, db_here D j').
Proof.
  intros Hj. unfold dbExpose.
  advance_with dbReconcileServices_progress as j' ? [Hj' ->]; [exact Hj|].
  rewrite bool_decide_eq_true_2 by done. by advance.
Qed.

Lemma dbNetworkStatus_progress obs atts labels D j :
  db_here D j →
  progresses good (dbNetworkStatus obs atts labels) j
    (λ j' _, db_here (NetworkAttachmentsReadyCondition :: D) j').
Proof.
  intros Hj. unfold dbNetworkStatus. eapply progresses_bind with (Q1 := λ j' _, db_here D j').
  { case_bool_decide; advance; [by apply db_here_upd|done]. }
  clear j Hj. intros j _ Hj. advance. destruct Hr as [[st ->] _]. advance.
  apply db_markTrue; [cbn; set_solver|by apply db_here_upd].
Qed.

Lemma dbServiceList_progress labels j :
  progresses good (dbServiceList labels) j (λ j' items, j' = j ∧
    Exists (λ s, is_cluster_service s = true) items ∧
    Forall (λ s, ss_Ports (svc_Spec s) ≠ []) items).
Proof.
  unfold dbServiceList. advance. destruct Hr as [[items ->] Hi].
  destruct (Hi items eq_refl). by advance.
Qed.

(** ** Runtime configuration *)
Lemma createConsolidatedConfigJobs_progress {S X} c pods labels ttl changed (s : S) :
  progresses good (createConsolidatedConfigJobs (X := X) c pods labels ttl changed) s (λ s' _, s' = s).
Proof.
  apply (progresses_foldM _ _ (λ s' _, s' = s)); [done|]. intros ? jobs pod _ ->.
  destruct (negb _); [by advance|]. cbv zeta. case_bool_decide; by advance.
Qed.

Lemma RuntimeConfigJobs_progress {S} c labels name changed (s : S) :
  returns good (RuntimeConfigJobs c labels name changed) s (λ s' r, s' = s ∧ ∃ jobs, r = Okay jobs).
Proof.
  unfold RuntimeConfigJobs, getOVNDBClusterPods. apply returns_bind_call.
  intros r [[pods ->] _]. eapply returns_bind; [apply createConsolidatedConfigJobs_progress|].
  intros ? jobs ->. apply returns_ret. split; [done|by eexists].
Qed.

Lemma submitConfigJobs_progress h jobs j :
  progresses good (submitConfigJobs h jobs) j (λ j' _, j' = j).
Proof.
  apply (progresses_foldM _ _ (λ j' _, j' = j)); [done|]. intros ? acc job _ ->. advance.
  destruct r as [[res err] ch], Hr as [Heq _]. cbn. cbn in Heq. injection Heq as -> ->. by advance.
Qed.

Lemma reconcileRuntimeConfig_progress labels name D j :
  db_here D j →
  returns good (reconcileRuntimeConfig labels name) j (λ j' r, db_here D j' ∧ r = None).
Proof.
  intros Hj. unfold reconcileRuntimeConfig. apply returns_get.
  destruct (Hhash (runtimeEnvVars j)) as [h ->]. case_bool_decide; [by apply returns_return|].
  cbv zeta. assert (∃ m, dbs_Hash (db_Status j) = Some m) as [m Hm] by apply Hj.
  eapply returns_deref; [exact Hm|]. apply returns_bind_modify.
  set (j1 := db_set_Hash _ j).
  assert (db_here D j1) as Hj1.
  { destruct Hj as [Hat Hd]. split; [|done].
    unfold j1. change m with (default ∅ (Some m)). rewrite <- Hm. exact (At_Hash _ _ Hat). }
  unfold ensureRuntimeConfigMap. apply returns_assoc, returns_get, returns_assoc, returns_bind_call.
  intros [v err] [Herr _]. cbn in Herr. subst err.
  eapply returns_bind; [by apply progresses_ret with (Q := λ j' e, j' = j1 ∧ e = None)|].
  intros ? ? [-> ->]. apply returns_get.
  eapply returns_bind_fn; [apply RuntimeConfigJobs_progress|]. intros ? ? [-> [jobs ->]].
  eapply returns_bind; [apply submitConfigJobs_progress|]. intros ? _ ->. by apply returns_ret.
Qed.

Lemma dbRuntimeConfig_progress obs name labels D j :
  db_here D j → progresses good (dbRuntimeConfig obs name labels) j (λ j' _, db_here D j').
Proof.
  intros Hj. unfold dbRuntimeConfig. advance. destruct (here_spec _ _ Hj) as [Hs _].
  eapply progresses_deref; [rewrite Hs; exact Hreplicas|].
  destruct (_ && _); [|by advance].
  eapply progresses_returns; [by apply reconcileRuntimeConfig_progress|].
  intros j' ? [Hj' ->]. by advance.
Qed.

(** ** The deployment *)
Lemma Join_nonempty a l sep : a ≠ "" → strings_Join (a :: l) sep ≠ "".
Proof. by destruct a, l. Qed.

Lemma pod_addresses_nonempty c items addrs :
  Exists (λ s, is_cluster_service s = true) items →
  Forall2 (pod_address c) (filter (λ s, is_cluster_service s = true) items) addrs →
  strings_Join addrs "," ≠ "".
Proof.
  intros (s & Hin & Hs)%Exists_exists Haddrs.
  assert (s ∈ filter (λ s, is_cluster_service s = true) items) as Hf
    by by apply list_elem_of_filter.
  destruct Haddrs as [|x a l l' (domain & port & _ & ->) _]; [by apply elem_of_nil in Hf|].
  apply Join_nonempty. unfold internalAddress, connectionScheme. by destruct (tls_Enabled _).
Qed.

Lemma internalDbAddresses_progress items j :
  Exists (λ s, is_cluster_service s = true) items →
  Forall (λ s, ss_Ports (svc_Spec s) ≠ []) items →
  progresses good (internalDbAddresses (connectionScheme j) items) j
    (λ j' addrs, j' = j ∧ strings_Join addrs "," ≠ "").
Proof.
  intros Hex Hp. apply progresses_known with (Q0 := λ j' addrs, j' = j ∧
    Forall2 (pod_address j) (filter (λ s, is_cluster_service s = true) items) addrs).
  - apply (progresses_foldM _ _ (λ _ _, True)); [done|]. intros ? acc svc Hin _.
    apply (proj1 (Forall_forall _ _) Hp) in Hin. destruct (ss_Ports (svc_Spec svc)); [done|].
    destruct (is_cluster_service svc); by advance.
  - eapply wpM_mono; [|apply internalDbAddresses_spec]. by intros tr [[|]|].
  - intros j' addrs [-> Ha]. split; [done|]. by eapply pod_addresses_nonempty.
Qed.

(** The address is published. *)
Abbreviation addressed j := (dbs_InternalDBAddress (db_Status j) ≠ "").

Lemma dbDeploymentStatus_progress obs items name D j :
  statefulset_IsReady obs = true → Exists (λ s, is_cluster_service s = true) items →
  Forall (λ s, ss_Ports (svc_Spec s) ≠ []) items → db_here D j →
  progresses good (dbDeploymentStatus obs items name) j (λ j' r,
    (db_here (ExposeServiceReadyCondition :: DeploymentReadyCondition :: D) j' ∧ addressed j') ∧
    r = (emptyResult, None)).
Proof.
  intros Hobs Hne Hp Hj. unfold dbDeploymentStatus.
  rewrite Hobs, bool_decide_eq_true_2 by by intros ->; apply Exists_nil in Hne.
  cbn [andb].
  advance_with db_markTrue as j1 ? H1; [cbn; set_solver|exact Hj|].
  advance_with db_markTrue as j2 ? H2; [cbn; set_solver|exact H1|]. advance.
  advance_with internalDbAddresses_progress as ? addrs [-> Ha]; [done..|]. advance.
  assert (db_here (ExposeServiceReadyCondition :: DeploymentReadyCondition :: D)
    (db_set_InternalDBAddress (strings_Join addrs ",") j2)) as H3 by by apply db_here_upd.
  unfold dbExternalConfig. advance. destruct (here_spec _ _ H3) as [-> _].
  destruct Hunexposed as [-> ->]. rewrite (bool_decide_eq_false_2 (is_Some None)) by by intros [].
  change (nonempty "") with false. rewrite andb_false_r. by advance.
Qed.

Lemma dbReconcileNormal_progress j :
  db_here [] j →
  progresses good dbReconcileNormal j
    (λ j' r, (db_here (db_types i) j' ∧ addressed j') ∧ r = (emptyResult, None)).
Proof.
  intros Hj. unfold dbReconcileNormal.
  advance_with reconcileRbac_progress as j1 ? H1; [done|exact Hj|]. advance.
  rewrite (isSB_here _ _ H1).
  eapply progresses_bind with (Q1 := λ j' _, db_here ((if isSB i then [] else [ExternalConfigReadyCondition])
    ++ rbacTypes) j').
  { destruct (isSB i); [by advance|]. apply db_markTrue; [cbn; set_solver|].
    by rewrite app_nil_r in H1. }
  intros j2 _ H2. cbv beta.
  advance_with dbNetworkInputs_progress as j3 [nas nads] [H3 Hnads]; [|exact H2|].
  { intros ->. set_solver. }
  cbn in Hnads. subst nads. advance_with dbServiceAnnotations_progress as ? ann ->.
  advance_with db_markTrue as j4 ? H4; [cbn; set_solver|exact H3|].
  advance_with dbTLSInputs_progress as j5 vars H5; [exact H4|].
  advance_with dbServiceConfig_progress as j6 h H6; [exact H5|].
  unfold reconcileUpdate, reconcileUpgrade. do 2 (advance; rewrite returnUnlessDone_empty). advance.
  advance_with dbTopology_progress as j7 topology H7; [exact H6|].
  advance_with dbWorkload_progress as j8 obs [H8 Hobs]; [exact H7|].
  advance_with dbPDB_progress as j9 ? H9; [exact H8|].
  advance_with dbExpose_progress as j10 ? H10; [exact H9|].
  advance_with dbNetworkStatus_progress as j11 ? H11; [exact H10|].
  advance_with dbServiceList_progress as ? items (-> & Hne & Hp).
  advance_with dbRuntimeConfig_progress as j12 ? H12; [exact H11|].
  eapply progresses_mono; [|eapply dbDeploymentStatus_progress; [done..|exact H12]].
  intros j' r [[Hj' Ha] ->]. split; [|done]. split; [|done]. eapply here_weaken; [|exact Hj'].
  unfold db_types. destruct (db_TopologyRef _); cbn; set_solver.
Qed.

(** The status has no conditions but the reconciler's own. *)
Definition db_own_conditions : Prop :=
  ∀ t, t ≠ ReadyCondition →
    is_Some (status_of t (initConditionsIfNil (dbs_Conditions (db_Status i)))) → t ∈ db_types i.

Lemma dbInit_here : db_own_conditions → db_here [] (dbInitStatus i).
Proof using CLaws.
  clear -CLaws.
  intros Hown. split; [split; by eexists|].
  assert (∀ t r m, cond_Type (UnknownCondition t r m) = t) as Ht by (intros; apply Unknown_spec).
  unfold dbInitStatus. cbn. apply done_Init; [|exact Hown].
  intros c. unfold dbInitConditions, db_types. destruct (db_TopologyRef _); set_solver.
Qed.

Definition db_addressed_at (j : OVNDBCluster) : Prop := db_at j ∧ addressed j.
#[local] Instance db_addressed_frame : CondFrame db_addressed_at.
Proof. intros c j [Hj Ha]. split; [by apply At_Cond|done]. Qed.

(** What a reconciliation of [i] does, with the conditions it leaves. *)
Lemma db_pass {FL : FinalizerLaws L} req tr o :
  managed i → db_own_conditions →
  exec (OVNDBCluster_Reconcile req) (Ev (GetOVNDBCluster req) (Okay i) :: tr) o →
  Forall good tr →
  o = Done (emptyResult, None) ∧
  ∃ i', last tr = Some (Ev (PatchInstance (ObjOVNDBCluster i')) None) ∧
    db_here (db_types i) i' ∧ addressed i' ∧ OVNDBCluster_IsReady i' = true.
Proof.
  intros Hm Hown Hex Henv.
  destruct (reconcile_progress (good := good) (At := db_addressed_at) (All := db_types i)
    (GetOVNDBCluster req) dbInitStatus (λ i, i) (λ _, false) dbReconcileNormal i tr o)
    as (-> & i' & Hlast & [[Hat Ha] Hd] & Hready); try done.
  - intros r r' Heq. apply (f_equal fetched) in Heq. by destruct r, r'; simplify_eq/=.
  - eapply progresses_mono; [|by apply dbReconcileNormal_progress, dbInit_here].
    intros j r [[[Hj Hd] Ha] ->]. by split; [split|].
  - split; [done|]. by exists i'.
Qed.

(** A managed cluster of the control plane is patched Ready, and the reconciliation ends
    without an error, when every request succeeds, the StatefulSet is ready and the
    services of its pods are there; its address is published. *)
Theorem db_becomes_ready {FL : FinalizerLaws L} req tr o :
  managed i → db_own_conditions →
  exec (OVNDBCluster_Reconcile req) (Ev (GetOVNDBCluster req) (Okay i) :: tr) o →
  Forall good tr →
  o = Done (emptyResult, None) ∧
  ∃ i', last tr = Some (Ev (PatchInstance (ObjOVNDBCluster i')) None) ∧
    db_at i' ∧ addressed i' ∧ OVNDBCluster_IsReady i' = true.
Proof.
  intros Hm Hown Hex Henv. destruct (db_pass _ _ _ Hm Hown Hex Henv) as (-> & i' & Hl & [Hat _] & Ha & Hr).
  split; [done|]. by exists i'.
Qed.
End db_progress.
