(* ===== verification/NorthdProgress.v ===== *)
(** * An OVNNorthd becomes Ready

    When every request of a reconciliation succeeds, both databases have published
    their addresses and the StatefulSet runs the replicas asked for, the resource is
    patched Ready and the reconciliation ends without an error. *)
From S2P Require Import Prelude Prog Triples K8s Lib Api ApiMethods Calls Shared.
From S2P Require Import SharedProofs Client DBManifests DBController NorthdManifests.
From S2P Require Import NorthdController NorthdProofs Progress.
#[local] Open Scope go_scope.

Section northd_progress.
Context {AT : ApiTypes} {CL : CondLib} {L : Lib} {CLaws : CondLaws CL} {TL : TlsLaws L}.
Context {HL : HashLaws L}.

(** The first cluster of each type among [items] has published its address. *)
Definition databases_ready (items : list OVNDBCluster) : Prop :=
  ∀ t, t ∈ [NBDBType; SBDBType] → ∃ n c,
    list_find (λ c, db_DBType (db_Spec c) = t) items = Some (n, c) ∧
    dbs_InternalDBAddress (db_Status c) ≠ "".

(** The databases of the namespace of [i] answer, the StatefulSet runs its replicas, and
    a Deployment has a replica count. *)
Definition nd_favourable (i : OVNNorthd) (ev : event Ext) : Prop :=
  succeeded ev ∧
  match ev with Ev e r =>
    match e in Ext R return R → Prop with
    | ListOVNDBClusters ns labels => λ r, ns = om_Namespace (nd_Meta i) → labels = ∅ →
        ∀ items, r = Okay items → databases_ready items
    | StatefulSetCreateOrPatch _ _ => λ r,
        nd_Replicas (nd_Spec i) = Some (sts_ReadyReplicas r.2) ∧
        sts_StatusReplicas r.2 = sts_ReadyReplicas r.2
    | GetDeployment _ _ => λ r, ∀ d, r = Okay d → is_Some (dep_Replicas d)
    | _ => λ _, True
    end r
  end.

(** The conditions of an OVNNorthd. *)
Definition nd_types (i : OVNNorthd) : list CondType :=
  [InputReadyCondition; DeploymentReadyCondition; ServiceAccountReadyCondition;
   RoleReadyCondition; RoleBindingReadyCondition; TLSInputReadyCondition;
   ServiceConfigReadyCondition] ++
  match nd_TopologyRef (nd_Spec i) with Some _ => [TopologyReadyCondition] | None => [] end.

Context (i : OVNNorthd) (replicas nThreads : Z).
Context (Hreplicas : nd_Replicas (nd_Spec i) = Some replicas).
Context (HnThreads : nd_NThreads (nd_Spec i) = Some nThreads).
Context (Hhash : ∀ vars, ∃ h, ObjectHash (MergeEnvs [] vars) = Okay h).
Context (Hservice : ∀ svc, ∃ h, NewService svc None = Okay h).

Abbreviation good := (nd_favourable i).
Abbreviation nd_here := (here (I := OVNNorthd) (nd_at i) (nd_types i)).

#[local] Instance nd_favourable_succeeds : Succeeds good.
Proof. by intros ev [? _]. Qed.

#[local] Instance nd_at_frame : StatusFrame (nd_at i).
Proof. split; intros ? j; apply nd_at_upd. Qed.

#[local] Instance nd_at_hash key : HashFrame (nd_at i) key.
Proof. intros ? j. apply nd_at_upd. Qed.

Lemma nd_here_upd D f j :
  nds_Conditions (f (nd_Status j)) = nds_Conditions (nd_Status j) →
  nd_here D j → nd_here D (nd_upd_Status f j).
Proof. intros Hf [Hat Hd]. split; [by apply nd_at_upd|]. cbn. by rewrite Hf. Qed.

Lemma ndEndpoint_progress t D j :
  t ∈ [NBDBType; SBDBType] → nd_here D j →
  progresses good (ndEndpoint t) j (λ j' _, nd_here D j').
Proof.
  intros Ht Hj. unfold ndEndpoint, getInternalEndpoint, GetDBClusterByType, getDBClusters.
  advance. destruct Hr as [[items ->] Hdb].
  destruct (Hdb ltac:(by destruct Hj as [[st ->] _]) eq_refl items eq_refl t Ht) as (n & c & -> & Hc).
  advance. unfold GetInternalEndpoint. rewrite bool_decide_eq_false_2 by done. by advance.
Qed.

Lemma nd_markTrue {X} D t m j :
  t ∈ nd_types i → nd_here D j →
  progresses good (markTrue (X := X) t m) j (λ j' _, nd_here (t :: D) j').
Proof. apply markTrue_progress. Qed.

Lemma ndTLSInputs_progress D j :
  nd_here D j →
  progresses good ndTLSInputs j (λ j' _, nd_here (TLSInputReadyCondition :: D) j').
Proof.
  intros Hj. unfold ndTLSInputs.
  advance_with validateTLS_progress as ? ? ->.
  advance_with nd_markTrue as j' ? Hj'; [cbn; set_solver|done|]. by advance.
Qed.

Lemma ndServiceConfig_progress vars D j :
  nd_here D j →
  progresses good (ndServiceConfig vars) j (λ j' _, nd_here (ServiceConfigReadyCondition :: D) j').
Proof.
  intros Hj. unfold ndServiceConfig, ndGenerateServiceConfigMaps. advance.
  destruct r as [vars' err], Hr as [-> _].
  advance_with storeHash_progress as j1 ? [Hj1 [[h c] ->]];
    [apply Hhash|done|apply _|].
  advance_with nd_markTrue as j2 ? Hj2; [cbn; set_solver|done|]. by advance.
Qed.

(** The topology is reported when the specification names one. *)
Definition topology_done (D : list CondType) : list CondType :=
  match nd_TopologyRef (nd_Spec i) with Some _ => TopologyReadyCondition :: D | None => D end.

Lemma ndTopology_progress labels D j :
  nd_here D j →
  progresses good (ndTopology labels) j (λ j' _, nd_here (topology_done D) j').
Proof.
  intros Hj. unfold ndTopology. advance.
  assert (cs_TopologyRef (cr_Spec j) = nd_TopologyRef (nd_Spec i)) as Href
    by by destruct Hj as [[st ->] _].
  advance_with ensureTopology_progress as j' a [[t ->] Hj']; [|exact Hj|].
  - rewrite Href. intros [t Ht]. unfold nd_types. rewrite Ht. set_solver.
  - rewrite Href in Hj'. by advance.
Qed.

Lemma ndWorkload_progress nb sb vars labels topology D j :
  nd_here D j →
  progresses good (ndWorkload nb sb vars labels topology) j (λ j' obs, nd_here D j' ∧
    sts_ReadyReplicas obs = replicas ∧ sts_StatusReplicas obs = replicas).
Proof.
  intros Hj. unfold ndWorkload. advance.
  assert (∃ sts, nd_StatefulSet j labels nb sb vars topology = GOk sts) as [sts ->].
  { destruct Hj as [[st ->] _]. unfold nd_StatefulSet. cbn. rewrite HnThreads.
    destruct (tls_Enabled _) eqn:Htls; [|by eexists].
    destruct (Enabled_SecretName _ Htls) as [n ->]. by eexists. }
  unfold lift_go. advance. destruct r as [[res err] obs], Hr as [Heq Hobs]. cbn in *.
  injection Heq as -> ->. rewrite bool_decide_eq_true_2 by done. rewrite Hreplicas in Hobs.
  destruct Hobs as [[= Hr] Hs]. advance. split; [done|]. split; congruence.
Qed.

Lemma cleanupLegacyDeployment_progress {X} D j :
  nd_here D j → progresses good (cleanupLegacyDeployment (X := X)) j (λ j' _, nd_here D j').
Proof.
  intros Hj. unfold cleanupLegacyDeployment. advance. destruct r as [d|e].
  - destruct (legacy_owned j d); [|by advance]. destruct Hr as [_ Hd].
    destruct (Hd d eq_refl) as [n Hn]. eapply progresses_deref; [exact Hn|].
    case_bool_decide; advance; destruct r as [?|]; try destruct r0 as [?|]; 
      repeat case_match; by advance.
  - destruct (IsNotFound e); by advance.
Qed.

Lemma ndMigrate_progress obs D j :
  nd_here D j → progresses good (ndMigrate obs) j (λ j' _, nd_here D j').
Proof.
  intros Hj. unfold ndMigrate.
  eapply progresses_bind with (Q1 := λ j' _, nd_here D j').
  { case_bool_decide; advance; [by apply nd_here_upd|done]. }
  clear j Hj. intros j _ Hj. case_bool_decide; [|by advance].
  advance_with cleanupLegacyDeployment_progress as j' ? Hj'; [done|]. by advance.
Qed.

Lemma ndDeploymentStatus_progress obs D j :
  sts_ReadyReplicas obs = replicas → sts_StatusReplicas obs = replicas → nd_here D j →
  progresses good (ndDeploymentStatus obs) j (λ j' _, nd_here (DeploymentReadyCondition :: D) j').
Proof.
  intros H1 H2 Hj. unfold ndDeploymentStatus. advance.
  eapply progresses_deref; [destruct Hj as [[st ->] _]; exact Hreplicas|].
  rewrite !bool_decide_eq_true_2 by done. by apply nd_markTrue; [cbn; set_solver|].
Qed.

Lemma cleanupExtraServices_progress {X} n D j :
  nd_here D j → progresses good (cleanupExtraServices (X := X) n) j (λ j' _, nd_here D j').
Proof.
  intros Hj. unfold cleanupExtraServices. advance. apply progresses_forM; [done|].
  intros j' x _ Hj'. advance. destruct r; by advance.
Qed.

Lemma reconcileMetricsServices_progress labels D j :
  nd_here D j →
  progresses good (reconcileMetricsServices labels) j
    (λ j' r, nd_here D j' ∧ r = (emptyResult, None)).
Proof.
  intros Hj. unfold reconcileMetricsServices. advance.
  eapply progresses_bind with (Q1 := λ j' _, nd_here D j').
  { apply progresses_forM; [done|]. intros j' x _ Hj'.
    destruct (Hservice (nd_MetricsService (ndPodName x) j
      (MergeMaps labels {["metrics" := "enabled"]}) (ndSelectorLabels (ndPodName x)))) as [h ->].
    advance. destruct r as [[res err] h'], Hr as [Heq _]. cbn. cbn in Heq. injection Heq as -> ->.
    rewrite bool_decide_eq_true_2 by done. by advance. }
  intros j1 _ Hj1. advance_with cleanupExtraServices_progress as j2 ? Hj2; [exact Hj1|].
  by advance.
Qed.

Lemma ndMetrics_progress labels D j :
  nd_here D j →
  progresses good (ndMetrics labels) j (λ j' r, nd_here D j' ∧ r = (emptyResult, None)).
Proof.
  intros Hj. unfold ndMetrics. advance. destruct (nd_metrics_on j).
  - advance_with reconcileMetricsServices_progress as j1 ? [Hj1 ->]; [done|].
    rewrite returnUnlessDone_empty. by advance.
  - advance_with cleanupExtraServices_progress as j1 ? Hj1; [done|]. by advance.
Qed.

Lemma ndReconcileNormal_progress j :
  nd_here [] j →
  progresses good ndReconcileNormal j
    (λ j' r, nd_here (nd_types i) j' ∧ r = (emptyResult, None)).
Proof.
  intros Hj. unfold ndReconcileNormal.
  advance_with reconcileRbac_progress as j1 ? H1; [done|exact Hj|].
  advance_with nd_markTrue as j2 ? H2; [cbn; set_solver|exact H1|].
  unfold reconcileUpdate, reconcileUpgrade. do 2 (advance; rewrite returnUnlessDone_empty). advance.
  advance_with ndEndpoint_progress as j3 nb H3; [set_solver|exact H2|].
  advance_with ndEndpoint_progress as j4 sb H4; [set_solver|exact H3|].
  advance_with ndTLSInputs_progress as j5 vars H5; [exact H4|].
  advance_with ndServiceConfig_progress as j6 vars' H6; [exact H5|].
  advance_with ndTopology_progress as j7 topology H7; [exact H6|].
  advance_with ndWorkload_progress as j8 obs [H8 [Hr Hs]]; [exact H7|].
  advance_with ndMigrate_progress as j9 ? H9; [exact H8|].
  advance_with ndDeploymentStatus_progress as j10 ? H10; [done..|exact H9|].
  eapply progresses_mono; [|eapply ndMetrics_progress; exact H10].
  intros j' r [Hj' ->]. split; [|done]. eapply here_weaken; [|exact Hj'].
  unfold nd_types, topology_done. destruct (nd_TopologyRef _); cbn; set_solver.
Qed.

(** The status has no conditions but the reconciler's own. *)
Definition nd_own_conditions : Prop :=
  ∀ t, t ≠ ReadyCondition →
    is_Some (status_of t (initConditionsIfNil (nds_Conditions (nd_Status i)))) → t ∈ nd_types i.

Lemma ndInit_here : nd_own_conditions → nd_here [] (ndInitStatus i).
Proof using CLaws.
  clear -CLaws.
  intros Hown. split; [by eexists|].
  assert (∀ t r m, cond_Type (UnknownCondition t r m) = t) as Ht by (intros; apply Unknown_spec).
  unfold ndInitStatus. cbn. apply done_Init; [|exact Hown].
  intros c. unfold ndInitConditions, nd_types. destruct (nd_TopologyRef _); set_solver.
Qed.

(** What a reconciliation of [i] does, with the conditions it leaves. *)
Lemma nd_pass {FL : FinalizerLaws L} req tr o :
  managed i → nd_own_conditions →
  exec (OVNNorthd_Reconcile req) (Ev (GetOVNNorthd req) (Okay i) :: tr) o →
  Forall good tr →
  o = Done (emptyResult, None) ∧
  ∃ i', last tr = Some (Ev (PatchInstance (ObjOVNNorthd i')) None) ∧
    nd_here (nd_types i) i' ∧ OVNNorthd_IsReady i' = true.
Proof.
  intros Hm Hown Hex Henv.
  destruct (reconcile_progress (good := good) (At := nd_at i) (All := nd_types i)
    (GetOVNNorthd req) ndInitStatus (λ i, i) (λ _, false) ndReconcileNormal i tr o)
    as (-> & i' & Hlast & Hat & Hready); try done.
  - intros r r' Heq. apply (f_equal fetched) in Heq. by destruct r, r'; simplify_eq/=.
  - by apply ndReconcileNormal_progress, ndInit_here.
  - split; [done|]. by exists i'.
Qed.

(** A managed OVNNorthd is patched Ready, and the reconciliation ends without an error,
    when every request succeeds, the databases have published their addresses and the
    StatefulSet runs the replicas asked for. *)
Theorem nd_becomes_ready {FL : FinalizerLaws L} req tr o :
  managed i → nd_own_conditions →
  exec (OVNNorthd_Reconcile req) (Ev (GetOVNNorthd req) (Okay i) :: tr) o →
  Forall good tr →
  o = Done (emptyResult, None) ∧
  ∃ i', last tr = Some (Ev (PatchInstance (ObjOVNNorthd i')) None) ∧
    nd_at i i' ∧ OVNNorthd_IsReady i' = true.
Proof.
  intros Hm Hown Hex Henv. destruct (nd_pass _ _ _ Hm Hown Hex Henv) as (-> & i' & Hl & [Hat _] & Hr).
  split; [done|]. by exists i'.
Qed.
End northd_progress.
