(* ===== verification/CtlProgress.v ===== *)
(** * An OVNController becomes Ready

    When every request of a reconciliation succeeds, the hashes of the inputs are the
    ones already stored, the DaemonSets run on every node and the SB cluster has
    published its address, the configuration jobs run, the resource is patched Ready
    and the reconciliation ends without an error. *)
From S2P Require Import Prelude Prog Triples K8s Lib Api ApiMethods Calls Shared.
From S2P Require Import SharedProofs Client Webhook DBManifests DBController CtlNetworks.
From S2P Require Import CtlManifests CtlController CtlNetworksProofs CtlProofs CtlPhases.
From S2P Require Import Progress.
#[local] Open Scope go_scope.

Section ctl_progress.
Context {AT : ApiTypes} {CL : CondLib} {L : Lib} {CLaws : CondLaws CL} {TL : TlsLaws L}.
Context {HL : HashLaws L}.

(** The DaemonSet runs on each of the [nodes] nodes. *)
Definition runs_everywhere (nodes : Z) (ds : DaemonSetObs) : Prop :=
  rolled_out ds ∧ ds_DesiredNumberScheduled ds = nodes ∧ ds_NumberReady ds = nodes.

(** The first SB cluster among [items] has published its address. *)
Definition sb_ready (items : list OVNDBCluster) : Prop :=
  ∃ n c, list_find (λ c, db_DBType (db_Spec c) = SBDBType) items = Some (n, c) ∧
    dbs_InternalDBAddress (db_Status c) ≠ "".

(** The hash that [vars] give is the one stored in the status of [i] under [key]. *)
Definition hash_stored (i : OVNController) (vars : gmap string Setter) (key : string) : Prop :=
  ∃ h, ObjectHash (MergeEnvs [] vars) = Okay h ∧
    default ∅ (ocs_Hash (oc_Status i)) !! key = Some h.

#[export] Instance hash_stored_dec i vars key : Decision (hash_stored i vars key).
Proof.
  unfold hash_stored. destruct (ObjectHash (MergeEnvs [] vars)) as [h|e].
  - destruct (decide (default ∅ (ocs_Hash (oc_Status i)) !! key = Some h)) as [Hh|Hh].
    + left. by exists h.
    + right. by intros (h' & [= <-] & ?).
  - right. by intros (? & ? & _).
Defined.

(** The hashes of both inputs are stored, when the scripts render with [vars]. *)
Definition inputs_stored (i : OVNController) (vars : gmap string Setter) : Prop :=
  hash_stored i vars OVNInputHash ∧ hash_stored i ∅ OVSInputHash.
#[export] Instance inputs_stored_dec i vars : Decision (inputs_stored i vars) := _.

(** The attachment can be made an annotation. *)
Definition annotatable (nad : NAD) : Prop := ∃ a, EnsureNetworksAnnotation [nad] = Okay a.

(** The scripts render with [vars]; the DaemonSets run on every node; the attachments can
    be annotated; the SB cluster of the namespace answers. *)
Definition oc_favourable (i : OVNController) (vars : gmap string Setter) (nodes : Z)
    (ev : event Ext) : Prop :=
  succeeded ev ∧
  match ev with Ev e r =>
    match e in Ext R return R → Prop with
    | EnsureConfigMaps _ cms (Some _) => λ r,
        cms = [ocScripts i] → r.1 = vars
    | DaemonSetCreateOrPatch _ _ => λ r, runs_everywhere nodes r.2
    | GetNADWithName _ _ => λ r, ∀ nad, r = Okay (Some nad) → annotatable nad
    | ListOVNDBClusters ns labels => λ r, ns = om_Namespace (oc_Meta i) → labels = ∅ →
        ∀ items, r = Okay items → sb_ready items
    | _ => λ _, True
    end r
  end.

(** The conditions of an OVNController. *)
Definition oc_types (i : OVNController) : list CondType :=
  [InputReadyCondition; ServiceConfigReadyCondition; NetworkAttachmentsReadyCondition;
   DeploymentReadyCondition; ServiceAccountReadyCondition; RoleReadyCondition;
   RoleBindingReadyCondition; TLSInputReadyCondition] ++
  match oc_TopologyRef (oc_Spec i) with Some _ => [TopologyReadyCondition] | None => [] end.

(** The attachment of the specification, when it has one. *)
Definition oc_attachments (i : OVNController) : list string :=
  if nonempty (oc_NetworkAttachment (oc_Spec i)) then [oc_NetworkAttachment (oc_Spec i)] else [].

(** A specification that the code has no complaint about: its probes can be built, its
    bonds have links, its hardening annotation is a boolean. *)
Record oc_wellformed (i : OVNController) : Prop := {
  wf_probes : (GetProbeSet (oc_Spec i)).2 = None;
  wf_bonds k : k ∈ keys_of i (oc_attachments i) → ¬ bad_bond i (oc_attachments i) k;
  wf_hardened : ∃ b, GetBoolFromAnnotation (om_Annotations (oc_Meta i))
                       OVNHardenedOVSSecurityContextLabel = Okay b;
}.

Context (i : OVNController) (vars0 : gmap string Setter) (nodes : Z).
Context (Hwf : oc_wellformed i).
Context (Hhash : ∀ vars, ∃ h, ObjectHash (MergeEnvs [] vars) = Okay h).
Context (Hservice : ∀ svc, ∃ h, NewService svc None = Okay h).
Context (Hnetworks : ∀ nads, Forall annotatable nads → ∃ a, EnsureNetworksAnnotation nads = Okay a).

Abbreviation good := (oc_favourable i vars0 nodes).

#[local] Instance oc_favourable_succeeds : Succeeds good.
Proof. by intros ev [? _]. Qed.

(** Before the hashes of the inputs are compared they are those of [i]. *)
Definition oc_before (j : OVNController) : Prop :=
  oc_at i j ∧ ocs_Hash (oc_Status j) = Some (default ∅ (ocs_Hash (oc_Status i))).

(** The hashes of the inputs are those of [i]. *)
Definition hashes_kept (j : OVNController) : Prop :=
  is_Some (ocs_Hash (oc_Status j)) ∧ ∀ key, key ∈ [OVNInputHash; OVSInputHash] →
    default ∅ (ocs_Hash (oc_Status j)) !! key = default ∅ (ocs_Hash (oc_Status i)) !! key.

(** After, they are still there, and the counts are those observed so far. *)
Definition oc_after (desired ovs : option Z) (j : OVNController) : Prop :=
  oc_at i j ∧ hashes_kept j ∧
  (∀ n, desired = Some n → ocs_DesiredNumberScheduled (oc_Status j) = n) ∧
  (∀ n, ovs = Some n → ocs_OVSNumberReady (oc_Status j) = n).

#[local] Instance oc_before_frame : CondFrame oc_before.
Proof. intros c j [Hat Hh]. split; [by apply oc_at_upd|done]. Qed.

#[local] Instance oc_after_frame d o : StatusFrame (oc_after d o).
Proof.
  split; intros ? j (Hat & Hh & Hd & Ho); (split; [by apply oc_at_upd|]); cbn; by eauto.
Qed.

(** The other hashes may change. *)
Lemma oc_after_hash d o key :
  key ∉ [OVNInputHash; OVSInputHash] → HashFrame (oc_after d o) key.
Proof.
  intros Hkey h j (Hat & [Hs Hh] & Hd & Ho). split; [by apply oc_at_upd|]. split; [|by split].
  split; [by eexists|]. intros key' Hin. cbn. rewrite lookup_insert_ne by (intros ->; done).
  by apply Hh.
Qed.

Abbreviation before := (here (I := OVNController) oc_before (oc_types i)).
Abbreviation after d o := (here (I := OVNController) (oc_after d o) (oc_types i)).

Lemma oc_markTrue {At} {CF : CondFrame At} {X} D t m j :
  t ∈ oc_types i → here At (oc_types i) D j →
  progresses good (markTrue (I := OVNController) (X := X) t m) j
    (λ j' _, here At (oc_types i) (t :: D) j').
Proof. apply markTrue_progress. Qed.

(** An update of the status that keeps the hashes, the conditions and the counts. *)
Lemma after_upd d o d' o' f D j :
  ocs_Conditions (f (oc_Status j)) = ocs_Conditions (oc_Status j) →
  ocs_Hash (f (oc_Status j)) = ocs_Hash (oc_Status j) →
  (∀ n, d' = Some n → ocs_DesiredNumberScheduled (f (oc_Status j)) = n) →
  (∀ n, o' = Some n → ocs_OVSNumberReady (f (oc_Status j)) = n) →
  after d o D j → after d' o' D (oc_upd_Status f j).
Proof.
  intros Hc Hh Hd Ho [(Hat & Hs & _) Hdone]. split; [|cbn; by rewrite Hc].
  split; [by apply oc_at_upd|]. unfold hashes_kept. cbn. by rewrite Hh.
Qed.

(** ** Inputs *)
Lemma ocTLSInputs_progress D j :
  before D j →
  progresses good ocTLSInputs j (λ j' _, before (TLSInputReadyCondition :: D) j').
Proof.
  intros Hj. unfold ocTLSInputs.
  advance_with validateCaBundle_progress as ? ? ->.
  advance_with validateServiceCert_progress as ? ? ->.
  advance_with validateMetricsCert_progress as ? ? ->.
  advance_with oc_markTrue as j' ? Hj'; [cbn; set_solver|exact Hj|]. by advance.
Qed.

(** A hash that is stored is left alone. *)
Lemma storeHash_stored vars key j :
  oc_before j → hash_stored i vars key →
  progresses good (storeHash (I := OVNController) (X := RE) vars key) j
    (λ j' r, j' = j ∧ ∃ h, r = Okay (h, false)).
Proof.
  intros [_ Hh] (h & Hhv & Hst). eapply progresses_mono; [|by apply storeHash_flag].
  intros j' r (c & -> & Hc & ->). change (cr_Hash j) with (ocs_Hash (oc_Status j)) in Hc.
  rewrite Hh in Hc. cbn [default from_option id] in Hc.
  rewrite bool_decide_eq_true_2 in Hc by done. subst c. split; [done|by exists h].
Qed.

Lemma before_after D j : before D j → after None None D j.
Proof.
  intros [[Hat Hh] Hd]. split; [|done]. split; [done|]. split; [|done].
  unfold hashes_kept. rewrite Hh. split; [by eexists|done].
Qed.

(** The rendering of the scripts. *)
Lemma ocGenerate_progress vars j :
  oc_at i j →
  progresses (X := RE) good (ocGenerateServiceConfigMaps vars) j (λ j' r, j' = j ∧ r = (vars0, None)).
Proof.
  intros [st ->]. unfold ocGenerateServiceConfigMaps. advance.
  destruct r as [vars' err], Hr as [-> Hst]. specialize (Hst eq_refl). cbn in Hst. subst vars'.
  advance. destruct r as [? err0], Hr as [-> _]. by advance.
Qed.

Lemma ocServiceConfig_progress vars D j :
  inputs_stored i vars0 → before D j →
  progresses good (ocServiceConfig vars) j
    (λ j' _, after None None (ServiceConfigReadyCondition :: D) j').
Proof.
  intros [Hovn Hovs] Hj. unfold ocServiceConfig.
  advance_with ocGenerate_progress as ? ? [-> ->]; [apply Hj|]. unfold ocInputHashes. advance.
  advance_with storeHash_stored as ? ? [-> [h1 ->]]; [apply Hj|exact Hovn|]. advance.
  advance_with storeHash_stored as ? ? [-> [h2 ->]]; [apply Hj|exact Hovs|]. cbn [orb]. advance.
  advance_with oc_markTrue as j' ? Hj'; [cbn; set_solver|exact Hj|].
  advance. by apply before_after.
Qed.

(** The hashes of [j] after [storeHash], which says [c]. *)
Lemma stored_after j key h (c : bool) :
  c = negb (bool_decide (default ∅ (ocs_Hash (oc_Status j)) !! key = Some h)) →
  let j' := if c then cr_set_Hash (Some (<[key := h]> (default ∅ (cr_Hash j)))) j else j in
  default ∅ (ocs_Hash (oc_Status j')) !! key = Some h ∧
  ∀ key', key ≠ key' → default ∅ (ocs_Hash (oc_Status j')) !! key' =
    default ∅ (ocs_Hash (oc_Status j)) !! key'.
Proof.
  intros Hc. destruct c; cbn.
  - split; [by rewrite lookup_insert_eq|]. intros key' Hne. by rewrite lookup_insert_ne.
  - split; [|done]. by symmetry in Hc; apply negb_false_iff, bool_decide_eq_true in Hc.
Qed.

Lemma storeHash_keeps D key h (c : bool) j :
  here (oc_at i) (oc_types i) D j →
  here (oc_at i) (oc_types i) D
    (if c then cr_set_Hash (Some (<[key := h]> (default ∅ (cr_Hash j)))) j else j).
Proof. intros [Hat Hd]. by destruct c; [split; [apply oc_at_upd|]|]. Qed.

(** Hashes that are not stored are, and the reconciliation ends there. *)
Lemma ocInputHashes_exits D j :
  ¬ inputs_stored i vars0 → before D j →
  exits good (ocInputHashes vars0 ∅) j (λ j' r,
    here (oc_at i) (oc_types i) D j' ∧ inputs_stored j' vars0 ∧ r = (emptyResult, None)).
Proof.
  intros Hno [[Hat Hh] Hd]. unfold ocInputHashes.
  destruct (Hhash vars0) as [h1 Hh1], (Hhash ∅) as [h2 Hh2].
  eapply exits_bind; [by apply storeHash_flag|]. intros j1 r (c1 & -> & Hc1 & Hj1).
  eapply exits_bind; [by apply storeHash_flag|]. intros j2 r (c2 & -> & Hc2 & Hj2).
  destruct (stored_after _ _ _ _ Hc1) as [S1 K1], (stored_after _ _ _ _ Hc2) as [S2 K2].
  destruct (c1 || c2) eqn:Hc.
  - apply exits_return. split; [|split; [|done]].
    + subst j2. apply storeHash_keeps. subst j1. by apply storeHash_keeps.
    + rewrite <- Hj1 in *. rewrite <- Hj2 in *.
      split; [exists h1|exists h2]; (split; [done|]); [by rewrite K2|done].
  - apply orb_false_iff in Hc as [-> ->]. subst j1 j2. rewrite Hh in *.
    destruct Hno. split; [by exists h1|by exists h2].
Qed.

(** ** Networks *)
Lemma createOrUpdate_progress {S X} j labels physNet config (s : S) :
  progresses good (createOrUpdateNetworkAttachmentDefinition (X := X) j labels physNet config) s
    (λ s' r, s' = s ∧ r = None).
Proof.
  unfold createOrUpdateNetworkAttachmentDefinition. advance. destruct r as [nad|e], Hr as [Hr _].
  - destruct (nad_owned j nad); advance; [|done]. destruct Hr0 as [-> _]. by advance.
  - rewrite (Hr e eq_refl). advance. destruct Hr0 as [-> _]. by advance.
Qed.

Lemma createLinkNADs_progress {S} j labels links (s : S) :
  progresses good (createLinkNADs j labels links) s
    (λ s' r, s' = s ∧ ∃ names, r = Okay names).
Proof.
  unfold createLinkNADs. eapply progresses_bind.
  - apply (progresses_foldM _ _ (λ s' _, s' = s)); [done|]. intros ? acc x _ ->.
    advance_with createOrUpdate_progress as ? ? [-> ->]. by advance.
  - intros ? names ->. advance. split; [done|by eexists].
Qed.

Lemma additionalNetwork_progress {S} j labels acc k (s : S) :
  oc_at i j → ¬ bad_bond i (oc_attachments i) k →
  progresses good (additionalNetwork j labels (oc_attachments i)
      (maps_Keys (oc_BondConfiguration (oc_Spec j))) acc k) s (λ s' _, s' = s).
Proof.
  intros [st ->] Hbond. unfold additionalNetwork, bad_bond, is_bond, linksOf in *. cbn in *.
  destruct (slices_Contains (oc_attachments i) k); [by advance|].
  unfold nicAt, bondAt in *. cbn in *.
  destruct (slices_Contains _ (default "" _)).
  - rewrite bool_decide_eq_false_2 by tauto. advance.
    advance_with createLinkNADs_progress as ? ? [-> [names ->]]. advance.
    advance_with createOrUpdate_progress as ? ? [-> ->]. by advance.
  - advance. advance_with createOrUpdate_progress as ? ? [-> ->]. by advance.
Qed.

Lemma ocNetworks_progress labels D j :
  after None None D j →
  progresses good (ocNetworks labels) j (λ j' _, after None None D j').
Proof.
  intros Hj. assert (oc_at i j) as Hat by apply Hj. unfold ocNetworks. advance.
  replace (if nonempty (oc_NetworkAttachment (oc_Spec j)) then _ else _)
    with (oc_attachments i) by by destruct Hat as [st ->].
  assert (keys_of j (oc_attachments i) = keys_of i (oc_attachments i)) as Hkeys
    by by destruct Hat as [st ->].
  eapply (progresses_bind_fn _ _ _ _ (λ j' r, j' = j ∧ ∃ nets, r = Okay nets)).
  { unfold CreateOrUpdateAdditionalNetworks, additionalNetworksFrom. eapply progresses_bind.
    - fold (keys_of j (oc_attachments i)). rewrite Hkeys.
      apply (progresses_foldM _ _ (λ j' _, j' = j)); [done|]. intros ? acc k Hk ->.
      apply additionalNetwork_progress; [done|by apply Hwf].
    - intros ? nets ->. advance. split; [done|by eexists]. }
  intros ? ? [-> [nets ->]]. unfold ocNADs. advance.
  eapply progresses_bind.
  - apply (progresses_foldM _ _ (λ j' nads, j' = j ∧ Forall annotatable nads));
      [by split; [|apply Forall_nil_2]|]. intros ? acc k _ [-> Hacc]. advance.
    destruct Hr as [[nad ->] Hn]. advance. split; [done|]. apply Forall_app_intro; [done|].
    destruct nad as [nad|]; cbn; [|apply Forall_nil_2].
    apply Forall_singleton. by apply Hn.
  - intros ? nads [-> Hnads]. destruct (Hnetworks nads Hnads) as [a ->]. by advance.
Qed.

Lemma ocTopology_progress labels D j :
  after None None D j →
  progresses good (ocTopology labels) j (λ j' _, after None None
    (match oc_TopologyRef (oc_Spec i) with Some _ => TopologyReadyCondition :: D | None => D end) j').
Proof.
  intros Hj. unfold ocTopology. advance.
  assert (cs_TopologyRef (cr_Spec j) = oc_TopologyRef (oc_Spec i)) as Href
    by by destruct Hj as [[[st ->] _] _].
  advance_with ensureTopology_progress as j' a [[t ->] Hj']; [|exact Hj|].
  - rewrite Href. intros [t Ht]. unfold oc_types. rewrite Ht. set_solver.
  - rewrite Href in Hj'. by advance.
Qed.

(** ** DaemonSets *)
Lemma ocDaemonSet_progress ds j :
  progresses good (ocDaemonSet ds) j (λ j' obs, j' = j ∧ runs_everywhere nodes obs).
Proof.
  unfold ocDaemonSet. advance. destruct r as [[res err] obs], Hr as [Heq Hobs]. cbn in Heq, Hobs.
  injection Heq as -> ->. rewrite bool_decide_eq_true_2 by done. by advance.
Qed.

Lemma ocOVNDaemonSet_progress h labels topology D j :
  after None None D j →
  progresses good (ocOVNDaemonSet h labels topology) j
    (λ j' obs, after (Some nodes) None D j' ∧ rolled_out obs).
Proof.
  intros Hj. unfold ocOVNDaemonSet. advance.
  assert (∃ ds, CreateOVNDaemonSet j h labels topology = GOk ds) as [ds ->].
  { destruct Hj as [[[st ->] _] _]. unfold CreateOVNDaemonSet. cbn [oc_Spec oc_Meta].
    pose proof (wf_probes _ Hwf) as Hp. destruct (GetProbeSet (oc_Spec i)) as [ps err].
    cbn in Hp. subst err. destruct (tls_Enabled _) eqn:Htls; [|by eexists].
    destruct (Enabled_SecretName _ Htls) as [n ->]. by eexists. }
  unfold lift_go. advance.
  advance_with ocDaemonSet_progress as ? obs [-> (Hroll & Hd & Hr)]. advance. split; [|done].
  unfold oc_set_NumberReady, oc_set_DesiredNumberScheduled.
  eapply after_upd; [done|done| |done|eapply (after_upd _ _ (Some nodes) None); [done|done| |done|exact Hj]].
  - intros n [= <-]. done.
  - intros n [= <-]. done.
Qed.

Lemma ocHardened_progress j :
  oc_at i j → progresses good ocHardened j (λ j' _, j' = j).
Proof.
  intros [st ->]. unfold ocHardened. advance. cbn.
  destruct (wf_hardened _ Hwf) as [[b e] ->]. by advance.
Qed.

Lemma ocOVSDaemonSet_progress h labels ann topology D j :
  after (Some nodes) None D j →
  progresses good (ocOVSDaemonSet h labels ann topology) j
    (λ j' obs, after (Some nodes) (Some nodes) D j' ∧ rolled_out obs).
Proof.
  intros Hj. unfold ocOVSDaemonSet.
  advance_with ocHardened_progress as ? b ->; [apply Hj|]. advance.
  advance_with ocDaemonSet_progress as ? obs [-> (Hroll & Hd & Hr)]. advance. split; [|done].
  unfold oc_set_OVSNumberReady. eapply after_upd; [done|done| | |exact Hj].
  - destruct Hj as [(_ & _ & Hn & _) _]. exact Hn.
  - intros n [= <-]. done.
Qed.

Lemma ocNetworkStatus_progress atts labels D j :
  after (Some nodes) (Some nodes) D j →
  progresses good (ocNetworkStatus atts labels) j
    (λ j' _, after (Some nodes) (Some nodes) (NetworkAttachmentsReadyCondition :: D) j').
Proof.
  intros Hj. unfold ocNetworkStatus. advance. destruct Hr as [[st ->] _]. advance.
  apply oc_markTrue; [cbn; set_solver|].
  eapply after_upd; [done|done| | |exact Hj]; apply Hj.
Qed.

Lemma ocMetrics_progress vars topology D j :
  after (Some nodes) (Some nodes) D j →
  progresses good (ocMetrics vars topology) j (λ j' m,
    after (Some nodes) (Some nodes) D j' ∧ ∀ d, m = Some d → rolled_out d).
Proof.
  intros Hj. unfold ocMetrics. advance. destruct (oc_metrics_on j).
  - unfold ocMetricsOn, createMetricsHashOfInputHashes. advance. destruct r as [vars' err], Hr as [-> _]. advance.
    advance_with storeHash_progress as j1 ? [Hj1 [[h c] ->]]; [apply Hhash|exact Hj|by apply oc_after_hash; set_solver|]. advance.
    advance_with ocDaemonSet_progress as ? obs [-> (Hroll & Hd & Hr)]. advance.
    destruct (Hservice (oc_MetricsService ocMetricsServiceName
      (oc_set_MetricsNumberReady (ds_NumberReady obs) j1) ocMetricsLabels ocMetricsLabels)) as [s ->].
    advance. destruct r as [[res err1] h'], Hr0 as [Heq _]. cbn. cbn in Heq.
    injection Heq as -> ->. rewrite bool_decide_eq_true_2 by done. advance.
    split; [|by intros d [= <-]].
    eapply after_upd; [done|done| | |exact Hj1]; apply Hj1.
  - unfold ocMetricsOff. advance.
    eapply progresses_bind with (Q1 := λ j' _, after (Some nodes) (Some nodes) D j').
    { apply progresses_forM; [done|]. intros j' [kind name] _ Hj'.
      unfold deleteResourceIfExists. advance. destruct Hr as [Hr _]. cbn in Hr.
      destruct r as [e|]; [rewrite (Hr e eq_refl)|]; by advance. }
    intros j' _ Hj'. advance. split; [|done].
    eapply after_upd; [done|done| | |exact Hj']; apply Hj'.
Qed.

Lemma ocRollout_progress d1 d2 m D j :
  rolled_out d1 → rolled_out d2 → (∀ d, m = Some d → rolled_out d) →
  after (Some nodes) (Some nodes) D j →
  progresses good (ocRollout d1 d2 m) j
    (λ j' _, after (Some nodes) (Some nodes) (DeploymentReadyCondition :: D) j').
Proof.
  intros H1 H2 Hm Hj. unfold ocRollout. rewrite (proj2 (allRolledOut_spec d1 d2 m)) by done.
  apply oc_markTrue; [cbn; set_solver|done].
Qed.

(** ** Configuration jobs *)
Lemma ocRunJob_progress job D j :
  after (Some nodes) (Some nodes) D j →
  progresses good (ocRunJob job) j (λ j' _, after (Some nodes) (Some nodes) D j').
Proof.
  intros Hj. unfold ocRunJob. advance.
  destruct r as [[res err] [c h]], Hr as [Heq _]. cbn in Heq. injection Heq as -> ->.
  cbv beta iota. rewrite bool_decide_eq_true_2 by done. cbn [negb]. destruct c; [|by advance].
  advance. assert (is_Some (ocs_Hash (oc_Status j))) as [m Hm] by apply Hj.
  eapply progresses_deref; [exact Hm|]. advance.
  destruct Hj as [Hat Hd]. split; [|done]. change m with (default ∅ (Some m)). rewrite <- Hm.
  refine (oc_after_hash _ _ (ocConfigHashKey job) _ h j Hat). unfold ocConfigHashKey. set_solver.
Qed.

Lemma ocConfigJobs_progress labels D j :
  after (Some nodes) (Some nodes) D j →
  progresses good (ocConfigJobs labels) j (λ j' r,
    after (Some nodes) (Some nodes) (ServiceConfigReadyCondition :: D) j' ∧
    r = (emptyResult, None)).
Proof.
  intros Hj. unfold ocConfigJobs, GetDBClusterByType, getDBClusters. advance.
  destruct Hr as [[items ->] Hdb].
  destruct (Hdb ltac:(by destruct Hj as [[[st ->] _] _]) eq_refl items eq_refl) as (n & c & -> & Hc).
  advance.
  assert (ocs_OVSNumberReady (oc_Status j) = ocs_DesiredNumberScheduled (oc_Status j)) as Hn.
  { destruct Hj as [(_ & _ & Hd & Ho) _]. by rewrite (Hd _ eq_refl), (Ho _ eq_refl). }
  rewrite bool_decide_eq_false_2 by tauto. unfold ConfigJob, getOVNControllerPods. advance.
  destruct Hr as [[pods ->] _]. advance. unfold GetInternalEndpoint.
  rewrite bool_decide_eq_false_2 by done. advance.
  eapply progresses_bind with (Q1 := λ j' _, after (Some nodes) (Some nodes) D j').
  { apply progresses_forM; [done|]. intros. by apply ocRunJob_progress. }
  intros j' _ Hj'. advance_with (oc_markTrue (At := oc_after (Some nodes) (Some nodes))) as j2 ? Hj2;
    [cbn; set_solver|exact Hj'|].
  by advance.
Qed.

(** ** The whole reconciliation *)
Lemma ocReconcileNormal_progress j :
  inputs_stored i vars0 → before [] j →
  progresses good ocReconcileNormal j (λ j' r,
    after (Some nodes) (Some nodes) (oc_types i) j' ∧ r = (emptyResult, None)).
Proof.
  intros Hst Hj. unfold ocReconcileNormal.
  advance_with reconcileRbac_progress as j1 ? H1; [done|exact Hj|].
  advance_with oc_markTrue as j2 ? H2; [cbn; set_solver|exact H1|].
  advance_with ocTLSInputs_progress as j3 tlsVars H3; [exact H2|].
  advance_with ocServiceConfig_progress as j4 hashes H4; [done|exact H3|].
  advance_with ocNetworks_progress as j5 nets H5; [exact H4|].
  unfold reconcileInit, reconcileUpdate, reconcileUpgrade.
  do 3 (advance; rewrite returnUnlessDone_empty). advance.
  advance_with ocTopology_progress as j6 topology H6; [exact H5|].
  advance_with ocOVNDaemonSet_progress as j7 dset [H7 Hd]; [exact H6|].
  advance_with ocOVSDaemonSet_progress as j8 ovsdset [H8 Ho]; [exact H7|].
  advance_with ocNetworkStatus_progress as j9 ? H9; [exact H8|].
  advance_with ocMetrics_progress as j10 m [H10 Hm]; [exact H9|].
  advance_with ocRollout_progress as j11 ? H11; [done..|exact H10|].
  eapply progresses_mono; [|eapply ocConfigJobs_progress; exact H11].
  intros j' r [Hj' ->]. split; [|done]. eapply here_weaken; [|exact Hj'].
  unfold oc_types. destruct (oc_TopologyRef _); cbn; set_solver.
Qed.

(** Hashes that are not stored are, and the reconciliation ends there. *)
Lemma ocReconcileNormal_stores j :
  ¬ inputs_stored i vars0 → before [] j →
  exits good ocReconcileNormal j (λ j' r,
    (here (oc_at i) (oc_types i) [] j' ∧ inputs_stored j' vars0) ∧ r = (emptyResult, None)).
Proof.
  intros Hno Hj. unfold ocReconcileNormal.
  eapply exits_bind; [eapply reconcileRbac_progress; [done|exact Hj]|intros j1 ? H1].
  eapply exits_bind; [eapply oc_markTrue; [cbn; set_solver|exact H1]|intros j2 ? H2].
  eapply exits_bind; [eapply ocTLSInputs_progress; exact H2|intros j3 tlsVars H3].
  apply exits_first. unfold ocServiceConfig.
  eapply exits_bind; [eapply ocGenerate_progress; apply H3|intros ? ? [-> ->]].
  apply exits_first.
  eapply wpM_mono; [|by apply (ocInputHashes_exits _ _ Hno H3)].
  intros tr o Htr Henv. destruct (Htr Henv) as (j' & x & -> & Hh & Hs & ->).
  exists j', (emptyResult, None). split; [done|]. split; [|done]. split; [|done].
  eapply here_weaken; [|exact Hh]. set_solver.
Qed.

(** The status has no conditions but the reconciler's own. *)
Definition oc_own_conditions : Prop :=
  ∀ t, t ≠ ReadyCondition →
    is_Some (status_of t (initConditionsIfNil (ocs_Conditions (oc_Status i)))) → t ∈ oc_types i.

Lemma ocInit_here : oc_own_conditions → before [] (ocInitMaps (ocInitStatus i)).
Proof using CLaws.
  clear -CLaws.
  intros Hown. split; [split; [by eexists|done]|].
  assert (∀ t r m, cond_Type (UnknownCondition t r m) = t) as Ht by (intros; apply Unknown_spec).
  unfold ocInitMaps, ocInitStatus. cbn. apply done_Init; [|exact Hown].
  intros c. unfold ocInitConditions, oc_types. destruct (oc_TopologyRef _); set_solver.
Qed.

Lemma fetch_inj req r r' :
  Ev (GetOVNController_ req) r = Ev (GetOVNController_ req) r' → r = r'.
Proof. intros Heq. apply (f_equal fetched) in Heq. by destruct r, r'; simplify_eq/=. Qed.

Lemma oc_after_stored d o j :
  oc_after d o j → inputs_stored i vars0 → inputs_stored j vars0.
Proof.
  intros (_ & [_ Hk] & _) [(h1 & H1 & E1) (h2 & H2 & E2)].
  split; [exists h1|exists h2]; (split; [done|]); rewrite Hk by set_solver; done.
Qed.

(** A reconciliation of [i] when the hashes of its inputs are stored. *)
Lemma oc_pass {FL : FinalizerLaws L} req tr o :
  inputs_stored i vars0 → managed i → oc_isNew i = false → oc_own_conditions →
  exec (OVNController_Reconcile req) (Ev (GetOVNController_ req) (Okay i) :: tr) o →
  Forall good tr →
  o = Done (emptyResult, None) ∧
  ∃ i', last tr = Some (Ev (PatchInstance (ObjOVNController i')) None) ∧
    here (oc_at i) (oc_types i) [] i' ∧ inputs_stored i' vars0 ∧ oc_isNew i' = false ∧
    OVNController_IsReady i' = true.
Proof.
  intros Hst Hm Hnew Hown Hex Henv.
  destruct (reconcile_progress (good := good) (At := oc_after (Some nodes) (Some nodes))
    (All := oc_types i) (GetOVNController_ req) ocInitStatus ocInitMaps oc_isNew
    ocReconcileNormal i tr o) as (-> & i' & Hlast & [Hat Hd] & Hready).
  all: try done.
  - apply fetch_inj.
  - by apply ocReconcileNormal_progress, ocInit_here.
  - split; [done|]. exists i'. split; [done|]. split; [|split; [by eapply oc_after_stored|split; [|done]]].
    + split; [apply Hat|]. eapply done_weaken; [|exact Hd]. set_solver.
    + apply (status_isNil ReadyCondition). apply IsTrue_status in Hready. by eexists.
Qed.

#[local] Instance oc_at_frame : CondFrame (oc_at i).
Proof. intros c j. apply oc_at_upd. Qed.

(** A reconciliation of [i] when they are not: it stores them. *)
Lemma oc_storing_pass {FL : FinalizerLaws L} req tr o :
  ¬ inputs_stored i vars0 → managed i → oc_isNew i = false → oc_own_conditions →
  exec (OVNController_Reconcile req) (Ev (GetOVNController_ req) (Okay i) :: tr) o →
  Forall good tr →
  o = Done (emptyResult, None) ∧
  ∃ i', last tr = Some (Ev (PatchInstance (ObjOVNController i')) None) ∧
    here (oc_at i) (oc_types i) [] i' ∧ inputs_stored i' vars0 ∧ oc_isNew i' = false.
Proof.
  intros Hst Hm Hnew Hown Hex Henv.
  destruct (reconcile_returns (good := good)
    (λ j, here (oc_at i) (oc_types i) [] j ∧ inputs_stored j vars0)
    (GetOVNController_ req) ocInitStatus ocInitMaps oc_isNew
    ocReconcileNormal i tr o) as (-> & ib & Hlast & Hh & Hs); try done.
  - apply fetch_inj.
  - by apply exits_returns, ocReconcileNormal_stores, ocInit_here.
  - split; [done|]. eexists. split; [exact Hlast|]. split; [by apply here_patched|].
    split; [done|]. exact (patched_not_nil _ ib).
Qed.

(** A managed OVNController that has been reconciled before is patched Ready, and the
    reconciliation ends without an error, when every request succeeds, the hashes of its
    inputs are the stored ones, the DaemonSets run on every node and the SB cluster has
    published its address. *)
Theorem oc_becomes_ready {FL : FinalizerLaws L} req tr o :
  inputs_stored i vars0 → managed i → oc_isNew i = false → oc_own_conditions →
  exec (OVNController_Reconcile req) (Ev (GetOVNController_ req) (Okay i) :: tr) o →
  Forall good tr →
  o = Done (emptyResult, None) ∧
  ∃ i', last tr = Some (Ev (PatchInstance (ObjOVNController i')) None) ∧
    oc_at i i' ∧ OVNController_IsReady i' = true.
Proof.
  intros Hst Hm Hnew Hown Hex Henv.
  destruct (oc_pass _ _ _ Hst Hm Hnew Hown Hex Henv) as (-> & i' & Hl & [Hat _] & _ & _ & Hr).
  split; [done|]. by exists i'.
Qed.
End ctl_progress.
