(* ===== verification/Convergence.v ===== *)
(** * Reconciliations converge

    Runs that follow one another on the object the last one left, with an environment
    in which every request succeeds: the first adds the finalizer, that of an
    OVNController stores the hashes of its inputs in a second, and from then on each run
    leaves the resource Ready and ends without an error. *)
From S2P Require Import Prelude Prog Triples K8s Lib Api ApiMethods Calls Shared.
From S2P Require Import SharedProofs Client DBManifests DBController DBProofs.
From S2P Require Import NorthdController NorthdProofs CtlController CtlProofs CtlPhases.
From S2P Require Import Protocol Lifecycle Progress DBProgress NorthdProgress CtlProgress.
#[local] Open Scope go_scope.

(** ** Chains of steps *)

(** A chain that climbs from [P 0] to [P k] and stays there. *)
Lemma nsteps_climb {A} (R : relation A) (P : nat → A → Prop) k n x y :
  (∀ m x y, m ≤ k → P m x → R x y → P (min (S m) k) y) →
  P 0 x → k ≤ n → nsteps R n x y → P k y.
Proof.
  intros Hstep H0 Hn Hxy.
  assert (∀ n x y m, m ≤ k → P m x → nsteps R n x y → P (min (n + m) k) y) as Hclimb.
  { clear -Hstep. intros n. induction n as [|n IH]; intros x y m Hm Hx Hxy; inversion Hxy; subst.
    - by replace (min (0 + m) k) with m by lia.
    - eapply (IH _ _ (min (S m) k)) in H1; [|lia|by eapply Hstep].
      by replace (min (S n + m) k) with (min (n + min (S m) k) k) by lia. }
  specialize (Hclimb n x y 0 ltac:(lia) H0 Hxy). by replace (min (n + 0) k) with k in Hclimb by lia.
Qed.

(** ** One run after another *)
Section passes.
Context {AT : ApiTypes} {CL : CondLib} {L : Lib} {CLaws : CondLaws CL} {FL : FinalizerLaws L}.
Context {I : Type} {CR : CustomResource I} {OI : IsObject I} {CRL : CustomResourceLaws I}.
Context (fetch : Ext (fallible I)) (prog : prog Ext RE).

Lemma collect_Some i j : collect i = Some j → j = i.
Proof.
  unfold collect. destruct (om_DeletionTimestamp (cr_Meta i)), (om_Finalizers (cr_Meta i));
    by intros [= ->].
Qed.

(** What a run leaves is what it patched last. *)
Lemma pass_patched `{!Inj (=) (=) (to_object (I := I))} i j tr o i' :
  patch_protocol fetch prog → (∀ r, ¬ is_patch (Ev fetch r)) →
  exec prog (Ev fetch (Okay i) :: tr) o → o ≠ Panicked →
  last tr = Some (Ev (PatchInstance (to_object i')) None) →
  after_run i tr (Some j) → j = i'.
Proof.
  intros Hprot Hget Hex Ho Hlast [[_ Hno]|(k & Hin & Hj%eq_sym%collect_Some)].
  - destruct (Hno i'). apply last_Some in Hlast as [l ->]. set_solver.
  - subst k. specialize (Hprot _ _ Hex). destruct o as [x|]; [|done].
    destruct Hprot as [(e & Heq & _)|[(i0 & e & Heq & _)|(i0 & tr' & k & perr & Heq & Hno & _)]];
      apply (inj2 cons) in Heq as [_ ->]; [done|done|].
    change (last (?x :: ?l ++ [?y])) with (last ((x :: l) ++ [y])) in Hlast.
    rewrite last_snoc in Hlast. injection Hlast as Hlast _. apply (inj to_object) in Hlast as ->.
    rewrite elem_of_cons, elem_of_app, list_elem_of_singleton in Hin.
    destruct Hin as [Heq|[Hin|Heq]]; [done| |].
    + by destruct (proj1 (Forall_forall _ _) Hno _ Hin).
    + injection Heq as Heq _. by apply (inj to_object) in Heq.
Qed.
Context (good : I → event Ext → Prop).

(** A run on [i], in an environment good for it, leaves [j]. *)
Definition pass (i j : I) : Prop :=
  ∃ tr o, exec prog (Ev fetch (Okay i) :: tr) o ∧ Forall (good i) tr ∧ after_run i tr (Some j).

(** Each run on the resource ends without an error and leaves it Ready. *)
Definition settled (i : I) : Prop :=
  ∀ tr o, exec prog (Ev fetch (Okay i) :: tr) o → Forall (good i) tr →
    o = Done (emptyResult, None) ∧
    ∃ i', last tr = Some (Ev (PatchInstance (to_object i')) None) ∧
      Conditions_IsTrue ReadyCondition (cr_Conditions i') = true.
End passes.

(** The run that adds the finalizer or initialises the status. *)
Section first.
Context {AT : ApiTypes} {CL : CondLib} {L : Lib} {CLaws : CondLaws CL} {FL : FinalizerLaws L}.
Context {I : Type} {CR : CustomResource I} {OI : IsObject I} {CRL : CustomResourceLaws I}.
Context (good : event Ext → Prop) {Hgood : Succeeds good}.

#[export] Instance has_finalizer_dec i : Decision (has_finalizer i) := list_elem_of_dec _ _.

Definition live (i : I) : Prop := om_DeletionTimestamp (cr_Meta i) = None.

(** The resource with other finalizers, before and after its initial conditions. *)
Definition with_finalizers (fs : list string) (i : I) : I :=
  cr_set_Meta (om_set_Finalizers fs (cr_Meta i)) i.

Lemma first_pass fetch init prepare isNew (normal : Go I RE RE) i tr o :
  (∀ i, cr_Meta (init i) = cr_Meta i) → (∀ i, cr_Meta (prepare i) = cr_Meta i) →
  (∀ r r', Ev fetch r = Ev fetch r' → r = r') →
  live i → ¬ (has_finalizer i ∧ isNew i = false) →
  exec (reconcile fetch init (λ i, reconcileBody (isNew i) prepare normal))
    (Ev fetch (Okay i) :: tr) o →
  Forall good tr →
  o = Done (emptyResult, None) ∧
  ∃ fs saved, GetFinalizer cr_GoKind ∈ fs ∧
    last tr = Some (Ev (PatchInstance
      (to_object (patched saved (with_finalizers fs (init i))))) None).
Proof.
  intros Hinit Hprep Hread Hlive Hfirst Hex Henv.
  destruct (reconcile_ends (good := good)
    (λ ib, ∃ fs, ib = with_finalizers fs (init i) ∧ GetFinalizer cr_GoKind ∈ fs)
    fetch init (λ i, reconcileBody (isNew i) prepare normal) i tr o Hread)
    as (-> & ib & Hlast & fs & -> & Hf); [|done..|].
  - intros tr' ob Hb%reconcileBody_runs _; [|done].
    assert (DeletionTimestamp_IsZero (init i) = true) as Hz
      by (unfold DeletionTimestamp_IsZero; by rewrite Hinit, Hlive).
    assert (has_finalizer (init i) ↔ has_finalizer i) as Hfi by by apply has_finalizer_Meta.
    destruct Hb as [_ Hno|_ Hf|? ? ? _ ? _|? _ ?]; [| |tauto|congruence].
    + eexists. split; [by left|]. eexists. split; [reflexivity|].
      apply elem_of_app. right. by apply list_elem_of_singleton.
    + exists (init i). split; [by left|]. exists (om_Finalizers (cr_Meta (init i))).
      split; [|by apply Hf]. symmetry. apply (cr_set_Finalizers_self (init i)).
  - split; [done|]. by eexists _, _.
Qed.

(** Conditions of the types [All] alone. *)
Definition own (All : list CondType) (i : I) : Prop :=
  ∀ t, t ≠ ReadyCondition →
    is_Some (status_of t (initConditionsIfNil (cr_Conditions i))) → t ∈ All.

Lemma done_own All D i : conds_done All D (cr_Conditions i) → own All i.
Proof.
  intros Hd t Ht [s Hs]. unfold initConditionsIfNil in Hs.
  destruct (Conditions_isNil _); [unfold status_of in Hs; by rewrite Get_empty in Hs|].
  by apply (Hd t s).
Qed.

Lemma first_own All saved fs i :
  conds_done All [] (cr_Conditions i) → own All (patched saved (with_finalizers fs i)).
Proof.
  intros Hd. apply (done_own _ []). intros t s Ht. rewrite status_patched by done.
  unfold with_finalizers. rewrite Cond_Meta. by apply Hd.
Qed.

Lemma first_Meta saved fs i :
  cr_Meta (patched saved (with_finalizers fs i)) = om_set_Finalizers fs (cr_Meta i).
Proof. rewrite patched_Meta. unfold with_finalizers. by rewrite Meta_Meta. Qed.
End first.

(** ** From the first run on *)
Section convergence.
Context {AT : ApiTypes} {CL : CondLib} {L : Lib} {CLaws : CondLaws CL} {FL : FinalizerLaws L}.
Context {I : Type} {CR : CustomResource I} {OI : IsObject I} {CRL : CustomResourceLaws I}.
Context `{!Inj (=) (=) (to_object (I := I))}.

(** The conditions of a resource, what its specification must satisfy, what a run leaves
    in its status, and what has to be there for the run to make it Ready. *)
Context (isNew : I → bool) (types : I → list CondType) (wf stored needs : I → Prop).

Definition tended (i : I) : Prop := live i ∧ own (types i) i ∧ wf i.
Definition started (i : I) : Prop := tended i ∧ has_finalizer i ∧ isNew i = false.
Abbreviation is_ready i := (Conditions_IsTrue ReadyCondition (cr_Conditions i) = true).

(** How far a resource has come. *)
Definition stage (m : nat) (i : I) : Prop :=
  tended i ∧ (1 ≤ m → started i) ∧ (2 ≤ m → stored i) ∧ (3 ≤ m → is_ready i).

Context (fetch : Ext (fallible I)) (init prepare : I → I) (normal : Go I RE RE).
Abbreviation the_reconcile :=
  (reconcile fetch init (λ i, reconcileBody (isNew i) prepare normal)).

(** In an environment that is [good] for it, a run on a resource that was started ends
    without an error, and leaves it Ready if what it needs was there. *)
Record converging (good : I → event Ext → Prop) : Prop := {
  cv_get r : ¬ is_patch (Ev fetch r);
  cv_read r r' : Ev fetch r = Ev fetch r' → r = r';
  cv_init i : cr_Meta (init i) = cr_Meta i;
  cv_prepare i : cr_Meta (prepare i) = cr_Meta i;
  cv_patchless : patchless normal;
  cv_succeeds i : Succeeds (good i);
  cv_first i fs saved : tended i →
    let j := patched saved (with_finalizers fs (init i)) in
    types j = types i ∧ conds_done (types i) [] (cr_Conditions (init i)) ∧ wf j ∧ isNew j = false;
  cv_run i tr o : started i →
    exec the_reconcile (Ev fetch (Okay i) :: tr) o → Forall (good i) tr →
    o = Done (emptyResult, None) ∧
    ∃ k, last tr = Some (Ev (PatchInstance (to_object k)) None) ∧
        started k ∧ stored k ∧ (needs i → is_ready k);
  cv_needs i : stored i → needs i;
}.

Context {good : I → event Ext → Prop} (Hc : converging good).
Abbreviation run := (pass fetch the_reconcile good).
#[local] Instance good_succeeds i : Succeeds (good i) := cv_succeeds good Hc i.

Lemma run_left i j tr o k :
  exec the_reconcile (Ev fetch (Okay i) :: tr) o → o ≠ Panicked →
  last tr = Some (Ev (PatchInstance (to_object k)) None) → after_run i tr (Some j) → j = k.
Proof.
  pose proof (cv_get _ Hc) as Hget. apply pass_patched; [apply _| |done].
  exact (reconcile_patch_protocol fetch init prepare isNew normal Hget (cv_patchless _ Hc)).
Qed.

Lemma stage_climbs m i j : m ≤ 3 → stage m i → run i j → stage (min (S m) 3) j.
Proof.
  intros Hm (Ht & Hs & Hst & _) (tr & o & Hex & Henv & Hafter).
  destruct (decide (has_finalizer i ∧ isNew i = false)) as [Hst'|Hno].
  - destruct (cv_run _ Hc i tr o) as (-> & k & Hlast & Hk & Hsk & Hr); [by split|done|done|].
    rewrite (run_left _ _ _ _ _ Hex ltac:(done) Hlast Hafter).
    split; [apply Hk|]. split; [done|]. split; [done|]. intros H3. apply Hr, (cv_needs _ Hc), Hst. lia.
  - destruct m as [|m]; [|by destruct Hno; apply Hs; lia].
    destruct (first_pass (good i) fetch init prepare isNew normal i tr o)
      as (-> & fs & saved & Hin & Hlast);
      [apply (cv_init _ Hc)|apply (cv_prepare _ Hc)|apply (cv_read _ Hc)|apply Ht|done|done|done|].
    rewrite (run_left _ _ _ _ _ Hex ltac:(done) Hlast Hafter).
    destruct (cv_first _ Hc i fs saved Ht) as (Hty & Hd & Hwf & Hnew).
    assert (tended (patched saved (with_finalizers fs (init i)))) as Ht'.
    { split; [unfold live; rewrite first_Meta, (cv_init _ Hc); apply Ht|]. split; [|done].
      rewrite Hty. by apply first_own. }
    split; [done|]. split; [|split; lia]. intros _. split; [done|]. split; [|done].
    unfold has_finalizer. by rewrite first_Meta.
Qed.

Lemma stage_settled i : stage 2 i → settled fetch the_reconcile good i.
Proof.
  intros (_ & Hs & Hst & _) tr o Hex Henv.
  destruct (cv_run _ Hc i tr o) as (-> & k & Hlast & _ & _ & Hr); [apply Hs; lia|done|done|].
  split; [done|]. exists k. split; [done|]. apply Hr, (cv_needs _ Hc), Hst. lia.
Qed.

Lemma stage_weaken m n i : m ≤ n → stage n i → stage m i.
Proof. intros Hm (Ht & H1 & H2 & H3). split; [done|]. split; [|split]; intros ?; auto with lia. Qed.

(** Three runs are enough, and two when nothing is needed. *)
Lemma converges n i j : tended i → 3 ≤ n → nsteps run n i j → stage 3 j.
Proof.
  intros Ht Hn Hij. apply (nsteps_climb run stage 3 n i j stage_climbs); [|done..].
  split; [done|]. lia.
Qed.

Lemma converges_2 n i j :
  (∀ i, needs i) → tended i → 2 ≤ n → nsteps run n i j → stage 3 j.
Proof.
  intros Hall Ht Hn Hij. destruct n as [|[|n]]; [lia..|].
  apply nsteps_inv_r in Hij as (l & Hil & tr & o & Hex & Henv & Hafter).
  assert (started l) as Hs.
  { inversion Hil as [|? ? k ? Hik Hkl]; subst.
    assert (stage 1 k) as Hk by (apply (stage_climbs 0 i k); [lia|split; [done|lia]|done]).
    assert (∀ m x y, m ≤ 0 → stage 1 x → run x y → stage 1 y) as Hkeep.
    { intros ? x y _ Hx Hxy. apply (stage_weaken 1 2); [lia|]. by apply (stage_climbs 1 x y); [lia|..]. }
    pose proof (nsteps_climb run (λ _, stage 1) 0 n k l Hkeep Hk ltac:(lia) Hkl) as Hl.
    apply Hl. lia. }
  destruct (cv_run _ Hc l tr o Hs Hex Henv) as (-> & k & Hlast & Hk & Hsk & Hr).
  rewrite (run_left _ _ _ _ _ Hex ltac:(done) Hlast Hafter).
  split; [apply Hk|]. split; [done|]. split; [done|]. auto.
Qed.
End convergence.
#[global] Arguments converges {_ _ _ _ _ _ _ _ _ _ _ _ _ _ _ _ _ _ _ _} Hc {n i j}.
#[global] Arguments converges_2 {_ _ _ _ _ _ _ _ _ _ _ _ _ _ _ _ _ _ _ _} Hc {n i j}.
#[global] Arguments stage_climbs {_ _ _ _ _ _ _ _ _ _ _ _ _ _ _ _ _ _ _ _} Hc {m i j}.
#[global] Arguments stage_settled {_ _ _ _ _ _ _ _ _ _ _ _ _ _ _ _} Hc {i}.
#[global] Arguments stage_weaken {_ _ _ _ _ _ _ _ _} m n {i}.

(** ** The three reconcilers *)
Section kinds.
Context {AT : ApiTypes} {CL : CondLib} {L : Lib} {CLaws : CondLaws CL} {TL : TlsLaws L}.
Context {HL : HashLaws L} {FL : FinalizerLaws L}.
Context (Hhash : ∀ vars, ∃ h, ObjectHash (MergeEnvs [] vars) = Okay h).
Context (Hservice : ∀ svc, ∃ h, NewService svc None = Okay h).
Context (Hnetworks : ∀ nads, Forall annotatable nads → ∃ a, EnsureNetworksAnnotation nads = Okay a).

Lemma nd_fetch_inj req r r' : Ev (GetOVNNorthd req) r = Ev (GetOVNNorthd req) r' → r = r'.
Proof. intros Heq. apply (f_equal fetched) in Heq. by destruct r, r'; simplify_eq/=. Qed.

Lemma db_fetch_inj req r r' : Ev (GetOVNDBCluster req) r = Ev (GetOVNDBCluster req) r' → r = r'.
Proof. intros Heq. apply (f_equal fetched) in Heq. by destruct r, r'; simplify_eq/=. Qed.

(** A specification that can be served: of a database of the control plane, and of an
    ovn-northd; that of an OVNController is [oc_wellformed]. *)
Definition db_wellformed (c : OVNDBCluster) : Prop :=
  is_Some (db_Replicas (db_Spec c)) ∧ unexposed c ∧
  ∃ q, ParseQuantity (db_StorageRequest (db_Spec c)) = Okay q.
Definition nd_wellformed (i : OVNNorthd) : Prop :=
  is_Some (nd_Replicas (nd_Spec i)) ∧ is_Some (nd_NThreads (nd_Spec i)).

(** The address is published. *)
Definition db_addressed (c : OVNDBCluster) : Prop := dbs_InternalDBAddress (db_Status c) ≠ "".

(** How far each has come. *)
Definition nd_stage : nat → OVNNorthd → Prop :=
  stage (λ _, false) nd_types nd_wellformed (λ _, True).
Definition db_stage : nat → OVNDBCluster → Prop :=
  stage (λ _, false) db_types db_wellformed db_addressed.
Definition oc_stage (vars : gmap string Setter) : nat → OVNController → Prop :=
  stage oc_isNew oc_types oc_wellformed (λ x, inputs_stored x vars).

Lemma nd_converging req :
  converging (λ _, false) nd_types nd_wellformed (λ _, True) (λ _, True) (GetOVNNorthd req)
    ndInitStatus (λ i, i) ndReconcileNormal nd_favourable.
Proof.
  split; [by intros ? []|apply nd_fetch_inj|done|done|apply ndReconcileNormal_patchless
         |by intros i ev [? _]|..].
  - intros x fs saved (_ & Hown & Hw). split; [done|]. by split; [apply (ndInit_here x Hown)|].
  - intros x tr o ((Hlx & Hox & [[n Hn] [t Ht]]) & Hf & _) Hex Henv.
    destruct (nd_pass x n t Hn Ht Hhash Hservice req tr o)
      as (-> & k & Hlast & [[st ->] Hd] & Hready); [done..|].
    split; [done|]. eexists. split; [exact Hlast|]. split; [|done]. split; [|done].
    split; [done|]. split; [exact (done_own _ _ _ Hd)|]. by split; eexists.
  - done.
Qed.

Lemma db_converging req :
  converging (λ _, false) db_types db_wellformed db_addressed (λ _, True) (GetOVNDBCluster req)
    dbInitStatus (λ i, i) dbReconcileNormal (λ _, db_favourable).
Proof.
  split; [by intros ? []|apply db_fetch_inj|done|done|apply dbReconcileNormal_patchless
         |by intros i ev [? _]|..].
  - intros x fs saved (_ & Hown & Hw). split; [done|]. by split; [apply (dbInit_here x Hown)|].
  - intros x tr o ((Hlx & Hox & Hw) & Hf & _) Hex Henv. destruct Hw as ([n Hn] & Hu & Hq).
    destruct (db_pass x n Hn Hu Hq Hhash Hservice (Hnetworks [] (Forall_nil_2 _)) req tr o)
      as (-> & k & Hlast & [[[st ->] _] Hd] & Ha & Hready); [done..|].
    split; [done|]. eexists. split; [exact Hlast|]. split; [|done]. split; [|done].
    split; [done|]. split; [exact (done_own _ _ _ Hd)|]. by split; [eexists|].
  - done.
Qed.

(** What the reconciler reads of an OVNController to find no fault with it. *)
Lemma oc_wellformed_same i j :
  oc_Spec j = oc_Spec i → om_Annotations (oc_Meta j) = om_Annotations (oc_Meta i) →
  oc_wellformed i → oc_wellformed j.
Proof.
  destruct i as [k m sp st], j as [k' m' sp' st']. cbn. intros -> Ha [H1 H2 H3].
  split; [exact H1|exact H2|]. cbn in *. by rewrite Ha.
Qed.

Lemma oc_converging vars nodes req :
  converging oc_isNew oc_types oc_wellformed (λ x, inputs_stored x vars)
    (λ x, inputs_stored x vars) (GetOVNController_ req) ocInitStatus ocInitMaps ocReconcileNormal (λ x, oc_favourable x vars nodes).
Proof.
  split; [by intros ? []|apply fetch_inj|done|done|apply ocReconcileNormal_patchless
         |by intros i ev [? _]|..].
  - intros x fs saved (_ & Hown & Hs). split; [done|].
    split; [exact (proj2 (ocInit_here x Hown))|].
    split; [by apply (oc_wellformed_same x)|exact (patched_not_nil _ _)].
  - intros x tr o ((Hlx & Hox & Hs) & Hf & Hnew) Hex Henv.
    assert (∀ st, oc_wellformed (mkOVNController (oc_Kind x) (oc_Meta x) (oc_Spec x) st)) as Hwf'
      by (intros st; by apply (oc_wellformed_same x)).
    destruct (decide (inputs_stored x vars)) as [Hst|Hst].
    + destruct (oc_pass x vars nodes Hs Hhash Hservice Hnetworks req tr o)
        as (-> & k & Hlast & [[st ->] Hd] & Hsk & Hnk & Hready); [done..|].
      split; [done|]. eexists. split; [exact Hlast|]. split; [|done].
      split; [|done]. split; [done|]. split; [exact (done_own _ _ _ Hd)|done].
    + destruct (oc_storing_pass x vars nodes Hs Hhash Hservice Hnetworks req tr o)
        as (-> & k & Hlast & [[st ->] Hd] & Hsk & Hnk); [done..|].
      split; [done|]. eexists. split; [exact Hlast|]. split; [|done].
      split; [|done]. split; [done|]. split; [exact (done_own _ _ _ Hd)|done].
  - done.
Qed.

(** C28. From any live OVNNorthd with no condition but its own, two or more
    reconciliations in an environment where every request succeeds, the databases have
    published their addresses and the StatefulSet runs its replicas leave it Ready, and
    every further one ends without an error and leaves it Ready. *)
Theorem nd_converges req n i j :
  nd_wellformed i → live i → nd_own_conditions i → 2 ≤ n →
  nsteps (pass (GetOVNNorthd req) (OVNNorthd_Reconcile req) nd_favourable) n i j →
  OVNNorthd_IsReady j = true ∧
  settled (GetOVNNorthd req) (OVNNorthd_Reconcile req) nd_favourable j.
Proof.
  intros Hw Hl Ho Hn Hij. pose proof (nd_converging req) as Hc.
  apply (converges_2 Hc) in Hij; [|done|by split|done].
  split; [apply Hij; lia|]. by apply (stage_settled Hc), (stage_weaken 2 3); [lia|].
Qed.

(** C29. The same of an OVNDBCluster of the control plane, when its StatefulSet is ready
    and the services of its pods are there; its address is published. *)
Theorem db_converges req n i j :
  db_wellformed i → live i → db_own_conditions i → 2 ≤ n →
  nsteps (pass (GetOVNDBCluster req) (OVNDBCluster_Reconcile req) (λ _, db_favourable)) n i j →
  OVNDBCluster_IsReady j = true ∧ db_addressed j ∧
  settled (GetOVNDBCluster req) (OVNDBCluster_Reconcile req) (λ _, db_favourable) j.
Proof.
  intros Hw Hl Ho Hn Hij. pose proof (db_converging req) as Hc.
  apply (converges_2 Hc) in Hij; [|done|by split|done].
  split; [apply Hij; lia|]. split; [apply Hij; lia|].
  by apply (stage_settled Hc), (stage_weaken 2 3); [lia|].
Qed.

(** C30. The same of an OVNController with a well formed specification after three or
    more reconciliations, when its scripts render alike, its network attachments can be
    annotated, its DaemonSets run on every node and the SB cluster has published its
    address. *)
Theorem oc_converges vars nodes req n i j :
  oc_wellformed i → live i → oc_own_conditions i → 3 ≤ n →
  nsteps (pass (GetOVNController_ req) (OVNController_Reconcile req)
            (λ x, oc_favourable x vars nodes)) n i j →
  OVNController_IsReady j = true ∧
  settled (GetOVNController_ req) (OVNController_Reconcile req)
    (λ x, oc_favourable x vars nodes) j.
Proof.
  intros Hw Hl Ho Hn Hij. pose proof (oc_converging vars nodes req) as Hc.
  apply (converges Hc) in Hij; [|by split|done].
  split; [apply Hij; lia|]. by apply (stage_settled Hc), (stage_weaken 2 3); [lia|].
Qed.
End kinds.
