(* ===== verification/Tending.v ===== *)
(** * What a run leaves of a resource, whatever its environment answers

    A resource that is not being deleted stays stored, with its specification, its
    metadata but for the finalizers, and no condition but the reconciler's own.  The
    one thing assumed is that a resource that names no topology can be let go by its
    former one: a failure of that leaves a condition that nothing removes. *)
From S2P Require Import Prelude Prog Triples K8s Lib Api ApiMethods Calls Shared.
From S2P Require Import SharedProofs Client DBManifests DBController DBProofs.
From S2P Require Import NorthdController NorthdProofs CtlController CtlProofs CtlPhases.
From S2P Require Import Protocol Lifecycle Progress DBProgress NorthdProgress CtlProgress.
From S2P Require Import Convergence.
#[local] Open Scope go_scope.

(** Letting go of a topology when none is named succeeds. *)
Definition drops_topology {AT : ApiTypes} {CL : CondLib} {L : Lib} (ev : event Ext) : Prop :=
  match ev with Ev e r =>
    match e in Ext R return R → Prop with
    | EnsureServiceTopology None _ _ _ => λ r, ∃ t, r = Okay t
    | _ => λ _, True
    end r
  end.

Section tending.
Context {AT : ApiTypes} {CL : CondLib} {L : Lib} {CLaws : CondLaws CL}.
Context {I : Type} {CR : CustomResource I} {OI : IsObject I} {CRL : CustomResourceLaws I}.
Context {At : I → Prop} {SF : StatusFrame At} {All : list CondType}.

(** The conditions are among [All]. *)
Abbreviation within := (here At All []).

Lemma within_Set c i :
  cond_Type c ∈ All → within i → within (updConds (Conditions_Set (Some c)) i).
Proof.
  intros Hc [Hat Hd]. split; [by apply At_Cond|]. unfold updConds. rewrite Cond_Cond.
  intros t s Ht. rewrite status_Set. case_decide as Heq; [|by apply Hd].
  intros _. split; [by subst|]. by intros ?%elem_of_nil.
Qed.

Lemma within_False t r s m i :
  t ∈ All → within i → within (updConds (Conditions_Set (Some (FalseCondition t r s m))) i).
Proof. intros Ht. apply within_Set. by rewrite False_spec. Qed.

Lemma within_MarkTrue t m i :
  t ∈ All → within i → within (updConds (Conditions_MarkTrue t m) i).
Proof. intros Ht. unfold updConds. rewrite MarkTrue_spec. apply within_Set. by destruct (True_spec t m) as [-> _]. Qed.

Lemma within_MarkFalse t r s m i :
  t ∈ All → within i → within (updConds (Conditions_MarkFalse t r s m) i).
Proof. intros Ht. unfold updConds. rewrite MarkFalse_spec. by apply within_False. Qed.

Lemma within_Remove t i : within i → within (updConds (Conditions_Remove t) i).
Proof.
  intros Hi. apply (here_weaken [t]); [by intros ? ?%elem_of_nil|]. destruct Hi as [Hat Hd].
  split; [by apply At_Cond|]. unfold updConds. rewrite Cond_Cond. by apply done_Remove.
Qed.

Lemma within_Topo t i : within i → within (cr_SetLastAppliedTopology t i).
Proof. intros [Hat Hd]. split; [by apply At_Topo|]. by rewrite Cond_Topo. Qed.

Lemma within_shared_one c cs i :
  cr_Conditions i = cs → within i → within (cr_set_Conditions (set_shared c cs) i).
Proof.
  intros <- [Hat Hd]. split; [by apply At_Cond|]. rewrite Cond_Cond. intros t s Ht.
  unfold set_shared. destruct (Conditions_Get _ _) as [c'|] eqn:Hg; [|by apply Hd].
  rewrite status_Set. case_decide as Heq; [|by apply Hd]. intros _.
  split; [|by intros ?%elem_of_nil]. apply (Hd t (cond_Status c')); [done|].
  unfold status_of. by rewrite Heq, Hg.
Qed.

Lemma within_shared (set : Condition → I → I) cs i :
  (∀ c i, set c i = cr_set_Conditions (set_shared c (cr_Conditions i)) i) →
  within i → within (foldl (λ i c, set c i) i cs).
Proof.
  intros Hset. revert i. induction cs as [|c cs IH]; intros i Hi; [done|]. apply IH.
  rewrite Hset. by apply within_shared_one.
Qed.

(** A body that leaves the resource within [All]. *)
Definition tends {X A} (m : Go I X A) (R : A → Prop) : Prop :=
  triple drops_topology (λ _, True) True within m R.

(** The topology is waited for only when one is named. *)
Lemma ensureTopology_tends {Y} finalizer sel (ref : option TopoRef) :
  (∀ i, At i → cs_TopologyRef (cr_Spec i) = ref) →
  (is_Some ref → TopologyReadyCondition ∈ All) →
  tends (fn (Y := Y) (ensureTopology finalizer sel))
    (λ r, ∀ err, r = Fail err → TopologyReadyCondition ∈ All).
Proof.
  intros Href HAll i Hi. unfold ensureTopology. repeat wp_step; cbn; intros Henv.
  all: split; [by apply Forall_true|].
  - split; [|done]. apply within_MarkTrue; [|by apply within_Topo].
    apply HAll. rewrite <- (Href i) by apply Hi. by eexists.
  - split; [by apply within_Topo|done].
  - assert (TopologyReadyCondition ∈ All) as HT.
    { destruct (cs_TopologyRef (cr_Spec i)) as [t|] eqn:Ht.
      - apply HAll. rewrite <- (Href i) by apply Hi. by eexists.
      - apply Forall_cons in Henv as [[t Hr] _]. done. }
    split; [|done]. by apply within_False.
Qed.

(** From the object to the one that is stored afterwards. *)
Definition other_finalizers (i j : I) : Prop := ∃ fs, j = with_finalizers fs i.

End tending.

(** ** The three bodies *)
Section kinds.
Context {AT : ApiTypes} {CL : CondLib} {L : Lib} {CLaws : CondLaws CL}.

(** The resource [i] with another status. *)
Definition db_same (i j : OVNDBCluster) : Prop :=
  ∃ st, j = mkOVNDBCluster (db_Kind i) (db_Meta i) (db_Spec i) st.

#[export] Instance db_same_frame i : StatusFrame (db_same i).
Proof. split; intros ? j [st ->]; by eexists. Qed.
#[export] Instance nd_at_frame i : StatusFrame (nd_at i).
Proof. split; intros ? j; apply nd_at_upd. Qed.
#[export] Instance oc_at_frame i : StatusFrame (oc_at i).
Proof. split; intros ? j; apply oc_at_upd. Qed.

(** The phase that waits for the topology. *)
Lemma topology_tends {I} {CR : CustomResource I} {OI : IsObject I} {CRL : CustomResourceLaws I}
    {At : I → Prop} {SF : StatusFrame At} {All} ref finalizer sel (setError : error → Go I RE unit) :
  (∀ i, At i → cs_TopologyRef (cr_Spec i) = ref) →
  (is_Some ref → TopologyReadyCondition ∈ All) →
  (∀ err, TopologyReadyCondition ∈ All → tends (At := At) (All := All) (setError err) (λ _, True)) →
  tends (At := At) (All := All)
    (let! i := get in
     let! r := fn (ensureTopology (finalizer i) sel) in
     match r with
     | Fail err =>
         do! setError err;
         return_ (emptyResult, Some (Errorf_w "waiting for Topology requirements: " err ""))
     | Okay topology => ret topology
     end) (λ _, True).
Proof.
  intros Href HAll Herr. eapply triple_bind; [apply triple_get|intros i _].
  eapply triple_bind; [by eapply ensureTopology_tends|]. intros [t|err] Hr; [by apply triple_ret|].
  eapply triple_bind; [by apply Herr, (Hr err)|]. intros _ _. by apply triple_return.
Qed.

(** One of the types that every resource of a kind has. *)
Ltac own_type :=
  apply elem_of_app; left; repeat first [apply list_elem_of_here | apply list_elem_of_further].

(** What the steps of a body do to the conditions; [upd] is for the rest of the status. *)
Ltac tending upd :=
  idtac; lazymatch goal with
  | |- here _ _ _ (updConds (Conditions_Set _) _) => apply within_False; [own_type|assumption]
  | |- here _ _ _ (updConds (Conditions_MarkTrue _ _) _) =>
      apply within_MarkTrue; [own_type|assumption]
  | |- here _ _ _ (updConds (Conditions_MarkFalse _ _ _ _) _) =>
      apply within_MarkFalse; [own_type|assumption]
  | |- here _ _ _ (updConds (Conditions_Remove _) _) => apply within_Remove; assumption
  | |- here _ _ _ (foldl _ _ _) => apply within_shared; [done|assumption]
  | |- here _ _ _ _ => upd
  | |- True => exact Logic.I
  end.

Lemma within_upd {I} {CR : CustomResource I} (At : I → Prop) All i j :
  cr_Conditions j = cr_Conditions i → (At i → At j) → here At All [] i → here At All [] j.
Proof. intros Hc Hat [Hi Hd]. split; [auto|by rewrite Hc]. Qed.

Ltac at_upd :=
  idtac; match goal with H : here _ _ [] ?j |- here _ _ [] (_ ?j) =>
    apply (within_upd _ _ j); [reflexivity|intros [? ->]; by eexists|exact H]
  end.

Lemma ndTopology_tends i labels :
  tends (At := nd_at i) (All := nd_types i) (ndTopology labels) (λ _, True).
Proof.
  apply (topology_tends (nd_TopologyRef (nd_Spec i)) (λ i, om_Name (nd_Meta i))).
  - by intros j [st ->].
  - intros [t Ht]. unfold nd_types. rewrite Ht. set_solver.
  - intros err HT. unfold tends. triples fail with (apply within_False; [exact HT|assumption]).
Qed.

Lemma ndReconcileNormal_tends i :
  tends (At := nd_at i) (All := nd_types i) ndReconcileNormal (λ _, True).
Proof.
  unfold tends. triples (idtac; lazymatch goal with |- triple _ _ _ _ (ndTopology _) _ => apply ndTopology_tends end)
    with (tending at_upd).
Qed.

Lemma dbTopology_tends i labels :
  tends (At := db_same i) (All := db_types i) (dbTopology labels) (λ _, True).
Proof.
  apply (topology_tends (db_TopologyRef (db_Spec i)) (λ i, om_Name (db_Meta i))).
  - by intros j [st ->].
  - intros [t Ht]. unfold db_types. rewrite Ht. set_solver.
  - intros err HT. unfold tends. triples fail with (apply within_False; [exact HT|assumption]).
Qed.

(** Normalizing the override of the services does nothing when there is none. *)
Lemma db_same_override i j k :
  db_Override_Service (db_Spec i) = None → db_same i j →
  here (db_same i) (db_types i) [] k →
  here (db_same i) (db_types i) []
    (db_set_Override_Service (normalizeOverride <$> db_Override_Service (db_Spec j)) k).
Proof.
  intros Hi [st ->]. apply within_upd; [reflexivity|]. intros [st' ->]. exists st'.
  unfold db_set_Override_Service. cbn. rewrite Hi. cbn. destruct (db_Spec i). cbn in *. by subst.
Qed.

Lemma dbReconcileNormal_tends i :
  db_Override_Service (db_Spec i) = None →
  tends (At := db_same i) (All := db_types i) dbReconcileNormal (λ _, True).
Proof.
  intros Hi. unfold tends.
  triples (idtac; lazymatch goal with |- triple _ _ _ _ (dbTopology _) _ => apply dbTopology_tends end)
    with
    (tending ltac:(idtac; first [at_upd | by eapply db_same_override; [exact Hi|match goal with H : here _ _ [] _ |- _ => apply H end|]])).
Qed.

Lemma ocTopology_tends i labels :
  tends (At := oc_at i) (All := oc_types i) (ocTopology labels) (λ _, True).
Proof.
  apply (topology_tends (oc_TopologyRef (oc_Spec i)) (λ i, om_Name (oc_Meta i))).
  - by intros j [st ->].
  - intros [t Ht]. unfold oc_types. rewrite Ht. set_solver.
  - intros err HT. unfold tends. triples fail with (apply within_False; [exact HT|assumption]).
Qed.

Lemma ocReconcileNormal_tends i :
  tends (At := oc_at i) (All := oc_types i) ocReconcileNormal (λ _, True).
Proof.
  unfold tends. triples (idtac; lazymatch goal with |- triple _ _ _ _ (ocTopology _) _ => apply ocTopology_tends end)
    with (tending at_upd).
Qed.
End kinds.

(** ** Runs *)
Section runs.
Context {AT : ApiTypes} {CL : CondLib} {L : Lib} {CLaws : CondLaws CL} {FL : FinalizerLaws L}.
Context {I : Type} {CR : CustomResource I} {OI : IsObject I} {CRL : CustomResourceLaws I}.
Context `{!Inj (=) (=) (to_object (I := I))}.
Context (fetch : Ext (fallible I)) (init prepare : I → I) (isNew : I → bool)
  (normal : Go I RE RE).
Context (Hget : ∀ r, ¬ is_patch (Ev fetch r)).
Context (Hread : ∀ r r', Ev fetch r = Ev fetch r' → r = r').
Context (Hprepare : ∀ i, cr_Meta (prepare i) = cr_Meta i).
Context (Hpatchless : patchless normal).

(** The resource with another status, and what is asked of its specification. *)
Context (At : I → I → Prop) (types : I → list CondType) (wf : I → Prop).
Context (Hmeta : ∀ i k, At i k → cr_Meta k = cr_Meta i).
Context (Hkept : ∀ i k fs saved, At i k → wf i →
  let j := patched saved (with_finalizers fs k) in types j = types i ∧ wf j).
Context (Hinit : ∀ i, own (types i) i →
  here (At i) (types i) [] (init i) ∧ here (At i) (types i) [] (prepare (init i))).
Context (Hnormal : ∀ i, wf i → tends (At := At i) (All := types i) normal (λ _, True)).

Abbreviation well := (tended types wf).

Lemma with_finalizers_self k : with_finalizers (om_Finalizers (cr_Meta k)) k = k.
Proof. exact (cr_set_Finalizers_self k). Qed.

Lemma body_well i tr ib x ob :
  well i → body_run (isNew i) prepare normal (init i) tr ob → ended ib x ob →
  Forall drops_topology tr →
  ∃ k fs, here (At i) (types i) [] k ∧ ib = with_finalizers fs k.
Proof.
  intros (Hl & Ho & Hw) Hb He Henv. destruct (Hinit i Ho) as [Hi Hp].
  destruct Hb as [_ _|_ _|trn on _ _ _ Hex|r _ Hz].
  - destruct He as [[= <- _]|?]; [|done]. exists (init i). by eexists.
  - destruct He as [[= <- _]|?]; [|done]. eexists (init i), _. by rewrite with_finalizers_self.
  - destruct (triple_exec _ _ _ _ _ _ _ _ _ (Hnormal i Hw) Hp Hex Henv) as [_ Hon].
    exists ib, (om_Finalizers (cr_Meta ib)). rewrite with_finalizers_self. split; [|done].
    destruct on as [[i' y|i' y]|]; destruct He as [He|He]; try done; injection He as -> ->; tauto.
  - unfold DeletionTimestamp_IsZero in Hz. rewrite (Hmeta _ _ (proj1 Hi)) in Hz.
    unfold live in Hl. by rewrite Hl in Hz.
Qed.

(** Whatever the answers, the resource stays, well tended. *)
Lemma run_well i tr o s :
  well i →
  exec (reconcile fetch init (λ i, reconcileBody (isNew i) prepare normal))
    (Ev fetch (Okay i) :: tr) o →
  Forall drops_topology tr → after_run i tr s → ∃ j, s = Some j ∧ well j.
Proof.
  intros Hi Hex Henv [[-> _]|(j & Hin & ->)]; [by exists i|].
  destruct (reconcile_patched _ _ _ _ _ j None Hget
    (λ j, reconcileBody_patchless (isNew j) _ _ Hpatchless) Hex)
    as (i0 & tr' & ib & x & ob & Hb & He & Htr & -> & _); [rewrite elem_of_cons; by right|].
  apply (inj2 cons) in Htr as [Hi0%Hread ->]. injection Hi0 as <-.
  apply Forall_cons in Henv as [_ Henv]. apply Forall_app in Henv as [Henv _].
  apply reconcileBody_runs in Hb; [|done].
  destruct (body_well _ _ _ _ _ Hi Hb He Henv) as (k & fs & [Hat Hd] & ->).
  set (j := patched _ _). destruct Hi as (Hl & Ho & Hw).
  destruct (Hkept i k fs (initConditionsIfNil (cr_Conditions i)) Hat Hw) as [Hty Hwj].
  assert (live j) as Hlj.
  { unfold live, j. rewrite first_Meta. cbn. rewrite (Hmeta _ _ Hat). exact Hl. }
  exists j. split; [unfold collect; by rewrite Hlj|]. split; [done|]. split; [|done].
  unfold j. rewrite Hty. by apply first_own.
Qed.
End runs.

(** ** The three reconcilers *)
Section reconcilers.
Context {AT : ApiTypes} {CL : CondLib} {L : Lib} {CLaws : CondLaws CL} {FL : FinalizerLaws L}.

(** Well tended, of each kind, and what a run never changes. *)
Definition kept_db (i j : OVNDBCluster) : Prop :=
  db_Spec j = db_Spec i ∧ om_Namespace (db_Meta j) = om_Namespace (db_Meta i).
Definition kept_nd (i j : OVNNorthd) : Prop :=
  nd_Spec j = nd_Spec i ∧ om_Namespace (nd_Meta j) = om_Namespace (nd_Meta i).
Definition kept_oc (i j : OVNController) : Prop :=
  oc_Spec j = oc_Spec i ∧ om_Namespace (oc_Meta j) = om_Namespace (oc_Meta i).
Definition db_well : OVNDBCluster → Prop := tended db_types db_wellformed.
Definition nd_well : OVNNorthd → Prop := tended nd_types nd_wellformed.
Definition oc_well : OVNController → Prop := tended oc_types oc_wellformed.

Lemma nd_run_well req i tr o s :
  nd_well i → exec (OVNNorthd_Reconcile req) (Ev (GetOVNNorthd req) (Okay i) :: tr) o →
  Forall drops_topology tr → after_run i tr s → ∃ j, s = Some j ∧ nd_well j ∧ kept_nd i j.
Proof.
  intros (Hl & Ho & Hw) Hex Henv Hafter.
  enough (∃ j, s = Some j ∧ tended nd_types (λ j, nd_wellformed j ∧ kept_nd i j) j)
    as (j & -> & H1 & H2 & H3 & H4) by (exists j; split; [done|split; [split; [done|by split]|done]]).
  revert Hex Henv Hafter.
  apply (run_well (GetOVNNorthd req) ndInitStatus (λ i, i) (λ _, false) ndReconcileNormal)
    with (At := nd_at);
    [by intros ? []|apply nd_fetch_inj|done|apply ndReconcileNormal_patchless|..].
  - by intros j k [st ->].
  - by intros j k fs saved [st ->].
  - intros j Hj. split; by apply ndInit_here.
  - intros j _. apply ndReconcileNormal_tends.
  - by split.
Qed.

Lemma db_run_well req i tr o s :
  db_well i → exec (OVNDBCluster_Reconcile req) (Ev (GetOVNDBCluster req) (Okay i) :: tr) o →
  Forall drops_topology tr → after_run i tr s → ∃ j, s = Some j ∧ db_well j ∧ kept_db i j.
Proof.
  intros (Hl & Ho & Hw) Hex Henv Hafter.
  enough (∃ j, s = Some j ∧ tended db_types (λ j, db_wellformed j ∧ kept_db i j) j)
    as (j & -> & H1 & H2 & H3 & H4) by (exists j; split; [done|split; [split; [done|by split]|done]]).
  revert Hex Henv Hafter.
  apply (run_well (GetOVNDBCluster req) dbInitStatus (λ i, i) (λ _, false) dbReconcileNormal)
    with (At := db_same);
    [by intros ? []|apply db_fetch_inj|done|apply dbReconcileNormal_patchless|..].
  - by intros j k [st ->].
  - by intros j k fs saved [st ->].
  - intros j Hj. assert (∀ k, here (db_at j) (db_types j) [] k → here (db_same j) (db_types j) [] k)
      as Hweak by (intros k [[? _] ?]; by split).
    split; by apply Hweak, dbInit_here.
  - intros j [(_ & [_ Hov] & _) _]. by apply dbReconcileNormal_tends.
  - by split.
Qed.

Lemma oc_run_well req i tr o s :
  oc_well i → exec (OVNController_Reconcile req) (Ev (GetOVNController_ req) (Okay i) :: tr) o →
  Forall drops_topology tr → after_run i tr s → ∃ j, s = Some j ∧ oc_well j ∧ kept_oc i j.
Proof.
  intros (Hl & Ho & Hw) Hex Henv Hafter.
  enough (∃ j, s = Some j ∧ tended oc_types (λ j, oc_wellformed j ∧ kept_oc i j) j)
    as (j & -> & H1 & H2 & H3 & H4) by (exists j; split; [done|split; [split; [done|by split]|done]]).
  revert Hex Henv Hafter.
  apply (run_well (GetOVNController_ req) ocInitStatus ocInitMaps oc_isNew ocReconcileNormal)
    with (At := oc_at);
    [by intros ? []|apply fetch_inj|done|apply ocReconcileNormal_patchless|..].
  - by intros j k [st ->].
  - intros j k fs saved [st ->] [Hwj Hk]. split; [done|].
    split; [by apply (oc_wellformed_same j)|exact Hk].
  - intros j Hj. destruct (ocInit_here j Hj) as [[Hat _] Hd]. split; [|by split].
    split; [by eexists|exact Hd].
  - intros j _. apply ocReconcileNormal_tends.
  - by split.
Qed.
End reconcilers.
