(* ===== verification/System.v ===== *)
(** * The control plane as one system

    The resources in the API server and the three reconcilers that run on them, in any
    order.  A run reads the databases in the store and stores what it patches; the rest
    of the cluster answers as the surroundings of the system allow.  After any past in
    which no topology was given up in vain, once the surroundings help, every resource
    becomes Ready and stays so. *)
From S2P Require Import Prelude Prog Triples K8s Lib Api ApiMethods Calls Shared.
From S2P Require Import SharedProofs Client DBManifests DBController DBProofs.
From S2P Require Import NorthdController NorthdProofs CtlController CtlProofs CtlPhases.
From S2P Require Import Protocol Lifecycle Progress DBProgress NorthdProgress CtlProgress.
From S2P Require Import Convergence Tending.
#[local] Open Scope go_scope.

#[export] Instance CRKind_countable : Countable CRKind.
Proof.
  apply (inj_countable'
    (λ k, match k with CROVNDBCluster => 0 | CROVNNorthd => 1 | CROVNController => 2 end)
    (λ n, match n with 0 => CROVNDBCluster | 1 => CROVNNorthd | _ => CROVNController end)).
  by intros [].
Defined.

#[export] Instance NamespacedName_countable : Countable NamespacedName.
Proof.
  apply (inj_countable' (λ n, (nn_Namespace n, nn_Name n)) (λ p, mkNamespacedName p.1 p.2)).
  by intros [].
Defined.

Section system.
Context {AT : ApiTypes} {CL : CondLib} {L : Lib}.

(** ** The system *)

Inductive Resource :=
| RDB (c : OVNDBCluster)
| RNorthd (i : OVNNorthd)
| RCtl (i : OVNController).

(** A process is a reconciler at work on one resource. *)
Abbreviation Proc := (CRKind * NamespacedName)%type.
Abbreviation Store := (gmap Proc Resource).

(** What is assumed of the answers that a run gets, from the store it starts in. *)
Abbreviation Surroundings := (Store → Proc → Resource → event Ext → Prop).

(** A run on a resource, and the resource it leaves. *)
Inductive runs_on (env : Surroundings) (s : Store) : Proc → Resource → option Resource → Prop :=
| db_runs req c tr o d :
    exec (OVNDBCluster_Reconcile req) (Ev (GetOVNDBCluster req) (Okay c) :: tr) o →
    Forall (env s (CROVNDBCluster, req) (RDB c)) tr → after_run c tr d →
    runs_on env s (CROVNDBCluster, req) (RDB c) (RDB <$> d)
| northd_runs req i tr o d :
    exec (OVNNorthd_Reconcile req) (Ev (GetOVNNorthd req) (Okay i) :: tr) o →
    Forall (env s (CROVNNorthd, req) (RNorthd i)) tr → after_run i tr d →
    runs_on env s (CROVNNorthd, req) (RNorthd i) (RNorthd <$> d)
| ctl_runs req i tr o d :
    exec (OVNController_Reconcile req) (Ev (GetOVNController_ req) (Okay i) :: tr) o →
    Forall (env s (CROVNController, req) (RCtl i)) tr → after_run i tr d →
    runs_on env s (CROVNController, req) (RCtl i) (RCtl <$> d).

Inductive step (env : Surroundings) (p : Proc) (s : Store) : Store → Prop :=
| step_runs r d : s !! p = Some r → runs_on env s p r d → step env p s (partial_alter (λ _, d) p s).

(** Runs in the order of a schedule. *)
Inductive steps (env : Surroundings) : list Proc → Store → Store → Prop :=
| steps_nil s : steps env [] s s
| steps_cons p l s1 s2 s3 : step env p s1 s2 → steps env l s2 s3 → steps env (p :: l) s1 s3.

(** How often a process runs. *)
Definition turns (p : Proc) (l : list Proc) : nat := length (filter (λ q, q = p) l).

(** ** The surroundings *)

(** Anything may be answered, but that a resource which names no topology fails to let
    go of its former one. *)
Definition arbitrary : Surroundings := λ _ _ _, drops_topology.

(** The databases that the API server lists are those of the store. *)
Definition clusters_in (s : Store) (ns : string) (labels : gmap string string)
    (items : list OVNDBCluster) : Prop :=
  ∀ c, c ∈ items ↔ om_Namespace (db_Meta c) = ns ∧ labels ⊆ om_Labels (db_Meta c) ∧
    ∃ p, s !! p = Some (RDB c).

Definition from_store (s : Store) (others : event Ext → Prop) (ev : event Ext) : Prop :=
  match ev with Ev e r =>
    match e in Ext R return R → Prop with
    | ListOVNDBClusters ns labels => λ r, ∃ items, r = Okay items ∧ clusters_in s ns labels items
    | e => λ r, others (Ev e r)
    end r
  end.

(** Every request succeeds, the scripts render alike, the workloads run. *)
Definition helpful (scripts : NamespacedName → gmap string Setter) (nodes : Z) : Surroundings :=
  λ s p r, from_store s
    match r with
    | RDB _ => db_favourable
    | RNorthd i => nd_favourable i
    | RCtl i => oc_favourable i (scripts p.2) nodes
    end.

(** ** The resources *)
Definition well (r : Resource) : Prop :=
  match r with RDB c => db_well c | RNorthd i => nd_well i | RCtl i => oc_well i end.

Definition ready (r : Resource) : Prop :=
  match r with
  | RDB c => OVNDBCluster_IsReady c = true
  | RNorthd i => OVNNorthd_IsReady i = true
  | RCtl i => OVNController_IsReady i = true
  end.

(** What does not change about a resource: its namespace, and the type of the database
    it is or those of the databases it needs. *)
Definition role (r : Resource) : string * (string + list string) :=
  match r with
  | RDB c => (om_Namespace (db_Meta c), inl (db_DBType (db_Spec c)))
  | RNorthd i => (om_Namespace (nd_Meta i), inr [NBDBType; SBDBType])
  | RCtl i => (om_Namespace (oc_Meta i), inr [SBDBType])
  end.

(** There is a database of each type that a resource needs in its namespace. *)
Definition complete (roles : gmap Proc (string * (string + list string))) : Prop :=
  ∀ p ns needs t, roles !! p = Some (ns, inr needs) → t ∈ needs →
    ∃ q, roles !! q = Some (ns, inl t).

(** ** Schedules *)
Lemma turns_app p l1 l2 : turns p (l1 ++ l2) = turns p l1 + turns p l2.
Proof. unfold turns. by rewrite filter_app, length_app. Qed.

Lemma steps_app env l1 l2 s1 s2 s3 :
  steps env l1 s1 s2 → steps env l2 s2 s3 → steps env (l1 ++ l2) s1 s3.
Proof. induction 1; cbn; eauto using steps. Qed.

(** A run among others: the store it starts in satisfies [G]. *)
Definition local (G : Store → Prop) (env : Surroundings) (p : Proc) (r r' : Resource) : Prop :=
  ∃ s, G s ∧ s !! p = Some r ∧ runs_on env s p r (Some r').

(** Along a schedule each resource takes as many runs as its process has turns. *)
Lemma steps_local (G : Store → Prop) env l s s' :
  (∀ p s s', G s → step env p s s' → G s') →
  (∀ p s r d, G s → s !! p = Some r → runs_on env s p r d → is_Some d) →
  steps env l s s' → G s →
  G s' ∧ ∀ p r, s !! p = Some r → ∃ r', s' !! p = Some r' ∧
    nsteps (local G env p) (turns p l) r r'.
Proof.
  intros HG Hstay. induction 1 as [s|q l s1 s2 s3 Hstep Hsteps IH]; intros Hs.
  { split; [done|]. intros p r Hr. exists r. split; [done|]. constructor. }
  destruct (IH (HG _ _ _ Hs Hstep)) as [Hs3 Hlater]. split; [done|]. intros p r Hr.
  destruct Hstep as [r1 d Hr1 Hrun]. unfold turns. rewrite filter_cons. case_decide as Hp; cbn.
  - subst q. rewrite Hr1 in Hr. injection Hr as ->.
    destruct (Hstay _ _ _ _ Hs Hr1 Hrun) as [r2 ->].
    destruct (Hlater p r2) as (r3 & H3 & Hn); [by rewrite lookup_partial_alter_eq|].
    exists r3. split; [done|]. apply nsteps_l with r2; [by exists s1|exact Hn].
  - destruct (Hlater p r) as (r3 & H3 & Hn); [by rewrite lookup_partial_alter_ne|].
    by exists r3.
Qed.

(** ** Whatever happens *)
Section laws.
Context {CLaws : CondLaws CL} {FL : FinalizerLaws L}.

Lemma run_well_kept s p r d :
  runs_on arbitrary s p r d → well r → ∃ r', d = Some r' ∧ well r' ∧ role r' = role r.
Proof.
  destruct 1 as [req c tr o d Hex Henv Hafter|req i tr o d Hex Henv Hafter|
                 req i tr o d Hex Henv Hafter]; cbn; intros Hw.
  - destruct (db_run_well _ _ _ _ _ Hw Hex Henv Hafter) as (j & -> & Hj & Hs & Hn).
    exists (RDB j). split; [done|]. split; [done|]. cbn. by rewrite Hs, Hn.
  - destruct (nd_run_well _ _ _ _ _ Hw Hex Henv Hafter) as (j & -> & Hj & _ & Hn).
    exists (RNorthd j). split; [done|]. split; [done|]. cbn. by rewrite Hn.
  - destruct (oc_run_well _ _ _ _ _ Hw Hex Henv Hafter) as (j & -> & Hj & _ & Hn).
    exists (RCtl j). split; [done|]. split; [done|]. cbn. by rewrite Hn.
Qed.

(** The resources are well tended, in their roles. *)
Definition tended_store (roles : gmap Proc (string * (string + list string))) (s : Store) : Prop :=
  map_Forall (λ _, well) s ∧ role <$> s = roles.

Lemma tended_alter roles s p r r' :
  tended_store roles s → s !! p = Some r → well r' → role r' = role r →
  tended_store roles (<[p := r']> s).
Proof.
  intros [Hw Hc] Hr Hw' Hrole. split; [by apply map_Forall_insert_2|].
  rewrite fmap_insert, Hrole, insert_id; [done|]. by rewrite lookup_fmap, Hr.
Qed.

Lemma step_tended roles p s s' :
  tended_store roles s → step arbitrary p s s' → tended_store roles s'.
Proof.
  intros Hs [r d Hr Hrun]. destruct (run_well_kept _ _ _ _ Hrun) as (r' & -> & Hw & Hrole).
  { by apply (proj1 Hs p). }
  by apply (tended_alter roles s p r).
Qed.

(** The past of a system: its reconcilers run, whatever is answered, and users change
    its resources, but not their roles. *)
Inductive happens (s : Store) : Store → Prop :=
| happens_run p s' : step arbitrary p s s' → happens s s'
| happens_change p r r' :
    s !! p = Some r → well r' → role r' = role r → happens s (<[p := r']> s).

Lemma history_tended roles s s' : rtc happens s s' → tended_store roles s → tended_store roles s'.
Proof.
  induction 1 as [|s1 s2 s3 Hh _ IH]; [done|]. intros Hs. apply IH.
  destruct Hh as [p s' Hstep|p r r' Hr Hw Hrole]; [by eapply step_tended|by eapply tended_alter].
Qed.
End laws.

(** ** When the surroundings help *)
Section help.
Context {CLaws : CondLaws CL} {TL : TlsLaws L} {HL : HashLaws L} {FL : FinalizerLaws L}.
Context (Hhash : ∀ vars, ∃ h, ObjectHash (MergeEnvs [] vars) = Okay h).
Context (Hservice : ∀ svc, ∃ h, NewService svc None = Okay h).
Context (Hnetworks : ∀ nads, Forall annotatable nads → ∃ a, EnsureNetworksAnnotation nads = Okay a).
Context (scripts : NamespacedName → gmap string Setter) (nodes : Z).
Context (roles : gmap Proc (string * (string + list string))) (Hcomplete : complete roles).

Abbreviation help := (helpful scripts nodes).

Lemma help_succeeded s p r ev : help s p r ev → succeeded ev.
Proof.
  unfold helpful, from_store. destruct ev as [R [] a]; try (by intros (l & -> & _); exists l).
  all: by destruct r; intros [Hs _].
Qed.

Lemma help_arbitrary s p r ev : help s p r ev → arbitrary s p r ev.
Proof.
  intros Hs%help_succeeded. destruct ev as [R [] a]; try exact Logic.I. by destruct ref.
Qed.

Lemma runs_on_weaken (env env' : Surroundings) s p r d :
  (∀ ev, env s p r ev → env' s p r ev) → runs_on env s p r d → runs_on env' s p r d.
Proof.
  intros Henv. destruct 1; econstructor; try eassumption; by eapply Forall_impl.
Qed.

Lemma help_step p s s' : step help p s s' → step arbitrary p s s'.
Proof.
  intros [r d Hr Hrun]. apply (step_runs _ _ _ r); [done|].
  eapply runs_on_weaken, Hrun. intros ev. apply help_arbitrary.
Qed.

(** The databases are up: each has its address. *)
Definition served_store (s : Store) : Prop :=
  tended_store roles s ∧ ∀ p c, s !! p = Some (RDB c) → db_stage 3 c.

Lemma served_addressed s p c : served_store s → s !! p = Some (RDB c) → db_addressed c.
Proof. intros [_ Hs] Hc. apply (Hs p c Hc). lia. Qed.

(** A list of the databases of its namespace has those that a resource needs. *)
Lemma needed_found s p r ns needs t items :
  served_store s → s !! p = Some r → role r = (ns, inr needs) → t ∈ needs →
  clusters_in s ns ∅ items →
  ∃ n c, list_find (λ c, db_DBType (db_Spec c) = t) items = Some (n, c) ∧ db_addressed c.
Proof.
  intros Hs Hr Hrole Ht Hitems. pose proof Hs as [[_ Hroles] _].
  destruct (Hcomplete p ns needs t) as [q Hq]; [|done|].
  { by rewrite <- Hroles, lookup_fmap, Hr, <- Hrole. }
  rewrite <- Hroles, lookup_fmap in Hq. apply fmap_Some in Hq as ([c|i|i] & Hc & Heq); try done.
  injection Heq as -> ->.
  assert (c ∈ items) as Hin.
  { apply Hitems. split; [done|]. split; [apply map_empty_subseteq|by exists q]. }
  destruct (list_find_elem_of (λ c', db_DBType (db_Spec c') = db_DBType (db_Spec c)) items c)
    as [[n c'] Hf]; [done..|].
  exists n, c'. split; [done|]. apply list_find_Some in Hf as (Hl & _ & _).
  apply list_elem_of_lookup_2, Hitems in Hl as (_ & _ & [q' Hq']). by eapply served_addressed.
Qed.

(** ** Runs as those of [Convergence] *)
Lemma db_local G p c r' :
  local G help p (RDB c) r' → ∃ c', r' = RDB c' ∧
    pass (GetOVNDBCluster p.2) (OVNDBCluster_Reconcile p.2) (λ _, db_favourable) c c'.
Proof.
  intros (s & _ & _ & Hrun). inversion Hrun as [req c0 tr o d Hex Henv Hafter| |]; subst.
  destruct d as [c'|]; [|done]. simplify_eq/=. exists c'. split; [done|]. exists tr, o.
  split; [done|]. split; [|done]. eapply Forall_impl; [exact Henv|].
  intros [R [] a]; cbn; try done. by intros (items & -> & _); split; [exists items|].
Qed.

Lemma nd_local p i r' :
  local served_store help p (RNorthd i) r' → ∃ i', r' = RNorthd i' ∧
    pass (GetOVNNorthd p.2) (OVNNorthd_Reconcile p.2) nd_favourable i i'.
Proof.
  intros (s & Hs & Hi & Hrun). inversion Hrun as [|req i0 tr o d Hex Henv Hafter|]; subst.
  destruct d as [i'|]; [|done]. simplify_eq/=. exists i'. split; [done|]. exists tr, o.
  split; [done|]. split; [|done]. eapply Forall_impl; [exact Henv|].
  intros [R [] a]; cbn; try done. intros (items & -> & Hitems). split; [by exists items|].
  intros -> -> ? [= <-] t Ht. by eapply needed_found.
Qed.

Lemma oc_local p i r' :
  local served_store help p (RCtl i) r' → ∃ i', r' = RCtl i' ∧
    pass (GetOVNController_ p.2) (OVNController_Reconcile p.2)
      (λ x, oc_favourable x (scripts p.2) nodes) i i'.
Proof.
  intros (s & Hs & Hi & Hrun). inversion Hrun as [| |req i0 tr o d Hex Henv Hafter]; subst.
  destruct d as [i'|]; [|done]. simplify_eq/=. exists i'. split; [done|]. exists tr, o.
  split; [done|]. split; [|done]. eapply Forall_impl; [exact Henv|].
  intros [R [] a]; cbn; try done. intros (items & -> & Hitems). split; [by exists items|].
  intros -> -> ? [= <-]. eapply needed_found; [done..| |done]. by apply list_elem_of_singleton.
Qed.

Lemma nsteps_image {A B} (R : relation B) (S : relation A) (f : A → B) n x y :
  (∀ x y, R (f x) y → ∃ x', y = f x' ∧ S x x') → nsteps R n (f x) y →
  ∃ x', y = f x' ∧ nsteps S n x x'.
Proof.
  intros HRS. revert x. induction n as [|n IH]; intros x Hxy; inversion Hxy as [|? ? z ? Hxz Hzy]; subst.
  - exists x. split; [done|constructor].
  - apply HRS in Hxz as (x1 & -> & H1). apply IH in Hzy as (x2 & -> & H2).
    exists x2. split; [done|]. by apply nsteps_l with x1.
Qed.

(** ** The databases come first *)
Lemma same_role s s' p r' :
  tended_store roles s → tended_store roles s' → s' !! p = Some r' →
  ∃ r, s !! p = Some r ∧ role r = role r'.
Proof.
  intros [_ Hr] [_ Hr'] Hp. pose proof (f_equal (lookup p) Hr') as Heq.
  rewrite <- Hr, !lookup_fmap, Hp in Heq. destruct (s !! p) as [r|]; [|done].
  exists r. split; [done|]. by injection Heq.
Qed.

Lemma help_tended p s s' : tended_store roles s → step help p s s' → tended_store roles s'.
Proof. intros Hs Hstep%help_step. by eapply step_tended. Qed.

Lemma help_stays p s r d :
  tended_store roles s → s !! p = Some r → runs_on help s p r d → is_Some d.
Proof.
  intros [Hs _] Hr Hrun. destruct (run_well_kept s p r d) as (r' & -> & _); [|by eapply Hs|by eexists].
  eapply runs_on_weaken, Hrun. intros ev. apply help_arbitrary.
Qed.

Lemma databases_served s s' l :
  tended_store roles s → steps help l s s' →
  (∀ p c, s !! p = Some (RDB c) → 3 ≤ turns p l) → served_store s'.
Proof.
  intros Hs Hsteps Hturns.
  destruct (steps_local (tended_store roles) help l s s' help_tended help_stays Hsteps Hs)
    as [Hs' Hlater].
  split; [done|]. intros p c' Hc'.
  destruct (same_role s s' p _ Hs Hs' Hc') as ([c|i|i] & Hc & Hrole); try done.
  destruct (Hlater p (RDB c) Hc) as (r' & Hr' & Hn). rewrite Hc' in Hr'. injection Hr' as <-.
  apply (nsteps_image _ _ RDB _ _ _ (db_local _ p)) in Hn as (x & [= <-] & Hn).
  apply (converges (db_converging Hhash Hservice Hnetworks p.2)) in Hn; [done| |by eapply Hturns].
  exact (proj1 Hs p _ Hc).
Qed.

(** They stay up. *)
Lemma help_served p s s' : served_store s → step help p s s' → served_store s'.
Proof.
  intros [Hs Hdb] Hstep. split; [by eapply help_tended|]. destruct Hstep as [r d Hr Hrun].
  intros q c Hc. destruct (decide (q = p)) as [->|Hne].
  - rewrite lookup_partial_alter_eq in Hc. subst d.
    assert (∃ c0, r = RDB c0) as [c0 ->].
    { destruct (run_well_kept s p r (Some (RDB c))) as (r' & [= <-] & _ & Hrole);
        [eapply runs_on_weaken, Hrun; intros ev; apply help_arbitrary|exact (proj1 Hs p _ Hr)|].
      destruct r; try done. by eexists. }
    destruct (db_local (λ _, True) p c0 (RDB c)) as (c' & [= <-] & Hpass); [by exists s|].
    change 3 with (min 4 3).
    by eapply (stage_climbs (db_converging Hhash Hservice Hnetworks p.2)); [lia|apply (Hdb p)|].
  - rewrite lookup_partial_alter_ne in Hc by done. by apply (Hdb q).
Qed.

Lemma served_stays p s r d :
  served_store s → s !! p = Some r → runs_on help s p r d → is_Some d.
Proof. intros [Hs _]. by apply help_stays. Qed.

Lemma stage_ready_db c : db_stage 3 c → ready (RDB c).
Proof. intros (_ & _ & _ & H3). apply H3. lia. Qed.

(** Then the others. *)
Lemma others_ready s s' l :
  served_store s → steps help l s s' → (∀ p, is_Some (s !! p) → 3 ≤ turns p l) →
  tended_store roles s' ∧ map_Forall (λ _, ready) s'.
Proof.
  intros Hs Hsteps Hturns.
  destruct (steps_local served_store help l s s' help_served served_stays Hsteps Hs)
    as [Hs' Hlater].
  split; [apply Hs'|]. intros p r' Hr'.
  destruct (same_role s s' p _ (proj1 Hs) (proj1 Hs') Hr') as (r & Hr & _).
  destruct (Hlater p r Hr) as (x & Hx & Hn). rewrite Hr' in Hx. injection Hx as <-.
  assert (well r) as Hw by exact (proj1 (proj1 Hs) p _ Hr).
  assert (3 ≤ turns p l) as Ht by (apply Hturns; by exists r).
  destruct r as [c|i|i].
  - destruct (nsteps_image _ _ RDB _ _ _ (db_local _ p) Hn) as (x & -> & _).
    apply stage_ready_db, (proj2 Hs' p), Hr'.
  - apply (nsteps_image _ _ RNorthd _ _ _ (nd_local p)) in Hn as (x & -> & Hn).
    apply (converges (nd_converging Hhash Hservice p.2)) in Hn; [|done..].
    destruct Hn as (_ & _ & _ & H3). apply H3. lia.
  - apply (nsteps_image _ _ RCtl _ _ _ (oc_local p)) in Hn as (x & -> & Hn).
    apply (converges (oc_converging Hhash Hservice Hnetworks (scripts p.2) nodes p.2)) in Hn; [|done..].
    destruct Hn as (_ & _ & _ & H3). apply H3. lia.
Qed.
End help.

(** C27. The control plane as one system of databases that are not exposed, ovn-northds
    and OVNControllers with well formed specifications, whose reconcilers take turns.  After
    any past in which runs are answered anything, save that letting go of a topology no
    longer named succeeds, and users keep the resources well formed and in their roles: once
    the surroundings help, that is every request succeeds, the workloads run and the network
    attachments can be annotated, and each database has had three turns, and then each
    resource three, in any order and among any others, every resource is Ready, in its role.
    Any longer schedule is one too, so they stay Ready. *)
Theorem control_plane_converges {CLaws : CondLaws CL} {TL : TlsLaws L} {HL : HashLaws L}
    {FL : FinalizerLaws L} scripts nodes s0 s1 s2 s3 l1 l2 :
  (∀ vars, ∃ h, ObjectHash (MergeEnvs [] vars) = Okay h) →
  (∀ svc, ∃ h, NewService svc None = Okay h) →
  (∀ nads, Forall annotatable nads → ∃ a, EnsureNetworksAnnotation nads = Okay a) →
  map_Forall (λ _, well) s0 → complete (role <$> s0) → rtc happens s0 s1 →
  steps (helpful scripts nodes) l1 s1 s2 → (∀ p c, s1 !! p = Some (RDB c) → 3 ≤ turns p l1) →
  steps (helpful scripts nodes) l2 s2 s3 → (∀ p, is_Some (s2 !! p) → 3 ≤ turns p l2) →
  role <$> s3 = role <$> s0 ∧ map_Forall (λ _, ready) s3.
Proof.
  intros Hhash Hservice Hnetworks Hw Hc Hpast H1 Ht1 H2 Ht2.
  assert (tended_store (role <$> s0) s1) as Hs1 by by eapply history_tended.
  destruct (others_ready Hhash Hservice Hnetworks scripts nodes (role <$> s0) Hc s2 s3 l2)
    as [[_ Hr] Hready]; [by eapply databases_served|done..].
Qed.
End system.
