(* ===== verification/Endpoints.v ===== *)
(** * The addresses the clients of the databases are given

    The three reconcilers meet in the status of the OVNDBClusters: the database
    reconciler publishes the addresses of the pods there, ovn-northd and the
    configuration jobs of OVNController are started with what they read.  Whatever the
    users do to the clusters and however the runs follow one another, that is the
    addresses of the services of a database whose StatefulSet was ready. *)
From S2P Require Import Prelude Prog Triples K8s Lib Api ApiMethods Calls Shared.
From S2P Require Import SharedProofs Client Mounts DBManifests DBController DBProofs DBManifestProofs.
From S2P Require Import NorthdManifests NorthdController NorthdProofs NorthdManifestProofs.
From S2P Require Import CtlManifests CtlController CtlProofs.
#[local] Open Scope go_scope.

Section endpoints.
Context {AT : ApiTypes} {CL : CondLib} {L : Lib} {CLaws : CondLaws CL} {FL : FinalizerLaws L}.

Abbreviation address c := (dbs_InternalDBAddress (db_Status c)).
Abbreviation db_type c := (db_DBType (db_Spec c)).

(** ** What a run of the database reconciler publishes *)

(** The requests that [items] and [stateful] answer. *)
Definition observed_in (stateful : StatefulSetObs) (items : list Service)
    (tr : list (event Ext)) : Prop :=
  (∃ sts timeout, Ev (StatefulSetCreateOrPatch sts timeout) (emptyResult, None, stateful) ∈ tr) ∧
  (∃ ns labels, Ev (GetServicesListWithLabel ns labels) (Okay items) ∈ tr).

(** The address of [c] is the one of the services of a ready StatefulSet, both seen in
    [tr]. *)
Definition addressed_in (c : OVNDBCluster) (tr : list (event Ext)) : Prop :=
  ∃ stateful items, observed_in stateful items tr ∧
    statefulset_IsReady stateful = true ∧ items ≠ [] ∧ db_addressed c items.

Lemma addressed_in_app c tr1 tr2 : addressed_in c tr2 → addressed_in c (tr1 ++ tr2).
Proof.
  intros (st & items & [(sts & t & H1) (ns & ls & H2)] & Hrest). exists st, items.
  split; [|done]. split; eexists _, _; apply elem_of_app; right; eassumption.
Qed.

(** A body that ends with the address of [c], or with a new one. *)
Definition publishes_from (c : OVNDBCluster) (K : OVNDBCluster → list (event Ext) → Prop)
    (tr : list (event Ext)) (o : outcome (mres OVNDBCluster RE RE)) : Prop :=
  ∀ c' x, ended c' x o → db_type c' = db_type c ∧ (address c' = address c ∨ K c' tr).

(** Nothing new so far. *)
Definition unchanged (c c' : OVNDBCluster) : Prop :=
  db_type c' = db_type c ∧ address c' = address c.

Lemma publishes_from_mono c (K K' : OVNDBCluster → list (event Ext) → Prop) tr tr' o :
  (∀ c', K c' tr → K' c' tr') → publishes_from c K tr o → publishes_from c K' tr' o.
Proof. intros HK Ho c' x He. destruct (Ho c' x He) as [? [?|?]]; auto. Qed.

Lemma unchanged_rbac c cs i :
  unchanged c i → unchanged c (foldl (λ i c, OVNDBCluster_RbacConditionsSet c i) i cs).
Proof. revert i. induction cs as [|a cs IH]; intros i Hi; [done|]. by apply IH. Qed.

Ltac unchanging :=
  unfold keeps; triples fail with (first [exact Logic.I | by apply unchanged_rbac]).

(** A phase that leaves the address alone. *)
Ltac skip K :=
  eapply (wpM_skip (λ _, True) (unchanged _) (publishes_from _ K));
    [ intros ? ? ? [? ?] ? ? [[=]|[=]]; subst; by split; [|left]
    | by intros ? ? ? []
    | intros ? ? ?; apply publishes_from_mono; intros ?
    | unchanging
    | eassumption | cbn beta; intros ? ? ? ].

Lemma dbDeploymentStatus_publishes stateful items sn c i :
  unchanged c i →
  wpM (dbDeploymentStatus stateful items sn) i (λ tr o,
    publishes_from c (λ c' _, statefulset_IsReady stateful = true ∧ items ≠ [] ∧
                              db_addressed c' items) tr o).
Proof.
  intros [Ht Ha]. unfold dbDeploymentStatus.
  destruct (statefulset_IsReady stateful) eqn:Hready; cbn [andb];
    [case_bool_decide as Hitems|].
  2,3: unfold dbDeploymentRunning, setCond; repeat wp_step; cbn; intros c' x [[=]|[=]]; subst;
    by split; [|left].
  apply wpM_bind. cbn [wpM markTrue modify wp]. apply wpM_bind. cbn [wpM markTrue modify wp].
  apply wpM_bind. cbn [wpM get wp]. apply wpM_bind.
  match goal with |- wpM _ ?i1 _ => set (i2 := i1) end.
  eapply wpM_mono; [|apply (internalDbAddresses_spec i2)].
  intros tr [[? ?|i3 addrs]|]; [done| |intros _ i' x [|]; done]. intros [-> Haddrs].
  apply wpM_bind. cbn [wpM modify wp]. apply wpM_bind.
  set (i4 := db_set_InternalDBAddress (strings_Join addrs ",") i2).
  assert (triple (λ _, True) (λ _, True) True
    (λ c', db_type c' = db_type c ∧ db_addressed c' items) (dbExternalConfig sn) (λ _, True)) as Hext
    by (triples fail with idtac).
  eapply wpM_mono; [|apply (Hext i4)]; [|by split; [|exists addrs]].
  intros tr' o Ho. specialize (Ho ltac:(by apply Forall_true)) as [_ Ho].
  destruct o as [[i5 x5|i5 []]|]; cbn; intros i' x [[=]|[=]]; subst; (split; [tauto|right; tauto]).
Qed.

(** After the workload. *)
Definition listed_for (stateful : StatefulSetObs) (c : OVNDBCluster) (tr : list (event Ext))
    : Prop :=
  ∃ items, (∃ ns labels, Ev (GetServicesListWithLabel ns labels) (Okay items) ∈ tr) ∧
    statefulset_IsReady stateful = true ∧ items ≠ [] ∧ db_addressed c items.

Lemma listed_for_app stateful c tr1 tr2 : listed_for stateful c tr2 → listed_for stateful c (tr1 ++ tr2).
Proof. intros (items & (ns & ls & Hin) & H). exists items. split; [exists ns, ls; solve_in|done]. Qed.

Lemma dbServiceList_unchanged labels c i :
  unchanged c i →
  wpM (dbServiceList labels) i (λ tr o,
    match o with
    | Done (Exit i' _) => unchanged c i'
    | Done (Cont i' items) => unchanged c i' ∧
        ∃ ns labels, Ev (GetServicesListWithLabel ns labels) (Okay items) ∈ tr
    | Panicked => True
    end).
Proof.
  intros Hi. unfold dbServiceList, dbConditionError, setCond.
  repeat wp_step; cbn; try done. split; [done|]. eexists _, _. solve_in.
Qed.

Lemma dbWorkload_unchanged hash labels ann topo c i :
  unchanged c i →
  wpM (dbWorkload hash labels ann topo) i (λ tr o,
    match o with
    | Done (Exit i' _) => unchanged c i'
    | Done (Cont i' st) => unchanged c i' ∧
        ∃ sts timeout, Ev (StatefulSetCreateOrPatch sts timeout) (emptyResult, None, st) ∈ tr
    | Panicked => True
    end).
Proof.
  intros Hi. unfold dbWorkload, lift_go, dbDeploymentRunning, dbConditionError, setCond.
  repeat wp_step; cbn; try done.
  split; [done|]. case_bool_decide; [|done]. subst. eexists _, _. solve_in.
Qed.

Lemma unchanged_publishes c K tr i x : unchanged c i → publishes_from c K tr (Done (Exit i x)).
Proof. intros [? ?] c' x' [[=]|[=]]; subst. by split; [|left]. Qed.

Lemma dbListed_publishes stateful items sn labels c i :
  unchanged c i →
  wpM (do! dbRuntimeConfig stateful sn labels; dbDeploymentStatus stateful items sn) i
    (λ tr o, Forall (λ _, True) tr →
      publishes_from c (λ c' _, statefulset_IsReady stateful = true ∧ items ≠ [] ∧
                                db_addressed c' items) tr o).
Proof.
  intros Hi. skip (λ c' (_ : list (event Ext)), statefulset_IsReady stateful = true ∧ items ≠ [] ∧
                                db_addressed c' items); [done|].
  eapply wpM_mono; [|by apply dbDeploymentStatus_publishes]. by intros tr o Ho _.
Qed.

Lemma dbWorkload_publishes stateful nas sn labels c i :
  unchanged c i →
  wpM (do! dbPDB sn labels;
       do! dbExpose sn labels;
       do! dbNetworkStatus stateful nas labels;
       let! items := dbServiceList labels in
       do! dbRuntimeConfig stateful sn labels;
       dbDeploymentStatus stateful items sn) i
    (λ tr o, Forall (λ _, True) tr → publishes_from c (listed_for stateful) tr o).
Proof.
  intros Hi. do 3 (skip (listed_for stateful); [apply listed_for_app|]).
  apply wpM_bind. eapply wpM_mono; [|by apply dbServiceList_unchanged].
  intros tr [[i1 x1|i1 items]|]; cbn beta iota; [|intros [Hp (ns & ls & Hin)]|by intros _ _ ? ? []].
  - intros Hp _. by apply unchanged_publishes.
  - eapply wpM_mono; [|by apply dbListed_publishes].
    intros tr' o Ho [_ Henv]%Forall_app. eapply publishes_from_mono; [|by apply Ho].
    intros c' Hc'. exists items. split; [exists ns, ls; solve_in|done].
Qed.

Lemma dbReconcileNormal_publishes c i :
  unchanged c i →
  wpM dbReconcileNormal i (λ tr o, Forall (λ _, True) tr → publishes_from c addressed_in tr o).
Proof.
  intros Hi. unfold dbReconcileNormal. skip addressed_in; [apply addressed_in_app|].
  apply wpM_get. do 11 (skip addressed_in; [apply addressed_in_app|]).
  apply wpM_bind. eapply wpM_mono; [|by apply dbWorkload_unchanged].
  intros tr [[i1 x1|i1 stateful]|]; cbn beta iota; [|intros [Hp (sts & t & Hin)]|by intros _ _ ? ? []].
  - intros Hp _. by apply unchanged_publishes.
  - eapply wpM_mono; [|by apply dbWorkload_publishes].
    intros tr' o Ho [_ Henv]%Forall_app. eapply publishes_from_mono; [|by apply Ho].
    intros c' (items & (ns & ls & Hin') & Hrest). exists stateful, items.
    split; [|done]. split; [exists sts, t|exists ns, ls]; solve_in.
Qed.

(** A run that patches the cluster leaves its address, or publishes a new one. *)
Lemma run_publishes req c tr o c' perr :
  exec (OVNDBCluster_Reconcile req) (Ev (GetOVNDBCluster req) (Okay c) :: tr) o →
  Ev (PatchInstance (ObjOVNDBCluster c')) perr ∈ tr →
  db_type c' = db_type c ∧ (address c' = address c ∨ addressed_in c' tr).
Proof.
  intros Hex Hin.
  destruct (reconcile_patched (GetOVNDBCluster req) dbInitStatus
    (λ _, reconcileBody false (λ i, i) dbReconcileNormal)
    (Ev (GetOVNDBCluster req) (Okay c) :: tr) o c' perr)
    as (j & tr' & ib & x & ob & Hb & He & Htr & -> & _);
    [by intros ? []|intros _; apply reconcileBody_patchless, dbReconcileNormal_patchless|done
    |by apply elem_of_cons; right|].
  apply (inj2 cons) in Htr as [Hj ->]. apply (f_equal fetched) in Hj as [= <-].
  assert (unchanged c (dbInitStatus c)) as Hc by done.
  assert (∀ saved, db_type (patched saved ib) = db_type ib ∧
    address (patched saved ib) = address ib) as Hp by done.
  assert (∀ saved items, db_addressed ib items → db_addressed (patched saved ib) items) as Hpa by done.
  apply reconcileBody_runs in Hb; [|done].
  destruct Hb as [_ _|? _|trn on _ _ _ Hn|r _ _].
  - destruct He as [[=]|?]; [|done]. subst. by split; [|left].
  - destruct He as [[=]|?]; [|done]. subst. by split; [|left].
  - assert (ended ib x on) as Hon.
    { destruct on as [[i1 y|i1 y]|]; destruct He as [[=]|[=]]; subst; first [by left|by right]. }
    pose proof (proj1 (wp_exec _ _) (dbReconcileNormal_publishes c _ Hc) _ _ Hn) as Hpub.
    destruct (Hpub ltac:(by apply Forall_true) ib x Hon) as [Ht Ha].
    split; [done|]. destruct Ha as [Ha|(st & items & Hobs & H1 & H2 & H3)]; [by left|right].
    exists st, items. split; [|by auto]. destruct Hobs as [(sts & t & E1) (ns & ls & E2)].
    split; eexists _, _; rewrite !elem_of_cons, !elem_of_app; eauto.
  - destruct He as [?|[=]]; [done|]. subst. unfold deleted. by destruct (r.2); (split; [|left]).
Qed.

(** ** The clusters in the API server *)

(** The OVNDBClusters that can be stored: a new one has no address; users change all of
    one but its status and its type, the other writers of the status leave its address;
    and a run stores what it patches. *)
Inductive db_stored : OVNDBCluster → Prop :=
| stored_created c : address c = "" → db_stored c
| stored_changed c c' :
    db_stored c → address c' = address c → db_type c' = db_type c → db_stored c'
| stored_patched req c tr o c' :
    db_stored c →
    exec (OVNDBCluster_Reconcile req) (Ev (GetOVNDBCluster req) (Okay c) :: tr) o →
    Ev (PatchInstance (ObjOVNDBCluster c')) None ∈ tr →
    db_stored c'.

(** [a] is the address that a run published for a cluster of type [t], from the services
    of a StatefulSet that was ready. *)
Definition served (t a : string) : Prop :=
  ∃ req c tr o c',
    exec (OVNDBCluster_Reconcile req) (Ev (GetOVNDBCluster req) (Okay c) :: tr) o ∧
    Ev (PatchInstance (ObjOVNDBCluster c')) None ∈ tr ∧
    db_type c = t ∧ address c' = a ∧ addressed_in c' tr.

Lemma stored_served c : db_stored c → address c = "" ∨ served (db_type c) (address c).
Proof.
  induction 1 as [c Hc|c c' _ IH Ha Ht|req c tr o c' _ IH Hex Hin]; [by left|by rewrite Ha, Ht|].
  destruct (run_publishes _ _ _ _ _ _ Hex Hin) as [Ht [Ha|Ha]]; rewrite Ht.
  - by rewrite Ha.
  - right. by exists req, c, tr, o, c'.
Qed.

(** ** The clients *)

(** The clusters a run is told of are stored. *)
Definition lists_stored (ev : event Ext) : Prop :=
  match ev with Ev e r =>
    match e in Ext R return R → Prop with
    | ListOVNDBClusters _ _ => λ r, ∀ items, r = Okay items → Forall db_stored items
    | _ => λ _, True
    end r
  end.

Lemma listed_served ns ls items c tr :
  Forall lists_stored tr → Ev (ListOVNDBClusters ns ls) (Okay items) ∈ tr → c ∈ items →
  address c ≠ "" → served (db_type c) (address c).
Proof.
  intros Hst Hin Hc Ha. apply (proj1 (Forall_forall _ _) Hst) in Hin.
  specialize (Hin items eq_refl). apply (proj1 (Forall_forall _ _) Hin), stored_served in Hc.
  by destruct Hc.
Qed.

Lemma endpoint_served i t a tr l :
  Forall lists_stored l → tr ⊆ l → endpoint_found i t a tr → served t a.
Proof.
  intros Hst Hsub (items & n & c & Hin & Hf & <- & Ha).
  apply list_find_Some in Hf as (Hl & <- & _).
  eapply listed_served; eauto using list_elem_of_lookup_2.
Qed.

(** What the StatefulSet of ovn-northd, the pods of which connect to [nb] and [sb]. *)
Definition northd_connects (sts : StatefulSetDef) (nb sb : string) : Prop :=
  ∃ c, head (containers_of sts) = Some c ∧
    "--ovnnb-db=" +:+ nb ∈ c_Args c ∧ "--ovnsb-db=" +:+ sb ∈ c_Args c.

(** The job makes the node connect to [sb]. *)
Definition node_connects (j : Job) (sb : string) : Prop :=
  ∃ c, c ∈ ps_Containers (job_Spec j) ∧ mkEnvVar "OVNRemote" sb None ∈ c_Env c.

Lemma northd_args {VL : VolumeLaws L} i ls nb sb vars topology sts :
  nd_StatefulSet i ls nb sb vars topology = GOk sts → northd_connects sts nb sb.
Proof.
  intros Hs. destruct (nd_StatefulSet_parts _ _ _ _ _ _ _ Hs)
    as (? & n & m & _ & _ & _ & Hc & _ & Ha & _).
  exists m. rewrite Hc, Ha. unfold nd_args. split; [done|]. split; solve_in.
Qed.

Lemma job_env {EL : EnvLaws L} i labels sb pod : node_connects (ovnConfigJob i labels sb pod) sb.
Proof.
  eexists. split; [by left|]. cbn [c_Env]. apply MergeEnvs_SetValue; [by apply not_elem_of_nil|].
  unfold ovnConfigEnv. by rewrite !lookup_insert_ne, lookup_insert_eq by done.
Qed.

(** What the northd reconciler and the one of the nodes look at before they write. *)
Lemma northd_guarded req sts tr o :
  exec (OVNNorthd_Reconcile req) tr o →
  guarded (λ t _, ∃ i, nd_sts_inputs i sts t) (creates_sts sts) tr.
Proof.
  apply (reconcile_guarded _ ndInitStatus (λ i, i) (λ _, false)); try done.
  - intros [R []]; cbn; tauto.
  - intros i Hi _. eapply wpM_mono; [|apply (ndReconcileNormal_workload sts i); by eexists].
    intros tr' o'. cbn beta. apply guarded_mono. intros t _ _ Ht. exists i.
    eapply nd_sts_inputs_mono; [|exact Ht]. intros ev Hev. solve_in.
Qed.

Lemma jobs_guarded req tr o :
  exec (OVNController_Reconcile req) tr o →
  guarded (λ t ev, ∃ i, jobs_allowed i t ev) runs_job tr.
Proof.
  apply (reconcile_guarded _ ocInitStatus ocInitMaps oc_isNew); try done.
  - intros [R []]; cbn; tauto.
  - intros i Hi _. eapply wpM_mono; [|apply (ocReconcileNormal_jobs i), oc_at_init].
    intros tr' o'. cbn beta. apply guarded_mono. intros t ev _ Ht.
    exists i. by apply (jobs_allowed_app i [_; _]).
Qed.

(** C32. Whatever clusters are stored: ovn-northd is started with, and the nodes are
    configured for, addresses that a database reconciler published for a cluster of the
    right type from the services of a StatefulSet that was ready. *)
Theorem clients_use_served_addresses {VL : VolumeLaws L} {EL : EnvLaws L} req tr o :
  Forall lists_stored tr →
  (exec (OVNNorthd_Reconcile req) tr o → ∀ sts timeout r,
     Ev (StatefulSetCreateOrPatch sts timeout) r ∈ tr →
     ∃ nb sb, northd_connects sts nb sb ∧ served NBDBType nb ∧ served SBDBType sb) ∧
  (exec (OVNController_Reconcile req) tr o → ∀ job kind keep wait hash r,
     Ev (DoJob job kind keep wait hash) r ∈ tr →
     ∃ sb, node_connects job sb ∧ served SBDBType sb).
Proof.
  intros Hst. split.
  - intros Hex sts timeout r (t1 & t2 & ->)%list_elem_of_split.
    apply (northd_guarded _ sts) in Hex.
    destruct (Hex t1 _ t2 eq_refl eq_refl)
      as (i & nb & sb & vars & vars' & h & last & topo & Hnb & Hsb & _ & _ & _ & Hs).
    exists nb, sb. split; [by eapply northd_args|].
    split; eapply endpoint_served; [exact Hst| |exact Hnb|exact Hst| |exact Hsb]; set_solver.
  - intros Hex%jobs_guarded job kind keep wait hash r (t1 & t2 & ->)%list_elem_of_split.
    destruct (Hex t1 _ t2 eq_refl Logic.I)
      as (i & _ & items & c & sb & pods & Hl & Hc & Ht & Hsb & _ & pod & _ & ->).
    exists sb. split; [apply job_env|].
    unfold GetInternalEndpoint in Hsb. case_bool_decide as Ha; [done|]. injection Hsb as <-.
    rewrite <- Ht. eapply listed_served; [exact Hst| |exact Hc|exact Ha].
    apply elem_of_app. left. exact Hl.
Qed.
End endpoints.
