(* ===== verification/Budget.v ===== *)
(** * How many requests a reconciliation makes

    The loops of the three reconcilers run over the specification and over what the API
    server lists, so that a reconciliation ends after a number of requests that is linear
    in both.  [costs] bounds the length of the trace of a body by its syntax. *)
From S2P Require Import Prelude Prog Triples K8s Lib Api ApiMethods Calls Shared.
From S2P Require Import SharedProofs Client DBManifests DBController CtlNetworks.
From S2P Require Import CtlManifests CtlController NorthdManifests NorthdController.
From S2P Require Import CtlNetworksProofs CtlProofs.
#[local] Open Scope go_scope.

(** ** Bounds by syntax *)
Section costs.
Context {E : Type → Type} {S : Type}.
Context (Env : event E → Prop) (I : S → Prop).

(** At most [n] events, in an environment [Env]; [I] is kept, and [R] holds of a value
    with which control goes on. *)
Definition costs {X A} (n : nat) (m : M E S X A) (R : A → Prop) : Prop :=
  ∀ s, I s → wpM m s (λ tr o, Forall Env tr → length tr ≤ n ∧
    match o with
    | Done (Exit s' _) => I s'
    | Done (Cont s' a) => I s' ∧ R a
    | Panicked => True
    end).

Context {X : Type}.

Lemma costs_ret {A} n (a : A) (R : A → Prop) : R a → costs (X := X) n (ret a) R.
Proof. intros Ha s HI _. split; [cbn; lia|done]. Qed.

Lemma costs_return {A} n (x : X) (R : A → Prop) : costs n (return_ x) R.
Proof. intros s HI _. split; [cbn; lia|done]. Qed.

Lemma costs_panic {A} n (R : A → Prop) : costs (X := X) n panic R.
Proof. intros s HI _. split; [cbn; lia|done]. Qed.

Lemma costs_get n : costs (X := X) n get I.
Proof. intros s HI _. split; [cbn; lia|done]. Qed.

Lemma costs_modify n f (R : unit → Prop) :
  (∀ s, I s → I (f s)) → R tt → costs (X := X) n (modify f) R.
Proof. intros Hf HR s HI _. split; [cbn; lia|]. cbn. auto. Qed.

Lemma costs_deref {A} n (p : option A) (R : A → Prop) :
  (∀ a, p = Some a → R a) → costs (X := X) n (deref p) R.
Proof. intros Ha. destruct p; [by apply costs_ret, Ha|apply costs_panic]. Qed.

Lemma costs_call {T} n (e : E T) (R : T → Prop) :
  1 ≤ n → (∀ r, Env (Ev e r) → R r) → costs (X := X) n (call e) R.
Proof. intros Hn He s HI r [Henv _]%Forall_cons. split; [cbn; lia|]. auto. Qed.

Lemma costs_bind {A B} c n (m : M E S X A) (f : A → M E S X B) R1 R2 :
  costs c m R1 → c ≤ n → (∀ a, R1 a → costs (n - c) (f a) R2) → costs n (bind m f) R2.
Proof.
  intros Hm Hn Hf s HI. apply wpM_bind. eapply wpM_mono; [|by apply Hm].
  intros tr [[s' x|s' a]|] Htr; cbn in *;
    [intros Henv; specialize (Htr Henv); split; [lia|tauto]| |
     intros Henv; specialize (Htr Henv); split; [lia|done]].
  apply wp_exec. intros tr' o Hex [He1 He2]%Forall_app. destruct (Htr He1) as (Hl & HI' & HR).
  destruct (proj1 (wp_exec _ _) (Hf a HR s' HI') tr' o Hex He2) as [Hl2 Ho].
  rewrite length_app. split; [lia|done].
Qed.

Lemma costs_mono {A} c n (m : M E S X A) (R1 R2 : A → Prop) :
  (∀ a, R1 a → R2 a) → c ≤ n → costs c m R1 → costs n m R2.
Proof.
  intros HR Hn Hm s HI. eapply wpM_mono; [|by apply Hm].
  intros tr [[|]|] Htr Henv; destruct (Htr Henv) as [Hl Ho]; (split; [lia|]); intuition auto.
Qed.

(** Each turn of a loop costs [c]; [R k] holds after [k] turns. *)
Lemma costs_foldM {A B} c k n (body : B → A → M E S X B) (R : nat → B → Prop) acc l :
  R k acc → (∀ k acc x, x ∈ l → R k acc → costs c (body acc x) (R (1 + k))) →
  length l * c ≤ n → costs n (foldM body acc l) (R (k + length l)).
Proof.
  revert k acc n. induction l as [|x l IH]; intros k acc n Hacc Hbody Hn; cbn in *.
  - rewrite Nat.add_0_r. by apply costs_ret.
  - apply (costs_bind c _ _ _ (R (1 + k))); [by apply Hbody; [left|]|lia|]. intros acc' Hacc'.
    replace (k + Datatypes.S (length l)) with ((1 + k) + length l) by lia.
    apply IH; [done| |lia]. intros. apply Hbody; [by right|done].
Qed.

Lemma costs_forM {A} c n (body : A → M E S X unit) l :
  (∀ x, x ∈ l → costs c (body x) (λ _, True)) → length l * c ≤ n →
  costs n (forM l body) (λ _, True).
Proof.
  intros Hbody Hn. by apply (costs_foldM c 0 n (λ _ x, body x) (λ _ _, True) tt l); auto.
Qed.

Lemma costs_fn {Y} n (m : M E S X X) (R : X → Prop) :
  (∀ x, R x) → costs n m (λ _, True) → costs (X := Y) n (fn m) R.
Proof.
  intros HR Hm s HI. apply wpM_fn. eapply wpM_mono; [|by apply Hm].
  intros tr [[|]|] Htr Henv; destruct (Htr Henv); intuition auto.
Qed.

(** What a function returns, when another lemma says it. *)
Lemma costs_fn_returns {Y} n (m : M E S X X) (R : X → Prop) :
  costs n m (λ _, True) →
  (∀ s, wpM m s (λ _ o, ∀ s' x, o = Done (Exit s' x) ∨ o = Done (Cont s' x) → R x)) →
  costs (X := Y) n (fn m) R.
Proof.
  intros Hm HR s HI. apply wpM_fn. apply wp_exec. intros tr o Hex.
  pose proof (proj1 (wp_exec _ _) (Hm s HI) tr o Hex) as Hc.
  pose proof (proj1 (wp_exec _ _) (HR s) tr o Hex) as Hr. cbv beta in *.
  destruct o as [[s' x|s' x]|]; intros Henv; destruct (Hc Henv) as [Hl Ho]; (split; [done|]);
    [|destruct Ho|done]; eauto.
Qed.
End costs.

(** The rule of the last construct; a bound statement takes what its own bound says,
    tried from 0 up to a few events. *)
Ltac cost_step :=
  lazymatch goal with
  | |- costs _ _ _ (bind get _) _ => eapply (costs_bind _ _ 0); [apply costs_get|lia|intros ? ?]
  | |- costs ?Env _ _ (bind (call ?e) _) _ =>
      apply (costs_bind _ _ 1 _ _ _ (λ r, Env (Ev e r)));
        [apply costs_call; [lia|intros ? ?; assumption]|lia|intros ? ?]
  | |- costs _ _ _ (ret _) _ => apply costs_ret
  | |- costs _ _ _ (return_ _) _ => apply costs_return
  | |- costs _ _ _ panic _ => apply costs_panic
  | |- costs _ _ _ (modify _) _ => apply costs_modify; [intros ? ?|]
  | |- costs _ _ _ (call _) _ => apply costs_call; [lia|intros ? ?]
  | |- costs _ _ _ (deref _) _ => apply costs_deref; intros ? ?
  | |- costs _ _ _ (fn _) _ => apply costs_fn; [intros ?|]
  | |- costs _ _ _ (match ?x with _ => _ end) _ => destruct x eqn:?
  | |- costs _ _ _ (let _ := _ in _) _ => cbv zeta
  | |- costs _ _ _ (foldM _ _ _) _ => fail
  | |- costs _ _ _ (forM _ _) _ => fail
  | |- costs _ _ _ (bind _ _) _ => fail
  | |- costs _ _ _ ?m _ =>
      let rec head t := lazymatch t with ?f _ => head f | _ => t end in
      let h := head m in unfold h
  end.
Ltac cost_bound c := apply (costs_bind _ _ c _ _ _ (λ _, True)); [|lia|intros ? _].
Tactic Notation "costing" tactic3(known) "with" tactic3(leaf) :=
  let rec go := repeat first [known | cost_step
      | first [cost_bound 0; [solve [go; leaf]|] | cost_bound 1; [solve [go; leaf]|]
              | cost_bound 2; [solve [go; leaf]|] | cost_bound 3; [solve [go; leaf]|]]] in
  go; try done; leaf.

(** ** The shared code *)
Section shared.
Context {AT : ApiTypes} {CL : CondLib} {L : Lib} {FL : FinalizerLaws L}.
Context {I : Type} {CR : CustomResource I} {OI : IsObject I} {CRL : CustomResourceLaws I}.

(** Reading the resource, the helper and the patch are three more. *)
Lemma reconcile_costs Env (Inv : I → Prop) n fetch init prepare isNew (normal : Go I RE RE)
    i tr o :
  (∀ i, cr_Meta (prepare i) = cr_Meta i) → (∀ r r', Ev fetch r = Ev fetch r' → r = r') →
  1 ≤ n → Inv (prepare (init i)) → costs Env Inv n normal (λ _, True) →
  exec (reconcile fetch init (λ i, reconcileBody (isNew i) prepare normal))
    (Ev fetch (Okay i) :: tr) o →
  Forall Env tr → length (Ev fetch (Okay i) :: tr) ≤ 3 + n.
Proof.
  intros Hprep Hread Hn Hi Hnormal Hex Henv.
  assert (∀ tr' ob, exec (reconcileBody (isNew i) prepare normal (init i)) tr' ob →
    Forall Env tr' → length tr' ≤ n) as Hbody.
  { intros tr' ob Hb He. apply reconcileBody_runs in Hb; [|done].
    destruct Hb as [_ _|_ _|trn on _ _ _ Hrun|r _ _]; cbn; try lia.
    by apply (proj1 (wp_exec _ _) (Hnormal _ Hi) _ _ Hrun He). }
  apply reconcile_runs in Hex. remember (Ev fetch (Okay i) :: tr) as tr0 eqn:Htr.
  destruct Hex as [err|j err|j tr' Hb|j tr' ib x ob perr Hb He];
    apply (inj2 cons) in Htr as [Hj <-]; apply Hread in Hj; simplify_eq; cbn; [lia| |].
  - apply Forall_cons in Henv as [_ Henv]. specialize (Hbody _ _ Hb Henv). lia.
  - apply Forall_cons in Henv as [_ Henv]. apply Forall_app in Henv as [Henv _].
    specialize (Hbody _ _ Hb Henv). rewrite length_app. cbn. lia.
Qed.
End shared.

(** ** OVNNorthd *)
Section northd.
Context {AT : ApiTypes} {CL : CondLib} {L : Lib}.
Context (i : OVNNorthd).

Definition nd_spec_kept (j : OVNNorthd) : Prop := nd_Spec j = nd_Spec i.
Abbreviation nd_costs := (costs (S := OVNNorthd) (λ _, True) nd_spec_kept).
Lemma nd_spec_rbac cs j :
  nd_spec_kept j → nd_spec_kept (foldl (λ i c, OVNNorthd_RbacConditionsSet c i) j cs).
Proof. revert j. induction cs as [|c cs IH]; intros j Hj; [done|]. by apply IH. Qed.

Ltac nd_costing := costing fail with (try first [done | by apply nd_spec_rbac]).

Lemma cleanupExtraServices_costs {X} r :
  nd_costs (2 * Z.to_nat (32 - r)) (cleanupExtraServices (X := X) r) (λ _, True).
Proof.
  unfold cleanupExtraServices. cost_step. apply (costs_forM _ _ 2).
  - intros x _. nd_costing.
  - rewrite length_seqZ. lia.
Qed.

Definition nd_replicas : Z := default 0%Z (nd_Replicas (nd_Spec i)).

Lemma reconcileMetricsServices_costs ls :
  nd_costs (Z.to_nat nd_replicas + 2 * Z.to_nat (32 - nd_replicas))
    (reconcileMetricsServices ls) (λ _, True).
Proof.
  unfold reconcileMetricsServices. cost_step.
  match goal with H : nd_spec_kept _ |- _ => rewrite H end. fold nd_replicas.
  apply (costs_bind _ _ (Z.to_nat nd_replicas) _ _ _ (λ _, True)); [|lia|intros ? _].
  - apply (costs_forM _ _ 1); [|rewrite length_seqZ; lia]. intros x _. nd_costing.
  - eapply costs_bind; [apply cleanupExtraServices_costs|lia|intros ? _]. nd_costing.
Qed.

Lemma ndMetrics_costs ls :
  nd_costs (Z.to_nat nd_replicas + 64 + 2 * Z.to_nat (- nd_replicas)) (ndMetrics ls) (λ _, True).
Proof.
  unfold ndMetrics. cost_step. destruct (nd_metrics_on _).
  - cost_bound (Z.to_nat nd_replicas + 2 * Z.to_nat (32 - nd_replicas)); [|nd_costing].
    apply costs_fn; [done|]. apply reconcileMetricsServices_costs.
  - eapply costs_bind; [apply cleanupExtraServices_costs|lia|intros ? _]. nd_costing.
Qed.

Lemma ndReconcileNormal_costs :
  nd_costs (76 + Z.to_nat nd_replicas + 2 * Z.to_nat (- nd_replicas)) ndReconcileNormal
    (λ _, True).
Proof.
  unfold ndReconcileNormal.
  costing (idtac; lazymatch goal with
    | |- costs _ _ _ (ndMetrics _) _ => eapply costs_mono; [| |apply ndMetrics_costs]; [done|]
    end) with (try first [done | by apply nd_spec_rbac]).
  lia.
Qed.
End northd.

(** ** OVNDBCluster *)
Section dbcluster.
Context {AT : ApiTypes} {CL : CondLib} {L : Lib}.
Context (N : nat) (i : OVNDBCluster).

(** Nothing listed has more than [N] elements. *)
Definition sized (ev : event Ext) : Prop :=
  match ev with Ev e r =>
    match e in Ext R return R → Prop with
    | ClientsetListPods _ _ | ListPods _ _ => λ r, ∀ l, r = Okay l → length l ≤ N
    | GetServicesListWithLabel _ _ => λ r, ∀ l, r = Okay l → length l ≤ N
    | _ => λ _, True
    end r
  end.

Definition db_replicas_kept (j : OVNDBCluster) : Prop :=
  db_Replicas (db_Spec j) = db_Replicas (db_Spec i).
Definition db_excess : nat := Z.to_nat (- default 0%Z (db_Replicas (db_Spec i))).
Abbreviation db_costs := (costs (S := OVNDBCluster) sized db_replicas_kept).

Lemma db_replicas_rbac cs j :
  db_replicas_kept j → db_replicas_kept (foldl (λ i c, OVNDBCluster_RbacConditionsSet c i) j cs).
Proof. revert j. induction cs as [|c cs IH]; intros j Hj; [done|]. by apply IH. Qed.

Ltac db_leaf := try first [done | by apply db_replicas_rbac | intros ? ->; done].
Tactic Notation "db_costing_by" tactic3(known) := costing known with db_leaf.
Ltac db_costing := db_costing_by fail.

Lemma podService_costs name pod : db_costs 3 (podService name pod) (λ _, True).
Proof. db_costing. Qed.

Lemma deleteExtraServices_costs name ls :
  db_costs (1 + N + db_excess) (deleteExtraServices name ls) (λ _, True).
Proof.
  unfold deleteExtraServices. do 2 cost_step. destruct a0 as [items|e]; [|db_costing].
  match goal with H : sized _, Hr : db_replicas_kept _ |- _ =>
    specialize (H items eq_refl); rewrite Hr end.
  apply (costs_bind _ _ 0 _ _ _ (λ r, db_Replicas (db_Spec i) = Some r)); [|lia|intros r Hr].
  - by apply costs_deref.
  - apply (costs_forM _ _ 1); [intros x _; db_costing|].
    unfold downTo, db_excess. rewrite length_fmap, length_seq, Hr. cbn. lia.
Qed.

Lemma externalDNS_costs name ls pods :
  length pods ≤ N → db_costs (1 + N) (externalDNS name ls pods) (λ _, True).
Proof.
  intros Hpods. unfold externalDNS. cost_step. cost_bound 0; [db_costing|]. cbv zeta.
  destruct (bool_decide _); [apply costs_panic|].
  eapply costs_bind; [apply (costs_foldM _ _ 1 0 N _ (λ _ _, True))|lia|intros [svc ips] _].
  - done.
  - intros _ acc pod _ _. db_costing.
  - rewrite length_take. lia.
  - db_costing.
Qed.

Lemma dbReconcileServices_costs ls name :
  db_costs (6 + 5 * N + db_excess) (dbReconcileServices ls name) (λ _, True).
Proof.
  unfold dbReconcileServices. cost_bound 2; [db_costing|]. cost_bound 1; [db_costing|]. cost_step.
  apply (costs_bind _ _ 1 _ _ _ (λ r, ∀ l, r = Okay l → length l ≤ N)); [|lia|intros r Hr].
  { unfold OVNDBPods. cost_step. done. }
  apply (costs_bind _ _ 0 _ _ _ (λ l : list Pod, length l ≤ N)); [|lia|intros pods Hpods].
  { destruct r; [by apply costs_ret, Hr|apply costs_return]. }
  cost_bound (3 * N). { apply (costs_forM _ _ 3); [intros; apply podService_costs|lia]. }
  eapply costs_bind; [apply deleteExtraServices_costs|lia|intros ? _]. cost_step. cbv zeta.
  cost_bound (1 + N); [|db_costing].
  destruct (_ && _); [by apply externalDNS_costs|]. cost_bound 1; db_costing.
Qed.

(** One request of the clock at most, and one job, for each pod. *)
Lemma createConsolidatedConfigJobs_costs {X} c pods ls ttl changed (s : OVNDBCluster) :
  wpM (X := X) (createConsolidatedConfigJobs c pods ls ttl changed) s (λ tr o, ∃ jobs,
    o = Done (Cont s jobs) ∧ length tr ≤ length pods ∧ length jobs ≤ length pods).
Proof.
  apply (wpM_foldM _ (λ dn jobs s' tr,
    s' = s ∧ length tr ≤ length dn ∧ length jobs ≤ length dn)); [done| |naive_solver].
  intros dn pod rest jobs s' tr _ (-> & Htr & Hjobs).
  repeat wp_step; cbn; rewrite ?length_app; cbn; (split; [done|lia]).
Qed.

Lemma RuntimeConfigJobs_costs c ls name changed :
  costs (X := option error) sized db_replicas_kept (1 + N)
    (fn (RuntimeConfigJobs c ls name changed)) (λ r, ∀ jobs, r = Okay jobs → length jobs ≤ N).
Proof.
  intros s Hs. apply wpM_fn. unfold RuntimeConfigJobs, getOVNDBClusterPods. apply wpM_bind.
  cbn. intros [pods|e]; [|cbn; intros _; split; [lia|done]].
  apply wpM_bind. eapply wpM_mono; [|by apply createConsolidatedConfigJobs_costs].
  intros tr o (jobs & -> & Htr & Hjobs). cbn. rewrite ?app_nil_r.
  intros [Hp _]%Forall_cons. specialize (Hp pods eq_refl).
  split; [lia|]. split; [done|]. intros ? [= <-]. lia.
Qed.

Lemma dbRuntimeConfig_costs st name ls :
  db_costs (2 + 2 * N) (dbRuntimeConfig st name ls) (λ _, True).
Proof.
  unfold dbRuntimeConfig. cost_step. cost_bound 0; [db_costing|].
  destruct (_ && _); [|db_costing]. cost_bound (2 + 2 * N); [|db_costing].
  apply costs_fn; [done|]. unfold reconcileRuntimeConfig. cost_step.
  destruct (ObjectHash _); [|db_costing]. destruct (bool_decide _); [db_costing|]. cbv zeta.
  cost_bound 0; [db_costing|]. cost_bound 0; [db_costing|]. cost_bound 1; [db_costing|].
  destruct a5; [db_costing|]. cost_step.
  eapply costs_bind; [apply RuntimeConfigJobs_costs|lia|intros [jobs|e] Hjobs; [|db_costing]].
  specialize (Hjobs jobs eq_refl). cost_bound N; [|db_costing].
  unfold submitConfigJobs. apply (costs_foldM _ _ 1 0 _ _ (λ _ _, True)); [done| |lia].
  intros k acc job _ _. db_costing.
Qed.

Lemma dbDeploymentStatus_costs st items name :
  length items ≤ N → db_costs (N + 2) (dbDeploymentStatus st items name) (λ _, True).
Proof.
  intros Hitems. unfold dbDeploymentStatus. destruct (_ && _); [|db_costing].
  do 2 (cost_bound 0; [db_costing|]). cost_step. cost_bound N.
  - apply (costs_foldM _ _ 1 0 _ _ (λ _ _, True)); [done| |lia]. intros k acc svc _ _. db_costing.
  - db_costing.
Qed.

Lemma dbReconcileNormal_costs :
  db_costs (21 + 8 * N + db_excess) dbReconcileNormal (λ _, True).
Proof.
  unfold dbReconcileNormal.
  db_costing_by (idtac; lazymatch goal with
    | |- costs _ _ _ (bind (dbExpose _ _) _) _ =>
        cost_bound (6 + 5 * N + db_excess); [unfold dbExpose;
          cost_bound (6 + 5 * N + db_excess); [apply costs_fn; [done|]; apply dbReconcileServices_costs
                                              |db_costing]|]
    | |- costs _ _ _ (bind (dbServiceList _) _) _ =>
        apply (costs_bind _ _ 1 _ _ _ (λ l : list Service, length l ≤ N)); [|lia|intros items Hitems]
    | |- costs _ _ _ (bind (dbRuntimeConfig _ _ _) _) _ =>
        eapply costs_bind; [apply dbRuntimeConfig_costs|lia|intros ? _]
    | |- costs _ _ _ (dbDeploymentStatus _ _ _) _ =>
        eapply costs_mono; [| |by apply dbDeploymentStatus_costs]; [done|]
    end).
  - match goal with H : sized _ |- _ => exact (H _ eq_refl) end.
  - lia.
Qed.
End dbcluster.

(** ** OVNController *)
Section ovncontroller.
Context {AT : ApiTypes} {CL : CondLib} {L : Lib}.
Context (N : nat) (i : OVNController).

Definition oc_spec_kept (j : OVNController) : Prop := oc_Spec j = oc_Spec i.

(** The networks of the specification, and the links of its largest bond. *)
Definition oc_networks : nat := 1 + size (oc_NicMappings (oc_Spec i)).
Definition oc_links : nat :=
  map_fold (λ _ b n, max (length (bond_Links b)) n) 0 (oc_BondConfiguration (oc_Spec i)).

Lemma oc_links_max k b :
  oc_BondConfiguration (oc_Spec i) !! k = Some b → length (bond_Links b) ≤ oc_links.
Proof.
  unfold oc_links. generalize (oc_BondConfiguration (oc_Spec i)) as m.
  intros m. revert k b. apply (map_fold_weak_ind (λ r m, ∀ k b, m !! k = Some b → length (bond_Links b) ≤ r)).
  - done.
  - intros k' b' m' r _ IH k b [[<- <-]|[_ Hk]]%lookup_insert_Some; [lia|].
    specialize (IH _ _ Hk). lia.
Qed.

Lemma linksOf_bound j k : oc_spec_kept j → length (bond_Links (bondAt j k)) ≤ oc_links.
Proof.
  unfold bondAt. intros ->. destruct (_ !! k) as [b|] eqn:Hb; [by eapply oc_links_max|cbn; lia].
Qed.

Abbreviation oc_costs := (costs (S := OVNController) (sized N) oc_spec_kept).

Lemma oc_spec_rbac cs j :
  oc_spec_kept j → oc_spec_kept (foldl (λ i c, OVNController_RbacConditionsSet c i) j cs).
Proof. revert j. induction cs as [|c cs IH]; intros j Hj; [done|]. by apply IH. Qed.

Ltac oc_leaf := try first [done | by apply oc_spec_rbac | intros ? ->; done].
Tactic Notation "oc_costing_by" tactic3(known) := costing known with oc_leaf.
Ltac oc_costing := oc_costing_by fail.

Lemma createOrUpdate_costs {S X} Env (Inv : S → Prop) j labels net config :
  costs (X := X) Env Inv 2 (createOrUpdateNetworkAttachmentDefinition j labels net config)
    (λ _, True).
Proof. costing fail with (try done). Qed.

Lemma createLinkNADs_costs {S} Env (Inv : S → Prop) j labels links :
  costs Env Inv (2 * length links) (createLinkNADs j labels links) (λ _, True).
Proof.
  unfold createLinkNADs. cost_bound (2 * length links); [|by apply costs_ret].
  apply (costs_foldM _ _ 2 0 _ _ (λ _ _, True)); [done| |lia]. intros _ acc x _ _.
  cost_bound 2; [apply createOrUpdate_costs|]. costing fail with (try done).
Qed.

Lemma additionalNetwork_costs {S} Env (Inv : S → Prop) j labels na keys acc k :
  oc_spec_kept j →
  costs Env Inv (2 + 2 * oc_links) (additionalNetwork j labels na keys acc k) (λ _, True).
Proof.
  intros Hj. unfold additionalNetwork. destruct (slices_Contains na k); [by apply costs_ret|].
  cbv zeta. pose proof (linksOf_bound j (nicAt j k) Hj) as Hb.
  cost_bound (2 * oc_links).
  - destruct (slices_Contains _ _); [|by apply costs_ret].
    destruct (bool_decide _); [apply costs_return|].
    cost_bound (2 * oc_links); [|costing fail with (try done)].
    apply costs_fn; [done|]. eapply costs_mono; [done| |apply createLinkNADs_costs]. lia.
  - cost_bound 2; [apply createOrUpdate_costs|]. costing fail with (try done).
Qed.

Lemma keys_of_length j na :
  oc_spec_kept j → length na ≤ 1 → length (keys_of j na) ≤ oc_networks.
Proof.
  intros Hj Hna. unfold keys_of, oc_networks. rewrite sort_Strings_perm, length_app, Hj.
  unfold maps_Keys. rewrite length_fmap, length_map_to_list. lia.
Qed.

Lemma networks_of_length j na k : oc_spec_kept j → length (networks_of j na k) ≤ 1 + oc_links.
Proof.
  intros Hj. unfold networks_of. destruct (slices_Contains na k); [cbn; lia|].
  rewrite length_fmap. unfold made_of. destruct (slices_Contains na k); [cbn; lia|].
  destruct (is_bond j k); [|cbn; lia]. rewrite length_app, length_fmap. cbn.
  pose proof (linksOf_bound j (nicAt j k) Hj). unfold linksOf. lia.
Qed.

(** Each network is looked up and written, each of its links too. *)
Lemma networks_costs {Y} j labels na :
  oc_spec_kept j → length na ≤ 1 →
  costs (S := OVNController) (X := Y) (sized N) oc_spec_kept (oc_networks * (2 + 2 * oc_links))
    (fn (CreateOrUpdateAdditionalNetworks j labels na))
    (λ r, ∀ nets, r = Okay nets → length nets ≤ oc_networks * (1 + oc_links)).
Proof.
  intros Hj Hna. pose proof (keys_of_length j na Hj Hna) as Hk. apply costs_fn_returns.
  - unfold CreateOrUpdateAdditionalNetworks, additionalNetworksFrom. fold (keys_of j na).
    cost_bound (oc_networks * (2 + 2 * oc_links)); [|by apply costs_ret].
    apply (costs_foldM _ _ (2 + 2 * oc_links) 0 _ _ (λ _ _, True)); [done| |nia].
    intros. by apply additionalNetwork_costs.
  - intros s. eapply wpM_mono; [|apply (CreateOrUpdateAdditionalNetworks_spec j labels na)].
    intros tr o (r & Ho & _ & Hr) s' x Hx nets ->.
    assert (r = Okay nets) as -> by (destruct Ho as [-> | ->], Hx as [Hx|Hx]; by simplify_eq).
    destruct (Hr nets eq_refl) as [-> _].
    assert (∀ l, length (concat (networks_of j na <$> l)) ≤ length l * (1 + oc_links)) as Hl.
    { induction l as [|k l IH]; cbn; [lia|]. rewrite length_app.
      pose proof (networks_of_length j na k Hj). lia. }
    specialize (Hl (keys_of j na)). nia.
Qed.
Lemma ocNetworks_costs labels :
  oc_costs (oc_networks * (2 + 2 * oc_links) + oc_networks * (1 + oc_links)) (ocNetworks labels)
    (λ _, True).
Proof.
  unfold ocNetworks. cost_step. cbv zeta.
  eapply costs_bind; [apply networks_costs; [done|by destruct (nonempty _); cbn; lia]|lia|].
  intros [nets|e] Hnets; [|oc_costing]. specialize (Hnets nets eq_refl).
  cost_bound (oc_networks * (1 + oc_links)); [|oc_costing].
  unfold ocNADs. cost_step. apply (costs_foldM _ _ 1 0 _ _ (λ _ _, True)); [done| |lia].
  intros k acc net _ _. oc_costing.
Qed.

Lemma ocConfigJobs_costs labels : oc_costs (2 + N) (ocConfigJobs labels) (λ _, True).
Proof.
  unfold ocConfigJobs. cost_step. cost_bound 1; [oc_costing|]. destruct a0; [|oc_costing].
  cbv zeta. destruct (bool_decide _); [oc_costing|].
  apply (costs_bind _ _ 1 _ _ _ (λ r, ∀ jobs, r = Okay jobs → length jobs ≤ N));
    [|lia|intros [jobs|e] Hjobs; [|oc_costing]].
  - unfold ConfigJob, getOVNControllerPods.
    apply (costs_bind _ _ 1 _ _ _ (λ r, ∀ pods, r = Okay pods → length pods ≤ N));
      [|lia|intros [pods|e] Hpods; oc_costing].
    + cost_step. destruct a1 as [pods|e]; apply costs_ret; [intros ? [= <-]|done].
      match goal with H : sized _ _ |- _ => exact (H _ eq_refl) end.
    + intros jobs [= <-]. rewrite length_fmap. by apply Hpods.
  - specialize (Hjobs jobs eq_refl). cost_bound N; [|oc_costing].
    apply (costs_forM _ _ 1); [|lia]. intros job _. oc_costing.
Qed.

Lemma ocReconcileNormal_costs :
  oc_costs (15 + N + 3 * oc_networks * (1 + oc_links)) ocReconcileNormal (λ _, True).
Proof.
  unfold ocReconcileNormal.
  oc_costing_by (idtac; lazymatch goal with
    | |- costs _ _ _ (bind (ocNetworks _) _) _ =>
        eapply costs_bind; [apply ocNetworks_costs|lia|intros ? _]
    | |- costs _ _ _ (forM [_; _; _] _) _ =>
        apply (costs_forM _ _ 1); [intros ? _|cbn; lia]
    | |- costs _ _ _ (ocConfigJobs _) _ =>
        eapply costs_mono; [| |apply ocConfigJobs_costs]; [done|]
    end).
  replace (3 * oc_networks * (1 + oc_links)) with
    (oc_networks * (2 + 2 * oc_links) + oc_networks * (1 + oc_links)) by nia. lia.
Qed.
End ovncontroller.

(** ** The three reconcilers *)
Section kinds.
Context {AT : ApiTypes} {CL : CondLib} {L : Lib} {FL : FinalizerLaws L}.

(** C34. A reconciliation of a resource that was read ends after a number of requests
    that is linear in what the API server lists, in the replicas of ovn-northd, and in the
    networks and links of an OVNController. *)
Theorem requests_bounded req N tr o :
  Forall (sized N) tr →
  (∀ i, exec (OVNDBCluster_Reconcile req) (Ev (GetOVNDBCluster req) (Okay i) :: tr) o →
     (0 ≤ default 0 (db_Replicas (db_Spec i)))%Z →
     length (Ev (GetOVNDBCluster req) (Okay i) :: tr) ≤ 24 + 8 * N) ∧
  (∀ i, exec (OVNNorthd_Reconcile req) (Ev (GetOVNNorthd req) (Okay i) :: tr) o →
     (0 ≤ nd_replicas i)%Z →
     length (Ev (GetOVNNorthd req) (Okay i) :: tr) ≤ 79 + Z.to_nat (nd_replicas i)) ∧
  (∀ i, exec (OVNController_Reconcile req) (Ev (GetOVNController_ req) (Okay i) :: tr) o →
     length (Ev (GetOVNController_ req) (Okay i) :: tr) ≤
       18 + N + 3 * oc_networks i * (1 + oc_links i)).
Proof.
  intros Hs. split; [|split]; intros i Hex.
  - intros Hr. eapply (reconcile_costs (sized N) (db_replicas_kept i) (21 + 8 * N) _ dbInitStatus
      (λ i, i) (λ _, false)) in Hex; [lia|done| |lia|done| |done].
    + intros r r' Heq. apply (f_equal fetched) in Heq. by destruct r, r'; simplify_eq/=.
    + eapply costs_mono; [| |apply dbReconcileNormal_costs]; [done|]. unfold db_excess. lia.
  - intros Hr. eapply (reconcile_costs (λ _, True) (nd_spec_kept i) (76 + Z.to_nat (nd_replicas i)) _
      ndInitStatus (λ i, i) (λ _, false)) in Hex; [lia|done| |lia|done| |by apply Forall_true].
    + intros r r' Heq. apply (f_equal fetched) in Heq. by destruct r, r'; simplify_eq/=.
    + eapply costs_mono; [| |apply ndReconcileNormal_costs]; [done|]. lia.
  - eapply (reconcile_costs (sized N) (oc_spec_kept i) _ _ ocInitStatus ocInitMaps oc_isNew) in Hex;
      [|done| | | |apply ocReconcileNormal_costs|done]; [lia| |lia|done].
    intros r r' Heq. apply (f_equal fetched) in Heq. by destruct r, r'; simplify_eq/=.
Qed.
End kinds.
