(* ===== verification/Witnesses.v ===== *)
(** * The theorems at concrete inputs

    Each property that has hypotheses, applied where they hold: to runs of the
    reconcilers against the cluster of [RefLib], and to the objects they build. *)
From S2P Require Import Prelude Prog Triples K8s Lib Api ApiMethods Calls Shared.
From S2P Require Import SharedProofs DBManifests Webhook Client DBController CtlNetworks.
From S2P Require Import CtlManifests CtlController NorthdManifests NorthdController.
From S2P Require Import RefLib WebhookProofs DBProofs Mounts DBManifestProofs DBPhases.
From S2P Require Import DBSafety NorthdProofs NorthdPhases NorthdManifestProofs.
From S2P Require Import CtlManifestProofs CtlNetworksProofs CtlProofs CtlPhases Protocol.
From S2P Require Import ClientProofs.
#[local] Open Scope go_scope.

(** An element of a list is found at a position. *)
Ltac at_position n := apply (Exists_at _ _ n); vm_compute; repeat split.

(** ** The runs *)

Definition dbRun : list (event Ext) := trace_of (OVNDBCluster_Reconcile (req "sb")) dbWorld.
Definition northdRun : list (event Ext) :=
  trace_of (OVNNorthd_Reconcile (req "northd"))
    (northdWorld (aNorthd "northd" "" 1) [] []).
Definition ctlRun : list (event Ext) :=
  trace_of (OVNController_Reconcile (req "oc")) (ctlWorld (aController "oc" ∅ ∅)).

(** What the runs wrote. *)
Definition sts_of (ev : event Ext) : option StatefulSetDef :=
  match ev with Ev e _ => match e with StatefulSetCreateOrPatch s _ => Some s | _ => None end end.
(** A patch that succeeded, of an object that satisfies [f]. *)
Definition patched_with (f : Object → bool) (ev : event Ext) : bool :=
  match ev with Ev e r =>
    match e in Ext R return R → bool with
    | PatchInstance o => λ r, (if r is None then true else false) && f o
    | _ => λ _, false
    end r
  end.

Lemma patched_with_spec f tr :
  existsb (patched_with f) tr = true → ∃ o, Ev (PatchInstance o) None ∈ tr ∧ f o = true.
Proof.
  intros ([R e r] & Hin & He)%existsb_exists. apply list_elem_of_In in Hin.
  destruct e; try discriminate He. cbn in He. destruct r; [discriminate He|].
  exists o. split; [exact Hin|exact He].
Qed.

(** Each run ends with a resource that is ready. *)
Lemma dbRun_ready :
  ∃ i, Ev (PatchInstance (ObjOVNDBCluster i)) None ∈ dbRun ∧ OVNDBCluster_IsReady i = true.
Proof.
  destruct (patched_with_spec
    (λ o, if o is ObjOVNDBCluster i then OVNDBCluster_IsReady i else false) dbRun)
    as ([i| | |] & Hin & Hi); [vm_compute; reflexivity|eauto|discriminate Hi..].
Qed.
Lemma northdRun_ready :
  ∃ i, Ev (PatchInstance (ObjOVNNorthd i)) None ∈ northdRun ∧ OVNNorthd_IsReady i = true.
Proof.
  destruct (patched_with_spec
    (λ o, if o is ObjOVNNorthd i then OVNNorthd_IsReady i else false) northdRun)
    as ([|i| |] & Hin & Hi); [vm_compute; reflexivity|discriminate Hi|eauto|discriminate Hi..].
Qed.
Lemma ctlRun_ready :
  ∃ i, Ev (PatchInstance (ObjOVNController i)) None ∈ ctlRun ∧ OVNController_IsReady i = true.
Proof.
  destruct (patched_with_spec
    (λ o, if o is ObjOVNController i then OVNController_IsReady i else false) ctlRun)
    as ([| |i|] & Hin & Hi); [vm_compute; reflexivity|discriminate Hi..|eauto|discriminate Hi].
Qed.

(** ** OVNDBCluster *)
Lemma db_deployment_ready_witness :
  ∃ i, Ev (PatchInstance (ObjOVNDBCluster i)) None ∈ dbRun ∧ OVNDBCluster_IsReady i = true ∧
    ∃ c stateful items, head dbRun = Some (Ev (GetOVNDBCluster (req "sb")) (Okay c)) ∧
      db_observed c stateful items dbRun ∧
      statefulset_IsReady stateful = true ∧ items ≠ [] ∧ db_addressed i items.
Proof.
  destruct dbRun_ready as (i & Hin & Hready). exists i.
  split; [exact Hin|]. split; [exact Hready|].
  exact (db_deployment_ready (req "sb") dbRun _ i None (runs _ dbWorld) (trace_rbac_ok _ _)
           Hin Hready).
Defined.

(** A run that creates a StatefulSet. *)
Lemma created_sts tr :
  (if head (omap sts_of tr) is Some _ then true else false) = true → ∃ sts, Exists (creates_sts sts) tr.
Proof.
  destruct (head (omap sts_of tr)) as [sts|] eqn:Hh; [|done]. intros _. exists sts.
  apply Exists_exists. apply head_Some_elem_of, list_elem_of_omap in Hh as ([R e r] & Hin & He).
  eexists. split; [exact Hin|]. destruct e; try done. by injection He.
Qed.

Lemma db_workload_inputs_witness :
  ∃ sts, Exists (creates_sts sts) dbRun ∧
    guarded (λ t _, ∃ i, head t = Some (Ev (GetOVNDBCluster (req "sb")) (Okay i)) ∧
               managed i ∧ sts_inputs i sts t) (creates_sts sts) dbRun.
Proof.
  destruct (created_sts dbRun) as [sts Hsts]; [vm_compute; reflexivity|].
  exists sts. split; [exact Hsts|].
  apply (db_workload_inputs (req "sb") sts dbRun _ (runs _ dbWorld)).
Defined.

(** Three services, one replica. *)
Definition scaledWorld : World :=
  let svc n := mkService n "openstack" {["type" := ServiceClusterType]}
                 (mkServiceSpec ∅ [] false "" "") in
  mkWorld [] [] [] [] [svc "sb-0"; svc "sb-1"; svc "sb-2"] [] [] (readySts 1) (readyDs 1)
    true None false.
Definition scaled : OVNDBCluster := aDBCluster "SB" "sb" 1 "" noTLS.
Definition scaleDown : prog Ext (mres OVNDBCluster RE unit) :=
  deleteExtraServices "ovsdbserver-sb" ∅ scaled.

Lemma scale_down_exact_witness :
  (∃ r, head (trace_of scaleDown scaledWorld) =
     Some (Ev (GetServicesListWithLabel "openstack" (MergeMaps ∅ {["type" := ServiceClusterType]})) r) ∧
     ∀ k, deletion scaled "ovsdbserver-sb" k ∈ trace_of scaleDown scaledWorld ↔
       ∃ items, r = Okay items ∧ (1 ≤ k < Z.of_nat (length items))%Z) ∧
  length (omap deletion_of (trace_of scaleDown scaledWorld)) = 2.
Proof.
  split; [|vm_compute; reflexivity].
  apply (scale_down_exact "ovsdbserver-sb" ∅ scaled 1 _ scaled).
  - discriminate.
  - reflexivity.
  - exact (runs scaleDown scaledWorld).
Defined.

Definition exposedRun : list (event Ext) :=
  trace_of (OVNDBCluster_Reconcile (req "sb")) (aWorld [exposedSB]).

Lemma external_address_published_witness :
  ∃ ev, ev ∈ exposedRun ∧
    ∃ param, publishes ev param ∧ exposed exposedSB = true ∧ ∃ a, param = PString a ∧ a ≠ "".
Proof.
  assert (Exists (λ ev, ∃ a, publishes ev a) exposedRun) as Hpub.
  { apply (Exists_at _ _ 23). vm_compute. eexists _, _. split; [constructor|reflexivity]. }
  apply Exists_exists in Hpub as (ev & Hin & a & Ha).
  exists ev. split; [exact Hin|]. exists a. split; [exact Ha|].
  apply (external_address_published (req "sb") exposedRun _ exposedSB ev a
           (runs _ (aWorld [exposedSB]))); [reflexivity|exact Hin|exact Ha].
Defined.

(** [schema_ok], decided. *)
Definition ports_okb (s : ServiceSpec) : bool := if ss_Ports s is [] then false else true.
Definition schema_okb (ev : event Ext) : bool :=
  match ev with Ev e r =>
    match e in Ext R return R → bool with
    | GetOVNDBCluster _ => λ r, match r with
        | Okay i => match db_Replicas (db_Spec i) with Some n => (0 <=? n)%Z | None => false end
        | Fail _ => true end
    | GetServiceWithName _ _ => λ r,
        match r.1 with Some s => ports_okb (svc_Spec s) | None => true end
    | GetServicesListWithLabel _ _ => λ r,
        match r with Okay l => forallb (λ s, ports_okb (svc_Spec s)) l | Fail _ => true end
    | ServiceCreateOrPatch _ _ => λ r,
        match GetSpec r.2 with Some s => ports_okb s | None => true end
    | _ => λ _, true
    end r
  end.

Lemma ports_okb_spec s : ports_okb s = true → has_ports s.
Proof. unfold ports_okb, has_ports. by destruct (ss_Ports s). Qed.

Lemma schema_okb_spec ev : schema_okb ev = true → schema_ok ev.
Proof.
  destruct ev as [R [] r]; cbn; try done.
  - intros Hb i ->. unfold has_replicas. destruct (db_Replicas _) as [m|]; [|done].
    exists m. split; [done|]. by apply Z.leb_le.
  - intros Hb s Hs. rewrite Hs in Hb. by apply ports_okb_spec.
  - intros Hb l ->. apply Forall_forall. intros s Hs%list_elem_of_In.
    rewrite forallb_forall in Hb. by apply ports_okb_spec, Hb.
  - intros Hb s [= <-]. by apply ports_okb_spec.
Qed.

Lemma by_decision (P : event Ext → Prop) (b : event Ext → bool) tr :
  (∀ ev, b ev = true → P ev) → forallb b tr = true → Forall P tr.
Proof.
  intros HP Hb. apply Forall_forall. intros ev Hev%list_elem_of_In.
  rewrite forallb_forall in Hb. auto.
Qed.

Lemma db_no_panic_witness : outcome_of (OVNDBCluster_Reconcile (req "sb")) dbWorld ≠ Panicked.
Proof.
  apply (db_no_panic (req "sb") dbRun _ (runs _ dbWorld)).
  apply (by_decision _ _ _ schema_okb_spec). vm_compute. reflexivity.
Defined.

(** Settings that change, and a job that fails. *)
Definition jobsWorld : World :=
  mkWorld [] [] [] [aPod "ovsdbserver-sb-0"] [] [] [] (readySts 1) (readyDs 1) true
    (Some (errors_New "job failed")) false.
Definition changed : OVNDBCluster := db_set_Hash (Some ∅) (aDBCluster "SB" "sb" 1 "" noTLS).
Definition runtimeConfig : Go OVNDBCluster (option error) (option error) :=
  reconcileRuntimeConfig {["service" := "ovsdbserver-sb"]} "ovsdbserver-sb".
Definition configured : OVNDBCluster :=
  match outcome_of (runtimeConfig changed) jobsWorld with
  | Done (Exit i _) | Done (Cont i _) => i
  | Panicked => changed
  end.
Definition configuredHash : string :=
  ref_hash (MergeEnvs [] (runtimeEnvVars changed)).

(** How a run of a body that does not panic ends. *)
Lemma how_ended {S A} (o : outcome (mres S A A)) d :
  (if o is Done _ then true else false) = true →
  ∃ x, ended (match o with Done (Exit i _) | Done (Cont i _) => i | Panicked => d end) x o.
Proof.
  unfold ended. destruct o as [[i x|i x]|]; intros Hd; try discriminate Hd; exists x; auto.
Qed.

Lemma runtime_config_once_witness :
  length (trace_of (runtimeConfig changed) jobsWorld) = 4 ∧
  trace_of (runtimeConfig configured) jobsWorld = [] ∧
  ended configured None (outcome_of (runtimeConfig configured) jobsWorld).
Proof.
  split; [vm_compute; reflexivity|].
  destruct (how_ended (outcome_of (runtimeConfig changed) jobsWorld) changed) as [x Hx];
    [vm_compute; reflexivity|].
  apply (runtime_config_once {["service" := "ovsdbserver-sb"]} "ovsdbserver-sb" changed
            (trace_of (runtimeConfig changed) jobsWorld)
            (outcome_of (runtimeConfig changed) jobsWorld) configured x configuredHash).
  - reflexivity.
  - apply (runs (runtimeConfig changed) jobsWorld).
  - exact Hx.
  - apply (runs (runtimeConfig configured) jobsWorld).
Defined.

Definition configJobs : prog Ext (mres unit unit (list Job)) :=
  createConsolidatedConfigJobs scaled [aPod "sb-0"; mkPod "sb-1" "openstack" ∅ "Failed" None "node-1"]
    ∅ 600 {["LogLevel"]} tt.

Lemma jobs_for_running_pods_witness :
  ∃ jobs, outcome_of configJobs jobsWorld = Done (Cont tt jobs) ∧
    Forall2 (λ pod job, ∃ now, job = configJob scaled pod ∅ 600 now (configFlags {["LogLevel"]}))
      (filter (λ p, pod_available p = true)
         [aPod "sb-0"; mkPod "sb-1" "openstack" ∅ "Failed" None "node-1"]) jobs ∧
    Forall (λ ev, ∃ now, ev = Ev NowUnix now) (trace_of configJobs jobsWorld).
Proof.
  apply (jobs_for_running_pods scaled _ ∅ 600 {["LogLevel"]} tt _ _ (runs configJobs jobsWorld)).
  vm_compute. discriminate.
Defined.

(** ** The StatefulSet of the databases *)
Definition aDB : OVNDBCluster := aDBCluster "SB" "sb" 1 "" noTLS.
Definition dbStatefulSet (hash : string) : go StatefulSetDef := StatefulSet aDB hash ∅ ∅ None.

Lemma built {A} (g : go A) : (if g is GOk _ then true else false) = true → ∃ a, g = GOk a.
Proof. destruct g; [eauto|done..]. Qed.

Lemma sts_mounts_provided_witness :
  ∃ sts, dbStatefulSet "h" = GOk sts ∧
    pod_provided (tpl_Name <$> dbServiceConfigMaps aDB "ovsdbserver-sb")
      (pvc_Name <$> sts_VolumeClaimTemplates sts) (pt_Spec (sts_Template sts)).
Proof.
  destruct (built (dbStatefulSet "h")) as [sts Hsts]; [vm_compute; reflexivity|].
  exists sts. split; [exact Hsts|].
  exact (sts_mounts_provided aDB "h" ∅ ∅ None sts "ovsdbserver-sb" Hsts).
Defined.

Lemma sts_configmaps_generated_witness :
  ∃ sts, dbStatefulSet "h" = GOk sts ∧
    ((∀ v cm mode, v ∈ volumes_of sts → vol_Source v = ConfigMapVolume cm mode →
       cm ∈ tpl_Name <$> dbServiceConfigMaps aDB "ovsdbserver-sb") ↔ db_metrics_on aDB = true).
Proof.
  destruct (built (dbStatefulSet "h")) as [sts Hsts]; [vm_compute; reflexivity|].
  exists sts. split; [exact Hsts|].
  exact (sts_configmaps_generated aDB "h" ∅ ∅ None sts "ovsdbserver-sb" Hsts).
Defined.

Lemma sts_hash_restarts_witness :
  ∃ s1 s2, dbStatefulSet "h1" = GOk s1 ∧ dbStatefulSet "h2" = GOk s2 ∧
    containers_of s1 ≠ [] ∧
    (∀ c, c ∈ containers_of s1 → mkEnvVar "CONFIG_HASH" "h1" None ∈ c_Env c) ∧
    sts_Template s1 ≠ sts_Template s2.
Proof.
  destruct (built (dbStatefulSet "h1")) as [s1 H1]; [vm_compute; reflexivity|].
  destruct (built (dbStatefulSet "h2")) as [s2 H2]; [vm_compute; reflexivity|].
  exists s1, s2. split; [exact H1|]. split; [exact H2|].
  destruct (sts_hash_restarts aDB "h1" "h2" ∅ ∅ ∅ ∅ None None s1 s2 H1 H2) as [Hc Hn].
  split; [injection H1 as <-; discriminate|]. split; [exact Hc|]. by apply Hn.
Defined.

Lemma job_mounts_claim_witness :
  ∃ sts template, dbStatefulSet "h" = GOk sts ∧ sts_VolumeClaimTemplates sts = [template] ∧
    let job := configJob aDB (aPod "sb-0") ∅ 600 0 ["LOG_LEVEL"] in
    job_Namespace job = pvc_Namespace template ∧
    (∃ v, v ∈ ps_Volumes (job_Spec job) ∧
       vol_Source v = PVCVolume (pvc_Name template +:+ "-" +:+ pod_Name (aPod "sb-0"))) ∧
    ps_NodeName (job_Spec job) = pod_NodeName (aPod "sb-0").
Proof.
  destruct (built (dbStatefulSet "h")) as [sts Hsts]; [vm_compute; reflexivity|].
  destruct (job_mounts_claim aDB "h" ∅ ∅ None sts (aPod "sb-0") ∅ 600 0 ["LOG_LEVEL"] Hsts)
    as (template & Ht & Hrest).
  exists sts, template. split; [exact Hsts|]. split; [exact Ht|exact Hrest].
Defined.

(** ** OVNNorthd *)
Lemma nd_workload_inputs_witness :
  ∃ sts, Exists (creates_sts sts) northdRun ∧
    guarded (λ t _, ∃ i, head t = Some (Ev (GetOVNNorthd (req "northd")) (Okay i)) ∧
               managed i ∧ nd_sts_inputs i sts t) (creates_sts sts) northdRun.
Proof.
  destruct (created_sts northdRun) as [sts Hsts]; [vm_compute; reflexivity|].
  exists sts. split; [exact Hsts|].
  apply (nd_workload_inputs (req "northd") sts northdRun _ (runs _ _)).
Defined.

Lemma nd_deployment_ready_witness :
  ∃ i stateful, head northdRun = Some (Ev (GetOVNNorthd (req "northd")) (Okay i)) ∧
    nd_observed stateful northdRun ∧ replicas_ready (nd_Spec i) stateful.
Proof.
  destruct northdRun_ready as (i & Hin & Hready).
  exact (nd_deployment_ready (req "northd") northdRun _ i None (runs _ _)
           (trace_rbac_ok _ _) Hin Hready).
Defined.

(** The Deployment of an earlier release is still there. *)
Definition legacyWorld : World :=
  northdWorld (aNorthd "northd" "" 1) []
    [mkDeployment ServiceNameOVNNorthd "openstack" [mkOwnerRef "OVNNorthd" "northd"] (Some 1%Z)].
Definition legacyRun : list (event Ext) :=
  trace_of (OVNNorthd_Reconcile (req "northd")) legacyWorld.

Lemma nd_migration_safe_witness :
  Exists retires_deployment legacyRun ∧
  guarded (λ t ev, ∃ i, head t = Some (Ev (GetOVNNorthd (req "northd")) (Okay i)) ∧ managed i ∧
             replaced i t ev) retires_deployment legacyRun.
Proof.
  split; [apply (Exists_at _ _ 9); vm_compute; exact Logic.I|].
  exact (nd_migration_safe (req "northd") legacyRun _ (runs _ legacyWorld)).
Defined.

(** Two replicas with metrics, and the service of a third pod that is gone. *)
Definition metered : OVNNorthd := aNorthd "northd" "exporter" 2.
Definition meteredWorld : World :=
  mkWorld [] [] [] [] [aService (ndPodName 2) "10.0.0.2" "ClusterIP" 1981] [] []
    (readySts 2) (readyDs 1) true None false.
Definition meter : prog Ext (mres OVNNorthd RE RE) :=
  ndMetrics {["service" := "ovn-northd"]} metered.

Lemma metrics_services_exact_witness :
  let tr := trace_of meter meteredWorld in
  metrics_replicas metered = 2%Z ∧
  (∀ k, (0 ≤ k < 2)%Z → exposed_pod metered {["service" := "ovn-northd"]} tr k) ∧
  (∀ k, (2 ≤ k < 32)%Z →
     (∃ e, probed metered k (Some e) ∈ tr) ∨
     (probed metered k None ∈ tr ∧ ∃ e, dropped metered k e ∈ tr)) ∧
  (∀ ev, ev ∈ tr → is_delete ev → ∃ k e, (2 ≤ k < 32)%Z ∧ ev = dropped metered k e) ∧
  (∀ k e, (0 ≤ k < 2)%Z → dropped metered k e ∉ tr) ∧
  (only_absent metered tr → ∀ k, (2 ≤ k < 32)%Z →
     dropped metered k None ∈ tr ∨
     ∃ e, IsNotFound e = true ∧
       (probed metered k (Some e) ∈ tr ∨ dropped metered k (Some e) ∈ tr)).
Proof.
  split; [reflexivity|].
  apply (metrics_services_exact {["service" := "ovn-northd"]} metered _ metered).
  exact (runs meter meteredWorld).
Defined.

(** The answers of the run respect the schema. *)
Definition nd_schema_okb (ev : event Ext) : bool :=
  match ev with Ev e r =>
    match e in Ext R return R → bool with
    | GetOVNNorthd _ => λ r, match r with
        | Okay i => bool_decide (is_Some (nd_Replicas (nd_Spec i))) &&
                    bool_decide (is_Some (nd_NThreads (nd_Spec i)))
        | Fail _ => true end
    | GetDeployment _ _ => λ r, match r with
        | Okay d => bool_decide (is_Some (dep_Replicas d)) | Fail _ => true end
    | _ => λ _, true
    end r
  end.

Lemma nd_schema_okb_spec ev : nd_schema_okb ev = true → nd_schema_ok ev.
Proof.
  destruct ev as [R [] r]; cbn; try done.
  - intros Hb i ->. by apply andb_true_iff in Hb as [?%bool_decide_eq_true ?%bool_decide_eq_true].
  - intros Hb d ->. by apply bool_decide_eq_true in Hb.
Qed.

Lemma nd_no_panic_witness :
  outcome_of (OVNNorthd_Reconcile (req "northd")) legacyWorld ≠ Panicked.
Proof.
  apply (nd_no_panic (req "northd") legacyRun _ (runs _ legacyWorld)).
  apply (by_decision _ _ _ nd_schema_okb_spec). vm_compute. reflexivity.
Defined.

Definition ndStatefulSet (hash nb : string) : go StatefulSetDef :=
  nd_StatefulSet (aNorthd "northd" "" 1) ∅ nb "tcp:sb" (nd_hashed hash ∅) None.

Lemma nd_sts_mounts_provided_witness :
  ∃ sts, ndStatefulSet "h" "tcp:nb" = GOk sts ∧
    pod_provided (tpl_Name <$> ndServiceConfigMaps (aNorthd "northd" "" 1) "ovn-northd") []
      (pt_Spec (sts_Template sts)).
Proof.
  destruct (built (ndStatefulSet "h" "tcp:nb")) as [sts Hsts]; [vm_compute; reflexivity|].
  exists sts. split; [exact Hsts|].
  exact (nd_sts_mounts_provided (aNorthd "northd" "" 1) ∅ "tcp:nb" "tcp:sb" (nd_hashed "h" ∅) None
           sts "ovn-northd" Hsts).
Defined.

Lemma nd_sts_restarts_witness :
  ∃ s1 s2, ndStatefulSet "h" "tcp:nb1" = GOk s1 ∧ ndStatefulSet "h" "tcp:nb2" = GOk s2 ∧
    (∀ c, c ∈ containers_of s1 → mkEnvVar "CONFIG_HASH" "h" None ∈ c_Env c) ∧
    (∃ c, head (containers_of s1) = Some c ∧
       "--ovnnb-db=tcp:nb1" ∈ c_Args c ∧ "--ovnsb-db=tcp:sb" ∈ c_Args c) ∧
    sts_Template s1 ≠ sts_Template s2.
Proof.
  destruct (built (ndStatefulSet "h" "tcp:nb1")) as [s1 H1]; [vm_compute; reflexivity|].
  destruct (built (ndStatefulSet "h" "tcp:nb2")) as [s2 H2]; [vm_compute; reflexivity|].
  exists s1, s2. split; [exact H1|]. split; [exact H2|].
  destruct (nd_sts_restarts (aNorthd "northd" "" 1) ∅ ∅ "tcp:nb1" "tcp:nb2" "tcp:sb" "tcp:sb"
              "h" "h" ∅ ∅ None None s1 s2 H1 H2) as (Hc & Ha & Hn).
  split; [exact Hc|]. split; [exact Ha|]. apply Hn. right. left. discriminate.
Defined.

(** ** OVNController *)
Lemma oc_daemonsets_settled_witness :
  Exists creates_ds ctlRun ∧
  guarded (λ t ev, ∃ i h1 h2 mvars,
             head t = Some (Ev (GetOVNController_ (req "oc")) (Okay i)) ∧ managed i ∧
             oc_isNew i = false ∧
             oc_inputs i (default ∅ (ocs_Hash (oc_Status i))) h1 h2 t ∧
             metrics_validated i ∅ mvars t ∧ oc_ds_shape i h1 h2 mvars t ev)
    creates_ds ctlRun.
Proof.
  split; [at_position 6|].
  exact (oc_daemonsets_settled (req "oc") ctlRun _ (runs _ (ctlWorld (aController "oc" ∅ ∅)))).
Defined.

Lemma oc_deployment_ready_witness :
  ∃ i, head ctlRun = Some (Ev (GetOVNController_ (req "oc")) (Okay i)) ∧ oc_rolled_out i ctlRun.
Proof.
  destruct ctlRun_ready as (i & Hin & Hready).
  exact (oc_deployment_ready (req "oc") ctlRun _ i None (runs _ _)
           (trace_rbac_ok _ _) Hin Hready).
Defined.

Lemma oc_jobs_after_rollout_witness :
  Exists runs_job ctlRun ∧
  guarded (λ t ev, ∃ i, head t = Some (Ev (GetOVNController_ (req "oc")) (Okay i)) ∧ managed i ∧
             jobs_allowed i t ev) runs_job ctlRun.
Proof.
  split; [at_position 14|].
  exact (oc_jobs_after_rollout (req "oc") ctlRun _ (runs _ (ctlWorld (aController "oc" ∅ ∅)))).
Defined.

(** A physical network, for which a definition is made. *)
Definition mapped : OVNController := aController "oc" {["datacentre" := "eth1"]} ∅.
Definition mappedRun : list (event Ext) :=
  trace_of (OVNController_Reconcile (req "oc")) (ctlWorld mapped).

Lemma oc_nads_owned_witness :
  Exists writes_nad mappedRun ∧
  guarded (λ t ev, ∃ i, head t = Some (Ev (GetOVNController_ (req "oc")) (Okay i)) ∧ managed i ∧
             nad_justified i t ev) writes_nad mappedRun.
Proof.
  split; [at_position 6|].
  exact (oc_nads_owned (req "oc") mappedRun _ (runs _ (ctlWorld mapped))).
Defined.

(** Two networks, one of them over a bond of two links. *)
Definition bonded : OVNController :=
  aController "oc" {["datacentre" := "eth1"; "tenant" := "bond0"]}
    {["bond0" := mkBond "active-backup" 0 ["eth2"; "eth3"]]}.
Definition networks : prog Ext (mres unit (fallible (list string)) (fallible (list string))) :=
  CreateOrUpdateAdditionalNetworks bonded ∅ [] tt.

Lemma additional_networks_result_witness :
  ∃ nets, outcome_of networks (ctlWorld bonded) = Done (Cont tt (Okay nets)) ∧
    length nets = 4 ∧
    nets = concat (networks_of bonded [] <$> keys_of bonded []) ∧
    Forall (λ k, ¬ bad_bond bonded [] k) (keys_of bonded []) ∧
    Forall (nad_ensured bonded (trace_of networks (ctlWorld bonded)))
      (concat (made_of bonded [] <$> keys_of bonded [])).
Proof.
  eexists. split; [vm_compute; reflexivity|]. split; [reflexivity|].
  apply (additional_networks_result bonded ∅ [] tt _ tt _ (runs networks (ctlWorld bonded))).
Defined.

Lemma networks_order_independent_witness :
  (exec (additionalNetworksFrom ["datacentre"; "tenant"] ["bond0"] bonded ∅ [] tt)
     (trace_of (additionalNetworksFrom ["tenant"; "datacentre"] ["bond0"] bonded ∅ [] tt)
        (ctlWorld bonded))
     (outcome_of (additionalNetworksFrom ["tenant"; "datacentre"] ["bond0"] bonded ∅ [] tt)
        (ctlWorld bonded))) ∧
  physicalNetworksFrom ["datacentre"; "tenant"] = physicalNetworksFrom ["tenant"; "datacentre"].
Proof.
  destruct (networks_order_independent tt ["datacentre"; "tenant"] ["tenant"; "datacentre"]
              ["bond0"] ["bond0"] bonded ∅ []
              (trace_of (additionalNetworksFrom ["tenant"; "datacentre"] ["bond0"] bonded ∅ [] tt)
                 (ctlWorld bonded))
              (outcome_of (additionalNetworksFrom ["tenant"; "datacentre"] ["bond0"] bonded ∅ [] tt)
                 (ctlWorld bonded))) as [He Hp].
  - apply Permutation_swap.
  - reflexivity.
  - split; [|exact Hp]. apply He, runs.
Defined.

Lemma oc_panics_on_hash_alone_witness :
  outcome_of (OVNController_Reconcile (req "oc")) (ctlWorld (aController "oc" ∅ ∅)) ≠ Panicked.
Proof.
  apply (oc_panics_on_hash_alone (req "oc") ctlRun).
  - intros vars. eexists. reflexivity.
  - exact (runs _ (ctlWorld (aController "oc" ∅ ∅))).
Defined.

(** A library whose hashes fail. *)
Definition hashError : error := errors_New "json: unsupported type".
Definition failingLib : Lib := refLibWith (λ _, Fail hashError).

Lemma oc_hash_error_panics_witness :
  let p := ocInputHashes (L := failingLib) ∅ ∅ (aController "oc" ∅ ∅) in
  trace_of p (ctlWorld (aController "oc" ∅ ∅)) = [] ∧
  outcome_of p (ctlWorld (aController "oc" ∅ ∅)) = Panicked.
Proof.
  apply (oc_hash_error_panics (L := failingLib) ∅ ∅ hashError (aController "oc" ∅ ∅)).
  - reflexivity.
  - apply runs.
Defined.

Definition anOC : OVNController := aController "oc" ∅ ∅.

Lemma oc_mounts_provided_witness :
  ∃ ds, CreateOVNDaemonSet anOC "h" ∅ None = GOk ds ∧
    pod_provided [tpl_Name (ocScripts anOC)] [] (ds_pod ds) ∧
    pod_provided [tpl_Name (ocScripts anOC)] []
      (ds_pod (CreateOVSDaemonSet anOC "h" ∅ ∅ None true)) ∧
    pod_provided [tpl_Name (GetMetricsConfigMap anOC)] []
      (ds_pod (CreateMetricsDaemonSet anOC "h" ∅ None)) ∧
    pod_provided [tpl_Name (ocScripts anOC); tpl_Name (ocExtraScripts anOC)] []
      (job_Spec (ovnConfigJob anOC ∅ "tcp:sb" (aPod "ovs-0"))).
Proof.
  destruct (built (CreateOVNDaemonSet anOC "h" ∅ None)) as [ds Hds]; [vm_compute; reflexivity|].
  destruct (oc_mounts_provided anOC "h" ∅ ∅ None ds true "tcp:sb" (aPod "ovs-0"))
    as (H1 & H2 & H3 & H4).
  exists ds. split; [exact Hds|]. split; [exact (H1 Hds)|]. split; [exact H2|].
  split; [exact H3|exact H4].
Defined.

Lemma oc_hash_restarts_witness :
  ∃ ds, CreateOVNDaemonSet anOC "h" ∅ None = GOk ds ∧ ds_hashed "h" ds ∧
    ds_hashed "h" (CreateOVSDaemonSet anOC "h" ∅ ∅ None true) ∧
    ds_hashed "h" (CreateMetricsDaemonSet anOC "h" ∅ None).
Proof.
  destruct (built (CreateOVNDaemonSet anOC "h" ∅ None)) as [ds Hds]; [vm_compute; reflexivity|].
  destruct (oc_hash_restarts anOC "h" ∅ ∅ None ds true) as (H1 & H2 & H3).
  exists ds. split; [exact Hds|]. split; [exact (H1 Hds)|]. split; [exact H2|exact H3].
Defined.

Lemma ovs_hardening_witness :
  Forall (λ c, ∃ sc, c_SecurityContext c = Some sc ∧
      sc_SeccompProfile sc = Some SeccompProfileTypeRuntimeDefault ∧
      sc_Privileged sc = Some true ∧
      sc_Capabilities sc = Some (mkCapabilities privilegedOVSCapabilities []))
    (ovs_containers (CreateOVSDaemonSet anOC "h" ∅ ∅ None true)) ∧
  length (ovs_containers (CreateOVSDaemonSet anOC "h" ∅ ∅ None true)) = 3.
Proof.
  split; [exact (proj1 (ovs_hardening anOC "h" ∅ ∅ None true))|vm_compute; reflexivity].
Defined.

(** ** The three reconcilers *)
Lemma status_patched_once_witness :
  Exists is_patch dbRun ∧ Exists is_patch northdRun ∧ Exists is_patch ctlRun ∧
  patch_protocol (GetOVNDBCluster (req "sb")) (OVNDBCluster_Reconcile (req "sb")) ∧
  patch_protocol (GetOVNNorthd (req "sb")) (OVNNorthd_Reconcile (req "sb")) ∧
  patch_protocol (GetOVNController_ (req "sb")) (OVNController_Reconcile (req "sb")).
Proof.
  split; [destruct dbRun_ready as (i & Hin & _); apply Exists_exists; eexists; split; [exact Hin|exact Logic.I]|].
  split; [destruct northdRun_ready as (i & Hin & _); apply Exists_exists; eexists; split; [exact Hin|exact Logic.I]|].
  split; [destruct ctlRun_ready as (i & Hin & _); apply Exists_exists; eexists; split; [exact Hin|exact Logic.I]|].
  exact (status_patched_once (req "sb")).
Defined.

(** A cluster that has just been created. *)
Definition fresh : OVNDBCluster :=
  db_set_Meta (om_set_Finalizers [] (db_Meta scaled)) scaled.
Definition freshRun : list (event Ext) :=
  trace_of (OVNDBCluster_Reconcile (req "sb")) (aWorld [fresh]).

Lemma freshRun_starts :
  freshRun = Ev (GetOVNDBCluster (req "sb")) (Okay fresh)
    :: Ev (NewHelper (to_object fresh)) None :: drop 2 freshRun.
Proof. vm_compute. reflexivity. Qed.

Lemma finalizer_lifecycle_witness :
  ∃ i' perr, drop 2 freshRun = [Ev (PatchInstance (ObjOVNDBCluster i')) perr] ∧
    om_Finalizers (db_Meta i') = om_Finalizers (db_Meta fresh) ++ [GetFinalizer "OVNDBCluster"].
Proof.
  apply (proj1 (finalizer_lifecycle (req "sb")) fresh (drop 2 freshRun)
           (outcome_of (OVNDBCluster_Reconcile (req "sb")) (aWorld [fresh]))).
  - rewrite <- freshRun_starts. exact (runs (OVNDBCluster_Reconcile (req "sb")) (aWorld [fresh])).
  - reflexivity.
  - vm_compute. apply not_elem_of_nil.
Defined.

Lemma cluster_written_when_managed_witness :
  Exists is_write dbRun ∧
  guarded (λ t _, ∃ i, head t = Some (Ev (GetOVNDBCluster (req "sb")) (Okay i)) ∧ managed i)
    is_write dbRun.
Proof.
  split; [at_position 2|].
  exact (proj1 (proj1 (cluster_written_when_managed (req "sb")) dbRun _ (runs _ dbWorld))).
Defined.

(** ** Webhooks and watches *)
Lemma admitted_probes_build_witness :
  ValidateProbes (oc_Spec anOC) "spec.override" = [] ∧
  is_Some (pset_Liveness (GetProbeSet (oc_Spec anOC)).1) ∧
  is_Some (pset_Readiness (GetProbeSet (oc_Spec anOC)).1).
Proof.
  destruct (admitted_probes_build (oc_Spec anOC) "spec.override") as [_ H].
  destruct (H eq_refl) as (Hl & Hr & _). split; [reflexivity|]. split; [exact Hl|exact Hr].
Defined.

Lemma controller_admission_witness :
  OVNControllerCustomValidator_ValidateCreate (ObjOVNController anOC) = None ∧
  (OVNControllerCustomValidator_ValidateUpdate (ObjOVNController anOC) (ObjOther "Pod") = None ↔
     ∃ i, ObjOther "Pod" = ObjOVNController i ∧ admissible i) ∧
  admissible anOC.
Proof.
  destruct (controller_admission (ObjOVNController anOC) (ObjOther "Pod")) as [Hc _].
  destruct (controller_admission (ObjOther "Pod") (ObjOVNController anOC)) as [_ Hu].
  assert (OVNControllerCustomValidator_ValidateCreate (ObjOVNController anOC) = None) as Hok
    by reflexivity.
  split; [exact Hok|]. split; [exact Hu|].
  destruct (proj1 Hc Hok) as (i & [= <-] & Hi). exact Hi.
Defined.

Definition findSB : prog Ext (mres unit unit (fallible OVNDBCluster)) :=
  GetDBClusterByType "openstack" ∅ "SB" tt.

Lemma cluster_by_type_witness :
  (if outcome_of findSB (ctlWorld anOC) is Done (Cont _ (Okay c))
   then om_Name (db_Meta c) else "") = "sb" ∧
  ∃ answer res, trace_of findSB (ctlWorld anOC) = [Ev (ListOVNDBClusters "openstack" ∅) answer] ∧
    outcome_of findSB (ctlWorld anOC) = Done (Cont tt res) ∧
    match res with
    | Okay c => ∃ pre post, answer = Okay (pre ++ c :: post) ∧ db_DBType (db_Spec c) = "SB" ∧
        Forall (λ c', db_DBType (db_Spec c') ≠ "SB") pre
    | Fail e => answer = Fail e ∨
        ∃ items, answer = Okay items ∧ Forall (λ c, db_DBType (db_Spec c) ≠ "SB") items
    end.
Proof.
  split; [vm_compute; reflexivity|].
  exact (cluster_by_type "openstack" ∅ "SB" tt _ _ (runs findSB (ctlWorld anOC))).
Defined.

(** Two resources that name the secret, of which one in another namespace. *)
Definition watched : list (NamespacedName * CommonSpec) :=
  let s := mkCommonSpec (mkSimpleService (Some "cert") "") noTLS "" None None in
  [(req "sb", s); (mkNamespacedName "other" "sb", s);
   (req "nb", mkCommonSpec noTLS noTLS "" None None)].

(** A cache that answers from the index of [watched]. *)
Definition indexHandler (R : Type) (e : Ext R) (w : World) : R * World :=
  match e in Ext R return R * World with
  | ListByField _ field value ns =>
      (Okay ((filter (λ x, nn_Namespace x.1 = ns ∧ value ∈ indexField field x.2) watched).*1), w)
  | e => handler _ e w
  end.
Definition watchSecret : prog Ext (mres unit (list NamespacedName) (list NamespacedName)) :=
  findObjectsForSrc CROVNDBCluster (aMeta "Secret" "cert") tt.
Definition watchRun := run indexHandler watchSecret (aWorld []).

Lemma watch_exact_witness :
  watchRun.1.2 = Done (Cont tt [req "sb"]) ∧
  ∃ requests, watchRun.1.2 = Done (Cont tt requests) ∧
    ∀ n, n ∈ requests ↔ ∃ spec, (n, spec) ∈ watched ∧ nn_Namespace n = "openstack" ∧
                          names_object spec "cert".
Proof.
  split; [vm_compute; reflexivity|].
  apply (watch_exact watched CROVNDBCluster (aMeta "Secret" "cert") tt watchRun.1.1 watchRun.1.2
           (run_exec indexHandler watchSecret (aWorld []))).
  apply run_Forall. intros R e. destruct e; (split; [reflexivity|]); try exact Logic.I.
  eexists. split; [reflexivity|]. intros n. rewrite list_elem_of_fmap.
  setoid_rewrite list_elem_of_filter. split.
  - intros ([n' s] & -> & [Hns Hf] & Hin). eauto.
  - intros (s & Hin & Hns & Hf). exists (n, s). eauto.
Defined.

