(* ===== verification/SystemWitnesses.v ===== *)
(** * The theorems on whole reconciliations at concrete inputs

    Runs that follow one another, the life of a resource, and the composition of the
    reconcilers, against the cluster of [RefLib]. *)
From S2P Require Import Prelude Prog Triples K8s Lib Api ApiMethods Calls Shared.
From S2P Require Import SharedProofs DBManifests Client DBController CtlNetworks.
From S2P Require Import CtlManifests CtlController NorthdManifests NorthdController.
From S2P Require Import RefLib DBProofs NorthdProofs CtlProofs CtlNetworksProofs Protocol.
From S2P Require Import NorthdPhases CtlPhases Lifecycle DBExposure Confinement Progress DBProgress.
From S2P Require Import NorthdProgress CtlProgress Convergence Endpoints Budget Witnesses.
From S2P Require Import Manager.
From S2P Require Watches.
#[local] Open Scope go_scope.

(** ** What the answers of a run satisfy, decided *)

(** A trace is its first event and the others. *)
Lemma starts_with {A} (l : list A) x : head l = Some x → l = x :: tail l.
Proof. destruct l; [done|]. by intros [= ->]. Qed.

(** A run whose first event is the read of [i]. *)
Lemma runs_from {A} (p : prog Ext A) w ev :
  head (trace_of p w) = Some ev → exec p (ev :: tail (trace_of p w)) (outcome_of p w).
Proof. intros Hh. rewrite <- (starts_with _ _ Hh). apply runs. Qed.

Definition ok_error (o : option error) : bool := if o is None then true else false.
Definition ok_RE (r : Result * option error) : bool :=
  bool_decide (r.1 = emptyResult) && ok_error r.2.
Definition ok_fallible {A} (f : fallible A) : bool := if f is Okay _ then true else false.
Definition ok_or_missing (o : option error) : bool :=
  match o with Some e => IsNotFound e | None => true end.

(** [succeeded], where the run of a ready cluster needs it. *)
Definition succeededb (ev : event Ext) : bool :=
  match ev with Ev e r =>
    match e in Ext R return R → bool with
    | NewHelper _ | PatchInstance _ | CreateNAD _ | UpdateNAD _ | UpdateService _
    | CreateOrPatchDNSData _ _ | DeletePDBWithName _ _ | DeleteServicesWithLabel _ _ => ok_error
    | Delete _ _ _ => ok_or_missing
    | ListOVNDBClusters _ _ => ok_fallible
    | ListOVNControllers _ => ok_fallible
    | ListPods _ _ | ClientsetListPods _ _ => ok_fallible
    | GetServicesListWithLabel _ _ => ok_fallible
    | GetNADWithName _ _ => ok_fallible
    | GetNAD _ _ => λ r, match r with Fail e => IsNotFound e | Okay _ => true end
    | GetServiceWithName _ _ => λ r, ok_or_missing r.2
    | ReconcileRbac _ _ => λ r,
        ok_RE r.2 && forallb (λ c, bool_decide (cond_Status c = ConditionTrue)) r.1 &&
        bool_decide (Forall (λ t, t ∈ cond_Type <$> r.1) rbacTypes)
    | ValidateCACertSecret _ | ValidateCertSecret _ _ => ok_fallible
    | EnsureConfigMaps _ _ _ => λ r, ok_error r.2
    | EnsureServiceTopology _ _ _ _ => ok_fallible
    | StatefulSetCreateOrPatch _ _ => λ r, ok_RE r.1
    | DaemonSetCreateOrPatch _ _ => λ r, ok_RE r.1
    | PDBCreateOrPatch _ _ => ok_RE
    | ServiceCreateOrPatch _ _ => λ r, ok_RE r.1
    | VerifyNetworkStatusFromAnnotation _ _ _ => λ r,
        match r with Okay (b, _) => b | Fail _ => false end
    | DoJob _ _ _ _ _ => λ r, ok_RE r.1
    | _ => λ _, true
    end r
  end.

Lemma ok_error_spec o : ok_error o = true → o = None.
Proof. by destruct o. Qed.
Lemma ok_RE_spec r : ok_RE r = true → r = (emptyResult, None).
Proof.
  destruct r as [x o]. intros [Hx%bool_decide_eq_true Ho%ok_error_spec]%andb_true_iff. cbn in *.
  by subst.
Qed.
Lemma ok_fallible_spec {A} (f : fallible A) : ok_fallible f = true → ∃ x, f = Okay x.
Proof. destruct f; [eauto|done]. Qed.
Lemma ok_or_missing_spec o e : ok_or_missing o = true → o = Some e → IsNotFound e = true.
Proof. by intros Ho ->. Qed.

Lemma succeededb_spec ev : succeededb ev = true → succeeded ev.
Proof.
  destruct ev as [R [] r]; cbn; try done;
    eauto using ok_error_spec, ok_RE_spec, ok_fallible_spec, ok_or_missing_spec.
  - by intros Hb e ->.
  - rewrite !andb_true_iff. intros [[H1 H2] H3%bool_decide_eq_true].
    split; [by apply ok_RE_spec|]. split.
    + apply Forall_forall. intros c Hc%list_elem_of_In. rewrite forallb_forall in H2.
      by apply (bool_decide_eq_true_1 _), H2.
    + intros t Ht. by apply (proj1 (Forall_forall _ _) H3).
  - destruct r as [[[] st]|]; [eauto|done..].
Qed.

(** ** Runs that follow one another *)

(** What the last event of a run left stored. *)
Definition patched_last (tr : list (event Ext)) : option Object :=
  match last tr with
  | Some (Ev e r) =>
      match e in Ext R return R → option Object with
      | PatchInstance o => λ r, if r is None then Some o else None
      | _ => λ _, None
      end r
  | None => None
  end.

Lemma patched_last_spec tr o :
  patched_last tr = Some o → Ev (PatchInstance o) None ∈ tr.
Proof.
  unfold patched_last. destruct (last tr) as [[R e r]|] eqn:Hl; [|done].
  destruct e; try done. destruct r; [done|]. intros [= ->].
  apply last_Some in Hl as [l ->]. set_solver.
Qed.

(** The first event of a reconciliation. *)
Lemma head_reconcile {I} {CR : CustomResource I} {OI : IsObject I} (fetch : Ext (fallible I))
    init body w :
  head (trace_of (reconcile fetch init body) w) = Some (Ev fetch (handler _ fetch w).1).
Proof.
  unfold trace_of, reconcile. cbn [run]. destruct (handler _ fetch w) as [r w'].
  by destruct (run _ _ w') as [[tr o] w2].
Qed.

(** The only object of a world is found by its name. *)
Lemma named_one {A} (meta : A → ObjectMeta) n i l :
  om_Name (meta i) = nn_Name n → om_Namespace (meta i) = nn_Namespace n →
  named meta n (i :: l) = Some i.
Proof. intros Hn Hns. unfold named. cbn. by rewrite decide_True. Qed.

(** One run in a world, decided: it reads [i], its answers are [good] and it leaves
    [after], a function of what it patched last. *)
Section one_pass.
Context {I : Type} {CR : CustomResource I} {OI : IsObject I} (fetch : Ext (fallible I))
  (p : prog Ext RE) (good : I → event Ext → Prop) (goodb : event Ext → bool) (w : World) (i : I).
Context (of_object : Object → option I).
Context (Hof : ∀ o j, of_object o = Some j → o = to_object j).
Context (Hgood : ∀ ev, goodb ev = true → good i ev).

Definition left_by (tr : list (event Ext)) : I :=
  default i (patched_last tr ≫= of_object).

Definition patches (tr : list (event Ext)) : bool :=
  if patched_last tr ≫= of_object is Some _ then true else false.

Lemma left_by_patched tr :
  patches tr = true → Ev (PatchInstance (to_object (left_by tr))) None ∈ tr.
Proof using Hof.
  unfold patches. intros Hlast. apply patched_last_spec. unfold left_by.
  destruct (patched_last _) as [o|]; [|done]. cbn in *.
  destruct (of_object o) as [j|] eqn:Hj; [|done]. cbn. by rewrite (Hof o j).
Qed.

Definition checked (tr : list (event Ext)) : bool :=
  forallb goodb tr && patches tr &&
  bool_decide (om_DeletionTimestamp (cr_Meta (left_by tr)) = None).

Lemma one_run :
  head (trace_of p w) = Some (Ev fetch (Okay i)) →
  let tr := tail (trace_of p w) in
  checked tr = true →
  exec p (Ev fetch (Okay i) :: tr) (outcome_of p w) ∧ Forall (good i) tr ∧
  after_run i tr (Some (left_by tr)).
Proof.
  unfold checked. cbn zeta. rewrite !andb_true_iff.
  intros Hh [[Hall Hlast] Hd%bool_decide_eq_true].
  split; [by apply runs_from|]. split; [by apply (by_decision _ goodb)|].
  right. exists (left_by (tail (trace_of p w))).
  split; [by apply left_by_patched|unfold collect; by rewrite Hd].
Qed.
End one_pass.

(** The databases have published their addresses. *)
Definition addressed_db (items : list OVNDBCluster) (t : string) : bool :=
  match list_find (λ c, db_DBType (db_Spec c) = t) items with
  | Some (_, c) => nonempty (dbs_InternalDBAddress (db_Status c))
  | None => false
  end.

Lemma addressed_db_spec items t :
  addressed_db items t = true →
  ∃ n c, list_find (λ c, db_DBType (db_Spec c) = t) items = Some (n, c) ∧
    dbs_InternalDBAddress (db_Status c) ≠ "".
Proof.
  unfold addressed_db. destruct (list_find _ _) as [[n c]|]; [|done].
  intros Ha. exists n, c. split; [done|]. intros Heq. by rewrite Heq in Ha.
Qed.

Definition nd_favourableb (i : OVNNorthd) (ev : event Ext) : bool :=
  succeededb ev &&
  match ev with Ev e r =>
    match e in Ext R return R → bool with
    | ListOVNDBClusters _ _ => λ r, match r with
        | Okay items => addressed_db items NBDBType && addressed_db items SBDBType
        | Fail _ => true end
    | StatefulSetCreateOrPatch _ _ => λ r,
        bool_decide (nd_Replicas (nd_Spec i) = Some (sts_ReadyReplicas r.2)) &&
        bool_decide (sts_StatusReplicas r.2 = sts_ReadyReplicas r.2)
    | GetDeployment _ _ => λ r, match r with
        | Okay d => bool_decide (is_Some (dep_Replicas d)) | Fail _ => true end
    | _ => λ _, true
    end r
  end.

Lemma nd_favourableb_spec i ev : nd_favourableb i ev = true → nd_favourable i ev.
Proof.
  unfold nd_favourableb. intros [Hs Hb]%andb_true_iff. split; [by apply succeededb_spec|].
  destruct ev as [R [] r]; cbn in Hb |- *; try done.
  - intros _ _ items ->. apply andb_true_iff in Hb as [Hn Hsb].
    intros t [->|[->|[]%elem_of_nil]%elem_of_cons]%elem_of_cons; by apply addressed_db_spec.
  - intros d ->. by apply bool_decide_eq_true in Hb.
  - by apply andb_true_iff in Hb as [?%bool_decide_eq_true ?%bool_decide_eq_true].
Qed.

(** An OVNNorthd that was just created, after each run. *)
Definition newNorthd : OVNNorthd :=
  let i := aNorthd "northd" "" 1 in cr_set_Meta (om_set_Finalizers [] (cr_Meta i)) i.
Definition northd_object (o : Object) : option OVNNorthd :=
  match o with ObjOVNNorthd j => Some j | _ => None end.
Definition northdPass (i : OVNNorthd) : list (event Ext) :=
  tail (trace_of (OVNNorthd_Reconcile (req "northd")) (northdWorld i [] [])).
Definition northdAfter (i : OVNNorthd) : OVNNorthd := left_by i northd_object (northdPass i).

(** A resource with the name that the reconciler is asked for. *)
Definition named_b (meta : ObjectMeta) (name : string) : bool :=
  bool_decide (om_Name meta = name) && bool_decide (om_Namespace meta = "openstack").

Lemma northd_run i :
  named_b (nd_Meta i) "northd" && checked (nd_favourableb i) i northd_object (northdPass i) = true →
  exec (OVNNorthd_Reconcile (req "northd"))
    (Ev (GetOVNNorthd (req "northd")) (Okay i) :: northdPass i)
    (outcome_of (OVNNorthd_Reconcile (req "northd")) (northdWorld i [] [])) ∧
  Forall (nd_favourable i) (northdPass i) ∧ after_run i (northdPass i) (Some (northdAfter i)).
Proof.
  unfold named_b. rewrite !andb_true_iff.
  intros [[Hn%bool_decide_eq_true Hns%bool_decide_eq_true] Hc].
  apply (one_run _ _ nd_favourable (nd_favourableb i));
    [by intros [] j [= ->]|apply nd_favourableb_spec| |done].
  unfold OVNNorthd_Reconcile. rewrite head_reconcile. cbn -[named].
  by rewrite named_one.
Qed.

(** The functions of [RefLib] that may fail and do not. *)
Lemma refHash_total vars : ∃ h, ObjectHash (MergeEnvs [] vars) = Okay h.
Proof. by eexists. Qed.
Lemma refService_total svc : ∃ h, NewService svc None = Okay h.
Proof. by eexists. Qed.
Lemma refNetworks_total nads : Forall annotatable nads → ∃ a, EnsureNetworksAnnotation nads = Okay a.
Proof. by eexists. Qed.

Lemma two_northd_passes :
  nsteps (pass (GetOVNNorthd (req "northd")) (OVNNorthd_Reconcile (req "northd"))
            nd_favourable) 2 newNorthd (northdAfter (northdAfter newNorthd)).
Proof.
  apply nsteps_l with (northdAfter newNorthd); [|apply nsteps_once];
    (eexists _, _; apply northd_run; vm_compute; reflexivity).
Qed.

Lemma nd_converges_witness :
  let j := northdAfter (northdAfter newNorthd) in
  nsteps (pass (GetOVNNorthd (req "northd")) (OVNNorthd_Reconcile (req "northd"))
            nd_favourable) 2 newNorthd j ∧
  OVNNorthd_IsReady newNorthd = false ∧ OVNNorthd_IsReady j = true ∧
  settled (GetOVNNorthd (req "northd")) (OVNNorthd_Reconcile (req "northd"))
    nd_favourable j.
Proof.
  intros j. pose proof two_northd_passes as Hij.
  split; [exact Hij|]. split; [vm_compute; reflexivity|].
  apply (nd_converges refHash_total refService_total (req "northd") 2 newNorthd j).
  - by split; eexists.
  - done.
  - intros t _ [s Hs]. discriminate Hs.
  - lia.
  - exact Hij.
Defined.

(** The same of a cluster. *)
Definition db_favourableb (ev : event Ext) : bool :=
  succeededb ev &&
  match ev with Ev e r =>
    match e in Ext R return R → bool with
    | StatefulSetCreateOrPatch _ _ => λ r, statefulset_IsReady r.2
    | ServiceCreateOrPatch _ _ => λ r, bool_decide (GetServiceType r.2 ≠ ServiceTypeLoadBalancer)
    | GetServicesListWithLabel _ _ => λ r, match r with
        | Okay items => existsb is_cluster_service items &&
                        forallb (λ s, ports_okb (svc_Spec s)) items
        | Fail _ => true end
    | _ => λ _, true
    end r
  end.

Lemma db_favourableb_spec ev : db_favourableb ev = true → db_favourable ev.
Proof.
  unfold db_favourableb. intros [Hs Hb]%andb_true_iff. split; [by apply succeededb_spec|].
  destruct ev as [R [] r]; cbn in Hb |- *; try done.
  - intros items ->. apply andb_true_iff in Hb as [Hne Hp].
    split.
    { apply Exists_exists. apply existsb_exists in Hne as (s & Hin%list_elem_of_In & Hc). by exists s. }
    apply Forall_forall. intros s Hin%list_elem_of_In.
    rewrite forallb_forall in Hp. by apply ports_okb_spec, Hp.
  - by apply bool_decide_eq_true in Hb.
Qed.

(** The services of a cluster of one replica, labelled as the operator labels them. *)
Definition labelledWorld (name : string) (i : OVNDBCluster) : World :=
  let service := "ovsdbserver-" +:+ name in
  let svc n t ip ty := mkService n "openstack"
        (MergeMaps {["service" := service]} {["type" := t]})
        (mkServiceSpec ∅ [mkServicePort "south" 6642 "TCP"] false ip ty) in
  mkWorld [i] [] [] [aPod (service +:+ "-0")]
    [svc service ServiceHeadlessType "None" "";
     svc (service +:+ "-0") ServiceClusterType "10.0.0.1" "ClusterIP"]
    [] [] (readySts 1) (readyDs 1) true None false.

Definition db_object (o : Object) : option OVNDBCluster :=
  match o with ObjOVNDBCluster j => Some j | _ => None end.
Lemma db_object_spec o j : db_object o = Some j → o = to_object j.
Proof. destruct o; try done. by intros [= ->]. Qed.
Definition dbPass (name : string) (i : OVNDBCluster) : list (event Ext) :=
  tail (trace_of (OVNDBCluster_Reconcile (req name)) (labelledWorld name i)).
Definition dbAfter (name : string) (i : OVNDBCluster) : OVNDBCluster := left_by i db_object (dbPass name i).

Lemma db_head name i :
  named_b (db_Meta i) name = true →
  head (trace_of (OVNDBCluster_Reconcile (req name)) (labelledWorld name i)) =
    Some (Ev (GetOVNDBCluster (req name)) (Okay i)).
Proof.
  intros [Hn%bool_decide_eq_true Hns%bool_decide_eq_true]%andb_true_iff.
  unfold OVNDBCluster_Reconcile. rewrite head_reconcile. cbn -[named].
  by rewrite named_one.
Qed.

Lemma db_run name i :
  named_b (db_Meta i) name && checked db_favourableb i db_object (dbPass name i) = true →
  exec (OVNDBCluster_Reconcile (req name))
    (Ev (GetOVNDBCluster (req name)) (Okay i) :: dbPass name i)
    (outcome_of (OVNDBCluster_Reconcile (req name)) (labelledWorld name i)) ∧
  Forall db_favourable (dbPass name i) ∧ after_run i (dbPass name i) (Some (dbAfter name i)).
Proof.
  intros [Hn Hc]%andb_true_iff.
  apply (one_run _ _ (λ _, db_favourable) db_favourableb);
    [by intros [] j [= ->]|apply db_favourableb_spec|by apply db_head|done].
Qed.

Lemma two_db_passes :
  nsteps (pass (GetOVNDBCluster (req "sb")) (OVNDBCluster_Reconcile (req "sb"))
            (λ _, db_favourable)) 2 fresh (dbAfter "sb" (dbAfter "sb" fresh)).
Proof.
  apply nsteps_l with (dbAfter "sb" fresh); [|apply nsteps_once];
    (eexists _, _; apply db_run; vm_compute; reflexivity).
Qed.

Lemma db_converges_witness :
  let j := dbAfter "sb" (dbAfter "sb" fresh) in
  nsteps (pass (GetOVNDBCluster (req "sb")) (OVNDBCluster_Reconcile (req "sb"))
            (λ _, db_favourable)) 2 fresh j ∧
  OVNDBCluster_IsReady fresh = false ∧ OVNDBCluster_IsReady j = true ∧ db_addressed j ∧
  settled (GetOVNDBCluster (req "sb")) (OVNDBCluster_Reconcile (req "sb"))
    (λ _, db_favourable) j.
Proof.
  pose proof two_db_passes as Hij.
  split; [exact Hij|]. split; [vm_compute; reflexivity|].
  apply (db_converges refHash_total refService_total refNetworks_total (req "sb") 2 fresh).
  - split; [by eexists|]. split; [by split|by eexists].
  - reflexivity.
  - intros t _ [s Hs]. discriminate Hs.
  - lia.
  - exact Hij.
Defined.

(** The same of an OVNController with a physical network. *)
#[local] Instance Setter_eq_dec : EqDecision Setter.
Proof. solve_decision. Defined.

Definition scriptVars : gmap string Setter := {["configmaps" := SetValue "oc-scripts"]}.
Definition newController : OVNController :=
  let i := mapped in
  mkOVNController (oc_Kind i) (om_set_Finalizers [] (oc_Meta i)) (oc_Spec i)
    (mkOVNControllerStatus 0 0 0 0 [] None None 0 None).

Definition oc_favourableb (i : OVNController) (ev : event Ext) : bool :=
  succeededb ev &&
  match ev with Ev e r =>
    match e in Ext R return R → bool with
    | EnsureConfigMaps _ cms (Some _) => λ r,
        bool_decide (tpl_Name <$> cms ≠ [tpl_Name (ocScripts i)]) || bool_decide (r.1 = scriptVars)
    | DaemonSetCreateOrPatch _ _ => λ r,
        bool_decide (rolled_out r.2) && bool_decide (ds_DesiredNumberScheduled r.2 = 1%Z) &&
        bool_decide (ds_NumberReady r.2 = 1%Z)
    | ListOVNDBClusters _ _ => λ r, match r with
        | Okay items => addressed_db items SBDBType | Fail _ => true end
    | _ => λ _, true
    end r
  end.

Lemma oc_favourableb_spec i ev : oc_favourableb i ev = true → oc_favourable i scriptVars 1 ev.
Proof.
  unfold oc_favourableb. intros [Hs Hb]%andb_true_iff. split; [by apply succeededb_spec|].
  destruct ev as [R [] r]; cbn in Hb |- *; try done.
  - intros _ _ items ->. by apply addressed_db_spec.
  - intros nad _. by eexists.
  - match goal with |- context [match ?v with Some _ => _ | None => _ end] => destruct v end; [|done].
    intros ->. apply orb_true_iff in Hb as [Hb|Hb]; apply bool_decide_eq_true in Hb; [|done].
    by destruct Hb.
  - rewrite !andb_true_iff in Hb. destruct Hb as [[H1 H2] H3].
    split; [by apply bool_decide_eq_true in H1|].
    split; [by apply bool_decide_eq_true in H2|by apply bool_decide_eq_true in H3].
Qed.

Definition oc_object (o : Object) : option OVNController :=
  match o with ObjOVNController j => Some j | _ => None end.
(** The attachment that the operator made for the network is there. *)
Definition attachedWorld (i : OVNController) : World :=
  mkWorld theDatabases [] [i] [aPod "ovn-controller-ovs-x"] []
    [mkNAD "datacentre" "openstack" ∅ [mkOwnerRef "OVNController" "oc"] ""]
    [] (readySts 1) (readyDs 1) true None false.
Definition ocPass (i : OVNController) : list (event Ext) :=
  tail (trace_of (OVNController_Reconcile (req "oc")) (attachedWorld i)).
Definition ocAfter (i : OVNController) : OVNController := left_by i oc_object (ocPass i).

Lemma oc_run i :
  named_b (oc_Meta i) "oc" && checked (oc_favourableb i) i oc_object (ocPass i) = true →
  exec (OVNController_Reconcile (req "oc"))
    (Ev (GetOVNController_ (req "oc")) (Okay i) :: ocPass i)
    (outcome_of (OVNController_Reconcile (req "oc")) (attachedWorld i)) ∧
  Forall (oc_favourable i scriptVars 1) (ocPass i) ∧ after_run i (ocPass i) (Some (ocAfter i)).
Proof.
  unfold named_b. rewrite !andb_true_iff.
  intros [[Hn%bool_decide_eq_true Hns%bool_decide_eq_true] Hc].
  apply (one_run _ _ (λ x, oc_favourable x scriptVars 1) (oc_favourableb i));
    [by intros [] j [= ->]|apply oc_favourableb_spec| |done].
  unfold OVNController_Reconcile. rewrite head_reconcile. cbn -[named].
  by rewrite named_one.
Qed.

Lemma three_oc_passes :
  nsteps (pass (GetOVNController_ (req "oc")) (OVNController_Reconcile (req "oc"))
            (λ x, oc_favourable x scriptVars 1)) 3 newController
    (ocAfter (ocAfter (ocAfter newController))).
Proof.
  apply nsteps_l with (ocAfter newController); [|apply nsteps_l with (ocAfter (ocAfter newController));
    [|apply nsteps_once]]; (eexists _, _; apply oc_run; vm_compute; reflexivity).
Qed.

Lemma oc_converges_witness :
  let j := ocAfter (ocAfter (ocAfter newController)) in
  nsteps (pass (GetOVNController_ (req "oc")) (OVNController_Reconcile (req "oc"))
            (λ x, oc_favourable x scriptVars 1)) 3 newController j ∧
  OVNController_IsReady (ocAfter newController) = false ∧ OVNController_IsReady j = true ∧
  settled (GetOVNController_ (req "oc")) (OVNController_Reconcile (req "oc"))
    (λ x, oc_favourable x scriptVars 1) j.
Proof.
  pose proof three_oc_passes as Hij.
  split; [exact Hij|]. split; [vm_compute; reflexivity|].
  apply (oc_converges refHash_total refService_total refNetworks_total scriptVars 1 (req "oc") 3
           newController).
  - split.
    + reflexivity.
    + intros k _ (_ & Hb & _). discriminate Hb.
    + eexists. reflexivity.
  - reflexivity.
  - intros t _ [s Hs]. discriminate Hs.
  - lia.
  - exact Hij.
Defined.

(** ** An OVNNorthd without replicas *)

Definition idleNorthd : OVNNorthd := aNorthd "northd" "" 0.
Definition idleWorld : World :=
  mkWorld theDatabases [idleNorthd] [] [] [] [] [] (readySts 0) (readyDs 1) true None false.
Definition idlePass : list (event Ext) := tail (trace_of (OVNNorthd_Reconcile (req "northd")) idleWorld).
Definition idleAfter : OVNNorthd := left_by idleNorthd northd_object idlePass.

(** The StatefulSet that was written, and what was read back. *)
Definition sts_answer (ev : event Ext) : option (StatefulSetDef * Z * StatefulSetObs) :=
  match ev with Ev e r =>
    match e in Ext R return R → option (StatefulSetDef * Z * StatefulSetObs) with
    | StatefulSetCreateOrPatch s t => λ r,
        match r with
        | (res, None, obs) => if bool_decide (res = emptyResult) then Some (s, t, obs) else None
        | _ => None
        end
    | _ => λ _, None
    end r
  end.

Lemma sts_answered tr obs :
  snd <$> head (omap sts_answer tr) = Some obs →
  ∃ s t, Ev (StatefulSetCreateOrPatch s t) (emptyResult, None, obs) ∈ tr.
Proof.
  intros ([[s t] o] & Hh & ->)%fmap_Some. exists s, t.
  apply head_Some_elem_of, list_elem_of_omap in Hh as ([R e r] & Hin & He).
  destruct e; try discriminate He. cbn in He. destruct r as [[res [e|]] o']; [discriminate He|].
  case_bool_decide as Hres; [|discriminate He]. injection He as <- <- <-. by subst res.
Qed.

(** Its StatefulSet runs none either: the condition is true, not absent. *)
Lemma nd_deployment_condition_witness :
  (∃ s t, Ev (StatefulSetCreateOrPatch s t) (emptyResult, None, readySts 0) ∈ idlePass) ∧
  deployment_of idleAfter = Some ConditionTrue.
Proof.
  destruct (sts_answered idlePass (readySts 0)) as (s & t & Hsts); [vm_compute; reflexivity|].
  split; [exists s, t; exact Hsts|].
  refine (nd_deployment_condition (req "northd") idleNorthd 0 idlePass
    (outcome_of (OVNNorthd_Reconcile (req "northd")) idleWorld) s t (readySts 0) idleAfter None
    _ eq_refl Hsts _).
  - apply runs_from. unfold OVNNorthd_Reconcile. rewrite head_reconcile. cbn -[named].
    by rewrite named_one.
  - apply (left_by_patched _ northd_object); [by intros [] j [= ->]|vm_compute; reflexivity].
Defined.

(** ** The life of a resource *)

(** An OVNNorthd is created and reconciled twice: the second run writes. *)
Definition written_in (tr : list (event Ext)) : bool := bool_decide (Exists is_write tr).
Definition lived : Life (I := OVNNorthd) :=
  let i1 := northdAfter newNorthd in
  mkLife (Some (northdAfter i1))
    ((false || written_in (northdPass newNorthd)) || written_in (northdPass i1))
    ((false || existsb releases (northdPass newNorthd)) || existsb releases (northdPass i1))
    (negb (held (Some (northdAfter i1))) && (negb (held (Some i1)) && false)).

Lemma lived_reachable :
  reachable (GetOVNNorthd (req "northd")) (OVNNorthd_Reconcile (req "northd")) lived.
Proof.
  unfold reachable, lived. eapply rtc_l; [apply (user_creates _ _ newNorthd _ _ false); reflexivity|].
  eapply rtc_l; [|apply rtc_once].
  - eapply (reconciles _ _ _ _ _ _ false false false); apply northd_run; vm_compute; reflexivity.
  - eapply reconciles; apply northd_run; vm_compute; reflexivity.
Qed.

Lemma nothing_orphaned_witness :
  reachable (GetOVNNorthd (req "northd")) (OVNNorthd_Reconcile (req "northd")) lived ∧
  written lived = true ∧ released lived = false ∧ stripped lived = false ∧
  ∃ i, stored lived = Some i ∧ has_finalizer i.
Proof.
  split; [exact lived_reachable|].
  assert (written lived = true) as Hw by (vm_compute; reflexivity).
  assert (released lived = false) as Hr by (vm_compute; reflexivity).
  assert (stripped lived = false) as Hp by (vm_compute; reflexivity).
  split; [exact Hw|]. split; [exact Hr|]. split; [exact Hp|].
  destruct (proj1 (proj2 (nothing_orphaned (req "northd"))) lived lived_reachable Hw)
    as [H|[H|H]]; [exact H|rewrite Hr in H|rewrite Hp in H]; discriminate H.
Defined.

(** ** The composition of the reconcilers *)

(** The NB and the SB cluster, as two runs each leave them. *)
Definition freshNB : OVNDBCluster :=
  let i := aDBCluster "NB" "nb" 1 "" noTLS in cr_set_Meta (om_set_Finalizers [] (cr_Meta i)) i.
Definition storedNB : OVNDBCluster := dbAfter "nb" (dbAfter "nb" freshNB).
Definition storedSB : OVNDBCluster := dbAfter "sb" (dbAfter "sb" fresh).

Lemma run_stored name i :
  db_stored i →
  named_b (db_Meta i) name && checked db_favourableb i db_object (dbPass name i) = true →
  db_stored (dbAfter name i).
Proof.
  intros Hi Hc. destruct (db_run name i Hc) as (Hex & _ & Hafter).
  destruct Hafter as [[[= ->] _]|(j & Hin & Hj)]; [done|].
  apply eq_sym, collect_Some in Hj as <-. eapply stored_patched; [exact Hi|exact Hex|exact Hin].
Qed.

Lemma servedStored : Forall db_stored [storedNB; storedSB].
Proof.
  assert (∀ name i, dbs_InternalDBAddress (db_Status i) = "" →
    named_b (db_Meta i) name && checked db_favourableb i db_object (dbPass name i) = true →
    named_b (db_Meta (dbAfter name i)) name &&
      checked db_favourableb (dbAfter name i) db_object (dbPass name (dbAfter name i)) = true →
    db_stored (dbAfter name (dbAfter name i))) as Htwice.
  { intros name i Hi H1 H2. apply run_stored; [|exact H2]. apply run_stored; [|exact H1].
    by apply stored_created. }
  apply Forall_cons_2; [|apply Forall_cons_2; [|apply Forall_nil_2]];
    apply Htwice; vm_compute; reflexivity.
Qed.

Definition clientWorld : World :=
  mkWorld [storedNB; storedSB] [aNorthd "northd" "" 1] [] [] [] [] [] (readySts 1) (readyDs 1)
    true None false.
Definition clientRun : list (event Ext) :=
  trace_of (OVNNorthd_Reconcile (req "northd")) clientWorld.

Lemma run_lists_stored {A} (p : prog Ext A) w :
  Forall db_stored (w_db w) → Forall lists_stored (trace_of p w).
Proof.
  intros Hw. apply run_Forall. intros R e. split; [apply handler_world|].
  destruct e; try exact Logic.I. cbn.
  intros items [= <-]. apply Forall_forall. intros c [_ Hc]%list_elem_of_filter.
  by apply (proj1 (Forall_forall _ _) Hw).
Qed.

Lemma clientRun_stored : Forall lists_stored clientRun.
Proof. exact (run_lists_stored _ clientWorld servedStored). Qed.

Lemma creates_sts_event sts tr :
  Exists (creates_sts sts) tr → ∃ timeout r, Ev (StatefulSetCreateOrPatch sts timeout) r ∈ tr.
Proof.
  intros ([R [] r] & Hin & He)%Exists_exists; try done. cbn in He. subst. eauto.
Qed.

Lemma clients_use_served_addresses_witness :
  ∃ sts nb sb, Exists (creates_sts sts) clientRun ∧ northd_connects sts nb sb ∧
    served NBDBType nb ∧ served SBDBType sb.
Proof.
  destruct (created_sts clientRun) as [sts Hsts]; [vm_compute; reflexivity|].
  destruct (creates_sts_event _ _ Hsts) as (timeout & r & Hin).
  destruct (proj1 (clients_use_served_addresses (req "northd") clientRun
              (outcome_of (OVNNorthd_Reconcile (req "northd")) clientWorld) clientRun_stored)
              (runs _ _) sts timeout r Hin) as (nb & sb & Hc & Hn & Hs).
  exists sts, nb, sb. split; [exact Hsts|]. split; [exact Hc|]. split; [exact Hn|exact Hs].
Defined.

(** ** Bounds, confinement, and a cluster that never is Ready *)

(** What is asked for in a namespace is in that namespace, decided. *)
Definition ok_is {A} (f : A → bool) (r : fallible A) : bool :=
  match r with Okay a => f a | Fail _ => true end.
Definition answers_inb (ev : event Ext) : bool :=
  match ev with Ev e r =>
    match e in Ext R return R → bool with
    | GetOVNDBCluster n => ok_is (λ i, bool_decide (om_Namespace (db_Meta i) = nn_Namespace n))
    | GetOVNNorthd n => ok_is (λ i, bool_decide (om_Namespace (nd_Meta i) = nn_Namespace n))
    | GetOVNController_ n => ok_is (λ i, bool_decide (om_Namespace (oc_Meta i) = nn_Namespace n))
    | GetDeployment n _ => ok_is (λ d, bool_decide (dep_Namespace d = n))
    | GetNAD n _ => ok_is (λ d, bool_decide (nad_Namespace d = n))
    | GetServiceWithName _ n => λ r,
        match r.1 with Some s => bool_decide (svc_Namespace s = n) | None => true end
    | ClientsetListPods n _ => ok_is (forallb (λ p, bool_decide (pod_Namespace p = n)))
    | _ => λ _, true
    end r
  end.

Lemma ok_is_spec {A} (f : A → bool) (P : A → Prop) r :
  (∀ a, f a = true → P a) → ok_is f r = true → ∀ a, r = Okay a → P a.
Proof. intros Hf Hb a ->. by apply Hf. Qed.

Lemma answers_inb_spec ev : answers_inb ev = true → answers_in ev.
Proof.
  destruct ev as [R [] r]; cbn; try done;
    try (apply ok_is_spec; intros x Hb; by apply bool_decide_eq_true in Hb).
  - apply ok_is_spec. intros ps Hb. apply Forall_forall. intros p Hp%list_elem_of_In.
    rewrite forallb_forall in Hb. by apply Hb, bool_decide_eq_true in Hp.
  - intros Hb s Hs. rewrite Hs in Hb. by apply bool_decide_eq_true in Hb.
Qed.

(** The second run on a cluster of one replica. *)
Definition bigRun : list (event Ext) :=
  Ev (GetOVNDBCluster (req "sb")) (Okay (dbAfter "sb" fresh)) :: dbPass "sb" (dbAfter "sb" fresh).

Lemma bigRun_runs :
  exec (OVNDBCluster_Reconcile (req "sb")) bigRun
    (outcome_of (OVNDBCluster_Reconcile (req "sb")) (labelledWorld "sb" (dbAfter "sb" fresh))).
Proof. apply db_run. vm_compute. reflexivity. Qed.

Lemma requests_confined_witness :
  Exists is_write bigRun ∧ Forall (confined "openstack") bigRun.
Proof.
  split; [at_position 2|].
  apply (requests_confined (req "sb") bigRun _ (or_introl bigRun_runs)).
  apply (by_decision _ _ _ answers_inb_spec). vm_compute. reflexivity.
Defined.

Definition short {A} (N : nat) : fallible (list A) → bool := ok_is (λ l, bool_decide (length l ≤ N)).
Definition sizedb (N : nat) (ev : event Ext) : bool :=
  match ev with Ev e r =>
    match e in Ext R return R → bool with
    | ClientsetListPods _ _ | ListPods _ _ => short N
    | GetServicesListWithLabel _ _ => short N
    | _ => λ _, true
    end r
  end.

Lemma sizedb_spec N ev : sizedb N ev = true → sized N ev.
Proof.
  destruct ev as [R [] r]; cbn; try done;
    intros Hb l ->; by apply bool_decide_eq_true in Hb.
Qed.

Lemma requests_bounded_witness : length bigRun = 23 ∧ length bigRun ≤ 24 + 8 * 2.
Proof.
  split; [vm_compute; reflexivity|].
  apply (proj1 (requests_bounded (req "sb") 2 (dbPass "sb" (dbAfter "sb" fresh))
    (outcome_of (OVNDBCluster_Reconcile (req "sb")) (labelledWorld "sb" (dbAfter "sb" fresh)))
    ltac:(apply (by_decision _ _ _ (sizedb_spec 2)); vm_compute; reflexivity))).
  - exact bigRun_runs.
  - vm_compute. discriminate.
Defined.

(** An SB cluster whose override asks for a service of the cluster. *)
Definition misexposedSB : OVNDBCluster :=
  db_set_Override_Service
    (Some (mkOverrideSpec None (Some (mkOverrideServiceSpec "ClusterIP" None)))) scaled.

Definition no_load_balancerb (ev : event Ext) : bool :=
  match ev with Ev e r =>
    match e in Ext R return R → bool with
    | ServiceCreateOrPatch _ _ => λ r, bool_decide (GetServiceType r.2 ≠ ServiceTypeLoadBalancer)
    | ReconcileRbac _ _ => λ r, bool_decide (Forall (λ c, cond_Type c ∈ rbacTypes) r.1)
    | _ => λ _, true
    end r
  end.

Lemma no_load_balancerb_spec ev : no_load_balancerb ev = true → no_load_balancer ev.
Proof.
  destruct ev as [R [] r]; cbn; try done; intros Hb; split; try done;
    by apply bool_decide_eq_true in Hb.
Qed.

Lemma misexposed_stays_unready_witness :
  let i' := dbAfter "sb" misexposedSB in
  Ev (PatchInstance (ObjOVNDBCluster i')) None ∈ dbPass "sb" misexposedSB ∧
  OVNDBCluster_IsReady i' = false ∧ misexposed i'.
Proof.
  assert (exec (OVNDBCluster_Reconcile (req "sb"))
    (Ev (GetOVNDBCluster (req "sb")) (Okay misexposedSB) :: dbPass "sb" misexposedSB)
    (outcome_of (OVNDBCluster_Reconcile (req "sb")) (labelledWorld "sb" misexposedSB))) as Hex
    by (apply runs_from, db_head; vm_compute; reflexivity).
  assert (Ev (PatchInstance (ObjOVNDBCluster (dbAfter "sb" misexposedSB))) None
            ∈ dbPass "sb" misexposedSB) as Hin
    by (apply (left_by_patched _ db_object db_object_spec); vm_compute; reflexivity).
  split; [exact Hin|].
  apply (misexposed_stays_unready (req "sb") misexposedSB (dbPass "sb" misexposedSB)
           (outcome_of (OVNDBCluster_Reconcile (req "sb")) (labelledWorld "sb" misexposedSB))
           (dbAfter "sb" misexposedSB) None).
  - split; [reflexivity|]. split; [reflexivity|]. split; [|reflexivity].
    eexists. split; [reflexivity|]. discriminate.
  - exact Hex.
  - apply (by_decision _ _ _ no_load_balancerb_spec). vm_compute. reflexivity.
  - exact Hin.
Defined.

(** ** What wakes a reconciliation up *)

(** An answer to a list of databases. *)
Definition is_listing (ev : event Ext) : bool :=
  match ev with Ev e _ =>
    match e with ListOVNDBClusters ns _ => bool_decide (ns = "openstack") | _ => false end end.

(** The reconciliation of [northdRun] lists the databases of its namespace. *)
Lemma changes_wake_witness :
  Watches.wakes northdController (ovnv1_CR CROVNDBCluster) (req "nb") (req "northd")
    (cr_Spec (aNorthd "northd" "" 1)).
Proof.
  destruct Watches.changes_wake as [Hw _].
  assert (Exists is_listing northdRun) as (ev & Hin & Hev)%Exists_exists
    by (apply (bool_decide_unpack _); vm_compute; exact Logic.I).
  apply (Hw (req "northd") (aNorthd "northd" "" 1) (tail northdRun)
           (outcome_of (OVNNorthd_Reconcile (req "northd"))
              (northdWorld (aNorthd "northd" "" 1) [] [])) ev).
  - apply runs_from. vm_compute. reflexivity.
  - rewrite (starts_with northdRun (Ev (GetOVNNorthd (req "northd")) (Okay (aNorthd "northd" "" 1))))
      in Hin by (vm_compute; reflexivity).
    apply elem_of_cons in Hin as [->|Hin]; [done|exact Hin].
  - destruct ev as [R []]; try done. apply bool_decide_unpack in Hev. by split.
  - reflexivity.
Defined.
