(* ===== verification/WorkloadWitnesses.v ===== *)
(** * The theorems on the objects of a run at concrete runs

    The runs of the three reconcilers against the cluster of [RefLib]: the objects they
    write, the selectors of their services, and a second run that changes nothing. *)
From S2P Require Import Prelude Prog Triples Learning K8s Lib Api ApiMethods Calls Shared.
From S2P Require Import SharedProofs DBManifests Client DBController CtlManifests.
From S2P Require Import CtlController NorthdManifests NorthdController RefLib DBProofs.
From S2P Require Import NorthdProofs CtlProofs Validity ValidRuns Selection Stability.
From S2P Require Import Witnesses SystemWitnesses.
#[local] Open Scope go_scope.

(** The run of the OVNController submits its configuration job: position 14. *)
Lemma requests_valid_witness :
  Exists runs_job ctlRun ∧ requests_are_valid ctlRun.
Proof.
  split; [at_position 14|].
  exact (requests_valid (req "oc") ctlRun _ (or_intror (or_intror
    (runs _ (ctlWorld (aController "oc" ∅ ∅)))))).
Defined.

Definition is_service (ev : event Ext) : Prop :=
  match ev with Ev e _ => match e with ServiceCreateOrPatch _ _ => True | _ => False end end.

(** The database's run writes its services. *)
Lemma services_reach_pods_witness :
  Exists is_service bigRun ∧
  Forall (for_pods (db_labels "ovsdbserver-sb") (db_labels "ovsdbserver-sb")) bigRun.
Proof.
  split; [at_position 9|].
  exact (proj1 (services_reach_pods (req "sb") bigRun _) (dbAfter "sb" fresh) bigRun_runs eq_refl).
Defined.

(** ** A second run *)

(** ovn-northd before its first status, and with one left by earlier runs. *)
Definition freshNorthd : OVNNorthd := aNorthd "northd" "" 1.
Definition usedNorthd : OVNNorthd :=
  nd_set_Hash (Some {[InputHashName := "stale"]}) (nd_set_ReadyCount 7 freshNorthd).
Definition northdRunOf (i : OVNNorthd) : list (event Ext) :=
  trace_of (OVNNorthd_Reconcile (req "northd")) (northdWorld i [] []).

(** An OVNController likewise. *)
Definition freshController : OVNController := aController "oc" ∅ ∅.
Definition usedController : OVNController :=
  oc_set_NumberReady 7 (oc_set_DesiredNumberScheduled 9 freshController).
Definition ctlRunOf (i : OVNController) : list (event Ext) :=
  trace_of (OVNController_Reconcile (req "oc")) (ctlWorld i).

(** What the cluster of the two worlds holds. *)
Definition heldInputs : Inputs :=
  mkInputs (λ _ _, None)
    (λ ts, {["configmaps" := SetValue (strings_Join (tpl_Name <$> ts) ",")]})
    (λ ref, tr_Name <$> ref)
    (λ ns, filter (λ i, om_Namespace (db_Meta i) = ns) theDatabases).

(** The config maps are asked for without variables, as nothing is encrypted; no network
    is attached. *)
Definition no_vars (ev : event Ext) : bool :=
  match ev with Ev e _ =>
    match e with
    | EnsureConfigMaps _ _ vars => bool_decide (map_to_list (default ∅ vars) = [])
    | GetNADWithName _ _ => false
    | _ => true
    end
  end.
#[local] Instance Setter_eq_dec : EqDecision Setter.
Proof. solve_decision. Defined.

Lemma world_reads {A} (p : prog Ext A) w :
  w_db w = theDatabases → forallb no_vars (trace_of p w) = true →
  Forall (reads heldInputs) (trace_of p w).
Proof.
  intros Hw Hb. rewrite forallb_forall in Hb. apply Forall_forall. intros ev Hin.
  assert (no_vars ev = true → reads heldInputs ev) as Hev; [|by apply Hev, Hb, list_elem_of_In].
  revert ev Hin. apply (proj1 (Forall_forall (λ ev, no_vars ev = true → reads heldInputs ev) _)).
  apply run_Forall. intros R e. split; [apply handler_world|].
  destruct e; cbn; try done.
  - intros _ l Hl. rewrite Hw in Hl. by injection Hl.
  - intros Hv _. apply bool_decide_eq_true, map_to_list_empty_iff in Hv. by rewrite Hv.
  - intros _ t Ht. by injection Ht.
Qed.

Lemma written_northd i :
  (if head (omap sts_of (northdRunOf i)) is Some _ then true else false) = true →
  ∃ sts, writes_sts sts (northdRunOf i).
Proof.
  intros Hb. destruct (created_sts _ Hb) as [sts Hsts]. exists sts.
  apply Exists_exists in Hsts as (ev & Hin & Hev). by exists ev.
Qed.

(** The DaemonSet of OVS that a run writes. *)
Definition ovs_of (ev : event Ext) : option DaemonSetDef :=
  match ev with Ev e _ =>
    match e with
    | DaemonSetCreateOrPatch ds _ =>
        if bool_decide (ds_Name ds = ServiceNameOVS) then Some ds else None
    | _ => None
    end
  end.

Lemma written_ovs i :
  (if head (omap ovs_of (ctlRunOf i)) is Some _ then true else false) = true →
  ∃ ds, writes_ds ds (ctlRunOf i) ∧ ds_Name ds = ServiceNameOVS.
Proof.
  destruct (head _) as [ds|] eqn:Hh; [|done]. intros _. exists ds.
  apply head_Some_elem_of, list_elem_of_omap in Hh as ([R e r] & Hin & He).
  destruct e; try done. cbn in He. case_bool_decide as Hn; [|done].
  injection He as ->. split; [by eexists _, _|done].
Qed.

Lemma unchanged_inputs_restart_nothing_witness :
  (∃ s1 s2, writes_sts s1 (northdRunOf freshNorthd) ∧ writes_sts s2 (northdRunOf usedNorthd) ∧
     s1 = s2) ∧
  (∃ d1 d2, writes_ds d1 (ctlRunOf freshController) ∧ writes_ds d2 (ctlRunOf usedController) ∧
     d1 = d2).
Proof.
  split.
  - destruct (written_northd freshNorthd) as [s1 H1]; [vm_compute; reflexivity|].
    destruct (written_northd usedNorthd) as [s2 H2]; [vm_compute; reflexivity|].
    exists s1, s2. split; [exact H1|]. split; [exact H2|].
    refine (proj1 (proj2 (unchanged_inputs_restart_nothing heldInputs (req "northd")
      (northdRunOf freshNorthd) _ (northdRunOf usedNorthd) _ _ _)) freshNorthd usedNorthd s1 s2
      _ (runs _ _) (runs _ _) eq_refl eq_refl H1 H2).
    + apply world_reads; vm_compute; reflexivity.
    + apply world_reads; vm_compute; reflexivity.
    + by eexists.
  - destruct (written_ovs freshController) as (d1 & H1 & N1); [vm_compute; reflexivity|].
    destruct (written_ovs usedController) as (d2 & H2 & N2); [vm_compute; reflexivity|].
    exists d1, d2. split; [exact H1|]. split; [exact H2|].
    refine (proj2 (proj2 (unchanged_inputs_restart_nothing heldInputs (req "oc")
      (ctlRunOf freshController) _ (ctlRunOf usedController) _ _ _)) freshController
      usedController d1 d2 _ (runs _ _) (runs _ _) eq_refl eq_refl H1 H2 _).
    + apply world_reads; vm_compute; reflexivity.
    + apply world_reads; vm_compute; reflexivity.
    + by eexists.
    + by rewrite N1, N2.
Defined.
