(* ===== verification/PlaneWitness.v ===== *)
(** * The control plane at a concrete schedule

    Two databases, an ovn-northd and an OVNController that were just created: six
    turns of the databases, then three of each resource. *)
From S2P Require Import Prelude Prog Triples K8s Lib Api ApiMethods Calls Shared.
From S2P Require Import SharedProofs DBManifests Client DBController CtlNetworks.
From S2P Require Import CtlManifests CtlController NorthdManifests NorthdController.
From S2P Require Import RefLib DBProofs NorthdProofs CtlProofs CtlNetworksProofs Protocol.
From S2P Require Import CtlPhases Lifecycle Progress DBProgress NorthdProgress CtlProgress.
From S2P Require Import Convergence Tending System Witnesses SystemWitnesses.
#[local] Open Scope go_scope.

Abbreviation Store := (gmap (CRKind * NamespacedName) Resource).

(** ** The cluster around a store *)
Definition databases (s : Store) : list OVNDBCluster :=
  omap (λ pr, match pr.2 with RDB c => Some c | _ => None end) (map_to_list s).

Lemma elem_of_databases s c : c ∈ databases s ↔ ∃ p, s !! p = Some (RDB c).
Proof.
  unfold databases. rewrite list_elem_of_omap. split.
  - intros ([p [c'|i|i]] & Hp%elem_of_map_to_list & [= ->]). by exists p.
  - intros [p Hp]. exists (p, RDB c). by rewrite elem_of_map_to_list.
Qed.

Definition planeWorld (s : Store) (n : NamespacedName) (r : Resource) : World :=
  match r with
  | RDB c =>
      let w := labelledWorld (nn_Name n) c in
      mkWorld (c :: databases s) [] [] (w_pods w) (w_services w) [] [] (readySts 1) (readyDs 1)
        true None false
  | RNorthd i => mkWorld (databases s) [i] [] [] [] [] [] (readySts 1) (readyDs 1) true None false
  | RCtl i =>
      let w := attachedWorld i in
      mkWorld (databases s) [] [i] (w_pods w) [] (w_nads w) [] (readySts 1) (readyDs 1)
        true None false
  end.

(** Its databases are those of the store. *)
Definition lists_db (w : World) (ev : event Ext) : Prop :=
  match ev with Ev e r =>
    match e in Ext R return R → Prop with
    | ListOVNDBClusters ns _ => λ r, r = Okay (filter (λ c, om_Namespace (db_Meta c) = ns) (w_db w))
    | _ => λ _, True
    end r
  end.
Lemma trace_lists {A} (p : prog Ext A) w : Forall (lists_db w) (trace_of p w).
Proof. apply run_Forall. intros R e. split; [apply handler_world|]. by destruct e. Qed.

Definition from_storeb (favb : event Ext → bool) (ev : event Ext) : bool :=
  match ev with Ev e r =>
    match e in Ext R return R → bool with
    | ListOVNDBClusters _ labels => λ _, bool_decide (labels = ∅)
    | e => λ r, favb (Ev e r)
    end r
  end.

Lemma from_storeb_spec s w (fav : event Ext → Prop) favb ev :
  (∀ c, c ∈ w_db w ↔ c ∈ databases s) → (∀ ev, favb ev = true → fav ev) →
  lists_db w ev → from_storeb favb ev = true → from_store s fav ev.
Proof.
  intros Hw Hfav Hl Hb. destruct ev as [R [] r]; cbn in *; auto.
  apply bool_decide_eq_true in Hb as ->. subst r. eexists. split; [done|]. intros c.
  rewrite list_elem_of_filter, Hw, elem_of_databases.
  split; [intros [Hns Hp]; repeat split; [done|apply map_empty_subseteq|done]|tauto].
Qed.

(** ** One turn, decided *)
Definition reconciler (p : CRKind * NamespacedName) : prog Ext RE :=
  match p.1 with
  | CROVNDBCluster => OVNDBCluster_Reconcile p.2
  | CROVNNorthd => OVNNorthd_Reconcile p.2
  | CROVNController => OVNController_Reconcile p.2
  end.
Definition turn (s : Store) (p : CRKind * NamespacedName) (r : Resource) : list (event Ext) :=
  tail (trace_of (reconciler p) (planeWorld s p.2 r)).

(** The resource that a turn leaves. *)
Definition left_resource (s : Store) (p : CRKind * NamespacedName) (r : Resource) : Resource :=
  match r with
  | RDB c => RDB (left_by c db_object (turn s p r))
  | RNorthd i => RNorthd (left_by i northd_object (turn s p r))
  | RCtl i => RCtl (left_by i oc_object (turn s p r))
  end.
Definition next (s : Store) (p : CRKind * NamespacedName) : Store :=
  match s !! p with Some r => <[p := left_resource s p r]> s | None => s end.

(** The process is that of the resource, and its turn is helped. *)
Definition named_as (k k' : CRKind) (meta : ObjectMeta) (n : NamespacedName) : bool :=
  bool_decide (k = k') && bool_decide (om_Name meta = nn_Name n) &&
  bool_decide (om_Namespace meta = nn_Namespace n).
Definition turn_ok (s : Store) (p : CRKind * NamespacedName) (r : Resource) : bool :=
  match r with
  | RDB c => named_as p.1 CROVNDBCluster (db_Meta c) p.2 &&
      checked (from_storeb db_favourableb) c db_object (turn s p r)
  | RNorthd i => named_as p.1 CROVNNorthd (nd_Meta i) p.2 &&
      checked (from_storeb (nd_favourableb i)) i northd_object (turn s p r)
  | RCtl i => named_as p.1 CROVNController (oc_Meta i) p.2 &&
      checked (from_storeb (oc_favourableb i)) i oc_object (turn s p r)
  end.

Lemma named_as_spec k k' meta n :
  named_as k k' meta n = true →
  k = k' ∧ om_Name meta = nn_Name n ∧ om_Namespace meta = nn_Namespace n.
Proof. unfold named_as. rewrite !andb_true_iff, !bool_decide_eq_true. tauto. Qed.

Definition someScripts (n : NamespacedName) : gmap string Setter := scriptVars.
Abbreviation help := (helpful someScripts 1).

(** What the answers of a turn satisfy. *)
Lemma turn_helped s w (p : prog Ext RE) fav favb tr :
  (∀ c, c ∈ w_db w ↔ c ∈ databases s) → (∀ ev, favb ev = true → fav ev) →
  tr = tail (trace_of p w) → Forall (λ ev, from_storeb favb ev = true) tr →
  Forall (from_store s fav) tr.
Proof.
  intros Hw Hfav -> Hall. apply Forall_forall. intros ev Hin.
  apply (from_storeb_spec s w fav favb); [done..| |by apply (proj1 (Forall_forall _ _) Hall)].
  apply (proj1 (Forall_forall _ _) (trace_lists p w)).
  destruct (trace_of p w); [by apply elem_of_nil in Hin|by right].
Qed.

Lemma turn_runs s p r :
  s !! p = Some r → turn_ok s p r = true → runs_on help s p r (Some (left_resource s p r)).
Proof.
  destruct p as [k n]. intros Hr. destruct r as [c|i|i]; cbn [turn_ok left_resource fst snd];
    intros [(-> & Hn & Hns)%named_as_spec Hc]%andb_true_iff.
  - destruct (one_run (GetOVNDBCluster n) (reconciler (CROVNDBCluster, n))
      (λ _ ev, from_storeb db_favourableb ev = true) (from_storeb db_favourableb)
      (planeWorld s n (RDB c)) c db_object db_object_spec ltac:(done))
      as (Hex & Hall & Hafter); [|exact Hc|].
    { unfold reconciler. cbn [fst snd]. unfold OVNDBCluster_Reconcile. rewrite head_reconcile. cbn -[named].
      by rewrite named_one. }
    eapply (db_runs help s n c _ _ (Some _)); [exact Hex| |exact Hafter].
    eapply (turn_helped s (planeWorld s n (RDB c))) in Hall; [exact Hall| |apply db_favourableb_spec|done].
    intros c'. cbn. rewrite elem_of_cons, elem_of_databases. split; [|by right].
    intros [->|?]; [by eexists|done].
  - destruct (one_run (GetOVNNorthd n) (reconciler (CROVNNorthd, n))
      (λ _ ev, from_storeb (nd_favourableb i) ev = true) (from_storeb (nd_favourableb i))
      (planeWorld s n (RNorthd i)) i northd_object ltac:(by intros [] j [= ->]) ltac:(done))
      as (Hex & Hall & Hafter); [|exact Hc|].
    { unfold reconciler. cbn [fst snd]. unfold OVNNorthd_Reconcile. rewrite head_reconcile. cbn -[named].
      by rewrite named_one. }
    eapply (northd_runs help s n i _ _ (Some _)); [exact Hex| |exact Hafter].
    eapply (turn_helped s (planeWorld s n (RNorthd i))) in Hall; [exact Hall|done|apply nd_favourableb_spec|done].
  - destruct (one_run (GetOVNController_ n) (reconciler (CROVNController, n))
      (λ _ ev, from_storeb (oc_favourableb i) ev = true) (from_storeb (oc_favourableb i))
      (planeWorld s n (RCtl i)) i oc_object ltac:(by intros [] j [= ->]) ltac:(done))
      as (Hex & Hall & Hafter); [|exact Hc|].
    { unfold reconciler. cbn [fst snd]. unfold OVNController_Reconcile. rewrite head_reconcile. cbn -[named].
      by rewrite named_one. }
    eapply (ctl_runs help s n i _ _ (Some _)); [exact Hex| |exact Hafter].
    eapply (turn_helped s (planeWorld s n (RCtl i))) in Hall; [exact Hall|done|apply oc_favourableb_spec|done].
Qed.

Definition ok (s : Store) (p : CRKind * NamespacedName) : bool :=
  match s !! p with Some r => turn_ok s p r | None => false end.
Fixpoint all_ok (s : Store) (l : list (CRKind * NamespacedName)) : bool :=
  match l with [] => true | p :: l => ok s p && all_ok (next s p) l end.

Lemma all_steps s l : all_ok s l = true → steps help l s (foldl next s l).
Proof.
  revert s. induction l as [|p l IH]; intros s; [constructor|].
  cbn. intros [Hp Hl]%andb_true_iff. apply (steps_cons _ _ _ _ (next s p)); [|by apply IH].
  unfold ok, next in *. destruct (s !! p) as [r|] eqn:Hr; [|done].
  by apply (step_runs _ _ _ r (Some _)), turn_runs.
Qed.

(** ** A control plane *)
Definition newDB (t name : string) : OVNDBCluster :=
  let i := aDBCluster t name 1 "" noTLS in db_set_Meta (om_set_Finalizers [] (db_Meta i)) i.
Definition db (name : string) : CRKind * NamespacedName := (CROVNDBCluster, req name).
Definition northd : CRKind * NamespacedName := (CROVNNorthd, req "northd").
Definition oc : CRKind * NamespacedName := (CROVNController, req "oc").
Definition plane : Store :=
  {[db "nb" := RDB (newDB "NB" "nb"); db "sb" := RDB (newDB "SB" "sb");
    northd := RNorthd newNorthd; oc := RCtl newController]}.

(** An ovn-northd that runs too early, and the databases; then everyone. *)
Definition turns1 := [northd; db "nb"; db "sb"; db "nb"; oc; db "sb"; db "nb"; db "sb"].
Definition turns2 := [oc; northd; db "nb"; oc; northd; db "sb"; db "nb"; oc; db "sb"; northd; db "sb"; db "nb"].

Definition plane1 : Store := foldl next plane turns1.
Definition plane2 : Store := foldl next plane1 turns2.

Lemma plane_lookup p r :
  plane !! p = Some r →
  (p = db "nb" ∧ r = RDB (newDB "NB" "nb")) ∨ (p = db "sb" ∧ r = RDB (newDB "SB" "sb")) ∨
  (p = northd ∧ r = RNorthd newNorthd) ∨ (p = oc ∧ r = RCtl newController).
Proof.
  unfold plane.
  intros [[<- <-]|[_ [[<- <-]|[_ [[<- <-]|[_ [<- <-]%lookup_singleton_Some]]
    %lookup_insert_Some]]%lookup_insert_Some]]%lookup_insert_Some; tauto.
Qed.

Lemma plane_well : map_Forall (λ _, well) plane.
Proof.
  assert (∀ t name, well (RDB (newDB t name))) as Hdb.
  { intros t name. split; [done|]. split; [by intros ? _ [s Hs]|].
    split; [by eexists|]. split; [by split|by eexists]. }
  intros p r [[-> ->]|[[-> ->]|[[-> ->]|[-> ->]]]]%plane_lookup; [apply Hdb..| |].
  - split; [done|]. split; [by intros ? _ [s Hs]|by split; eexists].
  - split; [done|]. split; [by intros ? _ [s Hs]|].
    split; [done|by intros k _ (_ & Hb & _)|by eexists].
Qed.

Lemma plane_complete : complete (role <$> plane).
Proof.
  intros p ns needs t Hp Ht. rewrite lookup_fmap in Hp.
  apply fmap_Some in Hp as (r & Hr & Heq).
  assert (ns = "openstack" ∧ t ∈ [NBDBType; SBDBType]) as [-> Ht'].
  { apply plane_lookup in Hr as [[-> ->]|[[-> ->]|[[-> ->]|[-> ->]]]]; try done;
      injection Heq as -> ->; (split; [done|]); [done|].
    apply list_elem_of_singleton in Ht as ->. right. left. }
  rewrite !elem_of_cons, elem_of_nil in Ht'. destruct Ht' as [->|[->|[]]].
  - by exists (db "nb").
  - by exists (db "sb").
Qed.

(** The resources of a store, decided. *)
Definition readyb (r : Resource) : bool :=
  match r with
  | RDB c => OVNDBCluster_IsReady c
  | RNorthd i => OVNNorthd_IsReady i
  | RCtl i => OVNController_IsReady i
  end.
Lemma in_store (f : CRKind * NamespacedName → Resource → bool) (s : Store) :
  forallb (λ pr, f pr.1 pr.2) (map_to_list s) = true →
  ∀ p r, s !! p = Some r → f p r = true.
Proof.
  intros Hf p r Hr%elem_of_map_to_list%list_elem_of_In. rewrite forallb_forall in Hf.
  exact (Hf (p, r) Hr).
Qed.

Lemma control_plane_converges_witness :
  forallb (λ pr, negb (readyb pr.2)) (map_to_list plane) = true ∧
  steps help turns1 plane plane1 ∧ steps help turns2 plane1 plane2 ∧
  role <$> plane2 = role <$> plane ∧ map_Forall (λ _, ready) plane2.
Proof.
  assert (steps help turns1 plane plane1) as H1 by (apply all_steps; vm_compute; reflexivity).
  assert (steps help turns2 plane1 plane2) as H2 by (apply all_steps; vm_compute; reflexivity).
  split; [vm_compute; reflexivity|]. split; [exact H1|]. split; [exact H2|].
  apply (control_plane_converges someScripts 1 plane plane plane1 plane2 turns1 turns2
    refHash_total refService_total refNetworks_total plane_well plane_complete); [done|exact H1| |exact H2|].
  - intros p c [[-> _]|[[-> _]|[[_ ?]|[_ ?]]]]%plane_lookup; try done; vm_compute; lia.
  - intros p [r Hr]. apply leb_complete.
    revert p r Hr. apply (in_store (λ p _, Nat.leb 3 (turns p turns2))). vm_compute. reflexivity.
Defined.
